(* ===== verification/_CoqProject ===== *)
-Q . S2P
Prelude.v
Core.v
Session.v
Deposits.v
Broadcast.v
Delivery.v
Consensus.v
Fetcher.v
Withdrawal.v
Mechanism.v
Signing.v
Network.v
Utxo.v
UtxoWithdrawal.v
UtxoDeposit.v
Parties.v
Sessions.v
Finalizers.v
Intake.v
Node.v
ChainDeposits.v
SolanaInstructions.v
SolanaContract.v
SolanaEvents.v
Clients.v
Service.v
PartyRun.v
Commands.v
NodeRpc.v
ApiServer.v
ChainLoops.v
UtxoLoop.v
Config.v
Workers.v
OneShot.v
