(* ===== verification/Prelude.v ===== *)
(** * tss-svc: a verification library

    tss-svc is the validator node of a cross-chain bridge.  Users deposit on a source chain
    (EVM, Zano, TON, Solana, Bitcoin and Bitcoin Cash); the nodes read the deposits, agree
    on the data to sign and on the signers, sign with a threshold signature and report the
    withdrawal to bridgeless-core.  This library translates the Go code under [src/] into
    Rocq functions and proves what makes it correct.

    ** How the parts interact

    A deposit enters a node through the gRPC/HTTP API ([SubmitWithdrawal]), through a
    message of another node (the distribution session), through an event of the core
    (the subscriber) or through a proposal of another node for a deposit it does not know.
    In each case the node reads the deposit itself through the client of the source chain
    ([FetchDeposit]) and stores a PENDING row.  Per destination chain a signing session runs
    in a loop: a leader, drawn from a generator seeded by the session identifier, forms the
    data for the oldest PENDING row and sends it by reliable broadcast; every acceptor
    verifies the data against its own row or its own fetch and answers; the leader selects
    T acceptors and announces them, again by reliable broadcast; they sign, the signatures
    are distributed to the others and verified, and the row becomes PROCESSED or FAILED.
    The components of a node meet in the deposits table only.

    ** Files

    - [Prelude]: Go outcomes ([res]: a value, an error or a panic), machine integers,
      strings, decimal numbers, bytes and hex, the tactics ([inv_ok], [case_in],
      [cases_in]), the hint database [tss], and [star].
    - [Core]: addresses, parties and requests ([internal/core/address.go],
      [internal/p2p/party.go]).
    - [Session]: session identifiers and their increment, the leader, start times,
      synchronisation with a running peer ([internal/tss/session]).
    - [Deposits]: the deposits table ([internal/db]).  Module [Pg] has every query on a
      table with its unique constraint, column widths and sequence; [DepositsQ] is the
      interface the other components use, [DepositsSpec] its contract over an abstract
      store, and the instance for [Pg] the refinement.  [same_data] is the equivalence of
      rows up to their progress columns.
    - [Broadcast]: reliable and plain broadcast ([internal/p2p/broadcast]).
    - [Delivery]: a group of honest nodes that broadcast, and what they deliver.
    - [Consensus]: proposer and acceptor ([internal/tss/session/consensus]).
    - [Fetcher]: [FetchDeposit], tokens, amounts and error classes
      ([internal/bridge/deposit], [internal/bridge/chain/types.go], the queries of
      [internal/core/connector]).
    - [Withdrawal]: the signed data of EVM, Solana, TON and Zano withdrawals and their
      validation ([internal/bridge/withdrawal], [internal/bridge/chain/*/withdraw*.go]);
      the classes [Constructor] and [ConstructorSpec] are the interface of the consensus.
    - [Mechanism]: forming and verifying a proposal ([signing/consensus.go]).
    - [Signing]: signature distribution, finalizers and the default signing session
      ([internal/tss/session/signing]).
    - [Network]: one session of all nodes of a group: the consensus, the signing and the
      distribution of the signatures over the messages of the others.
    - [Utxo], [UtxoWithdrawal], [UtxoDeposit]: the helpers for Bitcoin and Bitcoin Cash,
      coin selection and fees, the withdrawal and consolidation transactions, and the
      deposit decoder with its memos ([internal/bridge/chain/utxo], [withdrawal/utxo.go],
      [resharing/utxo], [pkg/encoding]).
    - [Parties]: the message queues of the TSS parties ([internal/tss/signer.go],
      [keygener.go]).
    - [Sessions]: the loops of the sessions, the UTXO session, key generation and
      resharing ([internal/tss/session]).
    - [Finalizers]: the finalizers of all sessions, with the goroutine that [Finalize] starts,
      its channel and the deferred compensation, as a machine ([*/finalizer.go]).
    - [Intake]: the API handlers, the distribution session, the core's submitter and
      subscriber ([internal/api], [distributor], [internal/core]); the database writes of a
      node as a step relation, and its invariants.
    - [Node]: authorization, dispatch and registry of the p2p server, the connection
      manager and the syncer ([internal/p2p]).
    - [ChainDeposits]: reading deposits from EVM, Zano and TON chains.
    - [SolanaInstructions], [SolanaContract]: the bindings of the bridge program on Solana
      (ten instructions with setters, address derivation, validation and coding), the
      decoding of a transaction's instructions and the deposit in it.  [SolanaEvents]: the
      error table, the events and the printing of the same package.
    - [Clients]: the five chain clients, their creation from the configuration, and the
      node that uses them.
    - [Service]: the secrets in the vault, the connector's transactions, the Zano RPC client,
      the health checker and the start of the signing service ([internal/secrets],
      [internal/core/connector], [pkg/zano], [internal/api/health],
      [cmd/service/run/sign.go]).
    - [PartyRun]: the goroutines, channels, wait group and end of a TSS party as a machine,
      under every schedule ([signer.go], [keygener.go]).
    - [Commands]: key generation, signing, resharing and the helpers of the command line, with
      the vault, the files and the console they change ([cmd]).
    - [NodeRpc]: the RPC client of UTXO nodes and wallets, and how the entries of the configuration become chains ([utxo/rpc], [utxo/client],
      [*/chain.go], [chain/config]).
    - [ApiServer]: the gRPC and HTTP servers: context values, interceptors, gateway, routes,
      and the web socket with its goroutines ([internal/api], [cmd/service/run/api.go]).
    - [ChainLoops]: the builder and the loop of the EVM, Solana, TON and Zano sessions, run
      with the node's other components ([signing/*/session.go]).
    - [UtxoLoop]: the loop of the UTXO sessions, whose kind and start times vary
      ([signing/utxo/session.go]).
    - [Config]: the configured parties with their TLS connections, the P2P server made from
      them, and the commands that parse keys ([internal/p2p/config], [cmd/helpers/parse]).
    - [Workers]: the four goroutines beside the sessions (distributor, acceptor, submitter,
      event subscriber), interleaved at their database calls, with restarts.
    - [OneShot]: the sessions of the key generation, signing and resharing commands, the
      interface [TssSession] and the registry of a command.

    ** What the theorems show

    - Safety of signing: a node signs only what it read from a configured chain
      ([Clients.node_signs_chain_deposits], over any interleaving of its components), a
      deposit that is settled when a proposal for it is looked up is never signed again
      ([Intake.settled_never_signed]; the race in which it is settled during the lookup is
      stated in [Mechanism.settled_meanwhile_accepted]), signatures are
      stored only when they verify ([Signing.distribution_sound]).
    - Agreement: nodes that deliver agree on the value ([Broadcast.broadcast_agreement]) and
      on the signers ([Consensus.signing_group_agreement]); the result of either role is
      justified ([Consensus.accept_sound], [Consensus.propose_sound]); leaders agree.  Requests
      reach the session they name, but for the moment between the two steps in which a session
      changes its identifier ([Node.requests_routed]).
    - The signed data determine the withdrawal: injectivity of the preimages, validation of
      Zano and UTXO transactions (the exact change included, [UtxoWithdrawal.utxo_IsValid_sound],
      [UtxoWithdrawal.consolidation_sound]), conservation of the amounts.
    - Liveness between honest nodes: what one node forms another accepts
      ([Mechanism.proposal_accepted], [UtxoWithdrawal.utxo_proposal_accepted],
      [Intake.distributed_deposit_accepted]), the acceptor ends ([Consensus.accept_ends]), a
      broadcast is delivered to a node that reads a long enough chain before another message of
      that sender and round ([Delivery.broadcast_delivered]; an order in which an honest group
      rejects is stated in [Delivery.honest_group_may_reject]), and a session in which the
      messages are so read settles the deposit at every node
      ([Network.honest_session_settles]).
    - The chain clients return what is on the chain, per chain; instructions and memos
      round trip.
    - Lifecycles: on every path of a session the row gets the status the code means to give
      it, and the exceptions are stated.
    - Panics and blocking: the inputs that stop a node are stated where there are any.
    - The service: secrets survive a restart, a deposit that another node submitted is
      settled, the health answer is exact, a synchronising node reports that it signs only
      when its sessions are there ([Service]).
    - Concurrency: the goroutines of a TSS party end under every schedule, with the result of
      the library unless the context was cancelled, refining the end events the sessions are built on ([PartyRun]); those of
      the finalizers refine the timings of the finalization phase
      ([Finalizers.finalizer_refines]); those beside the sessions write what the node may and
      mark a row only after the fact ([Workers.marks_justified]); those of a
      web socket are released ([ApiServer.ws_connection_released]) and write what the
      sequential loop writes; the session loops refine the abstract loop and the node's
      database writes ([ChainLoops.session_loop_runs], [UtxoLoop.utxo_loop_runs]).
    - Composition from the outside in: the configured chains and parties are the clients and
      the authorized peers ([NodeRpc.configured_clients_match],
      [Config.config_authenticates]), both transports of the API have the effect of the
      handlers ([ApiServer.api_transports_agree]), a generated key is the one the service
      signs with ([Commands.keygen_then_sign]), a message of a tss-lib party arrives at the
      party it is for ([OneShot.oneshot_message_delivered]).

    ** Modelling conventions

    A Go function with an error is a function into [res]; a pointer that may be nil is an
    [option]; integers are [Z] with the conversions [int64] and [uint64] written where the
    code converts or may overflow; strings are byte strings.  Maps are [gmap]; where the
    order of a range matters it is an argument that is a permutation.  Loops that wait are
    functions of the sequence of events they read; the result [StillWaiting] says that the
    sequence ended first, so that statements about a returned result are accompanied by
    one that it returns.  Time is not modelled: how many messages a round reads before its
    deadline ([ri_budget]) is an argument, universally quantified in the theorems.  The unique
    constraint and the sequence of the table are PostgreSQL's, taken as given; a query that
    fails for another reason than a constraint or a column's width (a lost connection) is not
    modelled.  There is
    no fuel: every recursion is structural or on a given number of steps (retries, rounds,
    inputs).

    Code outside the repository is a parameter: a class of operations ([EthLib], [TonCells],
    [SolanaGo], [WireLib], [SigLib], [EvmAbi], [BridgeCore], ...) with its documented
    behaviour in a second class ([...Spec]), which the witnesses instantiate.

    ** Not modelled

    Generated code (abigen contracts, protobuf) is used through its data only, but for the
    gateway.  The tss-lib protocols, cryptography, the transports (HTTP, gRPC, TLS), JSON, the
    decoding of configuration files, the RPC clients of EVM, TON and Solana, database
    migrations, flags, logging and metrics are I/O or third-party code.  The phases of one
    session are sequenced by the results they wait for, and the goroutines inside a phase are
    those of [PartyRun] and [Finalizers]; goroutines of different components interleave at
    their database writes, those of a verification being apart ([verifyProposedData_at]).  In
    the loops of [ChainLoops] and [UtxoLoop] the other components write while the loop waits
    between sessions, not during one. *)

From Stdlib Require Export ZArith Lia.
From Stdlib Require Import DecimalString DecimalN DecimalZ DecimalFacts.
From Stdlib Require Export Strings.Byte Strings.Ascii.
From stdpp Require Export base tactics option list gmap sets strings sorting.

#[global] Open Scope Z_scope.
#[global] Set Default Goal Selector "!".

(** ** Go outcomes

    A Go function returning [(T, error)] is a function into [res T]; a run-time
    panic (nil dereference, index out of range, negative capacity, division by
    zero) is the third outcome [Panic]. *)

Inductive sentinel : Type :=
(* internal/bridge/chain/types.go *)
| ErrChainNotSupported | ErrTxPending | ErrTxFailed | ErrTxNotFound
| ErrDepositNotFound | ErrTxNotConfirmed | ErrInvalidReceiverAddress
| ErrInvalidBridgeId | ErrInvalidDepositedAmount | ErrInvalidScriptPubKey
| ErrInvalidTxNonce | ErrFailedUnpackLogs | ErrUnsupportedEvent
| ErrUnsupportedContract | ErrInvalidTransactionData | ErrInvalidTransactionMemo
(* internal/core/errors.go *)
| ErrTokenPairNotFound | ErrTokenInfoNotFound | ErrTransactionAlreadySubmitted
| ErrSourceTokenInfoNotFound | ErrDestinationTokenInfoNotFound | ErrReferralNotFound
(* internal/db/deposits.go *)
| ErrAlreadySubmitted
(* internal/p2p/session_manager.go *)
| ErrSessionNotFound
(* context.Canceled / context.DeadlineExceeded *)
| ErrContextDone.

#[export] Instance sentinel_eq_dec : EqDecision sentinel.
Proof. solve_decision. Defined.

(** [github.com/pkg/errors]: [errors.New], [errors.Wrap] and the sentinels. *)
Inductive error : Type :=
| ESentinel (s : sentinel)
| ENew (msg : string)
| EWrap (cause : error) (msg : string).

#[export] Instance error_eq_dec : EqDecision error.
Proof. solve_decision. Defined.

(** [errors.Is(err, target)] walks the chain of wrapped causes. *)
Fixpoint errors_Is (e : error) (s : sentinel) : bool :=
  match e with
  | ESentinel s' => bool_decide (s' = s)
  | ENew _ => false
  | EWrap c _ => errors_Is c s
  end.

(** [errors.Wrap(nil, msg)] is nil: an absent error stays absent. *)
Definition errors_Wrap (e : option error) (msg : string) : option error :=
  (λ c, EWrap c msg) <$> e.

Inductive res (A : Type) : Type :=
| Ok (a : A)
| Err (e : error)
| Panic.
Arguments Ok {A} a.
Arguments Err {A} e.
Arguments Panic {A}.

#[export] Instance res_eq_dec `{EqDecision A} : EqDecision (res A).
Proof. solve_decision. Defined.

#[export] Instance Ok_inj {A} : Inj (=) (=) (@Ok A).
Proof. by intros x y [= ->]. Qed.

#[export] Instance res_ret : MRet res := @Ok.
#[export] Instance res_bind : MBind res := λ A B f m,
  match m with Ok a => f a | Err e => Err e | Panic => Panic end.
#[export] Instance res_fmap : FMap res := λ A B f m,
  match m with Ok a => Ok (f a) | Err e => Err e | Panic => Panic end.

(** [if err != nil { return errors.Wrap(err, msg) }]. *)
Definition wrap {A} (m : res A) (msg : string) : res A :=
  match m with Err e => Err (EWrap e msg) | _ => m end.

Definition of_option {A} (o : option A) (msg : string) : res A :=
  match o with Some a => Ok a | None => Err (ENew msg) end.

Definition is_panic {A} (m : res A) : bool :=
  match m with Panic => true | _ => false end.

(** [if cond { return errors.New(msg) }] *)
Definition guard (ok : bool) (msg : string) : res unit :=
  if ok then Ok tt else Err (ENew msg).

Lemma bind_Ok {A B} (m : res A) (f : A → res B) b :
  m ≫= f = Ok b ↔ ∃ a, m = Ok a ∧ f a = Ok b.
Proof. destruct m; simpl; naive_solver. Qed.

Lemma bind_Panic {A B} (m : res A) (f : A → res B) :
  m ≫= f = Panic ↔ m = Panic ∨ ∃ a, m = Ok a ∧ f a = Panic.
Proof. destruct m; simpl; naive_solver. Qed.

Lemma wrap_Ok {A} (m : res A) msg a : wrap m msg = Ok a ↔ m = Ok a.
Proof. destruct m; simpl; naive_solver. Qed.

Lemma wrap_Panic {A} (m : res A) msg : wrap m msg = Panic ↔ m = Panic.
Proof. destruct m; simpl; naive_solver. Qed.

Lemma wrap_Err_Is {A} (m : res A) msg e s :
  wrap m msg = Err e → errors_Is e s = true →
  ∃ e', m = Err e' ∧ errors_Is e' s = true.
Proof. destruct m; simpl; naive_solver. Qed.

Lemma of_option_Ok {A} (o : option A) msg a : of_option o msg = Ok a ↔ o = Some a.
Proof. destruct o; simpl; naive_solver. Qed.

Lemma guard_Ok b msg u : guard b msg = Ok u ↔ b = true.
Proof. destruct b, u; simpl; naive_solver. Qed.

(** Destructs every [bind], [wrap], [guard] and [of_option] of a successful run. *)
Ltac inv_ok :=
  repeat match goal with
  | H : Ok _ = Ok _ |- _ => injection H as H
  | H : Err _ = Ok _ |- _ => discriminate H
  | H : Panic = Ok _ |- _ => discriminate H
  | H : mbind _ _ = Ok _ |- _ => apply bind_Ok in H; destruct H as (? & ? & H)
  | H : mret _ = Ok _ |- _ => injection H as H
  | H : wrap _ _ = Ok _ |- _ => apply wrap_Ok in H
  | H : guard _ _ = Ok _ |- _ => apply guard_Ok in H
  | H : of_option _ _ = Ok _ |- _ => apply of_option_Ok in H
  | H : (_, _) = (_, _) |- _ => injection H as H
  | H : _ ∧ _ |- _ => destruct H
  end; simplify_eq.

(** Case analysis on the scrutinee of the first [match] of hypothesis [H]. *)
Ltac case_in H :=
  match type of H with
  | context [match ?x with _ => _ end] =>
      lazymatch x with
      | context [match _ with _ => _ end] => fail
      | _ => destruct x eqn:?
      end
  end.

Tactic Notation "cases_in" hyp(H) := repeat (case_in H; simpl in H; try discriminate H).

(** ** Machine integers *)

Definition max_int64 : Z := 2 ^ 63 - 1.
Definition min_int64 : Z := - 2 ^ 63.
Definition max_uint64 : Z := 2 ^ 64 - 1.

(** Conversion of an exact integer to [int64] / [uint64] / [int] (64-bit targets). *)
Definition int64 (z : Z) : Z := (z + 2 ^ 63) mod 2 ^ 64 - 2 ^ 63.
Definition uint64 (z : Z) : Z := z mod 2 ^ 64.

Definition in_int64 (z : Z) : Prop := min_int64 ≤ z ≤ max_int64.
Definition in_uint64 (z : Z) : Prop := 0 ≤ z ≤ max_uint64.

#[export] Instance in_int64_dec z : Decision (in_int64 z).
Proof. unfold in_int64. apply _. Defined.
#[export] Instance in_uint64_dec z : Decision (in_uint64 z).
Proof. unfold in_uint64. apply _. Defined.

Lemma int64_id z : in_int64 z → int64 z = z.
Proof.
  unfold in_int64, min_int64, max_int64, int64. intros H.
  rewrite Z.mod_small by lia. lia.
Qed.

Lemma int64_range z : in_int64 (int64 z).
Proof.
  unfold in_int64, min_int64, max_int64, int64.
  pose proof (Z.mod_pos_bound (z + 2 ^ 63) (2 ^ 64)). lia.
Qed.

Lemma int64_succ_ne z : z ≠ int64 (z + 1).
Proof.
  unfold int64. pose proof (Z.div_mod (z + 1 + 2 ^ 63) (2 ^ 64)). lia.
Qed.

Lemma uint64_id z : in_uint64 z → uint64 z = z.
Proof. unfold in_uint64, max_uint64, uint64. intros H. apply Z.mod_small. lia. Qed.

Lemma uint64_range z : in_uint64 (uint64 z).
Proof.
  unfold in_uint64, max_uint64, uint64.
  pose proof (Z.mod_pos_bound z (2 ^ 64)). lia.
Qed.

Lemma int64_add_wrap : int64 (max_int64 + 1) = min_int64.
Proof. reflexivity. Qed.

(** ** Strings

    Go strings are byte sequences; [string] is [String.string], a sequence of
    8-bit characters. *)

Fixpoint str_elem (c : ascii) (s : string) : bool :=
  match s with
  | EmptyString => false
  | String a s' => (a =? c)%char || str_elem c s'
  end.

(** [strings.Split(s, sep)] for a one-byte separator. *)
Fixpoint split_on (c : ascii) (s : string) : list string :=
  match s with
  | EmptyString => [EmptyString]
  | String a s' =>
      if (a =? c)%char then EmptyString :: split_on c s'
      else match split_on c s' with
           | h :: t => String a h :: t
           | [] => [String a EmptyString]
           end
  end.

(** [strings.Join(parts, sep)] for a one-byte separator. *)
Fixpoint join_with (c : ascii) (parts : list string) : string :=
  match parts with
  | [] => EmptyString
  | [p] => p
  | p :: rest => (p +:+ String c (join_with c rest))%string
  end.

Lemma split_on_nonempty c s : split_on c s ≠ [].
Proof. destruct s; simpl; [done|]. destruct (_ =? _)%char; [done|]. by destruct (split_on c s). Qed.

Lemma split_on_none c s : str_elem c s = false → split_on c s = [s].
Proof.
  induction s as [|a s IH]; simpl; [done|].
  intros [-> H]%orb_false_iff. by rewrite IH.
Qed.

Lemma split_on_app c p s :
  str_elem c p = false → split_on c (p +:+ String c s)%string = p :: split_on c s.
Proof.
  induction p as [|a p IH]; simpl.
  - intros _. by rewrite Ascii.eqb_refl.
  - intros [-> H]%orb_false_iff. by rewrite IH.
Qed.

Lemma join_split c s : join_with c (split_on c s) = s.
Proof.
  induction s as [|a s IH]; [done|]. cbn [split_on].
  pose proof (split_on_nonempty c s).
  destruct (a =? c)%char eqn:E.
  - apply Ascii.eqb_eq in E as ->. destruct (split_on c s) eqn:E; [done|].
    simpl in *. by rewrite IH.
  - destruct (split_on c s) as [|h t]; [done|]. destruct t; simpl in *; by rewrite <- IH.
Qed.

Lemma str_elem_app c s t :
  str_elem c (s +:+ t)%string = str_elem c s || str_elem c t.
Proof. induction s as [|a s IH]; simpl; [done|]. by rewrite IH, orb_assoc. Qed.

(** [strings.HasPrefix] *)
Fixpoint has_prefix (p s : string) : bool :=
  match p, s with
  | EmptyString, _ => true
  | String a p', String b s' => (a =? b)%char && has_prefix p' s'
  | String _ _, EmptyString => false
  end.

(** [strings.TrimPrefix] *)
Fixpoint drop_str (n : nat) (s : string) : string :=
  match n, s with
  | S n', String _ s' => drop_str n' s'
  | _, _ => s
  end.
Definition trim_prefix (s p : string) : string :=
  if has_prefix p s then drop_str (String.length p) s else s.

Lemma has_prefix_app p s : has_prefix p (p +:+ s)%string = true.
Proof. induction p; simpl; [by destruct s|]. by rewrite Ascii.eqb_refl. Qed.

Lemma trim_prefix_app p s : trim_prefix (p +:+ s)%string p = s.
Proof.
  unfold trim_prefix. rewrite has_prefix_app.
  induction p; simpl; by destruct s.
Qed.

(** [strings.ToLower] on ASCII. *)
Definition ascii_lower (a : ascii) : ascii :=
  let n := N_of_ascii a in
  if (65 <=? n)%N && (n <=? 90)%N then ascii_of_N (n + 32) else a.
Fixpoint to_lower (s : string) : string :=
  match s with
  | EmptyString => EmptyString
  | String a s' => String (ascii_lower a) (to_lower s')
  end.

(** ** Decimal numbers: [fmt.Sprintf("%d")], [big.Int.String],
    [big.Int.SetString(s, 10)], [strconv.ParseInt(s, 10, 64)] *)

Definition print_Z (z : Z) : string := NilZero.string_of_int (Z.to_int z).

Definition parse_N (s : string) : option N := N.of_uint <$> NilZero.uint_of_string s.

(** [new(big.Int).SetString(s, 10)]: an optional sign and at least one digit. *)
Definition parse_Z (s : string) : option Z :=
  match s with
  | String "-" s' => (λ n, - Z.of_N n) <$> parse_N s'
  | String "+" s' => Z.of_N <$> parse_N s'
  | _ => Z.of_N <$> parse_N s
  end.

(** [strconv.ParseInt(s, 10, 64)]: a range error on values out of [int64]. *)
Definition ParseInt (s : string) : option Z :=
  z ← parse_Z s; if decide (in_int64 z) then Some z else None.

(** [strconv.ParseUint(s, 10, 64)] takes no sign. *)
Definition ParseUint (s : string) : option Z :=
  n ← parse_N s; if decide (in_uint64 (Z.of_N n)) then Some (Z.of_N n) else None.

Lemma string_of_uint_parse d :
  parse_N (NilZero.string_of_uint d) = Some (N.of_uint d).
Proof.
  unfold parse_N. destruct d; [done|..]; by rewrite NilZero.usu.
Qed.

(** A printed natural number starts with a digit, never with a sign. *)
Lemma string_of_uint_head d a s :
  NilZero.string_of_uint d = String a s → a ≠ "-"%char ∧ a ≠ "+"%char.
Proof. destruct d; simpl; intros [= <- _]; done. Qed.

Lemma string_of_uint_no c d :
  c ∉ [ "0"; "1"; "2"; "3"; "4"; "5"; "6"; "7"; "8"; "9" ]%char →
  str_elem c (NilZero.string_of_uint d) = false.
Proof.
  intros Hc.
  assert (Hd : ∀ a, a ∈ [ "0"; "1"; "2"; "3"; "4"; "5"; "6"; "7"; "8"; "9" ]%char →
                    (a =? c)%char = false).
  { intros a Ha. apply Ascii.eqb_neq. by intros ->. }
  assert (H : ∀ u, str_elem c (NilEmpty.string_of_uint u) = false).
  { induction u as [|u IH|u IH|u IH|u IH|u IH|u IH|u IH|u IH|u IH|u IH];
      cbn [NilEmpty.string_of_uint str_elem]; [done|..];
      rewrite IH, Hd by set_solver; done. }
  unfold NilZero.string_of_uint. destruct d; try apply H.
  cbn [str_elem]. rewrite Hd by set_solver. done.
Qed.

(** Printing then parsing is the identity on every integer. *)
Lemma parse_print_Z z : parse_Z (print_Z z) = Some z.
Proof.
  assert (Hu : ∀ u, parse_Z (NilZero.string_of_uint u) = Some (Z.of_N (N.of_uint u))).
  { intros u. pose proof (string_of_uint_parse u) as Hp.
    destruct (NilZero.string_of_uint u) as [|a s] eqn:E; [done|].
    apply string_of_uint_head in E as [E1 E2]. unfold parse_Z.
    repeat (case_match; simplify_eq; try (by rewrite Hp)). }
  pose proof (DecimalZ.of_to z) as Hz. unfold print_Z.
  destruct (Z.to_int z) as [u|u]; simpl.
  - rewrite Hu. f_equal. rewrite <- Hz. reflexivity.
  - rewrite string_of_uint_parse. simpl. f_equal. rewrite <- Hz. simpl.
    unfold Z.of_uint. reflexivity.
Qed.

Lemma print_Z_inj z1 z2 : print_Z z1 = print_Z z2 → z1 = z2.
Proof. intros H. apply (f_equal parse_Z) in H. rewrite !parse_print_Z in H. by simplify_eq. Qed.

Lemma print_Z_no c z :
  c ∉ [ "-"; "0"; "1"; "2"; "3"; "4"; "5"; "6"; "7"; "8"; "9" ]%char →
  str_elem c (print_Z z) = false.
Proof.
  intros Hc. unfold print_Z.
  destruct (Z.to_int z) as [u|u]; cbn [NilZero.string_of_int str_elem].
  - apply string_of_uint_no. set_solver.
  - rewrite string_of_uint_no by set_solver. rewrite orb_false_r.
    apply Ascii.eqb_neq. set_solver.
Qed.

Lemma ParseInt_print z : in_int64 z → ParseInt (print_Z z) = Some z.
Proof. intros H. unfold ParseInt. rewrite parse_print_Z. simpl. by rewrite decide_True. Qed.

Lemma ParseInt_range s z : ParseInt s = Some z → in_int64 z.
Proof. unfold ParseInt. intros (z' & _ & H)%bind_Some. by case_decide; simplify_eq. Qed.

(** [strconv.ParseUint] accepts no more than [big.Int.SetString]. *)
Lemma ParseUint_parse_Z str z : ParseUint str = Some z → parse_Z str = Some z ∧ in_uint64 z.
Proof.
  unfold ParseUint. destruct (parse_N str) as [n|] eqn:Hn; [|done]. simpl. case_decide as Hu; [|done].
  intros [= <-]. split; [|done].
  destruct str as [|a str]; [done|].
  assert (a ≠ "-"%char ∧ a ≠ "+"%char) as [Hm Hpl].
  { unfold parse_N in Hn. cbn in Hn. split; intros ->; by destruct (NilEmpty.uint_of_string str). }
  unfold parse_Z. rewrite Hn.
  destruct a as [[] [] [] [] [] [] [] []]; done.
Qed.

(** ** Bytes *)

Notation byte := Byte.byte.
Notation bytes := (list Byte.byte).

#[export] Instance byte_eq_dec : EqDecision byte := Byte.byte_eq_dec.

Definition byte_Z (b : byte) : Z := Z.of_N (Byte.to_N b).
Definition Z_byte (z : Z) : byte := default Byte.x00 (Byte.of_N (Z.to_N (z mod 256))).

(** [[]byte(s)] and [string(bs)]. *)
Definition bytes_of_string (s : string) : bytes := String.list_byte_of_string s.
Definition string_of_bytes (bs : bytes) : string := String.string_of_list_byte bs.

Lemma length_bytes_of_string s : length (bytes_of_string s) = String.length s.
Proof.
  unfold bytes_of_string, String.list_byte_of_string. rewrite length_map.
  induction s; simpl; by f_equal.
Qed.

Lemma byte_Z_range b : 0 ≤ byte_Z b < 256.
Proof.
  unfold byte_Z. pose proof (Byte.to_N_bounded b). lia.
Qed.

Lemma Z_byte_Z b : Z_byte (byte_Z b) = b.
Proof.
  unfold Z_byte. rewrite Z.mod_small by apply byte_Z_range.
  unfold byte_Z. rewrite N2Z.id, Byte.of_to_N. done.
Qed.

Lemma byte_Z_byte z : byte_Z (Z_byte z) = z mod 256.
Proof.
  unfold Z_byte, byte_Z. pose proof (Z.mod_pos_bound z 256 ltac:(lia)).
  destruct (Byte.of_N (Z.to_N (z mod 256))) as [b|] eqn:E.
  - simpl. apply Byte.to_of_N in E. rewrite E. lia.
  - apply Byte.of_N_None_iff in E. lia.
Qed.

(** Big-endian value of a byte string: [new(big.Int).SetBytes]. *)
Definition be_Z (bs : bytes) : Z := foldl (λ acc b, acc * 256 + byte_Z b) 0 bs.

(** [n] big-endian bytes of [z]. *)
Fixpoint be_bytes (n : nat) (z : Z) : bytes :=
  match n with
  | O => []
  | S n' => be_bytes n' (z / 256) ++ [Z_byte z]
  end.

(** [n] little-endian bytes of [z]: [binary.LittleEndian.PutUint64] at [n = 8]. *)
Fixpoint le_bytes (n : nat) (z : Z) : bytes :=
  match n with
  | O => []
  | S n' => Z_byte z :: le_bytes n' (z / 256)
  end.

Lemma length_be_bytes n z : length (be_bytes n z) = n.
Proof. revert z. induction n; intros z; simpl; [done|]. rewrite length_app, IHn. simpl. lia. Qed.

Lemma length_le_bytes n z : length (le_bytes n z) = n.
Proof. revert z. induction n; intros z; simpl; [done|]. by rewrite IHn. Qed.

Lemma be_Z_snoc bs b : be_Z (bs ++ [b]) = be_Z bs * 256 + byte_Z b.
Proof. unfold be_Z. by rewrite foldl_app. Qed.

Lemma be_Z_be_bytes n z : be_Z (be_bytes n z) = z mod 256 ^ Z.of_nat n.
Proof.
  revert z. induction n as [|n IH]; intros z.
  - cbn [be_bytes]. by rewrite Z.mod_1_r.
  - cbn [be_bytes]. rewrite be_Z_snoc, IH, byte_Z_byte.
    rewrite Nat2Z.inj_succ, Z.pow_succ_r by lia.
    rewrite (Z.rem_mul_r z 256) by lia. lia.
Qed.

Lemma be_bytes_inj n z1 z2 :
  0 ≤ z1 < 256 ^ Z.of_nat n → 0 ≤ z2 < 256 ^ Z.of_nat n →
  be_bytes n z1 = be_bytes n z2 → z1 = z2.
Proof.
  intros H1 H2 H. apply (f_equal be_Z) in H. rewrite !be_Z_be_bytes in H.
  by rewrite !Z.mod_small in H.
Qed.

(** Little-endian value of a byte string: [binary.LittleEndian.Uint64]. *)
Fixpoint le_Z (bs : bytes) : Z :=
  match bs with
  | [] => 0
  | b :: bs' => byte_Z b + 256 * le_Z bs'
  end.

Lemma le_Z_le_bytes n z : le_Z (le_bytes n z) = z mod 256 ^ Z.of_nat n.
Proof.
  revert z. induction n as [|n IH]; intros z.
  - cbn [le_bytes le_Z]. by rewrite Z.mod_1_r.
  - cbn [le_bytes le_Z]. rewrite IH, byte_Z_byte.
    rewrite Nat2Z.inj_succ, Z.pow_succ_r by lia.
    by rewrite (Z.rem_mul_r z 256) by lia.
Qed.

Lemma le_bytes_inj n z1 z2 :
  0 ≤ z1 < 256 ^ Z.of_nat n → 0 ≤ z2 < 256 ^ Z.of_nat n →
  le_bytes n z1 = le_bytes n z2 → z1 = z2.
Proof.
  intros H1 H2 H. apply (f_equal le_Z) in H. rewrite !le_Z_le_bytes in H.
  by rewrite !Z.mod_small in H.
Qed.

(** ** encoding/hex *)

Definition hex_value (c : ascii) : option Z :=
  let n := Z.of_N (N_of_ascii c) in
  if (48 <=? n) && (n <=? 57) then Some (n - 48)
  else if (97 <=? n) && (n <=? 102) then Some (n - 87)
  else if (65 <=? n) && (n <=? 70) then Some (n - 55)
  else None.

Fixpoint hex_DecodeString (s : string) : option bytes :=
  match s with
  | EmptyString => Some []
  | String a (String b rest) =>
      h ← hex_value a; l ← hex_value b; bs ← hex_DecodeString rest;
      Some (Z_byte (16 * h + l) :: bs)
  | String _ EmptyString => None
  end.

Definition hex_char (z : Z) : ascii := ascii_of_N (Z.to_N (if z <? 10 then 48 + z else 87 + z)).

Fixpoint hex_EncodeToString (bs : bytes) : string :=
  match bs with
  | [] => EmptyString
  | b :: rest =>
      String (hex_char (byte_Z b / 16))
        (String (hex_char (byte_Z b mod 16)) (hex_EncodeToString rest))
  end.

Lemma hex_value_char z : 0 ≤ z < 16 → hex_value (hex_char z) = Some z.
Proof.
  intros Hz. assert (z ∈ seqZ 0 16) as Hin by (apply elem_of_seqZ; lia).
  clear Hz. revert z Hin. apply Forall_forall. repeat constructor.
Qed.

Lemma hex_roundtrip bs : hex_DecodeString (hex_EncodeToString bs) = Some bs.
Proof.
  induction bs as [|b bs IH]; [done|]. cbn [hex_EncodeToString hex_DecodeString].
  pose proof (byte_Z_range b).
  rewrite !hex_value_char by (split; [apply Z.div_pos || apply Z.mod_pos_bound|
    apply Z.div_lt_upper_bound || apply Z.mod_pos_bound]; lia).
  simpl. rewrite IH. simpl. by rewrite <- Z.div_mod, Z_byte_Z by lia.
Qed.

(** ** Lists *)

Lemma app_inj_length {A} (l1 l2 k1 k2 : list A) :
  length l1 = length l2 → l1 ++ k1 = l2 ++ k2 → l1 = l2 ∧ k1 = k2.
Proof. intros. by apply app_inj_1. Qed.

Lemma Forall2_elem_of_r {A B} (R : A → B → Prop) l k y :
  Forall2 R l k → y ∈ k → ∃ x, x ∈ l ∧ R x y.
Proof.
  induction 1 as [|x y' l k HR _ IH]; [by intros ?%elem_of_nil|].
  intros [->|Hy]%elem_of_cons; [set_solver|]. destruct (IH Hy). set_solver.
Qed.

(** The development's hint database. *)
Create HintDb tss discriminated.
Create HintDb tss_len.
#[export] Hint Resolve int64_range uint64_range byte_Z_range ParseInt_range : tss.
#[export] Hint Rewrite @length_be_bytes @length_le_bytes @length_app @length_fmap
  @length_rev @length_take @length_drop : tss_len.

(** ** Runs of a step relation *)

Inductive star {A} (R : A → A → Prop) : A → A → Prop :=
| star_refl a : star R a a
| star_step a b c : R a b → star R b c → star R a c.

Lemma star_invariant {A} (R : A → A → Prop) (I : A → Prop) :
  (∀ a b, I a → R a b → I b) → ∀ a b, star R a b → I a → I b.
Proof. intros H a b Hs. induction Hs; eauto. Qed.

Lemma star_trans {A} (R : A → A → Prop) a b c : star R a b → star R b c → star R a c.
Proof. induction 1; eauto using @star. Qed.
