(* ===== verification/Core.v ===== *)
(** * Addresses, parties and peer messages

    Models [internal/core/address.go], [internal/core/account.go] (the address
    and the key), [internal/p2p/party.go] and the request types of the p2p
    protocol.  Bech32 (cosmos-sdk) and [tss.SortPartyIDs] (tss-lib) are not part
    of the repository: they are the classes [Bech32] and [TssSort]. *)

From S2P Require Import Prelude.
#[local] Open Scope Z_scope.

(** [core.Address] is a Go string. *)
Notation Address := string (only parsing).

(** [bech32.DecodeAndConvert]: the payload bytes, or an error. *)
Class Bech32 := bech32_decode : string → option bytes.

Module Addr.
Section addr.
Context `{Bech32}.

Definition Validate (a : Address) : option error :=
  match bech32_decode a with
  | Some _ => None
  | None => Some (ENew "failed to decode address")
  end.

Definition FromString (s : string) : res Address :=
  match Validate s with
  | None => Ok s
  | Some _ => Err (ENew "invalid address")
  end.

(** [Address.Bytes] panics on an address that does not decode. *)
Definition Bytes (a : Address) : res bytes :=
  match bech32_decode a with
  | Some bs => Ok bs
  | None => Panic
  end.

Definition PartyKey (a : Address) : res Z := be_Z <$> Bytes a.

Lemma FromString_Ok s a : FromString s = Ok a ↔ a = s ∧ is_Some (bech32_decode s).
Proof.
  unfold FromString, Validate.
  destruct (bech32_decode s); simpl; split; naive_solver.
Qed.

Lemma FromString_no_panic s : FromString s ≠ Panic.
Proof. unfold FromString. by destruct (Validate s). Qed.

End addr.
End Addr.

(** [tss.PartyID]: id, moniker and key; the code only sets the three from an
    address. *)
Record PartyID := { pid_id : string; pid_moniker : string; pid_key : Z }.

#[export] Instance PartyID_eq_dec : EqDecision PartyID.
Proof. solve_decision. Defined.

Definition PartyIdentifier `{Bech32} (a : Address) : res PartyID :=
  k ← Addr.PartyKey a; Ok {| pid_id := a; pid_moniker := a; pid_key := k |}.

Definition AddrFromPartyId (id : PartyID) : Address := pid_moniker id.

Lemma PartyIdentifier_moniker `{Bech32} a id :
  PartyIdentifier a = Ok id → AddrFromPartyId id = a.
Proof. unfold PartyIdentifier. intros Hid. inv_ok. done. Qed.

Lemma PartyIdentifier_key `{Bech32} a id :
  PartyIdentifier a = Ok id → Addr.PartyKey a = Ok (pid_key id).
Proof. unfold PartyIdentifier. intros Hid. inv_ok. done. Qed.

(** [core.Account]: the private key is only used through [Sign]. *)
Record Account (PrivKey : Type) := { prv : PrivKey; CosmosAddress : Address }.
Arguments prv {_} _.
Arguments CosmosAddress {_} _.

(** [p2p.Party]; the grpc connection and the certificate are not modelled. *)
Record Party := { CoreAddress : Address; identifier : PartyID }.

#[export] Instance Party_eq_dec : EqDecision Party.
Proof. solve_decision. Defined.

Definition NewParty `{Bech32} (coreAddr : Address) : res Party :=
  id ← PartyIdentifier coreAddr; Ok {| CoreAddress := coreAddr; identifier := id |}.

(** A [map[core.Address]p2p.Party] filled by a loop over a slice. *)
Definition partiesByAddress (parties : list Party) : gmap Address Party :=
  foldl (λ m p, <[CoreAddress p := p]> m) ∅ parties.

Lemma partiesByAddress_dom_aux parties (m : gmap Address Party) :
  dom (foldl (λ m p, <[CoreAddress p := p]> m) m parties)
  = dom m ∪ list_to_set (CoreAddress <$> parties).
Proof.
  revert m. induction parties as [|p ps IH]; intros m; simpl; [set_solver|].
  rewrite IH, dom_insert_L. set_solver.
Qed.

Lemma partiesByAddress_dom parties :
  dom (partiesByAddress parties) = list_to_set (CoreAddress <$> parties).
Proof. unfold partiesByAddress. rewrite partiesByAddress_dom_aux. set_solver. Qed.

Lemma partiesByAddress_lookup_aux parties (m : gmap Address Party) a p :
  (∀ p', m !! a = Some p' → CoreAddress p' = a) →
  foldl (λ m p, <[CoreAddress p := p]> m) m parties !! a = Some p →
  CoreAddress p = a.
Proof.
  revert m. induction parties as [|q qs IH]; intros m Hm; simpl; [by apply Hm|].
  apply IH. intros p'. rewrite lookup_insert. case_decide; [naive_solver|apply Hm].
Qed.

Lemma partiesByAddress_lookup parties a p :
  partiesByAddress parties !! a = Some p → CoreAddress p = a.
Proof. apply partiesByAddress_lookup_aux. intros p'. by rewrite lookup_empty. Qed.

Lemma partiesByAddress_is_Some parties a :
  is_Some (partiesByAddress parties !! a) ↔ a ∈ CoreAddress <$> parties.
Proof. rewrite <- elem_of_dom, partiesByAddress_dom. apply elem_of_list_to_set. Qed.

(** ** Peer messages (proto/p2p) *)

Inductive RequestType :=
| RT_KEYGEN | RT_PROPOSAL | RT_ACCEPTANCE | RT_SIGN_START | RT_SIGN
| RT_SIGNATURE_DISTRIBUTION | RT_DEPOSIT_DISTRIBUTION | RT_OTHER.

#[export] Instance RequestType_eq_dec : EqDecision RequestType.
Proof. solve_decision. Defined.

(** [types.DepositIdentifier] of the protocol buffers. *)
Record MsgDepositIdentifier := {
  md_TxHash : string; md_TxNonce : Z; md_ChainId : string }.

#[export] Instance MsgDepositIdentifier_eq_dec : EqDecision MsgDepositIdentifier.
Proof. solve_decision. Defined.

(** [anypb.Any]: the payload is unmarshalled by its type URL, so [UnmarshalTo]
    succeeds exactly on a payload of the requested message type. *)
Inductive AnyData :=
| AnyReliableBroadcastData (roundMsg : bytes)
| AnyAcceptanceData (accepted : bool)
| AnyTssData (data : bytes) (isBroadcast : bool)
| AnyDepositDistributionData (id : option MsgDepositIdentifier)
| AnyOther.

#[export] Instance AnyData_eq_dec : EqDecision AnyData.
Proof. solve_decision. Defined.

Record SubmitRequest := {
  rq_Sender : string;
  rq_SessionId : string;
  rq_Type : RequestType;
  rq_Data : option AnyData }.

Definition UnmarshalReliable (d : option AnyData) : option bytes :=
  match d with Some (AnyReliableBroadcastData r) => Some r | _ => None end.
Definition UnmarshalAcceptance (d : option AnyData) : option bool :=
  match d with Some (AnyAcceptanceData a) => Some a | _ => None end.
Definition UnmarshalTss (d : option AnyData) : option (bytes * bool) :=
  match d with Some (AnyTssData r b) => Some (r, b) | _ => None end.
Definition UnmarshalDeposit (d : option AnyData) : option (option MsgDepositIdentifier) :=
  match d with Some (AnyDepositDistributionData i) => Some i | _ => None end.

(** [tss.SortPartyIDs] (tss-lib): documented to order the ids by key. *)
Class TssSort := SortPartyIDs : list PartyID → list PartyID.

Definition key_le (a b : PartyID) : Prop := pid_key a ≤ pid_key b.

#[export] Instance key_le_dec a b : Decision (key_le a b).
Proof. unfold key_le. apply _. Defined.

Class TssSortSpec `{TssSort} : Prop := {
  SortPartyIDs_perm ids : SortPartyIDs ids ≡ₚ ids;
  SortPartyIDs_sorted ids : StronglySorted key_le (SortPartyIDs ids) }.

(** Two orderings of the same ids with pairwise distinct keys are equal. *)
Lemma sorted_perm_unique (l k : list PartyID) :
  NoDup (pid_key <$> l) → l ≡ₚ k →
  StronglySorted key_le l → StronglySorted key_le k → l = k.
Proof.
  revert k. induction l as [|a l IH]; intros k Hnd Hp Hl Hk.
  { symmetry in Hp. apply Permutation_nil_r in Hp. done. }
  destruct k as [|b k]; [by apply Permutation_nil_r in Hp|].
  apply StronglySorted_inv in Hl as [Hl Ha]. apply StronglySorted_inv in Hk as [Hk Hb].
  assert (a = b) as <-.
  { assert (a ∈ b :: k) as [->|Hin]%elem_of_cons by (rewrite <- Hp; set_solver); [done|].
    assert (b ∈ a :: l) as [->|Hin']%elem_of_cons by (rewrite Hp; set_solver); [done|].
    pose proof (proj1 (Forall_forall _ _) Ha _ Hin') as H1.
    pose proof (proj1 (Forall_forall _ _) Hb _ Hin) as H2.
    simpl in Hnd. apply NoDup_cons in Hnd as [Hnd _]. exfalso. apply Hnd.
    apply list_elem_of_fmap. exists b. split; [|done]. unfold key_le in *. lia. }
  f_equal. simpl in Hnd. apply NoDup_cons in Hnd as [_ Hnd].
  apply IH; try done. by apply Permutation_cons_inv in Hp.
Qed.

(** A concrete ordering that meets the documented behaviour. *)
Definition sample_SortPartyIDs : TssSort := merge_sort key_le.

Lemma sample_SortPartyIDs_spec : @TssSortSpec sample_SortPartyIDs.
Proof.
  assert (Total key_le) by (intros a b; unfold key_le; lia).
  assert (Transitive key_le) by (intros a b c; unfold key_le; lia).
  split; intros ids.
  - apply merge_sort_Permutation.
  - by apply StronglySorted_merge_sort.
Qed.

(** A concrete address decoding: the payload is the text itself. *)
Definition sample_bech32 : Bech32 := λ s, Some (bytes_of_string s).
