(* ===== verification/Session.v ===== *)
(** * Session identifiers, time bounds and the session leader

    Models [internal/tss/session/common.go], [boundaries.go], [leader.go],
    [tss.MaxMaliciousParties] and the time arithmetic of the UTXO session
    ([getSigningPhaseDelay], [updateNextSessionStartTime]).  A [time.Time]
    is a count of nanoseconds since the epoch, a [time.Duration] an [int64]
    nanosecond count. *)

From S2P Require Import Prelude Core.
#[local] Open Scope Z_scope.

(** ** boundaries.go *)

Definition Millisecond : Z := 1000000.
Definition Second : Z := 1000 * Millisecond.
Definition Minute : Z := 60 * Second.

Definition BoundaryKeygenSession : Z := Minute.
Definition BoundaryProposalAcceptance : Z := 5 * Second.
Definition BoundaryConsensus : Z := BoundaryProposalAcceptance + 10 * Second.
Definition BoundarySign : Z := 13 * Second.
Definition BoundarySignatureDistribution : Z := 5 * Second.
Definition BoundaryFinalize : Z := 7 * Second.
Definition BoundarySigningSession : Z :=
  BoundaryConsensus + BoundarySign + BoundarySignatureDistribution + BoundaryFinalize.
Definition BoundaryBitcoinSignRoundDelay : Z := 500 * Millisecond.

(** ** common.go *)

Definition KeygenSessionPrefix : string := "KEYGEN".
Definition SignSessionPrefix : string := "SIGN".
Definition ReshareSessionPrefix : string := "RESHARE".

Definition underscore : ascii := "_"%char.

Record Params := { ps_Id : Z; ps_StartTime : Z; ps_Threshold : Z }.
Record SigningParams := { sp_Params : Params; sp_ChainId : string }.

(** [p2p.SigningSessionInfo] *)
Record SigningSessionInfo := {
  si_Id : Z; si_NextSessionStartTime : Z; si_Threshold : Z; si_ChainId : string }.

Definition ParamsFromSigningSessionInfo (info : SigningSessionInfo) : SigningParams :=
  {| sp_Params :=
       {| ps_Id := int64 (si_Id info + 1);
          ps_StartTime := si_NextSessionStartTime info * Millisecond;
          ps_Threshold := si_Threshold info |};
     sp_ChainId := si_ChainId info |}.

(** [strings.Split(sessionIdentifier, "_")[2]] panics on fewer than three parts;
    a third part that is not an [int64] yields 0. *)
Definition GetSessionId (sessionIdentifier : string) : res Z :=
  match split_on underscore sessionIdentifier !! 2%nat with
  | None => Panic
  | Some str => Ok (default 0 (ParseInt str))
  end.

(** [time.UnixMilli] of a nanosecond count rounds towards minus infinity. *)
Definition ToSigningSessionInfo (signingSessionId : string)
    (nextSessionStartTime : option Z) (threshold : Z) (chainId : string)
    : res SigningSessionInfo :=
  id ← GetSessionId signingSessionId;
  Ok {| si_Id := id;
        si_NextSessionStartTime :=
          match nextSessionStartTime with
          | Some t => t / Millisecond
          | None => 0
          end;
        si_Threshold := threshold;
        si_ChainId := chainId |}.

Definition GetKeygenSessionIdentifier (sessionId : Z) : string :=
  (KeygenSessionPrefix +:+ String underscore (print_Z sessionId))%string.
Definition GetReshareSessionIdentifier (sessionId : Z) : string :=
  (ReshareSessionPrefix +:+ String underscore (print_Z sessionId))%string.
Definition GetDefaultSigningSessionIdentifier (sessionId : Z) : string :=
  (SignSessionPrefix +:+ String underscore (print_Z sessionId))%string.
Definition GetConcreteSigningSessionIdentifier (chainId : string) (sessionId : Z) : string :=
  (SignSessionPrefix +:+ String underscore
     (chainId +:+ String underscore (print_Z sessionId)))%string.

(** The identifier is returned unchanged unless it has exactly three parts and a
    numeric third part; [val+1] is [int64] arithmetic. *)
Definition IncrementSessionIdentifier (id : string) : string :=
  match split_on underscore id with
  | [v0; v1; v2] =>
      match ParseInt v2 with
      | Some val =>
          (v0 +:+ String underscore
             (v1 +:+ String underscore (print_Z (int64 (val + 1)))))%string
      | None => id
      end
  | _ => id
  end.

(** ** internal/tss/common.go *)

Definition MaxMaliciousParties (partiesCount threshold : Z) : Z :=
  partiesCount - (threshold + 1).

(** ** leader.go *)

(** [DeterministicRandSource]: the ChaCha8 stream seeded with the SHA-256 of the
    session identifier, as the sequence of its [Uint64] values. *)
Class RandSource := DeterministicRandSource : string → nat → Z.
Section leader.
Context `{Bech32, TssSort, RandSource}.

Definition DetermineLeader (sessionId : string) (partyIds : list PartyID) : res Address :=
  match length partyIds with
  | O => Panic
  | _ =>
    let proposerIdx :=
      Z.to_nat (DeterministicRandSource sessionId 0 `mod` Z.of_nat (length partyIds)) in
    match partyIds !! proposerIdx with
    | Some id => Ok (AddrFromPartyId id)
    | None => Panic
    end
  end.

Definition SortAllParties (parties : list Party) (self : Address) : res (list PartyID) :=
  selfId ← PartyIdentifier self;
  Ok (SortPartyIDs ((identifier <$> parties) ++ [selfId])).

End leader.

(** ** UTXO session timing (signing/utxo/session.go) *)

Definition getSigningPhaseDelay (inputsToSign : Z) : Z :=
  if inputsToSign <=? 1 then BoundarySign
  else int64 (int64 (inputsToSign * BoundarySign)
              + int64 ((inputsToSign - 1) * BoundaryBitcoinSignRoundDelay)).

(** The new [nextSessionStartTime]; [nextSessionStartTimeConstant] becomes true. *)
Definition updateNextSessionStartTime (nextSessionStartTime inputsToSign : Z) : Z :=
  if inputsToSign <=? 1 then nextSessionStartTime
  else
    let additionalDelay :=
      int64 ((inputsToSign - 1) * (BoundarySign + BoundaryBitcoinSignRoundDelay)) in
    nextSessionStartTime + additionalDelay.

(** ** The session loop

    [Session.Run] of the EVM, TON, Solana and Zano sessions: the loop builds the
    components of the session (phase [Waiting]), sleeps until
    [nextSessionStartTime], advances it by [BoundarySigningSession], runs the
    session (phase [Running]) and increments the identifier. *)

Inductive Phase := Waiting | Running.

Record LoopState := {
  ls_sessionId : string; ls_nextSessionStartTime : Z; ls_phase : Phase }.

Inductive loop_step : LoopState → LoopState → Prop :=
| loop_start id t :
    loop_step {| ls_sessionId := id; ls_nextSessionStartTime := t; ls_phase := Waiting |}
              {| ls_sessionId := id;
                 ls_nextSessionStartTime := t + BoundarySigningSession;
                 ls_phase := Running |}
| loop_finish id t :
    loop_step {| ls_sessionId := id; ls_nextSessionStartTime := t; ls_phase := Running |}
              {| ls_sessionId := IncrementSessionIdentifier id;
                 ls_nextSessionStartTime := t; ls_phase := Waiting |}.

(** [NewSession]: the state before [Run]. *)
Definition loop_init (params : SigningParams) : LoopState :=
  {| ls_sessionId :=
       GetConcreteSigningSessionIdentifier (sp_ChainId params) (ps_Id (sp_Params params));
     ls_nextSessionStartTime := ps_StartTime (sp_Params params);
     ls_phase := Waiting |}.

(** [Session.SigningSessionInfo], read by a peer that synchronises. *)
Definition loop_info (threshold : Z) (chainId : string) (s : LoopState)
    : res SigningSessionInfo :=
  ToSigningSessionInfo (ls_sessionId s) (Some (ls_nextSessionStartTime s))
    threshold chainId.

(** The state of a loop started at identifier [id0] and time [t0] after [n] whole
    sessions; the identifier is [int64], hence the bound. *)
Definition loop_wf (chainId : string) (id0 t0 bound : Z) (s : LoopState) : Prop :=
  ∃ n, 0 ≤ n ∧
    (id0 + n ≤ bound →
     ls_sessionId s = GetConcreteSigningSessionIdentifier chainId (id0 + n)) ∧
    ls_nextSessionStartTime s =
      t0 + (match ls_phase s with Waiting => n | Running => n + 1 end) * BoundarySigningSession.

(** ** Lemmas on identifiers *)

Lemma split_concrete chainId id :
  str_elem underscore chainId = false →
  split_on underscore (GetConcreteSigningSessionIdentifier chainId id)
  = [SignSessionPrefix; chainId; print_Z id].
Proof.
  intros Hc. unfold GetConcreteSigningSessionIdentifier.
  rewrite split_on_app by reflexivity. rewrite split_on_app by done.
  rewrite split_on_none; [done|]. apply print_Z_no. set_solver.
Qed.

Lemma increment_concrete chainId id :
  str_elem underscore chainId = false → in_int64 id →
  IncrementSessionIdentifier (GetConcreteSigningSessionIdentifier chainId id)
  = GetConcreteSigningSessionIdentifier chainId (int64 (id + 1)).
Proof.
  intros Hc Hid. unfold IncrementSessionIdentifier.
  rewrite split_concrete by done. by rewrite ParseInt_print.
Qed.

Lemma session_id_concrete chainId id :
  str_elem underscore chainId = false → in_int64 id →
  GetSessionId (GetConcreteSigningSessionIdentifier chainId id) = Ok id.
Proof.
  intros Hc Hid. unfold GetSessionId. rewrite split_concrete by done.
  simpl. by rewrite ParseInt_print.
Qed.

Lemma increment_next chainId id :
  str_elem underscore chainId = false → in_int64 id → id < max_int64 →
  IncrementSessionIdentifier (GetConcreteSigningSessionIdentifier chainId id)
    = GetConcreteSigningSessionIdentifier chainId (id + 1).
Proof.
  intros Hc Hid Hmax. unfold in_int64 in Hid. rewrite increment_concrete by done.
  by rewrite int64_id by (unfold in_int64; lia).
Qed.

Lemma str_elem_split_length c s :
  str_elem c s = true → (2 ≤ length (split_on c s))%nat.
Proof.
  induction s as [|a s IH]; [done|]. cbn [str_elem split_on].
  pose proof (split_on_nonempty c s).
  destruct (a =? c)%char; simpl.
  - intros _. destruct (split_on c s); simpl; [done|lia].
  - intros Hs. specialize (IH Hs). destruct (split_on c s); simpl in *; lia.
Qed.

Lemma split_on_app_length c s t :
  length (split_on c (s +:+ String c t)%string)
  = (length (split_on c s) + length (split_on c t))%nat.
Proof.
  induction s as [|a s IH]; cbn [split_on String.app].
  - simpl. rewrite Ascii.eqb_refl. done.
  - simpl (split_on c (String a s +:+ String c t)). 
    destruct (a =? c)%char eqn:E; simpl; [by rewrite IH|].
    pose proof (split_on_nonempty c s).
    pose proof (split_on_nonempty c (s +:+ String c t)).
    destruct (split_on c s), (split_on c (s +:+ String c t)%string); simpl in *; done || lia.
Qed.

(** ** Theorems *)

(** Successive identifiers of one chain: the loop numbers its sessions
    consecutively.  A chain id that contains the separator breaks the numbering
    (next theorem), hence the hypothesis. *)
Theorem IncrementSessionIdentifier_next chainId id :
  str_elem underscore chainId = false → in_int64 id → id < max_int64 →
  IncrementSessionIdentifier (GetConcreteSigningSessionIdentifier chainId id)
    = GetConcreteSigningSessionIdentifier chainId (id + 1) ∧
  GetSessionId (GetConcreteSigningSessionIdentifier chainId (id + 1)) = Ok (id + 1).
Proof.
  intros Hc Hid Hmax. split; [by apply increment_next|].
  apply session_id_concrete; [done|unfold in_int64 in *; lia].
Qed.

Lemma IncrementSessionIdentifier_next_witness :
  str_elem underscore "35443" = false ∧
  IncrementSessionIdentifier "SIGN_35443_122" = "SIGN_35443_123".
Proof.
  split; [reflexivity|].
  apply (IncrementSessionIdentifier_next "35443" 122); [reflexivity| |];
    unfold in_int64, min_int64, max_int64; lia.
Defined.

(** With the separator in the chain id the identifier is never incremented: all
    sessions of that chain share one identifier, one leader and one random
    stream. *)
Theorem IncrementSessionIdentifier_stuck chainId id :
  str_elem underscore chainId = true →
  IncrementSessionIdentifier (GetConcreteSigningSessionIdentifier chainId id)
  = GetConcreteSigningSessionIdentifier chainId id.
Proof.
  intros Hc. unfold IncrementSessionIdentifier.
  set (s := GetConcreteSigningSessionIdentifier chainId id).
  assert (4 ≤ length (split_on underscore s))%nat as Hl.
  { subst s. unfold GetConcreteSigningSessionIdentifier.
    rewrite split_on_app by reflexivity. simpl length. rewrite split_on_app_length.
    apply str_elem_split_length in Hc.
    pose proof (split_on_nonempty underscore (print_Z id)).
    destruct (split_on underscore (print_Z id)); simpl in *; [done|lia]. }
  destruct (split_on underscore s) as [|? [|? [|? [|? ?]]]]; simpl in Hl; try lia; done.
Qed.

Lemma IncrementSessionIdentifier_stuck_witness :
  IncrementSessionIdentifier "SIGN_bridge_1_7" = "SIGN_bridge_1_7".
Proof. apply (IncrementSessionIdentifier_stuck "bridge_1" 7). reflexivity. Defined.

Section leader_theorems.
Context `{Bech32, TssSort, RandSource, !TssSortSpec}.

(** The parties of a node were built by [NewParty]. *)
Definition parties_wf (parties : list Party) : Prop :=
  Forall (λ p, PartyIdentifier (CoreAddress p) = Ok (identifier p)) parties.

Lemma ids_of_group parties self ids :
  parties_wf parties → SortAllParties parties self = Ok ids →
  ∃ ids', ids ≡ₚ ids' ∧
          Forall2 (λ a id, PartyIdentifier a = Ok id) ((CoreAddress <$> parties) ++ [self]) ids'.
Proof.
  intros Hwf Hs. unfold SortAllParties in Hs. inv_ok.
  eexists. split; [apply SortPartyIDs_perm|].
  apply Forall2_app; [|by repeat constructor].
  clear -Hwf. induction Hwf; simpl; by constructor.
Qed.

Lemma ids_functional (l : list Address) ids1 ids2 :
  Forall2 (λ a id, PartyIdentifier a = Ok id) l ids1 →
  Forall2 (λ a id, PartyIdentifier a = Ok id) l ids2 → ids1 = ids2.
Proof.
  intros H1'. revert ids2. induction H1' as [|a id l k Ha _ IH]; intros ids2 H2'.
  - by apply Forall2_nil_inv_l in H2' as ->.
  - apply Forall2_cons_inv_l in H2' as (i & k' & Hi & Hk & ->).
    rewrite Ha in Hi. simplify_eq. f_equal. by apply IH.
Qed.

Lemma group_ids_perm (l1 l2 : list Address) ids1 ids2 :
  l1 ≡ₚ l2 →
  Forall2 (λ a id, PartyIdentifier a = Ok id) l1 ids1 →
  Forall2 (λ a id, PartyIdentifier a = Ok id) l2 ids2 → ids1 ≡ₚ ids2.
Proof.
  intros Hp H1' H2'. destruct (Permutation_Forall2 Hp H1') as (ids & Hids & Hf).
  by rewrite Hids, (ids_functional _ _ _ Hf H2').
Qed.

Lemma DetermineLeader_total sessionId partyIds :
  partyIds ≠ [] →
  ∃ id, id ∈ partyIds ∧ DetermineLeader sessionId partyIds = Ok (AddrFromPartyId id).
Proof.
  intros Hne. unfold DetermineLeader.
  destruct (length partyIds) as [|n] eqn:Hl; [by apply nil_length_inv in Hl|].
  set (i := Z.to_nat _).
  assert (i < length partyIds)%nat as Hi.
  { subst i. pose proof (Z.mod_pos_bound (DeterministicRandSource sessionId 0) (Z.of_nat (S n))).
    lia. }
  destruct (lookup_lt_is_Some_2 _ _ Hi) as [id Hid]. rewrite Hid.
  exists id. split; [by eapply list_elem_of_lookup_2|done].
Qed.

(** Every node of the group computes the same ordering of the party ids, the
    same leader for a session identifier, and the leader is a member of the
    group. *)
Theorem leader_agreement parties1 self1 parties2 self2 ids1 ids2 sessionId :
  parties_wf parties1 → parties_wf parties2 →
  SortAllParties parties1 self1 = Ok ids1 → SortAllParties parties2 self2 = Ok ids2 →
  (CoreAddress <$> parties1) ++ [self1] ≡ₚ (CoreAddress <$> parties2) ++ [self2] →
  NoDup (pid_key <$> ids1) →
  ids1 = ids2 ∧
  ∃ leader, leader ∈ (CoreAddress <$> parties1) ++ [self1] ∧
    DetermineLeader sessionId ids1 = Ok leader ∧ DetermineLeader sessionId ids2 = Ok leader.
Proof.
  intros Hwf1 Hwf2 Hs1 Hs2 Hp Hnd.
  destruct (ids_of_group _ _ _ Hwf1 Hs1) as (k1 & Hk1 & Hf1).
  destruct (ids_of_group _ _ _ Hwf2 Hs2) as (k2 & Hk2 & Hf2).
  assert (ids1 = ids2) as <-.
  { unfold SortAllParties in Hs1, Hs2. inv_ok.
    apply sorted_perm_unique; [done| |apply SortPartyIDs_sorted..].
    by rewrite Hk1, Hk2, (group_ids_perm _ _ _ _ Hp Hf1 Hf2). }
  split; [done|].
  destruct (DetermineLeader_total sessionId ids1) as (id & Hid & HL).
  { intros ->. symmetry in Hk1. apply Permutation_nil_r in Hk1 as ->.
    apply Forall2_nil_inv_r in Hf1. by destruct (CoreAddress <$> parties1). }
  exists (AddrFromPartyId id). repeat split; [|done|done].
  rewrite Hk1 in Hid. destruct (Forall2_elem_of_r _ _ _ _ Hf1 Hid) as (a & Ha & HPid).
  by rewrite (PartyIdentifier_moniker _ _ HPid).
Qed.

End leader_theorems.

Definition sample_rand : RandSource := λ _ n, Z.of_nat n + 7.

Lemma leader_agreement_witness :
  let p s := {| CoreAddress := s;
                identifier := {| pid_id := s; pid_moniker := s;
                                 pid_key := be_Z (bytes_of_string s) |} |} in
  @DetermineLeader sample_rand "SIGN_1_1"
     (@SortPartyIDs sample_SortPartyIDs (identifier <$> [p "bridge1b"; p "bridge1c"; p "bridge1a"]))
  = @DetermineLeader sample_rand "SIGN_1_1"
     (@SortPartyIDs sample_SortPartyIDs (identifier <$> [p "bridge1a"; p "bridge1b"; p "bridge1c"])).
Proof.
  intros p.
  assert (∀ s, @PartyIdentifier sample_bech32 s = Ok (identifier (p s))) as Hid by done.
  destruct (@leader_agreement sample_bech32 sample_SortPartyIDs sample_rand
              sample_SortPartyIDs_spec
              [p "bridge1b"; p "bridge1c"] "bridge1a"
              [p "bridge1a"; p "bridge1b"] "bridge1c"
              (@SortPartyIDs sample_SortPartyIDs
                 (identifier <$> [p "bridge1b"; p "bridge1c"; p "bridge1a"]))
              (@SortPartyIDs sample_SortPartyIDs
                 (identifier <$> [p "bridge1a"; p "bridge1b"; p "bridge1c"]))
              "SIGN_1_1") as [Heq _].
  - repeat constructor.
  - repeat constructor.
  - reflexivity.
  - reflexivity.
  - simpl. apply (Permutation_app_comm ["bridge1b"; "bridge1c"] ["bridge1a"]).
  - apply (bool_decide_unpack _). vm_compute. exact I.
  - by rewrite Heq.
Defined.

(** ** Catching up with a running peer *)

Lemma loop_info_params th chainId id t ph :
  str_elem underscore chainId = false → in_int64 id → id < max_int64 →
  t mod Millisecond = 0 →
  ∃ info,
    loop_info th chainId
      {| ls_sessionId := GetConcreteSigningSessionIdentifier chainId id;
         ls_nextSessionStartTime := t; ls_phase := ph |} = Ok info ∧
    loop_init (ParamsFromSigningSessionInfo info) =
      {| ls_sessionId := GetConcreteSigningSessionIdentifier chainId (id + 1);
         ls_nextSessionStartTime := t; ls_phase := Waiting |}.
Proof.
  intros Hc Hid Hmax Hms. unfold loop_info, ToSigningSessionInfo.
  cbn [ls_sessionId ls_nextSessionStartTime].
  rewrite session_id_concrete by done. eexists. split; [reflexivity|].
  unfold loop_init, ParamsFromSigningSessionInfo. cbn.
  unfold in_int64 in Hid. f_equal.
  - by rewrite int64_id by (unfold in_int64; lia).
  - unfold Millisecond in *. pose proof (Z.div_mod t 1000000). lia.
Qed.

(** A node that synchronises with a peer whose session is running starts, at
    the peer's next start time, in exactly the state the peer's own loop moves
    to when the session finishes. *)
Theorem sync_with_running_peer th chainId id t info :
  str_elem underscore chainId = false → in_int64 id → id < max_int64 →
  t mod Millisecond = 0 →
  let s := {| ls_sessionId := GetConcreteSigningSessionIdentifier chainId id;
              ls_nextSessionStartTime := t; ls_phase := Running |} in
  loop_info th chainId s = Ok info →
  loop_step s (loop_init (ParamsFromSigningSessionInfo info)).
Proof.
  intros Hc Hid Hmax Hms s Hi.
  destruct (loop_info_params th chainId id t Running Hc Hid Hmax Hms) as (i & Hi' & Heq).
  unfold s in Hi. rewrite Hi' in Hi. injection Hi as <-. rewrite Heq.
  rewrite <- (increment_next chainId id Hc Hid Hmax). constructor.
Qed.

Lemma sync_with_running_peer_witness :
  let s := {| ls_sessionId := "SIGN_1_41"; ls_nextSessionStartTime := 80 * Second;
              ls_phase := Running |} in
  loop_step s {| ls_sessionId := "SIGN_1_42"; ls_nextSessionStartTime := 80 * Second;
                 ls_phase := Waiting |}.
Proof.
  apply (sync_with_running_peer 2 "1" 41 (80 * Second)
           {| si_Id := 41; si_NextSessionStartTime := 80000; si_Threshold := 2;
              si_ChainId := "1" |}); try reflexivity;
    unfold in_int64, min_int64, max_int64, Second, Millisecond; lia.
Defined.

(** Synchronising while the peer waits between two sessions yields the peer's
    start time with the identifier of the session after it: the node joins one
    session number ahead of the whole group. *)
Theorem sync_with_waiting_peer_off_by_one th chainId id t info :
  str_elem underscore chainId = false → in_int64 id → id < max_int64 →
  t mod Millisecond = 0 →
  let s := {| ls_sessionId := GetConcreteSigningSessionIdentifier chainId id;
              ls_nextSessionStartTime := t; ls_phase := Waiting |} in
  loop_info th chainId s = Ok info →
  let s' := loop_init (ParamsFromSigningSessionInfo info) in
  ls_nextSessionStartTime s' = ls_nextSessionStartTime s ∧
  ls_sessionId s' ≠ ls_sessionId s.
Proof.
  intros Hc Hid Hmax Hms s Hi. cbv zeta.
  destruct (loop_info_params th chainId id t Waiting Hc Hid Hmax Hms) as (i & Hi' & Heq).
  unfold s in Hi. rewrite Hi' in Hi. injection Hi as <-. rewrite Heq.
  split; [done|]. cbn. intros E. apply (f_equal GetSessionId) in E.
  unfold in_int64 in Hid.
  rewrite !session_id_concrete in E by (done || unfold in_int64; lia).
  injection E. lia.
Qed.

Lemma sync_with_waiting_peer_off_by_one_witness :
  ls_sessionId (loop_init (ParamsFromSigningSessionInfo
    {| si_Id := 41; si_NextSessionStartTime := 80000; si_Threshold := 2;
       si_ChainId := "1" |})) ≠ "SIGN_1_41".
Proof.
  destruct (sync_with_waiting_peer_off_by_one 2 "1" 41 (80 * Second)
              {| si_Id := 41; si_NextSessionStartTime := 80000; si_Threshold := 2;
                 si_ChainId := "1" |}) as [_ Hne]; try reflexivity;
    [unfold in_int64, min_int64, max_int64, Second, Millisecond; lia..|exact Hne].
Defined.

(** Along any run of the loop, the sessions of a chain are numbered
    consecutively from the configured identifier and start one signing bound
    apart. *)
Theorem loop_sessions_consecutive params s :
  str_elem underscore (sp_ChainId params) = false →
  in_int64 (ps_Id (sp_Params params)) →
  star loop_step (loop_init params) s →
  loop_wf (sp_ChainId params) (ps_Id (sp_Params params)) (ps_StartTime (sp_Params params))
    max_int64 s.
Proof.
  intros Hc Hid Hs. set (chainId := sp_ChainId params) in *.
  set (id0 := ps_Id (sp_Params params)) in *. set (t0 := ps_StartTime (sp_Params params)).
  apply (star_invariant _ (loop_wf chainId id0 t0 max_int64)) in Hs; [done| |].
  - intros a b (n & Hn & Hsid & Ht) Hstep. inversion Hstep; subst; cbn in *.
    + exists n. cbn. repeat split; [done|done|]. lia.
    + exists (n + 1). cbn. repeat split; [lia| |lia].
      intros Hb. rewrite Hsid by lia. unfold in_int64 in Hid.
      rewrite Z.add_assoc.
      apply increment_next; [done| |lia]. unfold in_int64. lia.
  - exists 0. cbn. rewrite Z.add_0_r. repeat split; lia || done.
Qed.

Lemma loop_sessions_consecutive_witness :
  let params := {| sp_Params := {| ps_Id := 5; ps_StartTime := 0; ps_Threshold := 1 |};
                   sp_ChainId := "zano" |} in
  loop_wf "zano" 5 0 max_int64
    {| ls_sessionId := "SIGN_zano_6"; ls_nextSessionStartTime := 40 * Second;
       ls_phase := Waiting |}.
Proof.
  intros params. apply (loop_sessions_consecutive params); [reflexivity| |].
  - unfold in_int64, min_int64, max_int64. cbn. lia.
  - eapply star_step; [apply loop_start|]. eapply star_step; [apply loop_finish|].
    apply star_refl.
Defined.

(** The bound of a UTXO session with [n] inputs: the recomputed start of the
    next session is exactly the sum of the bounds of the phases, so the phases of
    one session fit before the next one starts. *)
Theorem utxo_session_budget t n :
  1 ≤ n ≤ 600000000 →
  updateNextSessionStartTime (t + BoundarySigningSession) n
  = t + BoundaryConsensus + getSigningPhaseDelay n
    + BoundarySignatureDistribution + BoundaryFinalize.
Proof.
  intros Hn. unfold updateNextSessionStartTime, getSigningPhaseDelay.
  unfold BoundarySigningSession, BoundaryConsensus, BoundaryProposalAcceptance, BoundarySign,
    BoundarySignatureDistribution, BoundaryFinalize, BoundaryBitcoinSignRoundDelay,
    Second, Millisecond.
  destruct (Z.leb_spec n 1); [lia|].
  rewrite (int64_id (n * _)), (int64_id ((n - 1) * (500 * _))) by
    (unfold in_int64, min_int64, max_int64; lia).
  rewrite !int64_id; unfold in_int64, min_int64, max_int64; lia.
Qed.

Lemma utxo_session_budget_witness :
  updateNextSessionStartTime BoundarySigningSession 3 = 67 * Second.
Proof.
  refine (eq_trans (utxo_session_budget 0 3 _) eq_refl). lia.
Defined.
