(* ===== verification/Deposits.v ===== *)
(** * The deposits table

    Models [internal/db/deposits.go], [internal/db/postgres/deposits.go] and the
    schema of [assets/migrations].  [Table] is the concrete table: the rows in
    insertion order and the next value of the [BIGSERIAL] sequence.  The Go
    interface [db.DepositsQ] is the class [DepositsQ]; what its clients rely on
    is the class [DepositsSpec], a finite map from deposit identifiers to rows,
    and the table refines it ([Table_refines_spec]).

    A lost connection is not modelled here; the clients model it as a failing
    call. *)

From S2P Require Import Prelude Core.
#[local] Open Scope Z_scope.

(** ** internal/types: [WithdrawalStatus] *)

Inductive WithdrawalStatus :=
| WS_UNSPECIFIED | WS_PENDING | WS_PROCESSING | WS_PROCESSED | WS_FAILED | WS_INVALID.

#[export] Instance WithdrawalStatus_eq_dec : EqDecision WithdrawalStatus.
Proof. solve_decision. Defined.

Definition FinalWithdrawalStatuses : list WithdrawalStatus :=
  [WS_PROCESSED; WS_INVALID; WS_FAILED].

(** ** internal/db/deposits.go *)

Record DepositIdentifier := { TxHash : string; TxNonce : Z; ChainId : string }.

#[export] Instance DepositIdentifier_eq_dec : EqDecision DepositIdentifier.
Proof. solve_decision. Defined.
#[export] Instance DepositIdentifier_countable : Countable DepositIdentifier.
Proof.
  apply (inj_countable' (λ i, (TxHash i, TxNonce i, ChainId i))
           (λ '(h, n, c), {| TxHash := h; TxNonce := n; ChainId := c |})).
  by intros [].
Defined.

Definition dash : ascii := "-"%char.

(** [OriginTxIdPattern = "%s-%d-%s"] *)
Definition identifier_String (d : DepositIdentifier) : string :=
  (TxHash d +:+ String dash (print_Z (TxNonce d) +:+ String dash (ChainId d)))%string.

Definition ToMsgDepositIdentifier (d : DepositIdentifier) : MsgDepositIdentifier :=
  {| md_TxHash := TxHash d; md_TxNonce := TxNonce d; md_ChainId := ChainId d |}.

Record Deposit := {
  d_Id : Z;
  d_ident : DepositIdentifier;
  d_Depositor : option string;
  d_DepositAmount : string;
  d_DepositToken : string;
  d_Receiver : string;
  d_WithdrawalToken : string;
  d_DepositBlock : Z;
  d_CommissionAmount : string;
  d_ReferralId : Z;
  d_WithdrawalStatus : WithdrawalStatus;
  d_WithdrawalTxHash : option string;
  d_WithdrawalChainId : string;
  d_WithdrawalAmount : string;
  d_IsWrappedToken : bool;
  d_Signature : option string;
  d_TxData : option string;
  d_Submitted : bool;
  d_Distributed : bool }.

#[export] Instance Deposit_eq_dec : EqDecision Deposit.
Proof. solve_decision. Defined.

Record DepositsSelector := {
  sel_Ids : list Z;
  sel_ChainId : option string;
  sel_WithdrawalChainId : option string;
  sel_One : bool;
  sel_Status : option WithdrawalStatus;
  sel_NotSubmitted : bool;
  sel_Distributed : bool;
  sel_NotDistributed : bool }.

Record ProcessedDepositData := {
  pd_Identifier : DepositIdentifier;
  pd_Signature : option string;
  pd_TxHash : option string;
  pd_TxData : option string }.

Definition stringOrEmpty (s : option string) : string :=
  match s with None => "" | Some s' => s' end.

(** [bridgetypes.Transaction] of bridgeless-core: the message a node submits. *)
Record Transaction := {
  tx_DepositTxHash : string; tx_DepositTxIndex : Z; tx_DepositChainId : string;
  tx_WithdrawalTxHash : string; tx_Depositor : string; tx_DepositAmount : string;
  tx_WithdrawalAmount : string; tx_CommissionAmount : string; tx_DepositToken : string;
  tx_Receiver : string; tx_WithdrawalToken : string; tx_WithdrawalChainId : string;
  tx_DepositBlock : Z; tx_Signature : string; tx_IsWrapped : bool; tx_ReferralId : Z;
  tx_TxData : string }.

Definition ToTransaction (d : Deposit) : Transaction :=
  {| tx_DepositTxHash := TxHash (d_ident d);
     tx_DepositTxIndex := uint64 (TxNonce (d_ident d));
     tx_DepositChainId := ChainId (d_ident d);
     tx_WithdrawalTxHash := stringOrEmpty (d_WithdrawalTxHash d);
     tx_Depositor := stringOrEmpty (d_Depositor d);
     tx_DepositAmount := d_DepositAmount d;
     tx_WithdrawalAmount := d_WithdrawalAmount d;
     tx_CommissionAmount := d_CommissionAmount d;
     tx_DepositToken := d_DepositToken d;
     tx_Receiver := d_Receiver d;
     tx_WithdrawalToken := d_WithdrawalToken d;
     tx_WithdrawalChainId := d_WithdrawalChainId d;
     tx_DepositBlock := uint64 (d_DepositBlock d);
     tx_Signature := stringOrEmpty (d_Signature d);
     tx_IsWrapped := d_IsWrappedToken d;
     tx_ReferralId := d_ReferralId d mod 2 ^ 32;
     tx_TxData := stringOrEmpty (d_TxData d) |}.

Record DepositData := {
  dd_ident : DepositIdentifier;
  dd_Block : Z;
  dd_SourceAddress : string;
  dd_DepositAmount : Z;
  dd_TokenAddress : string;
  dd_ReferralId : Z;
  dd_DestinationAddress : string;
  dd_DestinationChainId : string }.

(** Fields the literal leaves out have their zero value. *)
Definition ToNewDeposit (d : DepositData) (withdrawalAmount commissionAmount : Z)
    (dstTokenAddress : string) (isWrappedToken : bool) : Deposit :=
  {| d_Id := 0;
     d_ident := dd_ident d;
     d_Depositor := Some (dd_SourceAddress d);
     d_DepositAmount := print_Z (dd_DepositAmount d);
     d_DepositToken := dd_TokenAddress d;
     d_Receiver := dd_DestinationAddress d;
     d_WithdrawalToken := dstTokenAddress;
     d_DepositBlock := dd_Block d;
     d_CommissionAmount := print_Z commissionAmount;
     d_ReferralId := dd_ReferralId d;
     d_WithdrawalStatus := WS_PENDING;
     d_WithdrawalTxHash := None;
     d_WithdrawalChainId := dd_DestinationChainId d;
     d_WithdrawalAmount := print_Z withdrawalAmount;
     d_IsWrappedToken := isWrappedToken;
     d_Signature := None;
     d_TxData := None;
     d_Submitted := false;
     d_Distributed := false |}.

Definition OriginTxId (d : DepositData) : string := identifier_String (dd_ident d).

(** ** Column updates: one per [Set(column, value)] of the queries *)

Definition set_columns (d : Deposit) (status : WithdrawalStatus)
    (txHash signature txData : option string) (submitted distributed : bool) : Deposit :=
  {| d_Id := d_Id d; d_ident := d_ident d; d_Depositor := d_Depositor d;
     d_DepositAmount := d_DepositAmount d; d_DepositToken := d_DepositToken d;
     d_Receiver := d_Receiver d; d_WithdrawalToken := d_WithdrawalToken d;
     d_DepositBlock := d_DepositBlock d; d_CommissionAmount := d_CommissionAmount d;
     d_ReferralId := d_ReferralId d; d_WithdrawalStatus := status;
     d_WithdrawalTxHash := txHash; d_WithdrawalChainId := d_WithdrawalChainId d;
     d_WithdrawalAmount := d_WithdrawalAmount d; d_IsWrappedToken := d_IsWrappedToken d;
     d_Signature := signature; d_TxData := txData;
     d_Submitted := submitted; d_Distributed := distributed |}.

Definition set_WithdrawalStatus (s : WithdrawalStatus) (d : Deposit) : Deposit :=
  set_columns d s (d_WithdrawalTxHash d) (d_Signature d) (d_TxData d)
    (d_Submitted d) (d_Distributed d).
Definition set_WithdrawalTxHash (h : option string) (d : Deposit) : Deposit :=
  set_columns d (d_WithdrawalStatus d) h (d_Signature d) (d_TxData d)
    (d_Submitted d) (d_Distributed d).
Definition set_Signature (s : option string) (d : Deposit) : Deposit :=
  set_columns d (d_WithdrawalStatus d) (d_WithdrawalTxHash d) s (d_TxData d)
    (d_Submitted d) (d_Distributed d).
Definition set_TxData (s : option string) (d : Deposit) : Deposit :=
  set_columns d (d_WithdrawalStatus d) (d_WithdrawalTxHash d) (d_Signature d) s
    (d_Submitted d) (d_Distributed d).
Definition set_Submitted (b : bool) (d : Deposit) : Deposit :=
  set_columns d (d_WithdrawalStatus d) (d_WithdrawalTxHash d) (d_Signature d) (d_TxData d)
    b (d_Distributed d).
Definition set_Distributed (b : bool) (d : Deposit) : Deposit :=
  set_columns d (d_WithdrawalStatus d) (d_WithdrawalTxHash d) (d_Signature d) (d_TxData d)
    (d_Submitted d) b.

(** The row the [INSERT] of [Insert] writes: the columns it names, the sequence
    value, and NULL for the columns it leaves out. *)
Definition inserted_row (id : Z) (d : Deposit) : Deposit :=
  {| d_Id := id;
     d_ident := d_ident d;
     d_Depositor := d_Depositor d;
     d_DepositAmount := d_DepositAmount d;
     d_DepositToken := d_DepositToken d;
     d_Receiver := d_Receiver d;
     d_WithdrawalToken := d_WithdrawalToken d;
     d_DepositBlock := d_DepositBlock d;
     d_CommissionAmount := d_CommissionAmount d;
     d_ReferralId := d_ReferralId d;
     d_WithdrawalStatus := d_WithdrawalStatus d;
     d_WithdrawalTxHash := None;
     d_WithdrawalChainId := d_WithdrawalChainId d;
     d_WithdrawalAmount := d_WithdrawalAmount d;
     d_IsWrappedToken := d_IsWrappedToken d;
     d_Signature := None;
     d_TxData := None;
     d_Submitted := false;
     d_Distributed := d_Distributed d |}.

(** The row [InsertProcessedDeposit] writes. *)
Definition processed_row (id : Z) (d : Deposit) : Deposit :=
  {| d_Id := id;
     d_ident := d_ident d;
     d_Depositor := d_Depositor d;
     d_DepositAmount := d_DepositAmount d;
     d_DepositToken := to_lower (d_DepositToken d);
     d_Receiver := to_lower (d_Receiver d);
     d_WithdrawalToken := to_lower (d_WithdrawalToken d);
     d_DepositBlock := d_DepositBlock d;
     d_CommissionAmount := d_CommissionAmount d;
     d_ReferralId := d_ReferralId d;
     d_WithdrawalStatus := WS_PROCESSED;
     d_WithdrawalTxHash := d_WithdrawalTxHash d;
     d_WithdrawalChainId := d_WithdrawalChainId d;
     d_WithdrawalAmount := d_WithdrawalAmount d;
     d_IsWrappedToken := d_IsWrappedToken d;
     d_Signature := d_Signature d;
     d_TxData := d_TxData d;
     d_Submitted := true;
     d_Distributed := true |}.

(** ** What a deposit is, whatever its row's serial id and its progress

    The columns that no operation writes after the insertion.  Nodes number their
    rows on their own, so two nodes that hold a deposit hold the [same_data]. *)
Definition deposit_data (d : Deposit) :=
  (d_ident d, d_Depositor d, d_DepositAmount d, d_DepositToken d, d_Receiver d,
   d_WithdrawalToken d, d_DepositBlock d, d_CommissionAmount d, d_ReferralId d,
   d_WithdrawalChainId d, d_WithdrawalAmount d, d_IsWrappedToken d).

Definition same_data (d d' : Deposit) : Prop := deposit_data d = deposit_data d'.

#[export] Instance same_data_equivalence : Equivalence same_data.
Proof. unfold same_data. split; red; [done|done|congruence]. Qed.
#[export] Instance same_data_ident : Proper (same_data ==> (=)) d_ident.
Proof. unfold same_data, deposit_data. intros d d' [=]. done. Qed.
#[export] Instance same_data_chain : Proper (same_data ==> (=)) d_WithdrawalChainId.
Proof. unfold same_data, deposit_data. intros d d' [=]. done. Qed.

Lemma same_data_columns d st h g x sub dist : same_data (set_columns d st h g x sub dist) d.
Proof. done. Qed.
Lemma same_data_inserted id d : same_data (inserted_row id d) d.
Proof. done. Qed.
#[export] Hint Resolve same_data_columns same_data_inserted : tss.

(** The [VARCHAR] bounds of the schema. *)
Definition fits (n : nat) (s : string) : bool := (String.length s <=? n)%nat.
Definition fits_opt (n : nat) (s : option string) : bool := default true (fits n <$> s).
Definition row_fits (d : Deposit) : bool :=
  fits 100 (TxHash (d_ident d)) && fits 50 (ChainId (d_ident d)) &&
  fits_opt 100 (d_Depositor d) && fits 100 (d_Receiver d) &&
  fits 100 (d_DepositToken d) && fits 100 (d_WithdrawalToken d) &&
  fits_opt 100 (d_WithdrawalTxHash d) && fits 50 (d_WithdrawalChainId d).

Definition err_varchar : error := ENew "value too long for type character varying".

(** ** applySelector *)

Definition sel_matches (selector : DepositsSelector) (d : Deposit) : bool :=
  (match sel_Ids selector with [] => true | ids => bool_decide (d_Id d ∈ ids) end) &&
  (match sel_ChainId selector with
   | None => true | Some c => bool_decide (ChainId (d_ident d) = c) end) &&
  (match sel_WithdrawalChainId selector with
   | None => true | Some c => bool_decide (d_WithdrawalChainId d = c) end) &&
  (match sel_Status selector with
   | None => true | Some s => bool_decide (d_WithdrawalStatus d = s) end) &&
  (if sel_NotSubmitted selector then negb (d_Submitted d) else true) &&
  (if sel_Distributed selector then d_Distributed d else true) &&
  (if sel_NotDistributed selector then negb (d_Distributed d) else true).

(** [ORDER BY id ASC] *)
Definition id_le (a b : Deposit) : Prop := d_Id a ≤ d_Id b.
#[export] Instance id_le_dec a b : Decision (id_le a b).
Proof. unfold id_le. apply _. Defined.

(** ** internal/db/postgres/deposits.go *)

Record Table := { rows : list Deposit; nextId : Z }.

Module Pg.

Definition has_ident (i : DepositIdentifier) (d : Deposit) : bool :=
  bool_decide (d_ident d = i).

Definition insert_row (row : Z → Deposit) (t : Table) : Table * res Z :=
  let d := row (nextId t) in
  let t' := {| rows := rows t; nextId := nextId t + 1 |} in
  if negb (row_fits d) then (t', Err err_varchar)
  else if existsb (has_ident (d_ident d)) (rows t)
  then (t', Err (ESentinel ErrAlreadySubmitted))
  else ({| rows := rows t ++ [d]; nextId := nextId t + 1 |}, Ok (nextId t)).

Definition Insert (deposit : Deposit) : Table → Table * res Z :=
  insert_row (λ id, inserted_row id deposit).

Definition InsertProcessedDeposit (deposit : Deposit) : Table → Table * res Z :=
  insert_row (λ id, processed_row id deposit).

Definition Get (identifier : DepositIdentifier) (t : Table) : option Deposit :=
  head (filter (λ d, has_ident identifier d) (rows t)).

Definition applySelector (selector : DepositsSelector) (t : Table) : list Deposit :=
  let found := filter (λ d, sel_matches selector d) (rows t) in
  if sel_One selector then take 1 (merge_sort id_le found) else found.

Definition GetWithSelector (selector : DepositsSelector) (t : Table) : option Deposit :=
  head (applySelector selector t).

Definition Select (selector : DepositsSelector) (t : Table) : list Deposit :=
  applySelector selector t.

(** [UPDATE ... WHERE identifier]: every matching row. *)
Definition update_where (i : DepositIdentifier) (f : Deposit → Deposit) (t : Table) : Table :=
  {| rows := (λ d, if has_ident i d then f d else d) <$> rows t; nextId := nextId t |}.

(** A [VARCHAR] column is only written, and its bound only checked, when a row
    matches. *)
Definition update_hash (i : DepositIdentifier) (h : option string)
    (f : Deposit → Deposit) (t : Table) : res Table :=
  if existsb (has_ident i) (rows t) && negb (fits_opt 100 h) then Err err_varchar
  else Ok (update_where i f t).

Definition UpdateWithdrawalDetails (identifier : DepositIdentifier)
    (hash signature : option string) (t : Table) : res Table :=
  update_hash identifier hash
    (λ d, set_WithdrawalStatus WS_PROCESSED
            (set_Submitted true (set_Signature signature (set_WithdrawalTxHash hash d)))) t.

Definition UpdateStatus (identifier : DepositIdentifier) (status : WithdrawalStatus)
    (t : Table) : res Table :=
  Ok (update_where identifier (set_WithdrawalStatus status) t).

Definition processed_update (data : ProcessedDepositData) (d : Deposit) : Deposit :=
  let d := match pd_TxHash data with
           | Some h => set_WithdrawalTxHash (Some h) d | None => d end in
  let d := match pd_Signature data with
           | Some s => set_Signature (Some s) d | None => d end in
  let d := match pd_TxData data with
           | Some s => set_TxData (Some s) d | None => d end in
  set_WithdrawalStatus WS_PROCESSED d.

Definition UpdateProcessed (data : ProcessedDepositData) (t : Table) : res Table :=
  update_hash (pd_Identifier data) (pd_TxHash data) (processed_update data) t.

Definition UpdateSubmittedStatus (identifier : DepositIdentifier) (submitted : bool)
    (t : Table) : res Table :=
  Ok (update_where identifier (set_Submitted submitted) t).

Definition UpdateDistributedStatus (identifier : DepositIdentifier) (distributed : bool)
    (t : Table) : res Table :=
  Ok (update_where identifier (set_Distributed distributed) t).

End Pg.

(** ** The interface [db.DepositsQ] *)

Class DepositsQ (St : Type) := {
  q_Insert : Deposit → St → St * res Z;
  q_InsertProcessedDeposit : Deposit → St → St * res Z;
  q_Get : DepositIdentifier → St → option Deposit;
  q_GetWithSelector : DepositsSelector → St → option Deposit;
  q_Select : DepositsSelector → St → list Deposit;
  q_UpdateWithdrawalDetails :
    DepositIdentifier → option string → option string → St → res St;
  q_UpdateStatus : DepositIdentifier → WithdrawalStatus → St → res St;
  q_UpdateProcessed : ProcessedDepositData → St → res St;
  q_UpdateSubmittedStatus : DepositIdentifier → bool → St → res St;
  q_UpdateDistributedStatus : DepositIdentifier → bool → St → res St }.

#[export] Instance Table_DepositsQ : DepositsQ Table := {
  q_Insert := Pg.Insert;
  q_InsertProcessedDeposit := Pg.InsertProcessedDeposit;
  q_Get := Pg.Get;
  q_GetWithSelector := Pg.GetWithSelector;
  q_Select := Pg.Select;
  q_UpdateWithdrawalDetails := Pg.UpdateWithdrawalDetails;
  q_UpdateStatus := Pg.UpdateStatus;
  q_UpdateProcessed := Pg.UpdateProcessed;
  q_UpdateSubmittedStatus := Pg.UpdateSubmittedStatus;
  q_UpdateDistributedStatus := Pg.UpdateDistributedStatus }.

(** What a client relies on: the store is a finite map from identifiers to rows. *)
Notation Store := (gmap DepositIdentifier Deposit).

(** The abstract insertion of [row id]: refused for a value out of its column or
    for a known identifier. *)
Definition spec_insert (row : Z → Deposit) (id : Z) (m m' : Store) (r : res Z) : Prop :=
  if negb (row_fits (row id)) then m' = m ∧ r = Err err_varchar
  else match m !! d_ident (row id) with
       | Some _ => m' = m ∧ r = Err (ESentinel ErrAlreadySubmitted)
       | None => m' = <[d_ident (row id) := row id]> m ∧ r = Ok id
       end.

Definition spec_update_hash (i : DepositIdentifier) (h : option string)
    (f : Deposit → Deposit) (m : Store) : res Store :=
  match m !! i with
  | Some _ => if fits_opt 100 h then Ok (alter f i m) else Err err_varchar
  | None => Ok m
  end.

(** [d] is the matching row of smallest id. *)
Definition min_matching (selector : DepositsSelector) (m : Store) (d : Deposit) : Prop :=
  m !! d_ident d = Some d ∧ sel_matches selector d = true ∧
  ∀ i d', m !! i = Some d' → sel_matches selector d' = true → d_Id d ≤ d_Id d'.

Class DepositsSpec (St : Type) `{DepositsQ St} := {
  inv : St → Prop;
  view : St → Store;
  view_ident s i d : inv s → view s !! i = Some d → d_ident d = i;
  Insert_spec s d s' r :
    inv s → q_Insert d s = (s', r) →
    inv s' ∧ ∃ id, spec_insert (λ id, inserted_row id d) id (view s) (view s') r;
  InsertProcessed_spec s d s' r :
    inv s → q_InsertProcessedDeposit d s = (s', r) →
    inv s' ∧ ∃ id, spec_insert (λ id, processed_row id d) id (view s) (view s') r;
  Get_spec s i : inv s → q_Get i s = view s !! i;
  GetWithSelector_spec s selector :
    inv s → sel_One selector = true →
    match q_GetWithSelector selector s with
    | Some d => min_matching selector (view s) d
    | None => ∀ i d, view s !! i = Some d → sel_matches selector d = false
    end;
  Select_spec s selector d :
    inv s → sel_One selector = false →
    d ∈ q_Select selector s ↔ view s !! d_ident d = Some d ∧ sel_matches selector d = true;
  UpdateWithdrawalDetails_spec s i h g :
    inv s →
    view <$> q_UpdateWithdrawalDetails i h g s
    = spec_update_hash i h (λ d, set_WithdrawalStatus WS_PROCESSED
        (set_Submitted true (set_Signature g (set_WithdrawalTxHash h d)))) (view s);
  UpdateStatus_spec s i st :
    inv s → view <$> q_UpdateStatus i st s = Ok (alter (set_WithdrawalStatus st) i (view s));
  UpdateProcessed_spec s data :
    inv s →
    view <$> q_UpdateProcessed data s
    = spec_update_hash (pd_Identifier data) (pd_TxHash data) (Pg.processed_update data) (view s);
  UpdateSubmittedStatus_spec s i b :
    inv s → view <$> q_UpdateSubmittedStatus i b s = Ok (alter (set_Submitted b) i (view s));
  UpdateDistributedStatus_spec s i b :
    inv s → view <$> q_UpdateDistributedStatus i b s = Ok (alter (set_Distributed b) i (view s));
  update_inv s s' :
    inv s →
    (∃ i h g, q_UpdateWithdrawalDetails i h g s = Ok s') ∨
    (∃ i st, q_UpdateStatus i st s = Ok s') ∨
    (∃ data, q_UpdateProcessed data s = Ok s') ∨
    (∃ i b, q_UpdateSubmittedStatus i b s = Ok s') ∨
    (∃ i b, q_UpdateDistributedStatus i b s = Ok s') → inv s' }.

(** ** The invariant of the table

    [unique_deposit] and the sequence: identifiers are pairwise distinct, ids
    are distinct values the sequence has already produced. *)

Record table_wf (t : Table) : Prop := {
  wf_unique : NoDup (d_ident <$> rows t);
  wf_ids : NoDup (d_Id <$> rows t);
  wf_seq : Forall (λ d, d_Id d < nextId t) (rows t) }.

Definition table_view (t : Table) : Store :=
  list_to_map ((λ d, (d_ident d, d)) <$> rows t).

(** All the operations that change the table. *)
Inductive db_step : Table → Table → Prop :=
| step_Insert d t t' r : Pg.Insert d t = (t', r) → db_step t t'
| step_InsertProcessed d t t' r : Pg.InsertProcessedDeposit d t = (t', r) → db_step t t'
| step_UpdateWithdrawalDetails i h g t t' :
    Pg.UpdateWithdrawalDetails i h g t = Ok t' → db_step t t'
| step_UpdateStatus i s t t' : Pg.UpdateStatus i s t = Ok t' → db_step t t'
| step_UpdateProcessed p t t' : Pg.UpdateProcessed p t = Ok t' → db_step t t'
| step_UpdateSubmitted i b t t' : Pg.UpdateSubmittedStatus i b t = Ok t' → db_step t t'
| step_UpdateDistributed i b t t' : Pg.UpdateDistributedStatus i b t = Ok t' → db_step t t'.

Definition empty_table : Table := {| rows := []; nextId := 1 |}.

(** Updates that keep the key columns. *)
Definition keeps_key (f : Deposit → Deposit) : Prop :=
  ∀ d, d_ident (f d) = d_ident d ∧ d_Id (f d) = d_Id d.

Lemma keeps_set_status s : keeps_key (set_WithdrawalStatus s). Proof. done. Qed.
Lemma keeps_set_hash s : keeps_key (set_WithdrawalTxHash s). Proof. done. Qed.
Lemma keeps_set_sig s : keeps_key (set_Signature s). Proof. done. Qed.
Lemma keeps_set_data s : keeps_key (set_TxData s). Proof. done. Qed.
Lemma keeps_set_submitted s : keeps_key (set_Submitted s). Proof. done. Qed.
Lemma keeps_set_distributed s : keeps_key (set_Distributed s). Proof. done. Qed.
Lemma keeps_details h g : keeps_key (λ d, set_WithdrawalStatus WS_PROCESSED
        (set_Submitted true (set_Signature g (set_WithdrawalTxHash h d)))).
Proof. done. Qed.
Lemma keeps_processed p : keeps_key (Pg.processed_update p).
Proof. intros d. by destruct p as [? [] [] []]. Qed.
#[export] Hint Resolve keeps_set_status keeps_set_hash keeps_set_sig keeps_set_data
  keeps_set_submitted keeps_set_distributed keeps_details keeps_processed : tss.

Section table.
Implicit Types t : Table.

Lemma view_lookup t i d :
  NoDup (d_ident <$> rows t) → table_view t !! i = Some d ↔ d ∈ rows t ∧ d_ident d = i.
Proof.
  intros Hnd. unfold table_view. rewrite <- elem_of_list_to_map.
  - rewrite list_elem_of_fmap. naive_solver.
  - by rewrite <- list_fmap_compose.
Qed.

Lemma exists_ident t i :
  NoDup (d_ident <$> rows t) →
  existsb (Pg.has_ident i) (rows t) = true ↔ is_Some (table_view t !! i).
Proof.
  intros Hnd. rewrite existsb_exists. unfold is_Some, Pg.has_ident.
  setoid_rewrite view_lookup; [|done]. setoid_rewrite bool_decide_eq_true.
  by setoid_rewrite list_elem_of_In.
Qed.

Lemma update_where_wf t i f : keeps_key f → table_wf t → table_wf (Pg.update_where i f t).
Proof.
  intros Hf [H1 H2 H3].
  split; simpl; [rewrite <- list_fmap_compose..|].
  - erewrite list_fmap_ext; [done|]. intros k d _. simpl.
    case_match; [apply Hf|done].
  - erewrite list_fmap_ext; [done|]. intros k d _. simpl.
    case_match; [apply Hf|done].
  - apply Forall_fmap. eapply Forall_impl; [done|]. intros d Hd. simpl.
    case_match; [by rewrite (proj2 (Hf d))|done].
Qed.

Lemma update_where_view t i f :
  keeps_key f → table_wf t → table_view (Pg.update_where i f t) = alter f i (table_view t).
Proof.
  intros Hf Hwf. pose proof (update_where_wf t i f Hf Hwf) as Hwf'.
  apply map_eq. intros j. apply option_eq. intros d.
  rewrite view_lookup by apply Hwf'.
  rewrite lookup_alter_Some. unfold Pg.update_where, Pg.has_ident. simpl. rewrite list_elem_of_fmap.
  setoid_rewrite view_lookup; [|apply Hwf..].
  split.
  - intros [(d0 & -> & Hin) <-]. case_bool_decide as Hi.
    + left. rewrite (proj1 (Hf d0)). eauto.
    + right. eauto.
  - intros [(<- & d0 & [Hin <-] & ->)|(Hne & Hin & <-)].
    + split; [|apply Hf]. exists d0. by rewrite bool_decide_true.
    + split; [|done]. exists d. by rewrite bool_decide_false.
Qed.

Lemma insert_row_wf t row t' r :
  (∀ id, d_Id (row id) = id) → table_wf t → Pg.insert_row row t = (t', r) → table_wf t'.
Proof.
  intros Hrow [H1 H2 H3]. unfold Pg.insert_row.
  assert (table_wf {| rows := rows t; nextId := nextId t + 1 |}) as Hbump.
  { split; simpl; [done..|]. eapply Forall_impl; [done|]. intros d; simpl; lia. }
  case_match; [naive_solver|]. case_match eqn:He; [naive_solver|].
  intros [= <- _]. split; simpl.
  - rewrite fmap_app. simpl. apply NoDup_app. split; [done|].
    split; [|apply NoDup_singleton].
    intros i (d & -> & Hin)%list_elem_of_fmap Hx%list_elem_of_singleton.
    assert (existsb (Pg.has_ident (d_ident (row (nextId t)))) (rows t) = true) as Hex; [|congruence].
    apply existsb_exists. exists d. split; [by apply list_elem_of_In|].
    unfold Pg.has_ident. by rewrite bool_decide_true.
  - rewrite fmap_app. simpl. apply NoDup_app. split; [done|].
    split; [|apply NoDup_singleton].
    intros i (d & -> & Hin)%list_elem_of_fmap Hx%list_elem_of_singleton.
    rewrite Hrow in Hx. pose proof (proj1 (Forall_forall _ _) H3 _ Hin) as Hlt. simpl in Hlt. lia.
  - apply Forall_app. split; [by apply Hbump|]. constructor; [|done]. rewrite Hrow. lia.
Qed.

Lemma insert_row_view t row t' r :
  (∀ id, d_Id (row id) = id) → table_wf t → Pg.insert_row row t = (t', r) →
  spec_insert row (nextId t) (table_view t) (table_view t') r.
Proof.
  intros Hrow Hwf Hins. pose proof (insert_row_wf _ _ _ _ Hrow Hwf Hins) as Hwf'.
  unfold Pg.insert_row in Hins. unfold spec_insert.
  destruct (row_fits (row (nextId t))); simpl in *; [|by simplify_eq].
  pose proof (exists_ident t (d_ident (row (nextId t))) (wf_unique _ Hwf)) as Hex.
  destruct (existsb _ _); simplify_eq.
  - by destruct (proj1 Hex eq_refl) as [? ->].
  - destruct (table_view t !! _) eqn:E.
    { by discriminate (proj2 Hex (ex_intro _ _ eq_refl)). }
    split; [|done]. apply map_eq. intros j. apply option_eq. intros d.
    rewrite view_lookup by apply Hwf'. rewrite lookup_insert_Some. simpl.
    rewrite elem_of_app, list_elem_of_singleton.
    setoid_rewrite (view_lookup t); [|apply Hwf].
    split.
    + intros [[Hin| ->] <-]; [right|by left].
      split; [|done]. intros Heq.
      assert (table_view t !! d_ident (row (nextId t)) = Some d) by (rewrite Heq; by apply view_lookup; [apply Hwf|]).
      congruence.
    + naive_solver.
Qed.

Lemma Get_view t i : table_wf t → Pg.Get i t = table_view t !! i.
Proof.
  intros Hwf. unfold Pg.Get. apply option_eq. intros d.
  rewrite view_lookup by apply Hwf. split.
  - intros Hd. apply head_Some_elem_of in Hd. apply list_elem_of_filter in Hd.
    unfold Pg.has_ident in Hd. rewrite bool_decide_spec in Hd. naive_solver.
  - intros [Hin Hi].
    destruct (filter (λ d0, Pg.has_ident i d0) (rows t)) as [|e l] eqn:E.
    + assert (d ∈ filter (λ d0, Pg.has_ident i d0) (rows t)) as X.
      { apply list_elem_of_filter. split; [|done]. unfold Pg.has_ident. by rewrite bool_decide_spec. }
      rewrite E in X. by apply elem_of_nil in X.
    + assert (e ∈ filter (λ d0, Pg.has_ident i d0) (rows t)) as X by (rewrite E; set_solver).
      apply list_elem_of_filter in X as [Hx Hein]. unfold Pg.has_ident in Hx.
      rewrite bool_decide_spec in Hx. simpl. f_equal.
      assert (table_view t !! i = Some e) as Y1 by (by apply view_lookup; [apply Hwf|]).
      assert (table_view t !! i = Some d) as Y2 by (by apply view_lookup; [apply Hwf|]).
      congruence.
Qed.

Lemma One_head selector t d :
  sel_One selector = true → Pg.GetWithSelector selector t = Some d →
  d ∈ rows t ∧ sel_matches selector d = true ∧
  ∀ d', d' ∈ rows t → sel_matches selector d' = true → d_Id d ≤ d_Id d'.
Proof.
  intros Hone. unfold Pg.GetWithSelector, Pg.applySelector. rewrite Hone.
  set (found := filter _ _).
  assert (Total id_le) by (intros a b; unfold id_le; lia).
  assert (Transitive id_le) by (intros a b c; unfold id_le; lia).
  pose proof (StronglySorted_merge_sort id_le found) as Hs.
  pose proof (merge_sort_Permutation id_le found) as Hp.
  destruct (merge_sort id_le found) as [|e l]; [done|]. simpl. intros [= ->].
  assert (d ∈ found) as Hd by (rewrite <- Hp; set_solver).
  apply list_elem_of_filter in Hd as [Hm Hin]. repeat split; [done|by destruct (sel_matches _ _)|].
  intros d' Hin' Hm'.
  assert (d' ∈ d :: l) as [->|Hl]%elem_of_cons; [|lia|].
  { rewrite Hp. apply list_elem_of_filter. by rewrite Hm'. }
  apply StronglySorted_inv in Hs as [_ Hall].
  exact (proj1 (Forall_forall _ _) Hall _ Hl).
Qed.

Lemma One_none selector t d :
  Pg.GetWithSelector selector t = None → d ∈ rows t → sel_matches selector d = false.
Proof.
  intros Hn Hin. destruct (sel_matches selector d) eqn:E; [|done]. exfalso.
  assert (d ∈ filter (λ d, sel_matches selector d) (rows t)) as Hd
    by (apply list_elem_of_filter; by rewrite E).
  unfold Pg.GetWithSelector, Pg.applySelector in Hn. destruct (sel_One selector).
  - rewrite <- (merge_sort_Permutation id_le) in Hd.
    destruct (merge_sort _ _); [by apply elem_of_nil in Hd|done].
  - destruct (filter _ _); [by apply elem_of_nil in Hd|done].
Qed.

Lemma update_hash_wf t i h f t' :
  keeps_key f → table_wf t → Pg.update_hash i h f t = Ok t' → table_wf t'.
Proof.
  intros Hf Hwf. unfold Pg.update_hash. case_match; [done|]. intros [= <-].
  by apply update_where_wf.
Qed.

Lemma update_hash_view t i h f :
  keeps_key f → table_wf t →
  table_view <$> Pg.update_hash i h f t = spec_update_hash i h f (table_view t).
Proof.
  intros Hf Hwf. unfold Pg.update_hash, spec_update_hash.
  pose proof (exists_ident t i (wf_unique _ Hwf)) as Hex.
  destruct (existsb _ _); simpl.
  - destruct (proj1 Hex eq_refl) as [d ->]. destruct (fits_opt 100 h); simpl; [|done].
    by rewrite update_where_view.
  - destruct (table_view t !! i) eqn:E; [by discriminate (proj2 Hex (ex_intro _ _ eq_refl))|].
    rewrite update_where_view by done. by rewrite alter_id by congruence.
Qed.

Lemma db_step_wf t t' : table_wf t → db_step t t' → table_wf t'.
Proof.
  intros Hwf Hs. destruct Hs as [d t t' r Hi|d t t' r Hi|i h g t t' Hu|i s t t' Hu|p t t' Hu
                               |i b t t' Hu|i b t t' Hu].
  1,2: by eapply insert_row_wf in Hi.
  1,3: eapply update_hash_wf in Hu; eauto with tss.
  all: injection Hu as <-; apply update_where_wf; auto with tss.
Qed.

End table.

#[export] Program Instance Table_refines_spec : DepositsSpec Table := {
  inv := table_wf; view := table_view }.
Next Obligation. intros s i d Hwf Hl. by apply view_lookup in Hl as [_ ?]; [|apply Hwf]. Qed.
Next Obligation.
  intros s d s' r Hwf Hi. split; [by eapply insert_row_wf in Hi|].
  exists (nextId s). by apply insert_row_view.
Qed.
Next Obligation.
  intros s d s' r Hwf Hi. split; [by eapply insert_row_wf in Hi|].
  exists (nextId s). by apply insert_row_view.
Qed.
Next Obligation. intros s i Hwf. by apply Get_view. Qed.
Next Obligation.
  intros s selector Hwf Hone. simpl. destruct (Pg.GetWithSelector selector s) as [d|] eqn:E.
  - apply One_head in E as (Hin & Hm & Hmin); [|done]. split; [|split; [done|]].
    + by apply view_lookup; [apply Hwf|].
    + intros i d' Hl. apply view_lookup in Hl as [Hl _]; [|apply Hwf]. by apply Hmin.
  - intros i d Hl. apply view_lookup in Hl as [Hl _]; [|apply Hwf].
    by eapply One_none.
Qed.
Next Obligation.
  intros s selector d Hwf Hone. simpl. unfold Pg.Select, Pg.applySelector. rewrite Hone.
  rewrite list_elem_of_filter, view_lookup by apply Hwf.
  destruct (sel_matches selector d); naive_solver.
Qed.
Next Obligation. intros s i h g Hwf. by apply update_hash_view; auto with tss. Qed.
Next Obligation. intros s i st Hwf. simpl. by rewrite update_where_view by auto with tss. Qed.
Next Obligation. intros s data Hwf. by apply update_hash_view; auto with tss. Qed.
Next Obligation. intros s i b Hwf. simpl. by rewrite update_where_view by auto with tss. Qed.
Next Obligation. intros s i b Hwf. simpl. by rewrite update_where_view by auto with tss. Qed.
Next Obligation.
  intros s s' Hwf Hs. eapply db_step_wf; [done|].
  naive_solver eauto using db_step.
Qed.

(** ** Theorems *)

Definition sample_deposit : Deposit :=
  ToNewDeposit
    {| dd_ident := {| TxHash := "0xabc"; TxNonce := 2; ChainId := "1" |};
       dd_Block := 100; dd_SourceAddress := "0xA"; dd_DepositAmount := 12345;
       dd_TokenAddress := "0xT"; dd_ReferralId := 3;
       dd_DestinationAddress := "bc1q"; dd_DestinationChainId := "0" |}
    12000 345 "0x00" true.

(** A deposit is stored at most once.  [Insert] of a row that fits its
    columns succeeds exactly when the identifier is unknown, and fails with
    [ErrAlreadySubmitted] otherwise; afterwards [Get] of that identifier returns
    the stored row and [Get] of any other identifier is unchanged. *)
Theorem Insert_Get t d t' r :
  table_wf t → row_fits (inserted_row 0 d) = true → Pg.Insert d t = (t', r) →
  match Pg.Get (d_ident d) t with
  | Some old => r = Err (ESentinel ErrAlreadySubmitted) ∧ ∀ i, Pg.Get i t' = Pg.Get i t
  | None => ∃ id, r = Ok id ∧ Pg.Get (d_ident d) t' = Some (inserted_row id d) ∧
              ∀ i, i ≠ d_ident d → Pg.Get i t' = Pg.Get i t
  end.
Proof.
  intros Hwf Hfit Hi.
  pose proof (insert_row_wf t (λ id, inserted_row id d) t' r (λ _, eq_refl) Hwf Hi) as Hwf'.
  pose proof (insert_row_view t (λ id, inserted_row id d) t' r (λ _, eq_refl) Hwf Hi) as Hs.
  unfold spec_insert in Hs. change (row_fits (inserted_row (nextId t) d)) with
    (row_fits (inserted_row 0 d)) in Hs. rewrite Hfit in Hs. simpl in Hs.
  pose proof (λ i, Get_view t i Hwf) as HG. pose proof (λ i, Get_view t' i Hwf') as HG'.
  rewrite HG. destruct (table_view t !! d_ident d) eqn:E; destruct Hs as [Hv ->].
  - split; [done|]. intros i. by rewrite HG, HG', Hv.
  - exists (nextId t). rewrite HG', Hv, lookup_insert_eq. repeat split.
    intros i Hne. by rewrite HG, HG', Hv, lookup_insert_ne.
Qed.

Lemma Insert_Get_witness :
  Pg.Get (d_ident sample_deposit) (Pg.Insert sample_deposit empty_table).1
  = Some (inserted_row 1 sample_deposit).
Proof.
  destruct (Insert_Get empty_table sample_deposit
              (Pg.Insert sample_deposit empty_table).1
              (Pg.Insert sample_deposit empty_table).2) as (id & Hr & Hg & _).
  - split; simpl; constructor.
  - reflexivity.
  - apply surjective_pairing.
  - rewrite Hg. by injection Hr as <-.
Defined.

(** [GetWithSelector] with [One] returns the oldest matching deposit: a row of
    the table that satisfies every condition of the selector, with no matching
    row of smaller id; it returns nothing only if no row matches. *)
Theorem GetWithSelector_oldest t selector :
  sel_One selector = true →
  match Pg.GetWithSelector selector t with
  | Some d => d ∈ rows t ∧ sel_matches selector d = true ∧
      ∀ d', d' ∈ rows t → sel_matches selector d' = true → d_Id d ≤ d_Id d'
  | None => ∀ d, d ∈ rows t → sel_matches selector d = false
  end.
Proof.
  intros Hone. destruct (Pg.GetWithSelector selector t) eqn:E.
  - by apply One_head.
  - intros d. by apply One_none.
Qed.

Lemma GetWithSelector_oldest_witness :
  sel_matches {| sel_Ids := []; sel_ChainId := None; sel_WithdrawalChainId := Some "7";
                 sel_One := true; sel_Status := Some WS_PENDING; sel_NotSubmitted := true;
                 sel_Distributed := false; sel_NotDistributed := true |}
    (inserted_row 1 sample_deposit) = false.
Proof.
  apply (GetWithSelector_oldest (Pg.Insert sample_deposit empty_table).1
    {| sel_Ids := []; sel_ChainId := None; sel_WithdrawalChainId := Some "7";
       sel_One := true; sel_Status := Some WS_PENDING; sel_NotSubmitted := true;
       sel_Distributed := false; sel_NotDistributed := true |} eq_refl).
  apply list_elem_of_singleton. reflexivity.
Defined.

(** [UpdateProcessed] marks exactly the identified deposit as processed and
    stores the given signature, hash and transaction data, keeping the previous
    value of each field that is not given and every other row. *)
Theorem UpdateProcessed_functional t data d :
  table_wf t → Pg.Get (pd_Identifier data) t = Some d →
  fits_opt 100 (pd_TxHash data) = true →
  ∃ t' d', Pg.UpdateProcessed data t = Ok t' ∧
    Pg.Get (pd_Identifier data) t' = Some d' ∧
    d' = set_columns d WS_PROCESSED
           (pd_TxHash data ∪ d_WithdrawalTxHash d)
           (pd_Signature data ∪ d_Signature d)
           (pd_TxData data ∪ d_TxData d)
           (d_Submitted d) (d_Distributed d) ∧
    ∀ i, i ≠ pd_Identifier data → Pg.Get i t' = Pg.Get i t.
Proof.
  intros Hwf Hg Hfit. rewrite Get_view in Hg by done.
  pose proof (update_hash_view t (pd_Identifier data) (pd_TxHash data)
                (Pg.processed_update data) (keeps_processed data) Hwf) as Hv.
  unfold spec_update_hash in Hv. rewrite Hg, Hfit in Hv.
  destruct (Pg.update_hash _ _ _ _) as [t'| |] eqn:Hu; try done. injection Hv as Hv.
  exists t', (Pg.processed_update data d). split; [done|].
  assert (table_wf t') as Hwf' by (eapply update_hash_wf; eauto with tss).
  pose proof (λ i, Get_view t i Hwf) as HG. pose proof (λ i, Get_view t' i Hwf') as HG'.
  rewrite HG', Hv, lookup_alter_eq, Hg. repeat split.
  - by destruct data as [? [] [] []], d as [? ? ? ? ? ? ? ? ? ? ? [] ? ? ? [] [] ? ?].
  - intros i Hne. by rewrite HG, HG', Hv, lookup_alter_ne.
Qed.

Lemma UpdateProcessed_functional_witness :
  let data := {| pd_Identifier := d_ident sample_deposit; pd_Signature := Some "0xsig";
                 pd_TxHash := None; pd_TxData := None |} in
  ∃ t' d', Pg.UpdateProcessed data (Pg.Insert sample_deposit empty_table).1 = Ok t' ∧
    Pg.Get (d_ident sample_deposit) t' = Some d' ∧ d_Signature d' = Some "0xsig".
Proof.
  intros data.
  destruct (UpdateProcessed_functional (Pg.Insert sample_deposit empty_table).1 data
              (inserted_row 1 sample_deposit)) as (t' & d' & Hu & Hg & -> & _).
  - eapply (db_step_wf empty_table).
    + split; simpl; constructor.
    + eapply step_Insert. apply surjective_pairing.
  - reflexivity.
  - reflexivity.
  - by exists t', (set_columns (inserted_row 1 sample_deposit) WS_PROCESSED
                     None (Some "0xsig") None false false).
Defined.
