(* ===== verification/Broadcast.v ===== *)
(** * Reliable broadcast

    Models [internal/p2p/broadcast/reliable.go] (the Dolev-Strong style relay of
    signature chains) and [default.go].  Time is not modelled: [EnsureValid] and
    [Broadcast] take the messages the loop of [startRounds] reads from the
    channel before its context expires, in the order in which it reads them, and
    the theorems hold for every such sequence.

    SHA-256, the gob encoding and secp256k1 are the class [Crypto]. *)

From S2P Require Import Prelude Core.
#[local] Open Scope Z_scope.

(** What one gob encoder is given in [SignHash]: strings and byte strings. *)
Inductive GobItem := GobString (s : string) | GobBytes (bs : bytes).

#[export] Instance GobItem_eq_dec : EqDecision GobItem.
Proof. solve_decision. Defined.

Class Crypto := {
  PrivKey : Type;
  sha256 : bytes → bytes;
  (** the bytes one encoder writes for a sequence of values *)
  gob_encode : list GobItem → bytes;
  (** [crypto.SigToPub] followed by [crypto.PubkeyToAddress] *)
  SigToAddress : bytes → bytes → option bytes;
  (** [PrivKey.Sign] *)
  Sign : PrivKey → bytes → option bytes }.

(** [broadcast.Hashable] *)
Class Hashable (T : Type) := HashString : T → string.

Record Signature := { sg_Signer : Address; sg_Value : bytes }.

#[export] Instance Signature_eq_dec : EqDecision Signature.
Proof. solve_decision. Defined.

Record RoundMessage (T : Type) := {
  rm_Value : option T;
  rm_SessionId : string;
  rm_Round : Z;
  rm_Signatures : list Signature }.
Arguments rm_Value {_} _.
Arguments rm_SessionId {_} _.
Arguments rm_Round {_} _.
Arguments rm_Signatures {_} _.
Arguments Build_RoundMessage {_} _ _ _ _.

Record ReliableBroadcastMsg (T : Type) := {
  bm_Msg : RoundMessage T;
  bm_Sender : Address }.
Arguments bm_Msg {_} _.
Arguments bm_Sender {_} _.
Arguments Build_ReliableBroadcastMsg {_} _ _.

Definition defaultChanCapacity : nat := 200.

Section reliable.
Context `{Bech32, Crypto} {T : Type} `{!Hashable T}.

Definition with_signatures (m : RoundMessage T) (sigs : list Signature) : RoundMessage T :=
  {| rm_Value := rm_Value m; rm_SessionId := rm_SessionId m;
     rm_Round := rm_Round m; rm_Signatures := sigs |}.

(** The sequence of values [SignHash] encodes: a nil value is left out. *)
Definition sign_items (m : RoundMessage T) : list GobItem :=
  GobString (rm_SessionId m) ::
  (match rm_Value m with Some v => [GobString (HashString v)] | None => [] end) ++
  mjoin ((λ s, [GobString (sg_Signer s); GobBytes (sg_Value s)]) <$> rm_Signatures m).

Definition SignHash (m : RoundMessage T) : bytes := sha256 (gob_encode (sign_items m)).

Definition SignatureValid (m : RoundMessage T) (signature : Signature) : res bool :=
  match SigToAddress (SignHash m) (sg_Value signature) with
  | None => Ok false
  | Some recovered =>
      signer ← Addr.Bytes (sg_Signer signature);
      Ok (bool_decide (recovered = signer))
  end.

(** The fields of [ReliableBroadcaster] the constructor fixes. *)
Record RBConfig := {
  rb_sessionId : string;
  rb_parties : list Party;
  rb_self : Account PrivKey;
  rb_relayRounds : Z;
  rb_partiesMap : gset Address }.

(** The fields the methods change.  [receivedMsgs] has an entry for each party of
    the group except the node itself; a missing entry is a nil map. *)
Record RBState := {
  rb_originMsgSender : Address;
  rb_receivedMsgs : gmap Address (gset Z);
  rb_values : gmap string (option T);
  rb_finalSigChainReached : bool }.

Definition NewReliable (sessionId : string) (parties : list Party) (self : Account PrivKey)
    (maxMaliciousParties : Z) : RBConfig * RBState :=
  let relayRounds := int64 (maxMaliciousParties + 1) in
  ({| rb_sessionId := sessionId;
      rb_parties := parties;
      rb_self := self;
      rb_relayRounds := relayRounds;
      rb_partiesMap := {[CosmosAddress self]} ∪ list_to_set (CoreAddress <$> parties) |},
   {| rb_originMsgSender := "";
      rb_receivedMsgs := foldl (λ m p, <[CoreAddress p := ∅]> m) ∅ parties;
      rb_values := ∅;
      rb_finalSigChainReached := false |}).

(** The key of the values map: nil is stored under the empty string. *)
Definition value_key (value : option T) : string :=
  match value with None => "" | Some v => HashString v end.

Definition addToValuesSet (value : option T) (b : RBState) : RBState :=
  {| rb_originMsgSender := rb_originMsgSender b;
     rb_receivedMsgs := rb_receivedMsgs b;
     rb_values := match rb_values b !! value_key value with
                  | None => <[value_key value := value]> (rb_values b)
                  | Some _ => rb_values b
                  end;
     rb_finalSigChainReached := rb_finalSigChainReached b |}.

Definition set_origin (a : Address) (b : RBState) : RBState :=
  {| rb_originMsgSender := a; rb_receivedMsgs := rb_receivedMsgs b;
     rb_values := rb_values b; rb_finalSigChainReached := rb_finalSigChainReached b |}.
Definition set_final (b : RBState) : RBState :=
  {| rb_originMsgSender := rb_originMsgSender b; rb_receivedMsgs := rb_receivedMsgs b;
     rb_values := rb_values b; rb_finalSigChainReached := true |}.
Definition set_received (r : gmap Address (gset Z)) (b : RBState) : RBState :=
  {| rb_originMsgSender := rb_originMsgSender b; rb_receivedMsgs := r;
     rb_values := rb_values b; rb_finalSigChainReached := rb_finalSigChainReached b |}.

Context (c : RBConfig).
Implicit Types (b : RBState) (msg : ReliableBroadcastMsg T).

Definition self_addr : Address := CosmosAddress (rb_self c).

(** The loop of [validateSignatures] over [slices.Backward(Signatures)]: [rsigs]
    is the rest of the chain, last signature first. *)
Fixpoint checkSignatures (m : RoundMessage T) (rsigs : list Signature)
    (senderChecked : gset Address) (selfSigned : bool) : res (bool * bool) :=
  match rsigs with
  | [] => Ok (true, selfSigned)
  | signature :: rest =>
      if negb (bool_decide (sg_Signer signature ∈ rb_partiesMap c)) then Ok (false, selfSigned)
      else if bool_decide (sg_Signer signature ∈ senderChecked) then Ok (false, selfSigned)
      else
        valid ← SignatureValid (with_signatures m (rev rest)) signature;
        if negb valid then Ok (false, selfSigned)
        else checkSignatures m rest ({[sg_Signer signature]} ∪ senderChecked)
               (selfSigned || bool_decide (sg_Signer signature = self_addr))
  end.

(** [Signatures[0]] and [Signatures[len-1]] panic on an empty chain. *)
Definition validateSignatures (b : RBState) (msg : ReliableBroadcastMsg T) : res (bool * bool) :=
  let roundMsg := bm_Msg msg in
  let sigs := rm_Signatures roundMsg in
  if negb (Z.of_nat (length sigs) =? int64 (rm_Round roundMsg + 1)) then Ok (false, false)
  else
    match head sigs, last sigs with
    | Some first, Some lst =>
        if negb (bool_decide (sg_Signer first = rb_originMsgSender b)) then Ok (false, false)
        else if negb (bool_decide (sg_Signer lst = bm_Sender msg)) then Ok (false, false)
        else checkSignatures roundMsg (rev sigs) ∅ false
    | _, _ => Panic
    end.

(** The new state and the message relayed to the group, if any. *)
Definition processMsg (msg : ReliableBroadcastMsg T) (b : RBState)
    : res (RBState * option (RoundMessage T)) :=
  validated ← validateSignatures b msg;
  let (signaturesValid, selfSigned) := (validated : bool * bool) in
  if negb signaturesValid then Ok (b, None)
  else
    let b := addToValuesSet (rm_Value (bm_Msg msg)) b in
    let signaturesCount :=
      Z.of_nat (length (rm_Signatures (bm_Msg msg))) + (if selfSigned then 0 else 1) in
    let b := if rb_relayRounds c <=? signaturesCount then set_final b else b in
    if selfSigned then Ok (b, None)
    else
      let round := int64 (rm_Round (bm_Msg msg) + 1) in
      if round =? rb_relayRounds c then Ok (b, None)
      else
        let m' := {| rm_Value := rm_Value (bm_Msg msg); rm_SessionId := rm_SessionId (bm_Msg msg);
                     rm_Round := round; rm_Signatures := rm_Signatures (bm_Msg msg) |} in
        match Sign (prv (rb_self c)) (SignHash m') with
        | None => Ok (b, None)
        | Some sig =>
            Ok (b, Some (with_signatures m' (rm_Signatures m' ++
                   [{| sg_Signer := self_addr; sg_Value := sig |}])))
        end.

(** One iteration of the loop of [startRounds].  Reading a missing inner map
    yields false, writing to it panics. *)
Definition handleMsg (msg : ReliableBroadcastMsg T) (b : RBState)
    : res (RBState * option (RoundMessage T)) :=
  if negb (bool_decide (rm_SessionId (bm_Msg msg) = rb_sessionId c)) then Ok (b, None)
  else if rb_relayRounds c <? rm_Round (bm_Msg msg) then Ok (b, None)
  else
    match rb_receivedMsgs b !! bm_Sender msg with
    | None => Panic
    | Some rounds =>
        if bool_decide (rm_Round (bm_Msg msg) ∈ rounds) then Ok (b, None)
        else processMsg msg
               (set_received (<[bm_Sender msg := {[rm_Round (bm_Msg msg)]} ∪ rounds]>
                                (rb_receivedMsgs b)) b)
    end.

(** The messages read before the context expires; the second component is what
    the node broadcast, in order. *)
Fixpoint startRounds (msgs : list (ReliableBroadcastMsg T)) (b : RBState)
    : res (RBState * list (RoundMessage T)) :=
  match msgs with
  | [] => Ok (b, [])
  | msg :: rest =>
      '(b, out) ← handleMsg msg b;
      '(b, outs) ← startRounds rest b;
      Ok (b, match out with Some o => o :: outs | None => outs end)
  end.

Definition decideValid (b : RBState) : bool :=
  (size (rb_values b) =? 1)%nat && rb_finalSigChainReached b.

(** [queued] are the messages [Receive] already put into the channel, [arriving]
    the ones it puts there later; [budget] is how many the loop reads in time.
    [None]: the send on the full channel blocks, and nothing drains it. *)
Definition EnsureValid (msg : ReliableBroadcastMsg T)
    (queued arriving : list (ReliableBroadcastMsg T)) (budget : nat) (b : RBState)
    : option (res (RBState * list (RoundMessage T) * bool)) :=
  if (defaultChanCapacity <=? length queued)%nat then None
  else
    Some (
      let b := set_origin (bm_Sender msg) b in
      '(b, outs) ← startRounds (take budget (queued ++ msg :: arriving)) b;
      Ok (b, outs, decideValid b)).

(** [Receive]: whether the message is put into the channel. *)
Definition Receive (msg : ReliableBroadcastMsg T) : option error :=
  if bool_decide (bm_Sender msg ∈ rb_partiesMap c) then None
  else Some (ENew "party is not in the group").

(** [Broadcast]: the state, the messages sent and the verdict. *)
Definition Broadcast (value : option T) (received : list (ReliableBroadcastMsg T)) (b : RBState)
    : res (RBState * list (RoundMessage T) * bool) :=
  let b := set_origin self_addr (addToValuesSet value b) in
  let roundMsg := {| rm_Value := value; rm_SessionId := rb_sessionId c;
                     rm_Round := 0; rm_Signatures := [] |} in
  match Sign (prv (rb_self c)) (SignHash roundMsg) with
  | None => Ok (b, [], false)
  | Some sig =>
      let roundMsg := with_signatures roundMsg [{| sg_Signer := self_addr; sg_Value := sig |}] in
      let b := if rb_relayRounds c =? 1 then set_final b else b in
      '(b, outs) ← startRounds received b;
      Ok (b, roundMsg :: outs, decideValid b)
  end.

End reliable.

Arguments RBState : clear implicits.

(** ** default.go *)

(** The transport: whether a request reaches the party. *)
Definition Transport : Type := SubmitRequest → Address → bool.

Definition NewBroadcaster (to : list Party) : gmap Address Party := partiesByAddress to.

Definition Send (net : Transport) (parties : gmap Address Party) (msg : SubmitRequest)
    (to : Address) : option error :=
  match parties !! to with
  | None => Some (ENew "party not found")
  | Some party =>
      if net msg (CoreAddress party) then None
      else Some (EWrap (ENew "rpc error") "failed to send message")
  end.

(** The parties a [Broadcast] delivers to: the failures are only logged. *)
Definition BroadcastTo (net : Transport) (parties : gmap Address Party) (msg : SubmitRequest)
    : gset Address :=
  filter (λ a, net msg a) (dom parties).

(** ** Specification of the signature chain *)

Section spec.
Context `{Bech32, Crypto} {T : Type} `{!Hashable T}.
Implicit Types (c : RBConfig) (b : RBState T) (msg : ReliableBroadcastMsg T).

(** Every signature covers the session, the value and the chain before it. *)
Definition signed_chain (m : RoundMessage T) (sigs : list Signature) : Prop :=
  ∀ i s, sigs !! i = Some s → SignatureValid (with_signatures m (take i sigs)) s = Ok true.

(** A well-formed chain: one signature more than the round, the first by the
    origin, the last by the sender, all by distinct parties of the group. *)
Record chain_valid c (origin : Address) msg : Prop := {
  cv_length : Z.of_nat (length (rm_Signatures (bm_Msg msg))) = int64 (rm_Round (bm_Msg msg) + 1);
  cv_first : sg_Signer <$> head (rm_Signatures (bm_Msg msg)) = Some origin;
  cv_last : sg_Signer <$> last (rm_Signatures (bm_Msg msg)) = Some (bm_Sender msg);
  cv_group : Forall (λ s, sg_Signer s ∈ rb_partiesMap c) (rm_Signatures (bm_Msg msg));
  cv_distinct : NoDup (sg_Signer <$> rm_Signatures (bm_Msg msg));
  cv_signed : signed_chain (bm_Msg msg) (rm_Signatures (bm_Msg msg)) }.

Definition self_signed c msg : bool :=
  bool_decide (self_addr c ∈ sg_Signer <$> rm_Signatures (bm_Msg msg)).

(** Addresses of the group decode: they were checked when they were configured. *)
Definition group_decodes c : Prop :=
  ∀ a, a ∈ rb_partiesMap c → is_Some (bech32_decode a).

(** The message passes [validateSignatures] for the given origin. *)
Definition msg_valid c (origin : Address) msg : bool :=
  match validateSignatures c
          {| rb_originMsgSender := origin; rb_receivedMsgs := ∅; rb_values := ∅;
             rb_finalSigChainReached := false |} msg with
  | Ok (true, _) => true
  | _ => false
  end.

Definition in_scope c msg : bool :=
  bool_decide (rm_SessionId (bm_Msg msg) = rb_sessionId c) &&
  (rm_Round (bm_Msg msg) <=? rb_relayRounds c).

(** The messages that extract a value: in scope, the first of their sender and
    round, and with a valid chain. *)
Fixpoint accepted c (origin : Address) (received : gmap Address (gset Z))
    (msgs : list (ReliableBroadcastMsg T)) : list (ReliableBroadcastMsg T) :=
  match msgs with
  | [] => []
  | msg :: rest =>
      match received !! bm_Sender msg with
      | Some rounds =>
          if in_scope c msg && negb (bool_decide (rm_Round (bm_Msg msg) ∈ rounds)) then
            (if msg_valid c origin msg then [msg] else []) ++
            accepted c origin
              (<[bm_Sender msg := {[rm_Round (bm_Msg msg)]} ∪ rounds]> received) rest
          else accepted c origin received rest
      | None => accepted c origin received rest
      end
  end.

(** The chain, with the node's own acknowledgement, has [relayRounds] signers. *)
Definition long_chain c msg : bool :=
  rb_relayRounds c <=?
    Z.of_nat (length (rm_Signatures (bm_Msg msg))) + (if self_signed c msg then 0 else 1).

Definition keys_of (msgs : list (ReliableBroadcastMsg T)) : gset string :=
  list_to_set ((λ m, value_key (rm_Value (bm_Msg m))) <$> msgs).

(** [msg] is read, and before any other message of its sender and round. *)
Definition reads_first c (msgs : list (ReliableBroadcastMsg T)) msg : Prop :=
  ∃ l1 l2, msgs = l1 ++ msg :: l2 ∧
    Forall (λ m, in_scope c m = true →
              (bm_Sender m, rm_Round (bm_Msg m)) ≠ (bm_Sender msg, rm_Round (bm_Msg msg))) l1.

(** What an honest node sends to the group on accepting a message. *)
Definition relay_of c msg : option (RoundMessage T) :=
  let round := int64 (rm_Round (bm_Msg msg) + 1) in
  if self_signed c msg || (round =? rb_relayRounds c) then None
  else
    sig ← Sign (prv (rb_self c)) (SignHash (bm_Msg msg));
    Some {| rm_Value := rm_Value (bm_Msg msg); rm_SessionId := rm_SessionId (bm_Msg msg);
            rm_Round := round;
            rm_Signatures := rm_Signatures (bm_Msg msg) ++
              [{| sg_Signer := self_addr c; sg_Value := sig |}] |}.

(** ** Lemmas *)

Lemma signed_chain_snoc m sigs s :
  signed_chain m (sigs ++ [s]) ↔
  signed_chain m sigs ∧ SignatureValid (with_signatures m sigs) s = Ok true.
Proof.
  unfold signed_chain. split.
  - intros Hs. split.
    + intros i x Hi. rewrite <- (Hs i x) by by apply lookup_app_l_Some.
      do 2 f_equal. rewrite take_app_le; [done|]. apply lookup_lt_Some in Hi. lia.
    + rewrite <- (Hs (length sigs) s); [|by rewrite lookup_app_r, Nat.sub_diag by lia].
      by rewrite take_app_length.
  - intros [Hs Hl] i x Hi. apply lookup_snoc_Some in Hi as [[Hlt Hi]|[-> ->]].
    + rewrite take_app_le by lia. by apply Hs.
    + by rewrite take_app_length.
Qed.

Lemma checkSignatures_spec c m rsigs checked selfS :
  group_decodes c →
  ∃ v s', checkSignatures c m rsigs checked selfS = Ok (v, s') ∧
    (v = true ↔ Forall (λ s, sg_Signer s ∈ rb_partiesMap c) rsigs ∧
                NoDup (sg_Signer <$> rsigs) ∧
                Forall (λ s, sg_Signer s ∉ checked) rsigs ∧
                signed_chain m (rev rsigs)) ∧
    (v = true → s' = selfS || bool_decide (self_addr c ∈ sg_Signer <$> rsigs)).
Proof.
  intros Hdec. revert checked selfS.
  induction rsigs as [|s rest IH]; intros checked selfS; cbn [checkSignatures].
  { exists true, selfS. split; [done|]. split.
    - split; [|done]. intros _. split_and!; [constructor..|]. by intros i s Hs.
    - intros _. rewrite bool_decide_false by (simpl; set_solver). by rewrite orb_false_r. }
  destruct (bool_decide_reflect (sg_Signer s ∈ rb_partiesMap c)) as [Hg|Hg]; simpl;
    [|exists false, selfS; split; [done|]; split; [|done]].
  2: { split; [done|]. intros [Hf _]. by apply Forall_cons in Hf as [? _]. }
  destruct (bool_decide_reflect (sg_Signer s ∈ checked)) as [Hc|Hc];
    [exists false, selfS; split; [done|]; split; [|done]|].
  { split; [done|]. intros (_ & _ & Hf & _). by apply Forall_cons in Hf as [? _]. }
  assert (∃ v, SignatureValid (with_signatures m (rev rest)) s = Ok v) as [valid Hv].
  { unfold SignatureValid, Addr.Bytes. case_match; [|by eexists].
    destruct (Hdec _ Hg) as [? ->]. by eexists. }
  rewrite Hv. simpl. destruct valid; simpl.
  - destruct (IH ({[sg_Signer s]} ∪ checked)
                (selfS || bool_decide (sg_Signer s = self_addr c))) as (v & s' & -> & Hiff & Hself).
    exists v, s'. split; [done|]. split.
    + rewrite Hiff. rewrite !Forall_cons, NoDup_cons, signed_chain_snoc.
      assert (Forall (λ s0, sg_Signer s0 ∉ {[sg_Signer s]} ∪ checked) rest ↔
              sg_Signer s ∉ sg_Signer <$> rest ∧ Forall (λ s0, sg_Signer s0 ∉ checked) rest) as ->.
      { rewrite !Forall_forall, list_elem_of_fmap. set_solver. }
      tauto.
    + intros Hvt. rewrite (Hself Hvt), <- orb_assoc. f_equal.
      rewrite <- bool_decide_or. apply bool_decide_ext. rewrite elem_of_cons. naive_solver.
  - exists false, selfS. split; [done|]. split; [|done]. split; [done|].
    intros (_ & _ & _ & Hs). apply signed_chain_snoc in Hs as [_ Hs]. congruence.
Qed.

Lemma validateSignatures_chain c b msg :
  group_decodes c → rm_Signatures (bm_Msg msg) ≠ [] →
  ∃ v s', validateSignatures c b msg = Ok (v, s') ∧
    (v = true ↔ chain_valid c (rb_originMsgSender b) msg) ∧
    (v = true → s' = self_signed c msg).
Proof.
  intros Hdec Hne. unfold validateSignatures.
  destruct (Z.eqb_spec (Z.of_nat (length (rm_Signatures (bm_Msg msg))))
              (int64 (rm_Round (bm_Msg msg) + 1))) as [Hl|Hl]; simpl;
    [|exists false, false; split; [done|]; split; [|done]; split; [done|by intros []]].
  destruct (rm_Signatures (bm_Msg msg)) as [|f rest] eqn:Es; [done|].
  destruct (last (f :: rest)) as [l|] eqn:El; [|by apply last_None in El].
  cbn [head hd_error].
  case_bool_decide as Hf; simpl; [|exists false, false; split; [done|]; split; [|done]].
  2: { split; [done|]. intros [_ Hf' _ _ _ _]. rewrite Es in Hf'. naive_solver. }
  case_bool_decide as Hlast; simpl; [|exists false, false; split; [done|]; split; [|done]].
  2: { split; [done|]. intros [_ _ Hl' _ _ _]. rewrite Es, El in Hl'. naive_solver. }
  destruct (checkSignatures_spec c (bm_Msg msg) (rev (f :: rest)) ∅ false Hdec)
    as (v & s' & Hc & Hiff & Hself).
  exists v, s'. split; [exact Hc|]. rewrite rev_involutive in Hiff.
  assert (sg_Signer <$> rev (f :: rest) ≡ₚ sg_Signer <$> (f :: rest)) as Hp
    by (rewrite <- Permutation_rev; done).
  split.
  - rewrite Hiff, Hp. rewrite <- Permutation_rev at 1.
    assert (∀ l, Forall (λ s0 : Signature, sg_Signer s0 ∉ (∅ : gset Address)) l) as He
      by (intros l'; apply Forall_true; set_solver).
    split.
    + intros (H1 & H2 & _ & H4). split; rewrite ?Es, ?El; simpl; [done|..|done|done|done];
        congruence.
    + intros [_ _ _ H4 H5 H6]. rewrite Es in *. done.
  - intros Hv. rewrite (Hself Hv). simpl. unfold self_signed. rewrite Es.
    apply bool_decide_ext. by rewrite Hp.
Qed.

Lemma validateSignatures_origin c b b' msg :
  rb_originMsgSender b = rb_originMsgSender b' →
  validateSignatures c b msg = validateSignatures c b' msg.
Proof. intros Ho. unfold validateSignatures. by rewrite Ho. Qed.

Lemma validateSignatures_nonempty c b msg v s :
  validateSignatures c b msg = Ok (v, s) → v = true → rm_Signatures (bm_Msg msg) ≠ [].
Proof.
  unfold validateSignatures. intros Hv -> He. rewrite He in Hv. simpl in Hv.
  by destruct (negb _).
Qed.

Lemma msg_valid_spec c origin msg :
  group_decodes c → msg_valid c origin msg = true ↔ chain_valid c origin msg.
Proof.
  intros Hdec. unfold msg_valid.
  set (b0 := {| rb_originMsgSender := origin; rb_receivedMsgs := ∅; rb_values := ∅;
                rb_finalSigChainReached := false |} : RBState T).
  destruct (decide (rm_Signatures (bm_Msg msg) = [])) as [He|Hne].
  - split.
    + destruct (validateSignatures c b0 msg) as [[[] s]| |] eqn:E; try done.
      by apply validateSignatures_nonempty in E.
    + intros [_ Hf _ _ _ _]. rewrite He in Hf. done.
  - destruct (validateSignatures_chain c b0 msg Hdec Hne) as (v & s' & -> & Hiff & _).
    simpl in Hiff. destruct v; naive_solver.
Qed.

Lemma processMsg_Ok c msg b b' out :
  group_decodes c → processMsg c msg b = Ok (b', out) →
  rb_originMsgSender b' = rb_originMsgSender b ∧ rb_receivedMsgs b' = rb_receivedMsgs b ∧
  if msg_valid c (rb_originMsgSender b) msg then
    dom (rb_values b') = dom (rb_values b) ∪ {[value_key (rm_Value (bm_Msg msg))]} ∧
    rb_finalSigChainReached b' = rb_finalSigChainReached b || long_chain c msg ∧
    out = relay_of c msg
  else rb_values b' = rb_values b ∧
       rb_finalSigChainReached b' = rb_finalSigChainReached b ∧ out = None.
Proof.
  intros Hdec. unfold processMsg, msg_valid.
  rewrite (validateSignatures_origin c {| rb_originMsgSender := rb_originMsgSender b |} b)
    by done.
  destruct (validateSignatures c b msg) as [[v s]| |] eqn:Hv; simpl; [|done..].
  destruct v; simpl; [|by intros [= <- <-]].
  destruct (validateSignatures_chain c b msg Hdec) as (v' & s' & Hv' & _ & Hself).
  { by eapply validateSignatures_nonempty. }
  rewrite Hv in Hv'. injection Hv' as <- <-. rewrite (Hself eq_refl). clear Hself Hv.
  assert (dom (rb_values (addToValuesSet (rm_Value (bm_Msg msg)) b))
          = dom (rb_values b) ∪ {[value_key (rm_Value (bm_Msg msg))]}) as Hdom.
  { simpl. case_match eqn:Hl; [|rewrite dom_insert_L; set_solver].
    apply elem_of_dom_2 in Hl. set_solver. }
  unfold relay_of, long_chain.
  set (n := Z.of_nat _ + _).
  assert (∀ x, b' = (if rb_relayRounds c <=? n
                     then set_final (addToValuesSet (rm_Value (bm_Msg msg)) b)
                     else addToValuesSet (rm_Value (bm_Msg msg)) b) → out = x →
    rb_originMsgSender b' = rb_originMsgSender b ∧ rb_receivedMsgs b' = rb_receivedMsgs b ∧
    dom (rb_values b') = dom (rb_values b) ∪ {[value_key (rm_Value (bm_Msg msg))]} ∧
    rb_finalSigChainReached b' = rb_finalSigChainReached b || (rb_relayRounds c <=? n) ∧
    out = x) as Hb'.
  { intros x -> ->. rewrite <- Hdom.
    destruct (rb_relayRounds c <=? n); simpl; by rewrite ?orb_true_r, ?orb_false_r. }
  destruct (self_signed c msg); simpl; [intros [= <- <-]; by apply Hb'|].
  destruct (int64 _ =? rb_relayRounds c); simpl; [intros [= <- <-]; by apply Hb'|].
  change (SignHash _) with (SignHash (bm_Msg msg)).
  destruct (Sign _ _); simpl; intros [= <- <-]; by apply Hb'.
Qed.

Lemma startRounds_Ok c msgs b b' outs :
  group_decodes c → startRounds c msgs b = Ok (b', outs) →
  let acc := accepted c (rb_originMsgSender b) (rb_receivedMsgs b) msgs in
  dom (rb_values b') = dom (rb_values b) ∪ keys_of acc ∧
  rb_finalSigChainReached b' = rb_finalSigChainReached b || existsb (long_chain c) acc ∧
  outs = omap (relay_of c) acc.
Proof.
  intros Hdec. revert b outs. unfold keys_of.
  induction msgs as [|msg rest IH]; intros b outs; cbn [startRounds accepted].
  { intros [= <- <-]. simpl. rewrite orb_false_r. set_solver. }
  intros Hr. apply bind_Ok in Hr as ([b1 out] & Hh & Hr).
  apply bind_Ok in Hr as ([b2 outs'] & Hrest & Hr). injection Hr as <- <-.
  specialize (IH _ _ Hrest). unfold handleMsg in Hh. unfold in_scope.
  destruct (bool_decide (rm_SessionId (bm_Msg msg) = rb_sessionId c)); simpl in *;
    [|injection Hh as <- <-; by destruct (rb_receivedMsgs b !! bm_Sender msg)].
  rewrite Z.leb_antisym. destruct (rb_relayRounds c <? rm_Round (bm_Msg msg)); simpl in *;
    [injection Hh as <- <-; by destruct (rb_receivedMsgs b !! bm_Sender msg)|].
  destruct (rb_receivedMsgs b !! bm_Sender msg) as [rounds|]; [|done].
  destruct (bool_decide (rm_Round (bm_Msg msg) ∈ rounds)); simpl in *; [by injection Hh as <- <-|].
  apply processMsg_Ok in Hh as (Ho & Hrec & Hcase); [|done]. simpl in *.
  rewrite Ho, Hrec in IH. destruct (msg_valid c (rb_originMsgSender b) msg).
  - destruct Hcase as (Hd & Hf & ->). destruct IH as (IHd & IHf & ->). simpl.
    rewrite IHd, IHf, Hd, Hf, orb_assoc. split_and!; [set_solver|done|].
    by destruct (relay_of c msg).
  - destruct Hcase as (Hd & Hf & ->). by rewrite Hd, Hf in IH.
Qed.

(** Extraction never panics on messages of the group that carry a signature. *)
Lemma startRounds_no_panic c msgs b :
  group_decodes c →
  Forall (λ m, is_Some (rb_receivedMsgs b !! bm_Sender m) ∧
               (rm_Signatures (bm_Msg m) ≠ [] ∨ int64 (rm_Round (bm_Msg m) + 1) ≠ 0)) msgs →
  ∃ b' outs, startRounds c msgs b = Ok (b', outs).
Proof.
  intros Hdec. revert b. induction msgs as [|msg rest IH]; intros b; cbn [startRounds]; [eauto|].
  intros [[Hs Hne] Hrest]%Forall_cons.
  assert (∃ b1 out, handleMsg c msg b = Ok (b1, out) ∧
            dom (rb_receivedMsgs b1) = dom (rb_receivedMsgs b)) as (b1 & out & Hh & Hdom).
  { unfold handleMsg. case_match; [eauto|]. case_match; [eauto|].
    destruct Hs as [rounds Hs]. rewrite Hs. case_match; [eauto|].
    assert (∀ b0, ∃ v s, validateSignatures c b0 msg = Ok (v, s)) as Hval.
    { intros b0. destruct (decide (rm_Signatures (bm_Msg msg) = [])) as [He|He].
      - unfold validateSignatures. rewrite He. destruct Hne as [?|Hne]; [done|].
        cbn [length]. destruct (Z.eqb_spec (Z.of_nat 0) (int64 (rm_Round (bm_Msg msg) + 1)));
          simpl in *; [lia|eauto].
      - destruct (validateSignatures_chain c b0 msg Hdec He) as (v & s & Hv & _). eauto. }
    set (b0 := set_received _ b). destruct (Hval b0) as (v & s & Hv).
    assert (∃ b1 out, processMsg c msg b0 = Ok (b1, out)) as (b1 & out & Hp).
    { unfold processMsg. rewrite Hv. simpl. destruct v; simpl; [|eauto].
      destruct s; simpl; [eauto|]. destruct (int64 _ =? _); [eauto|]. destruct (Sign _ _); eauto. }
    exists b1, out. split; [done|].
    apply processMsg_Ok in Hp as (_ & Hr & _); [|done]. rewrite Hr. subst b0. simpl.
    rewrite dom_insert_L. apply elem_of_dom_2 in Hs. set_solver. }
  rewrite Hh. simpl. destruct (IH b1) as (b' & outs & ->); [|simpl; eauto].
  eapply Forall_impl; [done|]. intros m [Hm ?]. split; [|done].
  apply elem_of_dom. rewrite Hdom. by apply elem_of_dom.
Qed.

(** The verdict in terms of the extracted messages. *)
Lemma decideValid_spec b :
  decideValid b = true ↔ (∃ h, dom (rb_values b) = {[h]}) ∧ rb_finalSigChainReached b = true.
Proof.
  unfold decideValid. rewrite andb_true_iff, Nat.eqb_eq. f_equiv.
  rewrite <- (size_dom (D:=gset string)). split.
  - intros Hs. apply size_1_elem_of in Hs as [h Hh]. exists h. by apply leibniz_equiv.
  - intros [h ->]. apply size_singleton.
Qed.

(** A message that is read first among those of its sender and round, and whose
    chain is valid, extracts its value. *)
Lemma reads_first_accepted c origin received msgs msg :
  in_scope c msg = true → msg_valid c origin msg = true →
  received !! bm_Sender msg = Some ∅ → reads_first c msgs msg →
  msg ∈ accepted c origin received msgs.
Proof.
  intros Hsc Hv Hrec (l1 & l2 & -> & Hfirst).
  assert (∃ rs, received !! bm_Sender msg = Some rs ∧ rm_Round (bm_Msg msg) ∉ rs) as Hr
    by (exists ∅; set_solver). clear Hrec.
  revert received Hr. induction Hfirst as [|m l1 Hm Hl1 IH]; intros received (rs & Hrs & Hnin);
    cbn [app accepted].
  - rewrite Hrs, Hsc, bool_decide_false by done. simpl. rewrite Hv. set_solver.
  - destruct (received !! bm_Sender m) as [rounds|] eqn:Hm'; [|apply IH; eauto].
    destruct (in_scope c m && _) eqn:Hc; [|apply IH; eauto].
    apply andb_true_iff in Hc as [Hc _]. specialize (Hm Hc).
    apply elem_of_app. right. apply IH.
    destruct (decide (bm_Sender m = bm_Sender msg)) as [He|He].
    + rewrite He, lookup_insert_eq. eexists. split; [done|].
      rewrite He, Hrs in Hm'. simplify_eq. assert (rm_Round (bm_Msg m) ≠ rm_Round (bm_Msg msg)) by congruence. set_solver.
    + rewrite lookup_insert_ne by done. eauto.
Qed.

Lemma accepted_valid c origin received msgs msg :
  msg ∈ accepted c origin received msgs →
  msg ∈ msgs ∧ in_scope c msg = true ∧ msg_valid c origin msg = true.
Proof.
  revert received. induction msgs as [|m rest IH]; intros received; cbn [accepted]; [set_solver|].
  assert (∀ r, msg ∈ accepted c origin r rest →
     msg ∈ m :: rest ∧ in_scope c msg = true ∧ msg_valid c origin msg = true) as IH'.
  { intros r Hr. apply IH in Hr. set_solver. }
  case_match; [|apply IH']. destruct (in_scope c m && _) eqn:Hc; [|apply IH'].
  apply andb_true_iff in Hc as [Hc _].
  intros [Hm|Hm]%elem_of_app; [|by eapply IH'].
  destruct (msg_valid c origin m) eqn:Hv; [|by apply elem_of_nil in Hm].
  apply list_elem_of_singleton in Hm as ->. set_solver.
Qed.

(** The sequence of signed values determines the session, the value key and the
    chain: the stream is unambiguous although a nil value is left out. *)
Lemma sign_items_inj (m1 m2 : RoundMessage T) :
  sign_items m1 = sign_items m2 →
  rm_SessionId m1 = rm_SessionId m2 ∧
  HashString <$> rm_Value m1 = HashString <$> rm_Value m2 ∧
  rm_Signatures m1 = rm_Signatures m2.
Proof.
  unfold sign_items. intros [= Hsid Hrest].
  set (enc := λ s : Signature, [GobString (sg_Signer s); GobBytes (sg_Value s)]) in *.
  assert (∀ l k, mjoin (enc <$> l) = mjoin (enc <$> k) → l = k) as Hinj.
  { induction l as [|[] l IH]; intros [|[] k]; simpl; try done.
    intros [= -> -> Hk]. by rewrite (IH k). }
  assert (∀ l, Nat.Even (length (mjoin (enc <$> l)))) as Heven.
  { induction l as [|x l [n Hn]]; [by exists 0%nat|]. exists (S n).
    change (length (mjoin (enc <$> x :: l))) with (2 + length (mjoin (enc <$> l)))%nat. lia. }
  assert (∀ l k g, GobString g :: mjoin (enc <$> l) ≠ mjoin (enc <$> k)) as Hpar.
  { intros l k g Hl. apply (f_equal length) in Hl. cbn [length] in Hl.
    destruct (Heven l), (Heven k). lia. }
  destruct (rm_Value m1), (rm_Value m2); simpl in *.
  - injection Hrest as Hh Hs. by rewrite Hh, (Hinj _ _ Hs).
  - by apply Hpar in Hrest.
  - symmetry in Hrest. by apply Hpar in Hrest.
  - by rewrite (Hinj _ _ Hrest).
Qed.

End spec.

(** ** A toy signature scheme for concrete runs

    A signature is the signer's address followed by the signed hash. *)

Definition sample_gob_item (i : GobItem) : bytes :=
  match i with
  | GobString s => Byte.x00 :: be_bytes 2 (Z.of_nat (String.length s)) ++ bytes_of_string s
  | GobBytes bs => Byte.x01 :: be_bytes 2 (Z.of_nat (length bs)) ++ bs
  end.

Definition sample_recover (hash sig : bytes) : option bytes :=
  match sig with
  | [] => None
  | l :: rest =>
      let n := Z.to_nat (byte_Z l) in
      if bool_decide (drop n rest = hash) then Some (take n rest) else None
  end.

Definition sample_crypto : Crypto :=
  {| PrivKey := bytes;
     sha256 := λ bs, bs;
     gob_encode := λ items, mjoin (sample_gob_item <$> items);
     SigToAddress := sample_recover;
     Sign := λ k h, Some (Z_byte (Z.of_nat (length k)) :: k ++ h) |}.

Definition sample_hashable : Hashable string := λ s, s.

Definition sample_account (a : Address) : Account (@PrivKey sample_crypto) :=
  {| prv := bytes_of_string a; CosmosAddress := a |}.

Definition sample_party (a : Address) : Party :=
  {| CoreAddress := a;
     identifier := {| pid_id := a; pid_moniker := a; pid_key := be_Z (bytes_of_string a) |} |}.

Module Sample.
#[local] Existing Instance sample_bech32.
#[local] Existing Instance sample_crypto.
#[local] Existing Instance sample_hashable.

(** The message of the chain [signers] over [value]: each signs in turn. *)
Fixpoint extend {U} `{!Hashable U} (m : RoundMessage U) (signers : list Address) : RoundMessage U :=
  match signers with
  | [] => m
  | a :: rest =>
      let sig := Z_byte (Z.of_nat (String.length a)) :: bytes_of_string a ++ SignHash m in
      extend {| rm_Value := rm_Value m; rm_SessionId := rm_SessionId m;
                rm_Round := rm_Round m + 1;
                rm_Signatures := rm_Signatures m ++ [{| sg_Signer := a; sg_Value := sig |}] |}
        rest
  end.

Definition chainOf {U} `{!Hashable U} (value : U) (signers : list Address)
    : ReliableBroadcastMsg U :=
  {| bm_Msg := extend {| rm_Value := Some value; rm_SessionId := "S"; rm_Round := -1;
                         rm_Signatures := [] |} signers;
     bm_Sender := default "" (last signers) |}.

Definition chain (value : string) (signers : list Address) : ReliableBroadcastMsg string :=
  chainOf value signers.

Definition node (self : Address) (others : list Address) (f : Z) :=
  NewReliable (T:=string) "S" (sample_party <$> others) (sample_account self) f.

(** The verdict of [EnsureValid] and the value keys of the final state. *)
Definition verdict (self : Address) (others : list Address) (f : Z)
    (msg : ReliableBroadcastMsg string) (arriving : list (ReliableBroadcastMsg string))
    : option (res (list string * bool)) :=
  let '(c, b) := node self others f in
  match EnsureValid c msg [] arriving (1 + length arriving) b with
  | Some (Ok (b', _, v)) => Some (Ok (elements (dom (rb_values b')), v))
  | Some (Err e) => Some (Err e)
  | Some Panic => Some Panic
  | None => None
  end.

(** What the node relays during [EnsureValid], as the group receives it. *)
Definition relays (self : Address) (others : list Address) (f : Z)
    (msg : ReliableBroadcastMsg string) (arriving : list (ReliableBroadcastMsg string))
    : list (ReliableBroadcastMsg string) :=
  let '(c, b) := node self others f in
  match EnsureValid c msg [] arriving (1 + length arriving) b with
  | Some (Ok (_, outs, _)) => (λ m, {| bm_Msg := m; bm_Sender := self |}) <$> outs
  | _ => []
  end.

End Sample.

(** ** Theorems *)

Section theorems.
Context `{Bech32, Crypto} {T : Type} `{!Hashable T}.
Implicit Types (c : RBConfig) (b : RBState T) (msg : ReliableBroadcastMsg T).

Lemma received_init_aux (parties : list Party) (m : gmap Address (gset Z)) a :
  a ∈ CoreAddress <$> parties ∨ m !! a = Some ∅ →
  foldl (λ m p, <[CoreAddress p := ∅]> m) m parties !! a = Some ∅.
Proof.
  revert m. induction parties as [|p ps IH]; intros m; simpl; [set_solver|].
  intros Ha. apply IH. rewrite lookup_insert. case_decide; set_solver.
Qed.

Lemma received_init sid parties self f c b a :
  NewReliable (T:=T) sid parties self f = (c, b) → a ∈ CoreAddress <$> parties →
  rb_receivedMsgs b !! a = Some ∅.
Proof. intros [= <- <-] Ha. apply received_init_aux. by left. Qed.

(** [validateSignatures] accepts exactly the well-formed signature chains: one
    signature more than the round number, the first by the origin, the last by
    the sender of the message, all by distinct parties of the group, each over
    the session, the value and the chain before it. *)
Theorem validateSignatures_correct c b msg :
  group_decodes c → rm_Signatures (bm_Msg msg) ≠ [] →
  ∃ valid selfSigned, validateSignatures c b msg = Ok (valid, selfSigned) ∧
    (valid = true ↔ chain_valid c (rb_originMsgSender b) msg) ∧
    (valid = true → selfSigned = self_signed c msg).
Proof. apply validateSignatures_chain. Qed.

(** The verdict of [EnsureValid] in terms of the messages read: it is positive
    exactly when the well-formed chains among them (the first of each sender and
    round) carry one single value and one of them, with the node's own
    acknowledgement, has f+1 signers.  The messages relayed are those of the
    accepted chains, extended by the node's signature. *)
Theorem EnsureValid_decides sid parties self f c b msg queued arriving budget b' outs v :
  NewReliable sid parties self f = (c, b) → group_decodes c →
  EnsureValid c msg queued arriving budget b = Some (Ok (b', outs, v)) →
  let acc := accepted c (bm_Sender msg) (rb_receivedMsgs b)
               (take budget (queued ++ msg :: arriving)) in
  (v = true ↔ (∃ h, keys_of acc = {[h]}) ∧ ∃ m, m ∈ acc ∧ long_chain c m = true) ∧
  Forall (chain_valid c (bm_Sender msg)) acc ∧ outs = omap (relay_of c) acc.
Proof.
  intros Hnew Hdec He acc. unfold EnsureValid in He. case_match; [done|].
  injection He as He. apply bind_Ok in He as ([b1 outs1] & Hr & He). inv_ok.
  apply startRounds_Ok in Hr as (Hd & Hf & ->); [|done]. simpl in *. fold acc in Hd, Hf.
  injection Hnew as Hc Hb. subst b. simpl in *. split_and!; [|..|done].
  - rewrite decideValid_spec, Hd, Hf. rewrite dom_empty_L, union_empty_l_L.
    rewrite existsb_exists. by setoid_rewrite <- list_elem_of_In.
  - apply Forall_forall. intros m Hm. apply accepted_valid in Hm as (_ & _ & Hm).
    by apply msg_valid_spec.
Qed.

(** A positive verdict means that f+1 distinct parties of the group (the node
    included) vouch for the one extracted value: at least one of them is honest
    when at most f are not. *)
Theorem EnsureValid_vouched sid parties self f c b msg queued arriving budget b' outs :
  NewReliable sid parties self f = (c, b) → group_decodes c → in_int64 (f + 1) →
  EnsureValid c msg queued arriving budget b = Some (Ok (b', outs, true)) →
  ∃ h m, dom (rb_values b') = {[h]} ∧ value_key (rm_Value (bm_Msg m)) = h ∧
    m ∈ queued ++ msg :: arriving ∧ chain_valid c (bm_Sender msg) m ∧
    let vouching : gset Address :=
      {[CosmosAddress self]} ∪ list_to_set (sg_Signer <$> rm_Signatures (bm_Msg m)) in
    f + 1 ≤ Z.of_nat (size vouching) ∧ vouching ⊆ rb_partiesMap c.
Proof.
  intros Hnew Hdec Hf64 He. unfold EnsureValid in He. case_match; [done|].
  injection He as He. apply bind_Ok in He as ([b1 outs1] & Hr & He).
  injection He as <- <- Hv. apply decideValid_spec in Hv as [[h Hh] Hfin].
  apply startRounds_Ok in Hr as (Hd & Hf & _); [|done]. simpl in *.
  set (acc := accepted _ _ _ _) in *.
  assert (rb_relayRounds c = f + 1 ∧ rb_partiesMap c = {[CosmosAddress self]} ∪
            list_to_set (CoreAddress <$> parties) ∧ self_addr c = CosmosAddress self ∧
            rb_values b = ∅ ∧ rb_finalSigChainReached b = false) as (HR & HP & Hself & Hv0 & Hf0).
  { injection Hnew as <- <-. simpl. by rewrite int64_id. }
  rewrite Hf, Hf0 in Hfin. simpl in Hfin. apply existsb_exists in Hfin as (m & Hm & Hlong).
  apply list_elem_of_In in Hm. pose proof (accepted_valid _ _ _ _ _ Hm) as (Hin & _ & Hval).
  apply msg_valid_spec in Hval; [|done].
  exists h, m. split_and!; [done|..|done| |].
  - assert (value_key (rm_Value (bm_Msg m)) ∈ dom (rb_values b1)) as Hk; [|set_solver].
    rewrite Hd. apply elem_of_union_r, elem_of_list_to_set, list_elem_of_fmap. eauto.
  - by eapply elem_of_take in Hin as (? & Hin & _); apply list_elem_of_lookup_2 in Hin.
  - unfold long_chain in Hlong. rewrite HR in Hlong. apply Z.leb_le in Hlong.
    pose proof (cv_distinct _ _ _ Hval) as Hnd.
    pose proof (size_list_to_set (C:=gset Address) _ Hnd) as Hsz. rewrite length_fmap in Hsz.
    unfold self_signed in Hlong. rewrite Hself in Hlong. case_bool_decide as Hs.
    + rewrite (subseteq_union_1_L {[CosmosAddress self]}) by set_solver. lia.
    + rewrite size_union by set_solver. rewrite size_singleton. lia.
  - pose proof (cv_group _ _ _ Hval) as Hg. rewrite Forall_forall in Hg.
    intros a. rewrite elem_of_union, elem_of_list_to_set, list_elem_of_fmap.
    intros [Ha|(s & -> & Hs)]; [set_solver|by apply Hg].
Qed.

(** The relay of an initial message is a valid round-1 message for every node of
    the group, provided the key of the relaying node signs correctly. *)
Lemma relay_valid c c' origin msg relay :
  group_decodes c → group_decodes c' → rb_partiesMap c = rb_partiesMap c' →
  self_addr c ∈ rb_partiesMap c →
  (∀ h s, Sign (prv (rb_self c)) h = Some s → SigToAddress h s = bech32_decode (self_addr c)) →
  rm_Round (bm_Msg msg) = 0 → chain_valid c origin msg → relay_of c msg = Some relay →
  chain_valid c' origin {| bm_Msg := relay; bm_Sender := self_addr c |}.
Proof.
  intros Hdec Hdec' HP Hself Hsign Hr [Hl Hf Hlast Hg Hd Hs] Hrel.
  unfold relay_of in Hrel. destruct (self_signed c msg) eqn:Hss; [done|].
  rewrite Hr in Hrel, Hl. simpl in Hrel. case_match; [done|].
  apply bind_Some in Hrel as (sig & Hsig & [= <-]).
  apply bool_decide_eq_false in Hss. change (int64 (0 + 1)) with 1 in *.
  split; simpl.
  - rewrite length_app. simpl. change (int64 (1 + 1)) with 2. lia.
  - by destruct (rm_Signatures (bm_Msg msg)).
  - by rewrite last_snoc.
  - rewrite <- HP. apply Forall_app. split; [done|]. by constructor.
  - rewrite fmap_app. apply NoDup_app. simpl. split; [done|]. split; [set_solver|].
    apply NoDup_singleton.
  - apply signed_chain_snoc. split; [exact Hs|].
    destruct (Hdec _ Hself) as [bs Hbs]. unfold SignatureValid, Addr.Bytes.
    change (SignHash _) with (SignHash (bm_Msg msg)). simpl.
    rewrite (Hsign _ _ Hsig), Hbs. simpl. by rewrite bool_decide_true.
Qed.

Lemma init_not_self_signed c origin msg :
  rm_Round (bm_Msg msg) = 0 → chain_valid c origin msg → origin ≠ self_addr c →
  self_signed c msg = false.
Proof.
  intros Hr [Hl Hf _ _ _ _] Hne. unfold self_signed. rewrite Hr in Hl.
  change (int64 (0 + 1)) with 1 in Hl.
  destruct (rm_Signatures (bm_Msg msg)) as [|x [|]]; simpl in *; try lia.
  apply bool_decide_eq_false. simplify_eq. set_solver.
Qed.

Lemma single_keys (X : gset string) k h : X = {[h]} → k ∈ X → X = {[k]}.
Proof. set_solver. Qed.

(** C4: agreement.  Let an honest node p accept the initial message of the origin
    and relay it, and let a node q of the same group read that relay in time.  If
    both nodes reach a positive verdict, they do so for the same value. *)
Theorem broadcast_agreement sid f parties_p parties_q self_p self_q cp cq bp0 bq0
    (origin : Address) (msgs_p msgs_q : list (ReliableBroadcastMsg T)) bp bq outs_p outs_q m0 :
  NewReliable sid parties_p self_p f = (cp, bp0) →
  NewReliable sid parties_q self_q f = (cq, bq0) →
  rb_partiesMap cp = rb_partiesMap cq → group_decodes cp →
  CosmosAddress self_p ∈ CoreAddress <$> parties_q → CosmosAddress self_p ≠ origin →
  1 ≤ f → in_int64 (f + 1) →
  (* the key of p signs, and its signatures recover to its address *)
  (∀ h, ∃ s, Sign (prv self_p) h = Some s ∧ SigToAddress h s = bech32_decode (CosmosAddress self_p)) →
  startRounds cp msgs_p (set_origin origin bp0) = Ok (bp, outs_p) →
  startRounds cq msgs_q (set_origin origin bq0) = Ok (bq, outs_q) →
  (* p reads the initial message first among the origin's, with a valid chain *)
  reads_first cp msgs_p m0 → bm_Sender m0 = origin → rm_Round (bm_Msg m0) = 0 →
  rm_SessionId (bm_Msg m0) = sid → origin ∈ CoreAddress <$> parties_p →
  chain_valid cp origin m0 →
  (* synchrony: q reads the relay of p *)
  (∀ r, r ∈ outs_p → rm_Round r = 1 →
     reads_first cq msgs_q {| bm_Msg := r; bm_Sender := CosmosAddress self_p |}) →
  decideValid bp = true → decideValid bq = true →
  dom (rb_values bp) = {[value_key (rm_Value (bm_Msg m0))]} ∧
  dom (rb_values bq) = {[value_key (rm_Value (bm_Msg m0))]}.
Proof.
  intros Hp Hq HP Hdec Hpq Hne Hf Hf64 Hsign Hrp Hrq Hfirst Ho Hr0 Hsid Horig Hcv Hsync Hvp Hvq.
  pose proof (received_init _ _ _ _ _ _ _ Hp Horig) as Hrec_p.
  pose proof (received_init _ _ _ _ _ _ _ Hq Hpq) as Hrec_q.
  assert (rb_relayRounds cp = f + 1 ∧ rb_relayRounds cq = f + 1 ∧ rb_sessionId cp = sid ∧
          rb_sessionId cq = sid ∧ rb_self cp = self_p) as (HRp & HRq & Hsp & Hsq & Hself).
  { injection Hp as <- <-. injection Hq as <- <-. simpl. by rewrite int64_id. }
  assert (self_addr cp = CosmosAddress self_p) as Hsa by (unfold self_addr; by rewrite Hself).
  assert (group_decodes cq) as Hdecq by (intros a; rewrite <- HP; apply Hdec).
  assert (in_scope cp m0 = true) as Hsc.
  { unfold in_scope. rewrite Hsid, Hsp, bool_decide_true, HRp, Hr0 by done. apply Z.leb_le. lia. }
  assert (m0 ∈ accepted cp origin (rb_receivedMsgs bp0) msgs_p) as Hacc.
  { apply reads_first_accepted; [done|by apply msg_valid_spec|by rewrite Ho|done]. }
  assert (∃ r, relay_of cp m0 = Some r ∧ rm_Value r = rm_Value (bm_Msg m0) ∧ rm_Round r = 1 ∧
            rm_SessionId r = sid) as (r & Hrel & Hval & Hround & Hrs).
  { unfold relay_of. rewrite (init_not_self_signed cp origin m0) by congruence.
    rewrite Hr0, HRp. change (int64 (0 + 1)) with 1. cbn [orb].
    rewrite (proj2 (Z.eqb_neq 1 (f + 1))) by lia. rewrite Hself.
    destruct (Hsign (SignHash (bm_Msg m0))) as (sg & -> & _). simpl. by eexists. }
  pose proof (startRounds_Ok _ _ _ _ _ Hdec Hrp) as (Hdp & _ & Houts).
  pose proof (startRounds_Ok _ _ _ _ _ Hdecq Hrq) as (Hdq & _ & _). simpl in *.
  assert (chain_valid cq origin {| bm_Msg := r; bm_Sender := self_addr cp |}) as Hcvq.
  { eapply relay_valid; [exact Hdec|done|done| | |done|exact Hcv|done].
    - rewrite Hsa. injection Hp as <- <-. simpl. set_solver.
    - intros h s. rewrite Hself, Hsa. destruct (Hsign h) as (s' & -> & Hs'). by intros [= <-]. }
  assert ({| bm_Msg := r; bm_Sender := CosmosAddress self_p |}
            ∈ accepted cq origin (rb_receivedMsgs bq0) msgs_q) as Haccq.
  { apply reads_first_accepted; simpl; [..|done|].
    - unfold in_scope. simpl. rewrite Hrs, Hsq, bool_decide_true, HRq, Hround by done.
      apply Z.leb_le. lia.
    - apply msg_valid_spec; [done|]. by rewrite <- Hsa.
    - apply Hsync; [|done]. rewrite Houts. apply list_elem_of_omap. eauto. }
  apply decideValid_spec in Hvp as [[hp Hhp] _]. apply decideValid_spec in Hvq as [[hq Hhq] _].
  split.
  - eapply single_keys; [exact Hhp|]. rewrite Hdp. apply elem_of_union_r, elem_of_list_to_set.
    apply list_elem_of_fmap. eauto.
  - eapply single_keys; [exact Hhq|]. rewrite Hdq. apply elem_of_union_r, elem_of_list_to_set.
    apply list_elem_of_fmap. eexists. split; [|exact Haccq]. simpl. by rewrite Hval.
Qed.

(** An honest origin.  If the signatures that recover to the origin's address
    were all made over its one message of the session, and no two of the signed
    sequences read collide, then every node extracts at most the origin's value,
    and a positive verdict is a verdict for it. *)
Theorem broadcast_honest_origin c b msgs b' outs origin v :
  group_decodes c → rb_values b = ∅ →
  startRounds c msgs (set_origin origin b) = Ok (b', outs) →
  let initial := {| rm_Value := v; rm_SessionId := rb_sessionId c;
                    rm_Round := 0; rm_Signatures := [] |} in
  (* unforgeability *)
  (∀ m s, m ∈ msgs → s ∈ rm_Signatures (bm_Msg m) →
     ∀ h, SigToAddress h (sg_Value s) = bech32_decode origin →
     is_Some (bech32_decode origin) → h = SignHash initial) →
  (* no collision among the messages read *)
  (∀ m, m ∈ msgs →
     SignHash (with_signatures (bm_Msg m) []) = SignHash initial →
     sign_items (with_signatures (bm_Msg m) []) = sign_items initial) →
  dom (rb_values b') ⊆ {[value_key v]} ∧
  (decideValid b' = true → dom (rb_values b') = {[value_key v]}).
Proof.
  intros Hdec Hv0 Hr initial Hunf Hcol.
  apply startRounds_Ok in Hr as (Hd & _ & _); [|done]. simpl in Hd.
  rewrite Hv0, dom_empty_L, union_empty_l_L in Hd.
  assert (dom (rb_values b') ⊆ {[value_key v]}) as Hsub.
  { rewrite Hd. intros k. unfold keys_of. rewrite elem_of_list_to_set, list_elem_of_fmap.
    intros (m & -> & Hm). apply accepted_valid in Hm as (Hin & _ & Hmv).
    apply msg_valid_spec in Hmv as [_ Hf _ Hg _ Hs]; [|done].
    destruct (rm_Signatures (bm_Msg m)) as [|s0 rest] eqn:Es; [done|]. simpl in Hf.
    injection Hf as <-.
    specialize (Hs 0%nat s0 eq_refl). simpl in Hs. unfold SignatureValid in Hs.
    destruct (SigToAddress _ _) as [rec|] eqn:Hrec; [|done].
    apply bind_Ok in Hs as (bs & Hbs & Hs). injection Hs as Hs.
    apply bool_decide_eq_true in Hs as <-.
    unfold Addr.Bytes in Hbs. destruct (bech32_decode (sg_Signer s0)) eqn:Hb; [|done].
    injection Hbs as ->.
    assert (s0 ∈ rm_Signatures (bm_Msg m)) as Hs0 by (rewrite Es; set_solver).
    pose proof (Hunf m s0 Hin Hs0 _ Hrec (ex_intro _ _ eq_refl)) as Hh.
    apply (Hcol m Hin) in Hh. apply sign_items_inj in Hh as (_ & Hk & _). simpl in Hk.
    apply elem_of_singleton. destruct (rm_Value (bm_Msg m)), v; simpl in *; congruence. }
  split; [done|]. intros Hdv. apply decideValid_spec in Hdv as [[h Hh] _]. set_solver.
Qed.

(** [EnsureValid] never panics on messages of other parties of the group, except
    on an empty signature chain with round -1 (next theorem); it blocks only on
    a full channel. *)
Theorem EnsureValid_no_panic sid parties self f c b msg queued arriving budget :
  NewReliable sid parties self f = (c, b) → group_decodes c →
  (length queued < defaultChanCapacity)%nat →
  Forall (λ m, bm_Sender m ∈ CoreAddress <$> parties ∧
               (rm_Signatures (bm_Msg m) ≠ [] ∨ int64 (rm_Round (bm_Msg m) + 1) ≠ 0))
    (queued ++ msg :: arriving) →
  ∃ b' outs v, EnsureValid c msg queued arriving budget b = Some (Ok (b', outs, v)).
Proof.
  intros Hnew Hdec Hcap Hall. unfold EnsureValid.
  destruct (Nat.leb_spec defaultChanCapacity (length queued)); [lia|].
  destruct (startRounds_no_panic c (take budget (queued ++ msg :: arriving))
              (set_origin (bm_Sender msg) b)) as (b' & outs & ->); [done| |simpl; eauto].
  apply Forall_take. eapply Forall_impl; [done|]. intros m [Hm ?]. split; [|done].
  eexists. exact (received_init _ _ _ _ _ _ _ Hnew Hm).
Qed.

(** A message with round -1 and no signatures passes the length check and
    makes the node panic at [Signatures[0]]. *)
Theorem empty_chain_panics sid parties self f c b msg arriving budget :
  NewReliable sid parties self f = (c, b) → in_int64 (f + 1) → 0 ≤ f →
  bm_Sender msg ∈ CoreAddress <$> parties →
  rm_SessionId (bm_Msg msg) = sid → rm_Round (bm_Msg msg) = -1 →
  rm_Signatures (bm_Msg msg) = [] →
  EnsureValid c msg [] arriving (S budget) b = Some Panic.
Proof.
  intros Hnew Hf Hf0 Hs Hsid Hr Hsig. pose proof (received_init _ _ _ _ _ _ _ Hnew Hs) as Hrec.
  assert (rb_sessionId c = sid ∧ rb_relayRounds c = f + 1) as [Hc HR].
  { injection Hnew as <- <-. simpl. by rewrite int64_id. }
  unfold EnsureValid. simpl. unfold handleMsg.
  rewrite Hsid, Hc, bool_decide_true, Hr by done. simpl.
  rewrite (proj2 (Z.ltb_ge _ _)) by lia. rewrite Hrec.
  rewrite bool_decide_false by set_solver. unfold processMsg, validateSignatures.
  by rewrite Hsig, Hr.
Qed.

End theorems.

(** ** Concrete runs *)

Section witnesses.
#[local] Existing Instance sample_bech32.
#[local] Existing Instance sample_crypto.
#[local] Existing Instance sample_hashable.

(** A node relays each accepted chain, but its peers keep only the first
    message of a sender and round, so the second value an honest node relays in a
    round is dropped.  Two faulty parties (the origin o and m, f = 2) use this:
    the honest p sees both signed values, relays both and rejects, while the
    honest q reads everything p relays, in order, and accepts. *)
Theorem second_relay_dropped :
  let p_reads := [Sample.chain "v" ["o"; "r"]; Sample.chain "w" ["o"; "m"]] in
  let p_relays := Sample.relays "p" ["o"; "m"; "q"; "r"] 2 (Sample.chain "v" ["o"]) p_reads in
  p_relays = [Sample.chain "v" ["o"; "p"]; Sample.chain "v" ["o"; "r"; "p"];
              Sample.chain "w" ["o"; "m"; "p"]] ∧
  Sample.verdict "p" ["o"; "m"; "q"; "r"] 2 (Sample.chain "v" ["o"]) p_reads
    = Some (Ok (["w"; "v"], false)) ∧
  Sample.verdict "q" ["o"; "m"; "p"; "r"] 2 (Sample.chain "v" ["o"]) p_relays
    = Some (Ok (["v"], true)).
Proof. vm_compute. done. Qed.

(** The verdict does not say which value was validated.  An origin that sends
    "v" to p with a broken signature and "w" to everyone else obtains a positive
    verdict at p, for "w", although the message p was asked about carries "v". *)
Theorem verdict_for_other_value :
  let bad := {| bm_Msg := {| rm_Value := Some "v"; rm_SessionId := "S"; rm_Round := 0;
                             rm_Signatures := [{| sg_Signer := "o"; sg_Value := [] |}] |};
                bm_Sender := "o" |} in
  Sample.verdict "p" ["o"; "q"] 1 bad [Sample.chain "w" ["o"; "q"]]
    = Some (Ok (["w"], true)).
Proof. vm_compute. done. Qed.

Lemma sample_decodes self others f : group_decodes (Sample.node self others f).1.
Proof. intros a _. by eexists. Qed.

Lemma validateSignatures_correct_witness :
  chain_valid (Sample.node "q" ["o"; "p"] 1).1 "o" (Sample.chain "v" ["o"; "p"]).
Proof.
  destruct (validateSignatures_correct (Sample.node "q" ["o"; "p"] 1).1
              (set_origin "o" (Sample.node "q" ["o"; "p"] 1).2)
              (Sample.chain "v" ["o"; "p"])) as (v & s & Hv & Hiff & _).
  - apply sample_decodes.
  - vm_compute. discriminate.
  - apply Hiff. vm_compute in Hv. congruence.
Defined.

Lemma EnsureValid_decides_witness :
  ∃ b' outs, EnsureValid (Sample.node "q" ["o"; "p"] 1).1 (Sample.chain "v" ["o"]) []
      [Sample.chain "v" ["o"; "p"]] 2 (Sample.node "q" ["o"; "p"] 1).2
    = Some (Ok (b', outs, true)) ∧ length outs = 1%nat.
Proof.
  destruct (EnsureValid (Sample.node "q" ["o"; "p"] 1).1 (Sample.chain "v" ["o"]) []
      [Sample.chain "v" ["o"; "p"]] 2 (Sample.node "q" ["o"; "p"] 1).2)
    as [[[[b' outs] v]| |]|] eqn:E; [|vm_compute in E; discriminate..].
  destruct (EnsureValid_decides _ _ _ _ _ _ _ _ _ _ _ _ _
              (surjective_pairing (Sample.node "q" ["o"; "p"] 1)) (sample_decodes _ _ _) E)
    as (_ & _ & Ho).
  exists b', outs. rewrite Ho. split; [|vm_compute; reflexivity].
  rewrite <- Ho. repeat f_equal. vm_compute in E. congruence.
Defined.

Lemma EnsureValid_vouched_witness :
  ∃ h, h = "v" ∧ (∃ m, chain_valid (Sample.node "q" ["o"; "p"] 1).1 "o" m ∧
                       value_key (rm_Value (bm_Msg m)) = h).
Proof.
  destruct (EnsureValid (Sample.node "q" ["o"; "p"] 1).1 (Sample.chain "v" ["o"]) []
      [Sample.chain "v" ["o"; "p"]] 2 (Sample.node "q" ["o"; "p"] 1).2)
    as [[[[b' outs] v]| |]|] eqn:E; [|vm_compute in E; discriminate..].
  assert (v = true) as -> by (vm_compute in E; congruence).
  destruct (EnsureValid_vouched _ _ _ _ _ _ _ _ _ _ _ _
              (surjective_pairing (Sample.node "q" ["o"; "p"] 1)) (sample_decodes _ _ _)
              ltac:(unfold in_int64, min_int64, max_int64; lia) E)
    as (h & m & Hd & Hk & _ & Hcv & _).
  exists h. split; [|exists m; split; [exact Hcv|exact Hk]].
  assert (dom (rb_values b') = {["v"]}) as Hd' by (vm_compute in E; injection E as <- _; reflexivity).
  rewrite Hd in Hd'. symmetry. apply (singleton_inj (C:=gset string)). symmetry. exact Hd'.
Defined.

Lemma EnsureValid_no_panic_witness :
  is_Some (EnsureValid (Sample.node "q" ["o"; "p"] 1).1 (Sample.chain "v" ["o"]) []
      [Sample.chain "v" ["o"; "p"]] 2 (Sample.node "q" ["o"; "p"] 1).2).
Proof.
  destruct (EnsureValid_no_panic _ _ _ _ _ _ (Sample.chain "v" ["o"]) []
              [Sample.chain "v" ["o"; "p"]] 2
              (surjective_pairing (Sample.node "q" ["o"; "p"] 1)) (sample_decodes _ _ _))
    as (b' & outs & v & E).
  - unfold defaultChanCapacity. simpl. lia.
  - repeat constructor; try (left; vm_compute; discriminate); set_solver.
  - by eexists.
Defined.

Lemma empty_chain_panics_witness :
  EnsureValid (Sample.node "q" ["o"; "p"] 1).1
    {| bm_Msg := {| rm_Value := Some "v"; rm_SessionId := "S"; rm_Round := -1;
                    rm_Signatures := [] |}; bm_Sender := "o" |} [] [] 1
    (Sample.node "q" ["o"; "p"] 1).2 = Some Panic.
Proof.
  apply (empty_chain_panics "S" (sample_party <$> ["o"; "p"]) (sample_account "q") 1);
    try reflexivity; try (unfold in_int64, min_int64, max_int64; lia).
  simpl. set_solver.
Defined.

Lemma broadcast_honest_origin_witness :
  ∃ b' outs, startRounds (Sample.node "q" ["o"; "p"] 1).1 [Sample.chain "v" ["o"]]
      (set_origin "o" (Sample.node "q" ["o"; "p"] 1).2) = Ok (b', outs) ∧
    dom (rb_values b') ⊆ {["v"]}.
Proof.
  destruct (startRounds (Sample.node "q" ["o"; "p"] 1).1 [Sample.chain "v" ["o"]]
      (set_origin "o" (Sample.node "q" ["o"; "p"] 1).2)) as [[b' outs]| |] eqn:E;
    [|vm_compute in E; discriminate..].
  exists b', outs. split; [done|].
  refine (proj1 (broadcast_honest_origin (Sample.node "q" ["o"; "p"] 1).1
    (Sample.node "q" ["o"; "p"] 1).2 [Sample.chain "v" ["o"]] b' outs "o" (Some "v") _ _ _ _ _)).
  - apply sample_decodes.
  - reflexivity.
  - exact E.
  - intros m s ->%list_elem_of_singleton Hs h Hh _.
    vm_compute in Hs. apply list_elem_of_singleton in Hs as ->.
    unfold SigToAddress in Hh. simpl in Hh. unfold sample_recover in Hh. simpl in Hh.
    case_bool_decide as Hb; [|done]. rewrite <- Hb. reflexivity.
  - intros m ->%list_elem_of_singleton _. reflexivity.
Defined.

Lemma broadcast_agreement_witness :
  ∃ bp bq, dom (rb_values bp) = {["v"]} ∧ dom (rb_values bq) = {["v"]} ∧
    decideValid (T:=string) bp = true ∧ decideValid (T:=string) bq = true.
Proof.
  set (msgs_p := [Sample.chain "v" ["o"]; Sample.chain "v" ["o"; "q"]]).
  set (msgs_q := [Sample.chain "v" ["o"]; Sample.chain "v" ["o"; "p"]]).
  destruct (startRounds (Sample.node "p" ["o"; "q"] 1).1 msgs_p
      (set_origin "o" (Sample.node "p" ["o"; "q"] 1).2)) as [[bp outs_p]| |] eqn:Ep;
    [|vm_compute in Ep; discriminate..].
  destruct (startRounds (Sample.node "q" ["o"; "p"] 1).1 msgs_q
      (set_origin "o" (Sample.node "q" ["o"; "p"] 1).2)) as [[bq outs_q]| |] eqn:Eq;
    [|vm_compute in Eq; discriminate..].
  exists bp, bq.
  assert (decideValid bp = true) as Hvp by (vm_compute in Ep; injection Ep as <- _; reflexivity).
  assert (decideValid bq = true) as Hvq by (vm_compute in Eq; injection Eq as <- _; reflexivity).
  destruct (broadcast_agreement "S" 1 (sample_party <$> ["o"; "q"]) (sample_party <$> ["o"; "p"])
              (sample_account "p") (sample_account "q") (Sample.node "p" ["o"; "q"] 1).1
              (Sample.node "q" ["o"; "p"] 1).1 (Sample.node "p" ["o"; "q"] 1).2
              (Sample.node "q" ["o"; "p"] 1).2 "o" msgs_p msgs_q bp bq outs_p outs_q
              (Sample.chain "v" ["o"])) as [Hp Hq];
    [reflexivity|reflexivity|reflexivity|apply sample_decodes| |discriminate|lia
    |unfold in_int64, min_int64, max_int64; lia| |exact Ep|exact Eq| |reflexivity..| | |
    |exact Hvp|exact Hvq|split; [exact Hp|split; [exact Hq|split; assumption]]].
  - apply list_elem_of_fmap. exists (sample_party "p"). split; [reflexivity|]. right. left.
  - intros h. eexists. split; [reflexivity|]. simpl. unfold sample_recover. simpl.
    by rewrite bool_decide_true.
  - exists [], [Sample.chain "v" ["o"; "q"]]. split; [reflexivity|constructor].
  - left.
  - apply msg_valid_spec; [apply sample_decodes|reflexivity].
  - intros r Hr _. exists [Sample.chain "v" ["o"]], [].
    assert (outs_p = [bm_Msg (Sample.chain "v" ["o"; "p"])]) as ->
      by (vm_compute in Ep; injection Ep as _ <-; vm_compute; reflexivity).
    apply list_elem_of_singleton in Hr as ->. split; [reflexivity|].
    constructor; [|constructor]. intros _. vm_compute. discriminate.
Defined.

End witnesses.
