(* ===== verification/Delivery.v ===== *)
(** * Delivery of the reliable broadcast between honest nodes

    A group of nodes with one configuration, the messages that its nodes send when they all
    follow [internal/p2p/broadcast/reliable.go] ([sent]: the origin's message and everything
    that [processMsg] relays), and when the broadcast is delivered: a node reaches a positive
    verdict for the origin's value if a signature chain of f+1 signers, its own
    acknowledgement included, is the first message it reads of some sender and round
    ([heard]).  The condition on the order is needed: a node keeps one message per sender
    and round, and an honest group whose messages are all read may reject
    ([honest_group_may_reject]).  Also the request that carries a message of the broadcast
    ([broadcastMsg]). *)

From S2P Require Import Prelude Core Broadcast.
#[local] Open Scope Z_scope.

(** ** The group *)

Section group.
Context `{Bech32, Crypto}.

(** A node: its account, and the identifier its peers know it by. *)
Record GroupNode := { gn_account : Account PrivKey; gn_id : PartyID }.

Definition gn_addr (n : GroupNode) : Address := CosmosAddress (gn_account n).
Definition gn_party (n : GroupNode) : Party := {| CoreAddress := gn_addr n; identifier := gn_id n |}.

(** The parties of a node are the other nodes. *)
Definition parties_of (g : list GroupNode) (a : Address) : list Party :=
  filter (λ p, CoreAddress p ≠ a) (gn_party <$> g).

(** The addresses are distinct and decode, and every key signs for its address. *)
Record honest_group (g : list GroupNode) : Prop := {
  hg_distinct : NoDup (gn_addr <$> g);
  hg_decodes : Forall (λ n, is_Some (bech32_decode (gn_addr n))) g;
  hg_signs : Forall (λ n, ∀ h, ∃ s, Sign (prv (gn_account n)) h = Some s ∧
                                   SigToAddress h s = bech32_decode (gn_addr n)) g }.

Lemma parties_of_addresses g a :
  CoreAddress <$> parties_of g a = filter (λ b, b ≠ a) (gn_addr <$> g).
Proof.
  unfold parties_of. induction g as [|n g IH]; [done|]. cbn [fmap list_fmap].
  change (CoreAddress (gn_party n)) with (gn_addr n).
  destruct (decide (gn_addr n = a)).
  - by rewrite !filter_cons_False by tauto.
  - rewrite !filter_cons_True by done. by rewrite fmap_cons, IH.
Qed.

Lemma elem_parties_of g a b :
  b ∈ CoreAddress <$> parties_of g a ↔ b ∈ gn_addr <$> g ∧ b ≠ a.
Proof. rewrite parties_of_addresses, list_elem_of_filter. tauto. Qed.

Lemma length_parties_of g n :
  honest_group g → n ∈ g → Z.of_nat (length (parties_of g (gn_addr n))) + 1 = Z.of_nat (length g).
Proof.
  intros Hg Hn. rewrite <- (length_fmap CoreAddress), parties_of_addresses, <- (length_fmap gn_addr g).
  pose proof (hg_distinct g Hg) as Hnd.
  assert (gn_addr n ∈ gn_addr <$> g) as Ha by (apply list_elem_of_fmap; eauto).
  revert Hnd Ha. generalize (gn_addr <$> g) as l, (gn_addr n) as a. clear.
  intros l a. induction l as [|b l IH]; intros Hnd Ha; [set_solver|].
  apply NoDup_cons in Hnd as [Hb Hnd]. destruct (decide (b = a)) as [->|Hne].
  - rewrite filter_cons_False by tauto. simpl.
    enough (filter (λ b, b ≠ a) l = l) as -> by lia. clear -Hb. induction l as [|b l IH]; [done|].
    rewrite filter_cons_True by set_solver. f_equal. set_solver.
  - rewrite filter_cons_True by done. simpl. specialize (IH Hnd). set_unfold. intuition; try lia; congruence.
Qed.

Lemma addr_inj g n n' : honest_group g → n ∈ g → n' ∈ g → gn_addr n = gn_addr n' → n = n'.
Proof.
  intros Hg Hn Hn' Ha. apply list_elem_of_lookup in Hn as [i Hi]. apply list_elem_of_lookup in Hn' as [j Hj].
  pose proof (NoDup_lookup (gn_addr <$> g) i j (gn_addr n) (hg_distinct g Hg)) as Hij.
  rewrite !list_lookup_fmap, Hi, Hj in Hij. simpl in Hij. rewrite Ha in Hij. naive_solver.
Qed.

End group.

(** ** What honest nodes send *)

Section sent.
Context `{Bech32, Crypto} {T : Type} `{!Hashable T}.
Context (g : list GroupNode) (sid : string) (f : Z).

(** The broadcaster of a node. *)
Definition rb_of (n : GroupNode) : RBConfig * RBState T :=
  NewReliable sid (parties_of g (gn_addr n)) (gn_account n) f.

Definition initial (v : option T) : RoundMessage T :=
  {| rm_Value := v; rm_SessionId := sid; rm_Round := 0; rm_Signatures := [] |}.

(** The message of the origin, and the relays of the messages sent by others. *)
Inductive sent (origin : GroupNode) (v : option T) : ReliableBroadcastMsg T → Prop :=
| sent_init sig :
    Sign (prv (gn_account origin)) (SignHash (initial v)) = Some sig →
    sent origin v
      {| bm_Msg := with_signatures (initial v) [{| sg_Signer := gn_addr origin; sg_Value := sig |}];
         bm_Sender := gn_addr origin |}
| sent_relay n m r :
    n ∈ g → sent origin v m → relay_of (rb_of n).1 m = Some r →
    sent origin v {| bm_Msg := r; bm_Sender := gn_addr n |}.

(** The node reads, as the first of its sender and round, a chain of f+1 signers. *)
Definition heard (c : RBConfig) (msgs : list (ReliableBroadcastMsg T)) : Prop :=
  ∃ m, reads_first c msgs m ∧ long_chain c m = true.

(** What a node reads in a run of the group: messages that other nodes sent. *)
Definition honest_reads (origin n : GroupNode) (v : option T) (msgs : list (ReliableBroadcastMsg T)) : Prop :=
  Forall (λ m, sent origin v m ∧ bm_Sender m ≠ gn_addr n) msgs.

(** [broadcastMsg]: the request to every party. *)
Definition broadcastMsg (encode : RoundMessage T → bytes) (type : RequestType) (c : RBConfig)
    (msg : RoundMessage T) : SubmitRequest :=
  {| rq_Sender := CosmosAddress (rb_self c); rq_SessionId := rb_sessionId c; rq_Type := type;
     rq_Data := Some (AnyReliableBroadcastData (encode msg)) |}.

End sent.

(** ** Lemmas *)

Section lemmas.
Context `{Bech32, Crypto} {T : Type} `{!Hashable T}.
Context (g : list GroupNode) (sid : string) (f : Z).
Hypothesis Hg : honest_group g.
Hypothesis Hf : 0 ≤ f < max_int64.
Implicit Types (m : ReliableBroadcastMsg T) (n origin : GroupNode).

Lemma rb_of_fields n :
  n ∈ g →
  rb_relayRounds (rb_of (T:=T) g sid f n).1 = f + 1 ∧ rb_sessionId (rb_of (T:=T) g sid f n).1 = sid ∧
  rb_self (rb_of (T:=T) g sid f n).1 = gn_account n ∧
  ∀ a, a ∈ rb_partiesMap (rb_of (T:=T) g sid f n).1 ↔ a ∈ gn_addr <$> g.
Proof.
  intros Hn. simpl. split_and!; [apply int64_id; unfold in_int64, min_int64, max_int64 in *; lia|done..|].
  intros a. rewrite elem_of_union, elem_of_singleton, elem_of_list_to_set, elem_parties_of.
  assert (gn_addr n ∈ gn_addr <$> g) by (apply list_elem_of_fmap; eauto).
  destruct (decide (a = gn_addr n)); naive_solver.
Qed.

Lemma rb_of_decodes n : n ∈ g → group_decodes (rb_of (T:=T) g sid f n).1.
Proof.
  intros Hn a Ha. apply rb_of_fields in Ha; [|done].
  apply list_elem_of_fmap in Ha as (x & -> & Hx).
  by apply (proj1 (Forall_forall _ _) (hg_decodes g Hg)).
Qed.

Lemma node_signs n h :
  n ∈ g → ∃ s, Sign (prv (gn_account n)) h = Some s ∧ SigToAddress h s = bech32_decode (gn_addr n).
Proof. intros Hn. by apply (proj1 (Forall_forall _ _) (hg_signs g Hg)). Qed.

(** A node's signature over the hash of a message extends its chain. *)
Lemma signature_valid n (m : RoundMessage T) s :
  n ∈ g → Sign (prv (gn_account n)) (SignHash m) = Some s →
  SignatureValid m {| sg_Signer := gn_addr n; sg_Value := s |} = Ok true.
Proof.
  intros Hn Hs. destruct (node_signs n (SignHash m) Hn) as (s' & Hs' & Hrec).
  rewrite Hs in Hs'. injection Hs' as <-. unfold SignatureValid, Addr.Bytes. simpl. rewrite Hrec.
  pose proof (proj1 (Forall_forall _ _) (hg_decodes g Hg) n Hn) as [bs Hbs]. rewrite Hbs. simpl.
  by rewrite bool_decide_true.
Qed.

(** A message of the group: its round, value and session, and a chain that every node of
    the group accepts. *)
Record sent_ok origin v m : Prop := {
  so_round : 0 ≤ rm_Round (bm_Msg m) ≤ f;
  so_value : rm_Value (bm_Msg m) = v;
  so_session : rm_SessionId (bm_Msg m) = sid;
  so_length : Z.of_nat (length (rm_Signatures (bm_Msg m))) = rm_Round (bm_Msg m) + 1;
  so_first : sg_Signer <$> head (rm_Signatures (bm_Msg m)) = Some (gn_addr origin);
  so_last : sg_Signer <$> last (rm_Signatures (bm_Msg m)) = Some (bm_Sender m);
  so_group : Forall (λ s, sg_Signer s ∈ gn_addr <$> g) (rm_Signatures (bm_Msg m));
  so_distinct : NoDup (sg_Signer <$> rm_Signatures (bm_Msg m));
  so_signed : signed_chain (bm_Msg m) (rm_Signatures (bm_Msg m)) }.

Lemma sent_is_ok origin v m : origin ∈ g → sent g sid f origin v m → sent_ok origin v m.
Proof.
  intros Ho. induction 1 as [sig Hsig|n m r Hn _ [Hr Hv Hsid Hl Hfi Hla Hgr Hd Hs] Hrel].
  - assert (gn_addr origin ∈ gn_addr <$> g) by (apply list_elem_of_fmap; eauto).
    split; simpl; try done; [lia|by repeat constructor|apply NoDup_singleton|].
    apply (signed_chain_snoc _ []). split; [by intros i s|]. by apply signature_valid.
  - destruct (rb_of_fields n Hn) as (HR & _ & Hself & HP). unfold relay_of in Hrel.
    destruct (self_signed _ m) eqn:Hss; [done|]. rewrite HR, Hself in Hrel.
    rewrite int64_id in Hrel by (unfold in_int64, min_int64, max_int64 in *; lia). simpl in Hrel.
    destruct (Z.eqb_spec (rm_Round (bm_Msg m) + 1) (f + 1)); [done|].
    apply bind_Some in Hrel as (sig & Hsig & [= <-]).
    apply bool_decide_eq_false in Hss. unfold self_addr in *. rewrite Hself in *.
    assert (gn_addr n ∈ gn_addr <$> g) by (apply list_elem_of_fmap; eauto).
    split; cbn [bm_Msg bm_Sender rm_Round rm_Value rm_SessionId rm_Signatures]; try done.
    + lia.
    + rewrite length_app. simpl. lia.
    + by destruct (rm_Signatures (bm_Msg m)).
    + by rewrite last_snoc.
    + apply Forall_app. split; [done|]. by repeat constructor.
    + rewrite fmap_app. apply NoDup_app. simpl. split; [done|]. split; [|apply NoDup_singleton].
      intros a Ha ->%list_elem_of_singleton. by apply Hss.
    + apply signed_chain_snoc. split; [exact Hs|]. by apply (signature_valid n (bm_Msg m)).
Qed.

Lemma sent_chain_valid origin v m n :
  n ∈ g → sent_ok origin v m → chain_valid (rb_of (T:=T) g sid f n).1 (gn_addr origin) m.
Proof.
  intros Hn [Hr Hv Hsid Hl Hfi Hla Hgr Hd Hs]. split; try done.
  - rewrite int64_id by (unfold in_int64, min_int64, max_int64 in *; lia). lia.
  - eapply Forall_impl; [done|]. intros s. by apply rb_of_fields.
Qed.

Lemma sent_in_scope origin v m n :
  n ∈ g → sent_ok origin v m → in_scope (rb_of (T:=T) g sid f n).1 m = true.
Proof.
  intros Hn Hm. destruct (rb_of_fields n Hn) as (HR & Hs & _). unfold in_scope.
  rewrite HR, Hs, bool_decide_true by apply (so_session _ _ _ Hm). simpl. apply Z.leb_le.
  pose proof (so_round _ _ _ Hm). lia.
Qed.

Lemma sent_sender origin v m : sent_ok origin v m → bm_Sender m ∈ gn_addr <$> g.
Proof.
  intros [_ _ _ _ _ Hla Hgr _ _]. destruct (last (rm_Signatures (bm_Msg m))) as [s|] eqn:Hs; [|done].
  injection Hla as <-. apply last_Some in Hs as [l Hl]. rewrite Hl in Hgr.
  apply Forall_app in Hgr as [_ Hgr]. by inversion Hgr.
Qed.

(** Only the origin sends a message of round 0. *)
Lemma round_zero_sender origin v m :
  origin ∈ g → sent g sid f origin v m → rm_Round (bm_Msg m) ≤ 0 → bm_Sender m = gn_addr origin.
Proof.
  intros Ho Hm%sent_is_ok Hr; [|done]. destruct Hm as [Hr' _ _ Hl Hfi Hla _ _ _].
  destruct (rm_Signatures (bm_Msg m)) as [|s [|]]; simpl in *; [lia| |lia]. congruence.
Qed.

(** A chain of the last round has f+1 signers, and so is one signer less for a node that is
    not among them. *)
Lemma last_round_long origin v m n :
  n ∈ g → sent_ok origin v m →
  (rm_Round (bm_Msg m) = f ∨ rm_Round (bm_Msg m) = f - 1 ∧ gn_addr n ∉ sg_Signer <$> rm_Signatures (bm_Msg m)) →
  long_chain (rb_of (T:=T) g sid f n).1 m = true.
Proof.
  intros Hn Hm Hr. destruct (rb_of_fields n Hn) as (HR & _ & Hself & _). unfold long_chain, self_signed, self_addr.
  rewrite HR, Hself, (so_length _ _ _ Hm). apply Z.leb_le.
  change (CosmosAddress (gn_account n)) with (gn_addr n).
  destruct Hr as [->|[-> Hs]]; [case_bool_decide; lia|]. rewrite bool_decide_false by done. lia.
Qed.

(** It is enough to read any message of the last round. *)
Lemma last_round_heard origin v n msgs m :
  origin ∈ g → n ∈ g → honest_reads g sid f origin n v msgs → m ∈ msgs → rm_Round (bm_Msg m) = f →
  heard (rb_of (T:=T) g sid f n).1 msgs.
Proof.
  intros Ho Hn Hreads Hin Hr.
  assert (∃ m', reads_first (rb_of (T:=T) g sid f n).1 msgs m' ∧ m' ∈ msgs ∧ rm_Round (bm_Msg m') = f)
    as (m' & Hfirst & Hin' & Hr').
  { clear Hreads. induction msgs as [|m0 msgs IH]; [set_solver|].
    destruct (decide (rm_Round (bm_Msg m0) = f)) as [Hm0|Hm0].
    - exists m0. split; [|set_solver]. exists [], msgs. split; [done|constructor].
    - apply elem_of_cons in Hin as [->|Hin]; [done|].
      destruct (IH Hin) as (m' & (l1 & l2 & -> & Hl1) & Hin' & Hr').
      exists m'. split; [|set_solver]. exists (m0 :: l1), l2. split; [done|]. constructor; [|done].
      intros _ [= _ ?]. congruence. }
  exists m'. split; [done|].
  destruct (proj1 (Forall_forall _ _) Hreads m' Hin') as [Hsent%sent_is_ok _]; [|done].
  eapply last_round_long; [done..|]. by left.
Qed.

(** The messages a node relays while it reads are messages of the group. *)
Lemma relays_sent origin v n received msgs :
  n ∈ g → Forall (sent g sid f origin v) msgs →
  Forall (λ r, sent g sid f origin v {| bm_Msg := r; bm_Sender := gn_addr n |})
    (omap (relay_of (rb_of (T:=T) g sid f n).1)
       (accepted (rb_of (T:=T) g sid f n).1 (gn_addr origin) received msgs)).
Proof.
  intros Hn Hmsgs. apply Forall_forall. intros r Hr.
  apply list_elem_of_omap in Hr as (m & Hm & Hrel). apply accepted_valid in Hm as (Hm & _).
  eapply sent_relay; [done| |done]. by apply (proj1 (Forall_forall _ _) Hmsgs).
Qed.

(** Reading: no panic, nothing but the value of the origin, and relays of the group. *)
Lemma honest_startRounds origin v n msgs b :
  origin ∈ g → n ∈ g → honest_reads g sid f origin n v msgs →
  rb_originMsgSender b = gn_addr origin →
  rb_receivedMsgs b = rb_receivedMsgs (rb_of (T:=T) g sid f n).2 →
  dom (rb_values b) ⊆ {[value_key v]} →
  heard (rb_of (T:=T) g sid f n).1 msgs →
  ∃ b' outs, startRounds (rb_of (T:=T) g sid f n).1 msgs b = Ok (b', outs) ∧ decideValid b' = true ∧
    Forall (λ r, sent g sid f origin v {| bm_Msg := r; bm_Sender := gn_addr n |}) outs.
Proof.
  intros Ho Hn Hreads Horig Hrec Hdom (m & Hfirst & Hlong).
  assert (Forall (λ m, sent_ok origin v m ∧ rb_receivedMsgs b !! bm_Sender m = Some ∅) msgs) as Hok.
  { eapply Forall_impl; [exact Hreads|]. intros x [Hx%sent_is_ok Hne]; [|done]. split; [done|].
    rewrite Hrec. eapply received_init; [apply surjective_pairing|].
    apply elem_parties_of. split; [by eapply sent_sender|done]. }
  destruct (startRounds_no_panic (rb_of (T:=T) g sid f n).1 msgs b) as (b' & outs & Hrun).
  { by apply rb_of_decodes. }
  { eapply Forall_impl; [exact Hok|]. intros x [Hx Hr]. rewrite Hr. split; [eauto|]. left.
    pose proof (so_first _ _ _ Hx). by destruct (rm_Signatures (bm_Msg x)). }
  exists b', outs. split; [done|].
  pose proof (startRounds_Ok _ _ _ _ _ (rb_of_decodes n Hn) Hrun) as (Hd & Hfin & ->).
  rewrite Horig in *. set (acc := accepted _ _ _ _) in *.
  split; [|apply relays_sent; [done|]; eapply Forall_impl; [exact Hreads|by intros ? []]].
  assert (m ∈ acc) as Hm.
  { destruct Hfirst as (l1 & l2 & Hl & Hf1).
    assert (m ∈ msgs) as Hin by (rewrite Hl; set_solver).
    destruct (proj1 (Forall_forall _ _) Hok m Hin) as [Hmok Hr].
    apply reads_first_accepted; [by eapply sent_in_scope| |done|by exists l1, l2].
    apply msg_valid_spec; [by apply rb_of_decodes|by apply (sent_chain_valid origin v)]. }
  assert (∀ x, x ∈ acc → value_key (rm_Value (bm_Msg x)) = value_key v) as Hkeys.
  { intros x (Hx & _)%accepted_valid. destruct (proj1 (Forall_forall _ _) Hok x Hx) as [Hxok _].
    by rewrite (so_value _ _ _ Hxok). }
  apply decideValid_spec. split.
  - exists (value_key v). rewrite Hd. apply set_eq. intros k. unfold keys_of.
    rewrite elem_of_union, elem_of_list_to_set, list_elem_of_fmap, elem_of_singleton. split.
    + intros [Hk|(x & -> & Hx)]; [set_solver|by apply Hkeys].
    + intros ->. right. exists m. split; [symmetry; by apply Hkeys|done].
  - rewrite Hfin. apply orb_true_iff. right. apply existsb_exists. exists m.
    split; [by apply list_elem_of_In|done].
Qed.

(** [EnsureValid] at a node that reads the origin's message and the relays. *)
Lemma honest_EnsureValid origin v n m queued arriving budget :
  origin ∈ g → n ∈ g → bm_Sender m = gn_addr origin →
  (length queued < defaultChanCapacity)%nat →
  honest_reads g sid f origin n v (take budget (queued ++ m :: arriving)) →
  heard (rb_of (T:=T) g sid f n).1 (take budget (queued ++ m :: arriving)) →
  ∃ b' outs, EnsureValid (rb_of (T:=T) g sid f n).1 m queued arriving budget (rb_of (T:=T) g sid f n).2
    = Some (Ok (b', outs, true)) ∧
    Forall (λ r, sent g sid f origin v {| bm_Msg := r; bm_Sender := gn_addr n |}) outs.
Proof.
  intros Ho Hn Hs Hq Hreads Hheard. unfold EnsureValid.
  destruct (Nat.leb_spec defaultChanCapacity (length queued)); [lia|].
  destruct (honest_startRounds origin v n (take budget (queued ++ m :: arriving))
              (set_origin (bm_Sender m) (rb_of (T:=T) g sid f n).2)) as (b' & outs & -> & Hv & Houts);
    [done..|]. simpl. rewrite Hv. eauto.
Qed.

(** [Broadcast] at the origin. *)
Lemma honest_Broadcast origin v msgs :
  origin ∈ g → honest_reads g sid f origin origin v msgs →
  (f = 0 ∨ heard (rb_of (T:=T) g sid f origin).1 msgs) →
  ∃ b' (m0 : RoundMessage T) outs, Broadcast.Broadcast (rb_of (T:=T) g sid f origin).1 v msgs (rb_of (T:=T) g sid f origin).2
    = Ok (b', m0 :: outs, true) ∧
    Forall (λ r, sent g sid f origin v {| bm_Msg := r; bm_Sender := gn_addr origin |}) (m0 :: outs) ∧
    rm_Round m0 = 0 ∧ rm_Value m0 = v.
Proof.
  intros Ho Hreads Hheard. unfold Broadcast.Broadcast.
  destruct (rb_of_fields origin Ho) as (HR & Hsid & Hself & _). rewrite Hsid, Hself, HR.
  fold (initial sid v). destruct (node_signs origin (SignHash (initial sid v)) Ho) as (sig & Hsig & _).
  rewrite Hsig. set (b0 := set_origin _ _).
  change (self_addr (rb_of (T:=T) g sid f origin).1) with (gn_addr origin).
  set (init := with_signatures _ _).
  assert (sent g sid f origin v {| bm_Msg := init; bm_Sender := gn_addr origin |}) as Hinit by by constructor.
  assert (dom (rb_values b0) = {[value_key v]}) as Hdom.
  { subst b0. simpl. rewrite lookup_empty, dom_insert_L. set_solver. }
  destruct (decide (f = 0)) as [Hz|Hne].
  - assert (msgs = []) as ->.
    { destruct msgs as [|m msgs]; [done|]. apply Forall_cons in Hreads as [[Hm Hne] _].
      destruct Hne. pose proof (so_round _ _ _ (sent_is_ok _ _ _ Ho Hm)).
      eapply round_zero_sender; [done..|lia]. }
    rewrite Hz. simpl. exists (set_final b0), init, []. split; [|by repeat constructor].
    do 2 f_equal. apply decideValid_spec. simpl. eauto.
  - destruct Hheard as [?|Hheard]; [done|]. rewrite (proj2 (Z.eqb_neq _ _)) by lia.
    destruct (honest_startRounds origin v origin msgs b0) as (b' & outs & -> & Hv & Houts);
      [done..|set_solver|done|].
    simpl. rewrite Hv. exists b', init, outs. split; [done|]. by repeat constructor.
Qed.

End lemmas.

(** ** A group of three *)

Module SampleGroup.
#[export] Existing Instance sample_bech32.
#[export] Existing Instance sample_crypto.

Definition member (a : Address) : GroupNode :=
  {| gn_account := sample_account a; gn_id := Core.identifier (sample_party a) |}.
Definition members : list GroupNode := [member "o"; member "p"; member "q"].

(** The origin's message and its relay by p. *)
Definition init_of {U} `{!Hashable U} (v : U) : ReliableBroadcastMsg U := Sample.chainOf v ["o"].
Definition relay_by_p {U} `{!Hashable U} (v : U) : ReliableBroadcastMsg U := Sample.chainOf v ["o"; "p"].

Lemma members_honest : honest_group members.
Proof.
  split; [apply (bool_decide_unpack _); vm_compute; exact I|repeat constructor; eexists; reflexivity|].
  repeat constructor; intros h; eexists; (split; [reflexivity|]); simpl; by rewrite bool_decide_true.
Qed.

Section values.
Context {U : Type} `{!Hashable U} (v : U).

Lemma init_sent : sent members "S" 1 (member "o") (Some v) (init_of v).
Proof. exact (sent_init members "S" 1 (member "o") (Some v) _ eq_refl). Qed.

Lemma relay_sent : sent members "S" 1 (member "o") (Some v) (relay_by_p v).
Proof.
  exact (sent_relay members "S" 1 (member "o") (Some v) (member "p") (init_of v) _
    ltac:(set_solver) init_sent eq_refl).
Qed.

End values.
End SampleGroup.

(** ** Theorems *)

Section theorems.
Context `{Bech32, Crypto} {T : Type} `{!Hashable T}.

(** C10: Delivery between honest nodes.  Let the nodes read messages that the group sends for
    one value of the origin.  The broadcast of the origin is positive if it has read a message
    of the last round (or none is relayed); the check of another node is positive if a chain
    of f+1 signers, its own acknowledgement included, is the first message that it reads of
    some sender and round within its budget.  In both cases the node neither panics nor
    blocks, and what it sends meanwhile is again such a message.  Without the condition on
    the first message the verdict may be negative ([honest_group_may_reject]). *)
Theorem broadcast_delivered g sid f origin (v : option T) :
  honest_group g → 0 ≤ f < max_int64 → origin ∈ g →
  (∀ msgs, honest_reads g sid f origin origin v msgs →
     (f = 0 ∨ ∃ m, m ∈ msgs ∧ rm_Round (bm_Msg m) = f) →
     ∃ b outs, Broadcast.Broadcast (rb_of (T:=T) g sid f origin).1 v msgs (rb_of (T:=T) g sid f origin).2
         = Ok (b, outs, true) ∧
       Forall (λ r, sent g sid f origin v {| bm_Msg := r; bm_Sender := gn_addr origin |}) outs) ∧
  (∀ n m queued arriving budget, n ∈ g →
     (length queued < defaultChanCapacity)%nat → bm_Sender m = gn_addr origin →
     honest_reads g sid f origin n v (take budget (queued ++ m :: arriving)) →
     heard (rb_of (T:=T) g sid f n).1 (take budget (queued ++ m :: arriving)) →
     ∃ b outs, EnsureValid (rb_of (T:=T) g sid f n).1 m queued arriving budget (rb_of (T:=T) g sid f n).2
         = Some (Ok (b, outs, true)) ∧
       Forall (λ r, sent g sid f origin v {| bm_Msg := r; bm_Sender := gn_addr n |}) outs).
Proof.
  intros Hg Hf Ho. split.
  - intros msgs Hreads Hlast. destruct (honest_Broadcast g sid f Hg Hf origin v msgs) as (b & m0 & outs & Hb & Hs & _);
      [done..| |by exists b, (m0 :: outs)].
    destruct Hlast as [?|(m & Hm & Hr)]; [by left|right]. by eapply last_round_heard.
  - intros n m queued arriving budget Hn Hq Hs Hreads Hheard. by apply honest_EnsureValid.
Qed.

End theorems.

(** ** An unlucky order *)

Section reordering.
#[local] Existing Instance sample_bech32.
#[local] Existing Instance sample_crypto.
#[local] Existing Instance sample_hashable.

#[local] Instance RoundMessage_eq_dec : EqDecision (RoundMessage string).
Proof. solve_decision. Defined.
#[local] Instance ReliableBroadcastMsg_eq_dec : EqDecision (ReliableBroadcastMsg string).
Proof. solve_decision. Defined.
#[local] Instance res_eq_dec : EqDecision (res (list string * bool)).
Proof. solve_decision. Defined.

Definition peers : list Address := ["a"; "b"; "c"; "d"].
Definition others (x : Address) : list Address := filter (λ y, y ≠ x) peers.

(** [x] reads the relays of every peer, and of each peer's second round first the one that
    already carries its own signature. *)
Definition unlucky (x : Address) : list (ReliableBroadcastMsg string) :=
  ((λ y, Sample.chain "v" ["o"; y]) <$> others x) ++
  (y ← others x; (λ z, Sample.chain "v" ["o"; z; y]) <$> x :: filter (λ z, z ≠ y) (others x)).

(** Five honest nodes with f = 3.  Every peer of the origin reads every message that the
    group sends, and yet all reject the broadcast: a node keeps one message per sender and
    round, and the ones it keeps here are those it has signed itself, which neither count as
    longer chains nor are relayed. *)
Theorem honest_group_may_reject :
  Forall (λ x,
    Sample.verdict x ("o" :: others x) 3 (Sample.chain "v" ["o"]) (unlucky x) = Some (Ok (["v"], false)) ∧
    (* every message of every peer is among those that [x] reads *)
    Forall (λ y, Forall (λ m, m ∈ unlucky x)
              (Sample.relays y ("o" :: others y) 3 (Sample.chain "v" ["o"]) (unlucky y))) (others x)) peers.
Proof. apply (bool_decide_unpack _). vm_compute. exact I. Qed.

End reordering.

Section witness.
Import SampleGroup.
#[local] Existing Instance sample_hashable.

Lemma broadcast_delivered_witness :
  (∃ b outs, Broadcast.Broadcast (rb_of (T:=string) members "S" 1 (member "o")).1 (Some "v") [relay_by_p "v"]
     (rb_of (T:=string) members "S" 1 (member "o")).2 = Ok (b, outs, true)) ∧
  ∃ b outs, EnsureValid (rb_of (T:=string) members "S" 1 (member "q")).1 (init_of "v") [] [relay_by_p "v"] 2
     (rb_of (T:=string) members "S" 1 (member "q")).2 = Some (Ok (b, outs, true)).
Proof.
  destruct (broadcast_delivered members "S" 1 (member "o") (Some "v") members_honest) as [Horigin Hpeer];
    [done|by left|].
  split.
  - destruct (Horigin [relay_by_p "v"]) as (b & outs & Hb & _); [| |by exists b, outs].
    + constructor; [by split; [apply relay_sent|]|constructor].
    + right. exists (relay_by_p "v"). split; [by left|done].
  - destruct (Hpeer (member "q") (init_of "v") [] [relay_by_p "v"] 2%nat) as (b & outs & Hb & _);
      [by right; right; left|apply (bool_decide_unpack _); reflexivity|done| | |by exists b, outs].
    + constructor; [by split; [apply init_sent|]|constructor; [by split; [apply relay_sent|]|constructor]].
    + exists (init_of "v"). split; [by exists [], [relay_by_p "v"]|reflexivity].
Defined.

End witness.
