(* ===== verification/Consensus.v ===== *)
(** * Consensus on the data to sign and on the signers

    Models [internal/tss/session/consensus]: [Receive], the acceptor's and the
    proposer's loops.  A loop is a function of the events it reads, in order; the
    end of the list means that it is still waiting.  The relays that reach the
    reliable broadcasters while [EnsureValid] or [Broadcast] runs are an input
    ([RelayInput]), as is the outcome of each send ([Transport]). *)

From S2P Require Import Prelude Core Session Broadcast.
#[local] Open Scope Z_scope.

(** ** types.go *)

(** [SignStartData] embeds a pointer, nil or a list of party addresses. *)
Definition SignStartData := option (list string).

(** [fmt.Sprintf("%x", sha256.Sum256(data))] of the deterministic encoding. *)
Class SignStartEncoding := hash_parties : list string → string.

#[export] Instance SignStartData_Hashable `{SignStartEncoding} : Hashable SignStartData :=
  λ s, match s with None => "" | Some parties => hash_parties parties end.

(** [Mechanism[T]]: [VerifyProposedData] may store a fetched deposit. *)
Class Mechanism (St T : Type) := {
  FormProposalData : St → res (option T);
  VerifyProposedData : T → St → St * res unit }.

(** [RoundMessage.Encode] and [DecodeRoundMessage]. *)
Class GobMessage (T : Type) := {
  EncodeRoundMessage : RoundMessage T → bytes;
  DecodeRoundMessage : bytes → option (RoundMessage T) }.

(** ** consensus.go *)

Record consensusMsg := {
  cm_Sender : Address; cm_Type : RequestType; cm_Data : option AnyData }.

Record RelayInput (T : Type) := {
  ri_queued : list (ReliableBroadcastMsg T);
  ri_arriving : list (ReliableBroadcastMsg T);
  ri_budget : nat }.
Arguments ri_queued {_} _.
Arguments ri_arriving {_} _.
Arguments ri_budget {_} _.
Arguments Build_RelayInput {_} _ _ _.

Definition no_relays {T} : RelayInput T :=
  {| ri_queued := []; ri_arriving := []; ri_budget := 1 |}.

(** How a loop ends: still waiting, finished, blocked for ever on a full channel,
    or crashed by a panic. *)
Inductive Outcome (A : Type) :=
| StillWaiting (a : A) | Finished (a : A) | Blocked | Crashed.
Arguments StillWaiting {_} _.
Arguments Finished {_} _.
Arguments Blocked {_}.
Arguments Crashed {_}.

(** The value of a party missing from a [map[core.Address]p2p.Party]. *)
Definition zero_party : Party :=
  {| CoreAddress := ""; identifier := {| pid_id := ""; pid_moniker := ""; pid_key := 0 |} |}.

Section consensus.
Context `{Bech32, Crypto, RandSource, SignStartEncoding}.
Context {St T : Type} `{!Hashable T, !Mechanism St T}.
Context `{!GobMessage T, !GobMessage SignStartData}.

Record Consensus := {
  co_parties : gmap Address Party;
  co_proposalBroadcaster : RBConfig * RBState T;
  co_signStartBroadcaster : RBConfig * RBState SignStartData;
  co_self : Account PrivKey;
  co_sessionId : string;
  co_threshold : Z;
  co_proposer : Address }.

Record Result := {
  r_sigData : option T; r_signers : option (list Party); r_err : option error }.

Definition no_result : Result := {| r_sigData := None; r_signers := None; r_err := None |}.
Definition set_err (e : error) (r : Result) : Result :=
  {| r_sigData := r_sigData r; r_signers := r_signers r; r_err := Some e |}.
Definition set_sigData (d : option T) (r : Result) : Result :=
  {| r_sigData := d; r_signers := r_signers r; r_err := r_err r |}.
Definition set_signers (l : list Party) (r : Result) : Result :=
  {| r_sigData := r_sigData r; r_signers := Some l; r_err := r_err r |}.

Definition New (self : Account PrivKey) (sessionId : string) (threshold : Z)
    (parties : list Party) (proposer : Address) : Consensus :=
  let maxMaliciousParties :=
    MaxMaliciousParties (Z.of_nat (length parties) + 1) threshold in
  {| co_parties := partiesByAddress parties;
     co_proposalBroadcaster := NewReliable sessionId parties self maxMaliciousParties;
     co_signStartBroadcaster := NewReliable sessionId parties self maxMaliciousParties;
     co_self := self;
     co_sessionId := sessionId;
     co_threshold := threshold;
     co_proposer := proposer |}.

(** Where [Receive] puts a message. *)
Inductive Routed :=
| ToMsgs (m : consensusMsg)
| ToProposalBroadcaster (m : ReliableBroadcastMsg T)
| ToSignStartBroadcaster (m : ReliableBroadcastMsg SignStartData).

Definition decodeData (U : Type) `{!GobMessage U} (data : option AnyData) : res (RoundMessage U) :=
  raw ← wrap (of_option (UnmarshalReliable data) "unmarshal")
          "failed to unmarshal reliable broadcast data";
  wrap (of_option (DecodeRoundMessage raw) "decode") "failed to decode round message".

Definition Receive (c : Consensus) (request : option SubmitRequest) : res Routed :=
  match request with
  | None => Err (ENew "nil request")
  | Some rq =>
      if negb (bool_decide (rq_SessionId rq = co_sessionId c)) then
        Err (ENew "session id mismatch")
      else
        sender ← wrap (Addr.FromString (rq_Sender rq)) "failed to parse sender address";
        match co_parties c !! sender with
        | None => Err (ENew "unknown sender")
        | Some _ =>
            let msg := {| cm_Sender := sender; cm_Type := rq_Type rq; cm_Data := rq_Data rq |} in
            match rq_Type rq with
            | RT_PROPOSAL =>
                roundMsg ← decodeData T (rq_Data rq);
                if rm_Round roundMsg =? 0 then Ok (ToMsgs msg)
                else
                  let m := {| bm_Msg := roundMsg; bm_Sender := sender |} in
                  match Broadcast.Receive (co_proposalBroadcaster c).1 m with
                  | None => Ok (ToProposalBroadcaster m)
                  | Some e => Err e
                  end
            | RT_SIGN_START =>
                roundMsg ← decodeData SignStartData (rq_Data rq);
                if rm_Round roundMsg =? 0 then Ok (ToMsgs msg)
                else
                  let m := {| bm_Msg := roundMsg; bm_Sender := sender |} in
                  match Broadcast.Receive (co_signStartBroadcaster c).1 m with
                  | None => Ok (ToSignStartBroadcaster m)
                  | Some e => Err e
                  end
            | RT_ACCEPTANCE => Ok (ToMsgs msg)
            | _ => Err (ENew "unsupported request type")
            end
        end
  end.

(** ** acceptor.go *)

(** The acceptance message the deferred function sends to the proposer. *)
Definition acceptanceRequest (c : Consensus) (accepted : bool) : SubmitRequest :=
  {| rq_Sender := CosmosAddress (co_self c); rq_SessionId := co_sessionId c;
     rq_Type := RT_ACCEPTANCE; rq_Data := Some (AnyAcceptanceData accepted) |}.

(** The deferred send: its failure only changes [result.err]. *)
Definition sendAcceptance (c : Consensus) (net : Transport) (accepted : bool) (r : Result)
    : Result :=
  match Send net (co_parties c) (acceptanceRequest c accepted) (co_proposer c) with
  | None => r
  | Some e => set_err (EWrap e "failed to send proposal acceptance") r
  end.

(** The returned error is the second component; [None] in front: blocked. *)
Definition handleProposalMsg (c : Consensus) (net : Transport) (relays : RelayInput T)
    (msg : consensusMsg) (s : St) (r : Result) : option (res (St * Result * option error)) :=
  match decodeData T (cm_Data msg) with
  | Panic => Some Panic
  | Err e => Some (Ok (s, r, Some e))
  | Ok roundMsg =>
      match EnsureValid (co_proposalBroadcaster c).1
              {| bm_Msg := roundMsg; bm_Sender := cm_Sender msg |}
              (ri_queued relays) (ri_arriving relays) (ri_budget relays)
              (co_proposalBroadcaster c).2 with
      | None => None
      | Some Panic => Some Panic
      | Some (Err e) => Some (Err e)
      | Some (Ok (_, _, valid)) => Some (
          if negb valid then
            Ok (s, r, Some (ENew "proposal msg was not delivered reliable"))
          else
            match rm_Value roundMsg with
            | None => Ok (s, r, None)
            | Some value =>
                match VerifyProposedData value s with
                | (_, Panic) => Panic
                | (s', Err e) =>
                    Ok (s', sendAcceptance c net false r,
                        Some (EWrap e "failed to verify proposed data"))
                | (s', Ok _) =>
                    Ok (s', sendAcceptance c net true (set_sigData (Some value) r), None)
                end
            end)
      end
  end.

(** The loop over the selected parties: the signing parties in order (without
    the local one) and whether the local party is among them. *)
Fixpoint selectParties (c : Consensus) (selected : list string) (distinct : gset string)
    : res (list Party * bool) :=
  match selected with
  | [] => Ok ([], false)
  | participant :: rest =>
      if bool_decide (participant ∈ distinct) then
        Err (ENew "duplicate party in sign start message")
      else if bool_decide (participant = CosmosAddress (co_self c)) then
        rec ← selectParties c rest ({[participant]} ∪ distinct);
        Ok (fst rec, true)
      else
        addr ← wrap (Addr.FromString participant) "failed to parse party address";
        match co_parties c !! addr with
        | None => Err (ENew "party is not present in consensus")
        | Some party =>
            rec ← selectParties c rest ({[participant]} ∪ distinct);
            Ok (party :: fst rec, snd rec)
        end
  end.

Definition handleSignStartMsg (c : Consensus) (relays : RelayInput SignStartData)
    (msg : consensusMsg) (r : Result) : option (res (Result * option error)) :=
  match decodeData SignStartData (cm_Data msg) with
  | Panic => Some Panic
  | Err e => Some (Ok (r, Some e))
  | Ok roundMsg =>
      match EnsureValid (co_signStartBroadcaster c).1
              {| bm_Msg := roundMsg; bm_Sender := cm_Sender msg |}
              (ri_queued relays) (ri_arriving relays) (ri_budget relays)
              (co_signStartBroadcaster c).2 with
      | None => None
      | Some Panic => Some Panic
      | Some (Err e) => Some (Err e)
      | Some (Ok (_, _, valid)) => Some (
          if negb valid then
            Ok (r, Some (ENew "proposal msg was not delivered reliable"))
          else
            match rm_Value roundMsg with
            | None => Ok (r, Some (ENew "nil data in sign start message"))
            | Some value =>
                let selectedParties := default [] value in
                (* make([]p2p.Party, 0, len(selectedParties)-1) *)
                if Z.of_nat (length selectedParties) - 1 <? 0 then Panic
                else
                  match selectParties c selectedParties ∅ with
                  | Panic => Panic
                  | Err e => Ok (r, Some e)
                  | Ok (signingParties, selfPresent) =>
                      Ok (if (selfPresent : bool) then set_signers signingParties r else r, None)
                  end
            end)
      end
  end.

(** Events of the loops; [None] is [ctx.Done()]. *)
Fixpoint accept_loop (c : Consensus) (net : Transport) (prop_in : RelayInput T)
    (start_in : RelayInput SignStartData) (events : list (option consensusMsg))
    (proposalAccepted : bool) (s : St) (r : Result) : Outcome (St * Result) :=
  match events with
  | [] => StillWaiting (s, r)
  | None :: _ => Finished (s, set_err (ESentinel ErrContextDone) r)
  | Some msg :: rest =>
      if negb (bool_decide (cm_Sender msg = co_proposer c)) then
        accept_loop c net prop_in start_in rest proposalAccepted s r
      else
        match cm_Type msg with
        | RT_PROPOSAL =>
            if proposalAccepted then accept_loop c net prop_in start_in rest proposalAccepted s r
            else
              match handleProposalMsg c net prop_in msg s r with
              | None => Blocked
              | Some (Ok (s', r', None)) =>
                  match r_sigData r' with
                  | None => Finished (s', r')
                  | Some _ => accept_loop c net prop_in start_in rest true s' r'
                  end
              | Some (Ok (s', r', Some e)) =>
                  Finished (s', set_err (EWrap e "failed to handle proposal message") r')
              | Some _ => Crashed
              end
        | RT_SIGN_START =>
            if negb proposalAccepted then
              accept_loop c net prop_in start_in rest proposalAccepted s r
            else
              match handleSignStartMsg c start_in msg r with
              | None => Blocked
              | Some (Ok (r', None)) => Finished (s, r')
              | Some (Ok (r', Some e)) =>
                  Finished (s, set_err (EWrap e "failed to handle sign start message") r')
              | Some _ => Crashed
              end
        | _ => accept_loop c net prop_in start_in rest proposalAccepted s r
        end
  end.

Definition accept (c : Consensus) (net : Transport) (prop_in : RelayInput T)
    (start_in : RelayInput SignStartData) (events : list (option consensusMsg)) (s : St)
    : Outcome (St * Result) :=
  accept_loop c net prop_in start_in events false s no_result.

(** ** proposer.go *)

(** [rand.Uint64() % 0] panics once no signer is left. *)
Fixpoint removeSigners (signersToRemove i : nat) (rand : nat → Z) (signers : list Address)
    : res (list Address) :=
  match signersToRemove with
  | O => Ok signers
  | S n =>
      match length signers with
      | O => Panic
      | _ =>
          let idx := Z.to_nat (rand i `mod` Z.of_nat (length signers)) in
          removeSigners n (S i) rand (delete idx signers)
      end
  end.

Definition getSignersSet (signers : list Address) (threshold : Z) (rand : nat → Z)
    : res (list Address) :=
  let signersToRemove := Z.of_nat (length signers) - threshold in
  if signersToRemove <=? 0 then Ok signers
  else removeSigners (Z.to_nat signersToRemove) 0 rand signers.

(** [Acceptances]: the first acceptance of each party.  The order in which Go
    ranges over the map is unspecified: [order] picks a permutation. *)
Definition Acceptors (order : list Address → list Address) (acceptances : gmap Address bool)
    : list Address :=
  order ((map_to_list (filter (λ kv, kv.2 = true) acceptances)).*1).

Inductive ProposeEvent :=
| PCtxDone | PBoundedDone | PMsg (m : consensusMsg).

(** How the proposer ends: its result and the messages its sign-start broadcaster
    sends, in order. *)
Definition Proposed : Type := Outcome (Result * list (RoundMessage SignStartData)).

(** The loop that collects acceptances; [finish] is the bounded-context branch. *)
Fixpoint collect (finish : gmap Address bool → Proposed) (events : list ProposeEvent)
    (acceptances : gmap Address bool) (r : Result) : Proposed :=
  match events with
  | [] => StillWaiting (r, [])
  | PCtxDone :: _ => Finished (set_err (ESentinel ErrContextDone) r, [])
  | PBoundedDone :: _ => finish acceptances
  | PMsg msg :: rest =>
      match cm_Type msg with
      | RT_ACCEPTANCE =>
          match acceptances !! cm_Sender msg with
          | Some _ => collect finish rest acceptances r
          | None =>
              match UnmarshalAcceptance (cm_Data msg) with
              | None => collect finish rest acceptances r
              | Some accepted => collect finish rest (<[cm_Sender msg := accepted]> acceptances) r
              end
          end
      | _ => collect finish rest acceptances r
      end
  end.

(** [start_relays] are the messages the sign-start broadcast reads. *)
Definition selectSigners (c : Consensus) (order : list Address → list Address)
    (start_relays : list (ReliableBroadcastMsg SignStartData)) (r : Result)
    (acceptances : gmap Address bool) : Proposed :=
  let possibleSigners := Acceptors order acceptances in
  let signersCount := Z.of_nat (length possibleSigners) + 1 in
  if signersCount <=? co_threshold c then
    Finished (set_err (ENew "not enough parties accepted the proposal") r, [])
  else
    match getSignersSet possibleSigners (co_threshold c)
            (DeterministicRandSource (co_sessionId c)) with
    | Panic | Err _ => Crashed
    | Ok signers =>
        let r := set_signers ((λ a, default zero_party (co_parties c !! a)) <$> signers) r in
        let signStartMsg : SignStartData := Some (signers ++ [CosmosAddress (co_self c)]) in
        match Broadcast.Broadcast (co_signStartBroadcaster c).1 (Some signStartMsg) start_relays
                (co_signStartBroadcaster c).2 with
        | Ok (_, sent, true) => Finished (r, sent)
        | Ok (_, sent, false) =>
            Finished (set_err (ENew "sign start message broadcast failure") r, sent)
        | _ => Crashed
        end
    end.

Definition propose_sent (c : Consensus) (order : list Address → list Address)
    (prop_relays : list (ReliableBroadcastMsg T))
    (start_relays : list (ReliableBroadcastMsg SignStartData))
    (events : list ProposeEvent) (s : St) : Proposed :=
  match FormProposalData s with
  | Panic => Crashed
  | Err e => Finished (set_err (EWrap e "failed to form proposal data") no_result, [])
  | Ok signingData =>
      match Broadcast.Broadcast (co_proposalBroadcaster c).1 signingData prop_relays
              (co_proposalBroadcaster c).2 with
      | Ok (_, _, true) =>
          match signingData with
          | None => Finished (no_result, [])
          | Some d =>
              let r := set_sigData (Some d) no_result in
              collect (selectSigners c order start_relays r) events ∅ r
          end
      | Ok (_, _, false) =>
          Finished (set_err (ENew "proposal data broadcast failure") no_result, [])
      | _ => Crashed
      end
  end.

(** The result alone, as [WaitFor] returns it. *)
Definition propose (c : Consensus) (order : list Address → list Address)
    (prop_relays : list (ReliableBroadcastMsg T))
    (start_relays : list (ReliableBroadcastMsg SignStartData))
    (events : list ProposeEvent) (s : St) : Outcome Result :=
  match propose_sent c order prop_relays start_relays events s with
  | Finished (r, _) => Finished r
  | StillWaiting (r, _) => StillWaiting r
  | Blocked => Blocked
  | Crashed => Crashed
  end.

End consensus.

(** ** Lemmas *)

Lemma removeSigners_spec n i rand l :
  (n ≤ length l)%nat →
  ∃ l', removeSigners n i rand l = Ok l' ∧ length l' = (length l - n)%nat ∧ l' `sublist_of` l.
Proof.
  revert i l. induction n as [|n IH]; intros i l Hn; cbn [removeSigners].
  { exists l. split_and!; [done|lia|done]. }
  destruct (length l) as [|k] eqn:Hl; [lia|].
  set (idx := Z.to_nat _).
  assert (idx < length l)%nat as Hidx.
  { subst idx. pose proof (Z.mod_pos_bound (rand i) (Z.of_nat (S k))). lia. }
  destruct (lookup_lt_is_Some_2 _ _ Hidx) as [x Hx].
  pose proof (length_delete l idx (ex_intro _ _ Hx)) as Hdel.
  destruct (IH (S i) (delete idx l)) as (l' & Heq & Hlen & Hsub); [lia|].
  exists l'. split_and!; [exact Heq|lia|].
  etrans; [exact Hsub|]. apply sublist_delete.
Qed.

Lemma getSignersSet_spec l t rand :
  0 ≤ t →
  ∃ l', getSignersSet l t rand = Ok l' ∧ l' `sublist_of` l ∧
        Z.of_nat (length l') = Z.min (Z.of_nat (length l)) t.
Proof.
  intros Ht. unfold getSignersSet.
  destruct (Z.leb_spec (Z.of_nat (length l) - t) 0).
  - exists l. split_and!; [done|done|lia].
  - destruct (removeSigners_spec (Z.to_nat (Z.of_nat (length l) - t)) 0 rand l)
      as (l' & -> & Hlen & Hsub); [lia|].
    exists l'. split_and!; [done|done|lia].
Qed.

Section lemmas.
Context `{Bech32, Crypto, RandSource, SignStartEncoding}.
Context {St T : Type} `{!Hashable T, !Mechanism St T}.
Context `{!GobMessage T, !GobMessage SignStartData}.
Implicit Types (c : Consensus (T:=T)).

(** The map of parties is keyed by their addresses, as [New] builds it. *)
Definition parties_keyed c : Prop :=
  ∀ a p, co_parties c !! a = Some p → CoreAddress p = a.

Lemma New_keyed self sid th parties proposer :
  parties_keyed (New self sid th parties proposer).
Proof. intros a p. apply partiesByAddress_lookup. Qed.

Lemma selectParties_spec c selected distinct ps selfPresent :
  parties_keyed c → selectParties c selected distinct = Ok (ps, selfPresent) →
  NoDup selected ∧ (∀ a, a ∈ selected → a ∉ distinct) ∧
  Forall (λ p, co_parties c !! CoreAddress p = Some p) ps ∧
  CoreAddress <$> ps = filter (λ a, a ≠ CosmosAddress (co_self c)) selected ∧
  (selfPresent = true ↔ CosmosAddress (co_self c) ∈ selected).
Proof.
  intros Hk. revert distinct ps selfPresent.
  induction selected as [|a rest IH]; intros distinct ps sp; cbn [selectParties].
  { intros [= <- <-]. split_and!; [constructor|set_solver|constructor|done|set_solver]. }
  case_bool_decide as Hd; [done|]. case_bool_decide as Hs.
  - intros Hr. apply bind_Ok in Hr as ([ps' sp'] & Hr & [= <- <-]).
    destruct (IH _ _ _ Hr) as (Hnd & Hdis & Hps & Hfil & _).
    split_and!; [constructor; set_solver|set_solver|done| |set_solver].
    rewrite filter_cons_False by tauto. done.
  - intros Hr. apply bind_Ok in Hr as (addr & Ha & Hr). apply wrap_Ok in Ha.
    apply Addr.FromString_Ok in Ha as [-> _].
    destruct (co_parties c !! a) as [p|] eqn:Hp; [|done].
    apply bind_Ok in Hr as ([ps' sp'] & Hr & [= <- <-]).
    destruct (IH _ _ _ Hr) as (Hnd & Hdis & Hps & Hfil & Hself). simpl in *.
    pose proof (Hk _ _ Hp) as Hpa.
    split_and!; [constructor; set_solver|set_solver|constructor; [by rewrite Hpa|done]| |].
    + rewrite filter_cons_True by done. rewrite Hpa. by f_equal.
    + rewrite Hself. set_solver.
Qed.

(** The acceptor's data comes from a delivered and verified proposal. *)
Definition verified_proposal c (prop_in : RelayInput T) (events : list (option consensusMsg))
    (d : T) : Prop :=
  ∃ msg roundMsg b outs s0 s1,
    Some msg ∈ events ∧ cm_Sender msg = co_proposer c ∧ cm_Type msg = RT_PROPOSAL ∧
    decodeData T (cm_Data msg) = Ok roundMsg ∧ rm_Value roundMsg = Some d ∧
    EnsureValid (co_proposalBroadcaster c).1 {| bm_Msg := roundMsg; bm_Sender := cm_Sender msg |}
      (ri_queued prop_in) (ri_arriving prop_in) (ri_budget prop_in)
      (co_proposalBroadcaster c).2 = Some (Ok (b, outs, true)) ∧
    VerifyProposedData d s0 = (s1, Ok tt).

(** The signers come from a delivered sign-start message that names the node. *)
Definition announced_signers c (start_in : RelayInput SignStartData)
    (events : list (option consensusMsg)) (ps : list Party) : Prop :=
  ∃ msg roundMsg b outs selected,
    Some msg ∈ events ∧ cm_Sender msg = co_proposer c ∧ cm_Type msg = RT_SIGN_START ∧
    decodeData SignStartData (cm_Data msg) = Ok roundMsg ∧
    rm_Value roundMsg = Some (Some selected) ∧
    EnsureValid (co_signStartBroadcaster c).1 {| bm_Msg := roundMsg; bm_Sender := cm_Sender msg |}
      (ri_queued start_in) (ri_arriving start_in) (ri_budget start_in)
      (co_signStartBroadcaster c).2 = Some (Ok (b, outs, true)) ∧
    NoDup selected ∧ CosmosAddress (co_self c) ∈ selected ∧
    CoreAddress <$> ps = filter (λ a, a ≠ CosmosAddress (co_self c)) selected ∧
    Forall (λ p, co_parties c !! CoreAddress p = Some p) ps.

Lemma handleProposalMsg_sound c net prop_in msg s r s' r' e events :
  Some msg ∈ events → cm_Sender msg = co_proposer c → cm_Type msg = RT_PROPOSAL →
  r_sigData r = None → handleProposalMsg c net prop_in msg s r = Some (Ok (s', r', e)) →
  r_signers r' = r_signers r ∧
  ∀ d, r_sigData r' = Some d → verified_proposal c prop_in events d.
Proof.
  intros Hin Hs Ht Hr Hh. unfold handleProposalMsg in Hh.
  destruct (decodeData T (cm_Data msg)) as [roundMsg| |] eqn:Hd; [|simplify_eq; naive_solver..].
  destruct (EnsureValid _ _ _ _ _ _) as [[[[b outs] valid]| |]|] eqn:He; try done.
  injection Hh as Hh. destruct valid; simpl in Hh; [|simplify_eq; naive_solver].
  destruct (rm_Value roundMsg) as [v|] eqn:Hv; [|simplify_eq; naive_solver].
  destruct (VerifyProposedData v s) as [s1 [[]|ev|]] eqn:Hver; try done; injection Hh as <- <- <-;
    unfold sendAcceptance; destruct (Send _ _ _ _); simpl; (split; [done|]); rewrite ?Hr;
    try done; intros d [= <-]; unfold verified_proposal; naive_solver.
Qed.

Lemma handleSignStartMsg_sound c start_in msg r r' e events :
  parties_keyed c →
  Some msg ∈ events → cm_Sender msg = co_proposer c → cm_Type msg = RT_SIGN_START →
  r_signers r = None → handleSignStartMsg c start_in msg r = Some (Ok (r', e)) →
  r_sigData r' = r_sigData r ∧
  ∀ ps, r_signers r' = Some ps → announced_signers c start_in events ps.
Proof.
  intros Hk Hin Hs Ht Hr Hh. unfold handleSignStartMsg in Hh.
  destruct (decodeData SignStartData (cm_Data msg)) as [roundMsg| |] eqn:Hd;
    [|simplify_eq; naive_solver..].
  destruct (EnsureValid _ _ _ _ _ _) as [[[[b outs] valid]| |]|] eqn:He; try done.
  injection Hh as Hh. destruct valid; simpl in Hh; [|simplify_eq; naive_solver].
  destruct (rm_Value roundMsg) as [v|] eqn:Hv; [|simplify_eq; naive_solver].
  destruct (_ <? 0) eqn:Hlt; [done|].
  destruct (selectParties c (default [] v) ∅) as [[ps sp]| |] eqn:Hsel; try done;
    [|simplify_eq; naive_solver].
  injection Hh as <- <-. destruct sp; [|naive_solver]. split; [done|].
  intros ps' [= <-]. apply selectParties_spec in Hsel as (Hnd & _ & Hps & Hfil & Hself); [|done].
  destruct v as [selected|]; [|done]. simpl in *.
  unfold announced_signers. naive_solver.
Qed.

Lemma accept_loop_sound c net prop_in start_in all events acc s r s' r' :
  parties_keyed c → (∀ m, m ∈ events → m ∈ all) → r_signers r = None →
  acc = bool_decide (is_Some (r_sigData r)) →
  (∀ d, r_sigData r = Some d → verified_proposal c prop_in all d) →
  accept_loop c net prop_in start_in events acc s r = Finished (s', r') →
  (∀ d, r_sigData r' = Some d → verified_proposal c prop_in all d) ∧
  (∀ ps, r_signers r' = Some ps →
     announced_signers c start_in all ps ∧ is_Some (r_sigData r')).
Proof.
  intros Hk. revert acc s r. induction events as [|[msg|] rest IH]; intros acc s r Hall Hsg Hacc Hsd;
    cbn [accept_loop]; [done| |].
  2: { intros [= <- <-]. simpl. split; [done|]. intros ps. by rewrite Hsg. }
  assert (∀ m, m ∈ rest → m ∈ all) as Hrest by set_solver.
  pose proof (IH acc s r Hrest Hsg Hacc Hsd) as Hskip.
  destruct (bool_decide_reflect (cm_Sender msg = co_proposer c)) as [Hp|Hp]; simpl;
    [|exact Hskip].
  destruct (cm_Type msg) eqn:Ht; try exact Hskip.
  - destruct acc; [exact Hskip|]. symmetry in Hacc. apply bool_decide_eq_false in Hacc.
    destruct (handleProposalMsg c net prop_in msg s r) as [[[[s1 r1] e]| |]|] eqn:Hh; try done.
    eapply (handleProposalMsg_sound _ _ _ _ _ _ _ _ _ all) in Hh as [Hsg1 Hsd1];
      [|set_solver|done|done|by apply eq_None_not_Some].
    destruct e as [e|].
    + intros [= <- <-]. simpl. split; [done|]. intros ps. by rewrite Hsg1, Hsg.
    + destruct (r_sigData r1) as [d1|] eqn:Hd1.
      * apply IH; [done|congruence| |by rewrite Hd1].
        rewrite Hd1. symmetry. apply bool_decide_eq_true. eauto.
      * intros [= <- <-]. split; [by rewrite Hd1|]. intros ps. by rewrite Hsg1, Hsg.
  - destruct acc; [|exact Hskip]. symmetry in Hacc. apply bool_decide_eq_true in Hacc. simpl.
    destruct (handleSignStartMsg c start_in msg r) as [[[r1 e]| |]|] eqn:Hh; try done.
    eapply (handleSignStartMsg_sound _ _ _ _ _ _ all) in Hh as [Hsd1 Hsg1]; [|done|set_solver|done..].
    destruct e as [e|]; intros [= <- <-]; simpl; rewrite Hsd1; naive_solver.
Qed.

Lemma collect_spec (finish : gmap Address bool → Proposed (T:=T)) events acc r r' :
  collect finish events acc r = Finished r' →
  r' = (set_err (ESentinel ErrContextDone) r, []) ∨
  ∃ acc', finish acc' = Finished r' ∧
    ∀ a v, acc' !! a = Some v → acc !! a = Some v ∨
      ∃ m, PMsg m ∈ events ∧ cm_Sender m = a ∧ cm_Type m = RT_ACCEPTANCE ∧
           UnmarshalAcceptance (cm_Data m) = Some v.
Proof.
  revert acc. induction events as [|[| |m] rest IH]; intros acc; cbn [collect]; [done|..].
  - intros [= <-]. by left.
  - intros Hf. right. exists acc. naive_solver.
  - assert (∀ acc1, collect finish rest acc1 r = Finished r' →
      (∀ a v, acc1 !! a = Some v → acc !! a = Some v ∨
        cm_Sender m = a ∧ cm_Type m = RT_ACCEPTANCE ∧ UnmarshalAcceptance (cm_Data m) = Some v) →
      r' = (set_err (ESentinel ErrContextDone) r, []) ∨ ∃ acc', finish acc' = Finished r' ∧
        ∀ a v, acc' !! a = Some v → acc !! a = Some v ∨
        ∃ m0, PMsg m0 ∈ PMsg m :: rest ∧ cm_Sender m0 = a ∧ cm_Type m0 = RT_ACCEPTANCE ∧
           UnmarshalAcceptance (cm_Data m0) = Some v) as Hgo.
    { intros acc1 Hc Hacc1. apply IH in Hc as [->|(acc' & Hf & Hacc')]; [by left|right].
      exists acc'. split; [done|]. intros a v Hav.
      destruct (Hacc' a v Hav) as [Ha|(m0 & Hm0 & ?)]; [|right; exists m0; set_solver].
      destruct (Hacc1 a v Ha) as [?|?]; [by left|]. right. exists m. set_solver. }
    destruct (cm_Type m) eqn:Ht; try (intros Hc; apply (Hgo _ Hc); by left).
    destruct (acc !! cm_Sender m); [intros Hc; apply (Hgo _ Hc); by left|].
    destruct (UnmarshalAcceptance (cm_Data m)) eqn:Hu; [|intros Hc; apply (Hgo _ Hc); by left].
    intros Hc. apply (Hgo _ Hc). intros a v. rewrite lookup_insert.
    case_decide; [intros [= <-]; by right|by left].
Qed.

Lemma Acceptors_elem order (acceptances : gmap Address bool) :
  (∀ l, order l ≡ₚ l) →
  NoDup (Acceptors order acceptances) ∧
  ∀ a, a ∈ Acceptors order acceptances ↔ acceptances !! a = Some true.
Proof.
  intros Hord. unfold Acceptors. split.
  - rewrite Hord. apply NoDup_fst_map_to_list.
  - intros a. rewrite Hord, list_elem_of_fmap. split.
    + intros ([k v] & -> & Hkv). apply elem_of_map_to_list, map_lookup_filter_Some in Hkv.
      naive_solver.
    + intros Ha. exists (a, true). split; [done|]. apply elem_of_map_to_list.
      by apply map_lookup_filter_Some.
Qed.

(** A round-0 message carries the value that is broadcast. *)
Lemma Broadcast_head {U} `{!Hashable U} cfg (v : option U) received b b' sent valid m :
  Broadcast.Broadcast cfg v received b = Ok (b', sent, valid) → head sent = Some m → rm_Value m = v.
Proof.
  unfold Broadcast.Broadcast. destruct (Sign _ _) as [sig|]; [|by intros [= <- <- <-]].
  intros Hb. apply bind_Ok in Hb as ([b1 outs] & _ & [= _ <- _]). by intros [= <-].
Qed.

Definition accepted_in (events : list ProposeEvent) (a : Address) : Prop :=
  ∃ m, PMsg m ∈ events ∧ cm_Sender m = a ∧ cm_Type m = RT_ACCEPTANCE ∧
       UnmarshalAcceptance (cm_Data m) = Some true.

(** The signers of a proposer's result are T distinct parties that accepted, and their
    addresses followed by its own are what it broadcasts, with success unless the result
    has an error. *)
Lemma propose_sent_spec c order prop_relays start_relays events (s : St) r sent ps :
  0 ≤ co_threshold c → parties_keyed c → (∀ l, order l ≡ₚ l) →
  (∀ m, PMsg m ∈ events → is_Some (co_parties c !! cm_Sender m)) →
  propose_sent c order prop_relays start_relays events s = Finished (r, sent) →
  r_signers r = Some ps →
  ∃ d b valid, FormProposalData s = Ok (Some d) ∧ r_sigData r = Some d ∧
    Z.of_nat (length ps) = co_threshold c ∧ NoDup (CoreAddress <$> ps) ∧
    Forall (λ p, co_parties c !! CoreAddress p = Some p ∧ accepted_in events (CoreAddress p)) ps ∧
    Broadcast.Broadcast (co_signStartBroadcaster c).1
      (Some (Some ((CoreAddress <$> ps) ++ [CosmosAddress (co_self c)]) : SignStartData))
      start_relays (co_signStartBroadcaster c).2 = Ok (b, sent, valid) ∧
    (r_err r = None → valid = true).
Proof.
  intros Hth Hk Hord Hknown Hp Hps. unfold propose_sent in Hp.
  destruct (FormProposalData s) as [sd| |] eqn:Hform; [|by simplify_eq..].
  destruct (Broadcast.Broadcast _ sd _ _) as [[[b0 outs0] []]| |]; [|by simplify_eq..].
  destruct sd as [d|]; [|by simplify_eq].
  apply collect_spec in Hp as [[= -> ->]|(acc & Hsel & Hacc)]; [done|].
  unfold selectSigners in Hsel.
  destruct (Z.leb_spec (Z.of_nat (length (Acceptors order acc)) + 1) (co_threshold c)) as [?|Hlen];
    [by simplify_eq|].
  destruct (Acceptors_elem order acc Hord) as [Hnd Hel].
  destruct (getSignersSet_spec (Acceptors order acc) (co_threshold c)
              (DeterministicRandSource (co_sessionId c)) Hth) as (signers & Hg & Hsub & Hl).
  rewrite Hg in Hsel. pose proof (sublist_submseteq _ _ Hsub) as Hsub'.
  assert (∀ a, a ∈ signers → accepted_in events a) as Hsent.
  { intros a Ha. pose proof (elem_of_submseteq _ _ _ Ha Hsub') as Hin.
    apply Hel, Hacc in Hin as [Hn|Hm]; [|exact Hm]. by rewrite lookup_empty in Hn. }
  assert (∀ a, a ∈ signers → ∃ p, co_parties c !! a = Some p ∧ CoreAddress p = a) as Hpty.
  { intros a Ha. destruct (Hsent a Ha) as (m & Hm & <- & _). destruct (Hknown m Hm) as [p Hp].
    eauto. }
  assert (CoreAddress <$> ((λ a, default zero_party (co_parties c !! a)) <$> signers) = signers) as Haddr.
  { rewrite <- list_fmap_compose. rewrite <- (list_fmap_id signers) at 2.
    apply list_fmap_ext. intros i a Hi%list_elem_of_lookup_2. simpl.
    destruct (Hpty a Hi) as (p & -> & Hpa). done. }
  destruct (Broadcast.Broadcast _ _ start_relays _) as [[[b outs] valid]| |] eqn:Hb; [|done..].
  assert (ps = (λ a, default zero_party (co_parties c !! a)) <$> signers ∧ sent = outs ∧
          r_sigData r = Some d ∧ (r_err r = None → valid = true)) as (-> & -> & Hd & He)
    by (destruct valid; injection Hsel as <- <-; simpl in *; by simplify_eq).
  exists d, b, valid. rewrite Haddr. split_and!; [done..| | | |done|done].
  - rewrite length_fmap. lia.
  - by eapply sublist_NoDup.
  - apply Forall_fmap, Forall_forall. intros a Ha. simpl.
    destruct (Hpty a Ha) as (p & Hp & Hpa). rewrite Hp. simpl. rewrite Hpa. by split; [|apply Hsent].
Qed.

(** Data without an error come with signers. *)
Lemma propose_sent_signers c order prop_relays start_relays events (s : St) r sent :
  propose_sent c order prop_relays start_relays events s = Finished (r, sent) →
  r_err r = None → is_Some (r_sigData r) → is_Some (r_signers r).
Proof.
  unfold propose_sent. destruct (FormProposalData s) as [sd| |]; [|by intros [= <- <-]|done].
  destruct (Broadcast.Broadcast _ sd _ _) as [[[b0 outs0] []]| |]; [|by intros [= <- <-]|done..].
  destruct sd as [d|]; [|by intros [= <- <-] _ []].
  intros [[= -> ->]|(acc & Hsel & _)]%collect_spec; [done|]. revert Hsel. unfold selectSigners.
  destruct (_ <=? _); [by intros [= <- <-]|]. destruct (getSignersSet _ _ _) as [signers| |]; [|done..].
  destruct (Broadcast.Broadcast _ _ start_relays _) as [[[b outs] []]| |]; [..|done|done];
    intros [= <- <-]; eauto.
Qed.

(** A sign-start message that is handled without error gives the acceptor the group it
    announces, or no signers when the node is not in it. *)
Lemma handleSignStartMsg_group c start_in msg roundMsg r r' (group : list Address) :
  parties_keyed c → r_signers r = None →
  decodeData SignStartData (cm_Data msg) = Ok roundMsg →
  rm_Value roundMsg = Some (Some group) →
  handleSignStartMsg c start_in msg r = Some (Ok (r', None)) →
  match r_signers r' with
  | Some qs => CosmosAddress (co_self c) :: (CoreAddress <$> qs) ≡ₚ group ∧ NoDup group
  | None => CosmosAddress (co_self c) ∉ group
  end.
Proof.
  intros Hk Hr Hdec Hval Hh. unfold handleSignStartMsg in Hh. rewrite Hdec in Hh.
  destruct (EnsureValid _ _ _ _ _ _) as [[[[b outs] []]| |]|]; try done.
  rewrite Hval in Hh. simpl in Hh. destruct (_ <? 0); [done|].
  destruct (selectParties c group ∅) as [[ps sp]| |] eqn:Hsel; try done.
  injection Hh as <-.
  apply selectParties_spec in Hsel as (Hnd & _ & _ & Hfil & Hself); [|done].
  destruct sp; simpl.
  - split; [|done]. rewrite Hfil. apply NoDup_Permutation.
    + constructor; [|by apply NoDup_filter]. rewrite list_elem_of_filter. naive_solver.
    + done.
    + intros a. rewrite elem_of_cons, list_elem_of_filter.
      destruct (decide (a = CosmosAddress (co_self c))) as [->|]; naive_solver.
  - rewrite Hr. intros Hin. by apply Hself in Hin.
Qed.

(** An acceptor that ends with data and without error has handled a sign-start message of
    the proposer. *)
Lemma accept_loop_start c net prop_in start_in events acc s r s' r' :
  r_signers r = None → acc = bool_decide (is_Some (r_sigData r)) →
  accept_loop c net prop_in start_in events acc s r = Finished (s', r') →
  r_err r' = None → is_Some (r_sigData r') →
  ∃ msg r0, Some msg ∈ events ∧ cm_Sender msg = co_proposer c ∧ cm_Type msg = RT_SIGN_START ∧
    r_signers r0 = None ∧ handleSignStartMsg c start_in msg r0 = Some (Ok (r', None)).
Proof.
  revert acc s r. induction events as [|[msg|] rest IH]; intros acc s r Hsg Hacc; cbn [accept_loop];
    [done| |by intros [= <- <-]].
  assert (∀ acc1 s1 r1, r_signers r1 = None → acc1 = bool_decide (is_Some (r_sigData r1)) →
    accept_loop c net prop_in start_in rest acc1 s1 r1 = Finished (s', r') →
    r_err r' = None → is_Some (r_sigData r') →
    ∃ m r0, Some m ∈ Some msg :: rest ∧ cm_Sender m = co_proposer c ∧ cm_Type m = RT_SIGN_START ∧
      r_signers r0 = None ∧ handleSignStartMsg c start_in m r0 = Some (Ok (r', None))) as Hgo.
  { intros acc1 s1 r1 Hsg1 Hacc1 Hloop He Hd.
    destruct (IH _ _ _ Hsg1 Hacc1 Hloop He Hd) as (m & r0 & Hm & ?).
    exists m, r0. split; [by apply list_elem_of_further|done]. }
  destruct (bool_decide_reflect (cm_Sender msg = co_proposer c)) as [Hp|Hp]; simpl;
    [|by apply Hgo].
  destruct (cm_Type msg) eqn:Ht; try by apply Hgo.
  - destruct acc; [by apply Hgo|]. symmetry in Hacc. apply bool_decide_eq_false in Hacc.
    destruct (handleProposalMsg c net prop_in msg s r) as [[[[s1 r1] e]| |]|] eqn:Hh; try done.
    eapply (handleProposalMsg_sound _ _ _ _ _ _ _ _ _ [Some msg]) in Hh as [Hsg1 _];
      [|by apply list_elem_of_here|done|done|by apply eq_None_not_Some].
    destruct e as [e|]; [by intros [= <- <-]|].
    destruct (r_sigData r1) as [d1|] eqn:Hd1; [|by intros [= <- <-]; rewrite Hd1 => _ []].
    apply Hgo; [congruence|]. rewrite Hd1. symmetry. apply bool_decide_eq_true. eauto.
  - destruct acc; [|by apply Hgo]. simpl.
    destruct (handleSignStartMsg c start_in msg r) as [[[r1 e]| |]|] eqn:Hh; try done.
    destruct e as [e|]; [by intros [= <- <-]|]. intros [= <- <-] _ _.
    exists msg, r. split; [by apply list_elem_of_here|done].
Qed.

End lemmas.

(** ** Concrete instances *)

Module SampleConsensus.
#[export] Instance encoding : SignStartEncoding := λ l, join_with ","%char l.
#[export] Instance mechanism : Mechanism nat string := {
  FormProposalData := λ _, Ok (Some "tx");
  VerifyProposedData := λ d s,
    (S s, if bool_decide (d = "tx") then Ok tt else Err (ENew "unknown data")) }.

#[export] Existing Instance sample_bech32.
#[export] Existing Instance sample_crypto.
#[export] Existing Instance sample_hashable.
#[export] Existing Instance sample_rand.

(** Decoders that know one message each. *)
#[export] Instance proposals : GobMessage string := {
  EncodeRoundMessage := λ _, [];
  DecodeRoundMessage := λ _, Some (bm_Msg (Sample.chain "tx" ["o"])) }.
Definition starts (parties : list string) : GobMessage SignStartData := {|
  EncodeRoundMessage := λ _, [];
  DecodeRoundMessage := λ _, Some (bm_Msg (Sample.chainOf (Some parties : SignStartData) ["o"])) |}.

Definition acceptor : Consensus (T:=string) :=
  New (sample_account "p") "S" 1 [sample_party "o"] "o".
Definition proposer : Consensus (T:=string) :=
  New (sample_account "o") "S" 1 [sample_party "p"] "o".
Definition from_proposer (t : RequestType) : option consensusMsg :=
  Some {| cm_Sender := "o"; cm_Type := t; cm_Data := Some (AnyReliableBroadcastData []) |}.
Definition all_reachable : Transport := λ _ _, true.
End SampleConsensus.

(** ** Theorems *)

Section theorems.
Context `{Bech32, Crypto, RandSource, SignStartEncoding}.
Context {St T : Type} `{!Hashable T, !Mechanism St T}.
Context `{!GobMessage T, !GobMessage SignStartData}.
Implicit Types (c : Consensus (T:=T)).

(** A handler whose broadcast channel has room returns. *)
Lemma handleProposalMsg_returns c net relays msg s r :
  (length (ri_queued relays) < defaultChanCapacity)%nat →
  handleProposalMsg c net relays msg s r ≠ None.
Proof.
  intros Hq. unfold handleProposalMsg. destruct (decodeData T (cm_Data msg)); [|done..].
  unfold EnsureValid. destruct (Nat.leb_spec defaultChanCapacity (length (ri_queued relays))); [lia|].
  by destruct (_ ≫= _) as [[[]]| |].
Qed.

Lemma handleSignStartMsg_returns c relays msg r :
  (length (ri_queued relays) < defaultChanCapacity)%nat →
  handleSignStartMsg c relays msg r ≠ None.
Proof.
  intros Hq. unfold handleSignStartMsg. destruct (decodeData SignStartData (cm_Data msg)); [|done..].
  unfold EnsureValid. destruct (Nat.leb_spec defaultChanCapacity (length (ri_queued relays))); [lia|].
  by destruct (_ ≫= _) as [[[]]| |].
Qed.

Lemma accept_loop_ends c net prop_in start_in events acc s r0 :
  None ∈ events →
  (length (ri_queued prop_in) < defaultChanCapacity)%nat →
  (length (ri_queued start_in) < defaultChanCapacity)%nat →
  accept_loop c net prop_in start_in events acc s r0 = Crashed ∨
  ∃ s' r, accept_loop c net prop_in start_in events acc s r0 = Finished (s', r).
Proof.
  intros Hin Hp Hs. revert acc s r0. induction events as [|[msg|] rest IH]; intros acc s r0.
  - by apply elem_of_nil in Hin.
  - apply elem_of_cons in Hin as [?|Hin]; [done|]. specialize (IH Hin). cbn [accept_loop].
    destruct (negb _); [apply IH|].
    destruct (cm_Type msg); try apply IH.
    + destruct acc; [apply IH|].
      pose proof (handleProposalMsg_returns c net prop_in msg s r0 Hp).
      destruct (handleProposalMsg _ _ _ _ _ _) as [[[[s1 r1] [e|]]| |]|]; eauto; [|done].
      destruct (r_sigData r1); [apply IH|eauto].
    + destruct acc; simpl; [|apply IH].
      pose proof (handleSignStartMsg_returns c start_in msg r0 Hs).
      destruct (handleSignStartMsg _ _ _ _) as [[[r1 [e|]]| |]|]; eauto. done.
  - eauto.
Qed.

(** C7: Soundness of the acceptor.  Whatever messages it reads, data it ends up
    with was proposed by the session's proposer, passed the reliable broadcast
    and was verified locally; signers it ends up with are distinct known parties
    that the proposer announced together with the node itself, and come only
    with such data. *)
Theorem accept_sound self sid th parties proposer net prop_in start_in events s s' r :
  let c := New self sid th parties proposer in
  accept c net prop_in start_in events s = Finished (s', r) →
  (∀ d, r_sigData r = Some d → verified_proposal c prop_in events d) ∧
  (∀ ps, r_signers r = Some ps →
     announced_signers c start_in events ps ∧ is_Some (r_sigData r)).
Proof.
  intros c. by apply accept_loop_sound; [apply New_keyed|..].
Qed.

(** C9: The acceptor's loop ends.  Once the session's context is done, and unless the
    channel of a reliable broadcast was full before its value was known, the loop has
    returned a result or panicked: it neither keeps waiting for messages nor blocks. *)
Theorem accept_ends c net prop_in start_in events s :
  None ∈ events →
  (length (ri_queued prop_in) < defaultChanCapacity)%nat →
  (length (ri_queued start_in) < defaultChanCapacity)%nat →
  accept c net prop_in start_in events s = Crashed ∨
  ∃ s' r, accept c net prop_in start_in events s = Finished (s', r).
Proof. intros Hin Hp Hs. by apply accept_loop_ends. Qed.

(** C8: The proposer's result.  When it ends without error and with data, it has
    selected exactly T distinct parties, each of which sent an acceptance, and
    has reliably broadcast their addresses followed by its own. *)
Theorem propose_sound c order prop_relays start_relays events s r d :
  0 ≤ co_threshold c → parties_keyed c → (∀ l, order l ≡ₚ l) →
  (* [Receive] only lets parties of the session through *)
  (∀ m, PMsg m ∈ events → is_Some (co_parties c !! cm_Sender m)) →
  propose c order prop_relays start_relays events s = Finished r →
  r_err r = None → r_sigData r = Some d →
  FormProposalData s = Ok (Some d) ∧
  ∃ ps b outs,
    r_signers r = Some ps ∧ Z.of_nat (length ps) = co_threshold c ∧
    NoDup (CoreAddress <$> ps) ∧
    Forall (λ p, co_parties c !! CoreAddress p = Some p ∧
      ∃ m, PMsg m ∈ events ∧ cm_Sender m = CoreAddress p ∧ cm_Type m = RT_ACCEPTANCE ∧
           UnmarshalAcceptance (cm_Data m) = Some true) ps ∧
    Broadcast.Broadcast (co_signStartBroadcaster c).1
      (Some (Some ((CoreAddress <$> ps) ++ [CosmosAddress (co_self c)]) : SignStartData))
      start_relays (co_signStartBroadcaster c).2 = Ok (b, outs, true).
Proof.
  intros Hth Hk Hord Hknown Hp Herr Hd. unfold propose in Hp.
  destruct (propose_sent c order prop_relays start_relays events s) as [[]|[r1 sent]| |] eqn:Hs;
    try done. injection Hp as ->.
  destruct (propose_sent_signers _ _ _ _ _ _ _ _ Hs Herr) as [ps Hps]; [eauto|].
  destruct (propose_sent_spec c order prop_relays start_relays events s r sent ps)
    as (d' & b & valid & Hform & Hd' & Hlen & Hnd & Hall & Hb & Hv); [done..|].
  simplify_eq. rewrite (Hv Herr) in Hb. split; [done|]. by exists ps, b, sent.
Qed.

(** C3: Proposer and acceptor of a session agree on the signing group.  Take a run of the
    proposer that ends with signers [ps], and a run of an acceptor, on any events, that
    ends with data and without error, every sign-start message of the proposer among these
    events being the one its broadcaster sends first.  Then the acceptor signs with exactly
    the proposer and [ps]: its signers and itself are that group, without duplicates, or it
    has no signers and is not in the group. *)
Theorem signing_group_agreement co ca order prop_relays start_relays collected s ro sent ps
    net prop_in start_in events sa sa' ra :
  0 ≤ co_threshold co → parties_keyed co → (∀ l, order l ≡ₚ l) →
  (∀ m, PMsg m ∈ collected → is_Some (co_parties co !! cm_Sender m)) →
  propose_sent co order prop_relays start_relays collected s = Finished (ro, sent) →
  r_signers ro = Some ps →
  parties_keyed ca → co_proposer ca = CosmosAddress (co_self co) →
  accept ca net prop_in start_in events sa = Finished (sa', ra) →
  r_err ra = None → is_Some (r_sigData ra) →
  (∀ msg, Some msg ∈ events → cm_Sender msg = co_proposer ca → cm_Type msg = RT_SIGN_START →
     ∃ m, decodeData SignStartData (cm_Data msg) = Ok m ∧ head sent = Some m) →
  let group := CosmosAddress (co_self co) :: (CoreAddress <$> ps) in
  match r_signers ra with
  | Some qs => CosmosAddress (co_self ca) :: (CoreAddress <$> qs) ≡ₚ group ∧ NoDup group
  | None => CosmosAddress (co_self ca) ∉ group
  end.
Proof.
  intros Hth Hko Hord Hknown Hp Hps Hka Hprop Ha Herr Hd Hsent group.
  destruct (propose_sent_spec co order prop_relays start_relays collected s ro sent ps)
    as (d & b & valid & _ & _ & _ & _ & _ & Hb & _); [done..|].
  apply accept_loop_start in Ha as (msg & r0 & Hin & Hs & Ht & Hr0 & Hh); [|done..].
  destruct (Hsent msg Hin Hs Ht) as (m & Hdec & Hm).
  pose proof (Broadcast_head _ _ _ _ _ _ _ _ Hb Hm) as Hv.
  assert ((CoreAddress <$> ps) ++ [CosmosAddress (co_self co)] ≡ₚ group) as Hgroup
    by (symmetry; apply Permutation_cons_append).
  pose proof (handleSignStartMsg_group ca start_in msg m r0 ra _ Hka Hr0 Hdec Hv Hh) as Hg.
  destruct (r_signers ra) as [qs|]; [|by rewrite <- Hgroup].
  by rewrite <- Hgroup.
Qed.

(** A sign-start message with an empty list of parties that passes the
    reliable broadcast makes the acceptor panic: the capacity of the slice it
    allocates is -1. *)
Theorem empty_sign_start_panics c start_in msg roundMsg r value b outs :
  decodeData SignStartData (cm_Data msg) = Ok roundMsg →
  rm_Value roundMsg = Some value → default [] value = [] →
  EnsureValid (co_signStartBroadcaster c).1 {| bm_Msg := roundMsg; bm_Sender := cm_Sender msg |}
    (ri_queued start_in) (ri_arriving start_in) (ri_budget start_in)
    (co_signStartBroadcaster c).2 = Some (Ok (b, outs, true)) →
  handleSignStartMsg c start_in msg r = Some Panic.
Proof.
  intros Hdec Hval He Hev. unfold handleSignStartMsg. by rewrite Hdec, Hev, Hval, He.
Qed.

End theorems.

(** The selected signers depend on the order in which Go ranges over the
    acceptances: the same acceptances and the same session select different
    signers under different orders, so the selection is not a function of the
    session identifier and the acceptances. *)
Theorem selection_depends_on_map_order :
  ∃ (rand : nat → Z) (acceptances : gmap Address bool) (order1 order2 : list Address → list Address),
    (∀ l, order1 l ≡ₚ l) ∧ (∀ l, order2 l ≡ₚ l) ∧
    ∃ a1 a2, getSignersSet (Acceptors order1 acceptances) 1 rand = Ok [a1] ∧
             getSignersSet (Acceptors order2 acceptances) 1 rand = Ok [a2] ∧ a1 ≠ a2.
Proof.
  exists (λ _, 0), {["p" := true; "q" := true]}, (λ l, l), (@rev _).
  split; [done|]. split; [intros l; by rewrite <- Permutation_rev|].
  do 2 eexists. split; [vm_compute; reflexivity|]. split; [vm_compute; reflexivity|].
  discriminate.
Qed.

Section witnesses.
Import SampleConsensus.

Lemma accept_ends_witness :
  let _ := starts ["o"; "p"] in
  ∃ s' r, accept (St:=nat) acceptor all_reachable no_relays no_relays
            [from_proposer RT_PROPOSAL; None] 0%nat = Finished (s', r).
Proof.
  intros dec.
  destruct (accept_ends (St:=nat) acceptor all_reachable no_relays no_relays
              [from_proposer RT_PROPOSAL; None] 0%nat) as [Hc|Hf].
  - apply list_elem_of_further, list_elem_of_here.
  - apply (bool_decide_unpack _). reflexivity.
  - apply (bool_decide_unpack _). reflexivity.
  - vm_compute in Hc. discriminate.
  - exact Hf.
Defined.

Lemma accept_sound_witness :
  let _ := starts ["o"; "p"] in
  verified_proposal (St:=nat) acceptor no_relays
    [from_proposer RT_PROPOSAL; from_proposer RT_SIGN_START] "tx".
Proof.
  intros dec.
  destruct (accept (St:=nat) acceptor all_reachable no_relays no_relays
              [from_proposer RT_PROPOSAL; from_proposer RT_SIGN_START] 0%nat)
    as [|[s' r]| |] eqn:E; [vm_compute in E; discriminate| |vm_compute in E; discriminate..].
  destruct (accept_sound (sample_account "p") "S" 1 [sample_party "o"] "o" all_reachable no_relays
              no_relays [from_proposer RT_PROPOSAL; from_proposer RT_SIGN_START] 0%nat s' r E)
    as [Hd _].
  apply Hd. vm_compute in E. injection E as _ <-. reflexivity.
Defined.

Lemma propose_sound_witness :
  let acc := {| cm_Sender := "p"; cm_Type := RT_ACCEPTANCE; cm_Data := Some (AnyAcceptanceData true) |} in
  ∃ r : Result (T:=string),
    propose proposer (λ l, l) [] [] [PMsg acc; PBoundedDone] 0%nat = Finished r ∧
    ∃ ps, r_signers r = Some ps ∧ Z.of_nat (length ps) = 1.
Proof.
  intros acc.
  destruct (propose proposer (λ l, l) [] [] [PMsg acc; PBoundedDone] 0%nat)
    as [|r| |] eqn:E; [vm_compute in E; discriminate| |vm_compute in E; discriminate..].
  exists r. split; [reflexivity|].
  destruct (propose_sound proposer (λ l, l) [] [] [PMsg acc; PBoundedDone] 0%nat r "tx")
    as (_ & ps & _ & _ & Hps & Hl & _);
    [vm_compute; discriminate|apply New_keyed|done| |exact E|..].
  - intros m Hm. apply elem_of_cons in Hm as [Hm|Hm].
    + injection Hm as ->. eexists. reflexivity.
    + apply list_elem_of_singleton in Hm. discriminate.
  - vm_compute in E. injection E as <-. reflexivity.
  - vm_compute in E. injection E as <-. reflexivity.
  - exists ps. split; [exact Hps|exact Hl].
Defined.

Lemma signing_group_agreement_witness :
  let _ := starts ["p"; "o"] in
  let acc := {| cm_Sender := "p"; cm_Type := RT_ACCEPTANCE; cm_Data := Some (AnyAcceptanceData true) |} in
  ∃ (ro ra : Result (T:=string)) sent sa' ps qs,
    propose_sent proposer (λ l, l) [] [] [PMsg acc; PBoundedDone] 0%nat = Finished (ro, sent) ∧
    accept (St:=nat) acceptor all_reachable no_relays no_relays
      [from_proposer RT_PROPOSAL; from_proposer RT_SIGN_START] 0%nat = Finished (sa', ra) ∧
    r_signers ro = Some ps ∧ r_signers ra = Some qs ∧
    "p" :: (CoreAddress <$> qs) ≡ₚ "o" :: (CoreAddress <$> ps).
Proof.
  intros dec acc.
  destruct (propose_sent proposer (λ l, l) [] [] [PMsg acc; PBoundedDone] 0%nat)
    as [|[ro sent]| |] eqn:Ep; [vm_compute in Ep; discriminate| |vm_compute in Ep; discriminate..].
  destruct (accept (St:=nat) acceptor all_reachable no_relays no_relays
              [from_proposer RT_PROPOSAL; from_proposer RT_SIGN_START] 0%nat)
    as [|[sa' ra]| |] eqn:Ea; [vm_compute in Ea; discriminate| |vm_compute in Ea; discriminate..].
  assert (r_signers ro = Some [sample_party "p"]) as Hps
    by (vm_compute in Ep; injection Ep as <- _; reflexivity).
  assert (r_signers ra = Some [sample_party "o"]) as Hqs
    by (vm_compute in Ea; injection Ea as _ <-; reflexivity).
  pose proof (signing_group_agreement (T:=string) (St:=nat) proposer acceptor (λ l, l) [] []
    [PMsg acc; PBoundedDone] 0%nat ro sent [sample_party "p"] all_reachable no_relays no_relays
    [from_proposer RT_PROPOSAL; from_proposer RT_SIGN_START] 0%nat sa' ra) as Hagree.
  rewrite Hqs in Hagree.
  exists ro, ra, sent, sa', [sample_party "p"], [sample_party "o"]. split_and!; [done..|].
  apply Hagree; [vm_compute; discriminate|apply New_keyed|done| |exact Ep|exact Hps|apply New_keyed
                |reflexivity|exact Ea|..].
  - intros m Hm. apply elem_of_cons in Hm as [Hm|Hm].
    + injection Hm as ->. eexists. reflexivity.
    + apply list_elem_of_singleton in Hm. discriminate.
  - vm_compute in Ea. injection Ea as _ <-. reflexivity.
  - vm_compute in Ea. injection Ea as _ <-. eexists. reflexivity.
  - intros msg Hin _ Ht. apply elem_of_cons in Hin as [Hin|Hin]; [injection Hin as ->; discriminate|].
    apply list_elem_of_singleton in Hin. injection Hin as ->.
    vm_compute in Ep. injection Ep as _ <-. eexists. split; reflexivity.
Defined.

Lemma empty_sign_start_panics_witness :
  let _ := starts [] in
  handleSignStartMsg acceptor no_relays
    {| cm_Sender := "o"; cm_Type := RT_SIGN_START;
       cm_Data := Some (AnyReliableBroadcastData []) |} (no_result (T:=string)) = Some Panic.
Proof.
  intros dec.
  destruct (EnsureValid (co_signStartBroadcaster acceptor).1
              {| bm_Msg := bm_Msg (Sample.chainOf (Some [] : SignStartData) ["o"]);
                 bm_Sender := "o" |} [] [] 1 (co_signStartBroadcaster acceptor).2)
    as [[[[b outs] v]| |]|] eqn:E; [|vm_compute in E; discriminate..].
  assert (v = true) as -> by (vm_compute in E; congruence).
  by eapply (empty_sign_start_panics acceptor no_relays _
    (bm_Msg (Sample.chainOf (Some [] : SignStartData) ["o"])) no_result (Some [])).
Defined.

End witnesses.
