(* ===== verification/Fetcher.v ===== *)
(** * Fetching and pricing a deposit

    Models [internal/bridge/deposit/fetcher.go], the error classes of
    [internal/bridge/chain/types.go] and [internal/core/errors.go], the client
    repository ([internal/bridge/chain/repository]), the query methods of
    [internal/core/connector] and the hash patterns of [internal/bridge/common.go].

    The chain clients are records of operations ([Client]); bridgeless-core (the
    querier, the commission and the default referral id) is the class
    [BridgeCore]. *)

From S2P Require Import Prelude Core Deposits.
#[local] Open Scope Z_scope.

(** ** Error classes *)

Module ChainErrors.
Definition IsPendingDepositError (err : error) : bool :=
  errors_Is err ErrTxPending || errors_Is err ErrTxNotConfirmed.

Definition IsInvalidDepositError (err : error) : bool :=
  errors_Is err ErrChainNotSupported || errors_Is err ErrTxFailed ||
  errors_Is err ErrTxNotFound || errors_Is err ErrDepositNotFound ||
  errors_Is err ErrInvalidReceiverAddress || errors_Is err ErrInvalidDepositedAmount ||
  errors_Is err ErrInvalidScriptPubKey || errors_Is err ErrInvalidTxNonce ||
  errors_Is err ErrFailedUnpackLogs || errors_Is err ErrUnsupportedEvent ||
  errors_Is err ErrUnsupportedContract.
End ChainErrors.

Module CoreErrors.
Definition IsInvalidDepositError (err : error) : bool :=
  errors_Is err ErrTokenPairNotFound || errors_Is err ErrTokenInfoNotFound ||
  errors_Is err ErrDestinationTokenInfoNotFound || errors_Is err ErrSourceTokenInfoNotFound ||
  errors_Is err ErrReferralNotFound.
End CoreErrors.

(** The condition under which the callers mark a deposit invalid. *)
Definition marked_invalid (err : error) : bool :=
  ChainErrors.IsInvalidDepositError err || CoreErrors.IsInvalidDepositError err.

(** ** internal/bridge/common.go *)

Definition DefaultNativeTokenAddress : string :=
  "0x0000000000000000000000000000000000000000".

Definition in_range (lo hi : N) (a : ascii) : bool :=
  ((lo <=? N_of_ascii a) && (N_of_ascii a <=? hi))%N.
(** [[a-fA-F0-9]] *)
Definition is_hex (a : ascii) : bool :=
  in_range 48 57 a || in_range 65 70 a || in_range 97 102 a.
(** [[1-9A-HJ-NP-Za-km-z]] *)
Definition is_base58 (a : ascii) : bool :=
  in_range 49 57 a || in_range 65 72 a || in_range 74 78 a || in_range 80 90 a ||
  in_range 97 107 a || in_range 109 122 a.

Fixpoint str_forall (f : ascii → bool) (s : string) : bool :=
  match s with EmptyString => true | String a s' => f a && str_forall f s' end.

(** [^0x[a-fA-F0-9]{64}$] *)
Definition DefaultTransactionHashPattern (hash : string) : bool :=
  match hash with
  | String "0" (String "x" rest) => (String.length rest =? 64)%nat && str_forall is_hex rest
  | _ => false
  end.

(** [^[1-9A-HJ-NP-Za-km-z]{86,88}$] *)
Definition SolanaTransactionHashPattern (hash : string) : bool :=
  (86 <=? String.length hash)%nat && (String.length hash <=? 88)%nat &&
  str_forall is_base58 hash.

(** ** Chain clients and their repository *)

Inductive ChainType := TypeEVM | TypeZano | TypeBitcoin | TypeTON | TypeSolana | TypeOther.

#[export] Instance ChainType_eq_dec : EqDecision ChainType.
Proof. solve_decision. Defined.

Definition type_of_string (s : string) : option ChainType :=
  if bool_decide (s = "evm") then Some TypeEVM
  else if bool_decide (s = "zano") then Some TypeZano
  else if bool_decide (s = "bitcoin") then Some TypeBitcoin
  else if bool_decide (s = "ton") then Some TypeTON
  else if bool_decide (s = "solana") then Some TypeSolana
  else if bool_decide (s = "other") then Some TypeOther
  else None.

(** [Type.Validate] *)
Definition Type_Validate (s : string) : option error :=
  match type_of_string s with
  | Some _ => None
  | None => Some (ENew "invalid chain type")
  end.

(** The interface [chain.Client]. *)
Record Client := {
  cl_Type : ChainType;
  cl_ChainId : string;
  cl_GetDepositData : DepositIdentifier → res DepositData;
  cl_AddressValid : string → bool;
  cl_TransactionHashValid : string → bool;
  cl_WithdrawalAmountValid : Z → bool }.

Definition Repository := gmap string Client.

Definition NewClientsRepository (clients : list Client) : Repository :=
  foldl (λ m cl, <[cl_ChainId cl := cl]> m) ∅ clients.

Definition repo_Client (p : Repository) (chainId : string) : res Client :=
  match (p : gmap string Client) !! chainId with
  | Some cl => Ok cl
  | None => Err (ESentinel ErrChainNotSupported)
  end.

Definition SupportsChain (p : Repository) (chainId : string) : bool :=
  bool_decide (is_Some ((p : gmap string Client) !! chainId)).

(** ** bridgeless-core *)

Record TokenInfo := {
  ti_Address : string; ti_Decimals : Z; ti_ChainId : string; ti_TokenId : Z;
  ti_IsWrapped : bool; ti_MinWithdrawalAmount : string; ti_CommissionRate : string }.

Record Token := { tk_Id : Z; tk_Info : list TokenInfo }.

(** What a query returns: a value, the "not found" status or another failure. *)
Inductive query (A : Type) := QOk (a : A) | QNotFound | QFailed (msg : string).
Arguments QOk {_} _.
Arguments QNotFound {_}.
Arguments QFailed {_} _.

Class BridgeCore := {
  q_TokenInfo : string → string → query TokenInfo;
  q_TokenById : Z → query Token;
  q_ReferralById : Z → query unit;
  q_TransactionById : string → string → Z → query Transaction;
  (** [bridgetypes.GetCommissionAmount(amount, rate)] *)
  GetCommissionAmount : Z → string → res Z;
  (** [bridgetypes.IsDefaultReferralId] *)
  IsDefaultReferralId : Z → bool }.

Section fetcher.
Context `{BridgeCore}.

(** ** internal/core/connector *)

Definition of_query {A} (q : query A) (notFound : sentinel) (msg : string) : res A :=
  match q with
  | QOk a => Ok a
  | QNotFound => Err (ESentinel notFound)
  | QFailed m => Err (EWrap (ENew m) msg)
  end.

Definition GetTokenInfo (chainId addr : string) : res TokenInfo :=
  of_query (q_TokenInfo chainId addr) ErrSourceTokenInfoNotFound "failed to get token info".

Definition GetToken (id : Z) : res Token :=
  of_query (q_TokenById id) ErrTokenInfoNotFound "failed to get token info".

Definition GetReferralById (id : Z) : res unit :=
  of_query (q_ReferralById (id mod 2 ^ 32)) ErrReferralNotFound "failed to get referral info".

Definition GetDepositInfo (identifier : MsgDepositIdentifier) : res (option Transaction) :=
  match q_TransactionById (md_ChainId identifier) (md_TxHash identifier)
          (uint64 (md_TxNonce identifier)) with
  | QOk tx => Ok (Some tx)
  | QNotFound => Ok None
  | QFailed m => Err (EWrap (ENew m) "failed to get token info")
  end.

(** ** internal/bridge/deposit/fetcher.go *)

Definition transformAmount (amount currentDecimals targetDecimals : Z) : Z :=
  if currentDecimals =? targetDecimals then amount
  else if currentDecimals <? targetDecimals then
    Nat.iter (Z.to_nat (uint64 (targetDecimals - currentDecimals))) (λ result, result * 10) amount
  else
    Nat.iter (Z.to_nat (uint64 (currentDecimals - targetDecimals))) (λ result, result / 10) amount.

Definition GetWithdrawalAmount (depositAmount : Z) (srcInfo dstInfo : TokenInfo) : res (Z * Z) :=
  let withdrawalAmount :=
    transformAmount depositAmount (ti_Decimals srcInfo) (ti_Decimals dstInfo) in
  commissionAmount ← wrap (GetCommissionAmount withdrawalAmount (ti_CommissionRate dstInfo))
                       "failed to get commission amount";
  let finalWithdrawalAmount := withdrawalAmount - commissionAmount in
  let minWithdrawalAmount := default 0 (parse_Z (ti_MinWithdrawalAmount dstInfo)) in
  if finalWithdrawalAmount <? minWithdrawalAmount then
    Err (ENew "withdrawal amount is less than minimum withdrawal amount")
  else Ok (finalWithdrawalAmount, commissionAmount).

Definition GetTokens (srcChainId srcTokenAddress dstChainId : string)
    : res (TokenInfo * TokenInfo) :=
  srcInfo ← wrap (GetTokenInfo srcChainId srcTokenAddress) "failed to get source token info";
  token ← wrap (GetToken (ti_TokenId srcInfo)) "failed to get source token";
  match List.find (λ info, bool_decide (ti_ChainId info = dstChainId)) (tk_Info token) with
  | Some info => Ok (srcInfo, info)
  | None => Err (ESentinel ErrDestinationTokenInfoNotFound)
  end.

(** [errors.Wrap(chain.ErrInvalidDepositedAmount, err.Error())]: the cause is only
    kept as text. *)
Definition asInvalidAmount {A} (m : res A) : res A :=
  match m with
  | Err _ => Err (EWrap (ESentinel ErrInvalidDepositedAmount) "amount")
  | _ => m
  end.

Definition FetchDeposit (clients : Repository) (identifier : DepositIdentifier) : res Deposit :=
  sourceClient ← wrap (repo_Client clients (ChainId identifier)) "error getting source clients";
  if negb (cl_TransactionHashValid sourceClient (TxHash identifier)) then
    Err (ENew "invalid transaction hash")
  else
    depositData ← wrap (cl_GetDepositData sourceClient identifier) "failed to get deposit data";
    dstClient ← wrap (repo_Client clients (dd_DestinationChainId depositData))
                  "error getting destination clients";
    if negb (cl_AddressValid dstClient (dd_DestinationAddress depositData)) then
      Err (EWrap (ESentinel ErrInvalidReceiverAddress) (dd_DestinationAddress depositData))
    else
      _ ← (if IsDefaultReferralId (dd_ReferralId depositData) then Ok tt
           else wrap (GetReferralById (dd_ReferralId depositData)) "failed to get referral info");
      infos ← wrap (GetTokens (ChainId identifier) (dd_TokenAddress depositData)
                      (dd_DestinationChainId depositData)) "failed to get token info";
      amounts ← asInvalidAmount
                  (GetWithdrawalAmount (dd_DepositAmount depositData) (fst infos) (snd infos));
      Ok (ToNewDeposit depositData (fst amounts) (snd amounts)
            (ti_Address (snd infos)) (ti_IsWrapped (snd infos))).

End fetcher.

(** ** Lemmas *)

Lemma iter_mul10 n a : Nat.iter n (λ r, r * 10) a = a * 10 ^ Z.of_nat n.
Proof.
  induction n as [|n IH]; [by rewrite Z.mul_1_r|].
  cbn [Nat.iter nat_rect]. unfold Nat.iter in IH. rewrite IH.
  rewrite Nat2Z.inj_succ, Z.pow_succ_r by lia. lia.
Qed.

Lemma iter_div10 n a : Nat.iter n (λ r, r / 10) a = a / 10 ^ Z.of_nat n.
Proof.
  induction n as [|n IH]; [by rewrite Z.div_1_r|].
  cbn [Nat.iter nat_rect]. unfold Nat.iter in IH. rewrite IH.
  rewrite Nat2Z.inj_succ, Z.pow_succ_r, Z.div_div by lia. f_equal. lia.
Qed.

Lemma transformAmount_closed a c t :
  in_uint64 c → in_uint64 t →
  transformAmount a c t = if t <=? c then a / 10 ^ (c - t) else a * 10 ^ (t - c).
Proof.
  intros Hc Ht. unfold transformAmount, in_uint64 in *.
  destruct (Z.eqb_spec c t) as [->|Hne].
  { rewrite Z.leb_refl, Z.sub_diag, Z.div_1_r. done. }
  destruct (Z.ltb_spec c t) as [Hlt|Hge], (Z.leb_spec t c); try lia.
  - rewrite iter_mul10, uint64_id by (unfold in_uint64; lia). by rewrite Z2Nat.id by lia.
  - rewrite iter_div10, uint64_id by (unfold in_uint64; lia). by rewrite Z2Nat.id by lia.
Qed.

Lemma errors_Is_unique e s1 s2 : errors_Is e s1 = true → errors_Is e s2 = true → s1 = s2.
Proof.
  induction e; simpl; [|done|done].
  rewrite !bool_decide_eq_true. congruence.
Qed.

(** ** Theorems *)

(** C30: The decimal conversion loop computes the closed form: multiplication by the
    power of ten towards more decimals, floor division towards fewer. *)
Theorem transformAmount_correct a c t :
  in_uint64 c → in_uint64 t →
  transformAmount a c t = (if t <=? c then a / 10 ^ (c - t) else a * 10 ^ (t - c)) ∧
  (* no value is created: the result in source units never exceeds the amount,
     and less than one target unit is lost *)
  transformAmount a c t * 10 ^ c ≤ a * 10 ^ t ∧
  a * 10 ^ t < (transformAmount a c t + 1) * 10 ^ c.
Proof.
  intros Hc Ht. rewrite transformAmount_closed by done. split; [done|].
  unfold in_uint64 in *. destruct (Z.leb_spec t c) as [Hle|Hlt].
  - replace (10 ^ c) with (10 ^ (c - t) * 10 ^ t) by (rewrite <- Z.pow_add_r by lia; f_equal; lia).
    pose proof (Z.pow_pos_nonneg 10 (c - t) ltac:(lia) ltac:(lia)) as Hp.
    pose proof (Z.pow_pos_nonneg 10 t ltac:(lia) ltac:(lia)) as Hpt.
    pose proof (Z.mul_div_le a (10 ^ (c - t)) Hp).
    pose proof (Z.mul_succ_div_gt a (10 ^ (c - t)) Hp). unfold Z.succ in *.
    rewrite !Z.mul_assoc. split; [apply Z.mul_le_mono_nonneg_r|apply Z.mul_lt_mono_pos_r]; lia.
  - replace (10 ^ t) with (10 ^ (t - c) * 10 ^ c) by (rewrite <- Z.pow_add_r by lia; f_equal; lia).
    pose proof (Z.pow_pos_nonneg 10 c ltac:(lia) ltac:(lia)). nia.
Qed.

Lemma transformAmount_correct_witness : transformAmount 1234567 6 2 = 123.
Proof.
  rewrite (proj1 (transformAmount_correct 1234567 6 2 ltac:(unfold in_uint64, max_uint64; lia)
                    ltac:(unfold in_uint64, max_uint64; lia))). reflexivity.
Defined.

(** A pending deposit is never marked invalid: the two error classes are
    disjoint, also under any wrapping, and wrapping does not change the class. *)
Theorem error_classes_disjoint err msg :
  ¬ (ChainErrors.IsPendingDepositError err = true ∧ marked_invalid err = true) ∧
  ChainErrors.IsPendingDepositError (EWrap err msg) = ChainErrors.IsPendingDepositError err ∧
  marked_invalid (EWrap err msg) = marked_invalid err.
Proof.
  split; [|done]. intros [Hp Hi].
  unfold ChainErrors.IsPendingDepositError in Hp. unfold marked_invalid,
    ChainErrors.IsInvalidDepositError, CoreErrors.IsInvalidDepositError in Hi.
  repeat match goal with X : _ || _ = true |- _ => apply orb_true_iff in X as [X|X] end;
    pose proof (errors_Is_unique _ _ _ Hp Hi); discriminate.
Qed.

Section theorems.
Context `{BridgeCore}.

Lemma GetTokens_Ok src token dst srcInfo dstInfo :
  GetTokens src token dst = Ok (srcInfo, dstInfo) →
  q_TokenInfo src token = QOk srcInfo ∧
  ∃ tk, q_TokenById (ti_TokenId srcInfo) = QOk tk ∧ dstInfo ∈ tk_Info tk ∧
        ti_ChainId dstInfo = dst.
Proof.
  unfold GetTokens, GetTokenInfo, GetToken. intros Hg. inv_ok.
  destruct (q_TokenInfo src token) eqn:Hs; simpl in *; simplify_eq.
  destruct (q_TokenById _) eqn:Ht; simpl in *; simplify_eq.
  destruct (List.find _ _) eqn:Hf; simplify_eq. apply find_some in Hf as [Hin Hc].
  apply bool_decide_eq_true in Hc. apply list_elem_of_In in Hin. eauto.
Qed.

(** Conservation of the amount: what is withdrawn and what is taken as
    commission add up to the converted deposit, and at least the configured
    minimum is withdrawn; a minimum that is not a number counts as 0. *)
Theorem GetWithdrawalAmount_conserves amount srcInfo dstInfo w c :
  GetWithdrawalAmount amount srcInfo dstInfo = Ok (w, c) →
  w + c = transformAmount amount (ti_Decimals srcInfo) (ti_Decimals dstInfo) ∧
  default 0 (parse_Z (ti_MinWithdrawalAmount dstInfo)) ≤ w ∧
  GetCommissionAmount (w + c) (ti_CommissionRate dstInfo) = Ok c.
Proof.
  unfold GetWithdrawalAmount. intros Hg. inv_ok.
  case_match eqn:Hlt; [done|]. inv_ok. apply Z.ltb_ge in Hlt.
  rewrite Z.sub_add. done.
Qed.

(** The steps of a successful fetch. *)
Lemma FetchDeposit_Ok clients i d :
  FetchDeposit clients i = Ok d →
  ∃ src dst data srcInfo dstInfo w c,
    repo_Client clients (ChainId i) = Ok src ∧ cl_TransactionHashValid src (TxHash i) = true ∧
    cl_GetDepositData src i = Ok data ∧
    repo_Client clients (dd_DestinationChainId data) = Ok dst ∧
    cl_AddressValid dst (dd_DestinationAddress data) = true ∧
    GetTokens (ChainId i) (dd_TokenAddress data) (dd_DestinationChainId data) = Ok (srcInfo, dstInfo) ∧
    GetWithdrawalAmount (dd_DepositAmount data) srcInfo dstInfo = Ok (w, c) ∧
    d = ToNewDeposit data w c (ti_Address dstInfo) (ti_IsWrapped dstInfo).
Proof.
  unfold FetchDeposit. intros Hf. apply bind_Ok in Hf as (src & Hsrc & Hf).
  apply wrap_Ok in Hsrc.
  destruct (cl_TransactionHashValid src (TxHash i)) eqn:Hh; simpl in Hf; [|done].
  apply bind_Ok in Hf as (data & Hdata & Hf). apply bind_Ok in Hf as (dst & Hdst & Hf).
  destruct (cl_AddressValid dst (dd_DestinationAddress data)) eqn:Ha; simpl in Hf; [|done].
  apply bind_Ok in Hf as (_ & _ & Hf). apply bind_Ok in Hf as ([srcInfo dstInfo] & Hti & Hf).
  apply bind_Ok in Hf as ([w c] & Hw & Hf). injection Hf as <-. inv_ok.
  exists src, dst, data, srcInfo, dstInfo, w, c. simpl in *. split_and!; try done.
  by destruct (GetWithdrawalAmount _ _ _).
Qed.

(** What a fetched deposit guarantees.  The source and destination chains are
    configured, the hash and the receiver are valid for them, the token pair
    exists, the stored decimal strings are the amounts whose sum is the converted
    deposit, and the row is a fresh PENDING one for the destination chain. *)
Theorem FetchDeposit_sound clients i d :
  FetchDeposit clients i = Ok d →
  ∃ src dst data srcInfo dstInfo w c,
    repo_Client clients (ChainId i) = Ok src ∧ cl_TransactionHashValid src (TxHash i) = true ∧
    cl_GetDepositData src i = Ok data ∧
    repo_Client clients (d_WithdrawalChainId d) = Ok dst ∧
    cl_AddressValid dst (d_Receiver d) = true ∧
    GetTokens (ChainId i) (d_DepositToken d) (d_WithdrawalChainId d) = Ok (srcInfo, dstInfo) ∧
    ti_ChainId dstInfo = d_WithdrawalChainId d ∧
    parse_Z (d_WithdrawalAmount d) = Some w ∧ parse_Z (d_CommissionAmount d) = Some c ∧
    parse_Z (d_DepositAmount d) = Some (dd_DepositAmount data) ∧
    w + c = transformAmount (dd_DepositAmount data) (ti_Decimals srcInfo) (ti_Decimals dstInfo) ∧
    d = ToNewDeposit data w c (ti_Address dstInfo) (ti_IsWrapped dstInfo) ∧
    d_WithdrawalStatus d = WS_PENDING ∧ d_Submitted d = false ∧ d_Distributed d = false.
Proof.
  intros Hf. apply FetchDeposit_Ok in Hf
    as (src & dst & data & srcInfo & dstInfo & w & c & Hsrc & Hh & Hd & Hdst & Ha & Hti & Hg & ->).
  exists src, dst, data, srcInfo, dstInfo, w, c. simpl.
  pose proof (GetTokens_Ok _ _ _ _ _ Hti) as (_ & tk & _ & _ & Hcid).
  unfold GetWithdrawalAmount in Hg. inv_ok. case_match; [done|]. inv_ok.
  rewrite !parse_print_Z, Z.sub_add. done.
Qed.

(** Every failure of [FetchDeposit] for a known source chain keeps the class
    of its cause: an error of the source client is passed on with its class, an
    unknown destination chain, an invalid receiver, an unknown token or
    destination, and an amount below the minimum are all marked invalid. *)
Theorem FetchDeposit_error_class clients i src err :
  repo_Client clients (ChainId i) = Ok src →
  cl_TransactionHashValid src (TxHash i) = true →
  FetchDeposit clients i = Err err →
  (∃ e, cl_GetDepositData src i = Err e ∧
        marked_invalid err = marked_invalid e ∧
        ChainErrors.IsPendingDepositError err = ChainErrors.IsPendingDepositError e) ∨
  (∃ data, cl_GetDepositData src i = Ok data ∧
     ChainErrors.IsPendingDepositError err = false ∧
     (marked_invalid err = true ∨
      (* the core could not be queried *)
      ∃ m, q_ReferralById (dd_ReferralId data mod 2 ^ 32) = QFailed m ∨
           q_TokenInfo (ChainId i) (dd_TokenAddress data) = QFailed m ∨
           ∃ info, q_TokenInfo (ChainId i) (dd_TokenAddress data) = QOk info ∧
                   q_TokenById (ti_TokenId info) = QFailed m)).
Proof.
  intros Hsrc Hh. unfold FetchDeposit. rewrite Hsrc. simpl. rewrite Hh. simpl.
  destruct (cl_GetDepositData src i) as [data|e|] eqn:Hd; simpl; [|intros [= <-]; left; eauto|done].
  intros Hf. right. exists data. split; [done|].
  unfold repo_Client in Hf at 1.
  destruct ((clients : gmap string Client) !! dd_DestinationChainId data) as [dst|]; simpl in Hf;
    [|injection Hf as <-; auto].
  destruct (cl_AddressValid dst _); simpl in Hf; [|injection Hf as <-; auto].
  assert (∀ r, (if IsDefaultReferralId (dd_ReferralId data) then Ok tt
     else wrap (GetReferralById (dd_ReferralId data)) "failed to get referral info") = r →
     r = Ok tt ∨ (∃ e, r = Err e ∧ ChainErrors.IsPendingDepositError e = false ∧
       (marked_invalid e = true ∨ ∃ m, q_ReferralById (dd_ReferralId data mod 2 ^ 32) = QFailed m)))
    as Href.
  { intros r <-. destruct (IsDefaultReferralId _); [by left|]. unfold GetReferralById.
    destruct (q_ReferralById _) as [[]| |m]; simpl; [by left|right; eexists; split; [done|]; auto..].
    split; [done|]. eauto. }
  destruct (Href _ eq_refl) as [Hr|(e & Hr & Hp & Hc)]; rewrite Hr in Hf; simpl in Hf;
    [|injection Hf as <-; split; [done|]; destruct Hc as [?|[m ?]]; eauto 10].
  unfold GetTokens, GetTokenInfo in Hf.
  destruct (q_TokenInfo _ _) as [info| |m] eqn:Hi; simpl in Hf;
    [|injection Hf as <-; auto|injection Hf as <-; eauto 10].
  unfold GetToken in Hf. destruct (q_TokenById _) as [tk| |m] eqn:Ht; simpl in Hf;
    [|injection Hf as <-; auto|injection Hf as <-; eauto 10].
  destruct (List.find _ _) as [dinfo|]; simpl in Hf; [|injection Hf as <-; auto].
  destruct (GetWithdrawalAmount _ _ _); simpl in Hf; [done|injection Hf as <-; auto|done].
Qed.

End theorems.

(** ** Concrete instances *)

Module SampleFetcher.
Definition info (chain : string) (decimals : Z) : TokenInfo :=
  {| ti_Address := "0x00"; ti_Decimals := decimals; ti_ChainId := chain; ti_TokenId := 1;
     ti_IsWrapped := true; ti_MinWithdrawalAmount := "10"; ti_CommissionRate := "0.01" |}.

(** One token on two chains, a commission of one percent. *)
#[export] Instance core : BridgeCore := {|
  q_TokenInfo := λ chain _,
    if bool_decide (chain = "1") then QOk (info "1" 6) else QNotFound;
  q_TokenById := λ _, QOk {| tk_Id := 1; tk_Info := [info "1" 6; info "2" 4] |};
  q_ReferralById := λ _, QNotFound;
  q_TransactionById := λ _ _ _, QNotFound;
  GetCommissionAmount := λ amount _, Ok (amount / 100);
  IsDefaultReferralId := λ id, id =? 0 |}.

Definition identifier : DepositIdentifier := {| TxHash := "0xab"; TxNonce := 0; ChainId := "1" |}.

Definition client (chain : string) (amount : Z) : Client :=
  {| cl_Type := TypeEVM; cl_ChainId := chain;
     cl_GetDepositData := λ id, Ok
       {| dd_ident := id; dd_Block := 7; dd_SourceAddress := "0xs"; dd_DepositAmount := amount;
          dd_TokenAddress := "0xt"; dd_ReferralId := 0; dd_DestinationAddress := "0xr";
          dd_DestinationChainId := "2" |};
     cl_AddressValid := λ _, true; cl_TransactionHashValid := λ _, true;
     cl_WithdrawalAmountValid := λ a, 0 <? a |}.

Definition clients (amount : Z) : Repository :=
  NewClientsRepository [client "1" amount; client "2" amount].
End SampleFetcher.

Section witnesses.
Import SampleFetcher.

Lemma GetWithdrawalAmount_conserves_witness :
  9900 + 100 = transformAmount 1000000 6 4.
Proof.
  apply (GetWithdrawalAmount_conserves 1000000 (info "1" 6) (info "2" 4) 9900 100).
  reflexivity.
Defined.

Lemma FetchDeposit_sound_witness :
  ∃ d, FetchDeposit (clients 1000000) identifier = Ok d ∧ d_WithdrawalStatus d = WS_PENDING.
Proof.
  destruct (FetchDeposit (clients 1000000) identifier) as [d|e|] eqn:E;
    [|vm_compute in E; discriminate..].
  exists d. split; [reflexivity|].
  destruct (FetchDeposit_sound (clients 1000000) identifier d E)
    as (src & dst & data & si & di & w & c & Hall). apply Hall.
Defined.

Lemma FetchDeposit_error_class_witness :
  ∃ e, FetchDeposit (clients 500) identifier = Err e ∧
       ChainErrors.IsPendingDepositError e = false.
Proof.
  destruct (FetchDeposit (clients 500) identifier) as [d|e|] eqn:E;
    [vm_compute in E; discriminate| |vm_compute in E; discriminate].
  exists e. split; [reflexivity|].
  destruct (FetchDeposit_error_class (clients 500) identifier (client "1" 500) e)
    as [(e' & He & _)|(data & _ & Hp & _)]; [reflexivity|reflexivity|exact E|discriminate|exact Hp].
Defined.

End witnesses.
