(* ===== verification/Withdrawal.v ===== *)
(** * Withdrawal data: what the parties sign

    Models [internal/bridge/withdrawal] (constructor, evm, solana, ton and zano;
    the UTXO constructor is in Utxo.v), [internal/bridge/chain/evm/operations],
    [evm/withdraw.go], [solana/withdraw.go], [ton/withdrawal.go], [ton/native.go],
    [ton/jetton.go] and the byte helpers of [ton/utils.go], and
    [zano/withdraw.go].

    go-ethereum, solana-go, tonutils-go and the Zano wallet are classes; what the
    theorems use of them is stated in their [...Spec] classes. *)

From S2P Require Import Prelude Core Deposits Broadcast Fetcher.
#[local] Open Scope Z_scope.

(** ** Interfaces (constructor.go) *)

Class DepositSigningData (T : Type) := {
  ds_Hashable :: Hashable T;
  ds_DepositIdentifier : T → DepositIdentifier }.

(** [Constructor[T]]: forms the data to sign for a deposit and validates data
    proposed by another node. *)
Class Constructor (T : Type) := {
  FormSigningData : Deposit → res T;
  IsValid : T → Deposit → res bool }.

(** What the consensus mechanism relies on: data formed for a deposit names that
    deposit and is valid for it, and validity depends on the data of the deposit
    only, not on the serial id or the progress of its row at the node that checks. *)
Class ConstructorSpec (T : Type) `{DepositSigningData T, Constructor T} : Prop := {
  formed_identifier d t : FormSigningData d = Ok t → ds_DepositIdentifier t = d_ident d;
  formed_valid d t : FormSigningData d = Ok t → IsValid t d = Ok true;
  #[global] valid_data t :: Proper (same_data ==> (=)) (IsValid t) }.

(** ** Machine representations *)

(** [big.Int.Bytes]: the big-endian bytes of the absolute value, no leading zero. *)
Definition byte_length (z : Z) : nat := if z =? 0 then 0%nat else S (Z.to_nat (Z.log2 z / 8)).
Definition big_Bytes (z : Z) : bytes := be_bytes (byte_length (Z.abs z)) (Z.abs z).

(** ** evm/operations/util.go *)

Class EthLib := {
  Keccak256 : bytes → bytes;
  hexutil_Decode : string → option bytes;
  IsHexAddress : string → bool;
  HexToAddress : string → bytes }.

(** Documented: digests of 32 and addresses of 20 bytes; a prefixed hex address
    decodes to 20 bytes. *)
Class EthLibSpec `{EthLib} : Prop := {
  Keccak256_length bs : length (Keccak256 bs) = 32%nat;
  HexToAddress_length s : length (HexToAddress s) = 20%nat;
  IsHexAddress_length s bs :
    IsHexAddress s = true → hexutil_Decode s = Some bs → length bs = 20%nat }.

Definition ToBytes32 (arr : bytes) : bytes :=
  if (32 <=? length arr)%nat then take 32 arr
  else replicate (32 - length arr) Byte.x00 ++ arr.

Definition IntToBytes32 (value : Z) : bytes := ToBytes32 (big_Bytes value).

Definition BoolToBytes (b : bool) : bytes := if b then [Byte.x01] else [Byte.x00].

Section evm.
Context `{EthLib}.

(** ["\x19Ethereum Signed Message:\n"] *)
Definition eth_prefix : bytes :=
  Byte.x19 :: bytes_of_string "Ethereum Signed Message:" ++ [Byte.x0a].

Definition SetSignaturePrefix (message : bytes) : bytes :=
  Keccak256 (eth_prefix ++ bytes_of_string (print_Z (Z.of_nat (length message))) ++ message).

Definition TxHashToBytes32 (txHash : string) : bytes :=
  match hexutil_Decode txHash with
  | Some hashBytes => if (length hashBytes =? 32)%nat then hashBytes
                      else Keccak256 (bytes_of_string txHash)
  | None => Keccak256 (bytes_of_string txHash)
  end.

(** [hexutil.MustDecode] panics on an invalid string. *)
Definition MustDecode (s : string) : res bytes :=
  match hexutil_Decode s with Some bs => Ok bs | None => Panic end.

(** ** evm/operations/native.go and erc20.go *)

Record WithdrawNativeContent := {
  wn_Amount : bytes; wn_Receiver : bytes; wn_TxHash : bytes; wn_TxNonce : bytes;
  wn_ChainID : bytes }.

Definition NewWithdrawNativeContent (data : Deposit) : res WithdrawNativeContent :=
  destinationChainID ← of_option (parse_Z (d_WithdrawalChainId data)) "invalid chain id";
  withdrawalAmount ← of_option (parse_Z (d_WithdrawalAmount data)) "invalid withdrawal amount";
  receiver ← MustDecode (d_Receiver data);
  Ok {| wn_Amount := ToBytes32 (big_Bytes withdrawalAmount);
        wn_Receiver := receiver;
        wn_TxHash := TxHashToBytes32 (TxHash (d_ident data));
        wn_TxNonce := IntToBytes32 (TxNonce (d_ident data));
        wn_ChainID := ToBytes32 (big_Bytes destinationChainID) |}.

Definition native_preimage (w : WithdrawNativeContent) : bytes :=
  wn_Amount w ++ wn_Receiver w ++ wn_TxHash w ++ wn_TxNonce w ++ wn_ChainID w.

Record WithdrawERC20Content := {
  we_DestinationTokenAddress : bytes; we_Amount : bytes; we_Receiver : bytes;
  we_TxHash : bytes; we_TxNonce : bytes; we_ChainID : bytes; we_IsWrapped : bytes }.

Definition NewWithdrawERC20Content (data : Deposit) : res WithdrawERC20Content :=
  destinationChainID ← of_option (parse_Z (d_WithdrawalChainId data)) "invalid chain id";
  withdrawalAmount ← of_option (parse_Z (d_WithdrawalAmount data)) "invalid withdrawal amount";
  if negb (IsHexAddress (d_Receiver data)) then Err (ENew "invalid destination address")
  else
    receiver ← MustDecode (d_Receiver data);
    Ok {| we_DestinationTokenAddress := HexToAddress (d_WithdrawalToken data);
          we_Amount := ToBytes32 (big_Bytes withdrawalAmount);
          we_Receiver := receiver;
          we_TxHash := TxHashToBytes32 (TxHash (d_ident data));
          we_TxNonce := IntToBytes32 (TxNonce (d_ident data));
          we_ChainID := ToBytes32 (big_Bytes destinationChainID);
          we_IsWrapped := BoolToBytes (d_IsWrappedToken data) |}.

Definition erc20_preimage (w : WithdrawERC20Content) : bytes :=
  we_DestinationTokenAddress w ++ we_Amount w ++ we_Receiver w ++ we_TxHash w ++
  we_TxNonce w ++ we_ChainID w ++ we_IsWrapped w.

(** The [Operation] of a deposit and the bytes its [CalculateHash] hashes. *)
Definition evm_preimage (data : Deposit) : res bytes :=
  if bool_decide (d_WithdrawalToken data = DefaultNativeTokenAddress) then
    native_preimage <$> NewWithdrawNativeContent data
  else erc20_preimage <$> NewWithdrawERC20Content data.

(** ** evm/withdraw.go *)

Definition evm_GetSignHash (data : Deposit) : res bytes :=
  preimage ← wrap (evm_preimage data) "failed to create operation";
  Ok (SetSignaturePrefix (Keccak256 preimage)).

End evm.

Definition evm_WithdrawalAmountValid (amount : Z) : bool := 0 <? amount.

(** ** solana/withdraw.go *)

Class SolanaLib := {
  sol_sha256 : bytes → bytes;
  PublicKeyFromBase58 : string → option bytes;
  (** [p.chain.Meta.BridgeId] *)
  sol_BridgeId : string }.

Class SolanaLibSpec `{SolanaLib} : Prop := {
  sol_sha256_length bs : length (sol_sha256 bs) = 32%nat;
  PublicKey_length s bs : PublicKeyFromBase58 s = Some bs → length bs = 32%nat }.

Definition sol_WithdrawalAmountValid (amount : Z) : bool :=
  bool_decide (in_uint64 amount) && (0 <? amount).

Section solana.
Context `{SolanaLib}.

(** Unique id derived from the deposit. *)
Definition sol_uid_preimage (data : Deposit) : bytes :=
  bytes_of_string (TxHash (d_ident data)) ++ le_bytes 8 (uint64 (TxNonce (d_ident data))).

Definition sol_preimage (data : Deposit) : res bytes :=
  amount ← wrap (of_option (ParseUint (d_WithdrawalAmount data)) "parse")
             "failed to parse withdrawal amount";
  receiver ← wrap (of_option (PublicKeyFromBase58 (d_Receiver data)) "base58")
               "failed to parse receiver address";
  let buffer := bytes_of_string "withdraw" ++ bytes_of_string sol_BridgeId ++
                le_bytes 8 amount ++ sol_sha256 (sol_uid_preimage data) ++ receiver in
  if bool_decide (d_WithdrawalToken data = DefaultNativeTokenAddress) then Ok buffer
  else
    token ← of_option (PublicKeyFromBase58 (d_WithdrawalToken data)) "base58";
    Ok (buffer ++ token).

Definition sol_GetSignHash (data : Deposit) : res bytes := sol_sha256 <$> sol_preimage data.

End solana.

(** ** ton: the bridge contract computes the hash from the arguments *)

(** [fillBytesToSize(str, size, 0x00)]; a size of 0 means 32. *)
Definition fillBytesToSize (str : string) (size : nat) : res bytes :=
  let size := if (size =? 0)%nat then 32%nat else size in
  let raw := bytes_of_string str in
  if (size <? length raw)%nat then Err (ENew "string is longer than size")
  else Ok (raw ++ replicate (size - length raw) Byte.x00).

Definition networkCellSizeBytes : nat := 32.
Definition trueBit : Z := -1.

(** The arguments of [RunGetMethod]: method, amount, receiver cell, transaction
    hash, nonce, network cell, and for jettons the wrapped bit and the token. *)
Record TonHashCall := {
  tc_method : string; tc_amount : Z; tc_receiver : bytes; tc_txHash : Z; tc_txNonce : Z;
  tc_network : bytes; tc_jetton : option (Z * bytes) }.

Class TonLib := {
  (** [ParseAddr] followed by [StoreAddr] *)
  AddressCell : string → option bytes;
  (** the result of the contract's get method, or an RPC failure *)
  RunGetMethod : TonHashCall → res Z;
  GetMasterchainInfo : res unit }.

Definition ton_WithdrawalAmountValid (amount : Z) : bool := 0 <? amount.

Section ton.
Context `{EthLib, TonLib}.

Definition getAddressCell (addr : string) : res bytes :=
  wrap (of_option (AddressCell addr) "parse") "failed to parse address".

Definition getNetworkCell (network : string) : res bytes :=
  wrap (fillBytesToSize network networkCellSizeBytes) "failed to fill bytes".

Definition getWithdrawalNativeHash (deposit : Deposit) : res bytes :=
  _ ← wrap GetMasterchainInfo "failed to get the master chain info";
  networkCell ← wrap (getNetworkCell (d_WithdrawalChainId deposit))
                  "failed to get the network cell";
  receiverCell ← wrap (getAddressCell (d_Receiver deposit))
                   "failed to get receiver address cell";
  withdrawalAmount ← of_option (parse_Z (d_WithdrawalAmount deposit))
                       "failed to parse withdrawal amount";
  res ← wrap (RunGetMethod
                {| tc_method := "nativeHash"; tc_amount := withdrawalAmount;
                   tc_receiver := receiverCell;
                   tc_txHash := be_Z (TxHashToBytes32 (TxHash (d_ident deposit)));
                   tc_txNonce := uint64 (TxNonce (d_ident deposit));
                   tc_network := networkCell; tc_jetton := None |})
          "failed to get the native hash";
  Ok (big_Bytes res).

Definition getWithdrawalJettonHash (deposit : Deposit) : res bytes :=
  _ ← wrap GetMasterchainInfo "failed to get the master chain info";
  networkCell ← wrap (getNetworkCell (d_WithdrawalChainId deposit))
                  "failed to get the network cell";
  receiverCell ← wrap (getAddressCell (d_Receiver deposit)) "failed to get receiver cell";
  let wrappedBit := if d_IsWrappedToken deposit then trueBit else 0 in
  withdrawalTokenCell ← wrap (getAddressCell (d_WithdrawalToken deposit))
                          "failed to get withdrawal token address cell";
  withdrawalAmount ← of_option (parse_Z (d_WithdrawalAmount deposit))
                       "failed to parse withdrawal amount";
  res ← wrap (RunGetMethod
                {| tc_method := "jettonHash"; tc_amount := withdrawalAmount;
                   tc_receiver := receiverCell;
                   tc_txHash := be_Z (TxHashToBytes32 (TxHash (d_ident deposit)));
                   tc_txNonce := uint64 (TxNonce (d_ident deposit));
                   tc_network := networkCell;
                   tc_jetton := Some (wrappedBit, withdrawalTokenCell) |})
          "failed to get the jetton hash";
  Ok (big_Bytes res).

Definition ton_GetSignHash (deposit : Deposit) : res bytes :=
  if bool_decide (d_WithdrawalToken deposit = DefaultNativeTokenAddress) then
    wrap (getWithdrawalNativeHash deposit) "failed to get withdrawal native hash"
  else wrap (getWithdrawalJettonHash deposit) "failed to get withdrawal jetton hash".

End ton.

(** ** withdrawal/evm.go, solana.go, ton.go

    The three data types have the same fields; they are kept apart by a phantom
    chain kind, and so are their constructors. *)

Inductive HashChain := EvmData | SolanaData | TonData.

(** [p2p.EvmProposalData], [p2p.SolanaProposalData], [p2p.TonProposalData] *)
Record HashProposalData := {
  hp_DepositId : option MsgDepositIdentifier; hp_SigData : bytes }.

Record HashWithdrawalData (k : HashChain) := {
  hw_ProposalData : option HashProposalData; hw_SignedWithdrawal : string }.
Arguments hw_ProposalData {k} _.
Arguments hw_SignedWithdrawal {k} _.
Arguments Build_HashWithdrawalData {k} _ _.

Definition EvmWithdrawalData := HashWithdrawalData EvmData.
Definition SolanaWithdrawalData := HashWithdrawalData SolanaData.
Definition TonWithdrawalData := HashWithdrawalData TonData.

(** The zero [db.DepositIdentifier]. *)
Definition zero_identifier : DepositIdentifier := {| TxHash := ""; TxNonce := 0; ChainId := "" |}.

Definition from_msg (i : MsgDepositIdentifier) : DepositIdentifier :=
  {| TxHash := md_TxHash i; TxNonce := md_TxNonce i; ChainId := md_ChainId i |}.

Definition hw_DepositIdentifier {k} (e : HashWithdrawalData k) : DepositIdentifier :=
  match hw_ProposalData e with
  | Some p => match hp_DepositId p with Some i => from_msg i | None => zero_identifier end
  | None => zero_identifier
  end.

(** The hex SHA-256 of the deterministic protobuf encoding. *)
Class ProposalEncoding := hash_proposal : HashProposalData → string.

Definition hw_HashString `{ProposalEncoding} {k} (e : HashWithdrawalData k) : string :=
  match hw_ProposalData e with None => "" | Some p => hash_proposal p end.

Definition hw_FormSigningData {k} (GetSignHash : Deposit → res bytes) (deposit : Deposit)
    : res (HashWithdrawalData k) :=
  sigHash ← wrap (GetSignHash deposit) "failed to get signing hash";
  Ok {| hw_ProposalData := Some
          {| hp_DepositId := Some
               {| md_TxHash := TxHash (d_ident deposit); md_TxNonce := TxNonce (d_ident deposit);
                  md_ChainId := ChainId (d_ident deposit) |};
             hp_SigData := sigHash |};
        hw_SignedWithdrawal := "" |}.

Definition hw_IsValid {k} (GetSignHash : Deposit → res bytes) (data : HashWithdrawalData k)
    (deposit : Deposit) : res bool :=
  match hw_ProposalData data with
  | None => Err (ENew "invalid proposal data")
  | Some p =>
      sigHash ← wrap (GetSignHash deposit) "failed to get signing hash";
      if bool_decide (hp_SigData p = sigHash) then Ok true
      else Err (ENew "sig data does not match the expected one")
  end.

Section constructors.
Context `{EthLib, SolanaLib, TonLib, ProposalEncoding}.

Definition GetSignHash (k : HashChain) : Deposit → res bytes :=
  match k with
  | EvmData => evm_GetSignHash
  | SolanaData => sol_GetSignHash
  | TonData => ton_GetSignHash
  end.

#[export] Instance hw_SigningData k : DepositSigningData (HashWithdrawalData k) := {
  ds_Hashable := hw_HashString;
  ds_DepositIdentifier := hw_DepositIdentifier }.

#[export] Instance hw_Constructor k : Constructor (HashWithdrawalData k) := {
  FormSigningData := hw_FormSigningData (GetSignHash k);
  IsValid := hw_IsValid (GetSignHash k) }.

Lemma hw_formed_valid k d (t : HashWithdrawalData k) :
  FormSigningData d = Ok t → ds_DepositIdentifier t = d_ident d ∧ IsValid t d = Ok true.
Proof.
  simpl. unfold hw_FormSigningData. intros Hf.
  destruct (GetSignHash k d) as [h| |] eqn:Hg; simpl in Hf; try done. injection Hf as <-.
  split.
  - unfold hw_DepositIdentifier. simpl. by destruct (d_ident d).
  - unfold hw_IsValid. simpl. rewrite Hg. simpl. by rewrite bool_decide_true.
Qed.

#[export] Instance hw_ConstructorSpec k : ConstructorSpec (HashWithdrawalData k).
Proof.
  split; [intros d t Ht; by apply hw_formed_valid in Ht as [??]..|].
  intros t [] []. unfold same_data, deposit_data. simpl. intros [=]. subst.
  by destruct k.
Qed.

End constructors.

(** ** withdrawal/zano.go, zano/withdraw.go, pkg/zano/utils.go *)

Record ZanoProposalData := {
  zp_DepositId : option MsgDepositIdentifier; zp_OutputsAddresses : list string;
  zp_UnsignedTx : string; zp_FinalizedTx : string; zp_TxSecretKey : string;
  zp_TxId : string; zp_SigData : bytes }.

Record ZanoWithdrawalData := { zw_ProposalData : option ZanoProposalData }.

Record DataForExternalSigning := {
  ze_OutputsAddresses : list string; ze_UnsignedTx : string; ze_FinalizedTx : string;
  ze_TxSecretKey : string }.

Record EmitAssetResponse := { ea_TxID : string; ea_Data : DataForExternalSigning }.

Record DecodedOutput := { do_Address : string; do_AssetID : string; do_Amount : Z }.
Record DecryptTxDetailsResponse := { dt_DecodedOutputs : list DecodedOutput; dt_VerifiedTxID : string }.

(** The wallet RPC of pkg/zano. *)
Class ZanoWallet := {
  EmitAsset : string → string → Z → res EmitAssetResponse;
  TxDetails : list string → string → string → res DecryptTxDetailsResponse;
  hash_zano_proposal : ZanoProposalData → string }.

Section zano.
Context `{EthLib, ZanoWallet}.

(** [hexutil.MustDecode("0x" + txId)] *)
Definition zano_FormSigningData (txId : string) : res bytes := MustDecode ("0x" +:+ txId)%string.

Definition EmitAssetUnsigned (data : Deposit) : res EmitAssetResponse :=
  amount ← of_option (parse_Z (d_WithdrawalAmount data)) "failed to convert withdrawal amount";
  EmitAsset (d_WithdrawalToken data) (d_Receiver data) amount.

Definition DecryptTxDetails (data : DataForExternalSigning) : res DecryptTxDetailsResponse :=
  TxDetails (ze_OutputsAddresses data) (ze_UnsignedTx data) (ze_TxSecretKey data).

Definition zw_DepositIdentifier (z : ZanoWithdrawalData) : DepositIdentifier :=
  match zw_ProposalData z with
  | Some p => match zp_DepositId p with Some i => from_msg i | None => zero_identifier end
  | None => zero_identifier
  end.

Definition zw_HashString (z : ZanoWithdrawalData) : string :=
  match zw_ProposalData z with None => "" | Some p => hash_zano_proposal p end.

Definition zw_FormSigningData (deposit : Deposit) : res ZanoWithdrawalData :=
  tx ← wrap (EmitAssetUnsigned deposit) "failed to form zano withdrawal data";
  sigData ← zano_FormSigningData (ea_TxID tx);
  Ok {| zw_ProposalData := Some
          {| zp_DepositId := Some
               {| md_TxHash := TxHash (d_ident deposit); md_TxNonce := TxNonce (d_ident deposit);
                  md_ChainId := ChainId (d_ident deposit) |};
             zp_OutputsAddresses := ze_OutputsAddresses (ea_Data tx);
             zp_UnsignedTx := ze_UnsignedTx (ea_Data tx);
             zp_FinalizedTx := ze_FinalizedTx (ea_Data tx);
             zp_TxSecretKey := ze_TxSecretKey (ea_Data tx);
             zp_TxId := ea_TxID tx;
             zp_SigData := sigData |} |}.

(** The loop over the decoded outputs: the minted amount. *)
Fixpoint checkOutputs (deposit : Deposit) (outputs : list DecodedOutput) (mintedAmount : Z)
    (changeOutputChecked : bool) : res Z :=
  match outputs with
  | [] => Ok mintedAmount
  | output :: rest =>
      if bool_decide (do_Address output = d_Receiver deposit) then
        checkOutputs deposit rest
          (if bool_decide (do_AssetID output = d_WithdrawalToken deposit)
           then mintedAmount + do_Amount output else mintedAmount) changeOutputChecked
      else if changeOutputChecked then Err (ENew "more than one non-emit output found")
      else checkOutputs deposit rest mintedAmount true
  end.

(** A nil proposal is dereferenced, a nil expected amount compared: panics. *)
Definition zw_IsValid (data : ZanoWithdrawalData) (deposit : Deposit) : res bool :=
  match zw_ProposalData data with
  | None => Panic
  | Some p =>
      details ← wrap (DecryptTxDetails
                        {| ze_OutputsAddresses := zp_OutputsAddresses p;
                           ze_UnsignedTx := zp_UnsignedTx p; ze_FinalizedTx := zp_FinalizedTx p;
                           ze_TxSecretKey := zp_TxSecretKey p |}) "failed to decrypt tx details";
      mintedAmount ← checkOutputs deposit (dt_DecodedOutputs details) 0 false;
      match parse_Z (d_WithdrawalAmount deposit) with
      | None => Panic
      | Some expectedAmount =>
          if negb (mintedAmount =? expectedAmount) then
            Err (ENew "minted amount does not match the expected one")
          else
            sigData ← zano_FormSigningData (dt_VerifiedTxID details);
            if bool_decide (zp_SigData p = sigData) then Ok true
            else Err (ENew "sig data does not match the expected one")
      end
  end.

#[export] Instance zw_SigningData : DepositSigningData ZanoWithdrawalData := {
  ds_Hashable := zw_HashString;
  ds_DepositIdentifier := zw_DepositIdentifier }.

#[export] Instance zw_Constructor : Constructor ZanoWithdrawalData := {
  FormSigningData := zw_FormSigningData;
  IsValid := zw_IsValid }.

End zano.

(** ** Lemmas on the encodings *)

Lemma be_bytes_0 n : be_bytes n 0 = replicate n Byte.x00.
Proof.
  induction n as [|n IH]; [done|]. cbn [be_bytes]. rewrite Z.div_0_l by lia.
  rewrite IH. change (Z_byte 0) with Byte.x00. by rewrite <- replicate_S_end.
Qed.

Lemma be_bytes_pad n k z :
  0 ≤ z < 256 ^ Z.of_nat k → be_bytes (n + k) z = replicate n Byte.x00 ++ be_bytes k z.
Proof.
  revert z. induction k as [|k IH]; intros z Hz.
  - change (256 ^ Z.of_nat 0) with 1 in Hz. assert (z = 0) as -> by lia.
    rewrite Nat.add_0_r, be_bytes_0. simpl. by rewrite app_nil_r.
  - rewrite Nat.add_succ_r. cbn [be_bytes]. rewrite IH, app_assoc; [done|].
    rewrite Nat2Z.inj_succ, Z.pow_succ_r in Hz by lia.
    split; [apply Z.div_pos; lia|apply Z.div_lt_upper_bound; lia].
Qed.

Lemma byte_length_bound z : 0 ≤ z → z < 256 ^ Z.of_nat (byte_length z).
Proof.
  intros Hz. unfold byte_length. destruct (Z.eqb_spec z 0) as [->|Hne]; [done|].
  pose proof (Z.log2_spec z ltac:(lia)) as [_ Hl].
  rewrite Nat2Z.inj_succ, Z2Nat.id by (apply Z.div_pos; [apply Z.log2_nonneg|lia]).
  change 256 with (2 ^ 8). rewrite <- Z.pow_mul_r by (try lia; pose proof (Z.log2_nonneg z);
    pose proof (Z.div_pos (Z.log2 z) 8); lia).
  eapply Z.lt_le_trans; [exact Hl|]. apply Z.pow_le_mono_r; [lia|].
  pose proof (Z.mul_succ_div_gt (Z.log2 z) 8 ltac:(lia)). lia.
Qed.

Lemma byte_length_le z n : 0 ≤ z < 256 ^ Z.of_nat n → (byte_length z ≤ n)%nat.
Proof.
  intros Hz. unfold byte_length. destruct (Z.eqb_spec z 0) as [->|Hne]; [lia|].
  destruct n as [|n]; [change (256 ^ Z.of_nat 0) with 1 in Hz; lia|].
  assert (Z.log2 z < 8 * Z.of_nat (S n)) as Hl.
  { apply Z.log2_lt_pow2; [lia|]. rewrite Z.pow_mul_r by lia. apply Hz. }
  pose proof (Z.log2_nonneg z). pose proof (Z.div_lt_upper_bound (Z.log2 z) 8 (Z.of_nat (S n))).
  lia.
Qed.

Lemma ToBytes32_big z : Z.abs z < 2 ^ 256 → ToBytes32 (big_Bytes z) = be_bytes 32 (Z.abs z).
Proof.
  intros Hz. unfold ToBytes32, big_Bytes. rewrite length_be_bytes.
  assert (0 ≤ Z.abs z < 256 ^ Z.of_nat 32) as Hr by (change (256 ^ Z.of_nat 32) with (2 ^ 256); lia).
  pose proof (byte_length_le _ _ Hr) as Hle.
  pose proof (byte_length_bound (Z.abs z) ltac:(lia)) as Hb.
  destruct (Nat.leb_spec 32 (byte_length (Z.abs z))) as [Hge|Hlt].
  - replace (byte_length (Z.abs z)) with 32%nat by lia. apply take_ge.
    by rewrite length_be_bytes.
  - rewrite <- be_bytes_pad by lia. f_equal. lia.
Qed.

Lemma length_ToBytes32 bs : length (ToBytes32 bs) = 32%nat.
Proof.
  unfold ToBytes32. destruct (Nat.leb_spec 32 (length bs)).
  - rewrite length_take. lia.
  - rewrite length_app, length_replicate. lia.
Qed.

Lemma ToBytes32_inj z1 z2 :
  0 ≤ z1 < 2 ^ 256 → 0 ≤ z2 < 2 ^ 256 →
  ToBytes32 (big_Bytes z1) = ToBytes32 (big_Bytes z2) → z1 = z2.
Proof.
  intros H1 H2. rewrite !ToBytes32_big by lia. intros Heq.
  apply be_bytes_inj in Heq; change (256 ^ Z.of_nat 32) with (2 ^ 256); lia.
Qed.

#[export] Hint Rewrite length_ToBytes32 : tss_len.

(** Splits an equation between concatenations whose components have equal
    lengths. *)
Ltac split_apps H :=
  repeat (apply app_inj_length in H;
          [let E := fresh "E" in destruct H as [E H]
          |autorewrite with tss_len; lia]).

Lemma length_TxHashToBytes32 `{EthLibSpec} h : length (TxHashToBytes32 h) = 32%nat.
Proof.
  unfold TxHashToBytes32. destruct (hexutil_Decode h) as [bs|]; [|apply Keccak256_length].
  destruct (Nat.eqb_spec (length bs) 32); [done|apply Keccak256_length].
Qed.

(** A deposit whose receiver passed [AddressValid] of the EVM client and whose
    numbers are in the ranges of the contract's [uint256] arguments. *)
Record evm_signable `{EthLib} (d : Deposit) : Prop := {
  es_receiver : IsHexAddress (d_Receiver d) = true;
  es_amount a : parse_Z (d_WithdrawalAmount d) = Some a → 0 ≤ a < 2 ^ 256;
  es_chain a : parse_Z (d_WithdrawalChainId d) = Some a → 0 ≤ a < 2 ^ 256;
  es_nonce : 0 ≤ TxNonce (d_ident d) < 2 ^ 63 }.

(** The fields the signature of a withdrawal fixes. *)
Record same_withdrawal `{EthLib} (d1 d2 : Deposit) : Prop := {
  sw_amount : parse_Z (d_WithdrawalAmount d1) = parse_Z (d_WithdrawalAmount d2);
  sw_receiver : hexutil_Decode (d_Receiver d1) = hexutil_Decode (d_Receiver d2);
  sw_hash : TxHashToBytes32 (TxHash (d_ident d1)) = TxHashToBytes32 (TxHash (d_ident d2));
  sw_nonce : TxNonce (d_ident d1) = TxNonce (d_ident d2);
  sw_chain : parse_Z (d_WithdrawalChainId d1) = parse_Z (d_WithdrawalChainId d2) }.

Section evm_lemmas.
Context `{EthLibSpec}.

Lemma BoolToBytes_inj b1 b2 : BoolToBytes b1 = BoolToBytes b2 → b1 = b2.
Proof. by destruct b1, b2. Qed.

(** The shape of the bytes signed for a deposit. *)
Lemma evm_preimage_shape d p :
  evm_signable d → evm_preimage d = Ok p →
  ∃ a ch r, parse_Z (d_WithdrawalAmount d) = Some a ∧ parse_Z (d_WithdrawalChainId d) = Some ch ∧
    hexutil_Decode (d_Receiver d) = Some r ∧ length r = 20%nat ∧
    let body := ToBytes32 (big_Bytes a) ++ r ++ TxHashToBytes32 (TxHash (d_ident d)) ++
                IntToBytes32 (TxNonce (d_ident d)) ++ ToBytes32 (big_Bytes ch) in
    p = if bool_decide (d_WithdrawalToken d = DefaultNativeTokenAddress) then body
        else HexToAddress (d_WithdrawalToken d) ++ body ++ BoolToBytes (d_IsWrappedToken d).
Proof.
  intros Hs Hp. unfold evm_preimage in Hp.
  assert (∀ r, hexutil_Decode (d_Receiver d) = Some r → length r = 20%nat) as Hlen
    by (intros r; apply IsHexAddress_length, Hs).
  case_bool_decide.
  - destruct (NewWithdrawNativeContent d) as [w| |] eqn:Hw; simpl in Hp; try done.
    injection Hp as <-. unfold NewWithdrawNativeContent, MustDecode in Hw. inv_ok.
    destruct (hexutil_Decode (d_Receiver d)) as [r|] eqn:Hr; simplify_eq.
    do 3 eexists. split_and!; try done. by apply Hlen.
  - destruct (NewWithdrawERC20Content d) as [w| |] eqn:Hw; simpl in Hp; try done.
    injection Hp as <-. unfold NewWithdrawERC20Content, MustDecode in Hw. inv_ok.
    rewrite (es_receiver _ Hs) in Hw. simpl in Hw. inv_ok.
    destruct (hexutil_Decode (d_Receiver d)) as [r|] eqn:Hr; simplify_eq.
    do 3 eexists. split_and!; [done..|by apply Hlen|].
    unfold erc20_preimage. simpl. by rewrite <- !app_assoc.
Qed.

Lemma evm_body_inj a1 a2 r1 r2 h1 h2 n1 n2 c1 c2 :
  0 ≤ a1 < 2 ^ 256 → 0 ≤ a2 < 2 ^ 256 → 0 ≤ c1 < 2 ^ 256 → 0 ≤ c2 < 2 ^ 256 →
  0 ≤ n1 < 2 ^ 63 → 0 ≤ n2 < 2 ^ 63 → length r1 = 20%nat → length r2 = 20%nat →
  ToBytes32 (big_Bytes a1) ++ r1 ++ TxHashToBytes32 h1 ++ IntToBytes32 n1 ++ ToBytes32 (big_Bytes c1)
  = ToBytes32 (big_Bytes a2) ++ r2 ++ TxHashToBytes32 h2 ++ IntToBytes32 n2 ++
    ToBytes32 (big_Bytes c2) →
  a1 = a2 ∧ r1 = r2 ∧ TxHashToBytes32 h1 = TxHashToBytes32 h2 ∧ n1 = n2 ∧ c1 = c2.
Proof.
  intros Ha1 Ha2 Hc1 Hc2 Hn1 Hn2 Hr1 Hr2 Heq.
  apply app_inj_length in Heq as [Ea Heq]; [|by autorewrite with tss_len].
  apply app_inj_length in Heq as [Er Heq]; [|lia].
  apply app_inj_length in Heq as [Eh Heq]; [|by rewrite !length_TxHashToBytes32].
  apply app_inj_length in Heq as [En Ec]; [|unfold IntToBytes32; by autorewrite with tss_len].
  apply ToBytes32_inj in Ea; [|done..]. apply ToBytes32_inj in En; [|lia..].
  apply ToBytes32_inj in Ec; [|done..]. done.
Qed.

Lemma length_evm_body a r h n c :
  length r = 20%nat →
  length (ToBytes32 (big_Bytes a) ++ r ++ TxHashToBytes32 h ++ IntToBytes32 n ++
          ToBytes32 (big_Bytes c)) = 148%nat.
Proof.
  intros Hr. unfold IntToBytes32. autorewrite with tss_len.
  rewrite length_TxHashToBytes32, Hr. done.
Qed.

End evm_lemmas.

(** ** Theorems *)

Section theorems.
Context `{EthLibSpec}.

(** C28: Two deposits with the same signed bytes are the same withdrawal: same
    amount, receiver, source transaction and index, destination chain, and, for
    tokens, same token and wrapping.  In particular a signature for a native
    withdrawal can never be used as one for a token withdrawal. *)
Theorem evm_preimage_injective d1 d2 p :
  evm_signable d1 → evm_signable d2 → evm_preimage d1 = Ok p → evm_preimage d2 = Ok p →
  same_withdrawal d1 d2 ∧
  (d_WithdrawalToken d1 = DefaultNativeTokenAddress ↔
   d_WithdrawalToken d2 = DefaultNativeTokenAddress) ∧
  (d_WithdrawalToken d1 ≠ DefaultNativeTokenAddress →
   HexToAddress (d_WithdrawalToken d1) = HexToAddress (d_WithdrawalToken d2) ∧
   d_IsWrappedToken d1 = d_IsWrappedToken d2).
Proof.
  intros Hs1 Hs2 Hp1 Hp2.
  destruct (evm_preimage_shape _ _ Hs1 Hp1) as (a1 & c1 & r1 & Ha1 & Hc1 & Hr1 & Hl1 & ->).
  destruct (evm_preimage_shape _ _ Hs2 Hp2) as (a2 & c2 & r2 & Ha2 & Hc2 & Hr2 & Hl2 & Heq).
  clear Hp1 Hp2.
  pose proof (es_amount _ Hs1 _ Ha1). pose proof (es_amount _ Hs2 _ Ha2).
  pose proof (es_chain _ Hs1 _ Hc1). pose proof (es_chain _ Hs2 _ Hc2).
  pose proof (es_nonce _ Hs1). pose proof (es_nonce _ Hs2).
  assert (∀ d, length (HexToAddress d) = 20%nat) as Hlh by apply HexToAddress_length.
  assert (∀ b, length (BoolToBytes b) = 1%nat) as Hlb by (by intros []).
  do 2 case_bool_decide.
  - apply evm_body_inj in Heq as (-> & -> & Hh & Hn & ->); [|done..].
    split_and!; [by split; rewrite ?Ha1, ?Ha2, ?Hr1, ?Hr2, ?Hc1, ?Hc2|tauto|tauto].
  - apply (f_equal length) in Heq. rewrite !length_app, Hlh, Hlb in Heq.
    rewrite <- !length_app, !length_evm_body in Heq by done. lia.
  - apply (f_equal length) in Heq. rewrite !length_app, Hlh, Hlb in Heq.
    rewrite <- !length_app, !length_evm_body in Heq by done. lia.
  - apply app_inj_length in Heq as [Htok Heq]; [|by rewrite !Hlh].
    apply app_inj_length in Heq as [Heq Hw]; [|by rewrite !length_evm_body].
    apply evm_body_inj in Heq as (-> & -> & Hh & Hn & ->); [|done..].
    split_and!; [by split; rewrite ?Ha1, ?Ha2, ?Hr1, ?Hr2, ?Hc1, ?Hc2|tauto|].
    intros _. split; [done|by apply BoolToBytes_inj].
Qed.

End theorems.

(** The deposit with another transaction index. *)
Definition with_nonce (n : Z) (d : Deposit) : Deposit :=
  {| d_Id := d_Id d;
     d_ident := {| TxHash := TxHash (d_ident d); TxNonce := n; ChainId := ChainId (d_ident d) |};
     d_Depositor := d_Depositor d; d_DepositAmount := d_DepositAmount d;
     d_DepositToken := d_DepositToken d; d_Receiver := d_Receiver d;
     d_WithdrawalToken := d_WithdrawalToken d; d_DepositBlock := d_DepositBlock d;
     d_CommissionAmount := d_CommissionAmount d; d_ReferralId := d_ReferralId d;
     d_WithdrawalStatus := d_WithdrawalStatus d; d_WithdrawalTxHash := d_WithdrawalTxHash d;
     d_WithdrawalChainId := d_WithdrawalChainId d; d_WithdrawalAmount := d_WithdrawalAmount d;
     d_IsWrappedToken := d_IsWrappedToken d; d_Signature := d_Signature d;
     d_TxData := d_TxData d; d_Submitted := d_Submitted d; d_Distributed := d_Distributed d |}.

(** [IntToBytes32] drops the sign: the deposits with index n and -n of one
    transaction have the same signed bytes, hence the non-negativity above. *)
Theorem evm_negative_nonce_collides `{EthLib} d n :
  evm_preimage (with_nonce (- n) d) = evm_preimage (with_nonce n d).
Proof.
  unfold evm_preimage, NewWithdrawNativeContent, NewWithdrawERC20Content, with_nonce,
    IntToBytes32, big_Bytes. simpl. by rewrite Z.abs_opp.
Qed.

Section solana_theorems.
Context `{SolanaLibSpec}.

(** The Solana message is unambiguous: equal signed buffers have the same
    amount, the same unique id, the same receiver and the same token, and a
    native withdrawal is never confused with a token withdrawal. *)
Theorem sol_preimage_injective d1 d2 p :
  sol_preimage d1 = Ok p → sol_preimage d2 = Ok p →
  ParseUint (d_WithdrawalAmount d1) = ParseUint (d_WithdrawalAmount d2) ∧
  sol_sha256 (sol_uid_preimage d1) = sol_sha256 (sol_uid_preimage d2) ∧
  PublicKeyFromBase58 (d_Receiver d1) = PublicKeyFromBase58 (d_Receiver d2) ∧
  (d_WithdrawalToken d1 = DefaultNativeTokenAddress ↔
   d_WithdrawalToken d2 = DefaultNativeTokenAddress) ∧
  (d_WithdrawalToken d1 ≠ DefaultNativeTokenAddress →
   PublicKeyFromBase58 (d_WithdrawalToken d1) = PublicKeyFromBase58 (d_WithdrawalToken d2)).
Proof.
  assert (∀ d p, sol_preimage d = Ok p → ∃ a r t,
    ParseUint (d_WithdrawalAmount d) = Some a ∧ 0 ≤ a < 256 ^ Z.of_nat 8 ∧
    PublicKeyFromBase58 (d_Receiver d) = Some r ∧
    (if bool_decide (d_WithdrawalToken d = DefaultNativeTokenAddress) then t = []
     else PublicKeyFromBase58 (d_WithdrawalToken d) = Some t) ∧
    p = bytes_of_string "withdraw" ++ bytes_of_string sol_BridgeId ++ le_bytes 8 a ++
        sol_sha256 (sol_uid_preimage d) ++ r ++ t) as Hshape.
  { intros d q Hq. unfold sol_preimage in Hq.
    apply bind_Ok in Hq as (a & Ha & Hq). apply bind_Ok in Hq as (r & Hr & Hq).
    apply wrap_Ok, of_option_Ok in Ha. apply wrap_Ok, of_option_Ok in Hr.
    assert (0 ≤ a < 256 ^ Z.of_nat 8) as [Hlo Hhi].
    { change (256 ^ Z.of_nat 8) with (2 ^ 64). unfold ParseUint in Ha.
      apply bind_Some in Ha as (z & _ & Ha). case_decide as Hz; [|done].
      unfold in_uint64, max_uint64 in Hz. injection Ha as <-. lia. }
    case_bool_decide as Ht.
    - injection Hq as <-. exists a, r, []. split_and!; [done..|].
      by rewrite app_nil_r.
    - apply bind_Ok in Hq as (t & Htok & Hq). apply of_option_Ok in Htok.
      exists a, r, t. split_and!; [done..|].
      apply (inj Ok) in Hq as <-. by rewrite <- !app_assoc. }
  intros Hp1 Hp2.
  destruct (Hshape _ _ Hp1) as (a1 & r1 & t1 & Ha1 & Hb1 & Hr1 & Ht1 & ->).
  destruct (Hshape _ _ Hp2) as (a2 & r2 & t2 & Ha2 & Hb2 & Hr2 & Ht2 & Heq). clear Hshape Hp1 Hp2.
  apply app_inv_head, app_inv_head in Heq.
  apply app_inj_length in Heq as [Ea Heq]; [|by rewrite !length_le_bytes].
  apply app_inj_length in Heq as [Eu Heq]; [|by rewrite !sol_sha256_length].
  apply app_inj_length in Heq as [-> ->];
    [|by rewrite (PublicKey_length _ _ Hr1), (PublicKey_length _ _ Hr2)].
  apply le_bytes_inj in Ea as ->; [|done..].
  rewrite Ha1, Ha2, Hr1, Hr2. split_and!; [done..| |].
  - do 2 case_bool_decide; try tauto; subst; exfalso;
      match goal with X : PublicKeyFromBase58 _ = Some [] |- _ => by apply PublicKey_length in X end.
  - intros Hne. rewrite bool_decide_false in Ht1 by done. rewrite Ht1.
    case_bool_decide; [|done]. subst. by apply PublicKey_length in Ht1.
Qed.

End solana_theorems.

Section constructor_theorems.
Context `{EthLib, SolanaLib, TonLib, ProposalEncoding}.

(** The EVM, Solana and TON constructors.  The data formed for a deposit names
    it and is accepted by [IsValid] at every node that stores the same deposit;
    conversely [IsValid] accepts exactly the data whose signing hash is the one
    the node computes itself. *)
Theorem constructor_correct k d (t : HashWithdrawalData k) :
  (FormSigningData d = Ok t → ds_DepositIdentifier t = d_ident d ∧ IsValid t d = Ok true) ∧
  (IsValid t d = Ok true ↔
   ∃ p, hw_ProposalData t = Some p ∧ GetSignHash k d = Ok (hp_SigData p)).
Proof.
  split; [apply hw_formed_valid|]. simpl. unfold hw_IsValid.
  destruct (hw_ProposalData t) as [p|]; [|naive_solver].
  destruct (GetSignHash k d) as [h| |]; simpl; [|naive_solver..].
  case_bool_decide; naive_solver.
Qed.

End constructor_theorems.

Section zano_theorems.
Context `{EthLib, ZanoWallet}.

(** The amount of the deposit's asset paid to its receiver. *)
Definition paid_to_receiver (d : Deposit) (outputs : list DecodedOutput) : Z :=
  foldr Z.add 0 (do_Amount <$> filter (λ o, do_Address o = d_Receiver d ∧
                                            do_AssetID o = d_WithdrawalToken d) outputs).

Definition others (d : Deposit) (outputs : list DecodedOutput) : list DecodedOutput :=
  filter (λ o, do_Address o ≠ d_Receiver d) outputs.

Lemma checkOutputs_spec d outputs minted changeChecked m :
  checkOutputs d outputs minted changeChecked = Ok m ↔
  m = minted + paid_to_receiver d outputs ∧
  (length (others d outputs) + (if changeChecked then 1 else 0) ≤ 1)%nat.
Proof.
  revert minted changeChecked. unfold paid_to_receiver, others.
  induction outputs as [|o rest IH]; intros minted cc; cbn [checkOutputs].
  - simpl. rewrite Z.add_0_r. destruct cc; naive_solver lia.
  - case_bool_decide as Ha.
    + rewrite IH. rewrite (filter_cons_False (λ o, do_Address o ≠ d_Receiver d)) by tauto.
      case_bool_decide as Hb.
      * rewrite filter_cons_True by done. simpl. by rewrite Z.add_assoc.
      * rewrite filter_cons_False by tauto. done.
    + rewrite (filter_cons_True (λ o, do_Address o ≠ d_Receiver d)) by done.
      rewrite filter_cons_False by tauto.
      destruct cc; [|rewrite IH; simpl; naive_solver lia].
      simpl. split; [done|]. intros [_ Hl]. lia.
Qed.

(** C29: What a Zano withdrawal that passes [IsValid] pays: the deposit's receiver
    gets exactly the withdrawal amount of the deposit's asset, the signed id is
    the one of the decrypted transaction, and at most one output goes to anyone
    else. *)
Theorem zano_IsValid_sound t d :
  zw_IsValid t d = Ok true →
  ∃ p details a,
    zw_ProposalData t = Some p ∧
    TxDetails (zp_OutputsAddresses p) (zp_UnsignedTx p) (zp_TxSecretKey p) = Ok details ∧
    parse_Z (d_WithdrawalAmount d) = Some a ∧
    paid_to_receiver d (dt_DecodedOutputs details) = a ∧
    (length (others d (dt_DecodedOutputs details)) ≤ 1)%nat ∧
    zano_FormSigningData (dt_VerifiedTxID details) = Ok (zp_SigData p).
Proof.
  unfold zw_IsValid. destruct (zw_ProposalData t) as [p|]; [|done]. intros Hv. inv_ok.
  match goal with X : checkOutputs _ _ _ _ = Ok _ |- _ => apply checkOutputs_spec in X as [-> Hl] end.
  destruct (parse_Z _) as [a|]; [|done].
  destruct (Z.eqb_spec (0 + paid_to_receiver d (dt_DecodedOutputs x)) a) as [Ha|]; simpl in Hv; [|done].
  apply bind_Ok in Hv as (sg & Hsg & Hv). case_bool_decide; [|done]. subst.
  exists p, x, (0 + paid_to_receiver d (dt_DecodedOutputs x)).
  split_and!; [done..|lia|lia|done].
Qed.

(** The extra output is not checked: whatever transaction is valid for a
    deposit stays valid with one more output in place of the change, to any other
    address and of any asset and amount, the minted asset included. *)
Theorem zano_change_output_unchecked p d details outputs thief :
  TxDetails (zp_OutputsAddresses p) (zp_UnsignedTx p) (zp_TxSecretKey p) = Ok details →
  dt_DecodedOutputs details = thief :: outputs →
  do_Address thief ≠ d_Receiver d → others d outputs = [] →
  parse_Z (d_WithdrawalAmount d) = Some (paid_to_receiver d outputs) →
  zano_FormSigningData (dt_VerifiedTxID details) = Ok (zp_SigData p) →
  zw_IsValid {| zw_ProposalData := Some p |} d = Ok true.
Proof.
  intros Hd Ho Ht Hoth Ha Hsig. unfold zw_IsValid, DecryptTxDetails. simpl. rewrite Hd. simpl.
  assert (checkOutputs d (dt_DecodedOutputs details) 0 false = Ok (paid_to_receiver d outputs)) as ->.
  { apply checkOutputs_spec. rewrite Ho. unfold paid_to_receiver, others in *.
    rewrite filter_cons_False by tauto. rewrite filter_cons_True by done. rewrite Hoth.
    simpl. split; [done|lia]. }
  simpl. rewrite Ha, Z.eqb_refl. simpl. rewrite Hsig. simpl. by rewrite bool_decide_true.
Qed.

End zano_theorems.

(** ** Concrete instances and witnesses *)

Module SampleWithdrawal.
(** Digests pad or cut to 32 bytes; hex strings stand for themselves. *)
Definition fit (n : nat) (bs : bytes) : bytes := take n (bs ++ replicate n Byte.x00).

Lemma length_fit n bs : length (fit n bs) = n.
Proof. unfold fit. rewrite length_take, length_app, length_replicate. lia. Qed.

#[export] Instance eth : EthLib := {|
  Keccak256 := fit 32;
  hexutil_Decode := λ s, if has_prefix "0x" s then Some (fit 20 (bytes_of_string s)) else None;
  IsHexAddress := has_prefix "0x";
  HexToAddress := λ s, fit 20 (bytes_of_string s) |}.

#[export] Instance eth_spec : EthLibSpec.
Proof.
  split; simpl; intros; [apply length_fit..|]. case_match; simplify_eq. apply length_fit.
Qed.

#[export] Instance sol : SolanaLib := {|
  sol_sha256 := fit 32;
  PublicKeyFromBase58 := λ s, Some (fit 32 (bytes_of_string s));
  sol_BridgeId := "bridge" |}.

#[export] Instance sol_spec : SolanaLibSpec.
Proof. split; simpl; intros; simplify_eq; apply length_fit. Qed.

#[export] Instance ton : TonLib := {|
  AddressCell := λ s, Some (bytes_of_string s);
  RunGetMethod := λ call, Ok (tc_amount call);
  GetMasterchainInfo := Ok tt |}.

#[export] Instance encoding : ProposalEncoding := λ p, string_of_bytes (hp_SigData p).

(** A wallet whose every transaction pays 12000 of the asset to the receiver and
    5 of it to someone else. *)
#[export] Instance wallet : ZanoWallet := {|
  EmitAsset := λ _ _ _, Err (ENew "offline");
  TxDetails := λ _ _ _, Ok
    {| dt_DecodedOutputs := [{| do_Address := "thief"; do_AssetID := "0xT"; do_Amount := 5 |};
                             {| do_Address := "0xr"; do_AssetID := "0xT"; do_Amount := 12000 |}];
       dt_VerifiedTxID := "ab" |};
  hash_zano_proposal := zp_UnsignedTx |}.

(** A deposit paid out in the given token. *)
Definition deposit (token : string) : Deposit :=
  ToNewDeposit
    {| dd_ident := {| TxHash := "0xabc"; TxNonce := 2; ChainId := "1" |};
       dd_Block := 100; dd_SourceAddress := "0xA"; dd_DepositAmount := 12345;
       dd_TokenAddress := "0xT"; dd_ReferralId := 3;
       dd_DestinationAddress := "0xr"; dd_DestinationChainId := "56" |}
    12000 345 token true.

Definition proposal : ZanoProposalData :=
  {| zp_DepositId := None; zp_OutputsAddresses := []; zp_UnsignedTx := ""; zp_FinalizedTx := "";
     zp_TxSecretKey := ""; zp_TxId := "ab"; zp_SigData := fit 20 (bytes_of_string "0xab") |}.

Lemma signable token : evm_signable (deposit token).
Proof.
  split; [reflexivity|intros a Ha; vm_compute in Ha; injection Ha as <-; lia..|simpl; lia].
Qed.
End SampleWithdrawal.

Section witnesses.
Import SampleWithdrawal.

Lemma evm_preimage_injective_witness :
  same_withdrawal (deposit "0xT") (deposit "0xT").
Proof.
  destruct (evm_preimage (deposit "0xT")) as [p| |] eqn:E; [|vm_compute in E; discriminate..].
  exact (proj1 (evm_preimage_injective (deposit "0xT") (deposit "0xT") p
                  (signable _) (signable _) E E)).
Defined.

Lemma sol_preimage_injective_witness :
  ∃ p, sol_preimage (deposit "mint") = Ok p ∧
       PublicKeyFromBase58 (d_Receiver (deposit "mint"))
       = PublicKeyFromBase58 (d_Receiver (deposit "mint")).
Proof.
  destruct (sol_preimage (deposit "mint")) as [p| |] eqn:E; [|vm_compute in E; discriminate..].
  exists p. split; [reflexivity|].
  apply (sol_preimage_injective (deposit "mint") (deposit "mint") p E E).
Defined.

Lemma zano_change_output_unchecked_witness :
  zw_IsValid {| zw_ProposalData := Some proposal |} (deposit "0xT") = Ok true.
Proof.
  eapply (zano_change_output_unchecked proposal (deposit "0xT") _
            [{| do_Address := "0xr"; do_AssetID := "0xT"; do_Amount := 12000 |}]
            {| do_Address := "thief"; do_AssetID := "0xT"; do_Amount := 5 |});
    try reflexivity. discriminate.
Defined.

Lemma zano_IsValid_sound_witness :
  ∃ details, TxDetails [] "" "" = Ok details ∧
    paid_to_receiver (deposit "0xT") (dt_DecodedOutputs details) = 12000.
Proof.
  destruct (zano_IsValid_sound {| zw_ProposalData := Some proposal |} (deposit "0xT"))
    as (p & details & a & Hp & Hd & Ha & Hpaid & _); [vm_compute; reflexivity|].
  injection Hp as <-. exists details. split; [exact Hd|]. rewrite Hpaid.
  vm_compute in Ha. congruence.
Defined.

End witnesses.
