(* ===== verification/Mechanism.v ===== *)
(** * The consensus mechanism of the signing sessions

    Models [internal/tss/session/signing/consensus.go]: which deposit the leader
    proposes and what the other nodes check.  The database is any implementation
    of [DepositsQ] that meets [DepositsSpec], the withdrawal constructor any one
    that meets [ConstructorSpec]. *)

From S2P Require Import Prelude Core Deposits Broadcast Consensus Fetcher Withdrawal.
#[local] Open Scope Z_scope.

Section mechanism.
Context {St T : Type} `{BridgeCore, !DepositsQ St, !DepositSigningData T, !Constructor T}.

(** The fields of [ConsensusMechanism]: the selector is built from the chain id. *)
Definition depositSelector (chainId : string) : DepositsSelector :=
  {| sel_Ids := []; sel_ChainId := None; sel_WithdrawalChainId := Some chainId;
     sel_One := true; sel_Status := Some WS_PENDING; sel_NotSubmitted := false;
     sel_Distributed := true; sel_NotDistributed := false |}.

Definition mech_FormProposalData (chainId : string) (s : St) : res (option T) :=
  match q_GetWithSelector (depositSelector chainId) s with
  | None => Ok None
  | Some unsignedDeposit =>
      proposalData ← wrap (FormSigningData unsignedDeposit) "failed to form proposal data";
      Ok (Some proposalData)
  end.

(** The checks on the stored or fetched deposit. *)
Definition checkDeposit (data : T) (unsignedDeposit : Deposit) : res unit :=
  if negb (bool_decide (d_WithdrawalStatus unsignedDeposit = WS_PENDING)) then
    Err (ENew "deposit is not in pending status")
  else
    isValid ← wrap (IsValid data unsignedDeposit) "failed to validate proposal data";
    if (isValid : bool) then Ok tt else Err (ENew "proposal data is invalid").

(** [VerifyProposedData] with its two calls of the database apart: [Get] reads in the state
    [read], and [Insert] writes in [s], to which the node's other components may have brought
    the database while the deposit was fetched. *)
Definition verifyProposedData_at (clients : Repository) (data : T) (read s : St) : St * res unit :=
  match q_Get (ds_DepositIdentifier data) read with
  | Some unsignedDeposit => (s, checkDeposit data unsignedDeposit)
  | None =>
      match FetchDeposit clients (ds_DepositIdentifier data) with
      | Panic => (s, Panic)
      | Err e => (s, Err (EWrap e "failed to fetch deposit"))
      | Ok fetched =>
          let unsignedDeposit := set_Distributed true fetched in
          match q_Insert unsignedDeposit s with
          | (s', Err e) =>
              if errors_Is e ErrAlreadySubmitted then (s', checkDeposit data unsignedDeposit)
              else (s', Err (EWrap e "failed to save fetched deposit"))
          | (s', Ok _) => (s', checkDeposit data unsignedDeposit)
          | (s', Panic) => (s', Panic)
          end
      end
  end.

(** The same when nothing happens in between. *)
Definition mech_VerifyProposedData (clients : Repository) (data : T) (s : St) : St * res unit :=
  verifyProposedData_at clients data s s.

(** [NewConsensusMechanism] *)
Definition NewConsensusMechanism (chainId : string) (clients : Repository) : Mechanism St T :=
  {| FormProposalData := mech_FormProposalData chainId;
     VerifyProposedData := mech_VerifyProposedData clients |}.

End mechanism.

(** ** Theorems *)

Section theorems.
Context {St T : Type} `{BridgeCore, !DepositsQ St, !DepositSigningData T, !Constructor T}.
Context `{!DepositsSpec St, !ConstructorSpec T}.
Implicit Types (s : St) (t : T).

Lemma selector_matches chainId d :
  sel_matches (depositSelector chainId) d = true ↔
  d_WithdrawalChainId d = chainId ∧ d_WithdrawalStatus d = WS_PENDING ∧ d_Distributed d = true.
Proof.
  unfold sel_matches. simpl. rewrite !andb_true_iff, !bool_decide_eq_true. tauto.
Qed.

(** What an accepted proposal was checked against. *)
Lemma verify_Ok clients t read s s' :
  verifyProposedData_at clients t read s = (s', Ok tt) →
  ∃ d, d_WithdrawalStatus d = WS_PENDING ∧ IsValid t d = Ok true ∧
    (q_Get (ds_DepositIdentifier t) read = Some d ∨
     ∃ f, FetchDeposit clients (ds_DepositIdentifier t) = Ok f ∧ d = set_Distributed true f).
Proof.
  unfold verifyProposedData_at.
  assert (∀ d, checkDeposit t d = Ok tt →
            d_WithdrawalStatus d = WS_PENDING ∧ IsValid t d = Ok true) as Hcheck.
  { intros d. unfold checkDeposit. case_bool_decide; simpl; [|done].
    destruct (IsValid t d) as [[]| |]; simpl; naive_solver. }
  destruct (q_Get (ds_DepositIdentifier t) read) as [row|].
  { intros [= _ Hc]. apply Hcheck in Hc as [? ?]. exists row. auto. }
  destruct (FetchDeposit clients (ds_DepositIdentifier t)) as [f| |]; [|done..].
  destruct (q_Insert (set_Distributed true f) s) as [s1 [z|e|]]; [| |done];
    [|destruct (errors_Is e ErrAlreadySubmitted); [|done]];
    intros [= _ Hc]; apply Hcheck in Hc as [? ?]; exists (set_Distributed true f); eauto 6.
Qed.

Lemma verify_pending clients t s d :
  inv s → view s !! ds_DepositIdentifier t = Some d → d_WithdrawalStatus d = WS_PENDING →
  IsValid t d = Ok true → mech_VerifyProposedData clients t s = (s, Ok tt).
Proof.
  intros Hinv Hv Hst Hok. unfold mech_VerifyProposedData, verifyProposedData_at. rewrite Get_spec, Hv by done.
  unfold checkDeposit. rewrite Hst, bool_decide_true by done. simpl. by rewrite Hok.
Qed.

Lemma verify_not_pending clients t read s d :
  inv read → view read !! ds_DepositIdentifier t = Some d → d_WithdrawalStatus d ≠ WS_PENDING →
  verifyProposedData_at clients t read s = (s, Err (ENew "deposit is not in pending status")).
Proof.
  intros Hinv Hv Hst. unfold verifyProposedData_at. rewrite Get_spec, Hv by done.
  unfold checkDeposit. by rewrite bool_decide_false.
Qed.

(** The leader proposes the oldest deposit of its chain that is PENDING and
    distributed, and nothing only if there is none.  A node that holds the same
    deposit PENDING, under whatever row id, accepts the proposal, whatever the proposed
    data is, and its database is unchanged: honest proposals are accepted. *)
Theorem proposal_accepted chainId clients s :
  inv s →
  match mech_FormProposalData (T:=T) chainId s with
  | Ok None => ∀ i d, view s !! i = Some d →
      ¬ (d_WithdrawalChainId d = chainId ∧ d_WithdrawalStatus d = WS_PENDING ∧
         d_Distributed d = true)
  | Ok (Some t) => ∃ d,
      view s !! d_ident d = Some d ∧ ds_DepositIdentifier t = d_ident d ∧
      d_WithdrawalChainId d = chainId ∧ d_WithdrawalStatus d = WS_PENDING ∧
      (∀ i d', view s !! i = Some d' → d_WithdrawalChainId d' = chainId →
         d_WithdrawalStatus d' = WS_PENDING → d_Distributed d' = true → d_Id d ≤ d_Id d') ∧
      (∀ s' d', inv s' → view s' !! d_ident d = Some d' → same_data d d' →
         d_WithdrawalStatus d' = WS_PENDING →
         mech_VerifyProposedData clients t s' = (s', Ok tt))
  | _ => True
  end.
Proof.
  intros Hinv. unfold mech_FormProposalData.
  pose proof (GetWithSelector_spec s (depositSelector chainId) Hinv eq_refl) as Hsel.
  destruct (q_GetWithSelector (depositSelector chainId) s) as [d|].
  - destruct (FormSigningData d) as [t| |] eqn:Hform; simpl; [|done..].
    destruct Hsel as (Hv & Hm & Hmin). apply selector_matches in Hm as (Hc & Hst & Hdi).
    exists d. split_and!; [done|by apply formed_identifier|done|done| |].
    + intros i d' Hi Hc' Hst' Hdi'. apply (Hmin i); [done|]. by apply selector_matches.
    + intros s' d' Hinv' Hv' Hsame Hst'. apply (verify_pending _ _ _ d'); [done| |done|].
      * by rewrite (formed_identifier _ _ Hform).
      * by rewrite <- Hsame, (formed_valid _ _ Hform).
  - intros i d Hi Hm. apply selector_matches in Hm. by rewrite (Hsel i d Hi) in Hm.
Qed.

(** What a node has checked when it accepts a proposal: the data is valid for a
    PENDING deposit with the proposed identifier, which is the stored row, or, if
    none was stored, the one fetched from the source chain and stored as
    distributed. *)
Theorem verify_sound clients t s s' :
  inv s → mech_VerifyProposedData clients t s = (s', Ok tt) →
  inv s' ∧ ∃ d, d_WithdrawalStatus d = WS_PENDING ∧ IsValid t d = Ok true ∧
    match view s !! ds_DepositIdentifier t with
    | Some row => d = row ∧ s' = s
    | None => ∃ fetched, FetchDeposit clients (ds_DepositIdentifier t) = Ok fetched ∧
        d = set_Distributed true fetched ∧
        (view s !! d_ident d = None → ∃ id, view s' = <[d_ident d := inserted_row id d]> (view s))
    end.
Proof.
  intros Hinv. unfold mech_VerifyProposedData, verifyProposedData_at. rewrite Get_spec by done.
  assert (∀ d, checkDeposit t d = Ok tt →
            d_WithdrawalStatus d = WS_PENDING ∧ IsValid t d = Ok true) as Hcheck.
  { intros d. unfold checkDeposit. case_bool_decide; simpl; [|done].
    destruct (IsValid t d) as [[]| |]; simpl; naive_solver. }
  destruct (view s !! ds_DepositIdentifier t) as [row|] eqn:Hrow.
  - intros [= <- Hc]. apply Hcheck in Hc as [? ?]. split; [done|]. by exists row.
  - destruct (FetchDeposit clients (ds_DepositIdentifier t)) as [fetched| |] eqn:Hf; [|done..].
    set (d := set_Distributed true fetched).
    destruct (q_Insert d s) as [s1 r] eqn:Hins.
    destruct (Insert_spec _ _ _ _ Hinv Hins) as (Hinv1 & id & Hspec).
    unfold spec_insert in Hspec. cbv beta in Hspec.
    assert (checkDeposit t d = Ok tt → s1 = s' → r = Err (ESentinel ErrAlreadySubmitted) ∨ r = Ok id →
       inv s' ∧ ∃ d0, d_WithdrawalStatus d0 = WS_PENDING ∧ IsValid t d0 = Ok true ∧
         ∃ f, Ok fetched = Ok f ∧ d0 = set_Distributed true f ∧
          (view s !! d_ident d0 = None →
           ∃ id, view s' = <[d_ident d0 := inserted_row id d0]> (view s))) as Hdone.
    { intros Hc <- Hr. apply Hcheck in Hc as [? ?]. split; [done|]. exists d. split_and!; [done..|].
      exists fetched. split_and!; [done..|]. intros Hn.
      change (d_ident d) with (d_ident (inserted_row id d)) in Hn.
      destruct (negb (row_fits (inserted_row id d))); [destruct Hspec as [_ ->]; by destruct Hr|].
      rewrite Hn in Hspec. destruct Hspec as [Hv _]. by exists id. }
    destruct r as [z|e|].
    + intros [= <- Hc]. apply Hdone; [done|done|]. right.
      destruct (negb (row_fits (inserted_row id d))); [destruct Hspec as [_ Hr]; discriminate Hr|].
      destruct (view s !! d_ident (inserted_row id d)); destruct Hspec as [_ Hr]; congruence.
    + destruct (errors_Is e ErrAlreadySubmitted) eqn:He; [|done].
      intros [= <- Hc]. apply Hdone; [done|done|]. left.
      destruct (negb (row_fits (inserted_row id d))); [destruct Hspec as [_ Hr]; injection Hr as ->; done|].
      destruct (view s !! d_ident (inserted_row id d)); destruct Hspec as [_ Hr]; congruence.
    + done.
Qed.

(** C38: The race in the verification of a proposal for a deposit that the node does not know.
    If the row appears, whatever its status, between the read and the insert, the
    error of the insert is ignored and the node accepts the proposal on the strength of the
    PENDING copy it fetched: also when the row is that of a withdrawal that is already
    settled, such as the one an event of the core stores.  The row itself stays as it is. *)
Theorem settled_meanwhile_accepted clients t read s f row :
  inv read → inv s → view read !! ds_DepositIdentifier t = None →
  FetchDeposit clients (ds_DepositIdentifier t) = Ok f → d_ident f = ds_DepositIdentifier t →
  (∀ id, row_fits (inserted_row id (set_Distributed true f)) = true) →
  IsValid t (set_Distributed true f) = Ok true →
  view s !! ds_DepositIdentifier t = Some row → d_WithdrawalStatus row ≠ WS_PENDING →
  ∃ s', verifyProposedData_at clients t read s = (s', Ok tt) ∧ view s' = view s.
Proof.
  intros Hir His Hnone Hf Hid Hfits Hval Hrow _. unfold verifyProposedData_at.
  rewrite Get_spec, Hnone, Hf by done.
  assert (checkDeposit t (set_Distributed true f) = Ok tt) as Hcheck.
  { unfold checkDeposit.
    apply FetchDeposit_Ok in Hf as (? & ? & ? & ? & ? & ? & ? & _ & _ & _ & _ & _ & _ & _ & ->).
    rewrite bool_decide_true by done. simpl in *. by rewrite Hval. }
  destruct (q_Insert (set_Distributed true f) s) as [s1 r] eqn:Hins.
  destruct (Insert_spec _ _ _ _ His Hins) as (_ & id & Hspec). unfold spec_insert in Hspec. cbv beta in Hspec.
  rewrite Hfits in Hspec. cbn [negb] in Hspec.
  change (d_ident (inserted_row id (set_Distributed true f))) with (d_ident f) in Hspec.
  rewrite Hid, Hrow in Hspec. destruct Hspec as [Hview ->]. exists s1. by rewrite Hcheck.
Qed.

(** The destination chain is not part of the check: a node of any session
    accepts the data its constructor forms for a PENDING deposit of another
    destination chain, as long as the data type of the two sessions is the same. *)
Theorem verify_ignores_destination clients t s d :
  inv s → view s !! d_ident d = Some d → d_WithdrawalStatus d = WS_PENDING →
  FormSigningData d = Ok t →
  ∀ chainId, d_WithdrawalChainId d ≠ chainId →
  @VerifyProposedData _ _ (NewConsensusMechanism chainId clients) t s = (s, Ok tt).
Proof.
  intros Hinv Hv Hst Hform chainId _. apply (verify_pending _ _ _ d); [done| |done|].
  - by rewrite (formed_identifier _ _ Hform).
  - by apply formed_valid.
Qed.

End theorems.

Section witnesses.
Import SampleWithdrawal SampleFetcher.

(** A table with one PENDING, distributed deposit for chain 56. *)
Definition sample_row : Deposit := set_Distributed true (SampleWithdrawal.deposit "0xT").
Definition sample_table : Table := (Pg.Insert sample_row empty_table).1.
Definition sample_stored : Deposit := inserted_row 1 sample_row.

Lemma sample_inv : inv (St:=Table) sample_table.
Proof.
  eapply (db_step_wf empty_table); [split; simpl; constructor|].
  eapply (step_Insert sample_row). apply surjective_pairing.
Qed.

(** Another node, where the same deposit has another row id. *)
Definition sample_table2 : Table := (Pg.Insert sample_row {| rows := []; nextId := 2 |}).1.

Lemma sample_inv2 : inv (St:=Table) sample_table2.
Proof.
  eapply (db_step_wf {| rows := []; nextId := 2 |}); [split; simpl; constructor|].
  eapply (step_Insert sample_row). apply surjective_pairing.
Qed.

Lemma proposal_accepted_witness :
  ∃ t : EvmWithdrawalData, mech_FormProposalData "56" sample_table = Ok (Some t) ∧
    mech_VerifyProposedData (clients 1) t sample_table2 = (sample_table2, Ok tt).
Proof.
  pose proof (proposal_accepted (T:=EvmWithdrawalData) "56" (clients 1) sample_table sample_inv) as Hp.
  destruct (mech_FormProposalData (T:=EvmWithdrawalData) "56" sample_table) as [[t|]| |] eqn:E;
    [|vm_compute in E; discriminate..].
  exists t. split; [reflexivity|]. destruct Hp as (d & Hv & Hid & _ & _ & _ & Hacc).
  assert (d_ident d = d_ident sample_row) as Hd.
  { rewrite <- Hid. vm_compute in E. injection E as <-. reflexivity. }
  rewrite Hd in Hv. vm_compute in Hv. injection Hv as <-.
  apply (Hacc _ (inserted_row 2 sample_row) sample_inv2); reflexivity.
Defined.

Lemma verify_sound_witness :
  ∃ (t : EvmWithdrawalData) d, IsValid t d = Ok true ∧ d_WithdrawalStatus d = WS_PENDING.
Proof.
  destruct (FormSigningData sample_stored : res EvmWithdrawalData) as [t| |] eqn:E;
    [|vm_compute in E; discriminate..].
  destruct (verify_sound (St:=Table) (T:=EvmWithdrawalData) (clients 1) t sample_table sample_table sample_inv) as (_ & d & Hst & Hv & _).
  { vm_compute in E. injection E as <-. vm_compute. reflexivity. }
  exists t, d. split; [exact Hv|exact Hst].
Defined.

(** An event of the core stored the deposit as PROCESSED after the node had looked for it. *)
Definition sample_fetched : Deposit :=
  match FetchDeposit (clients 1000000) SampleFetcher.identifier with Ok f => f | _ => sample_row end.
Definition event_table : Table := (Pg.InsertProcessedDeposit sample_fetched empty_table).1.

Lemma settled_meanwhile_accepted_witness :
  ∃ (t : EvmWithdrawalData) s',
    (d_WithdrawalStatus <$> view event_table !! ds_DepositIdentifier t) = Some WS_PROCESSED ∧
    verifyProposedData_at (clients 1000000) t empty_table event_table = (s', Ok tt).
Proof.
  destruct (FormSigningData (set_Distributed true sample_fetched) : res EvmWithdrawalData) as [t| |] eqn:E;
    [|vm_compute in E; discriminate..].
  assert (ds_DepositIdentifier t = SampleFetcher.identifier) as Hid
    by (vm_compute in E; injection E as <-; reflexivity).
  destruct (view event_table !! SampleFetcher.identifier) as [row|] eqn:Hrow; [|vm_compute in Hrow; discriminate].
  destruct (settled_meanwhile_accepted (St:=Table) (T:=EvmWithdrawalData) (clients 1000000) t
              empty_table event_table sample_fetched row) as (s' & Hs & _).
  - split; simpl; constructor.
  - eapply (db_step_wf empty_table); [split; simpl; constructor|].
    eapply (step_InsertProcessed sample_fetched). apply surjective_pairing.
  - reflexivity.
  - rewrite Hid. vm_compute. reflexivity.
  - rewrite Hid. vm_compute. reflexivity.
  - intros id. vm_compute. reflexivity.
  - vm_compute in E. injection E as <-. vm_compute. reflexivity.
  - rewrite Hid. exact Hrow.
  - vm_compute in Hrow. injection Hrow as <-. discriminate.
  - exists t, s'. split; [|exact Hs]. rewrite Hid. vm_compute. reflexivity.
Defined.

Lemma verify_ignores_destination_witness :
  ∃ t : EvmWithdrawalData,
    @VerifyProposedData _ _ (NewConsensusMechanism "97" (clients 1)) t sample_table
    = (sample_table, Ok tt).
Proof.
  destruct (FormSigningData sample_stored : res EvmWithdrawalData) as [t| |] eqn:E;
    [|vm_compute in E; discriminate..].
  exists t.
  apply (verify_ignores_destination (St:=Table) (T:=EvmWithdrawalData) (clients 1) t sample_table sample_stored sample_inv);
    [reflexivity|reflexivity|exact E|discriminate].
Defined.

End witnesses.
