(* ===== verification/Signing.v ===== *)
(** * Signature distribution, finalization and the signing session

    Models [internal/tss/common.go] (signatures), [internal/tss/utils.go],
    [session/signing/distribution.go], the finalizers and [runSession] of the
    EVM, Solana, TON and Zano sessions, [session/signing/default.go], the
    messages of [internal/tss/signer.go] and the lock discipline between the
    message handlers and the session loop.

    The threshold signing itself (tss-lib) is an input: the signature it returns,
    or none.  So is the outcome of the consensus phase, which Consensus.v models. *)

From S2P Require Import Prelude Core Session Deposits Broadcast Consensus Fetcher Withdrawal.
#[local] Open Scope Z_scope.

(** ** Signatures *)

(** [common.SignatureData] of tss-lib. *)
Record SignatureData := {
  sd_Signature : bytes; sd_SignatureRecovery : bytes; sd_R : bytes; sd_S : bytes; sd_M : bytes }.

#[export] Instance SignatureData_eq_dec : EqDecision SignatureData.
Proof. solve_decision. Defined.

(** [tss.Signatures]: a slice of pointers. *)
Record Signatures := { sgs_Data : list (option SignatureData) }.

Class SigLib := {
  ECDSAPub : Type;
  (** [crypto/ecdsa.Verify] *)
  ecdsa_Verify : ECDSAPub → bytes → Z → Z → bool;
  hexutil_Encode : bytes → string;
  (** deterministic protobuf encoding *)
  marshal_signature : SignatureData → bytes;
  (** [fmt.Sprintf("%x", sha256.Sum256(bs))] *)
  hex_sha256 : bytes → string;
  (** base64 of the JSON of a signed Zano transaction *)
  encode_zano_tx : string → string → string → string → string }.

Section signing.
Context `{SigLib}.

#[export] Instance Signatures_Hashable : Hashable Signatures := λ s,
  match sgs_Data s with
  | [] => ""
  | data => hex_sha256 (mjoin ((λ o, default [] (marshal_signature <$> o)) <$> data))
  end.

(** [tss.Verify] dereferences the signature. *)
Definition Verify (pk : ECDSAPub) (inputData : bytes) (signature : option SignatureData) : res bool :=
  match signature with
  | None => Panic
  | Some sg => Ok (ecdsa_Verify pk (big_Bytes (be_Z inputData)) (be_Z (sd_R sg)) (be_Z (sd_S sg)))
  end.

(** ** distribution.go *)

Fixpoint verifyAll (pk : ECDSAPub) (sigData : list bytes) (signatures : list (option SignatureData))
    : res unit :=
  match signatures, sigData with
  | signature :: rest, data :: dataRest =>
      ok ← Verify pk data signature;
      if (ok : bool) then verifyAll pk dataRest rest else Err (ENew "got invalid signature")
  | _, _ => Ok tt
  end.

Definition dist_validateSignatures (pk : ECDSAPub) (sigData : list bytes)
    (signatures : option Signatures) : res unit :=
  match signatures with
  | None => Err (ENew "no signatures received")
  | Some s =>
      if negb (length (sgs_Data s) =? length sigData)%nat then
        Err (ENew "received signatures count does not match expected")
      else verifyAll pk sigData (sgs_Data s)
  end.

Context `{Bech32, Crypto}.

Record SignaturesDistributor := {
  di_sessionId : string;
  di_distributor : Address;
  di_self : Address;
  di_sigPubKey : ECDSAPub;
  di_broadcaster : RBConfig * RBState Signatures }.

Definition NewSignaturesDistributor (sessionId : string) (parties : list Party)
    (account : Account PrivKey) (pub : ECDSAPub) (threshold : Z) (distributor : Address)
    : SignaturesDistributor :=
  {| di_sessionId := sessionId;
     di_distributor := distributor;
     di_self := CosmosAddress account;
     di_sigPubKey := pub;
     di_broadcaster := NewReliable sessionId parties account
       (MaxMaliciousParties (Z.of_nat (length parties) + 1) threshold) |}.

(** What [WaitFor] returns: the signatures and the error. *)
Definition DistResult : Type := option Signatures * option error.

Definition of_validation (signatures : option Signatures) (v : res unit) (msg : string)
    : Outcome DistResult :=
  match v with
  | Ok _ => Finished (signatures, None)
  | Err e => Finished (signatures, Some (EWrap e msg))
  | Panic => Crashed
  end.

Definition distribute (d : SignaturesDistributor) (signatures : option Signatures)
    (sigData : list bytes) (relays : list (ReliableBroadcastMsg Signatures)) : Outcome DistResult :=
  match signatures with
  | None => Finished (None, Some (ENew "no signatures to distribute"))
  | Some s =>
      match Broadcast.Broadcast (di_broadcaster d).1 (Some s) relays (di_broadcaster d).2 with
      | Ok (_, _, false) =>
          Finished (signatures, Some (ENew "signatures was not correctly broadcast"))
      | Ok (_, _, true) =>
          of_validation signatures (dist_validateSignatures (di_sigPubKey d) sigData signatures)
            "failed to validate signatures"
      | _ => Crashed
      end
  end.

(** [init]: the message of the distributor, or nothing before the context is done. *)
Definition receive (d : SignaturesDistributor) (signatures : option Signatures)
    (sigData : list bytes) (init : option (ReliableBroadcastMsg Signatures))
    (relays : RelayInput Signatures) : Outcome DistResult :=
  match init with
  | None => Finished (signatures, Some (ESentinel ErrContextDone))
  | Some msg =>
      match EnsureValid (di_broadcaster d).1 msg (ri_queued relays) (ri_arriving relays)
              (ri_budget relays) (di_broadcaster d).2 with
      | None => Blocked
      | Some (Ok (_, _, false)) =>
          Finished (signatures, Some (ENew "signatures message was not correctly distributed"))
      | Some (Ok (_, _, true)) =>
          let received := rm_Value (bm_Msg msg) in
          of_validation received (dist_validateSignatures (di_sigPubKey d) sigData received)
            "failed to validate received signatures"
      | _ => Crashed
      end
  end.

(** [Run] and [WaitFor]. *)
Definition runDistribution (d : SignaturesDistributor) (signatures : option Signatures)
    (sigData : list bytes) (init : option (ReliableBroadcastMsg Signatures))
    (relays : RelayInput Signatures) : Outcome DistResult :=
  if bool_decide (di_self d = di_distributor d) then
    distribute d signatures sigData (ri_arriving relays)
  else receive d signatures sigData init relays.

(** [SignaturesDistributor.Receive]: where the message goes. *)
Inductive DistRouted :=
| ToInitChan (m : ReliableBroadcastMsg Signatures)
| ToRelays (m : ReliableBroadcastMsg Signatures).

Definition dist_Receive `{!GobMessage Signatures} (d : SignaturesDistributor)
    (initSigAccepted : bool) (request : option SubmitRequest) : res DistRouted :=
  match request with
  | None => Err (ENew "nil request")
  | Some rq =>
      if negb (bool_decide (rq_SessionId rq = di_sessionId d)) then
        Err (ENew "session id mismatch")
      else if negb (bool_decide (rq_Type rq = RT_SIGNATURE_DISTRIBUTION)) then
        Err (ENew "invalid request type")
      else
        sender ← wrap (Addr.FromString (rq_Sender rq)) "failed to parse sender address";
        roundMsg ← decodeData Signatures (rq_Data rq);
        let msg := {| bm_Msg := roundMsg; bm_Sender := sender |} in
        if negb (rm_Round roundMsg =? 0) then
          match Broadcast.Receive (di_broadcaster d).1 msg with
          | None => Ok (ToRelays msg)
          | Some e => Err e
          end
        else if negb (bool_decide (sender = di_distributor d)) then
          Err (ENew "sender is not distributor")
        else if initSigAccepted then Err (ENew "invalid message, signature already accepted")
        else Ok (ToInitChan msg)
  end.

(** ** Finalizers *)

(** [rawSig[64] += 27] panics on a signature of fewer than 65 bytes. *)
Definition convertToEthSignature (sg : SignatureData) : res string :=
  let rawSig := sd_Signature sg ++ sd_SignatureRecovery sg in
  match rawSig !! 64%nat with
  | None => Panic
  | Some b => Ok (hexutil_Encode (<[64%nat := Z_byte (byte_Z b + 27)]> rawSig))
  end.

Definition convertToSolanaSignature (sg : SignatureData) : res string :=
  Ok (hexutil_Encode (sd_Signature sg ++ sd_SignatureRecovery sg)).

Definition ConvertToTonSignature (sg : SignatureData) : res string :=
  Ok (hexutil_Encode (sd_Signature sg ++ sd_SignatureRecovery sg)).

(** [encoded[2 : len(encoded)-2]]: out of range on an encoding of fewer than four
    characters. *)
Definition zano_EncodeSignature (sg : SignatureData) : res string :=
  let encoded := hexutil_Encode (sd_Signature sg ++ sd_SignatureRecovery sg) in
  if (String.length encoded <? 4)%nat then Panic
  else Ok (String.substring 2 (String.length encoded - 4) encoded).

Definition convertSignature (k : HashChain) : SignatureData → res string :=
  match k with
  | EvmData => convertToEthSignature
  | SolanaData => convertToSolanaSignature
  | TonData => ConvertToTonSignature
  end.

Context {St : Type} `{!DepositsQ St}.

(** [finalize] of the EVM, Solana and TON sessions: the new database state and
    what is sent on [errChan]. *)
Definition hw_finalize {k} (data : HashWithdrawalData k) (sg : option SignatureData) (s : St)
    : res (St * option error) :=
  match sg with
  | None => Panic
  | Some sg =>
      signature ← convertSignature k sg;
      match q_UpdateProcessed
              {| pd_Identifier := hw_DepositIdentifier data; pd_Signature := Some signature;
                 pd_TxHash := None; pd_TxData := None |} s with
      | Ok s' => Ok (s', None)
      | Err e => Ok (s, Some (EWrap e "failed to update signature"))
      | Panic => Panic
      end
  end.

(** [sent]: the outcome of [SendSignedTransaction] at the session leader. *)
Definition zw_finalize (leader : bool) (sent : option error) (data : ZanoWithdrawalData)
    (sg : option SignatureData) (s : St) : res (St * option error) :=
  match zw_ProposalData data with
  | None => Panic
  | Some p =>
      let withdrawalTxHash := ("0x" +:+ zp_TxId p)%string in
      signature ← match sg with None => Ok "" | Some sg => zano_EncodeSignature sg end;
      let encodedTx := encode_zano_tx signature (zp_TxId p) (zp_FinalizedTx p) (zp_UnsignedTx p) in
      match q_UpdateProcessed
              {| pd_Identifier := zw_DepositIdentifier data; pd_Signature := None;
                 pd_TxHash := Some withdrawalTxHash; pd_TxData := Some encodedTx |} s with
      | Err e => Ok (s, Some (EWrap e "failed to update signature"))
      | Panic => Panic
      | Ok s' =>
          if negb leader then Ok (s', None)
          else Ok (s', errors_Wrap sent "failed to emit signed transaction")
      end
  end.

(** [Finalize] returns when [finalize] reports or the context expires; in the
    latter case the goroutine may have written the row before the compensation, may write
    it afterwards, or never. *)
Inductive FinalizeTiming := InTime | TimedOutAfterWrite | TimedOutThenWrites | TimedOutNeverWrites.

(** ** runSession *)

(** What differs between the sessions. *)
Record SessionKind (T : Type) := {
  sk_identifier : T → DepositIdentifier;
  (** [SigData.ProposalData.SigData], a nil dereference without proposal data *)
  sk_sigData : T → res (list bytes);
  (** [true] for [(err error)], false for an unnamed result *)
  sk_named_result : bool;
  sk_finalize : T → list (option SignatureData) → St → res (St * option error) }.
Arguments sk_identifier {_} _ _.
Arguments sk_sigData {_} _ _.
Arguments sk_named_result {_} _.
Arguments sk_finalize {_} _ _ _ _.

(** [signatures.Data[0]] *)
Definition first_signature (sgs : list (option SignatureData)) : res (option SignatureData) :=
  match sgs with [] => Panic | sg :: _ => Ok sg end.

Definition hw_kind (k : HashChain) : SessionKind (HashWithdrawalData k) :=
  {| sk_identifier := hw_DepositIdentifier;
     sk_sigData := λ e, match hw_ProposalData e with
                        | None => Panic | Some p => Ok [hp_SigData p] end;
     sk_named_result := true;
     sk_finalize := λ e sgs s, sg ← first_signature sgs; hw_finalize e sg s |}.

Definition zano_kind (leader : bool) (sent : option error) : SessionKind ZanoWithdrawalData :=
  {| sk_identifier := zw_DepositIdentifier;
     sk_sigData := λ z, match zw_ProposalData z with
                        | None => Panic | Some p => Ok [zp_SigData p] end;
     sk_named_result := false;
     sk_finalize := λ z sgs s, sg ← first_signature sgs; zw_finalize leader sent z sg s |}.

(** The inputs of one run: the result of the consensus phase, the signature (if
    any) the signing phase produces for the data, the messages of the
    distribution phase, and the timing of the finalizer. *)
Record SessionInput (T : Type) := {
  in_consensus : Result (T:=T);
  in_signature : bytes → option SignatureData;
  in_init : option (ReliableBroadcastMsg Signatures);
  in_relays : RelayInput Signatures;
  in_timing : FinalizeTiming }.
Arguments in_consensus {_} _.
Arguments in_signature {_} _ _.
Arguments in_init {_} _.
Arguments in_relays {_} _.
Arguments in_timing {_} _.

(** The deferred compensation: its error is dropped. *)
Definition compensate (i : DepositIdentifier) (s : St) : St :=
  match q_UpdateStatus i WS_FAILED s with Ok s' => s' | _ => s end.

(** The signing phase: every signature, in order, or none. *)
Definition signAll (sign : bytes → option SignatureData) (sigData : list bytes)
    : option (list SignatureData) := mapM sign sigData.

(** The finalization phase and the compensation of its error. *)
Definition finalizePhase {T} (kind : SessionKind T) (timing : FinalizeTiming) (d : T)
    (sgs : list (option SignatureData)) (s : St) : Outcome (St * option error) :=
  let timedOut := EWrap (EWrap (ESentinel ErrContextDone) "finalization timed out")
                    "finalizer phase error occurred" in
  match timing with
  | InTime =>
      match sk_finalize kind d sgs s with
      | Ok (s', None) => Finished (s', None)
      | Ok (s', Some e) =>
          Finished (compensate (sk_identifier kind d) s',
                    Some (EWrap (EWrap e "failed to finalize withdrawal")
                            "finalizer phase error occurred"))
      | _ => Crashed
      end
  | TimedOutNeverWrites => Finished (compensate (sk_identifier kind d) s, Some timedOut)
  | TimedOutAfterWrite =>
      match sk_finalize kind d sgs s with
      | Ok (s', _) => Finished (compensate (sk_identifier kind d) s', Some timedOut)
      | _ => Crashed
      end
  | TimedOutThenWrites =>
      match sk_finalize kind d sgs (compensate (sk_identifier kind d) s) with
      | Ok (s', _) => Finished (s', Some timedOut)
      | _ => Crashed
      end
  end.

Definition runSession {T} (kind : SessionKind T) (dist : SignaturesDistributor)
    (inp : SessionInput T) (s : St) : Outcome (St * option error) :=
  let result := in_consensus inp in
  match r_err result with
  | Some e => Finished (s, Some (EWrap e "consensus phase error occurred"))
  | None =>
      match r_sigData result with
      | None => Finished (s, None)
      | Some d =>
          match q_UpdateStatus (sk_identifier kind d) WS_PROCESSING s with
          | Panic => Crashed
          | Err e => Finished (s, Some (EWrap e "failed to update deposit status"))
          | Ok s1 =>
              match sk_sigData kind d with
              | Ok sigData =>
                  let signed :=
                    match r_signers result with
                    | Some _ => signAll (in_signature inp) sigData
                    | None => Some []
                    end in
                  match signed with
                  | None =>
                      (* [return errors.New(...)]: only a named result is seen by
                         the deferred function *)
                      Finished (if sk_named_result kind then compensate (sk_identifier kind d) s1
                                else s1,
                                Some (ENew "signing phase error occurred"))
                  | Some sgs =>
                      let signatures :=
                        match r_signers result with
                        | Some _ => Some {| sgs_Data := Some <$> sgs |}
                        | None => None
                        end in
                      match runDistribution dist signatures sigData (in_init inp) (in_relays inp) with
                      | Finished (Some sgs', None) =>
                          finalizePhase kind (in_timing inp) d (sgs_Data sgs') s1
                      | Finished (None, None) => Crashed
                      | Finished (_, Some e) =>
                          Finished (compensate (sk_identifier kind d) s1,
                                    Some (EWrap e "signature distribution phase error occurred"))
                      | StillWaiting r => StillWaiting (s1, None)
                      | Blocked => Blocked
                      | Crashed => Crashed
                      end
                  end
              | _ => Crashed
              end
          end
      end
  end.

End signing.

Arguments sk_identifier {_ _} _ _.
Arguments sk_sigData {_ _} _ _.
Arguments sk_named_result {_ _} _.
Arguments sk_finalize {_ _} _ _ _ _.
Arguments in_consensus {_} _.
Arguments in_signature {_} _ _.
Arguments in_init {_} _.
Arguments in_relays {_} _.
Arguments in_timing {_} _.

(** ** Lemmas *)

Section lemmas.
Context `{SigLib, Bech32, Crypto} {St : Type} `{!DepositsQ St, !DepositsSpec St}.
Implicit Types (s : St).

(** All the data is signed by the group key. *)
Definition all_verified (pk : ECDSAPub) (sigData : list bytes) (sgs : list (option SignatureData)) :=
  Forall2 (λ data o, ∃ sg, o = Some sg ∧
    ecdsa_Verify pk (big_Bytes (be_Z data)) (be_Z (sd_R sg)) (be_Z (sd_S sg)) = true) sigData sgs.

Lemma validate_Ok pk sigData o :
  dist_validateSignatures pk sigData o = Ok tt →
  ∃ sgs, o = Some sgs ∧ all_verified pk sigData (sgs_Data sgs).
Proof.
  unfold dist_validateSignatures. destruct o as [[sgs]|]; [|done]. simpl.
  destruct (Nat.eqb_spec (length sgs) (length sigData)) as [Hl|]; simpl; [|done].
  intros Hv. exists {| sgs_Data := sgs |}. split; [done|]. simpl.
  revert sigData Hl Hv. induction sgs as [|o sgs IH]; intros [|data sigData]; simpl; try done.
  { intros _ _. constructor. }
  intros [= Hl] Hv. apply bind_Ok in Hv as (ok & Hver & Hv).
  unfold Verify in Hver. destruct o as [sg|]; [|done]. injection Hver as <-.
  destruct (ecdsa_Verify _ _ _ _) eqn:He; [|done].
  constructor; [eauto|]. by apply IH.
Qed.

Lemma runDistribution_sound d sgs sigData init relays r :
  runDistribution d sgs sigData init relays = Finished (r, None) →
  ∃ x, r = Some x ∧ all_verified (di_sigPubKey d) sigData (sgs_Data x).
Proof.
  assert (∀ o v msg, of_validation o v msg = Finished (r, None) → v = Ok tt ∧ o = r) as Hof.
  { intros o [[]| |] msg; simpl; naive_solver. }
  unfold runDistribution, distribute, receive. case_bool_decide.
  - destruct sgs as [x|]; [|done].
    destruct (Broadcast.Broadcast _ _ _ _) as [[[b outs] []]| |]; try done.
    intros [Hv <-]%Hof. by apply validate_Ok.
  - destruct init as [msg|]; [|done].
    destruct (EnsureValid _ _ _ _ _ _) as [[[[b outs] []]| |]|]; try done.
    intros [Hv <-]%Hof. by apply validate_Ok.
Qed.

(** The database operations of a session, seen through the interface. *)
Lemma UpdateStatus_view s i st :
  inv s → ∃ s', q_UpdateStatus i st s = Ok s' ∧ inv s' ∧
    view s' = alter (set_WithdrawalStatus st) i (view s).
Proof.
  intros Hinv. pose proof (UpdateStatus_spec s i st Hinv) as Hs.
  destruct (q_UpdateStatus i st s) as [s'| |] eqn:Hq; try done. injection Hs as Hs.
  exists s'. split; [done|]. split; [|done]. eapply update_inv; [done|]. naive_solver.
Qed.

Lemma compensate_view s i :
  inv s → inv (compensate i s) ∧
  view (compensate i s) = alter (set_WithdrawalStatus WS_FAILED) i (view s).
Proof.
  intros Hinv. unfold compensate.
  by destruct (UpdateStatus_view s i WS_FAILED Hinv) as (s' & -> & ? & ?).
Qed.

(** The row of [i] becomes [f] of itself, all other rows stay. *)
Definition touches (i : DepositIdentifier) (P : Deposit → Prop) (m m' : Store) : Prop :=
  (∀ j, j ≠ i → m' !! j = m !! j) ∧
  ∀ row, m !! i = Some row → ∃ row', m' !! i = Some row' ∧ P row'.

Lemma touches_alter i f (P : Deposit → Prop) m m0 :
  (∀ j, j ≠ i → m !! j = m0 !! j) → (∀ row, m0 !! i = Some row → is_Some (m !! i)) →
  (∀ row, P (f row)) → touches i P m0 (alter f i m).
Proof.
  intros Hj Hi Hf. split.
  - intros j Hne. rewrite lookup_alter_ne by done. by apply Hj.
  - intros row Hrow. destruct (Hi row Hrow) as [r Hr].
    exists (f r). rewrite lookup_alter_eq, Hr. done.
Qed.

(** The update of a row that stores a signature and no transaction. *)
Lemma UpdateProcessed_view s i str :
  inv s → ∃ s', q_UpdateProcessed {| pd_Identifier := i; pd_Signature := Some str; pd_TxHash := None;
                                     pd_TxData := None |} s = Ok s' ∧ inv s' ∧
    view s' = alter (λ d, set_WithdrawalStatus WS_PROCESSED (set_Signature (Some str) d)) i (view s).
Proof.
  intros Hinv. set (data := {| pd_Identifier := i |}).
  pose proof (UpdateProcessed_spec s data Hinv) as Hu. unfold spec_update_hash in Hu. simpl in Hu.
  assert (∃ s1, q_UpdateProcessed data s = Ok s1 ∧ view s1 = alter (Pg.processed_update data) i (view s))
    as (s1 & Hq & Hv).
  { destruct (q_UpdateProcessed data s) as [s1| |]; destruct (view s !! i) eqn:Hl; simpl in Hu; try done;
      injection Hu as Hu; exists s1; split; try done.
    rewrite alter_id; [done|]. intros x. by rewrite Hl. }
  exists s1. split; [done|]. split; [|done]. eapply update_inv; [done|]. naive_solver.
Qed.

Lemma hw_finalize_view k (data : HashWithdrawalData k) sg s s' e :
  inv s → hw_finalize data sg s = Ok (s', e) →
  e = None ∧ inv s' ∧ ∃ sg0 str, sg = Some sg0 ∧ convertSignature k sg0 = Ok str ∧
    view s' = alter (λ d, set_WithdrawalStatus WS_PROCESSED (set_Signature (Some str) d))
                (hw_DepositIdentifier data) (view s).
Proof.
  intros Hinv. unfold hw_finalize. destruct sg as [sg|]; [|done].
  intros Hf. apply bind_Ok in Hf as (str & Hstr & Hf).
  destruct (UpdateProcessed_view s (hw_DepositIdentifier data) str Hinv) as (s1 & Hq & Hinv1 & Hv).
  rewrite Hq in Hf. injection Hf as <- <-. split_and!; [done..|]. by exists sg, str.
Qed.

End lemmas.

(** ** Theorems *)

Section theorems.
Context `{SigLib, Bech32, Crypto} {St : Type} `{!DepositsQ St, !DepositsSpec St}.
Implicit Types (s : St).

(** C6: Whatever the distributor of a session sends, signatures that a node ends up
    with after the distribution phase are as many as the data to sign and each
    verifies under the group key. *)
Theorem distribution_sound d sgs sigData init relays r :
  runDistribution d sgs sigData init relays = Finished (r, None) →
  ∃ x, r = Some x ∧ length (sgs_Data x) = length sigData ∧
       all_verified (di_sigPubKey d) sigData (sgs_Data x).
Proof.
  intros Hr. apply runDistribution_sound in Hr as (x & -> & Hall). exists x.
  split_and!; [done| |done]. symmetry. by eapply Forall2_length.
Qed.

(** C15: The life cycle of a withdrawal in one EVM, Solana or TON session.  A session
    without error and with data ends with the deposit PROCESSED and a stored
    signature made from one that verifies for the data under the group key; a
    session that fails after the consensus ends with it FAILED, except that a
    finalizer that writes after its time-out turns it PROCESSED after all; no
    other deposit changes, and without data nothing changes. *)
Theorem runSession_lifecycle k dist (inp : SessionInput (HashWithdrawalData k)) s s' err :
  inv s → runSession (hw_kind k) dist inp s = Finished (s', err) →
  match r_err (in_consensus inp), r_sigData (in_consensus inp) with
  | None, Some d =>
      match err with
      | None => ∃ sg str p, hw_ProposalData d = Some p ∧
          ecdsa_Verify (di_sigPubKey dist) (big_Bytes (be_Z (hp_SigData p)))
            (be_Z (sd_R sg)) (be_Z (sd_S sg)) = true ∧
          convertSignature k sg = Ok str ∧
          touches (hw_DepositIdentifier d)
            (λ row, d_WithdrawalStatus row = WS_PROCESSED ∧ d_Signature row = Some str)
            (view s) (view s')
      | Some _ =>
          touches (hw_DepositIdentifier d)
            (λ row, d_WithdrawalStatus row = WS_FAILED ∨
                    (in_timing inp = TimedOutThenWrites ∧ d_WithdrawalStatus row = WS_PROCESSED))
            (view s) (view s')
      end
  | _, _ => s' = s
  end.
Proof.
  intros Hinv. unfold runSession.
  destruct (r_err (in_consensus inp)); [naive_solver|].
  destruct (r_sigData (in_consensus inp)) as [d|]; [|naive_solver].
  cbn [sk_identifier hw_kind]. set (i := hw_DepositIdentifier d).
  destruct (UpdateStatus_view s i WS_PROCESSING Hinv) as (s1 & -> & Hinv1 & Hv1).
  destruct (compensate_view s1 i Hinv1) as [Hinv2 Hv2].
  assert (∀ P f m, m = view s1 ∨ m = view (compensate i s1) → (∀ row, P (f row)) →
    touches i P (view s) (alter f i m)) as Htouch.
  { intros P f m Hm Hf. apply touches_alter; [| |done].
    - intros j Hne. destruct Hm as [->| ->]; rewrite ?Hv2, ?Hv1, ?lookup_alter_ne by done; done.
    - intros row Hrow. destruct Hm as [->| ->]; rewrite ?Hv2, ?Hv1, ?lookup_alter_eq, Hrow; eauto. }
  destruct (sk_sigData (hw_kind k) d) as [sigData| |] eqn:Hsd; [|done..].
  simpl in Hsd. destruct (hw_ProposalData d) as [p|]; [|done]. injection Hsd as <-.
  destruct (match r_signers (in_consensus inp) with Some _ => _ | None => _ end) as [sgs|]; cbv zeta;
    [|cbn [sk_named_result]; intros [= <- <-]; rewrite Hv2; apply Htouch; auto].
  destruct (runDistribution _ _ _ _ _) as [|[[sgs'|] [e|]]| |] eqn:Hd; try done.
  2: { apply runDistribution_sound in Hd as (x & Hx & Hall). injection Hx as <-.
    destruct (sgs_Data sgs') as [|o [|? ?]]; inversion Hall as [|? ? ? ? (sg & -> & Hver) Hnil];
      [|inversion Hnil]. subst.
    unfold finalizePhase. destruct (in_timing inp) eqn:Ht.
    - destruct (sk_finalize _ d _ s1) as [[s2 e2]| |] eqn:Hfin; try done.
      change (hw_finalize d (Some sg) s1 = Ok (s2, e2)) in Hfin.
      eapply hw_finalize_view in Hfin
        as (-> & Hinv3 & sg0 & str & Hsg & Hconv & Hv3); [|done]. injection Hsg as <-.
      intros [= <- <-]. exists sg, str, p. split_and!; [done..|].
      rewrite Hv3. apply Htouch; auto.
    - destruct (sk_finalize _ d _ s1) as [[s2 e2]| |] eqn:Hfin; try done.
      change (hw_finalize d (Some sg) s1 = Ok (s2, e2)) in Hfin.
      eapply hw_finalize_view in Hfin as (-> & Hinv3 & sg0 & str & Hsg & Hconv & Hv3); [|done].
      intros [= <- <-]. cbn [sk_identifier hw_kind]. fold i. destruct (compensate_view s2 i Hinv3) as [_ ->].
      rewrite Hv3. apply touches_alter; [| |by left].
      + intros j Hj. by rewrite lookup_alter_ne, Hv1, lookup_alter_ne.
      + intros row Hrow. rewrite lookup_alter_eq, Hv1, lookup_alter_eq, Hrow. eauto.
    - destruct (sk_finalize _ d _ _) as [[s2 e2]| |] eqn:Hfin; try done.
      change (hw_finalize d (Some sg) (compensate i s1) = Ok (s2, e2)) in Hfin.
      eapply hw_finalize_view in Hfin
        as (-> & Hinv3 & sg0 & str & Hsg & Hconv & Hv3); [|done].
      intros [= <- <-]. rewrite Hv3. apply Htouch; auto.
    - intros [= <- <-]. cbn [sk_identifier hw_kind]. fold i. rewrite Hv2. apply Htouch; auto. }
  all: intros [= <- <-]; rewrite Hv2; apply Htouch; auto.
Qed.

(** The Zano session declares no named result, so the error of a failed signing
    phase never reaches the deferred compensation: the deposit stays PROCESSING,
    a status from which no later session or message takes it up again. *)
Theorem zano_signing_failure_stuck leader sent dist (inp : SessionInput ZanoWithdrawalData) s d p signers :
  inv s →
  r_err (in_consensus inp) = None → r_sigData (in_consensus inp) = Some d →
  r_signers (in_consensus inp) = Some signers → zw_ProposalData d = Some p →
  in_signature inp (zp_SigData p) = None →
  ∃ s' e, runSession (zano_kind leader sent) dist inp s = Finished (s', Some e) ∧
    touches (zw_DepositIdentifier d) (λ row, d_WithdrawalStatus row = WS_PROCESSING)
      (view s) (view s').
Proof.
  intros Hinv He Hd Hs Hp Hsig. unfold runSession. rewrite He, Hd, Hs. cbn [sk_identifier zano_kind].
  destruct (UpdateStatus_view s (zw_DepositIdentifier d) WS_PROCESSING Hinv) as (s1 & -> & _ & Hv).
  simpl. rewrite Hp. simpl. rewrite Hsig. simpl. do 2 eexists. split; [done|].
  rewrite Hv. apply touches_alter; [done|naive_solver|done].
Qed.

(** The verification covers only R and S, the stored signature is made of the
    other two fields.  The distributor of a session can replace these in a valid
    signature: the nodes still accept it, and the EVM finalizer panics on it. *)
Theorem unverified_signature_crashes pk data sg (d : EvmWithdrawalData) s :
  dist_validateSignatures pk [data] (Some {| sgs_Data := [Some sg] |}) = Ok tt →
  let forged := {| sd_Signature := []; sd_SignatureRecovery := []; sd_R := sd_R sg;
                   sd_S := sd_S sg; sd_M := sd_M sg |} in
  dist_validateSignatures pk [data] (Some {| sgs_Data := [Some forged] |}) = Ok tt ∧
  sk_finalize (hw_kind EvmData) d [Some forged] s = Panic.
Proof. intros Hv. split; [exact Hv|reflexivity]. Qed.

End theorems.

(** ** Concrete instances and witnesses *)

Module SampleSigning.
#[export] Existing Instance sample_bech32.
#[export] Existing Instance sample_crypto.

(** A signature is valid when its R is 1. *)
#[export] Instance lib : SigLib := {|
  ECDSAPub := unit;
  ecdsa_Verify := λ _ _ r _, r =? 1;
  hexutil_Encode := string_of_bytes;
  marshal_signature := λ sg, sd_Signature sg ++ sd_R sg;
  hex_sha256 := string_of_bytes;
  encode_zano_tx := λ a b c d, (a +:+ b +:+ c +:+ d)%string |}.

Definition signature : SignatureData :=
  {| sd_Signature := replicate 64 Byte.x41; sd_SignatureRecovery := [Byte.x01];
     sd_R := [Byte.x01]; sd_S := [Byte.x02]; sd_M := [] |}.

(** The leader of a session of two parties (no faulty party: one relay round). *)
Definition distributor : SignaturesDistributor :=
  NewSignaturesDistributor "S" [sample_party "p"] (sample_account "o") tt 1 "o".

Definition row : Deposit :=
  ToNewDeposit
    {| dd_ident := {| TxHash := "0xabc"; TxNonce := 2; ChainId := "1" |};
       dd_Block := 100; dd_SourceAddress := "0xA"; dd_DepositAmount := 12345;
       dd_TokenAddress := "0xT"; dd_ReferralId := 3;
       dd_DestinationAddress := "0xr"; dd_DestinationChainId := "56" |}
    12000 345 "0xT" true.
Definition table : Table := (Pg.Insert row empty_table).1.

Lemma table_inv : inv (St:=Table) table.
Proof.
  eapply (db_step_wf empty_table); [split; simpl; constructor|].
  eapply (step_Insert row). apply surjective_pairing.
Qed.

Definition msg_id : MsgDepositIdentifier :=
  {| md_TxHash := "0xabc"; md_TxNonce := 2; md_ChainId := "1" |}.

Definition data : EvmWithdrawalData :=
  {| hw_ProposalData := Some {| hp_DepositId := Some msg_id; hp_SigData := [Byte.x07] |};
     hw_SignedWithdrawal := "" |}.

Definition zano_data : ZanoWithdrawalData :=
  {| zw_ProposalData := Some
       {| zp_DepositId := Some msg_id; zp_OutputsAddresses := []; zp_UnsignedTx := "u";
          zp_FinalizedTx := "f"; zp_TxSecretKey := ""; zp_TxId := "ab"; zp_SigData := [Byte.x07] |} |}.

Definition input {T} (d : T) (sg : option SignatureData) : SessionInput T :=
  {| in_consensus := {| r_sigData := Some d; r_signers := Some [sample_party "p"]; r_err := None |};
     in_signature := λ _, sg; in_init := None; in_relays := no_relays; in_timing := InTime |}.
End SampleSigning.

Section witnesses.
Import SampleSigning.

Lemma distribution_sound_witness :
  ∃ x, runDistribution distributor (Some {| sgs_Data := [Some signature] |}) [[Byte.x07]] None no_relays
       = Finished (Some x, None) ∧ length (sgs_Data x) = 1%nat.
Proof.
  destruct (runDistribution distributor (Some {| sgs_Data := [Some signature] |}) [[Byte.x07]] None
              no_relays) as [|[r e]| |] eqn:E; [vm_compute in E; discriminate| |vm_compute in E; discriminate..].
  assert (e = None) as -> by (vm_compute in E; congruence).
  destruct (distribution_sound _ _ _ _ _ _ E) as (x & -> & Hl & _).
  exists x. split; [reflexivity|exact Hl].
Defined.

Lemma runSession_lifecycle_witness :
  ∃ (s' : Table) row', runSession (hw_kind EvmData) distributor (input data (Some signature)) table
                       = Finished (s', None) ∧
    table_view s' !! d_ident row = Some row' ∧ d_WithdrawalStatus row' = WS_PROCESSED.
Proof.
  destruct (runSession (hw_kind EvmData) distributor (input data (Some signature)) table)
    as [|[s' e]| |] eqn:E; [vm_compute in E; discriminate| |vm_compute in E; discriminate..].
  assert (e = None) as -> by (vm_compute in E; congruence).
  pose proof (runSession_lifecycle EvmData distributor (input data (Some signature)) table s' None
                table_inv E) as Hl.
  destruct Hl as (sg & str & p & _ & _ & _ & _ & Hrow).
  destruct (Hrow (inserted_row 1 row)) as (row' & Hr & Hst & _); [vm_compute; reflexivity|].
  exists s', row'. split; [reflexivity|]. split; [exact Hr|exact Hst].
Defined.

Lemma zano_signing_failure_stuck_witness :
  ∃ (s' : Table) e row', runSession (zano_kind true None) distributor (input zano_data None) table
                         = Finished (s', Some e) ∧
    table_view s' !! d_ident row = Some row' ∧ d_WithdrawalStatus row' = WS_PROCESSING.
Proof.
  destruct (zano_signing_failure_stuck (St:=Table) true None distributor (input zano_data None) table
              zano_data
              {| zp_DepositId := Some msg_id; zp_OutputsAddresses := []; zp_UnsignedTx := "u";
                 zp_FinalizedTx := "f"; zp_TxSecretKey := ""; zp_TxId := "ab";
                 zp_SigData := [Byte.x07] |} [sample_party "p"])
    as (s' & e & Hr & _ & Hrow);
    [exact table_inv|reflexivity|reflexivity|reflexivity|reflexivity|reflexivity|].
  destruct (Hrow (inserted_row 1 row)) as (row' & Hr' & Hst); [vm_compute; reflexivity|].
  exists s', e, row'. split; [exact Hr|]. split; [exact Hr'|exact Hst].
Defined.

Lemma unverified_signature_crashes_witness :
  sk_finalize (hw_kind EvmData) data
    [Some {| sd_Signature := []; sd_SignatureRecovery := []; sd_R := [Byte.x01];
             sd_S := [Byte.x02]; sd_M := [] |}] table = Panic.
Proof.
  apply (unverified_signature_crashes (H:=lib) (St:=Table) (tt : @ECDSAPub lib) [Byte.x07] signature data table).
  vm_compute. reflexivity.
Defined.

End witnesses.
