(* ===== verification/Network.v ===== *)
(** * A session of the whole group

    The nodes of a group run one session: the consensus with its two reliable broadcasts
    ([Delivery], [Consensus]), the distribution of the signatures and the finalization
    ([Signing]).  [consensus_Run] is [Run] of [internal/tss/session/consensus/consensus.go]
    and [node_session] its composition with the session that [signing/*/session.go] runs.
    The theorem is the liveness of a session between honest nodes whose messages arrive:
    every node of the group, signer or not, ends with the deposit PROCESSED. *)

From S2P Require Import Prelude Core Session Deposits Broadcast Delivery Consensus Fetcher Withdrawal Mechanism Signing.
#[local] Open Scope Z_scope.

(** ** One node *)

Section node.
Context `{Bech32, Crypto, RandSource, SignStartEncoding}.
Context {St T : Type} `{!Hashable T, !Mechanism St T}.
Context `{!GobMessage T, !GobMessage SignStartData}.

(** [Run] and [WaitFor] of the consensus: the proposer proposes, the others accept. *)
Definition consensus_Run (c : Consensus (T:=T)) (net : Transport) (order : list Address → list Address)
    (prop_in : RelayInput T) (start_in : RelayInput SignStartData)
    (collected : list ProposeEvent) (events : list (option consensusMsg)) (s : St)
    : Outcome (St * Result (T:=T)) :=
  if bool_decide (co_proposer c = CosmosAddress (co_self c)) then
    match propose c order (ri_arriving prop_in) (ri_arriving start_in) collected s with
    | Finished r => Finished (s, r)
    | StillWaiting r => StillWaiting (s, r)
    | Blocked => Blocked
    | Crashed => Crashed
    end
  else accept c net prop_in start_in events s.

(** What a node reads in the phases of one session. *)
Record NodeInput := {
  ni_net : Transport; ni_order : list Address → list Address;
  ni_prop : RelayInput T; ni_start : RelayInput SignStartData;
  ni_collected : list ProposeEvent; ni_events : list (option consensusMsg);
  ni_signature : bytes → option SignatureData;
  ni_init : option (ReliableBroadcastMsg Signatures); ni_relays : RelayInput Signatures;
  ni_timing : FinalizeTiming }.

Context `{SigLib, !DepositsQ St}.

(** [runSession] with the result of the consensus phase. *)
Definition node_session (kind : SessionKind (St:=St) T) (c : Consensus (T:=T)) (dist : SignaturesDistributor)
    (inp : NodeInput) (s : St) : Outcome (St * option error) :=
  match consensus_Run c (ni_net inp) (ni_order inp) (ni_prop inp) (ni_start inp) (ni_collected inp)
          (ni_events inp) s with
  | Finished (s, r) =>
      runSession kind dist
        {| in_consensus := r; in_signature := ni_signature inp; in_init := ni_init inp;
           in_relays := ni_relays inp; in_timing := ni_timing inp |} s
  | StillWaiting (s, _) => StillWaiting (s, None)
  | Blocked => Blocked
  | Crashed => Crashed
  end.

End node.
Arguments NodeInput : clear implicits.

(** ** The group *)

Section network.
Context `{Bech32, Crypto, RandSource, SignStartEncoding, SigLib}.
Context {St T : Type} `{!Hashable T, !Mechanism St T, !DepositsQ St}.
Context `{!GobMessage T, !GobMessage SignStartData}.
Variables (g : list GroupNode) (sid : string) (th : Z) (leader : GroupNode).

(** The bound on faulty parties that every node computes. *)
Definition group_f : Z := MaxMaliciousParties (Z.of_nat (length g)) th.

Definition co_of (n : GroupNode) : Consensus (T:=T) :=
  New (gn_account n) sid th (parties_of g (gn_addr n)) (gn_addr leader).
Definition dist_of (pub : ECDSAPub) (n : GroupNode) : SignaturesDistributor :=
  NewSignaturesDistributor sid (parties_of g (gn_addr n)) (gn_account n) pub th (gn_addr leader).

(** The reads of a broadcast from the leader: messages of the group, with room in the
    channel, and a chain of f+1 signers among them. *)
Definition delivered {U} `{!Hashable U} (n : GroupNode) (v : U) (m : ReliableBroadcastMsg U)
    (relays : RelayInput U) : Prop :=
  let msgs := take (ri_budget relays) (ri_queued relays ++ m :: ri_arriving relays) in
  sent g sid group_f leader (Some v) m ∧ rm_Round (bm_Msg m) = 0 ∧
  (length (ri_queued relays) < defaultChanCapacity)%nat ∧
  honest_reads g sid group_f leader n (Some v) msgs ∧ heard (rb_of (T:=U) g sid group_f n).1 msgs.

(** The leader reads relays of its own broadcast. *)
Definition acknowledged {U} `{!Hashable U} (v : U) (relays : list (ReliableBroadcastMsg U)) : Prop :=
  honest_reads g sid group_f leader leader (Some v) relays ∧
  (group_f = 0 ∨ heard (rb_of (T:=U) g sid group_f leader).1 relays).

(** Messages that an acceptor skips. *)
Definition noise (e : option consensusMsg) : Prop :=
  ∃ m, e = Some m ∧ (cm_Sender m ≠ gn_addr leader ∨ (cm_Type m ≠ RT_PROPOSAL ∧ cm_Type m ≠ RT_SIGN_START)).

(** The consensus message that a broadcast of the leader becomes at node [n]. *)
Definition arrives {U} `{!GobMessage U} `{!Hashable U} (n : GroupNode) (type : RequestType)
    (m : ReliableBroadcastMsg U) (msg : consensusMsg) : Prop :=
  Consensus.Receive (co_of n)
    (Some (broadcastMsg EncodeRoundMessage type (rb_of (T:=U) g sid group_f leader).1 (bm_Msg m)))
    = Ok (ToMsgs msg) ∧
  (* the codec of the message round trips *)
  DecodeRoundMessage (EncodeRoundMessage (bm_Msg m)) = Some (bm_Msg m).

(** An acceptor that reads the proposal of [d] and then the announcement of the group. *)
Definition acceptor_reads (n : GroupNode) (d : T) (group : list Address) (inp : NodeInput T) : Prop :=
  (∀ rq a, ni_net inp rq a = true) ∧
  ∃ mp msgp ms msgs l1 l2 l3,
    ni_events inp = l1 ++ Some msgp :: l2 ++ Some msgs :: l3 ∧ Forall noise l1 ∧ Forall noise l2 ∧
    arrives (U:=T) n RT_PROPOSAL mp msgp ∧ delivered n d mp (ni_prop inp) ∧
    arrives (U:=SignStartData) n RT_SIGN_START ms msgs ∧
    delivered n (Some group : SignStartData) ms (ni_start inp).

(** The acceptance of a node as the leader receives it. *)
Definition acceptance_of (n : GroupNode) : ProposeEvent :=
  PMsg {| cm_Sender := gn_addr n; cm_Type := RT_ACCEPTANCE; cm_Data := Some (AnyAcceptanceData true) |}.

End network.

(** ** The consensus phase *)

Section consensus.
Context `{Bech32, Crypto, RandSource, SignStartEncoding}.
Context {St T : Type} `{!Hashable T, !Mechanism St T}.
Context `{!GobMessage T, !GobMessage SignStartData}.
Context (g : list GroupNode) (sid : string) (th : Z) (leader : GroupNode).
Hypothesis Hg : honest_group g.
Hypothesis Hleader : leader ∈ g.
Hypothesis Hth : 0 ≤ th.
Hypothesis Hf : 0 ≤ group_f g th < max_int64.
#[local] Notation co := (co_of (T:=T) g sid th leader).

Lemma co_of_proposal n : n ∈ g → co_proposalBroadcaster (co n) = rb_of g sid (group_f g th) n.
Proof. intros Hn. unfold co_of, New, rb_of, group_f. simpl. by rewrite length_parties_of. Qed.

Lemma co_of_start n : n ∈ g → co_signStartBroadcaster (co n) = rb_of g sid (group_f g th) n.
Proof. intros Hn. unfold co_of, New, rb_of, group_f. simpl. by rewrite length_parties_of. Qed.

Lemma co_of_party n a :
  a ∈ gn_addr <$> g → a ≠ gn_addr n → ∃ p, co_parties (co n) !! a = Some p ∧ CoreAddress p = a.
Proof.
  intros Ha Hne. assert (is_Some (co_parties (co n) !! a)) as [p Hp]
    by (apply partiesByAddress_is_Some, elem_parties_of; done).
  exists p. split; [done|]. by apply (partiesByAddress_lookup (parties_of g (gn_addr n))).
Qed.

Lemma addr_in_group n : n ∈ g → gn_addr n ∈ gn_addr <$> g.
Proof. intros Hn. apply list_elem_of_fmap. eauto. Qed.

(** The acceptance of a node reaches the leader's loop. *)
Lemma acceptance_arrives n :
  n ∈ g → gn_addr n ≠ gn_addr leader →
  (m ← Consensus.Receive (co leader) (Some (acceptanceRequest (co n) true));
   match m with ToMsgs m => Ok (PMsg m) | _ => Panic end) = Ok (acceptance_of n).
Proof.
  intros Hn Hne. unfold Consensus.Receive. cbn [acceptanceRequest rq_SessionId rq_Sender rq_Type rq_Data].
  rewrite bool_decide_true by done. cbn [negb].
  destruct (proj1 (Forall_forall _ _) (hg_decodes g Hg) n Hn) as [bs Hbs].
  assert (Addr.FromString (gn_addr n) = Ok (gn_addr n)) as Ha by (apply Addr.FromString_Ok; eauto).
  change (CosmosAddress (co_self (co n))) with (gn_addr n). rewrite Ha.
  destruct (co_of_party leader (gn_addr n) (addr_in_group n Hn) Hne) as (p & Hp & _).
  revert Hp. generalize (co_parties (co leader)) as P. intros P Hp. cbn. by rewrite Hp.
Qed.

(** What [Receive] hands to the loop of an acceptor. *)
Lemma arrives_msg {U} `{!GobMessage U, !Hashable U} n type (m : ReliableBroadcastMsg U) msg :
  arrives (T:=T) g sid th leader n type m msg →
  msg = {| cm_Sender := gn_addr leader; cm_Type := type;
           cm_Data := Some (AnyReliableBroadcastData (EncodeRoundMessage (bm_Msg m))) |} ∧
  decodeData U (cm_Data msg) = Ok (bm_Msg m).
Proof.
  intros [Hr Hdec].
  assert (msg = {| cm_Sender := gn_addr leader; cm_Type := type;
           cm_Data := Some (AnyReliableBroadcastData (EncodeRoundMessage (bm_Msg m))) |}) as ->.
  { unfold Consensus.Receive in Hr. cbn [broadcastMsg rq_SessionId rq_Sender rq_Type rq_Data] in Hr.
    destruct (negb _); [done|]. apply bind_Ok in Hr as (a & Ha & Hr). apply wrap_Ok in Ha.
    apply Addr.FromString_Ok in Ha as [-> _]. destruct (co_parties _ !! _); [|done].
    destruct type; try done; repeat (apply bind_Ok in Hr as (? & _ & Hr)); repeat case_match; try done;
      by injection Hr as <-. }
  split; [done|]. unfold decodeData. simpl. by rewrite Hdec.
Qed.

Lemma delivered_valid {U} `{!Hashable U} n (v : U) m relays :
  n ∈ g → delivered g sid th leader n v m relays →
  (∃ b outs, EnsureValid (rb_of (T:=U) g sid (group_f g th) n).1 m (ri_queued relays) (ri_arriving relays)
     (ri_budget relays) (rb_of (T:=U) g sid (group_f g th) n).2 = Some (Ok (b, outs, true))) ∧
  bm_Sender m = gn_addr leader ∧ rm_Value (bm_Msg m) = Some v.
Proof.
  intros Hn (Hsent & Hround & Hq & Hreads & Hheard).
  pose proof (round_zero_sender g sid (group_f g th) Hg Hf leader (Some v) m Hleader Hsent) as Hs.
  pose proof (sent_is_ok g sid (group_f g th) Hg Hf leader (Some v) m Hleader Hsent) as Hok.
  split_and!; [|apply Hs; lia|apply Hok].
  destruct (honest_EnsureValid g sid (group_f g th) Hg Hf leader (Some v) n m (ri_queued relays)
    (ri_arriving relays) (ri_budget relays)) as (b & outs & He & _); [done|done|apply Hs; lia|done..|]. eauto.
Qed.

Lemma skip_noise c net prop_in start_in l events acc (s : St) (r : Result (T:=T)) :
  co_proposer c = gn_addr leader → Forall (noise leader) l →
  accept_loop c net prop_in start_in (l ++ events) acc s r = accept_loop c net prop_in start_in events acc s r.
Proof.
  intros Hc. induction 1 as [|e l (m & -> & Hm) _ IH]; [done|]. simpl. rewrite Hc.
  case_bool_decide; simpl; [|done]. destruct Hm as [?|[? ?]]; [done|]. by destruct (cm_Type m).
Qed.

(** The parties of an announced group. *)
Lemma selectParties_group n (selected : list Address) (distinct : gset string) :
  n ∈ g → NoDup selected → Forall (λ a, a ∈ gn_addr <$> g) selected → Forall (λ a, a ∉ distinct) selected →
  ∃ ps sp, selectParties (co n) selected distinct = Ok (ps, sp).
Proof.
  intros Hn. revert distinct. induction selected as [|a rest IH]; intros distinct; cbn [selectParties]; [eauto|].
  intros [Ha Hnd]%NoDup_cons [Hag Hrest]%Forall_cons [Had Hdis]%Forall_cons.
  rewrite bool_decide_false by done.
  destruct (IH ({[a]} ∪ distinct)) as (ps & sp & Hrec); [done|done| |].
  { apply Forall_forall. intros b Hb. apply not_elem_of_union.
    split; [|by apply (proj1 (Forall_forall _ _) Hdis)]. intros ->%elem_of_singleton. done. }
  change (CosmosAddress (co_self (co n))) with (gn_addr n).
  case_bool_decide; [rewrite Hrec; simpl; eauto|].
  apply list_elem_of_fmap in Hag as Hag'. destruct Hag' as (x & Hx & Hxg).
  destruct (proj1 (Forall_forall _ _) (hg_decodes g Hg) x Hxg) as [bs Hbs].
  assert (Addr.FromString a = Ok a) as -> by (apply Addr.FromString_Ok; rewrite Hx; eauto).
  destruct (co_of_party n a) as (p & Hp & _); [done..|].
  cbn [wrap mbind res_bind]. rewrite Hp, Hrec. simpl. eauto.
Qed.

(** The acceptor's result: the data, and the signers iff it is one of them. *)
Definition accepted_result (n : GroupNode) (d : T) (group : list Address) (r : Result (T:=T)) : Prop :=
  r_err r = None ∧ r_sigData r = Some d ∧ (is_Some (r_signers r) ↔ gn_addr n ∈ group) ∧
  ∀ ps, r_signers r = Some ps → gn_addr n :: (CoreAddress <$> ps) ≡ₚ group.

Lemma honest_accept n (d : T) group inp (s s' : St) :
  n ∈ g → gn_addr n ≠ gn_addr leader → NoDup group → group ≠ [] → Forall (λ a, a ∈ gn_addr <$> g) group →
  VerifyProposedData d s = (s', Ok tt) → acceptor_reads g sid th leader n d group inp →
  ∃ r, accept (co n) (ni_net inp) (ni_prop inp) (ni_start inp) (ni_events inp) s = Finished (s', r) ∧
    accepted_result n d group r.
Proof.
  intros Hn Hne Hnd Hnil Hgroup Hver (Hnet & mp & msgp & ms & msgs & l1 & l2 & l3 & Hev & Hl1 & Hl2 &
    Hap & Hdp & Has & Hds).
  apply arrives_msg in Hap as [Hmsgp Hdecp]. apply arrives_msg in Has as [Hmsgs Hdecs].
  apply delivered_valid in Hdp as ((bp & op & Hvp) & Hsp & Hvalp); [|done].
  apply delivered_valid in Hds as ((bs & os & Hvs) & Hss & Hvals); [|done].
  unfold accept. rewrite Hev, skip_noise by done. simpl.
  rewrite bool_decide_true by by subst.
  assert (cm_Type msgp = RT_PROPOSAL) as -> by by subst. simpl.
  unfold handleProposalMsg. rewrite Hdecp, co_of_proposal by done.
  replace {| bm_Msg := bm_Msg mp; bm_Sender := cm_Sender msgp |} with mp
    by (rewrite Hmsgp; destruct mp; simpl in *; by subst).
  rewrite Hvp. simpl. rewrite Hvalp, Hver. unfold sendAcceptance, Send.
  destruct (co_of_party n (gn_addr leader)) as (pl & Hpl & _);
    [by apply addr_in_group|by apply not_eq_sym|].
  change (co_proposer (co n)) with (gn_addr leader). rewrite Hpl, Hnet. simpl.
  rewrite skip_noise by done. simpl. rewrite bool_decide_true by by subst.
  assert (cm_Type msgs = RT_SIGN_START) as -> by by subst. simpl.
  unfold handleSignStartMsg. rewrite Hdecs, co_of_start by done.
  replace {| bm_Msg := bm_Msg ms; bm_Sender := cm_Sender msgs |} with ms
    by (rewrite Hmsgs; destruct ms; simpl in *; by subst).
  rewrite Hvs. simpl. rewrite Hvals. cbn [from_option]. unfold id at 1 2.
  destruct (Z.ltb_spec (Z.of_nat (length group) - 1) 0) as [Hlt|_]; [destruct group; simpl in *; [done|lia]|].
  destruct (selectParties_group n group ∅) as (ps & sp & Hsel); [done..|apply Forall_true; set_solver|].
  rewrite Hsel.
  apply selectParties_spec in Hsel as (_ & _ & _ & Hfil & Hself); [|apply New_keyed].
  change (CosmosAddress (co_self (co n))) with (gn_addr n) in *.
  eexists. split; [reflexivity|]. destruct sp; simpl.
  - split_and!; [done..| |].
    + split; [intros _; by apply Hself|eauto].
    + intros ps' [= <-]. simpl. rewrite Hfil. apply NoDup_Permutation; [|done|].
      * constructor; [|by apply NoDup_filter]. rewrite list_elem_of_filter. tauto.
      * intros a. rewrite elem_of_cons, list_elem_of_filter.
        destruct (decide (a = gn_addr n)) as [->|]; [|tauto]. split; [intros _; by apply Hself|by left].
  - split_and!; [done..| |done]. split; [by intros []|]. intros Hin. by apply Hself in Hin.
Qed.

(** The acceptances of the nodes [acc] are counted, each once. *)
Lemma collect_acceptances acc rest m :
  (∀ a v, m !! a = Some v → v = true) →
  ∃ m', (∀ (finish : gmap Address bool → Proposed (T:=T)) r,
           collect finish ((acceptance_of <$> acc) ++ PBoundedDone :: rest) m r = finish m') ∧
    ∀ a, m' !! a = Some true ↔ m !! a = Some true ∨ a ∈ gn_addr <$> acc.
Proof.
  revert m. induction acc as [|n acc IH]; intros m Hm; simpl.
  { exists m. split; [done|]. set_solver. }
  destruct (m !! gn_addr n) as [v|] eqn:Hn.
  - destruct (IH m Hm) as (m' & Hc & Hel). exists m'. split; [done|]. intros a. rewrite Hel, elem_of_cons.
    rewrite (Hm _ _ Hn) in Hn. naive_solver.
  - destruct (IH (<[gn_addr n := true]> m)) as (m' & Hc & Hel).
    { intros a v. rewrite lookup_insert. case_decide; [by intros [= <-]|apply Hm]. }
    exists m'. split; [done|]. intros a. rewrite Hel, elem_of_cons, lookup_insert.
    case_decide; [naive_solver|]. split; [naive_solver|]. intros [?|[->|?]]; [by left|done|by right].
Qed.

Lemma acknowledged_valid {U} `{!Hashable U} (v : U) relays :
  acknowledged g sid th leader v relays →
  ∃ b outs, Broadcast.Broadcast (rb_of (T:=U) g sid (group_f g th) leader).1 (Some v) relays
    (rb_of (T:=U) g sid (group_f g th) leader).2 = Ok (b, outs, true).
Proof.
  intros [Hreads Hheard].
  destruct (honest_Broadcast g sid (group_f g th) Hg Hf leader (Some v) relays) as (b & m0 & outs & Hb & _);
    [done..|]. eauto.
Qed.

(** The leader's result: the data, and as signers T of the nodes that accepted. *)
Lemma honest_propose (d : T) order acc rest prop_relays (s : St) :
  (∀ l, order l ≡ₚ l) → FormProposalData s = Ok (Some d) →
  Forall (λ n, n ∈ g ∧ gn_addr n ≠ gn_addr leader) acc →
  th ≤ Z.of_nat (size (list_to_set (gn_addr <$> acc) : gset Address)) →
  acknowledged g sid th leader d prop_relays →
  ∃ signers, NoDup signers ∧ Z.of_nat (length signers) = th ∧ (∀ a, a ∈ signers → a ∈ gn_addr <$> acc) ∧
    ∀ start_relays,
      acknowledged g sid th leader (Some (signers ++ [gn_addr leader]) : SignStartData) start_relays →
      ∃ ps, CoreAddress <$> ps = signers ∧
        propose (co leader) order prop_relays start_relays ((acceptance_of <$> acc) ++ PBoundedDone :: rest) s
        = Finished {| r_sigData := Some d; r_signers := Some ps; r_err := None |}.
Proof.
  intros Hord Hform Hacc Henough Hprop.
  destruct (collect_acceptances acc rest ∅) as (m & Hcol & Hm); [done|].
  destruct (Acceptors_elem order m Hord) as [Hnd Hel].
  assert (∀ a, a ∈ Acceptors order m ↔ a ∈ gn_addr <$> acc) as Hel'
    by (intros a; rewrite Hel, Hm, lookup_empty; naive_solver).
  assert (length (Acceptors order m) = size (list_to_set (gn_addr <$> acc) : gset Address)) as Hlen.
  { rewrite <- (size_list_to_set (C:=gset Address)) by done. f_equal. apply set_eq. intros a.
    by rewrite !elem_of_list_to_set. }
  destruct (getSignersSet_spec (Acceptors order m) th (DeterministicRandSource sid) Hth)
    as (signers & Hset & Hsub & Hsl).
  assert (∀ a, a ∈ signers → a ∈ gn_addr <$> acc) as Hin.
  { intros a Ha. apply Hel'. eapply elem_of_submseteq; [exact Ha|]. by apply sublist_submseteq. }
  exists signers. split_and!; [by eapply sublist_NoDup|lia|done|].
  intros start_relays Hstart.
  exists ((λ a, default zero_party (co_parties (co leader) !! a)) <$> signers). split.
  { rewrite <- list_fmap_compose. rewrite <- (list_fmap_id signers) at 2.
    apply list_fmap_ext. intros i a Ha%list_elem_of_lookup_2. unfold compose, id.
    apply Hin, list_elem_of_fmap in Ha as (x & -> & Hx).
    destruct (proj1 (Forall_forall _ _) Hacc x Hx) as [Hxg Hne].
    by destruct (co_of_party leader (gn_addr x) (addr_in_group x Hxg) Hne) as (p & -> & ?). }
  unfold propose, propose_sent. rewrite Hform, co_of_proposal by done.
  destruct (acknowledged_valid d prop_relays Hprop) as (b1 & o1 & ->). rewrite Hcol.
  unfold selectSigners. change (co_threshold (co leader)) with th. change (co_sessionId (co leader)) with sid.
  destruct (Z.leb_spec (Z.of_nat (length (Acceptors order m)) + 1) th); [lia|].
  rewrite Hset, co_of_start by done. change (CosmosAddress (co_self (co leader))) with (gn_addr leader).
  by destruct (acknowledged_valid _ start_relays Hstart) as (b2 & o2 & ->).
Qed.

End consensus.

(** ** The session *)

Section settle.
Context `{Bech32, Crypto, RandSource, SignStartEncoding, SigLib}.
Context {St : Type} `{!DepositsQ St, !DepositsSpec St}.
Context (g : list GroupNode) (sid : string) (th : Z) (leader : GroupNode) (pub : ECDSAPub).
Hypothesis Hg : honest_group g.
Hypothesis Hleader : leader ∈ g.
Hypothesis Hf : 0 ≤ group_f g th < max_int64.
#[local] Notation dist := (dist_of g sid th leader pub).

Lemma dist_of_broadcaster n : n ∈ g → di_broadcaster (dist n) = rb_of g sid (group_f g th) n.
Proof.
  intros Hn. unfold dist_of, NewSignaturesDistributor, rb_of, group_f. simpl. by rewrite length_parties_of.
Qed.

(** What a node reads in the distribution phase. *)
Definition distribution_reads (n : GroupNode) (sgs : Signatures)
    (init : option (ReliableBroadcastMsg Signatures)) (relays : RelayInput Signatures) : Prop :=
  if bool_decide (gn_addr n = gn_addr leader) then acknowledged g sid th leader sgs (ri_arriving relays)
  else ∃ m, init = Some m ∧ delivered g sid th leader n sgs m relays.

Lemma honest_distribution n sgs own sigData init relays :
  n ∈ g → dist_validateSignatures pub sigData (Some sgs) = Ok tt →
  (gn_addr n = gn_addr leader → own = Some sgs) → distribution_reads n sgs init relays →
  runDistribution (dist n) own sigData init relays = Finished (Some sgs, None).
Proof.
  intros Hn Hval Hown Hreads. unfold runDistribution, distribution_reads in *.
  change (di_self (dist n)) with (gn_addr n). change (di_distributor (dist n)) with (gn_addr leader).
  case_bool_decide as Hl.
  - rewrite Hown by done. unfold distribute.
    assert (di_broadcaster (dist n) = rb_of g sid (group_f g th) leader) as ->.
    { rewrite dist_of_broadcaster by done. f_equal.
      by apply (addr_inj g). }
    destruct (acknowledged_valid g sid th leader Hg Hleader Hf sgs (ri_arriving relays) Hreads) as (b & outs & ->).
    change (di_sigPubKey (dist n)) with pub. by rewrite Hval.
  - destruct Hreads as (m & -> & Hdel). unfold receive. rewrite dist_of_broadcaster by done.
    destruct (delivered_valid g sid th leader Hg Hleader Hf n sgs m relays Hn Hdel) as ((b & outs & ->) & _ & ->).
    change (di_sigPubKey (dist n)) with pub. by rewrite Hval.
Qed.

(** A session with the data, a signature for a signer, and the distributed signature. *)
Lemma honest_runSession k n (d : HashWithdrawalData k) p r inp sg str own (s : St) :
  inv s → hw_ProposalData d = Some p → in_consensus inp = r →
  r_err r = None → r_sigData r = Some d →
  (is_Some (r_signers r) → in_signature inp (hp_SigData p) = Some own) →
  (gn_addr n = gn_addr leader → is_Some (r_signers r) ∧ own = sg) →
  ecdsa_Verify pub (big_Bytes (be_Z (hp_SigData p))) (be_Z (sd_R sg)) (be_Z (sd_S sg)) = true →
  convertSignature k sg = Ok str → in_timing inp = InTime →
  n ∈ g → distribution_reads n {| sgs_Data := [Some sg] |} (in_init inp) (in_relays inp) →
  ∃ s', runSession (hw_kind k) (dist n) inp s = Finished (s', None) ∧ inv s' ∧
    touches (hw_DepositIdentifier d)
      (λ row, d_WithdrawalStatus row = WS_PROCESSED ∧ d_Signature row = Some str) (view s) (view s').
Proof.
  intros Hinv Hp Hr Herr Hd Hown Hl Hver Hstr Ht Hn Hreads. unfold runSession. rewrite Hr, Herr, Hd.
  cbn [sk_identifier sk_sigData hw_kind]. set (i := hw_DepositIdentifier d).
  destruct (UpdateStatus_view s i WS_PROCESSING Hinv) as (s1 & -> & Hinv1 & Hv1). rewrite Hp.
  assert (dist_validateSignatures pub [hp_SigData p] (Some {| sgs_Data := [Some sg] |}) = Ok tt) as Hval
    by (simpl; by rewrite Hver).
  destruct (UpdateProcessed_view s1 i str Hinv1) as (s2 & Hq & Hinv2 & Hv2).
  exists s2. split; [|split; [done|]].
  2: { rewrite Hv2. apply touches_alter; [| |done].
       - intros j Hj. rewrite Hv1, lookup_alter_ne by done. done.
       - intros row Hrow. rewrite Hv1, lookup_alter_eq, Hrow. eauto. }
  assert (∀ signatures, (gn_addr n = gn_addr leader → signatures = Some {| sgs_Data := [Some sg] |}) →
    match runDistribution (dist n) signatures [hp_SigData p] (in_init inp) (in_relays inp) with
    | Finished (Some sgs', None) => finalizePhase (hw_kind k) (in_timing inp) d (sgs_Data sgs') s1
    | Finished (None, None) => Crashed
    | Finished (_, Some e) =>
        Finished (compensate i s1, Some (EWrap e "signature distribution phase error occurred"))
    | StillWaiting r => StillWaiting (s1, None)
    | Blocked => Blocked
    | Crashed => Crashed
    end = Finished (s2, None)) as Hrest.
  { intros signatures Hs. rewrite (honest_distribution n {| sgs_Data := [Some sg] |}) by done.
    unfold finalizePhase. rewrite Ht. cbn [sk_finalize hw_kind sgs_Data first_signature mbind res_bind].
    unfold hw_finalize. rewrite Hstr. cbn [mbind res_bind]. fold i. by rewrite Hq. }
  destruct (r_signers r) as [ps|].
  - unfold signAll. simpl mapM. rewrite Hown by eauto. simpl. apply Hrest. intros Hn'. by destruct (Hl Hn') as [_ ->].
  - apply Hrest. intros Hn'. by destruct (Hl Hn') as [[] _].
Qed.

End settle.

(** ** Liveness *)

Section liveness.
Context `{Bech32, Crypto, RandSource, SignStartEncoding, SigLib, BridgeCore}.
Context `{EthLib, SolanaLib, TonLib, ProposalEncoding}.
Context {St : Type} `{!DepositsQ St, !DepositsSpec St} (k : HashChain).
Context `{!GobMessage (HashWithdrawalData k), !GobMessage SignStartData}.
Context (chainId : string) (clients : Repository).
Context (g : list GroupNode) (sid : string) (th : Z) (leader : GroupNode) (pub : ECDSAPub).
#[local] Instance mech : Mechanism St (HashWithdrawalData k) := NewConsensusMechanism chainId clients.

(** The run of a group that signs with [signers] and its leader: every node reads what the
    others send, in time, and the signing phase of every signer ends with a signature. *)
Record honest_run (d : HashWithdrawalData k) (data : bytes) (sg : SignatureData) (signers : list Address)
    (inputs : GroupNode → NodeInput (HashWithdrawalData k)) : Prop := {
  hr_start : acknowledged g sid th leader (Some (signers ++ [gn_addr leader]) : SignStartData)
               (ri_arriving (ni_start (inputs leader)));
  hr_acceptors n : n ∈ g → gn_addr n ≠ gn_addr leader →
    acceptor_reads g sid th leader n d (signers ++ [gn_addr leader]) (inputs n);
  hr_signed n : n ∈ g → gn_addr n ∈ signers ++ [gn_addr leader] → is_Some (ni_signature (inputs n) data);
  hr_leader_signed : ni_signature (inputs leader) data = Some sg;
  hr_distribution n : n ∈ g →
    distribution_reads g sid th leader n {| sgs_Data := [Some sg] |} (ni_init (inputs n)) (ni_relays (inputs n));
  hr_in_time n : n ∈ g → ni_timing (inputs n) = InTime }.

(** Every node holds the deposit of the proposal, PENDING, under whatever row id. *)
Definition all_hold (st : GroupNode → St) (row : Deposit) : Prop :=
  ∀ n, n ∈ g → ∃ row', view (st n) !! d_ident row = Some row' ∧ same_data row row' ∧
                       d_WithdrawalStatus row' = WS_PENDING.

Lemma held_proposal_accepted st row (d : HashWithdrawalData k) :
  (∀ n, n ∈ g → inv (st n)) → all_hold st row → FormSigningData row = Ok d →
  ∀ n, n ∈ g → VerifyProposedData d (st n) = (st n, Ok tt).
Proof.
  intros Hinv Hhold Hform n Hn. destruct (Hhold n Hn) as (row' & Hv & Hsame & Hst).
  apply (verify_pending _ _ _ row'); [by apply Hinv| |done|].
  - by rewrite (formed_identifier _ _ Hform).
  - by rewrite <- Hsame, (formed_valid _ _ Hform).
Qed.


End liveness.

(** ** Witness: three nodes with T = 1, so that f = 1 *)

Module SampleNetwork.
Export SampleSigning SampleWithdrawal SampleFetcher SampleGroup.
#[export] Existing Instance sample_rand.
#[export] Existing Instance SampleConsensus.encoding.

Definition form (row : Deposit) : EvmWithdrawalData :=
  match FormSigningData row with Ok d => d | _ => SampleSigning.data end.
Definition proposed : EvmWithdrawalData := form sample_stored.
Definition proposed_data : bytes :=
  match hw_ProposalData proposed with Some p => hp_SigData p | None => [] end.
Definition announced : SignStartData := Some ["p"; "o"].
Definition signature_text : string :=
  match convertSignature EvmData signature with Ok str => str | _ => "" end.
Definition signed : Signatures := {| sgs_Data := [Some signature] |}.

(** Codecs that know the two messages of the session. *)
#[export] Instance gob_proposal : GobMessage EvmWithdrawalData :=
  {| EncodeRoundMessage := λ _, []; DecodeRoundMessage := λ _, Some (bm_Msg (init_of proposed)) |}.
#[export] Instance gob_announcement : GobMessage SignStartData :=
  {| EncodeRoundMessage := λ _, []; DecodeRoundMessage := λ _, Some (bm_Msg (init_of announced)) |}.

(** p and q hold the same deposit, q under another row id. *)
Definition states (n : GroupNode) : Table :=
  if bool_decide (gn_addr n = "q") then sample_table2 else sample_table.

Definition from_leader (type : RequestType) : option consensusMsg :=
  Some {| cm_Sender := "o"; cm_Type := type; cm_Data := Some (AnyReliableBroadcastData []) |}.
Definition reads {U} (l : list (ReliableBroadcastMsg U)) : RelayInput U :=
  {| ri_queued := []; ri_arriving := l; ri_budget := 1 |}.

(** The leader reads the relays of p, the others the leader's messages. *)
Definition node_inputs (n : GroupNode) : NodeInput EvmWithdrawalData :=
  let atLeader {U} `{!Hashable U} (v : U) := if bool_decide (gn_addr n = "o") then [relay_by_p v] else [] in
  {| ni_net := λ _ _, true; ni_order := λ l, l;
     ni_prop := reads (atLeader proposed); ni_start := reads (atLeader announced);
     ni_collected := [acceptance_of (member "p"); PBoundedDone];
     ni_events := [from_leader RT_PROPOSAL; from_leader RT_SIGN_START];
     ni_signature := λ _, Some signature;
     ni_init := Some (init_of signed); ni_relays := reads (atLeader signed); ni_timing := InTime |}.

Section values.
Context {U : Type} `{!Hashable U} (v : U).

Lemma leader_acknowledged : acknowledged members "S" 1 (member "o") v [relay_by_p v].
Proof.
  split; [constructor; [by split; [apply relay_sent|]|constructor]|]. right. exists (relay_by_p v).
  split; [by exists [], []|reflexivity].
Qed.

Lemma init_delivered n : n = member "p" ∨ n = member "q" → delivered members "S" 1 (member "o") n v (init_of v) (reads []).
Proof.
  intros Hn. split_and!; [apply init_sent|done|apply (bool_decide_unpack _); reflexivity| |].
  { constructor; [|constructor]. split; [apply init_sent|]. by destruct Hn as [-> | ->]. }
  exists (init_of v). split; [by exists [], []|]. by destruct Hn as [-> | ->].
Qed.
End values.

Lemma members_cases n : n ∈ members → n = member "o" ∨ n = member "p" ∨ n = member "q".
Proof. unfold members. set_solver. Qed.

Lemma followers n : n ∈ members → gn_addr n ≠ gn_addr (member "o") → n = member "p" ∨ n = member "q".
Proof. intros [->|Hn]%members_cases Hne; [done|exact Hn]. Qed.

Lemma sample_run :
  honest_run EvmData members "S" 1 (member "o") proposed proposed_data signature ["p"] node_inputs.
Proof.
  split.
  - apply leader_acknowledged.
  - intros n Hn Hne. split; [done|].
    exists (init_of proposed), {| cm_Sender := "o"; cm_Type := RT_PROPOSAL; cm_Data := Some (AnyReliableBroadcastData []) |},
      (init_of announced), {| cm_Sender := "o"; cm_Type := RT_SIGN_START; cm_Data := Some (AnyReliableBroadcastData []) |},
      [], [], [].
    pose proof (followers n Hn Hne) as Hn'.
    split_and!; [done|constructor|constructor|by destruct Hn' as [-> | ->]| |by destruct Hn' as [-> | ->]|].
    + pose proof (init_delivered proposed n Hn'). by destruct Hn' as [-> | ->].
    + pose proof (init_delivered announced n Hn'). by destruct Hn' as [-> | ->].
  - eauto.
  - done.
  - intros n Hn. unfold distribution_reads. case_bool_decide as Hl.
    + assert (n = member "o") as -> by (by apply members_cases in Hn as [->|[-> | ->]]).
      apply leader_acknowledged.
    + exists (init_of signed). split; [done|]. pose proof (followers n Hn Hl) as Hn'.
      pose proof (init_delivered signed n Hn'). by destruct Hn' as [-> | ->].
  - done.
Qed.

Lemma sample_hold : all_hold members states sample_stored.
Proof.
  intros n [->|[-> | ->]]%members_cases; eexists; (split; [vm_compute; reflexivity|by split]).
Qed.

Lemma sample_states_inv n : inv (St:=Table) (states n).
Proof. unfold states. case_bool_decide; [apply sample_inv2|apply sample_inv]. Qed.
End SampleNetwork.

Section witness.
Import SampleNetwork.


End witness.
