(* ===== verification/Utxo.v ===== *)
(** * UTXO chains: transactions, wallet outputs and the chain helpers

    Models [internal/bridge/chain/utxo]: [utils] (fees, used inputs, arrangement of
    the outputs), the [helper.UtxoHelper] interface with its Bitcoin ([helper/btc])
    and Bitcoin Cash ([helper/bch]) implementations and the wire conversions
    between them, and [client/transaction.go].

    The scripting, address and transaction authoring libraries (btcd, bchd and the
    wallets' [txauthor]) are classes.  [txauthor.NewUnsignedTransaction] receives a
    stateful input source; it is a [Strategy]: a finite tree of requests to the
    source, so that which requests it makes is the library's choice and what the
    source answers is the code of this repository. *)

From S2P Require Import Prelude Core Deposits Fetcher Signing.
#[local] Open Scope Z_scope.

(** ** btcd wire types *)

Record OutPoint := { op_Hash : bytes; op_Index : Z }.

Record TxIn := {
  ti_PreviousOutPoint : OutPoint; ti_SignatureScript : bytes;
  ti_Witness : list bytes; ti_Sequence : Z }.

Record TxOut := { to_Value : Z; to_PkScript : bytes }.

Record MsgTx := {
  mt_Version : Z; mt_TxIn : list TxIn; mt_TxOut : list TxOut; mt_LockTime : Z }.

#[export] Instance OutPoint_eq_dec : EqDecision OutPoint.
Proof. solve_decision. Defined.
#[export] Instance TxOut_eq_dec : EqDecision TxOut.
Proof. solve_decision. Defined.

Definition set_outs (outs : list TxOut) (tx : MsgTx) : MsgTx :=
  {| mt_Version := mt_Version tx; mt_TxIn := mt_TxIn tx; mt_TxOut := outs;
     mt_LockTime := mt_LockTime tx |}.
Definition set_ins (ins : list TxIn) (tx : MsgTx) : MsgTx :=
  {| mt_Version := mt_Version tx; mt_TxIn := ins; mt_TxOut := mt_TxOut tx;
     mt_LockTime := mt_LockTime tx |}.
Definition set_value (v : Z) (o : TxOut) : TxOut :=
  {| to_Value := v; to_PkScript := to_PkScript o |}.

Definition MaxTxInSequenceNum : Z := 2 ^ 32 - 1.

(** [wire.NewTxIn(outpoint, nil, nil)] *)
Definition NewTxIn (o : OutPoint) : TxIn :=
  {| ti_PreviousOutPoint := o; ti_SignatureScript := []; ti_Witness := [];
     ti_Sequence := MaxTxInSequenceNum |}.

(** The float64 amounts of the node's JSON answers: compared with each other and
    with zero, and converted by [btcutil.NewAmount], which fails on NaN and
    infinities; [wire.MsgTx.Serialize], [Deserialize], [chainhash.NewHashFromStr]
    and [Hash.String]. *)
Class WireLib := {
  float64 : Type;
  float_ltb : float64 → float64 → bool;
  float_is_zero : float64 → bool;
  NewAmount : float64 → option Z;
  Serialize : MsgTx → bytes;
  Deserialize : bytes → option MsgTx;
  NewHashFromStr : string → option bytes;
  Hash_String : bytes → string }.

(** [sort.Interface]: [Less] must be a strict weak ordering. *)
Record strict_weak {A} (less : A → A → bool) : Prop := {
  sw_asym x y : less x y = true → less y x = false;
  sw_trans x y z : less x y = false → less y z = false → less x z = false }.

(** A transaction with inputs is read back (without any, the zero count of its inputs would
    be read as the marker of the segwit format).  JSON numbers are not NaN: they are
    ordered. *)
Class WireLibSpec `{WireLib} : Prop := {
  Deserialize_Serialize tx : mt_TxIn tx ≠ [] → Deserialize (Serialize tx) = Some tx;
  float_order : strict_weak float_ltb }.

(** [sort.Sort]: a permutation in ascending order.  It makes no swap when no
    element is less than its predecessor. *)
Class GoSort := go_sort : ∀ A, (A → A → bool) → list A → list A.

Class GoSortSpec `{GoSort} : Prop := {
  go_sort_perm A less l : go_sort A less l ≡ₚ l;
  go_sort_sorted A less l :
    strict_weak less → Sorted (λ x y, less y x = false) (go_sort A less l);
  go_sort_id A less l :
    strict_weak less → Sorted (λ x y, less y x = false) l → go_sort A less l = l }.

Section utils.
Context `{WireLib, GoSort}.

(** [btcjson.ListUnspentResult] *)
Record Unspent := {
  lu_TxID : string; lu_Vout : Z; lu_ScriptPubKey : string; lu_Amount : float64 }.

(** ** utils *)

(** [btcutil.NewAmount(0.00001)] and [btcutil.NewAmount(0.00005)], in satoshi. *)
Definition DefaultFeeRateBtcPerKvb : Z := 1000.
Definition MaxFeeRateBtcPerKvb : Z := 5000.
Definition DustAmount : Z := 547.

Definition FeeRateValid (fee : Z) : bool :=
  negb ((fee <? DefaultFeeRateBtcPerKvb) || (MaxFeeRateBtcPerKvb <? fee)).

Definition EncodeTransaction (tx : MsgTx) : string := hex_EncodeToString (Serialize tx).

(** The key is [types.OutPoint]: the displayed hash and the index. *)
Definition MapUnspent (unspent : list Unspent) : gmap (string * Z) Unspent :=
  foldl (λ m u, <[(lu_TxID u, lu_Vout u) := u]> m) ∅ unspent.

(** A deserialized transaction has no nil input. *)
Definition FindUsedInputs (tx : MsgTx) (unspent : list Unspent) : res (list Unspent) :=
  let unspentMap := MapUnspent unspent in
  foldr (λ txIn rest,
           let outPoint := ti_PreviousOutPoint txIn in
           out ← of_option (unspentMap !! (Hash_String (op_Hash outPoint), op_Index outPoint))
                   "input not found in unspent outputs";
           used ← rest;
           Ok (out :: used)) (Ok []) (mt_TxIn tx).

Definition ToUnits (f : float64) : Z := default 0 (NewAmount f).

(** [sort.Sort(sort.Reverse(sortByAmount(outs)))]: the slice is sorted in place, so
    the caller's slice and the result share their contents. *)
Definition less_reversed (a b : Unspent) : bool := float_ltb (lu_Amount b) (lu_Amount a).

Definition LargestFirst (outs : list Unspent) : list Unspent := go_sort Unspent less_reversed outs.

(** [utils/consolidation.go] *)
Record ConsolidateOutputsParams := {
  cp_FeeRate : Z; cp_MaxInputsCount : Z; cp_InputsThreshold : Z; cp_OutputsCount : Z }.

Definition ConsolidationThreshold : Z := 20.

Definition DefaultConsolidateOutputsParams : ConsolidateOutputsParams :=
  {| cp_FeeRate := DefaultFeeRateBtcPerKvb; cp_MaxInputsCount := 50;
     cp_OutputsCount := 5; cp_InputsThreshold := ConsolidationThreshold |}.

(** ** client/client.go, client/transaction.go *)

Definition utxo_WithdrawalAmountValid (amount : Z) : bool := negb (amount <? DustAmount).

(** [fee]: the answer of the node's [EstimateFee]. *)
Definition EstimateFeeOrDefault (fee : res Z) : Z :=
  match fee with
  | Ok fee =>
      if fee <? DefaultFeeRateBtcPerKvb then DefaultFeeRateBtcPerKvb
      else if MaxFeeRateBtcPerKvb <? fee then MaxFeeRateBtcPerKvb
      else fee
  | _ => DefaultFeeRateBtcPerKvb
  end.

(** The outpoints [LockOutputs] hands to the wallet. *)
Definition lockedOutputs (tx : MsgTx) : list OutPoint := ti_PreviousOutPoint <$> mt_TxIn tx.

(** ** The input source (btc.go, bch.go)

    The closure's variables; [I] is the library's input type. *)

Record Inputs (I : Type) := {
  is_total : Z; is_inputs : list I; is_values : list Z; is_scripts : list bytes }.
Arguments is_total {_} _.
Arguments is_inputs {_} _.
Arguments is_values {_} _.
Arguments is_scripts {_} _.

Definition no_inputs {I} : Inputs I :=
  {| is_total := 0; is_inputs := []; is_values := []; is_scripts := [] |}.

Definition add_input {I} (txIn : I) (amount : Z) (pkScript : bytes) (acc : Inputs I) : Inputs I :=
  {| is_total := int64 (is_total acc + amount);
     is_inputs := is_inputs acc ++ [txIn];
     is_values := is_values acc ++ [amount];
     is_scripts := is_scripts acc ++ [pkScript] |}.

(** One call of the closure with a target; the remaining outputs and the new state. *)
Fixpoint inputSource {I} (mk : OutPoint → I) (target : Z) (outputs : list Unspent)
    (acc : Inputs I) : res (list Unspent * Inputs I) :=
  match outputs with
  | [] => Ok ([], acc)
  | out :: rest =>
      if is_total acc <? target then
        txHash ← of_option (NewHashFromStr (lu_TxID out)) "failed to parse tx hash";
        pkScript ← of_option (hex_DecodeString (lu_ScriptPubKey out))
                     "failed to decode script pub key";
        let outpoint := {| op_Hash := txHash; op_Index := lu_Vout out |} in
        inputSource mk target rest
          (add_input (mk outpoint) (ToUnits (lu_Amount out)) pkScript acc)
      else Ok (outputs, acc)
  end.

(** A program that asks an input source and returns. *)
Inductive Strategy (I A : Type) :=
| Done (r : res A)
| Ask (target : Z) (k : Inputs I → Strategy I A).
Arguments Done {_ _} _.
Arguments Ask {_ _} _ _.

Fixpoint runStrategy {I A} (mk : OutPoint → I) (s : Strategy I A) (outputs : list Unspent)
    (acc : Inputs I) : res A :=
  match s with
  | Done r => r
  | Ask target k =>
      '(outputs', acc') ← inputSource mk target outputs acc;
      runStrategy mk (k acc') outputs' acc'
  end.

(** Every result satisfies [P] for the source's last answer. *)
Fixpoint results_of {I A} (P : Inputs I → A → Prop) (last : Inputs I) (s : Strategy I A) : Prop :=
  match s with
  | Done r => match r with Ok a => P last a | _ => True end
  | Ask _ k => ∀ answer, results_of P answer (k answer)
  end.

(** ** helper.UtxoHelper *)

(** [txauthor.AuthoredTx] *)
Record AuthoredTx (Tx : Type) := {
  at_Tx : Tx; at_PrevScripts : list bytes; at_PrevInputValues : list Z;
  at_TotalInput : Z; at_ChangeIndex : Z }.
Arguments at_Tx {_} _.
Arguments at_PrevScripts {_} _.
Arguments at_PrevInputValues {_} _.
Arguments at_TotalInput {_} _.
Arguments at_ChangeIndex {_} _.

Class UtxoHelper `{SigLib} := {
  ScriptSupported : bytes → bool;
  RetrieveOpReturnData : bytes → res bytes;
  P2pkhAddress : ECDSAPub → string;
  AddressValid : string → bool;
  ExtractScriptAddresses : bytes → res (list string);
  PayToAddrScript : string → res bytes;
  NewUnsignedTransaction : list Unspent → Z → list TxOut → string → res (AuthoredTx MsgTx);
  CalculateSignatureHash : bytes → MsgTx → nat → Z → res bytes;
  EstimateFee : MsgTx → Z → Z;
  ArrangeOutputs : list Unspent → list Unspent;
  InjectSignatures : MsgTx → list (option SignatureData) → ECDSAPub → res MsgTx;
  TxHash_of : MsgTx → string }.

End utils.

Arguments Build_Inputs {_} _ _ _ _.
Arguments is_total {_} _.
Arguments is_inputs {_} _.
Arguments is_values {_} _.
Arguments is_scripts {_} _.
Arguments Done {_ _} _.
Arguments Ask {_ _} _ _.
Arguments Build_AuthoredTx {_} _ _ _ _ _.
Arguments at_Tx {_} _.
Arguments at_PrevScripts {_} _.
Arguments at_PrevInputValues {_} _.
Arguments at_TotalInput {_} _.
Arguments at_ChangeIndex {_} _.

(** ** The parts of the script library both helpers use *)

Class ScriptLib `{SigLib} := {
  Addr_t : Type;
  DecodeAddress : string → option Addr_t;
  Addr_String : Addr_t → string;
  lib_PayToAddrScript : Addr_t → option bytes;
  (** [GetScriptClass(script) == PubKeyHashTy], [== NullDataTy] *)
  is_PubKeyHashTy : bytes → bool;
  is_NullDataTy : bytes → bool;
  ExtractPkScriptAddrs : bytes → option (list Addr_t);
  PushedData : bytes → option (list bytes);
  CompressPubkey : ECDSAPub → bytes;
  Hash160 : bytes → bytes;
  NewAddressPubKeyHash : bytes → Addr_t;
  (** the script builder with two pushes *)
  PushScript : bytes → bytes → option bytes;
  (** DER encoding of the scalars R and S *)
  SerializeDER : bytes → bytes → bytes }.

Section helpers.
Context `{SigLib, !ScriptLib, WireLib, GoSort}.

Definition helper_AddressValid (addr : string) : bool :=
  match DecodeAddress addr with Some _ => true | None => false end.

Definition helper_ScriptSupported (script : bytes) : bool :=
  match script with [] => false | _ => is_PubKeyHashTy script end.

Definition helper_ExtractScriptAddresses (script : bytes) : res (list string) :=
  match script with
  | [] => Ok []
  | _ =>
      match ExtractPkScriptAddrs script with
      | None => Err (ENew "failed to extract addresses from script pub key")
      | Some [] => Err (ENew "no addresses found in script pub key")
      | Some addresses => Ok (Addr_String <$> addresses)
      end
  end.

Definition helper_PayToAddrScript (addr : string) : res bytes :=
  address ← of_option (DecodeAddress addr) "failed to decode address";
  of_option (lib_PayToAddrScript address) "failed to create pay-to-address script".

Definition helper_P2pkhAddress (pub : ECDSAPub) : string :=
  Addr_String (NewAddressPubKeyHash (Hash160 (CompressPubkey pub))).

Definition helper_RetrieveOpReturnData (script : bytes) : res bytes :=
  if negb (is_NullDataTy script) then Err (ENew "invalid script type, expected valid OP_RETURN")
  else
    data ← of_option (PushedData script) "failed to retrieve pushed data from script";
    match data with
    | [d] => Ok d
    | _ => Err (ENew "expected exactly one pushed data item in OP_RETURN script")
    end.

(** [utils.EncodeSignature] *)
Definition utxo_EncodeSignature (sig : option SignatureData) (sigHashType : byte) : bytes :=
  match sig with
  | None => []
  | Some sg => SerializeDER (sd_R sg) (sd_S sg) ++ [sigHashType]
  end.

Definition set_script (script : bytes) (i : TxIn) : TxIn :=
  {| ti_PreviousOutPoint := ti_PreviousOutPoint i; ti_SignatureScript := script;
     ti_Witness := ti_Witness i; ti_Sequence := ti_Sequence i |}.

(** The loop over the signatures, as long as the inputs. *)
Fixpoint injectAll (sigHashType : byte) (pk : ECDSAPub) (ins : list TxIn)
    (signatures : list (option SignatureData)) : res (list TxIn) :=
  match signatures, ins with
  | [], _ => Ok ins
  | sig :: sigs, i :: rest =>
      sigScript ← of_option
        (PushScript (utxo_EncodeSignature sig sigHashType) (CompressPubkey pk))
        "failed to create script for input";
      rest' ← injectAll sigHashType pk rest sigs;
      Ok (set_script sigScript i :: rest')
  | _ :: _, [] => Panic
  end.

Definition helper_InjectSignatures (sigHashType : byte) (tx : MsgTx)
    (signatures : list (option SignatureData)) (pk : ECDSAPub) : res MsgTx :=
  if negb (length signatures =? length (mt_TxIn tx))%nat then
    Err (ENew "signatures count does not match inputs count")
  else
    ins ← injectAll sigHashType pk (mt_TxIn tx) signatures;
    Ok (set_ins ins tx).

End helpers.

(** ** Bitcoin *)

Module Btc.

Class BtcLib := {
  CalcSignatureHash : bytes → MsgTx → nat → option bytes;
  (** [txsizes.EstimateVirtualSize(inputs, 0, 0, 0, outputs, 0)] *)
  EstimateVirtualSize : nat → list TxOut → Z;
  FeeForSerializeSize : Z → Z → Z;
  MsgTx_TxHash : MsgTx → string;
  (** [txauthor.NewUnsignedTransaction]: outputs, fee rate, change script *)
  author : list TxOut → Z → bytes → Strategy TxIn (AuthoredTx MsgTx) }.

Section btc.
Context `{SigLib, !ScriptLib, WireLib, GoSort, BtcLib}.

Definition SigHashAll : byte := Byte.x01.

Definition CalculateSignatureHash (scriptRaw : bytes) (tx : MsgTx) (idx : nat) (_ : Z) : res bytes :=
  match scriptRaw with
  | [] => Err (ENew "script cannot be empty")
  | _ => of_option (CalcSignatureHash scriptRaw tx idx) "failed to calculate signature hash"
  end.

Definition changeSource (addr : string) : res bytes :=
  wrap (helper_PayToAddrScript addr) "failed to create change address script".

Definition NewUnsignedTransaction (unspent : list Unspent) (feeRate : Z) (outputs : list TxOut)
    (changeAddr : string) : res (AuthoredTx MsgTx) :=
  changeScript ← wrap (changeSource changeAddr) "failed to create change source";
  let arrangedOutputs := LargestFirst unspent in
  wrap (runStrategy NewTxIn (author outputs feeRate changeScript) arrangedOutputs no_inputs)
    "failed to create unsigned transaction".

Definition EstimateFee (tx : MsgTx) (feeRate : Z) : Z :=
  FeeForSerializeSize feeRate (EstimateVirtualSize (length (mt_TxIn tx)) (mt_TxOut tx)).

#[export] Instance helper : UtxoHelper := {
  ScriptSupported := helper_ScriptSupported;
  RetrieveOpReturnData := helper_RetrieveOpReturnData;
  P2pkhAddress := helper_P2pkhAddress;
  AddressValid := helper_AddressValid;
  ExtractScriptAddresses := helper_ExtractScriptAddresses;
  PayToAddrScript := helper_PayToAddrScript;
  Utxo.NewUnsignedTransaction := NewUnsignedTransaction;
  Utxo.CalculateSignatureHash := CalculateSignatureHash;
  Utxo.EstimateFee := EstimateFee;
  ArrangeOutputs := LargestFirst;
  InjectSignatures := helper_InjectSignatures SigHashAll;
  TxHash_of := MsgTx_TxHash }.

End btc.
End Btc.

(** ** Bitcoin Cash *)

Module Bch.

(** bchd's transaction has no witness. *)
Record BchTxIn := {
  bi_PreviousOutPoint : OutPoint; bi_SignatureScript : bytes; bi_Sequence : Z }.
Record BchMsgTx := {
  bt_Version : Z; bt_TxIn : list BchTxIn; bt_TxOut : list TxOut; bt_LockTime : Z }.

Class BchLib := {
  CalcSignatureHash : bytes → BchMsgTx → nat → Z → option bytes;
  (** [txsizes.EstimateSerializeSize(inputs, outputs, false)] *)
  EstimateSerializeSize : nat → list TxOut → Z;
  FeeForSerializeSize : Z → Z → Z;
  BchMsgTx_TxHash : BchMsgTx → string;
  author : list TxOut → Z → bytes → Strategy BchTxIn (AuthoredTx BchMsgTx) }.

Definition bchToWire (tx : BchMsgTx) : MsgTx :=
  {| mt_Version := bt_Version tx; mt_LockTime := bt_LockTime tx;
     mt_TxIn := (λ i, {| ti_PreviousOutPoint := bi_PreviousOutPoint i;
                         ti_SignatureScript := bi_SignatureScript i;
                         ti_Witness := []; ti_Sequence := bi_Sequence i |}) <$> bt_TxIn tx;
     mt_TxOut := (λ o, {| to_Value := to_Value o; to_PkScript := to_PkScript o |}) <$> bt_TxOut tx |}.

Definition wireToBch (tx : MsgTx) : BchMsgTx :=
  {| bt_Version := mt_Version tx; bt_LockTime := mt_LockTime tx;
     bt_TxIn := (λ i, {| bi_PreviousOutPoint := ti_PreviousOutPoint i;
                         bi_SignatureScript := ti_SignatureScript i;
                         bi_Sequence := ti_Sequence i |}) <$> mt_TxIn tx;
     bt_TxOut := (λ o, {| to_Value := to_Value o; to_PkScript := to_PkScript o |}) <$> mt_TxOut tx |}.

Definition outputsToBch (outputs : list TxOut) : list TxOut :=
  (λ o, {| to_Value := to_Value o; to_PkScript := to_PkScript o |}) <$> outputs.

Definition txAuthorToBtc (tx : AuthoredTx BchMsgTx) : AuthoredTx MsgTx :=
  {| at_Tx := bchToWire (at_Tx tx); at_PrevScripts := at_PrevScripts tx;
     at_PrevInputValues := at_PrevInputValues tx;
     at_TotalInput := at_TotalInput tx; at_ChangeIndex := at_ChangeIndex tx |}.

(** [bchwire.NewTxIn(outpoint, nil)] *)
Definition NewTxIn (o : OutPoint) : BchTxIn :=
  {| bi_PreviousOutPoint := o; bi_SignatureScript := []; bi_Sequence := MaxTxInSequenceNum |}.

Section bch.
Context `{SigLib, !ScriptLib, WireLib, GoSort, BchLib}.

(** [SigHashAll | SigHashForkID] *)
Definition sigHashType : byte := Byte.x41.

Definition CalculateSignatureHash (scriptRaw : bytes) (tx : MsgTx) (idx : nat) (amt : Z)
    : res bytes :=
  match scriptRaw with
  | [] => Err (ENew "script cannot be empty")
  | _ => of_option (CalcSignatureHash scriptRaw (wireToBch tx) idx amt)
           "failed to calculate signature hash"
  end.

Definition changeSource (addr : string) : res bytes :=
  wrap (helper_PayToAddrScript addr) "failed to create change address script".

Definition NewUnsignedTransaction (unspent : list Unspent) (feeRate : Z) (outputs : list TxOut)
    (changeAddr : string) : res (AuthoredTx MsgTx) :=
  changeScript ← wrap (changeSource changeAddr) "failed to create change source";
  let arrangedOutputs := LargestFirst unspent in
  tx ← wrap (runStrategy NewTxIn (author (outputsToBch outputs) feeRate changeScript)
               arrangedOutputs no_inputs) "failed to create unsigned transaction";
  Ok (txAuthorToBtc tx).

Definition EstimateFee (tx : MsgTx) (feeRate : Z) : Z :=
  FeeForSerializeSize feeRate (EstimateSerializeSize (length (mt_TxIn tx)) (mt_TxOut tx)).

Definition TxHash (tx : MsgTx) : string := BchMsgTx_TxHash (wireToBch tx).

(** The same code with the scripts and the addresses of Bitcoin Cash. *)
Definition bch_ScriptSupported : bytes → bool := helper_ScriptSupported.
Definition bch_ExtractScriptAddresses : bytes → res (list string) := helper_ExtractScriptAddresses.
Definition bch_AddressValid : string → bool := helper_AddressValid.
Definition bch_PayToAddrScript : string → res bytes := helper_PayToAddrScript.
Definition bch_P2pkhAddress : ECDSAPub → string := helper_P2pkhAddress.
Definition bch_RetrieveOpReturnData : bytes → res bytes := helper_RetrieveOpReturnData.
Definition bch_InjectSignatures : MsgTx → list (option SignatureData) → ECDSAPub → res MsgTx :=
  helper_InjectSignatures sigHashType.
Definition bch_inputSource := inputSource NewTxIn.

#[export] Instance helper : UtxoHelper := {
  ScriptSupported := bch_ScriptSupported;
  RetrieveOpReturnData := bch_RetrieveOpReturnData;
  P2pkhAddress := bch_P2pkhAddress;
  AddressValid := bch_AddressValid;
  ExtractScriptAddresses := bch_ExtractScriptAddresses;
  PayToAddrScript := bch_PayToAddrScript;
  Utxo.NewUnsignedTransaction := NewUnsignedTransaction;
  Utxo.CalculateSignatureHash := CalculateSignatureHash;
  Utxo.EstimateFee := EstimateFee;
  ArrangeOutputs := LargestFirst;
  InjectSignatures := bch_InjectSignatures;
  TxHash_of := TxHash }.

End bch.

(** The conversions are inverse up to the witnesses, which [wireToBch] drops. *)
Definition no_witness (tx : MsgTx) : Prop := Forall (λ i, ti_Witness i = []) (mt_TxIn tx).

Lemma map_ext_id {A} (f : A → A) (l : list A) : (∀ x, f x = x) → f <$> l = l.
Proof. intros Hf. induction l as [|x l IH]; [done|]. csimpl. by rewrite Hf, IH. Qed.

Lemma wire_roundtrip tx : wireToBch (bchToWire tx) = tx.
Proof.
  destruct tx as [v i o lt]. unfold wireToBch, bchToWire. simpl.
  f_equal; rewrite <- list_fmap_compose; apply map_ext_id; by intros [].
Qed.

Lemma bch_roundtrip tx : bchToWire (wireToBch tx) = tx ↔ no_witness tx.
Proof.
  destruct tx as [v i o lt]. unfold bchToWire, wireToBch, no_witness. simpl. split.
  - injection 1 as Hi _. rewrite <- Hi. apply Forall_fmap, Forall_fmap, Forall_true. done.
  - intros Hw. f_equal; rewrite <- list_fmap_compose.
    + induction Hw as [|[???? ] l Hx _ IH]; [done|]. csimpl in *. by rewrite Hx, IH.
    + apply map_ext_id. by intros [].
Qed.

End Bch.

(** ** What a helper promises to its clients *)

Section promises.
Context `{WireLib, GoSort}.

(** The input built from an output of the wallet. *)
Definition input_of {I} (mk : OutPoint → I) (u : Unspent) (i : I) : Prop :=
  ∃ h, NewHashFromStr (lu_TxID u) = Some h ∧ i = mk {| op_Hash := h; op_Index := lu_Vout u |}.

Definition total_of (used : list Unspent) : Z :=
  foldl (λ t u, int64 (t + ToUnits (lu_Amount u))) 0 used.

(** The state of the source after it handed out [used]. *)
Record source_state {I} (mk : OutPoint → I) (used : list Unspent) (acc : Inputs I) : Prop := {
  ss_inputs : Forall2 (input_of mk) used (is_inputs acc);
  ss_scripts : Forall2 (λ u s, hex_DecodeString (lu_ScriptPubKey u) = Some s) used (is_scripts acc);
  ss_values : is_values acc = (λ u, ToUnits (lu_Amount u)) <$> used;
  ss_total : is_total acc = total_of used }.

Definition sum_values (outs : list TxOut) : Z := foldr (λ o t, to_Value o + t) 0 outs.

(** The transaction's outputs: the requested ones, then possibly the change. *)
Definition outputs_with_change (outs : list TxOut) (changeScript : bytes) (changeIndex : Z)
    (txOuts : list TxOut) : Prop :=
  (changeIndex = -1 ∧ txOuts = outs) ∨
  (changeIndex = Z.of_nat (length outs) ∧
   ∃ change, txOuts = outs ++ [change] ∧ to_PkScript change = changeScript ∧
     0 ≤ to_Value change).

Record authored_from (used : list Unspent) (outs : list TxOut) (changeScript : bytes)
    (a : AuthoredTx MsgTx) : Prop := {
  af_inputs : Forall2 (input_of NewTxIn) used (mt_TxIn (at_Tx a));
  af_scripts : Forall2 (λ u s, hex_DecodeString (lu_ScriptPubKey u) = Some s) used (at_PrevScripts a);
  af_values : at_PrevInputValues a = (λ u, ToUnits (lu_Amount u)) <$> used;
  af_total : at_TotalInput a = total_of used;
  af_outs : outputs_with_change outs changeScript (at_ChangeIndex a) (mt_TxOut (at_Tx a));
  af_covered : sum_values (mt_TxOut (at_Tx a)) ≤ at_TotalInput a }.

(** The contract of [helper.UtxoHelper]: an authored transaction spends outputs of
    the wallet and pays the requested outputs, and authoring again from the spent
    outputs alone gives the same transaction. *)
Class UtxoHelperSpec {sigLib : SigLib} {helper : UtxoHelper} : Prop := {
  helper_authored unspent feeRate outs changeAddr a :
    NewUnsignedTransaction unspent feeRate outs changeAddr = Ok a →
    ∃ used script, used ⊆+ unspent ∧ PayToAddrScript changeAddr = Ok script ∧
      authored_from used outs script a ∧
      NewUnsignedTransaction used feeRate outs changeAddr = Ok a;
  helper_arranged l : ArrangeOutputs l ≡ₚ l;
  helper_arranged_twice l : ArrangeOutputs (ArrangeOutputs l) = ArrangeOutputs l;
  helper_injected tx sgs pk tx' :
    InjectSignatures tx sgs pk = Ok tx' →
    mt_TxOut tx' = mt_TxOut tx ∧ lockedOutputs tx' = lockedOutputs tx }.

Context {I : Type} (mk : OutPoint → I).

Lemma total_of_snoc used u :
  total_of (used ++ [u]) = int64 (total_of used + ToUnits (lu_Amount u)).
Proof. unfold total_of. by rewrite foldl_app. Qed.

Lemma source_state_add used acc u h s :
  source_state mk used acc → NewHashFromStr (lu_TxID u) = Some h →
  hex_DecodeString (lu_ScriptPubKey u) = Some s →
  source_state mk (used ++ [u])
    (add_input (mk {| op_Hash := h; op_Index := lu_Vout u |}) (ToUnits (lu_Amount u)) s acc).
Proof.
  intros [Hi Hs Hv Ht] Hh Hd. split; simpl.
  - apply Forall2_app; [done|]. constructor; [|done]. by exists h.
  - apply Forall2_app; [done|]. by constructor.
  - by rewrite Hv, fmap_app.
  - by rewrite Ht, total_of_snoc.
Qed.

(** One request takes a prefix of the remaining outputs; with only the outputs
    taken so far and later, it answers the same. *)
Lemma inputSource_takes target outputs : ∀ used acc outputs' acc',
  source_state mk used acc → inputSource mk target outputs acc = Ok (outputs', acc') →
  ∃ taken, outputs = taken ++ outputs' ∧ source_state mk (used ++ taken) acc'.
Proof.
  induction outputs as [|u rest IH]; intros used acc outputs' acc' Hst Hok; simpl in Hok.
  - injection Hok as <- <-. exists []. by rewrite (app_nil_r used).
  - destruct (is_total acc <? target).
    + inv_ok. eapply IH in Hok as (taken & -> & Hst'); [|by eapply source_state_add].
      exists (u :: taken). split; [done|]. by rewrite <- (assoc_L app) in Hst'.
    + injection Hok as <- <-. exists []. by rewrite (app_nil_r used).
Qed.

Lemma inputSource_shrinks target outputs : ∀ acc outputs' acc',
  inputSource mk target outputs acc = Ok (outputs', acc') →
  (length outputs' ≤ length outputs)%nat.
Proof.
  induction outputs as [|u rest IH]; intros acc outputs' acc' Hok; simpl in Hok.
  - inv_ok. by subst.
  - destruct (is_total acc <? target); inv_ok; [|by subst].
    apply IH in Hok. simpl. lia.
Qed.

Lemma inputSource_prefix target taken : ∀ acc later rest acc',
  inputSource mk target (taken ++ later ++ rest) acc = Ok (later ++ rest, acc') →
  inputSource mk target (taken ++ later) acc = Ok (later, acc').
Proof.
  induction taken as [|u taken IH]; intros acc later rest acc' Hok.
  - simpl in *. destruct later as [|x later]; simpl in *.
    + destruct rest as [|y rest]; simpl in Hok; [by injection Hok as <-|].
      destruct (is_total acc <? target); [|by injection Hok as <-].
      inv_ok. apply inputSource_shrinks in Hok. simpl in Hok. lia.
    + destruct (is_total acc <? target); [|by injection Hok as <-].
      inv_ok. apply inputSource_shrinks in Hok. simpl in Hok. lia.
  - simpl in *. destruct (is_total acc <? target).
    + apply bind_Ok in Hok as (h & Hh & Hok). apply bind_Ok in Hok as (sc & Hs & Hok).
      rewrite Hh. simpl. rewrite Hs. simpl. by eapply IH.
    + injection Hok as Heq _. apply (f_equal length) in Heq. simpl in Heq.
      rewrite length_app in Heq. lia.
Qed.

Lemma runStrategy_replay {A} (P : Inputs I → A → Prop) (s : Strategy I A) : ∀ used outputs acc a,
  source_state mk used acc → results_of P acc s → runStrategy mk s outputs acc = Ok a →
  ∃ taken rest last, outputs = taken ++ rest ∧ source_state mk (used ++ taken) last ∧
    P last a ∧ runStrategy mk s taken acc = Ok a.
Proof.
  induction s as [r|target k IH]; intros used outputs acc a Hst Hp Hrun; simpl in *.
  - subst r. exists [], outputs, acc. by rewrite (app_nil_r used).
  - apply bind_Ok in Hrun as ([outs1 acc1] & Hsrc & Hrun).
    pose proof Hsrc as Hsrc'. eapply inputSource_takes in Hsrc as (tk & -> & Hst1); [|done].
    eapply IH in Hrun as (tk2 & rest & last & -> & Hst2 & HP & Hrun2); [|done|done].
    exists (tk ++ tk2), rest, last. rewrite !(assoc_L app) in *. split_and!; try done.
    apply bind_Ok. exists (tk2, acc1). split; [|done].
    rewrite <- (assoc_L app) in Hsrc'. by eapply inputSource_prefix.
Qed.

Lemma sorted_prefix {A} (R : A → A → Prop) l k : Sorted R (l ++ k) → Sorted R l.
Proof.
  induction l as [|x l IH]; intros Hs; [constructor|]. inversion_clear Hs as [|?? Hl Hr].
  constructor; [by apply IH|]. destruct l; [constructor|]. inversion_clear Hr. by constructor.
Qed.

End promises.

Class BtcLibSpec `{Btc.BtcLib} : Prop := {
  btc_authored outs feeRate script :
    results_of (λ last a,
        mt_TxIn (at_Tx a) = is_inputs last ∧ at_PrevScripts a = is_scripts last ∧
        at_PrevInputValues a = is_values last ∧ at_TotalInput a = is_total last ∧
        outputs_with_change outs script (at_ChangeIndex a) (mt_TxOut (at_Tx a)) ∧
        sum_values (mt_TxOut (at_Tx a)) ≤ at_TotalInput a)
      no_inputs (Btc.author outs feeRate script) }.

Class BchLibSpec `{Bch.BchLib} : Prop := {
  bch_authored outs feeRate script :
    results_of (λ last a,
        Bch.bt_TxIn (at_Tx a) = is_inputs last ∧ at_PrevScripts a = is_scripts last ∧
        at_PrevInputValues a = is_values last ∧ at_TotalInput a = is_total last ∧
        outputs_with_change outs script (at_ChangeIndex a) (Bch.bt_TxOut (at_Tx a)) ∧
        sum_values (Bch.bt_TxOut (at_Tx a)) ≤ at_TotalInput a)
      no_inputs (Bch.author outs feeRate script) }.

Section instances.
Context `{SigLib, !ScriptLib, WireLib, !WireLibSpec, !GoSort, !GoSortSpec}.

Lemma less_reversed_weak : strict_weak less_reversed.
Proof.
  destruct float_order as [Ha Ht]. unfold less_reversed. split; intros *; [apply Ha|].
  intros Hxy Hyz. by eapply Ht.
Qed.

Lemma no_inputs_state {I} (mk : OutPoint → I) : source_state mk [] no_inputs.
Proof. split; [constructor|constructor|done|done]. Qed.

Lemma LargestFirst_prefix l taken rest : LargestFirst l = taken ++ rest → LargestFirst taken = taken.
Proof.
  intros Heq. apply go_sort_id; [apply less_reversed_weak|]. eapply sorted_prefix.
  rewrite <- Heq. apply go_sort_sorted, less_reversed_weak.
Qed.

Lemma LargestFirst_submseteq l taken rest : LargestFirst l = taken ++ rest → taken ⊆+ l.
Proof.
  intros Heq. rewrite <- (go_sort_perm _ less_reversed l). fold (LargestFirst l). rewrite Heq.
  apply submseteq_inserts_r. done.
Qed.

Lemma outputs_id outs : Bch.outputsToBch outs = outs.
Proof. apply Bch.map_ext_id. by intros []. Qed.

Lemma injectAll_keeps t pk ins : ∀ sgs ins',
  injectAll t pk ins sgs = Ok ins' →
  ti_PreviousOutPoint <$> ins' = ti_PreviousOutPoint <$> ins.
Proof.
  induction ins as [|i ins IH]; intros [|sg sgs] ins' Hok; simpl in Hok; try done.
  - by injection Hok as <-.
  - by injection Hok as <-.
  - apply bind_Ok in Hok as (sc & _ & Hok). apply bind_Ok in Hok as (rest & Hr & Hok).
    injection Hok as <-. csimpl. f_equal. by eapply IH.
Qed.

Lemma helper_injected_keeps t tx sgs pk tx' :
  helper_InjectSignatures t tx sgs pk = Ok tx' →
  mt_TxOut tx' = mt_TxOut tx ∧ lockedOutputs tx' = lockedOutputs tx.
Proof.
  unfold helper_InjectSignatures. destruct (negb _); [done|]. intros Hok.
  apply bind_Ok in Hok as (ins & Hi & Hok). injection Hok as <-.
  split; [done|]. unfold lockedOutputs. simpl. by eapply injectAll_keeps.
Qed.

Lemma btc_helper_authored `{!Btc.BtcLib, !BtcLibSpec} unspent feeRate outs changeAddr a :
  Btc.NewUnsignedTransaction unspent feeRate outs changeAddr = Ok a →
  ∃ used script, used ⊆+ unspent ∧ helper_PayToAddrScript changeAddr = Ok script ∧
    authored_from used outs script a ∧
    Btc.NewUnsignedTransaction used feeRate outs changeAddr = Ok a.
Proof.
  unfold Btc.NewUnsignedTransaction, Btc.changeSource. intros Hok.
  apply bind_Ok in Hok as (script & Hs & Hok). rewrite Hs. rewrite !wrap_Ok in Hs. apply wrap_Ok in Hok.
  eapply runStrategy_replay in Hok as (taken & rest & last & Htk & Hst & HP & Hrun);
    [|apply no_inputs_state|apply btc_authored].
  exists taken, script. rewrite Hs. rewrite app_nil_l in Hst. destruct HP as (Hi & Hsc & Hv & Ht & Ho & Hc), Hst.
  split_and!; [by eapply LargestFirst_submseteq|done| |].
  - split; congruence.
  - simpl. rewrite (LargestFirst_prefix unspent taken rest) by done. by rewrite Hrun.
Qed.

Lemma bch_helper_authored `{!Bch.BchLib, !BchLibSpec} unspent feeRate outs changeAddr a :
  Bch.NewUnsignedTransaction unspent feeRate outs changeAddr = Ok a →
  ∃ used script, used ⊆+ unspent ∧ helper_PayToAddrScript changeAddr = Ok script ∧
    authored_from used outs script a ∧
    Bch.NewUnsignedTransaction used feeRate outs changeAddr = Ok a.
Proof.
  unfold Bch.NewUnsignedTransaction, Bch.changeSource. intros Hok.
  apply bind_Ok in Hok as (script & Hs & Hok). rewrite Hs. rewrite !wrap_Ok in Hs.
  apply bind_Ok in Hok as (b & Hok & Ha). injection Ha as <-. apply wrap_Ok in Hok.
  eapply runStrategy_replay in Hok as (taken & rest & last & Htk & Hst & HP & Hrun);
    [|apply no_inputs_state|apply bch_authored].
  exists taken, script. rewrite Hs. rewrite app_nil_l in Hst. destruct HP as (Hi & Hsc & Hv & Ht & Ho & Hc), Hst.
  rewrite outputs_id in *.
  split_and!; [by eapply LargestFirst_submseteq|done| |].
  - split; simpl; [|congruence..| |].
    + rewrite Hi. apply Forall2_fmap_r. eapply Forall2_impl; [done|].
      intros u i (h & Hh & ->). by exists h.
    + by rewrite Bch.map_ext_id by (by intros []).
    + by rewrite Bch.map_ext_id by (by intros []).
  - simpl. rewrite (LargestFirst_prefix unspent taken rest) by done. by rewrite Hrun.
Qed.

#[export] Instance Btc_helper_spec `{!Btc.BtcLib, !BtcLibSpec} :
  UtxoHelperSpec (helper:=Btc.helper).
Proof.
  split; simpl.
  - apply btc_helper_authored.
  - intros l. apply go_sort_perm.
  - intros l. apply go_sort_id; [|apply go_sort_sorted]; apply less_reversed_weak.
  - apply helper_injected_keeps.
Qed.

#[export] Instance Bch_helper_spec `{!Bch.BchLib, !BchLibSpec} :
  UtxoHelperSpec (helper:=Bch.helper).
Proof.
  split; simpl.
  - apply bch_helper_authored.
  - intros l. apply go_sort_perm.
  - intros l. apply go_sort_id; [|apply go_sort_sorted]; apply less_reversed_weak.
  - apply helper_injected_keeps.
Qed.

End instances.
