(* ===== verification/UtxoWithdrawal.v ===== *)
(** * UTXO withdrawals and consolidation

    Models [internal/bridge/withdrawal/utxo.go] (the constructor of UTXO withdrawal
    proposals), [internal/tss/session/resharing/utxo/consensus.go] (the
    consolidation proposals) and the finalizers of both sessions, against the
    interface [UtxoHelper] of Utxo.v; slices that the code sorts in place are the
    sorted ones from then on. *)

From S2P Require Import Prelude Core Deposits Broadcast Consensus Fetcher Withdrawal Signing Utxo.
#[local] Open Scope Z_scope.

(** ** withdrawal/utxo.go *)

Record BitcoinProposalData := {
  bp_DepositId : option MsgDepositIdentifier; bp_SerializedTx : bytes;
  bp_FeeRate : Z; bp_SigData : list bytes }.

Record UtxoWithdrawalData := { uw_ProposalData : option BitcoinProposalData }.

(** The hex SHA-256 of the deterministic protobuf encodings. *)
Class BitcoinEncoding := {
  hash_bitcoin_proposal : BitcoinProposalData → string;
  hash_resharing_proposal : bytes → list bytes → string }.

Definition uw_DepositIdentifier (e : UtxoWithdrawalData) : DepositIdentifier :=
  match uw_ProposalData e with
  | Some p => match bp_DepositId p with Some i => from_msg i | None => zero_identifier end
  | None => zero_identifier
  end.

Definition uw_HashString `{BitcoinEncoding} (e : UtxoWithdrawalData) : string :=
  match uw_ProposalData e with None => "" | Some p => hash_bitcoin_proposal p end.

(** What the node and the wallet answer during one call: the unspent outputs and
    the fee estimation. *)
Record UtxoClient `{WireLib} := { uc_ListUnspent : res (list Unspent); uc_EstimateFee : res Z }.

Section withdrawal.
Context `{SigLib, WireLib, !UtxoHelper, BitcoinEncoding} (client : UtxoClient) (tssAddr : string).

(** [PrevInputValues[i]] and [sigHashes[i] = ...] panic out of range. *)
Fixpoint sigHashLoop (a : AuthoredTx MsgTx) (i : nat) (prevScripts : list bytes)
    (sigHashes : list bytes) : res (list bytes) :=
  match prevScripts with
  | [] => Ok sigHashes
  | script :: rest =>
      match at_PrevInputValues a !! i with
      | None => Panic
      | Some value =>
          sigHash ← wrap (CalculateSignatureHash script (at_Tx a) i value)
                      "failed to calculate signature hash for tx";
          if (i <? length sigHashes)%nat
          then sigHashLoop a (S i) rest (<[i := sigHash]> sigHashes)
          else Panic
      end
  end.

Definition formSignatureHashes (a : AuthoredTx MsgTx) : res (list bytes) :=
  sigHashLoop a 0 (at_PrevScripts a) (replicate (length (mt_TxIn (at_Tx a))) []).

(** [tx.Tx.TxOut[i].Value = f value] *)
Definition alter_out (i : nat) (f : Z → Z) (a : AuthoredTx MsgTx) : AuthoredTx MsgTx :=
  {| at_Tx := set_outs (alter (λ o, set_value (f (to_Value o)) o) i (mt_TxOut (at_Tx a))) (at_Tx a);
     at_PrevScripts := at_PrevScripts a; at_PrevInputValues := at_PrevInputValues a;
     at_TotalInput := at_TotalInput a; at_ChangeIndex := at_ChangeIndex a |}.

(** [tx.Tx = newTx; tx.ChangeIndex = idx] *)
Definition with_tx (tx : MsgTx) (idx : Z) (a : AuthoredTx MsgTx) : AuthoredTx MsgTx :=
  {| at_Tx := tx; at_PrevScripts := at_PrevScripts a; at_PrevInputValues := at_PrevInputValues a;
     at_TotalInput := at_TotalInput a; at_ChangeIndex := idx |}.

Definition subtractFeeFromWithdrawal (a : AuthoredTx MsgTx) (feeRate : Z)
    : res (AuthoredTx MsgTx) :=
  let tx := at_Tx a in
  let fee := EstimateFee tx feeRate in
  match mt_TxOut tx with
  | [] => Panic
  | out0 :: _ =>
      if negb (utxo_WithdrawalAmountValid (int64 (to_Value out0 - fee))) then Ok a
      else if negb (at_ChangeIndex a =? -1) then
        if (at_ChangeIndex a <? 0) || (Z.of_nat (length (mt_TxOut tx)) <=? at_ChangeIndex a)
        then Panic
        else Ok (alter_out (Z.to_nat (at_ChangeIndex a)) (λ v, int64 (v + fee))
                   (alter_out 0 (λ v, int64 (v - fee)) a))
      else
        (* an error of PayToAddrScript leaves a nil script *)
        let changeScript := match PayToAddrScript tssAddr with Ok s => s | _ => [] end in
        let txWithChange :=
          set_outs (mt_TxOut tx ++ [{| to_Value := 0; to_PkScript := changeScript |}]) tx in
        let feeWithChange := EstimateFee txWithChange feeRate in
        let withdrawalAmountWithChange := int64 (to_Value out0 - feeWithChange) in
        if negb (utxo_WithdrawalAmountValid withdrawalAmountWithChange) then Ok a
        else
          let change :=
            int64 (int64 (at_TotalInput a - withdrawalAmountWithChange) - feeWithChange) in
          if negb (utxo_WithdrawalAmountValid change)
          then Ok (alter_out 0 (λ v, int64 (v - fee)) a)
          else Ok (alter_out 1 (λ _, change)
                     (alter_out 0 (λ v, int64 (v - feeWithChange)) (with_tx txWithChange 1 a)))
  end.

(** The transaction both [FormSigningData] and [IsValid] build from a set of
    outputs, with its signature hashes. *)
Definition uw_FormSigningData (deposit : Deposit) : res UtxoWithdrawalData :=
  amount ← of_option (parse_Z (d_WithdrawalAmount deposit)) "failed to parse amount";
  receiverScript ← wrap (PayToAddrScript (d_Receiver deposit)) "failed to create script";
  let receiverOutput := {| to_Value := int64 amount; to_PkScript := receiverScript |} in
  unspent ← wrap (uc_ListUnspent client) "failed to get available UTXOs";
  let feeRate := EstimateFeeOrDefault (uc_EstimateFee client) in
  unsignedTxData ← wrap (NewUnsignedTransaction unspent feeRate [receiverOutput] tssAddr)
                     "failed to create unsigned transaction";
  unsignedTxData ← subtractFeeFromWithdrawal unsignedTxData feeRate;
  sigHashes ← wrap (formSignatureHashes unsignedTxData) "failed to form signature hashes";
  Ok {| uw_ProposalData := Some
          {| bp_DepositId := Some
               {| md_TxHash := TxHash (d_ident deposit); md_TxNonce := TxNonce (d_ident deposit);
                  md_ChainId := ChainId (d_ident deposit) |};
             bp_SerializedTx := Serialize (at_Tx unsignedTxData);
             bp_FeeRate := feeRate;
             bp_SigData := sigHashes |} |}.

(** The loop over the proposed hashes, of the same number as the computed ones. *)
Fixpoint compareHashes (proposed computed : list bytes) : res unit :=
  match proposed, computed with
  | p :: ps, c :: cs =>
      if bool_decide (p = c) then compareHashes ps cs
      else Err (ENew "signature hash mismatch")
  | _, _ => Ok tt
  end.

Definition uw_IsValid (data : UtxoWithdrawalData) (deposit : Deposit) : res bool :=
  match uw_ProposalData data with
  | None => Panic
  | Some p =>
      tx ← of_option (Deserialize (bp_SerializedTx p)) "failed to deserialize transaction";
      let feeRate := bp_FeeRate p in
      _ ← guard (FeeRateValid feeRate) "invalid fee rate";
      unspent ← wrap (uc_ListUnspent client) "failed to get available UTXOs";
      usedInputs ← wrap (FindUsedInputs tx unspent) "failed to find tx used inputs";
      amount ← of_option (parse_Z (d_WithdrawalAmount deposit)) "failed to parse amount";
      receiverScript ← wrap (PayToAddrScript (d_Receiver deposit)) "failed to create script";
      let receiverOutput := {| to_Value := int64 amount; to_PkScript := receiverScript |} in
      unsignedTxData ← wrap (NewUnsignedTransaction usedInputs feeRate [receiverOutput] tssAddr)
                         "failed to create unsigned transaction";
      unsignedTxData ← subtractFeeFromWithdrawal unsignedTxData feeRate;
      _ ← guard (bool_decide (Serialize (at_Tx unsignedTxData) = bp_SerializedTx p))
            "provided transaction does not match the expected one";
      sigHashes ← wrap (formSignatureHashes unsignedTxData) "failed to form signature hashes";
      _ ← guard (length sigHashes =? length (bp_SigData p))%nat "signature hashes number mismatch";
      _ ← compareHashes (bp_SigData p) sigHashes;
      Ok true
  end.

#[export] Instance uw_SigningData : DepositSigningData UtxoWithdrawalData := {
  ds_Hashable := uw_HashString;
  ds_DepositIdentifier := uw_DepositIdentifier }.

#[export] Instance uw_Constructor : Constructor UtxoWithdrawalData := {
  FormSigningData := uw_FormSigningData;
  IsValid := uw_IsValid }.

End withdrawal.

(** ** resharing/utxo/consensus.go *)

(** [p2p.BitcoinResharingProposalData] *)
Record BitcoinResharingProposalData := { rp_SerializedTx : bytes; rp_SigData : list bytes }.

Record UtxoSigningData := { us_ProposalData : option BitcoinResharingProposalData }.

#[export] Instance UtxoSigningData_Hashable `{BitcoinEncoding} : Hashable UtxoSigningData := λ s,
  match us_ProposalData s with
  | None => ""
  | Some p => hash_resharing_proposal (rp_SerializedTx p) (rp_SigData p)
  end.

Section consolidation.
Context `{SigLib, WireLib, !UtxoHelper} (client : UtxoClient) (dstAddr : string)
  (params : ConsolidateOutputsParams).

(** The loop over the inputs: the transaction's inputs and the total amount. *)
Fixpoint addInputs (unspent : list Unspent) (ins : list TxIn) (totalAmount : Z)
    : res (list TxIn * Z) :=
  match unspent with
  | [] => Ok (ins, totalAmount)
  | u :: rest =>
      hash ← of_option (NewHashFromStr (lu_TxID u)) "failed to parse tx hash for input";
      addInputs rest (ins ++ [NewTxIn {| op_Hash := hash; op_Index := lu_Vout u |}])
        (int64 (totalAmount + ToUnits (lu_Amount u)))
  end.

(** The loop over the signature hashes: one output of the wallet per input. *)
Fixpoint consolidationHashes (tx : MsgTx) (i : nat) (arranged : list Unspent) : res (list bytes) :=
  match arranged with
  | [] => Ok []
  | utxo :: rest =>
      scriptDecoded ← of_option (hex_DecodeString (lu_ScriptPubKey utxo))
                        "failed to decode script for input";
      sigHash ← wrap (CalculateSignatureHash scriptDecoded tx i (ToUnits (lu_Amount utxo)))
                  "failed to calculate signature hash for input";
      hashes ← consolidationHashes tx (S i) rest;
      Ok (sigHash :: hashes)
  end.

(** [ArrangeOutputs] sorts the slice in place: [unspent] and [arranged] are the same
    slice afterwards. *)
Definition consolidateOutputs (unspent : list Unspent) : res (MsgTx * list bytes) :=
  let arranged := ArrangeOutputs unspent in
  let receiverScript := match PayToAddrScript dstAddr with Ok s => s | _ => [] end in
  let outs := replicate (Z.to_nat (cp_OutputsCount params))
                {| to_Value := 0; to_PkScript := receiverScript |} in
  '(ins, totalAmount) ← addInputs arranged [] 0;
  let tx := {| mt_Version := 1; mt_TxIn := ins; mt_TxOut := outs; mt_LockTime := 0 |} in
  let fees := EstimateFee tx (cp_FeeRate params) in
  let consolidationAmount := int64 (totalAmount - fees) in
  if cp_OutputsCount params =? 0 then Panic
  else
    let amountPerOutput := Z.quot consolidationAmount (cp_OutputsCount params) in
    if negb (utxo_WithdrawalAmountValid amountPerOutput)
    then Err (ENew "amount per output is too small")
    else
      let remainder := Z.rem consolidationAmount (cp_OutputsCount params) in
      match set_value amountPerOutput <$> outs with
      | [] => Panic
      | o :: rest =>
          let tx := set_outs (set_value (int64 (to_Value o + remainder)) o :: rest) tx in
          sigHashes ← consolidationHashes tx 0 arranged;
          Ok (tx, sigHashes)
      end.

Definition cons_FormProposalData : res (option UtxoSigningData) :=
  unspent ← wrap (uc_ListUnspent client) "failed to list unspent outputs";
  if Z.of_nat (length unspent) <? cp_InputsThreshold params
  then Err (ENew "not enough unspent outputs to consolidate")
  else
    '(tx, sigHashes) ← wrap (consolidateOutputs unspent) "failed to consolidate outputs";
    Ok (Some {| us_ProposalData := Some
                  {| rp_SerializedTx := Serialize tx; rp_SigData := sigHashes |} |}).

Definition cons_VerifyProposedData (data : UtxoSigningData) : res unit :=
  match us_ProposalData data with
  | None => Panic
  | Some p =>
      tx ← of_option (Deserialize (rp_SerializedTx p)) "failed to deserialize transaction";
      _ ← guard (negb (Z.of_nat (length (mt_TxIn tx)) <? cp_InputsThreshold params))
            "not enough inputs in the transaction to consolidate";
      unspent ← wrap (uc_ListUnspent client) "failed to list unspent outputs";
      used ← wrap (FindUsedInputs tx unspent) "failed to find used inputs in the transaction";
      '(originalTx, sigHashes) ← wrap (consolidateOutputs used)
                                   "failed to consolidate outputs from used inputs";
      _ ← guard (bool_decide (Serialize originalTx = rp_SerializedTx p))
            "provided transaction does not match the expected one";
      _ ← guard (length sigHashes =? length (rp_SigData p))%nat "signature hashes number mismatch";
      compareHashes (rp_SigData p) sigHashes
  end.

(** [NewConsensusMechanism] panics on an invalid destination. *)
Definition cons_NewConsensusMechanism {St : Type} : res (Mechanism St UtxoSigningData) :=
  match PayToAddrScript dstAddr with
  | Ok _ => Ok {| FormProposalData := λ _, cons_FormProposalData;
                  VerifyProposedData := λ d s, (s, cons_VerifyProposedData d) |}
  | _ => Panic
  end.

End consolidation.

(** ** signing/utxo/finalizer.go, resharing/utxo/finalizer.go

    [LockOutputs] is a call of the wallet whose error is dropped; [sent] is the
    outcome of [SendSignedTransaction] at the session leader. *)

Section finalizers.
Context `{SigLib, WireLib, !UtxoHelper} {St : Type} `{!DepositsQ St} (tssPub : ECDSAPub)
  (leader : bool) (sent : option error).

Definition uw_finalize (data : UtxoWithdrawalData) (signatures : list (option SignatureData))
    (s : St) : res (St * option error) :=
  match uw_ProposalData data with
  | None => Panic
  | Some p =>
      match Deserialize (bp_SerializedTx p) with
      | None => Ok (s, Some (ENew "failed to deserialize transaction"))
      | Some tx =>
          match InjectSignatures tx signatures tssPub with
          | Panic => Panic
          | Err e => Ok (s, Some (EWrap e "failed to inject signatures"))
          | Ok tx =>
              let withdrawalTxHash := ("0x" +:+ TxHash_of tx)%string in
              let encodedTx := EncodeTransaction tx in
              match q_UpdateProcessed
                      {| pd_Identifier := uw_DepositIdentifier data; pd_Signature := None;
                         pd_TxHash := Some withdrawalTxHash; pd_TxData := Some encodedTx |} s with
              | Err e => Ok (s, Some (EWrap e "failed to update signature"))
              | Panic => Panic
              | Ok s' =>
                  if negb leader then Ok (s', None)
                  else Ok (s', errors_Wrap sent "failed to send signed transaction")
              end
          end
      end
  end.

(** The result of the consolidation: the hash of the transaction and the error. *)
Definition us_finalize (data : UtxoSigningData) (signatures : list (option SignatureData))
    : res (string * option error) :=
  match us_ProposalData data with
  | None => Panic
  | Some p =>
      match Deserialize (rp_SerializedTx p) with
      | None => Ok ("", Some (ENew "failed to deserialize transaction"))
      | Some tx =>
          match InjectSignatures tx signatures tssPub with
          | Panic => Panic
          | Err e => Ok ("", Some (EWrap e "failed to inject signatures"))
          | Ok tx =>
              let withdrawalTxHash := ("0x" +:+ TxHash_of tx)%string in
              if negb leader then Ok (withdrawalTxHash, None)
              else Ok (withdrawalTxHash, errors_Wrap sent "failed to broadcast finalized transaction")
          end
      end
  end.

End finalizers.

(** ** Lemmas *)

Lemma compareHashes_Ok ps : ∀ cs u,
  length cs = length ps → compareHashes ps cs = Ok u → ps = cs.
Proof.
  induction ps as [|p ps IH]; intros [|c cs] u Hl Hok; simpl in *; try done.
  destruct (bool_decide_reflect (p = c)) as [->|]; [|done]. f_equal. by eapply IH; [lia|].
Qed.

Lemma compareHashes_refl ps : compareHashes ps ps = Ok tt.
Proof. induction ps as [|p ps IH]; [done|]. simpl. by rewrite bool_decide_true. Qed.

Section lemmas.
Context `{SigLib, WireLib, !UtxoHelper}.

Definition unspent_key (u : Unspent) : string * Z := (lu_TxID u, lu_Vout u).
Definition input_key (i : TxIn) : string * Z :=
  (Hash_String (op_Hash (ti_PreviousOutPoint i)), op_Index (ti_PreviousOutPoint i)).

Lemma MapUnspent_app unspent u :
  MapUnspent (unspent ++ [u]) = <[unspent_key u := u]> (MapUnspent unspent).
Proof. unfold MapUnspent. by rewrite foldl_app. Qed.

Lemma MapUnspent_Some unspent k u :
  MapUnspent unspent !! k = Some u → u ∈ unspent ∧ unspent_key u = k.
Proof.
  induction unspent as [|x l IH] using rev_ind; [done|]. rewrite MapUnspent_app, lookup_insert_Some.
  intros [[<- <-]|[_ Hl]]; [split; [set_solver|done]|]. apply IH in Hl. set_solver.
Qed.

Lemma MapUnspent_lookup unspent u :
  NoDup (unspent_key <$> unspent) → u ∈ unspent → MapUnspent unspent !! unspent_key u = Some u.
Proof.
  induction unspent as [|x l IH] using rev_ind; [set_solver|].
  rewrite fmap_app, MapUnspent_app. intros (Hl & Hx & _)%NoDup_app [Hu| ->%list_elem_of_singleton]%elem_of_app.
  - rewrite lookup_insert_ne; [by apply IH|]. intros Heq.
    apply (Hx (unspent_key u)); [by apply list_elem_of_fmap_2|]. rewrite <- Heq. set_solver.
  - by rewrite lookup_insert_eq.
Qed.

Lemma FindUsedInputs_Ok tx unspent used :
  FindUsedInputs tx unspent = Ok used ↔
  Forall2 (λ i u, MapUnspent unspent !! input_key i = Some u) (mt_TxIn tx) used.
Proof.
  unfold FindUsedInputs. destruct tx as [v ins o lt]. simpl. clear.
  revert used. induction ins as [|i ins IH]; intros used; simpl.
  - split; [injection 1 as <-; constructor|]. by inversion_clear 1.
  - split.
    + intros Hok. apply bind_Ok in Hok as (u & Hu & Hok). apply bind_Ok in Hok as (rest & Hr & Hok).
      injection Hok as <-. apply of_option_Ok in Hu. constructor; [done|]. by apply IH.
    + inversion_clear 1 as [|??? rest Hu Hr]. apply IH in Hr. unfold input_key in Hu.
      rewrite Hu. simpl. by rewrite Hr.
Qed.

Lemma FindUsedInputs_elem tx unspent used :
  FindUsedInputs tx unspent = Ok used → ∀ u, u ∈ used → u ∈ unspent.
Proof.
  intros Hok%FindUsedInputs_Ok u Hu. eapply Forall2_elem_of_r in Hok as (i & _ & Hi); [|done].
  by apply MapUnspent_Some in Hi as [? _].
Qed.

Lemma sigHashLoop_Ok a scripts : ∀ i hashes hs,
  sigHashLoop a i scripts hashes = Ok hs →
  length hs = length hashes ∧
  (∀ j, (j < i)%nat → hs !! j = hashes !! j) ∧
  ∀ j sc, scripts !! j = Some sc → ∃ v h, at_PrevInputValues a !! (i + j)%nat = Some v ∧
    CalculateSignatureHash sc (at_Tx a) (i + j) v = Ok h ∧ hs !! (i + j)%nat = Some h.
Proof.
  induction scripts as [|sc scripts IH]; intros i hashes hs Hok; simpl in Hok.
  - injection Hok as <-. split_and!; [done..|]. intros j sc Hj. by rewrite lookup_nil in Hj.
  - destruct (at_PrevInputValues a !! i) as [v|] eqn:Hv; [|done].
    apply bind_Ok in Hok as (h & Hh & Hok). apply wrap_Ok in Hh.
    destruct (Nat.ltb_spec i (length hashes)) as [Hi|]; [|done].
    apply IH in Hok as (Hlen & Hbelow & Hat). rewrite length_insert in Hlen. split_and!; [done| |].
    + intros j Hj. rewrite Hbelow by lia. by rewrite list_lookup_insert_ne by lia.
    + intros [|j] sc' Hj; simpl in Hj.
      * injection Hj as <-. exists v, h. rewrite Nat.add_0_r. split_and!; [done..|].
        rewrite Hbelow by lia. by rewrite list_lookup_insert_eq by done.
      * apply Hat in Hj. by rewrite Nat.add_succ_r.
Qed.

(** The signature hashes are those of the transaction at each input. *)
Definition hashes_of (a : AuthoredTx MsgTx) (hs : list bytes) : Prop :=
  length hs = length (mt_TxIn (at_Tx a)) ∧
  ∀ j sc, at_PrevScripts a !! j = Some sc → ∃ v h, at_PrevInputValues a !! j = Some v ∧
    CalculateSignatureHash sc (at_Tx a) j v = Ok h ∧ hs !! j = Some h.

Lemma formSignatureHashes_Ok a hs : formSignatureHashes a = Ok hs → hashes_of a hs.
Proof.
  intros Hok. apply sigHashLoop_Ok in Hok as (Hl & _ & Hat). rewrite length_replicate in Hl.
  done.
Qed.

End lemmas.

Lemma sum_values_app l k : sum_values (l ++ k) = sum_values l + sum_values k.
Proof. unfold sum_values. induction l as [|x l IH]; simpl; [lia|]. rewrite IH. lia. Qed.

(** ** The fee of a withdrawal *)

Section fee.
Context `{SigLib, WireLib, !UtxoHelper} (tssAddr : string).

(** Amounts and fees are far below the range of [int64]. *)
Definition amount_ok (z : Z) : Prop := 0 ≤ z < 2 ^ 62.

(** The transaction with the change output for whose size the fee is estimated. *)
Definition with_change (tssScript : bytes) (tx : MsgTx) : MsgTx :=
  set_outs (mt_TxOut tx ++ [{| to_Value := 0; to_PkScript := tssScript |}]) tx.

(** What the receiver gets and what goes back to the TSS address, for the transaction [a]
    authored for [amount]: the fee is not taken if it would leave dust; otherwise it is taken
    from the receiver and added to the change; without a change output, the rest of the inputs
    becomes one, unless it is dust. *)
Inductive fee_taken (a : AuthoredTx MsgTx) (feeRate amount : Z) (tssScript : bytes)
    : Z → list TxOut → Prop :=
| fee_kept :
    amount - EstimateFee (at_Tx a) feeRate < DustAmount ∨
    at_ChangeIndex a = -1 ∧
      amount - EstimateFee (with_change tssScript (at_Tx a)) feeRate < DustAmount →
    fee_taken a feeRate amount tssScript amount (tail (mt_TxOut (at_Tx a)))
| fee_to_change change :
    tail (mt_TxOut (at_Tx a)) = [change] →
    DustAmount ≤ amount - EstimateFee (at_Tx a) feeRate →
    fee_taken a feeRate amount tssScript (amount - EstimateFee (at_Tx a) feeRate)
      [{| to_Value := to_Value change + EstimateFee (at_Tx a) feeRate; to_PkScript := tssScript |}]
| fee_new_change :
    at_ChangeIndex a = -1 →
    DustAmount ≤ amount - EstimateFee (with_change tssScript (at_Tx a)) feeRate →
    DustAmount ≤ at_TotalInput a - amount →
    fee_taken a feeRate amount tssScript
      (amount - EstimateFee (with_change tssScript (at_Tx a)) feeRate)
      [{| to_Value := at_TotalInput a - amount; to_PkScript := tssScript |}]
| fee_no_change :
    at_ChangeIndex a = -1 → DustAmount ≤ amount - EstimateFee (at_Tx a) feeRate →
    at_TotalInput a - amount < DustAmount →
    fee_taken a feeRate amount tssScript (amount - EstimateFee (at_Tx a) feeRate) [].

Lemma valid_amount z : utxo_WithdrawalAmountValid z = true ↔ DustAmount ≤ z.
Proof. unfold utxo_WithdrawalAmountValid. rewrite negb_true_iff, Z.ltb_ge. done. Qed.

Lemma invalid_amount z : utxo_WithdrawalAmountValid z = false → z < DustAmount.
Proof. unfold utxo_WithdrawalAmountValid. by rewrite negb_false_iff, Z.ltb_lt. Qed.

Lemma int64_ok z : - 2 ^ 63 ≤ z < 2 ^ 63 → int64 z = z.
Proof. intros. apply int64_id. unfold in_int64, min_int64, max_int64. lia. Qed.

Lemma subtractFee_inputs a feeRate a' :
  subtractFeeFromWithdrawal tssAddr a feeRate = Ok a' →
  mt_TxIn (at_Tx a') = mt_TxIn (at_Tx a) ∧ at_PrevScripts a' = at_PrevScripts a ∧
  at_PrevInputValues a' = at_PrevInputValues a.
Proof.
  unfold subtractFeeFromWithdrawal. intros Hok. destruct (mt_TxOut _); [done|].
  repeat match type of Hok with
  | (if ?b then _ else _) = _ => destruct b
  | Ok _ = Ok _ => injection Hok as <-
  | Panic = Ok _ => discriminate
  end; done.
Qed.

(** The outputs of the settled transaction. *)
Lemma subtractFee_taken a feeRate a' script0 amount tssScript :
  (∀ tx, amount_ok (EstimateFee tx feeRate)) →
  amount_ok amount → amount_ok (at_TotalInput a) →
  PayToAddrScript tssAddr = Ok tssScript →
  outputs_with_change [{| to_Value := amount; to_PkScript := script0 |}] tssScript
    (at_ChangeIndex a) (mt_TxOut (at_Tx a)) →
  sum_values (mt_TxOut (at_Tx a)) ≤ at_TotalInput a →
  subtractFeeFromWithdrawal tssAddr a feeRate = Ok a' →
  ∃ v rest, mt_TxOut (at_Tx a') = {| to_Value := v; to_PkScript := script0 |} :: rest ∧
    fee_taken a feeRate amount tssScript v rest.
Proof.
  intros Hfee Ham Htot Hts Houts Hcov Hok. unfold amount_ok in *.
  unfold subtractFeeFromWithdrawal in Hok. rewrite Hts in Hok.
  pose proof (Hfee (at_Tx a)) as Hf. pose proof (Hfee (with_change tssScript (at_Tx a))) as Hfc.
  fold (with_change tssScript (at_Tx a)) in Hok.
  destruct Houts as [[Hci Ho]|[Hci (change & Ho & Hcs & Hc0)]];
    rewrite Hci in Hok; rewrite Ho in Hok, Hcov; simpl in *; rewrite int64_ok in Hok by lia.
  - destruct (utxo_WithdrawalAmountValid (amount - _)) eqn:Hv1 in Hok; simpl in Hok.
    2: { injection Hok as <-. exists amount, []. split; [done|].
         replace [] with (tail (mt_TxOut (at_Tx a))) by (by rewrite Ho). apply fee_kept. left.
         by apply invalid_amount. }
    apply valid_amount in Hv1. rewrite int64_ok in Hok by lia.
    destruct (utxo_WithdrawalAmountValid (amount - _)) eqn:Hv2 in Hok; simpl in Hok.
    2: { injection Hok as <-. exists amount, []. split; [done|].
         replace [] with (tail (mt_TxOut (at_Tx a))) by (by rewrite Ho). apply fee_kept. right.
         split; [done|]. by apply invalid_amount. }
    apply valid_amount in Hv2. unfold DustAmount in *.
    rewrite !int64_ok in Hok by (rewrite ?int64_ok by lia; lia).
    match type of Hok with context [at_TotalInput a - ?w - ?f] =>
      replace (at_TotalInput a - w - f) with (at_TotalInput a - amount) in Hok by lia end.
    destruct (utxo_WithdrawalAmountValid _) eqn:Hv3 in Hok; injection Hok as <-; simpl;
      rewrite Ho; simpl; rewrite int64_ok by lia; eexists _, _; (split; [done|]).
    + apply valid_amount in Hv3. by apply fee_new_change.
    + apply invalid_amount in Hv3. by apply fee_no_change.
  - destruct (utxo_WithdrawalAmountValid (amount - _)) eqn:Hv1 in Hok; simpl in Hok;
      injection Hok as <-; simpl; rewrite Ho; simpl.
    + apply valid_amount in Hv1. unfold DustAmount in *. rewrite !int64_ok by lia.
      eexists _, _. split; [done|]. unfold set_value. rewrite Hcs. apply fee_to_change; [|done].
      by rewrite Ho.
    + apply invalid_amount in Hv1. eexists _, _. split; [done|].
      replace [change] with (tail (mt_TxOut (at_Tx a))) by (by rewrite Ho). apply fee_kept. by left.
Qed.

(** Bounds: the receiver gets at most the amount and no dust, the rest is at most one output
    to the TSS address, and the inputs cover what is paid. *)
Lemma fee_taken_bounds a feeRate script0 amount tssScript v rest :
  (∀ tx, amount_ok (EstimateFee tx feeRate)) →
  outputs_with_change [{| to_Value := amount; to_PkScript := script0 |}] tssScript
    (at_ChangeIndex a) (mt_TxOut (at_Tx a)) →
  sum_values (mt_TxOut (at_Tx a)) ≤ at_TotalInput a →
  fee_taken a feeRate amount tssScript v rest →
  Forall (λ o, to_PkScript o = tssScript) rest ∧ (length rest ≤ 1)%nat ∧
  v ≤ amount ∧ (v < amount → DustAmount ≤ v) ∧ v + sum_values rest ≤ at_TotalInput a.
Proof.
  intros Hfee Houts Hcov Hf. unfold amount_ok in *. unfold sum_values in *.
  pose proof (Hfee (at_Tx a)) as Hf1. pose proof (Hfee (with_change tssScript (at_Tx a))) as Hf2.
  destruct Houts as [[Hci Ho]|[Hci (change & Ho & Hcs & Hc0)]]; rewrite Ho in Hcov; simpl in Hcov, Hci;
    inversion Hf as [Hd|c Hc Hd|? Hd1 Hd2|? Hd1 Hd2]; subst;
    rewrite ?Ho in *; simpl in *; simplify_eq; unfold DustAmount in *;
    (split_and!; [by repeat constructor|simpl; lia|lia|lia|lia]).
Qed.

End fee.

(** ** The constructor *)

Section constructor.
Context `{SigLib, WireLib, !WireLibSpec, !GoSort, !UtxoHelper, !UtxoHelperSpec, BitcoinEncoding}
  (tssAddr : string).

(** An amount of less than 2^51 satoshi: all coins are 21 * 10^14. *)
Definition coin_ok (u : Unspent) : Prop := 0 ≤ ToUnits (lu_Amount u) < 2 ^ 51.

Lemma total_of_bound used :
  Forall coin_ok used → (length used ≤ 2000)%nat → amount_ok (total_of used).
Proof.
  intros Hc Hl. assert (0 ≤ total_of used ≤ 2 ^ 51 * Z.of_nat (length used)) as Hb.
  { induction used as [|u used IH] using rev_ind; [done|].
    rewrite length_app in Hl. simpl in Hl. apply Forall_app in Hc as [Hc1 Hc2].
    rewrite total_of_snoc, length_app. inversion_clear Hc2 as [|?? Hu _]. unfold coin_ok in Hu.
    specialize (IH Hc1 ltac:(lia)).
    change (2 ^ 51) with 2251799813685248 in *.
    rewrite int64_ok by lia. simpl length. lia. }
  change (2 ^ 51) with 2251799813685248 in *. unfold amount_ok. lia.
Qed.

(** [IsValid] succeeds exactly through its steps. *)
Lemma uw_IsValid_steps client data deposit b :
  uw_IsValid client tssAddr data deposit = Ok b →
  ∃ p tx unspent usedInputs amount script a a' hs,
    b = true ∧ uw_ProposalData data = Some p ∧ Deserialize (bp_SerializedTx p) = Some tx ∧
    FeeRateValid (bp_FeeRate p) = true ∧ uc_ListUnspent client = Ok unspent ∧
    FindUsedInputs tx unspent = Ok usedInputs ∧
    parse_Z (d_WithdrawalAmount deposit) = Some amount ∧
    PayToAddrScript (d_Receiver deposit) = Ok script ∧
    NewUnsignedTransaction usedInputs (bp_FeeRate p)
      [{| to_Value := int64 amount; to_PkScript := script |}] tssAddr = Ok a ∧
    subtractFeeFromWithdrawal tssAddr a (bp_FeeRate p) = Ok a' ∧
    Serialize (at_Tx a') = bp_SerializedTx p ∧ formSignatureHashes a' = Ok hs ∧ bp_SigData p = hs.
Proof.
  unfold uw_IsValid. destruct (uw_ProposalData data) as [p|]; [|done]. intros Hok.
  inv_ok. repeat match goal with
  | H : bool_decide _ = true |- _ => apply bool_decide_eq_true in H
  | H : (_ =? _)%nat = true |- _ => apply Nat.eqb_eq in H
  end.
  match goal with Hc : compareHashes _ _ = Ok _ |- _ => apply compareHashes_Ok in Hc; [|done] end.
  subst. by do 9 eexists.
Qed.

Lemma uw_IsValid_intro client data deposit p tx unspent usedInputs amount script a a' hs :
  uw_ProposalData data = Some p → Deserialize (bp_SerializedTx p) = Some tx →
  FeeRateValid (bp_FeeRate p) = true → uc_ListUnspent client = Ok unspent →
  FindUsedInputs tx unspent = Ok usedInputs →
  parse_Z (d_WithdrawalAmount deposit) = Some amount →
  PayToAddrScript (d_Receiver deposit) = Ok script →
  NewUnsignedTransaction usedInputs (bp_FeeRate p)
    [{| to_Value := int64 amount; to_PkScript := script |}] tssAddr = Ok a →
  subtractFeeFromWithdrawal tssAddr a (bp_FeeRate p) = Ok a' →
  Serialize (at_Tx a') = bp_SerializedTx p → formSignatureHashes a' = Ok hs → bp_SigData p = hs →
  uw_IsValid client tssAddr data deposit = Ok true.
Proof.
  intros Hp Ht Hf Hu Hi Ha Hs Hn Hsub Hser Hh <-. unfold uw_IsValid.
  rewrite Hp, Ht. simpl. rewrite Hf. simpl. rewrite Hu. simpl. rewrite Hi. simpl.
  rewrite Ha. simpl. rewrite Hs. simpl. rewrite Hn. simpl. rewrite Hsub. simpl.
  rewrite bool_decide_true by done. simpl. rewrite Hh. simpl. rewrite Nat.eqb_refl. simpl.
  by rewrite compareHashes_refl.
Qed.

Lemma EstimateFeeOrDefault_valid fee : FeeRateValid (EstimateFeeOrDefault fee) = true.
Proof.
  unfold EstimateFeeOrDefault, FeeRateValid. destruct fee as [f| |]; try done.
  destruct (Z.ltb_spec f DefaultFeeRateBtcPerKvb); [done|].
  destruct (Z.ltb_spec MaxFeeRateBtcPerKvb f); [done|].
  rewrite negb_true_iff, orb_false_iff, !Z.ltb_ge. done.
Qed.

(** The wallet lists an outpoint once and displays its hash canonically. *)
Record wallet_wf (unspent : list Unspent) : Prop := {
  ww_once : NoDup (unspent_key <$> unspent);
  ww_canonical u h : u ∈ unspent → NewHashFromStr (lu_TxID u) = Some h → Hash_String h = lu_TxID u }.

Lemma FindUsedInputs_authored unspent used ins tx :
  wallet_wf unspent → (∀ u, u ∈ used → u ∈ unspent) → Forall2 (input_of NewTxIn) used ins →
  mt_TxIn tx = ins → FindUsedInputs tx unspent = Ok used.
Proof.
  intros [Hnd Hcan] Hin Hf Htx. apply FindUsedInputs_Ok. rewrite Htx. clear Htx.
  induction Hf as [|u i used ins (h & Hh & ->) _ IH]; [constructor|]. constructor.
  - unfold input_key. simpl. rewrite (Hcan u h) by (done || set_solver).
    apply MapUnspent_lookup; [done|set_solver].
  - apply IH. set_solver.
Qed.

(** An authored transaction that pays something has inputs. *)
Lemma authored_inputs used outs script a :
  authored_from used outs script a → 0 < sum_values outs → mt_TxIn (at_Tx a) ≠ [].
Proof.
  intros Haf Hpos Hnil. pose proof (af_inputs _ _ _ _ Haf) as Hin. rewrite Hnil in Hin.
  apply Forall2_nil_inv_r in Hin as ->. pose proof (af_covered _ _ _ _ Haf) as Hcov.
  rewrite (af_total _ _ _ _ Haf) in Hcov. change (total_of []) with 0 in Hcov.
  destruct (af_outs _ _ _ _ Haf) as [[_ Ho]|[_ (change & Ho & _ & Hc)]]; rewrite Ho in Hcov; [lia|].
  rewrite sum_values_app in Hcov. unfold sum_values at 2 in Hcov. simpl in Hcov. lia.
Qed.

(** C12: A UTXO withdrawal proposal formed by one node is accepted by every node
    whose wallet also knows the proposer's outputs (each outpoint once, hashes
    displayed canonically): from the inputs of the proposed transaction alone the
    validator rebuilds the same transaction, for the proposed fee rate, and the same
    signature hashes, so that honest nodes agree.  The amount is positive, as that of every
    deposit that was checked against the dust limit: so the transaction has inputs. *)
Theorem utxo_proposal_accepted proposer validator deposit t known unspent :
  uc_ListUnspent proposer = Ok known → uc_ListUnspent validator = Ok unspent →
  known ⊆ unspent → wallet_wf unspent →
  (∀ z, parse_Z (d_WithdrawalAmount deposit) = Some z → 0 < int64 z) →
  uw_FormSigningData proposer tssAddr deposit = Ok t →
  uw_DepositIdentifier t = d_ident deposit ∧
  uw_IsValid validator tssAddr t deposit = Ok true.
Proof.
  intros Hk Hu Hsub Hwf Hpos Hok. unfold uw_FormSigningData in Hok.
  apply bind_Ok in Hok as (amount & Ha & Hok). apply of_option_Ok in Ha.
  apply bind_Ok in Hok as (script & Hs & Hok). apply wrap_Ok in Hs.
  apply bind_Ok in Hok as (un & Hun & Hok). apply wrap_Ok in Hun. rewrite Hk in Hun.
  apply (inj Ok) in Hun as <-.
  apply bind_Ok in Hok as (a & Hn & Hok). apply wrap_Ok in Hn.
  apply bind_Ok in Hok as (a' & Hsb & Hok). apply bind_Ok in Hok as (hs & Hh & Hok).
  apply wrap_Ok in Hh. apply (inj Ok) in Hok as <-. split.
  { unfold uw_DepositIdentifier, from_msg. simpl. by destruct (d_ident deposit). }
  apply helper_authored in Hn as (used & ts & Hused & Hts & Haf & Hn).
  pose proof (subtractFee_inputs _ _ _ _ Hsb) as (Hins & _).
  eapply uw_IsValid_intro; simpl; [done| | |done| |done..].
  - apply Deserialize_Serialize. rewrite Hins. eapply authored_inputs; [done|].
    specialize (Hpos _ Ha). unfold sum_values. simpl. lia.
  - apply EstimateFeeOrDefault_valid.
  - eapply FindUsedInputs_authored; [done| |apply Haf|done].
    intros u Hin. apply Hsub. by eapply elem_of_submseteq.
Qed.

(** C13: An accepted UTXO withdrawal proposal spends only outputs of the validator's
    own wallet, pays the deposit's receiver first, at most the withdrawal amount and
    no less than the dust limit when the fee was taken from it, and pays at most one other
    output, to the TSS address, of exactly the value [fee_taken] gives for the transaction
    authored from these inputs: the author's change plus the fee taken from the receiver,
    or, without a change output, the inputs less the withdrawal amount unless that is dust.
    It pays out no more than its inputs and asks for signatures of exactly this
    transaction, one per input. *)
Theorem utxo_IsValid_sound client data deposit p tx unspent b :
  (∀ tx' r, FeeRateValid r = true → amount_ok (EstimateFee tx' r)) →
  (∀ z, parse_Z (d_WithdrawalAmount deposit) = Some z → 0 < z < 2 ^ 62) →
  uc_ListUnspent client = Ok unspent → Forall coin_ok unspent →
  uw_ProposalData data = Some p → Deserialize (bp_SerializedTx p) = Some tx →
  (length (mt_TxIn tx) ≤ 2000)%nat →
  uw_IsValid client tssAddr data deposit = Ok b →
  ∃ used amount script tssScript a v rest,
    used ⊆ unspent ∧ Forall2 (input_of NewTxIn) used (mt_TxIn tx) ∧
    parse_Z (d_WithdrawalAmount deposit) = Some amount ∧
    PayToAddrScript (d_Receiver deposit) = Ok script ∧ PayToAddrScript tssAddr = Ok tssScript ∧
    mt_TxOut tx = {| to_Value := v; to_PkScript := script |} :: rest ∧
    Forall (λ o, to_PkScript o = tssScript) rest ∧ (length rest ≤ 1)%nat ∧
    v ≤ amount ∧ (v < amount → DustAmount ≤ v) ∧
    NewUnsignedTransaction used (bp_FeeRate p)
      [{| to_Value := amount; to_PkScript := script |}] tssAddr = Ok a ∧
    at_TotalInput a = total_of used ∧ fee_taken a (bp_FeeRate p) amount tssScript v rest ∧
    sum_values (mt_TxOut tx) ≤ total_of used ∧
    length (bp_SigData p) = length (mt_TxIn tx) ∧
    ∀ j u, used !! j = Some u → ∃ sc h,
      hex_DecodeString (lu_ScriptPubKey u) = Some sc ∧ bp_SigData p !! j = Some h ∧
      CalculateSignatureHash sc tx j (ToUnits (lu_Amount u)) = Ok h.
Proof.
  intros Hfee Ham Hu Hcoins Hp Htx Hlen Hok.
  apply uw_IsValid_steps in Hok as
    (p' & tx' & un & ui & amount & script & a & a' & hs & _ & Hp' & Htx' & Hr & Hun & Hui & Ha & Hs
     & Hn & Hsb & Hser & Hh & Hsig).
  rewrite Hp in Hp'. injection Hp' as <-. rewrite Htx in Htx'. injection Htx' as <-.
  rewrite Hu in Hun. apply (inj Ok) in Hun as <-. specialize (Ham _ Ha).
  rewrite (int64_ok amount) in Hn by lia.
  apply helper_authored in Hn as (used & ts & Hused & Hts & Haf & Hn).
  pose proof (subtractFee_inputs _ _ _ _ Hsb) as (Hins & Hscr & Hval).
  rewrite <- Hser, Deserialize_Serialize in Htx
    by (rewrite Hins; eapply authored_inputs; [done|unfold sum_values; simpl; lia]).
  injection Htx as Htx.
  assert (used ⊆ unspent) as Hsub.
  { intros u Hin. eapply FindUsedInputs_elem; [done|]. by eapply elem_of_submseteq. }
  assert (length used = length (mt_TxIn (at_Tx a))) as Hlu by (by eapply Forall2_length, Haf).
  assert (amount_ok (at_TotalInput a)) as Htot.
  { rewrite (af_total _ _ _ _ Haf). apply total_of_bound; [|rewrite Hlu, <- Hins, Htx; done].
    apply Forall_forall. intros u Hin. rewrite Forall_forall in Hcoins. by apply Hcoins, Hsub. }
  pose proof (λ tx, Hfee tx _ Hr) as Hfee'.
  destruct (subtractFee_taken tssAddr a (bp_FeeRate p) a' script amount ts) as (v & rest & Ho & Ht);
    [done|unfold amount_ok; lia|done|done|apply Haf|apply Haf|done|].
  destruct (fee_taken_bounds a (bp_FeeRate p) script amount ts v rest) as (Hrest & Hl & Hv & Hd & Hcov);
    [done|apply Haf|apply Haf|done|].
  apply formSignatureHashes_Ok in Hh as [Hhl Hhat].
  exists used, amount, script, ts, a, v, rest. rewrite <- Htx in *. rewrite Hsig. split_and!; try done.
  - rewrite Hins. apply Haf.
  - apply Haf.
  - rewrite <- (af_total _ _ _ _ Haf), Ho. done.
  - intros j u Hj. pose proof (af_scripts _ _ _ _ Haf) as Hsc.
    eapply Forall2_lookup_l in Hsc as (sc & Hscj & Hdec); [|done]. rewrite <- Hscr in Hscj.
    apply Hhat in Hscj as (w & h & Hw & Hc & Hhj). exists sc, h. split_and!; [done..|].
    rewrite Hval, (af_values _ _ _ _ Haf), list_lookup_fmap, Hj in Hw. by injection Hw as <-.
Qed.

End constructor.

(** ** Consolidation *)

Section consolidation_theorems.
Context `{SigLib, WireLib, !WireLibSpec, !GoSort, !UtxoHelper, !UtxoHelperSpec}
  (dstAddr : string) (params : ConsolidateOutputsParams).

Lemma addInputs_Ok us : ∀ ins total ins' total',
  addInputs us ins total = Ok (ins', total') →
  total' = foldl (λ t u, int64 (t + ToUnits (lu_Amount u))) total us ∧
  ∃ l, ins' = ins ++ l ∧ Forall2 (input_of NewTxIn) us l.
Proof.
  induction us as [|u us IH]; intros ins total ins' total' Hok; simpl in Hok.
  - injection Hok as <- <-. split; [done|]. exists []. by rewrite app_nil_r.
  - apply bind_Ok in Hok as (h & Hh & Hok). apply of_option_Ok in Hh.
    apply IH in Hok as (-> & l & -> & Hl). split; [done|].
    eexists (_ :: l). rewrite <- (assoc_L app). split; [done|]. constructor; [by exists h|done].
Qed.

Lemma consolidationHashes_Ok tx arranged : ∀ i hs,
  consolidationHashes tx i arranged = Ok hs →
  length hs = length arranged ∧
  ∀ j u, arranged !! j = Some u → ∃ sc h, hex_DecodeString (lu_ScriptPubKey u) = Some sc ∧
    hs !! j = Some h ∧ CalculateSignatureHash sc tx (i + j) (ToUnits (lu_Amount u)) = Ok h.
Proof.
  induction arranged as [|u us IH]; intros i hs Hok; simpl in Hok.
  - injection Hok as <-. split; [done|]. intros j u Hj. by rewrite lookup_nil in Hj.
  - apply bind_Ok in Hok as (sc & Hsc & Hok). apply of_option_Ok in Hsc.
    apply bind_Ok in Hok as (h & Hh & Hok). apply wrap_Ok in Hh.
    apply bind_Ok in Hok as (rest & Hr & Hok). injection Hok as <-.
    apply IH in Hr as [Hl Hat]. split; [by simpl; rewrite Hl|].
    intros [|j] u' Hj; simpl in Hj.
    + injection Hj as <-. exists sc, h. by rewrite Nat.add_0_r.
    + apply Hat in Hj. by rewrite Nat.add_succ_r.
Qed.

Lemma sum_values_replicate n v s :
  sum_values (replicate n {| to_Value := v; to_PkScript := s |}) = Z.of_nat n * v.
Proof. induction n as [|n IH]; [done|]. simpl replicate. cbn [sum_values foldr to_Value] in *.
  unfold sum_values in IH. rewrite IH. lia. Qed.

(** What a consolidation transaction is: it spends exactly the given outputs, pays
    the whole of them, less the fee estimated for its size, to the destination in [OutputsCount] outputs above
    the dust limit, and comes with one signature hash per input. *)
Record consolidation_of (unspent : list Unspent) (script : bytes) (tx : MsgTx) (hs : list bytes)
    : Prop := {
  co_inputs : ∃ arranged, arranged ≡ₚ unspent ∧ Forall2 (input_of NewTxIn) arranged (mt_TxIn tx) ∧
    length hs = length arranged ∧
    ∀ j u, arranged !! j = Some u → ∃ sc h, hex_DecodeString (lu_ScriptPubKey u) = Some sc ∧
      hs !! j = Some h ∧ CalculateSignatureHash sc tx j (ToUnits (lu_Amount u)) = Ok h;
  co_outputs : Z.of_nat (length (mt_TxOut tx)) = cp_OutputsCount params;
  co_paid : Forall (λ o, to_PkScript o = script ∧ DustAmount ≤ to_Value o) (mt_TxOut tx);
  co_sum : sum_values (mt_TxOut tx) =
    foldr (λ u t, ToUnits (lu_Amount u) + t) 0 unspent -
    EstimateFee (set_outs (set_value 0 <$> mt_TxOut tx) tx) (cp_FeeRate params) }.

Lemma total_of_exact used :
  Forall coin_ok used → (length used ≤ 2000)%nat →
  total_of used = foldr (λ u t, ToUnits (lu_Amount u) + t) 0 used.
Proof.
  intros Hc Hl. induction used as [|u used IH] using rev_ind; [done|].
  pose proof (total_of_bound (used ++ [u]) Hc Hl) as Hb.
  rewrite length_app in Hl. simpl in Hl. apply Forall_app in Hc as [Hc1 Hc2].
  pose proof (total_of_bound used Hc1 ltac:(lia)) as Hb1.
  inversion_clear Hc2 as [|?? Hu _]. unfold coin_ok, amount_ok in *.
  rewrite total_of_snoc, int64_ok, IH, foldr_app by (done || lia). simpl.
  generalize (ToUnits (lu_Amount u)) as z. intros z. clear.
  induction used as [|x used IH]; simpl; lia.
Qed.

Lemma sum_perm l k : l ≡ₚ k →
  foldr (λ u t, ToUnits (lu_Amount u) + t) 0 l = foldr (λ u t, ToUnits (lu_Amount u) + t) 0 k.
Proof. induction 1; simpl; lia. Qed.

Lemma consolidateOutputs_inputs unspent tx hs :
  consolidateOutputs dstAddr params unspent = Ok (tx, hs) →
  Forall2 (input_of NewTxIn) (ArrangeOutputs unspent) (mt_TxIn tx).
Proof.
  unfold consolidateOutputs. intros Hc. apply bind_Ok in Hc as ([ins total] & Hadd & Hc).
  apply addInputs_Ok in Hadd as (_ & l & -> & Hins). rewrite app_nil_l in Hc.
  destruct (_ =? 0); [done|]. destruct (negb _); [done|]. destruct (set_value _ <$> _); [done|].
  apply bind_Ok in Hc as (? & _ & Hc). by injection Hc as <- _.
Qed.

Lemma consolidateOutputs_correct unspent tx hs script :
  0 < cp_OutputsCount params < 2 ^ 31 → (∀ tx', amount_ok (EstimateFee tx' (cp_FeeRate params))) →
  PayToAddrScript dstAddr = Ok script → Forall coin_ok unspent → (length unspent ≤ 2000)%nat →
  consolidateOutputs dstAddr params unspent = Ok (tx, hs) →
  consolidation_of unspent script tx hs.
Proof.
  intros Hn Hfee Hs Hc Hl Hok. unfold consolidateOutputs in Hok. rewrite Hs in Hok.
  apply bind_Ok in Hok as ([ins total] & Hadd & Hok).
  apply addInputs_Ok in Hadd as (-> & l & -> & Hins). rewrite app_nil_l in Hok.
  fold (total_of (ArrangeOutputs unspent)) in Hok.
  rewrite total_of_exact, (sum_perm _ unspent) in Hok
    by (rewrite ?helper_arranged; done).
  assert (amount_ok (foldr (λ u t, ToUnits (lu_Amount u) + t) 0 unspent)) as Htot
    by (rewrite <- total_of_exact by done; by apply total_of_bound).
  set (T := foldr _ 0 unspent) in *. set (n := cp_OutputsCount params) in *.
  match type of Hok with context [EstimateFee ?t (cp_FeeRate params)] =>
    pose proof (Hfee t) as Hf; set (fee := EstimateFee t (cp_FeeRate params)) in * end.
  unfold amount_ok in *. rewrite int64_ok in Hok by lia.
  destruct (Z.eqb_spec n 0) as [|_]; [lia|].
  destruct (utxo_WithdrawalAmountValid (Z.quot (T - fee) n)) eqn:Hv; [|done]. simpl in Hok.
  apply valid_amount in Hv. unfold DustAmount in Hv.
  pose proof (Z.quot_rem' (T - fee) n) as Hqr.
  assert (0 ≤ T - fee) as Hpos.
  { destruct (Z.le_gt_cases 0 (T - fee)) as [|Hneg]; [done|].
    pose proof (Z.quot_opp_l (T - fee) n ltac:(lia)) as Hopp.
    pose proof (Z.quot_pos (- (T - fee)) n ltac:(lia) ltac:(lia)). lia. }
  pose proof (Z.rem_bound_pos (T - fee) n ltac:(lia) ltac:(lia)) as Hrem.
  set (q := Z.quot (T - fee) n) in *. set (r := Z.rem (T - fee) n) in *.
  assert (0 ≤ q ≤ T - fee) by nia.
  destruct (Z.to_nat n) as [|m] eqn:Hm; [lia|]. simpl in Hok. rewrite fmap_replicate in Hok.
  unfold set_value in Hok at 2. simpl in Hok. rewrite int64_ok in Hok by lia.
  apply bind_Ok in Hok as (hs' & Hh & Hok). injection Hok as <- <-.
  apply consolidationHashes_Ok in Hh as [Hhl Hat]. split; simpl.
  - exists (ArrangeOutputs unspent). split_and!; [apply helper_arranged|done..].
  - rewrite length_replicate. lia.
  - constructor; [unfold DustAmount; simpl; split; [done|lia]|].
    apply Forall_replicate. unfold DustAmount. simpl. split; [done|lia].
  - unfold set_outs. simpl. rewrite fmap_replicate. unfold set_value at 3 4. simpl.
    change (EstimateFee _ (cp_FeeRate params)) with fee.
    pose proof (sum_values_replicate m q script) as Hsum.
    unfold sum_values, set_value in *. simpl. rewrite Hsum. nia.
Qed.

(** The consolidation proposal of one node for at least one input is accepted by every node
    whose wallet also knows the proposer's outputs, although the validator rebuilds the
    transaction from the inputs in the order of the proposal. *)
Theorem consolidation_accepted proposer validator t known unspent :
  0 < cp_InputsThreshold params →
  uc_ListUnspent proposer = Ok known → uc_ListUnspent validator = Ok unspent →
  known ⊆ unspent → wallet_wf unspent →
  cons_FormProposalData proposer dstAddr params = Ok (Some t) →
  cons_VerifyProposedData validator dstAddr params t = Ok tt.
Proof.
  intros Hpos Hk Hu Hsub Hwf Hok. unfold cons_FormProposalData in Hok. rewrite Hk in Hok. simpl in Hok.
  destruct (Z.ltb_spec (Z.of_nat (length known)) (cp_InputsThreshold params)) as [|Hth]; [done|].
  apply bind_Ok in Hok as ([tx hs] & Hc & Hok). apply wrap_Ok in Hc. injection Hok as <-.
  pose proof (consolidateOutputs_inputs _ _ _ Hc) as Hins.
  assert (length (mt_TxIn tx) = length known) as Hlen.
  { rewrite <- (Forall2_length _ _ _ Hins). by rewrite helper_arranged. }
  unfold cons_VerifyProposedData. simpl.
  rewrite Deserialize_Serialize by (intros Hnil; rewrite Hnil in Hlen; simpl in Hlen; lia).
  simpl. rewrite Hlen.
  destruct (Z.ltb_spec (Z.of_nat (length known)) (cp_InputsThreshold params)); [lia|]. simpl.
  rewrite Hu. simpl. erewrite FindUsedInputs_authored; [|done| |done|done].
  2:{ intros u Hin. apply Hsub. by rewrite helper_arranged in Hin. }
  simpl. assert (consolidateOutputs dstAddr params (ArrangeOutputs known) = Ok (tx, hs)) as ->.
  { unfold consolidateOutputs in *. by rewrite helper_arranged_twice. }
  simpl. rewrite bool_decide_true by done. simpl. rewrite Nat.eqb_refl. simpl.
  apply compareHashes_refl.
Qed.

(** C14: An accepted consolidation proposal spends only outputs of the validator's
    own wallet, at least the threshold of them, and sends all of them, less exactly the
    estimated fee, to the destination address, in the configured number of outputs, each above the
    dust limit; the signature hashes are those of this transaction. *)
Theorem consolidation_sound client t unspent script :
  0 < cp_InputsThreshold params →
  0 < cp_OutputsCount params < 2 ^ 31 → (∀ tx, amount_ok (EstimateFee tx (cp_FeeRate params))) →
  PayToAddrScript dstAddr = Ok script → uc_ListUnspent client = Ok unspent →
  Forall coin_ok unspent →
  (∀ p tx, us_ProposalData t = Some p → Deserialize (rp_SerializedTx p) = Some tx →
     (length (mt_TxIn tx) ≤ 2000)%nat) →
  cons_VerifyProposedData client dstAddr params t = Ok tt →
  ∃ p tx used, us_ProposalData t = Some p ∧ Deserialize (rp_SerializedTx p) = Some tx ∧
    used ⊆ unspent ∧ cp_InputsThreshold params ≤ Z.of_nat (length used) ∧
    consolidation_of used script tx (rp_SigData p).
Proof.
  intros Hpos Hn Hfee Hs Hu Hc Hl Hok. unfold cons_VerifyProposedData in Hok.
  destruct (us_ProposalData t) as [p|]; [|done].
  apply bind_Ok in Hok as (tx & Htx & Hok). apply of_option_Ok in Htx.
  specialize (Hl p tx eq_refl Htx).
  apply bind_Ok in Hok as (? & Hth & Hok). apply guard_Ok, negb_true_iff, Z.ltb_ge in Hth.
  apply bind_Ok in Hok as (un & Hun & Hok). apply wrap_Ok in Hun. rewrite Hu in Hun.
  apply (inj Ok) in Hun as <-. apply bind_Ok in Hok as (used & Hused & Hok). apply wrap_Ok in Hused.
  apply bind_Ok in Hok as ([tx' hs] & Hco & Hok). apply wrap_Ok in Hco.
  apply bind_Ok in Hok as (? & Hser & Hok). apply guard_Ok, bool_decide_eq_true in Hser.
  apply bind_Ok in Hok as (? & Hlen & Hok). apply guard_Ok, Nat.eqb_eq in Hlen.
  apply compareHashes_Ok in Hok; [|done]. subst hs.
  assert (length (mt_TxIn tx) = length used) as Hlu
    by (by apply FindUsedInputs_Ok, Forall2_length in Hused).
  assert (mt_TxIn tx' ≠ []) as Hne.
  { pose proof (consolidateOutputs_inputs _ _ _ Hco) as Hins%Forall2_length.
    rewrite helper_arranged in Hins. intros Hnil. rewrite Hnil in Hins. simpl in Hins. lia. }
  rewrite <- Hser, Deserialize_Serialize in Htx by done. injection Htx as ->.
  pose proof (FindUsedInputs_elem _ _ _ Hused) as Hin.
  exists p, tx, used. split_and!; [done| |done|lia|].
  - rewrite <- Hser. by apply Deserialize_Serialize.
  - eapply consolidateOutputs_correct; try done; [|lia].
    apply Forall_forall. intros u Hui. rewrite Forall_forall in Hc. by apply Hc, Hin.
Qed.

End consolidation_theorems.

(** ** A concrete wallet and library, for the witnesses *)

Module SampleUtxo.
#[export] Existing Instance SampleSigning.lib.

(** Transactions are written as the bits of stdpp's encoding. *)
#[export] Instance byte_countable : Countable byte :=
  inj_countable Byte.to_N Byte.of_N Byte.of_to_N.
#[export] Instance OutPoint_countable : Countable OutPoint :=
  inj_countable' (λ o, (op_Hash o, op_Index o))
    (λ '(h, i), {| op_Hash := h; op_Index := i |}) (λ '{| op_Hash := h; op_Index := i |}, eq_refl).
#[export] Instance TxIn_eq_dec : EqDecision TxIn.
Proof. solve_decision. Defined.
#[export] Instance TxIn_countable : Countable TxIn.
Proof.
  refine (inj_countable'
    (λ i, (ti_PreviousOutPoint i, ti_SignatureScript i, ti_Witness i, ti_Sequence i))
    (λ '(o, s, w, q), {| ti_PreviousOutPoint := o; ti_SignatureScript := s; ti_Witness := w;
                          ti_Sequence := q |}) _). by intros [].
Defined.
#[export] Instance TxOut_countable : Countable TxOut.
Proof.
  refine (inj_countable' (λ o, (to_Value o, to_PkScript o))
    (λ '(v, s), {| to_Value := v; to_PkScript := s |}) _). by intros [].
Defined.
#[export] Instance MsgTx_eq_dec : EqDecision MsgTx.
Proof. solve_decision. Defined.
#[export] Instance MsgTx_countable : Countable MsgTx.
Proof.
  refine (inj_countable' (λ t, (mt_Version t, mt_TxIn t, mt_TxOut t, mt_LockTime t))
    (λ '(v, i, o, l), {| mt_Version := v; mt_TxIn := i; mt_TxOut := o; mt_LockTime := l |}) _).
  by intros [].
Defined.

Fixpoint pos_bytes (p : positive) : bytes :=
  match p with
  | xH => []
  | xO p => Byte.x00 :: pos_bytes p
  | xI p => Byte.x01 :: pos_bytes p
  end.
Fixpoint bytes_pos (bs : bytes) : positive :=
  match bs with
  | [] => xH
  | b :: r => if Byte.eqb b Byte.x00 then xO (bytes_pos r) else xI (bytes_pos r)
  end.
Lemma bytes_pos_bytes p : bytes_pos (pos_bytes p) = p.
Proof. induction p; simpl; by rewrite ?IHp. Qed.

(** Amounts are satoshi. *)
#[export] Instance wire : WireLib := {|
  float64 := Z; float_ltb := Z.ltb; float_is_zero := Z.eqb 0; NewAmount := Some;
  Serialize := λ tx, pos_bytes (encode tx);
  Deserialize := λ bs, decode (bytes_pos bs);
  NewHashFromStr := λ s, Some (bytes_of_string s); Hash_String := string_of_bytes |}.

#[export] Instance wire_spec : WireLibSpec.
Proof.
  split.
  - intros tx _. simpl. by rewrite bytes_pos_bytes, decode_encode.
  - split; simpl; intros *; rewrite ?Z.ltb_lt, ?Z.ltb_ge; lia.
Qed.

Fixpoint insert_sorted {A} (less : A → A → bool) (x : A) (l : list A) : list A :=
  match l with
  | [] => [x]
  | y :: l' => if less y x then y :: insert_sorted less x l' else x :: l
  end.
#[export] Instance sort : GoSort := λ A less l, foldr (insert_sorted less) [] l.

Lemma insert_sorted_perm {A} (less : A → A → bool) x l : insert_sorted less x l ≡ₚ x :: l.
Proof.
  induction l as [|y l IH]; [done|]. simpl. destruct (less y x); [|done].
  rewrite IH. apply perm_swap.
Qed.

Lemma insert_sorted_sorted {A} (less : A → A → bool) x l :
  strict_weak less → Sorted (λ a b, less b a = false) l →
  Sorted (λ a b, less b a = false) (insert_sorted less x l).
Proof.
  intros Hw. induction 1 as [|y l Hs IH Hr]; simpl; [by repeat constructor|].
  destruct (less y x) eqn:E; [|by repeat constructor].
  constructor; [done|]. destruct l as [|z l]; simpl; [constructor; by apply Hw|].
  destruct (less z x); [by inversion_clear Hr; constructor|]. constructor. by apply Hw.
Qed.

#[export] Instance sort_spec : GoSortSpec.
Proof.
  split; unfold go_sort, sort; intros A less l.
  - induction l as [|x l IH]; [done|]. simpl. by rewrite insert_sorted_perm, IH.
  - intros Hw. induction l; simpl; [constructor|]. by apply insert_sorted_sorted.
  - intros Hw. induction 1 as [|x l _ IH Hr]; [done|]. simpl. rewrite IH.
    destruct Hr as [|y l Hy]; [done|]. simpl. by rewrite Hy.
Qed.

#[export] Instance scripts : ScriptLib := {|
  Addr_t := string; DecodeAddress := Some; Addr_String := id;
  lib_PayToAddrScript := λ a, Some (bytes_of_string a);
  is_PubKeyHashTy := λ _, true; is_NullDataTy := λ _, false;
  ExtractPkScriptAddrs := λ s, Some [string_of_bytes s]; PushedData := λ s, Some [s];
  CompressPubkey := λ _, []; Hash160 := id; NewAddressPubKeyHash := string_of_bytes;
  PushScript := λ a b, Some (a ++ b); SerializeDER := app |}.

(** Takes inputs for the outputs and a fee of 500, and adds a change output. *)
Definition author (outs : list TxOut) (script : bytes) : Strategy TxIn (AuthoredTx MsgTx) :=
  let target := sum_values outs + 500 in
  Ask target (λ last,
    Done (if is_total last <? target then Err (ENew "insufficient funds")
          else Ok {| at_Tx := {| mt_Version := 1; mt_TxIn := is_inputs last;
                                 mt_TxOut := outs ++ [{| to_Value := is_total last - target;
                                                         to_PkScript := script |}];
                                 mt_LockTime := 0 |};
                     at_PrevScripts := is_scripts last; at_PrevInputValues := is_values last;
                     at_TotalInput := is_total last;
                     at_ChangeIndex := Z.of_nat (length outs) |})).

#[export] Instance btc : Btc.BtcLib := {|
  Btc.CalcSignatureHash := λ script _ i, Some (Z_byte (Z.of_nat i) :: script);
  Btc.EstimateVirtualSize := λ _ _, 500; Btc.FeeForSerializeSize := λ _ size, size;
  Btc.MsgTx_TxHash := λ _, "hash"; Btc.author := λ outs _ script, author outs script |}.

#[export] Instance btc_spec : BtcLibSpec.
Proof.
  split. intros outs feeRate script. simpl. intros last.
  destruct (Z.ltb_spec (is_total last) (sum_values outs + 500)) as [|Hge]; [done|]. simpl.
  split_and!; [done..| |rewrite sum_values_app; unfold sum_values at 2; simpl; lia].
  right. split; [done|]. eexists. split_and!; [done|done|]. simpl. lia.
Qed.

#[export] Instance the_helper : UtxoHelper := Btc.helper.
#[export] Instance the_helper_spec : UtxoHelperSpec := Btc_helper_spec.
#[export] Instance encoding : BitcoinEncoding := {|
  hash_bitcoin_proposal := λ p, string_of_bytes (bp_SerializedTx p);
  hash_resharing_proposal := λ bs _, string_of_bytes bs |}.

Definition coin (name : string) (amount : Z) : Unspent :=
  {| lu_TxID := name; lu_Vout := 0; lu_ScriptPubKey := "76a9"; lu_Amount := amount |}.
Definition wallet : list Unspent := [coin "c1" 40000; coin "c2" 90000].
Definition client : UtxoClient := {| uc_ListUnspent := Ok wallet; uc_EstimateFee := Ok 1200 |}.
Definition deposit : Deposit := SampleWithdrawal.deposit "".
Definition params : ConsolidateOutputsParams :=
  {| cp_FeeRate := 1000; cp_MaxInputsCount := 50; cp_InputsThreshold := 2; cp_OutputsCount := 2 |}.

Lemma wallet_ok : wallet_wf wallet.
Proof.
  split; [apply (bool_decide_unpack _); by vm_compute|].
  intros u h _ [= <-]. simpl. apply String.string_of_list_byte_of_string.
Qed.
End SampleUtxo.

Section witnesses.
Import SampleUtxo.

Lemma utxo_proposal_accepted_witness : ∃ t,
  uw_FormSigningData client "tss" deposit = Ok t ∧
  uw_DepositIdentifier t = d_ident deposit ∧ uw_IsValid client "tss" t deposit = Ok true.
Proof.
  destruct (uw_FormSigningData client "tss" deposit) as [t| |] eqn:E;
    [|vm_compute in E; discriminate..].
  exists t. split; [done|].
  apply (utxo_proposal_accepted "tss" client client deposit t wallet wallet);
    [done..|apply wallet_ok| |done].
  intros z Hz. vm_compute in Hz. injection Hz as <-. reflexivity.
Defined.

Lemma utxo_IsValid_sound_witness : ∃ t p tx,
  uw_ProposalData t = Some p ∧ Deserialize (bp_SerializedTx p) = Some tx ∧
  (∃ v rest, mt_TxOut tx = {| to_Value := v; to_PkScript := bytes_of_string "0xr" |} :: rest ∧
    v ≤ 12000) ∧
  ∃ a v rest, mt_TxOut tx = {| to_Value := v; to_PkScript := bytes_of_string "0xr" |} :: rest ∧
    fee_taken a (bp_FeeRate p) 12000 (bytes_of_string "tss") v rest.
Proof.
  destruct (uw_FormSigningData client "tss" deposit) as [t| |] eqn:E;
    [|vm_compute in E; discriminate..].
  destruct (uw_ProposalData t) as [p|] eqn:Hp; [|vm_compute in E; injection E as <-; discriminate].
  destruct (Deserialize (bp_SerializedTx p)) as [tx|] eqn:Htx;
    [|vm_compute in E; injection E as <-; vm_compute in Hp; injection Hp as <-;
      vm_compute in Htx; discriminate].
  exists t, p, tx. split; [done|split; [done|]].
  assert (length (mt_TxIn tx) ≤ 2000)%nat as Hl.
  { vm_compute in E; injection E as <-; vm_compute in Hp; injection Hp as <-;
      vm_compute in Htx; injection Htx as <-. simpl. lia. }
  assert (uw_IsValid client "tss" t deposit = Ok true) as Hok
    by (vm_compute in E; injection E as <-; by vm_compute).
  destruct (utxo_IsValid_sound "tss" client t deposit p tx wallet true) as
    (used & amount & script & ts & a & v & rest & _ & _ & Ha & Hs & Hts & Ho & _ & _ & Hv & _ & _ & _ & Ht & _);
    [intros; unfold amount_ok; simpl; lia| |done|by repeat constructor|done|done|done|done|].
  { intros z Hz. vm_compute in Hz. injection Hz as <-. lia. }
  vm_compute in Ha. injection Ha as <-. vm_compute in Hs. injection Hs as <-.
  vm_compute in Hts. injection Hts as <-. split; [by exists v, rest|by exists a, v, rest].
Defined.

Lemma consolidation_accepted_witness : ∃ t,
  cons_FormProposalData client "dst" params = Ok (Some t) ∧
  cons_VerifyProposedData client "dst" params t = Ok tt.
Proof.
  destruct (cons_FormProposalData client "dst" params) as [[t|]| |] eqn:E;
    [|vm_compute in E; discriminate..].
  exists t. split; [done|].
  apply (consolidation_accepted "dst" params client client t wallet wallet);
    [simpl; lia|done..|apply wallet_ok|done].
Defined.

Lemma consolidation_sound_witness : ∃ t p tx used,
  us_ProposalData t = Some p ∧ Deserialize (rp_SerializedTx p) = Some tx ∧ used ⊆ wallet ∧
  consolidation_of params used (bytes_of_string "dst") tx (rp_SigData p).
Proof.
  destruct (cons_FormProposalData client "dst" params) as [[t|]| |] eqn:E;
    [|vm_compute in E; discriminate..].
  assert (cons_VerifyProposedData client "dst" params t = Ok tt) as Hok
    by (vm_compute in E; injection E as <-; by vm_compute).
  destruct (consolidation_sound "dst" params client t wallet (bytes_of_string "dst"))
    as (p & tx & used & Hp & Htx & Hu & _ & Hc);
    [simpl; lia|simpl; lia|intros; unfold amount_ok; simpl; lia|done|done|by repeat constructor| |done|].
  { intros p tx Hp Htx. vm_compute in E. injection E as <-. vm_compute in Hp. injection Hp as <-.
    vm_compute in Htx. injection Htx as <-. simpl. lia. }
  by exists t, p, tx, used.
Defined.

End witnesses.
