(* ===== verification/UtxoDeposit.v ===== *)
(** * Deposits on UTXO chains

    Models [internal/bridge/chain/utxo/client/deposit.go] (the deposit data of a
    transaction: confirmations, the deposit output, the memo output in its two
    formats, the depositor), [GetTransaction] of [client/transaction.go] and the
    address encoders of [pkg/encoding/encoder.go]. *)

From S2P Require Import Prelude Core Deposits Fetcher Withdrawal Signing Utxo UtxoWithdrawal.
#[local] Open Scope Z_scope.

(** ** encoding/base64 *)

Definition b64_char (c62 c63 : ascii) (z : Z) : ascii :=
  if z <? 26 then ascii_of_N (Z.to_N (65 + z))
  else if z <? 52 then ascii_of_N (Z.to_N (71 + z))
  else if z <? 62 then ascii_of_N (Z.to_N (z - 4))
  else if z =? 62 then c62 else c63.

Fixpoint base64_encode (c62 c63 : ascii) (bs : bytes) : string :=
  let ch z := b64_char c62 c63 z in
  match bs with
  | [] => EmptyString
  | [a] =>
      let a := byte_Z a in
      String (ch (a / 4)) (String (ch (a mod 4 * 16)) "==")
  | [a; b] =>
      let '(a, b) := (byte_Z a, byte_Z b) in
      String (ch (a / 4)) (String (ch (a mod 4 * 16 + b / 16)) (String (ch (b mod 16 * 4)) "="))
  | a :: b :: c :: rest =>
      let '(a, b, c) := (byte_Z a, byte_Z b, byte_Z c) in
      String (ch (a / 4)) (String (ch (a mod 4 * 16 + b / 16))
        (String (ch (b mod 16 * 4 + c / 64)) (String (ch (c mod 64)) (base64_encode c62 c63 rest))))
  end.

(** ** pkg/encoding/encoder.go *)

(** [btcutil/base58] and legacy Keccak-256, whose digest has 32 bytes. *)
Class EncodingLib := { base58_Encode : bytes → string; keccak256 : bytes → bytes }.

Class EncodingLibSpec `{EncodingLib} : Prop := {
  keccak256_length bs : length (keccak256 bs) = 32%nat }.

Section encoder.
Context `{EncodingLib}.

Definition Hex_Encode (raw : bytes) : string := ("0x" +:+ hex_EncodeToString raw)%string.

(** The loop over [i = 2 .. min(42, len buf) - 1]: [n] characters are left. *)
Fixpoint checksumLoop (hash : bytes) (n : nat) (i : Z) (buf : string) : res string :=
  match n, buf with
  | S n', String c rest =>
      match hash !! Z.to_nat ((i - 2) / 2) with
      | None => Panic
      | Some h =>
          let hashByte := if i mod 2 =? 0 then Z.shiftr (byte_Z h) 4 else Z.land (byte_Z h) 15 in
          let v := Z.of_N (N_of_ascii c) in
          let c' := if (57 <? v) && (7 <? hashByte) then ascii_of_N (Z.to_N (v - 32)) else c in
          rest' ← checksumLoop hash n' (i + 1) rest;
          Ok (String c' rest')
      end
  | _, _ => Ok buf
  end.

Definition HexCheckSum_Encode (raw : bytes) : res string :=
  let digits := hex_EncodeToString raw in
  let hash := keccak256 (bytes_of_string digits) in
  let loopCondition := Nat.min 42 (2 + 2 * length raw) in
  body ← checksumLoop hash (loopCondition - 2) 2 digits;
  Ok ("0x" +:+ body)%string.

(** [GetEncoder]: the encoder of a type byte, nil for an unknown one. *)
Definition GetEncoder (t : byte) : option (bytes → res string) :=
  match byte_Z t with
  | 1 => Some (λ raw, Ok (string_of_bytes raw))
  | 2 => Some (λ raw, Ok (Hex_Encode raw))
  | 3 => Some HexCheckSum_Encode
  | 4 => Some (λ raw, Ok (base58_Encode raw))
  | 5 => Some (λ raw, Ok (base64_encode "+"%char "/"%char raw))
  | 6 => Some (λ raw, Ok (base64_encode "-"%char "_"%char raw))
  | _ => None
  end.

End encoder.

(** ** client/deposit.go: the memo *)

Record DepositMemo := { dm_Address : string; dm_ChainId : string; dm_ReferralId : Z }.

Definition referralIdLength : nat := 2.
Definition dstSeparator : ascii := "#"%char.
Definition dstParamsCount : nat := 2.
Definition dstZanoAddrLen : nat := 71.

Definition invalid_script {A} (msg : string) : res A :=
  Err (EWrap (ESentinel ErrInvalidScriptPubKey) msg).

Section memo.
Context `{EncodingLib}.

Definition decodeDepositMemoV2 (raw : bytes) : res DepositMemo :=
  match raw with
  | [] => invalid_script "empty deposit memo"
  | b :: _ =>
      let chainIdLength := Z.to_nat (byte_Z b) in
      if (length raw <=? 1 + chainIdLength + referralIdLength + 1)%nat
      then invalid_script "invalid deposit memo length"
      else
        let chainIdEndIdx := (1 + chainIdLength)%nat in
        let chainId := string_of_bytes (take chainIdLength (drop 1 raw)) in
        let referralId := be_Z (take referralIdLength (drop chainIdEndIdx raw)) in
        match raw !! (chainIdEndIdx + referralIdLength)%nat with
        | None => Panic
        | Some encodingTypeByte =>
            match GetEncoder encodingTypeByte with
            | None => invalid_script "unknown address encoding type"
            | Some encode =>
                addr ← encode (drop (chainIdEndIdx + referralIdLength + 1) raw);
                Ok {| dm_Address := addr; dm_ChainId := chainId; dm_ReferralId := referralId |}
            end
        end
  end.

Definition decodeDepositMemoV1 (raw : bytes) : res DepositMemo :=
  let parts := split_on dstSeparator (string_of_bytes raw) in
  if (length parts <? dstParamsCount)%nat then Err (ENew "invalid destination parameters")
  else
    let parts :=
      if (dstParamsCount <? length parts)%nat then
        [join_with dstSeparator (take (length parts - 1) parts); default "" (last parts)]
      else parts in
    match parts with
    | addr :: chainId :: _ =>
        if (String.length addr =? 0)%nat || (String.length chainId =? 0)%nat
        then Err (ENew "invalid destination parameters")
        else
          let addr := if (String.length addr =? dstZanoAddrLen)%nat
                      then base58_Encode (bytes_of_string addr) else addr in
          Ok {| dm_Address := addr; dm_ChainId := chainId; dm_ReferralId := 0 |}
    | _ => Panic
    end.

(** The memo of an OP_RETURN payload: version 2, then version 1. *)
Definition decodeDepositMemo (raw : bytes) : res DepositMemo :=
  match decodeDepositMemoV2 raw with
  | Ok memo => Ok memo
  | Panic => Panic
  | Err _ =>
      match decodeDepositMemoV1 raw with
      | Ok memo => Ok memo
      | Err _ => invalid_script "invalid deposit memo"
      | Panic => Panic
      end
  end.

(** ** client/deposit.go: the deposit *)

Context `{SigLib, WireLib, !UtxoHelper}.

Record Vin := { vi_Txid : string; vi_Vout : Z }.
Record Vout := { vo_Value : float64; vo_ScriptPubKeyHex : string }.

(** [btcjson.TxRawResult]: the fields that are read. *)
Record TxRawResult := {
  tr_BlockHash : string; tr_Confirmations : Z; tr_Vin : list Vin; tr_Vout : list Vout }.

Definition as_invalid_script {A} (m : res A) : res A :=
  match m with Err _ => invalid_script "invalid script" | _ => m end.

Definition isBridgeAddress (bridgeAddresses : list string) (addr : string) : bool :=
  existsb (String.eqb addr) bridgeAddresses.

Definition decodeDepositOutput (bridgeAddresses : list string) (out : Vout) : res Z :=
  scriptRaw ← as_invalid_script
                (of_option (hex_DecodeString (vo_ScriptPubKeyHex out)) "encoding/hex");
  if negb (ScriptSupported scriptRaw) then invalid_script "invalid deposit output script"
  else
    addresses ← as_invalid_script (ExtractScriptAddresses scriptRaw);
    match addresses with
    | [addr] =>
        if negb (isBridgeAddress bridgeAddresses addr) then
          Err (EWrap (ESentinel ErrInvalidReceiverAddress)
                 "deposit output address is not a bridge address")
        else if float_is_zero (vo_Value out) then Err (ESentinel ErrInvalidDepositedAmount)
        else Ok (ToUnits (vo_Value out))
    | _ => invalid_script "expected exactly one address in deposit output"
    end.

Definition decodeDepositMemoOutput (out : Vout) : res DepositMemo :=
  scriptRaw ← as_invalid_script
                (of_option (hex_DecodeString (vo_ScriptPubKeyHex out)) "encoding/hex");
  raw ← as_invalid_script (RetrieveOpReturnData scriptRaw);
  decodeDepositMemo raw.

(** [DepositDecoder.Decode]: the amount and the memo.  [depositIdx + 1] is an [int]. *)
Definition Decode (bridgeAddresses : list string) (tx : TxRawResult) (depositIdx : Z)
    : res (Z * DepositMemo) :=
  if depositIdx <? 0 then
    Err (EWrap (ESentinel ErrInvalidTransactionData) "invalid deposit index")
  else
    let destinationOutputIdx := int64 (depositIdx + 1) in
    if Z.of_nat (length (tr_Vout tx)) <=? destinationOutputIdx
    then Err (ESentinel ErrDepositNotFound)
    else
      match tr_Vout tx !! Z.to_nat depositIdx with
      | None => Panic
      | Some depositOut =>
          amount ← wrap (decodeDepositOutput bridgeAddresses depositOut)
                     "failed to decode deposit output";
          if destinationOutputIdx <? 0 then Panic
          else
            match tr_Vout tx !! Z.to_nat destinationOutputIdx with
            | None => Panic
            | Some memoOut =>
                memo ← wrap (decodeDepositMemoOutput memoOut) "failed to decode destination output";
                Ok (amount, memo)
            end
      end.

(** The node's answers: [GetRawTransactionVerbose] and [GetBlockVerbose]. *)
Record UtxoNode := {
  un_getRawTransaction : string → query TxRawResult;
  un_getBlockHeight : string → res Z }.

Definition GetTransaction (node : UtxoNode) (txHash : string) : res TxRawResult :=
  match un_getRawTransaction node (trim_prefix txHash "0x") with
  | QOk tx => Ok tx
  | QNotFound => Err (ESentinel ErrTxNotFound)
  | QFailed msg => Err (EWrap (ENew msg) "failed to get raw transaction")
  end.

(** [addrs[0]] is out of range when the script is empty. *)
Definition parseSenderAddress (node : UtxoNode) (vin : Vin) : res string :=
  prevTx ← wrap (GetTransaction node (vi_Txid vin)) "failed to get previous transaction";
  match tr_Vout prevTx !! Z.to_nat (vi_Vout vin) with
  | None => Err (ENew "sender vout not found")
  | Some out =>
      scriptRaw ← as_invalid_script
                    (of_option (hex_DecodeString (vo_ScriptPubKeyHex out)) "encoding/hex");
      addrs ← as_invalid_script (ExtractScriptAddresses scriptRaw);
      match addrs with [] => Panic | addr :: _ => Ok addr end
  end.

Definition utxo_GetDepositData (node : UtxoNode) (bridgeAddresses : list string)
    (confirmations : Z) (id : DepositIdentifier) : res DepositData :=
  tx ← wrap (GetTransaction node (TxHash id)) "failed to get transaction";
  if bool_decide (tr_BlockHash tx = "") then Err (ESentinel ErrTxPending)
  else if tr_Confirmations tx <? confirmations then Err (ESentinel ErrTxNotConfirmed)
  else
    height ← wrap (un_getBlockHeight node (tr_BlockHash tx)) "failed to get block";
    '(amount, memo) ← wrap (Decode bridgeAddresses tx (TxNonce id)) "failed to decode deposit data";
    match tr_Vin tx with
    | [] => Panic
    | vin :: _ =>
        depositor ← wrap (parseSenderAddress node vin) "failed to get depositor";
        Ok {| dd_ident := id; dd_DestinationChainId := dm_ChainId memo;
              dd_DestinationAddress := dm_Address memo; dd_SourceAddress := depositor;
              dd_DepositAmount := amount; dd_ReferralId := dm_ReferralId memo;
              dd_TokenAddress := DefaultNativeTokenAddress; dd_Block := height |}
    end.

End memo.

(** ** Lemmas *)

Lemma split_on_last c s t :
  str_elem c t = false → split_on c (s +:+ String c t)%string = split_on c s ++ [t].
Proof.
  intros Ht. induction s as [|a s IH]; simpl.
  - by rewrite Ascii.eqb_refl, split_on_none.
  - rewrite IH. destruct (a =? c)%char; [done|].
    pose proof (split_on_nonempty c s). by destruct (split_on c s).
Qed.

Lemma string_of_bytes_of_string s : string_of_bytes (bytes_of_string s) = s.
Proof. apply String.string_of_list_byte_of_string. Qed.

Section lemmas.
Context `{EncodingLib, !EncodingLibSpec}.

Lemma GetEncoder_range t enc : GetEncoder t = Some enc → 1 ≤ byte_Z t ≤ 6.
Proof.
  unfold GetEncoder. pose proof (byte_Z_range t). destruct (byte_Z t) as [|p|]; [done| |lia].
  intros Hg. assert (Z.pos p = 1 ∨ Z.pos p = 2 ∨ Z.pos p = 3 ∨ Z.pos p = 4 ∨ Z.pos p = 5 ∨ Z.pos p = 6);
    [|lia]. by do 8 (destruct p as [p|p|]; try done; try lia).
Qed.

(** No byte of the memo is an encoding type: it is not of version 2. *)
Definition no_type_byte (raw : bytes) : Prop := Forall (λ b, 6 < byte_Z b) raw.

Lemma memoV2_needs_type raw m : no_type_byte raw → decodeDepositMemoV2 raw ≠ Ok m.
Proof.
  intros Hn Hok. unfold decodeDepositMemoV2 in Hok. destruct raw as [|b raw]; [done|].
  set (r := b :: raw) in *. destruct (_ <=? _)%nat; [done|].
  destruct (r !! _) as [t|] eqn:Ht; [|done]. destruct (GetEncoder t) as [enc|] eqn:He; [|done].
  apply GetEncoder_range in He. eapply Forall_lookup_1 in Hn; [|done]. simpl in Hn. lia.
Qed.

Lemma memoV2_no_panic raw : decodeDepositMemoV2 raw ≠ Panic ∨
  ∃ t enc rest, GetEncoder t = Some enc ∧ enc rest = Panic.
Proof.
  unfold decodeDepositMemoV2. destruct raw as [|b raw]; [by left|]. set (r := b :: raw) in *.
  destruct (Nat.leb_spec (length r) (1 + Z.to_nat (byte_Z b) + referralIdLength + 1)%nat)
    as [|Hlen]; [by left|].
  destruct (r !! _) as [t|] eqn:Ht.
  - destruct (GetEncoder t) as [enc|] eqn:He; [|by left].
    destruct (enc (drop _ r)) as [a| |] eqn:Hp; [by left..|]. right. by eauto.
  - apply lookup_ge_None in Ht. lia.
Qed.

(** The digits are lower-case hexadecimal: the checksum only changes their case. *)
Lemma hex_char_lower z : 0 ≤ z < 16 →
  let c := hex_char z in
  ascii_lower c = c ∧
  (57 <? Z.of_N (N_of_ascii c) = true →
   ascii_lower (ascii_of_N (Z.to_N (Z.of_N (N_of_ascii c) - 32))) = c).
Proof.
  intros Hz. assert (z ∈ seqZ 0 16) as Hin by (apply elem_of_seqZ; lia).
  clear Hz. revert z Hin. apply Forall_forall.
  set (l := seqZ 0 16). vm_compute in l. subst l.
  repeat (apply Forall_cons_2; [split; [reflexivity|];
    ((intros _; reflexivity) || (intros Hc; discriminate Hc))|]).
  apply Forall_nil_2.
Qed.

Lemma checksumLoop_lower hash bs : ∀ n i,
  (i + Z.of_nat n <= 2 * Z.of_nat (length hash) + 2) → 2 ≤ i →
  ∃ out, checksumLoop hash n i (hex_EncodeToString bs) = Ok out ∧
         to_lower out = hex_EncodeToString bs.
Proof.
  assert (∀ cs, Forall (λ c, ∃ z, 0 ≤ z < 16 ∧ c = hex_char z) (String.list_ascii_of_string cs) →
    ∀ n i, i + Z.of_nat n <= 2 * Z.of_nat (length hash) + 2 → 2 ≤ i →
    ∃ out, checksumLoop hash n i cs = Ok out ∧ to_lower out = cs) as Hgen.
  { induction cs as [|c cs IH]; intros Hcs n i Hi H2; [exists ""; by destruct n|].
    apply Forall_cons in Hcs as [(z & Hz & ->) Hcs].
    pose proof (hex_char_lower z Hz) as [Hlow Hup].
    destruct n as [|n].
    - exists (String (hex_char z) cs). split; [done|]. simpl. rewrite Hlow. f_equal.
      destruct (IH Hcs 0%nat i ltac:(lia) H2) as (out & Hout & Hl).
      replace (checksumLoop hash 0 i cs) with (Ok cs) in Hout by (by destruct cs).
      by injection Hout as <-.
    - destruct (IH Hcs n (i + 1) ltac:(lia) ltac:(lia)) as (out & Hout & Hl).
      cbn [checksumLoop].
      destruct (lookup_lt_is_Some_2 hash (Z.to_nat ((i - 2) / 2))) as [h ->].
      { assert ((i - 2) / 2 < Z.of_nat (length hash)) by (apply Z.div_lt_upper_bound; lia). lia. }
      rewrite Hout. simpl. eexists. split; [done|]. cbn [to_lower]. rewrite Hl. f_equal.
      match goal with |- context [if ?b then _ else _] => destruct b eqn:E end; [|done].
      apply andb_true_iff in E as [E _]. by apply Hup. }
  intros n i Hi H2. apply Hgen; [|done..]. clear.
  induction bs as [|b bs IH]; simpl; [constructor|]. pose proof (byte_Z_range b).
  constructor; [eexists; split; [|done]; split; [apply Z.div_pos|apply Z.div_lt_upper_bound]; lia|].
  constructor; [eexists; split; [apply Z.mod_pos_bound|]; done || lia|done].
Qed.

(** EIP-55 encoding never fails and is the plain encoding up to letter case. *)
Lemma HexCheckSum_lower raw : ∃ out,
  HexCheckSum_Encode raw = Ok out ∧ to_lower out = Hex_Encode raw.
Proof.
  unfold HexCheckSum_Encode.
  destruct (checksumLoop_lower (keccak256 (bytes_of_string (hex_EncodeToString raw))) raw
              (Nat.min 42 (2 + 2 * length raw) - 2) 2) as (out & -> & Hl).
  { rewrite keccak256_length. lia. }
  { lia. }
  simpl. eexists. split; [done|]. unfold Hex_Encode. rewrite <- Hl. done.
Qed.

Lemma GetEncoder_total t enc raw : GetEncoder t = Some enc → enc raw ≠ Panic.
Proof.
  unfold GetEncoder. destruct (byte_Z t) as [|p|]; [done| |done].
  destruct p as [[[]|[]|]|[[]|[]|]|]; try done; intros [= <-]; try done.
  by destruct (HexCheckSum_lower raw) as (out & -> & _).
Qed.

End lemmas.

(** ** Theorems *)

(** The layout documented above [decodeDepositMemoV2]. *)
Definition memoV2 (chainId : string) (referralId : Z) (t : byte) (addr : bytes) : bytes :=
  Z_byte (Z.of_nat (String.length chainId)) :: bytes_of_string chainId
  ++ be_bytes 2 referralId ++ t :: addr.

Definition memoV1 (addr chainId : string) : bytes :=
  bytes_of_string (addr +:+ String dstSeparator chainId)%string.

Section theorems.
Context `{EncodingLib, !EncodingLibSpec}.

(** A version 2 memo for a chain id of at most 255 bytes, a 16-bit referral id and
    a non-empty address in a known encoding is decoded to exactly these: the decoder
    inverts the documented layout, and never falls back to version 1 for it. *)
Theorem memoV2_roundtrip chainId referralId t addr enc a :
  (String.length chainId < 256)%nat → 0 ≤ referralId < 65536 → addr ≠ [] →
  GetEncoder t = Some enc → enc addr = Ok a →
  decodeDepositMemo (memoV2 chainId referralId t addr) =
    Ok {| dm_Address := a; dm_ChainId := chainId; dm_ReferralId := referralId |}.
Proof.
  intros Hc Hr Ha He Henc. unfold decodeDepositMemo, decodeDepositMemoV2, memoV2.
  rewrite byte_Z_byte, Z.mod_small by lia. rewrite Nat2Z.id.
  pose proof (length_bytes_of_string chainId) as Hlc. rewrite <- Hlc.
  assert (length (be_bytes 2 referralId) = 2%nat) as Hlr by apply length_be_bytes.
  match goal with |- context [(?x <=? ?y)%nat] => destruct (Nat.leb_spec x y) as [Hle|_] end.
  { cbn [length] in Hle. rewrite !length_app, Hlr in Hle. destruct addr; [done|].
    cbn [length] in Hle. unfold referralIdLength in Hle. lia. }
  set (cs := bytes_of_string chainId) in *. set (rs := be_bytes 2 referralId) in *.
  cbn [drop]. rewrite drop_0, take_app_length.
  replace (drop (1 + length cs) _) with (rs ++ t :: addr)
    by (cbn [drop Nat.add]; by rewrite drop_app_length).
  rewrite (take_app_length' rs) by done.
  assert ((Z_byte (Z.of_nat (length cs)) :: cs ++ rs ++ t :: addr) !! (1 + length cs + referralIdLength)%nat
          = Some t) as ->.
  { rewrite (assoc_L app).
    replace (1 + length cs + referralIdLength)%nat with (S (length (cs ++ rs)))
      by (rewrite length_app, Hlr; unfold referralIdLength; lia).
    rewrite lookup_cons. by rewrite list_lookup_middle. }
  rewrite He.
  replace (drop (1 + length cs + referralIdLength + 1) _) with addr.
  2:{ rewrite (assoc_L app).
      replace (1 + length cs + referralIdLength + 1)%nat with (S (length (cs ++ rs) + 1))
        by (rewrite length_app, Hlr; unfold referralIdLength; lia).
      cbn [drop]. rewrite <- drop_drop, drop_app_length. done. }
  rewrite Henc. simpl. subst cs rs.
  rewrite string_of_bytes_of_string, be_Z_be_bytes, Z.mod_small by done. done.
Qed.

(** A version 1 memo [address#chain] of text (no control characters) with a chain
    id without the separator is decoded to exactly this address and chain, even when
    the address contains the separator: it is never taken for a version 2 memo. *)
Theorem memoV1_roundtrip addr chainId :
  no_type_byte (memoV1 addr chainId) → addr ≠ "" → chainId ≠ "" →
  str_elem dstSeparator chainId = false → String.length addr ≠ dstZanoAddrLen →
  decodeDepositMemo (memoV1 addr chainId) =
    Ok {| dm_Address := addr; dm_ChainId := chainId; dm_ReferralId := 0 |}.
Proof.
  intros Hn Ha Hc Hs Hz. unfold decodeDepositMemo.
  destruct (decodeDepositMemoV2 (memoV1 addr chainId)) as [m|e|] eqn:E.
  { by apply memoV2_needs_type in E. }
  2:{ destruct (memoV2_no_panic (memoV1 addr chainId)) as [Hp|(t & enc & rest & Ht & Hp)]; [done|].
      by apply (GetEncoder_total t enc rest) in Ht. }
  unfold decodeDepositMemoV1, memoV1. rewrite string_of_bytes_of_string, split_on_last by done.
  pose proof (split_on_nonempty dstSeparator addr) as Hne.
  pose proof (join_split dstSeparator addr) as Hj.
  assert ((String.length addr =? 0)%nat = false) as Hla by (by destruct addr).
  assert ((String.length chainId =? 0)%nat = false) as Hlc by (by destruct chainId).
  apply Nat.eqb_neq in Hz. rewrite length_app. simpl.
  destruct (split_on dstSeparator addr) as [|p [|p' ps]] eqn:Hsp; [done| |].
  - simpl in *. subst p. by rewrite Hla, Hlc, Hz.
  - simpl length. cbn [Nat.ltb Nat.leb dstParamsCount].
    replace (S (S (length ps)) + 1 - 1)%nat with (length (p :: p' :: ps)) by (simpl; lia).
    rewrite take_app_length, last_snoc, Hj. cbn -[String.length Nat.eqb dstZanoAddrLen].
    rewrite Nat.add_1_r, Hla, Hlc, Hz. done.
Qed.

Context `{SigLib, WireLib, !UtxoHelper}.

(** C35: The deposit data of a UTXO deposit come from a transaction in a block with
    the configured number of confirmations: the output numbered by the nonce pays
    the amount to one of the bridge's addresses, and the output after it carries the
    memo with the destination. *)
Theorem utxo_GetDepositData_sound node bridgeAddresses confirmations id d :
  in_int64 (TxNonce id) →
  utxo_GetDepositData node bridgeAddresses confirmations id = Ok d →
  ∃ tx out memoOut script addr memo,
    un_getRawTransaction node (trim_prefix (TxHash id) "0x") = QOk tx ∧
    tr_BlockHash tx ≠ "" ∧ confirmations ≤ tr_Confirmations tx ∧
    0 ≤ TxNonce id ∧
    tr_Vout tx !! Z.to_nat (TxNonce id) = Some out ∧
    tr_Vout tx !! Z.to_nat (TxNonce id + 1) = Some memoOut ∧
    hex_DecodeString (vo_ScriptPubKeyHex out) = Some script ∧
    ScriptSupported script = true ∧ ExtractScriptAddresses script = Ok [addr] ∧
    addr ∈ bridgeAddresses ∧ float_is_zero (vo_Value out) = false ∧
    decodeDepositMemoOutput memoOut = Ok memo ∧
    dd_ident d = id ∧ dd_DepositAmount d = ToUnits (vo_Value out) ∧
    dd_DestinationAddress d = dm_Address memo ∧ dd_DestinationChainId d = dm_ChainId memo ∧
    dd_ReferralId d = dm_ReferralId memo.
Proof.
  unfold utxo_GetDepositData, GetTransaction. intros Hint Hok.
  apply bind_Ok in Hok as (tx & Htx & Hok). apply wrap_Ok in Htx.
  destruct (un_getRawTransaction node _) as [tx'| |]; try done. apply (inj Ok) in Htx as ->.
  destruct (bool_decide_reflect (tr_BlockHash tx = "")) as [|Hb]; [done|].
  destruct (Z.ltb_spec (tr_Confirmations tx) confirmations); [done|].
  apply bind_Ok in Hok as (height & _ & Hok). apply bind_Ok in Hok as ([amount memo] & Hd & Hok).
  apply wrap_Ok in Hd. destruct (tr_Vin tx) as [|vin vins]; [done|].
  apply bind_Ok in Hok as (dep & _ & Hok). apply (inj Ok) in Hok as <-.
  unfold Decode in Hd. destruct (Z.ltb_spec (TxNonce id) 0); [done|].
  destruct (Z.leb_spec (Z.of_nat (length (tr_Vout tx))) (int64 (TxNonce id + 1))) as [|Hlen]; [done|].
  destruct (tr_Vout tx !! Z.to_nat (TxNonce id)) as [out|] eqn:Hout; [|done].
  apply bind_Ok in Hd as (am & Ham & Hd). apply wrap_Ok in Ham.
  destruct (Z.ltb_spec (int64 (TxNonce id + 1)) 0) as [|Hpos]; [done|].
  destruct (tr_Vout tx !! Z.to_nat (int64 (TxNonce id + 1))) as [mo|] eqn:Hmo; [|done].
  apply bind_Ok in Hd as (m & Hm & Hd). apply wrap_Ok in Hm. apply (inj Ok) in Hd as [= -> ->].
  assert (int64 (TxNonce id + 1) = TxNonce id + 1) as Hi.
  { destruct (decide (TxNonce id = max_int64)) as [Hmax|].
    - rewrite Hmax, int64_add_wrap in Hpos. by vm_compute in Hpos.
    - apply int64_id. unfold in_int64, min_int64, max_int64 in *. lia. }
  rewrite Hi in Hmo. unfold decodeDepositOutput in Ham.
  apply bind_Ok in Ham as (script & Hs & Ham).
  destruct (hex_DecodeString (vo_ScriptPubKeyHex out)) as [sc|] eqn:Hsc; [|done].
  apply (inj Ok) in Hs as ->. destruct (ScriptSupported script) eqn:Hsup; [|done].
  apply bind_Ok in Ham as (addrs & Had & Ham).
  destruct (ExtractScriptAddresses script) as [addrs'| |] eqn:Hex; try done.
  apply (inj Ok) in Had as ->. destruct addrs as [|addr [|]]; try done.
  destruct (isBridgeAddress bridgeAddresses addr) eqn:Hba; [|done].
  destruct (float_is_zero (vo_Value out)) eqn:Hz; [done|]. apply (inj Ok) in Ham as <-.
  apply existsb_exists in Hba as (x & Hx & <-%String.eqb_eq). apply list_elem_of_In in Hx.
  exists tx, out, mo, script, addr, memo. split_and!; done || lia.
Qed.

(** A deposit index of the largest [int64] makes [Decode] panic on every
    transaction: the index of the memo output overflows below zero and passes the
    range check. *)
Theorem max_nonce_panics bridgeAddresses tx :
  Z.of_nat (length (tr_Vout tx)) ≤ max_int64 →
  Decode bridgeAddresses tx max_int64 = Panic.
Proof.
  intros Hl. unfold Decode. rewrite int64_add_wrap.
  destruct (Z.ltb_spec max_int64 0) as [Hc|_]; [by vm_compute in Hc|].
  destruct (Z.leb_spec (Z.of_nat (length (tr_Vout tx))) min_int64) as [Hc|_].
  { unfold min_int64 in Hc. lia. }
  rewrite lookup_ge_None_2; [done|]. lia.
Qed.

(** A deposit whose first input spends an output with an empty script makes the
    lookup of the depositor panic: no address is found and the first is taken. *)
Theorem empty_sender_script_panics node vin prevTx out :
  ExtractScriptAddresses [] = Ok [] →
  un_getRawTransaction node (trim_prefix (vi_Txid vin) "0x") = QOk prevTx →
  tr_Vout prevTx !! Z.to_nat (vi_Vout vin) = Some out → vo_ScriptPubKeyHex out = "" →
  parseSenderAddress node vin = Panic.
Proof.
  intros Hex Htx Hout Hs. unfold parseSenderAddress, GetTransaction. rewrite Htx. simpl.
  rewrite Hout, Hs. simpl. by rewrite Hex.
Qed.

End theorems.

Section witnesses.
Import SampleUtxo.

#[local] Instance sample_encoding : EncodingLib :=
  {| base58_Encode := string_of_bytes; keccak256 := λ _, replicate 32 Byte.x9f |}.
#[local] Instance sample_encoding_spec : EncodingLibSpec.
Proof. split. done. Qed.

Lemma memoV2_roundtrip_witness :
  decodeDepositMemo (memoV2 "56" 7 Byte.x02 [Byte.xab; Byte.xcd]) =
    Ok {| dm_Address := "0xabcd"; dm_ChainId := "56"; dm_ReferralId := 7 |}.
Proof.
  apply (memoV2_roundtrip "56" 7 Byte.x02 [Byte.xab; Byte.xcd] (λ raw, Ok (Hex_Encode raw)));
    [simpl; lia|lia|done|done|by vm_compute].
Defined.

Lemma memoV1_roundtrip_witness :
  decodeDepositMemo (memoV1 "0xbeef#1" "123") =
    Ok {| dm_Address := "0xbeef#1"; dm_ChainId := "123"; dm_ReferralId := 0 |}.
Proof.
  apply (memoV1_roundtrip "0xbeef#1" "123"); [|done..].
  vm_compute. by repeat constructor.
Defined.

#[local] Instance sample_script : UtxoHelper := {|
  ScriptSupported := λ _, true;
  RetrieveOpReturnData := λ s, Ok s;
  P2pkhAddress := λ _, "tss"; AddressValid := λ _, true;
  ExtractScriptAddresses := λ s, match s with [] => Ok [] | _ => Ok ["tss"] end;
  PayToAddrScript := λ a, Ok (bytes_of_string a);
  NewUnsignedTransaction := Btc.NewUnsignedTransaction;
  CalculateSignatureHash := Btc.CalculateSignatureHash;
  EstimateFee := Btc.EstimateFee; ArrangeOutputs := LargestFirst;
  InjectSignatures := helper_InjectSignatures Btc.SigHashAll; TxHash_of := λ _, "" |}.

Definition sample_tx : TxRawResult :=
  {| tr_BlockHash := "b"; tr_Confirmations := 6; tr_Vin := [{| vi_Txid := "p"; vi_Vout := 0 |}];
     tr_Vout := [{| vo_Value := 5000; vo_ScriptPubKeyHex := "76" |};
                 {| vo_Value := 0; vo_ScriptPubKeyHex := hex_EncodeToString (memoV1 "0xr" "56") |}] |}.
Definition sample_node : UtxoNode :=
  {| un_getRawTransaction := λ _, QOk sample_tx; un_getBlockHeight := λ _, Ok 10 |}.

Lemma utxo_GetDepositData_sound_witness : ∃ d,
  utxo_GetDepositData sample_node ["tss"] 6 {| TxHash := "0xa"; TxNonce := 0; ChainId := "0" |} = Ok d ∧
  dd_DepositAmount d = 5000.
Proof.
  destruct (utxo_GetDepositData sample_node ["tss"] 6
              {| TxHash := "0xa"; TxNonce := 0; ChainId := "0" |}) as [d| |] eqn:E;
    [|vm_compute in E; discriminate..].
  exists d. split; [done|].
  apply (utxo_GetDepositData_sound sample_node ["tss"] 6) in E; [|by vm_compute].
  destruct E as (tx & out & mo & sc & addr & memo & [= <-] & _ & _ & _ & [= <-] & _ & _ & _ & _ & _ & _
                 & _ & _ & Ha & _). exact Ha.
Defined.

Lemma max_nonce_panics_witness : Decode ["tss"] sample_tx max_int64 = Panic.
Proof. apply (max_nonce_panics ["tss"] sample_tx). by vm_compute. Defined.

Lemma empty_sender_script_panics_witness :
  parseSenderAddress
    {| un_getRawTransaction := λ _, QOk
         {| tr_BlockHash := ""; tr_Confirmations := 1; tr_Vin := [];
            tr_Vout := [{| vo_Value := 1; vo_ScriptPubKeyHex := "" |}] |};
       un_getBlockHeight := λ _, Ok 1 |} {| vi_Txid := "p"; vi_Vout := 0 |} = Panic.
Proof. eapply empty_sender_script_panics; reflexivity. Defined.

End witnesses.
