(* ===== verification/Parties.v ===== *)
(** * TSS parties and one-shot sessions

    Models [internal/tss/signer.go] and [keygener.go] (the local parties around the
    tss-lib state machine: which messages reach it and where its messages go),
    [internal/tss/session/signing/default.go] and [session/keygen/session.go] (the
    one-shot sessions), and the locking of [Session.Receive] and
    [p2p/session_manager.go] as a step relation.

    tss-lib is the class [TssLib]: a party updated by wire messages. *)

From S2P Require Import Prelude Core Session Broadcast Consensus Signing.
#[local] Open Scope Z_scope.

Class TssLib := {
  TssParty : Type;
  (** [UpdateFromBytes(wireMsg, from, isBroadcast)]: the error is only logged *)
  UpdateFromBytes : TssParty → bytes → option PartyID → bool → TssParty }.

Definition MsgsCapacity : nat := 100.

Record partyMsg := { pm_Sender : Address; pm_WireMsg : bytes; pm_IsBroadcast : bool }.

(** [tss.Message]: [WireBytes] may fail; [routing.To] is nil for a broadcast. *)
Record TssMessage := {
  tm_WireBytes : option bytes; tm_To : option (list PartyID); tm_IsBroadcast : bool }.

Section party.
Context `{Bech32, TssSort, TssLib}.

(** The fields of [SignParty] and [KeygenParty] that the handlers read. *)
Record LocalParty := {
  lp_self : Address;
  lp_sessionId : string;
  lp_type : RequestType;
  lp_parties : gmap Address Party;
  lp_sortedPartyIds : list PartyID }.

(** The ids of the local party and of the others, sorted. *)
Definition sortedWithSelf (self : Address) (parties : list Party) : res (list PartyID) :=
  selfId ← PartyIdentifier self;
  Ok (SortPartyIDs (selfId :: (identifier <$> parties))).

(** [NewSignParty(...).WithParties(parties)] *)
Definition NewSignParty (self : Address) (sessionId : string) (parties : list Party)
    : res LocalParty :=
  ids ← sortedWithSelf self parties;
  Ok {| lp_self := self; lp_sessionId := sessionId; lp_type := RT_SIGN;
        lp_parties := partiesByAddress parties; lp_sortedPartyIds := ids |}.

Definition NewKeygenParty (self : Address) (parties : list Party) (sessionId : string)
    : res LocalParty :=
  ids ← sortedWithSelf self parties;
  Ok {| lp_self := self; lp_sessionId := sessionId; lp_type := RT_KEYGEN;
        lp_parties := partiesByAddress parties; lp_sortedPartyIds := ids |}.

(** [SortedPartyIDs.FindByKey] *)
Definition FindByKey (ids : list PartyID) (key : Z) : option PartyID :=
  List.find (λ i, pid_key i =? key) ids.

(** One message of [receiveMsgs]. *)
Definition receiveMsg (p : LocalParty) (msg : partyMsg) (st : TssParty) : res TssParty :=
  match lp_parties p !! pm_Sender msg with
  | None => Ok st
  | Some _ =>
      key ← Addr.PartyKey (pm_Sender msg);
      Ok (UpdateFromBytes st (pm_WireMsg msg) (FindByKey (lp_sortedPartyIds p) key)
            (pm_IsBroadcast msg))
  end.

(** The messages read before the context is done or the channel closed. *)
Fixpoint receiveMsgs (p : LocalParty) (msgs : list partyMsg) (st : TssParty) : res TssParty :=
  match msgs with
  | [] => Ok st
  | msg :: rest => st' ← receiveMsg p msg st; receiveMsgs p rest st'
  end.

(** One message of [receiveUpdates]: the parties it is delivered to, with the
    request.  [to[0]] panics on an empty list of destinations. *)
Definition routeOut (p : LocalParty) (net : Transport) (msg : TssMessage)
    : res (option (SubmitRequest * gset Address)) :=
  match tm_WireBytes msg with
  | None => Ok None
  | Some raw =>
      let submitReq :=
        {| rq_Sender := lp_self p; rq_SessionId := lp_sessionId p; rq_Type := lp_type p;
           rq_Data := Some (AnyTssData raw (tm_IsBroadcast msg)) |} in
      match tm_To msg with
      | Some [to] =>
          let dst := AddrFromPartyId to in
          match Send net (lp_parties p) submitReq dst with
          | None => Ok (Some (submitReq, {[dst]}))
          | Some _ => Ok (Some (submitReq, ∅))
          end
      | Some [] => Panic
      | _ => Ok (Some (submitReq, BroadcastTo net (lp_parties p) submitReq))
      end
  end.

(** What ends [receiveUpdates]: the context, a result on [end], or [end] closed
    because the party failed to start. *)
Inductive EndEvent (R : Type) := EndContext | EndResult (r : R) | EndClosed.
Arguments EndContext {_}.
Arguments EndResult {_} _.
Arguments EndClosed {_}.

(** What [WaitFor] returns. *)
Definition party_WaitFor {R} (e : EndEvent R) : option R :=
  match e with EndResult r => Some r | _ => None end.

(** [Receive]: the message is queued unless the party has ended; [None] when the
    sender blocks on a full channel. *)
Definition party_Receive (ended : bool) (sender : Address) (data : bytes * bool)
    (queue : list partyMsg) : option (list partyMsg) :=
  if ended then Some queue
  else if (length queue <? MsgsCapacity)%nat
  then Some (queue ++ [{| pm_Sender := sender; pm_WireMsg := data.1; pm_IsBroadcast := data.2 |}])
  else None.

(** ** default.go, keygen/session.go *)

(** [Receive] of both: [t] is the request type of the session. *)
Definition oneshot_Receive (t : RequestType) (sessionId : string) (request : option SubmitRequest)
    : res (Address * (bytes * bool)) :=
  match request with
  | None => Err (ENew "nil request")
  | Some rq =>
      match rq_Data rq with
      | None => Err (ENew "nil request")
      | Some _ =>
          if negb (bool_decide (rq_Type rq = t)) then Err (ENew "invalid request type")
          else if negb (bool_decide (rq_SessionId rq = sessionId))
          then Err (ENew "session id mismatch")
          else
            data ← of_option (UnmarshalTss (rq_Data rq)) "failed to unmarshal TSS request data";
            sender ← wrap (Addr.FromString (rq_Sender rq)) "failed to parse sender address";
            Ok (sender, data)
      end
  end.

Definition default_Receive (id : Z) : option SubmitRequest → res (Address * (bytes * bool)) :=
  oneshot_Receive RT_SIGN (GetDefaultSigningSessionIdentifier id).
Definition keygen_Receive (id : Z) : option SubmitRequest → res (Address * (bytes * bool)) :=
  oneshot_Receive RT_KEYGEN (GetKeygenSessionIdentifier id).

(** [Run]: not started ([Ok false]), started, or refused. *)
Definition oneshot_Run (kind : string) (runDelay : Z) (cancelled : bool) (connectedPartiesCount partiesCount : Z)
    : res bool :=
  if runDelay <=? 0 then Err (ENew "target time is in the past")
  else if cancelled then Ok false
  else if negb (connectedPartiesCount =? partiesCount)
  then Err (ENew ("cannot start " +:+ kind +:+ " session: not all parties connected")%string)
  else Ok true.

Definition default_Run : Z → bool → Z → Z → res bool := oneshot_Run "signing".
Definition keygen_Run : Z → bool → Z → Z → res bool := oneshot_Run "keygen".

(** [run] and [WaitFor]: the result, the context's error, or a generic one. *)
Definition oneshot_run {R} (e : EndEvent R) (ctxErr : option error) (msg : string)
    : option R * option error :=
  match party_WaitFor e with
  | Some r => (Some r, None)
  | None => (None, Some match ctxErr with Some err => err | None => ENew msg end)
  end.

Definition default_run {R} (e : EndEvent R) (ctxErr : option error) : option R * option error :=
  oneshot_run e ctxErr "signing session error occurred".
Definition keygen_run {R} (e : EndEvent R) (ctxErr : option error) : option R * option error :=
  oneshot_run e ctxErr "keygen session error occurred".

End party.

Arguments EndContext {_}.
Arguments EndResult {_} _.
Arguments EndClosed {_}.

(** ** Locks

    A handler of a peer's request holds the read locks of the session manager and of
    the session while [SignParty.Receive] sends on the channel of the party.  The
    session's loop takes the session's write lock to replace the party, and every
    session of the node takes the manager's write lock to change its identifier. *)

Record LockState := {
  lk_queue : nat;      (* messages in the channel of the current party *)
  lk_inside : nat;     (* handlers inside SignParty.Receive *)
  lk_signer : bool;    (* the party runs and reads its channel *)
  lk_rebuilds : nat;   (* times the loop replaced the party *)
  lk_idChanges : nat   (* identifiers changed by any session of the node *) }.

Inductive lock_step : LockState → LockState → Prop :=
| lock_enter q i b r c :
    lock_step {| lk_queue := q; lk_inside := i; lk_signer := b; lk_rebuilds := r; lk_idChanges := c |}
      {| lk_queue := q; lk_inside := S i; lk_signer := b; lk_rebuilds := r; lk_idChanges := c |}
| lock_push q i b r c :
    (q < MsgsCapacity)%nat →
    lock_step {| lk_queue := q; lk_inside := S i; lk_signer := b; lk_rebuilds := r; lk_idChanges := c |}
      {| lk_queue := S q; lk_inside := i; lk_signer := b; lk_rebuilds := r; lk_idChanges := c |}
| lock_read q i r c :
    lock_step
      {| lk_queue := S q; lk_inside := i; lk_signer := true; lk_rebuilds := r; lk_idChanges := c |}
      {| lk_queue := q; lk_inside := i; lk_signer := true; lk_rebuilds := r; lk_idChanges := c |}
| lock_rebuild q b r c :
    lock_step {| lk_queue := q; lk_inside := 0; lk_signer := b; lk_rebuilds := r; lk_idChanges := c |}
      {| lk_queue := 0; lk_inside := 0; lk_signer := false; lk_rebuilds := S r; lk_idChanges := c |}
| lock_idChange q b r c :
    lock_step {| lk_queue := q; lk_inside := 0; lk_signer := b; lk_rebuilds := r; lk_idChanges := c |}
      {| lk_queue := q; lk_inside := 0; lk_signer := b; lk_rebuilds := r; lk_idChanges := S c |}.

(** A party that does not sign, with a full channel and a handler waiting. *)
Definition flooded (s : LockState) : Prop :=
  lk_queue s = MsgsCapacity ∧ (0 < lk_inside s)%nat ∧ lk_signer s = false.

(** ** Theorems *)

Section theorems.
Context `{Bech32, TssSort, TssLib}.

Definition from_party (p : LocalParty) (m : partyMsg) : bool :=
  bool_decide (is_Some (lp_parties p !! pm_Sender m)).

(** The tss-lib party only ever sees messages of the parties of its signing
    group: messages of anyone else, wherever they are in the queue, have no effect on
    the state the queue leads to. *)
Theorem outside_messages_ignored p msgs st :
  receiveMsgs p msgs st = receiveMsgs p (filter (from_party p) msgs) st.
Proof.
  revert st. induction msgs as [|m msgs IH]; intros st; [done|]. cbn [filter list_filter].
  destruct (decide (from_party p m)) as [Hd|Hd].
  - simpl. destruct (receiveMsg p m st) as [st'| |]; simpl; [apply IH|done..].
  - simpl. unfold receiveMsg, from_party in *.
    destruct (lp_parties p !! pm_Sender m) as [x|]; [|simpl; apply IH].
    exfalso. apply Hd. rewrite bool_decide_true; [done|by eexists].
Qed.

(** Messages of the local tss-lib party leave the node only as requests of its own
    session and type, and only to parties of the signing group: a message for one
    party to that party, any other message to parties of the group. *)
Theorem routeOut_confined p net msg rq dsts :
  routeOut p net msg = Ok (Some (rq, dsts)) →
  rq_Sender rq = lp_self p ∧ rq_SessionId rq = lp_sessionId p ∧ rq_Type rq = lp_type p ∧
  dsts ⊆ dom (lp_parties p) ∧
  (∀ to, tm_To msg = Some [to] → dsts ⊆ {[AddrFromPartyId to]}).
Proof.
  unfold routeOut. destruct (tm_WireBytes msg) as [raw|]; [|done].
  destruct (tm_To msg) as [[|to [|to' tos]]|]; intros Hok; try done.
  - unfold Send in Hok. destruct (lp_parties p !! AddrFromPartyId to) as [pt|] eqn:Hp.
    + destruct (net _ _); apply (inj Ok) in Hok as [= <- <-]; simpl;
        (do 3 (split; [done|])); split; try (intros; apply empty_subseteq).
      * apply elem_of_subseteq. intros a ->%elem_of_singleton. apply elem_of_dom. by eexists.
      * by intros ? [= ->].
    + apply (inj Ok) in Hok as [= <- <-]. simpl. do 3 (split; [done|]).
      split; [apply empty_subseteq|intros; apply empty_subseteq].
  - apply (inj Ok) in Hok as [= <- <-]. simpl. do 3 (split; [done|]). split; [|done].
    unfold BroadcastTo. intros a Ha. by apply elem_of_filter in Ha as [_ ?].
  - apply (inj Ok) in Hok as [= <- <-]. simpl. do 3 (split; [done|]). split; [|done].
    unfold BroadcastTo. intros a Ha. by apply elem_of_filter in Ha as [_ ?].
Qed.

(** When a node that does not sign in a session has received more messages of the
    signing phase than its channel holds, the handler that waits keeps the read locks
    for ever: on every run from there the session's loop never replaces the party and
    no session of the node ever changes its identifier again. *)
Theorem flood_blocks_node s s' :
  flooded s → star lock_step s s' →
  flooded s' ∧ lk_rebuilds s' = lk_rebuilds s ∧ lk_idChanges s' = lk_idChanges s.
Proof.
  intros Hf Hs. induction Hs as [s|a b c Hab _ IH]; [done|].
  assert (flooded b ∧ lk_rebuilds b = lk_rebuilds a ∧ lk_idChanges b = lk_idChanges a)
    as (Hfb & Hr & Hc).
  { destruct Hf as (Hq & Hi & Hb). destruct Hab; simpl in *; subst; try done; try lia.
    unfold flooded. simpl. split_and!; done || lia. }
  destruct (IH Hfb) as (? & ? & ?). split_and!; congruence.
Qed.

End theorems.

(** A node that does not sign is flooded by 101 messages. *)
Lemma flood_reachable r c :
  star lock_step
    {| lk_queue := 0; lk_inside := 0; lk_signer := false; lk_rebuilds := r; lk_idChanges := c |}
    {| lk_queue := MsgsCapacity; lk_inside := 1; lk_signer := false; lk_rebuilds := r;
       lk_idChanges := c |}.
Proof.
  assert (∀ n, (n ≤ MsgsCapacity)%nat → star lock_step
    {| lk_queue := 0; lk_inside := 0; lk_signer := false; lk_rebuilds := r; lk_idChanges := c |}
    {| lk_queue := n; lk_inside := 0; lk_signer := false; lk_rebuilds := r; lk_idChanges := c |})
    as Hn.
  { induction n as [|n IH]; intros Hle; [constructor|]. eapply star_trans; [apply IH; lia|].
    econstructor; [constructor|]. econstructor; [|constructor]. by constructor. }
  eapply star_trans; [by apply (Hn MsgsCapacity)|]. econstructor; [constructor|]. constructor.
Qed.

Section witnesses.

#[local] Instance sample_tss : TssLib :=
  {| TssParty := list bytes; UpdateFromBytes := λ st w _ _, st ++ [w] |}.

Definition sample_local : LocalParty :=
  {| lp_self := "me"; lp_sessionId := "SIGN_1_5"; lp_type := RT_SIGN;
     lp_parties := {[ "bob" := zero_party ]}; lp_sortedPartyIds := [] |}.

Lemma routeOut_confined_witness :
  let out := {| tm_WireBytes := Some []; tm_To := None; tm_IsBroadcast := true |} in
  ∃ rq dsts, routeOut sample_local (λ _ _, true) out = Ok (Some (rq, dsts)) ∧
    rq_SessionId rq = "SIGN_1_5" ∧ dsts ⊆ dom (lp_parties sample_local).
Proof.
  intros out.
  assert (∃ rq dsts, routeOut sample_local (λ _ _, true) out = Ok (Some (rq, dsts)))
    as (rq & dsts & E)
    by (eexists _, _; unfold routeOut, out; cbn [tm_WireBytes tm_To]; reflexivity).
  exists rq, dsts. split; [exact E|].
  destruct (routeOut_confined sample_local (λ _ _, true) out rq dsts E) as (_ & Hs & _ & Hd & _).
  exact (conj Hs Hd).
Defined.

Lemma flood_blocks_node_witness : ∃ s,
  star lock_step
    {| lk_queue := 0; lk_inside := 0; lk_signer := false; lk_rebuilds := 3; lk_idChanges := 7 |} s ∧
  ∀ s', star lock_step s s' → lk_rebuilds s' = 3%nat ∧ lk_idChanges s' = 7%nat.
Proof.
  eexists. split; [apply flood_reachable|]. intros s' Hs.
  apply flood_blocks_node in Hs as (_ & Hr & Hc); [done|].
  split; [done|split; [simpl; lia|done]].
Defined.

End witnesses.
