(* ===== verification/Sessions.v ===== *)
(** * Signing and resharing sessions

    Models the sessions of [internal/tss/session/signing/{evm,solana,ton,zano,utxo}]
    and [internal/tss/session/resharing/{utxo,zano}]: the components a session builds,
    the routing of peer requests to them, the runs, and the loop of the UTXO sessions,
    whose next start time depends on the number of inputs.

    The sessions of the EVM, Solana, TON and Zano chains have the same code up to the
    type of the data and the finalizer: the definitions are generic and instantiated
    per chain. *)

From S2P Require Import Prelude Core Session Deposits Broadcast Consensus Fetcher Withdrawal Signing Utxo UtxoWithdrawal Parties.
#[local] Open Scope Z_scope.

(** ** The components of a session and the routing of requests *)

Section session.
Context `{Bech32, Crypto, RandSource, SignStartEncoding, SigLib}.
Context {T : Type} `{!Hashable T}.
Context `{!GobMessage T, !GobMessage SignStartData, !GobMessage Signatures}.

Record ChainSession := {
  cs_id : string;
  cs_leader : Address;
  cs_consensus : Consensus (T:=T);
  cs_distributor : SignaturesDistributor }.

(** The block of [Run] under the session's lock. *)
Definition session_components (self : Account PrivKey) (pub : ECDSAPub) (threshold : Z)
    (parties : list Party) (sortedPartyIds : list PartyID) (id : string) : res ChainSession :=
  leader ← DetermineLeader id sortedPartyIds;
  Ok {| cs_id := id; cs_leader := leader;
        cs_consensus := New self id threshold parties leader;
        cs_distributor := NewSignaturesDistributor id parties self pub threshold leader |}.

Inductive SessionRouted :=
| RConsensus (r : Routed (T:=T))
| RSign (sender : Address) (data : bytes * bool)
| RDistribution (r : DistRouted).

(** The message of the signing phase: not tied to a session identifier. *)
Definition receiveSign (rq : SubmitRequest) : res SessionRouted :=
  data ← of_option (UnmarshalTss (rq_Data rq)) "failed to unmarshal TSS request signingData";
  sender ← wrap (Addr.FromString (rq_Sender rq)) "failed to parse sender address";
  Ok (RSign sender data).

Definition session_Receive (s : ChainSession) (initSigAccepted : bool)
    (request : option SubmitRequest) : res SessionRouted :=
  match request with
  | None => Err (ENew "nil request")
  | Some rq =>
      match rq_Type rq with
      | RT_PROPOSAL | RT_ACCEPTANCE | RT_SIGN_START =>
          RConsensus <$> Consensus.Receive (cs_consensus s) (Some rq)
      | RT_SIGN => receiveSign rq
      | RT_SIGNATURE_DISTRIBUTION =>
          RDistribution <$> dist_Receive (cs_distributor s) initSigAccepted (Some rq)
      | _ => Err (ENew "unsupported request type")
      end
  end.

(** [Receive] of the resharing sessions. *)
Definition reshare_Receive (c : Consensus (T:=T)) (request : option SubmitRequest)
    : res SessionRouted :=
  match request with
  | None => Err (ENew "nil request")
  | Some rq =>
      match rq_Type rq with
      | RT_PROPOSAL | RT_ACCEPTANCE | RT_SIGN_START =>
          RConsensus <$> Consensus.Receive c (Some rq)
      | RT_SIGN => receiveSign rq
      | _ => Err (ENew "unsupported request type")
      end
  end.

(** [Run] of the resharing sessions: [T+1] parties, the local one included. *)
Definition reshare_Run (runDelay : Z) (cancelled : bool) (connectedPartiesCount threshold : Z)
    : res bool :=
  if runDelay <=? 0 then Err (ENew "target time is in the past")
  else if cancelled then Ok false
  else if int64 (connectedPartiesCount + 1) <? int64 (threshold + 1)
  then Err (ENew "cannot start resharing session: not enough parties connected")
  else Ok true.

End session.

Arguments ChainSession {_ _} _.
Arguments SessionRouted _ : clear implicits.

(** ** The chains *)

Section chains.
Context `{Bech32, Crypto, RandSource, SignStartEncoding, SigLib, EthLib, SolanaLib, TonLib, ZanoWallet}.
Context `{ProposalEncoding, !GobMessage SignStartData, !GobMessage Signatures}.
Context `{!GobMessage EvmWithdrawalData, !GobMessage SolanaWithdrawalData,
          !GobMessage TonWithdrawalData, !GobMessage ZanoWithdrawalData}.
Context {St : Type} `{!DepositsQ St}.

Definition evm_components := session_components (T:=EvmWithdrawalData).
Definition solana_components := session_components (T:=SolanaWithdrawalData).
Definition ton_components := session_components (T:=TonWithdrawalData).
Definition zano_components := session_components (T:=ZanoWithdrawalData).

Definition evm_Receive : ChainSession EvmWithdrawalData → bool → option SubmitRequest →
    res (SessionRouted EvmWithdrawalData) := session_Receive.
Definition solana_Receive : ChainSession SolanaWithdrawalData → bool → option SubmitRequest →
    res (SessionRouted SolanaWithdrawalData) := session_Receive.
Definition ton_Receive : ChainSession TonWithdrawalData → bool → option SubmitRequest →
    res (SessionRouted TonWithdrawalData) := session_Receive.
Definition zano_Receive : ChainSession ZanoWithdrawalData → bool → option SubmitRequest →
    res (SessionRouted ZanoWithdrawalData) := session_Receive.

Definition evm_runSession : SignaturesDistributor → SessionInput EvmWithdrawalData → St →
    Outcome (St * option error) := runSession (hw_kind EvmData).
Definition solana_runSession : SignaturesDistributor → SessionInput SolanaWithdrawalData → St →
    Outcome (St * option error) := runSession (hw_kind SolanaData).
Definition ton_runSession : SignaturesDistributor → SessionInput TonWithdrawalData → St →
    Outcome (St * option error) := runSession (hw_kind TonData).
(** The result of the Zano session is not named: see [sk_named_result]. *)
Definition zano_runSession (leader : bool) (sent : option error) :
    SignaturesDistributor → SessionInput ZanoWithdrawalData → St →
    Outcome (St * option error) := runSession (zano_kind leader sent).

End chains.

(** ** The UTXO sessions: several rounds of signing *)

(** How the rounds end; [cancelledAfter idx]: the context is done in the delay after
    round [idx]. *)
Inductive Rounds :=
| RoundsDone (signatures : list SignatureData)
| RoundsFailed (round : nat)
| RoundsCancelled.

Fixpoint signRounds (sign : bytes → option SignatureData) (cancelledAfter : nat → bool)
    (idx : nat) (sigData : list bytes) (signatures : list SignatureData) : Rounds :=
  match sigData with
  | [] => RoundsDone signatures
  | currentSigData :: rest =>
      match sign currentSigData with
      | None => RoundsFailed (S idx)
      | Some signature =>
          let signatures := signatures ++ [signature] in
          match rest with
          | [] => RoundsDone signatures
          | _ => if cancelledAfter idx then RoundsCancelled
                 else signRounds sign cancelledAfter (S idx) rest signatures
          end
      end
  end.

Definition roundError (round : nat) : error :=
  ENew ("signing phase error occurred for round " +:+ print_Z (Z.of_nat round))%string.

Section utxo.
Context `{Bech32, Crypto, SigLib, WireLib, !UtxoHelper}.
Context {St : Type} `{!DepositsQ St} (tssPub : ECDSAPub) (leader : bool) (sent : option error).

Definition uw_kind : SessionKind (St:=St) UtxoWithdrawalData :=
  {| sk_identifier := uw_DepositIdentifier;
     sk_sigData := λ z, match uw_ProposalData z with
                        | None => Panic | Some p => Ok (bp_SigData p) end;
     sk_named_result := true;
     sk_finalize := uw_finalize tssPub leader sent |}.

(** The distribution and finalization phases after the update to PROCESSING. *)
Definition distributeAndFinalize (dist : SignaturesDistributor)
    (inp : SessionInput UtxoWithdrawalData) (d : UtxoWithdrawalData) (sigData : list bytes)
    (signatures : option Signatures) (s : St) : Outcome (St * option error) :=
  match runDistribution dist signatures sigData (in_init inp) (in_relays inp) with
  | Finished (Some sgs, None) => finalizePhase uw_kind (in_timing inp) d (sgs_Data sgs) s
  | Finished (None, None) => Crashed
  | Finished (_, Some e) =>
      Finished (compensate (uw_DepositIdentifier d) s,
                Some (EWrap e "signature distribution phase error occurred"))
  | StillWaiting _ => StillWaiting (s, None)
  | Blocked => Blocked
  | Crashed => Crashed
  end.

(** The signing phase and the rest. *)
Definition signAndDistribute (dist : SignaturesDistributor) (cancelledAfter : nat → bool)
    (inp : SessionInput UtxoWithdrawalData) (d : UtxoWithdrawalData) (sigData : list bytes) (s : St)
    : Outcome (St * option error) :=
  match r_signers (in_consensus inp) with
  | None => distributeAndFinalize dist inp d sigData None s
  | Some _ =>
      match signRounds (in_signature inp) cancelledAfter 0 sigData [] with
      | RoundsFailed round =>
          Finished (compensate (uw_DepositIdentifier d) s, Some (roundError round))
      (* [return nil]: the deferred compensation sees no error *)
      | RoundsCancelled => Finished (s, None)
      | RoundsDone sgs =>
          distributeAndFinalize dist inp d sigData (Some {| sgs_Data := Some <$> sgs |}) s
      end
  end.

(** [runSigningSession]: the database state and the returned error, with the number
    of inputs when [updateNextSessionStartTime] was called.  The path on which the status
    cannot be updated is here; the contract of the table excludes it in the theorems. *)
Definition runSigningSession (dist : SignaturesDistributor) (cancelledAfter : nat → bool)
    (inp : SessionInput UtxoWithdrawalData) (s : St) : Outcome (St * option error) * option Z :=
  let result := in_consensus inp in
  match r_err result with
  | Some e => (Finished (s, Some (EWrap e "consensus phase error occurred")), None)
  | None =>
      match r_sigData result with
      | None => (Finished (s, None), None)
      | Some d =>
          match sk_sigData uw_kind d with
          | Ok sigData =>
              (match q_UpdateStatus (uw_DepositIdentifier d) WS_PROCESSING s with
               | Panic => Crashed
               | Err e => Finished (s, Some (EWrap e "failed to update deposit status"))
               | Ok s1 => signAndDistribute dist cancelledAfter inp d sigData s1
               end, Some (Z.of_nat (length sigData)))
          | _ => (Crashed, None)
          end
      end
  end.

(** [runConsolidationSession]: the error and the number of inputs.  [inTime]: whether
    the finalizer reports before its context expires. *)
Definition runConsolidationSession (dist : SignaturesDistributor) (cancelledAfter : nat → bool)
    (inTime : bool) (inp : SessionInput UtxoSigningData) : Outcome (option error * option Z) :=
  let result := in_consensus inp in
  match r_err result with
  | Some e => Finished (Some (EWrap e "consensus phase error occurred"), None)
  | None =>
      match r_sigData result with
      | None => Finished (None, None)
      | Some d =>
          match us_ProposalData d with
          | None => Crashed
          | Some p =>
              let sigData := rp_SigData p in
              let rounds := Some (Z.of_nat (length sigData)) in
              let distributePhase signatures :=
                match runDistribution dist signatures sigData (in_init inp) (in_relays inp) with
                | Finished (Some sgs', None) =>
                    if inTime then
                      match us_finalize tssPub leader sent d (sgs_Data sgs') with
                      | Ok (_, e) => Finished (errors_Wrap e "finalizer phase error occurred", rounds)
                      | _ => Crashed
                      end
                    else Finished (Some (EWrap (ESentinel ErrContextDone)
                                           "finalizer phase error occurred"), rounds)
                | Finished (None, None) => Crashed
                | Finished (_, Some e) =>
                    Finished (Some (EWrap e "signature distribution phase error occurred"), rounds)
                | StillWaiting _ => StillWaiting (None, rounds)
                | Blocked => Blocked
                | Crashed => Crashed
                end in
              match r_signers result with
              | None => distributePhase None
              | Some _ =>
                  match signRounds (in_signature inp) cancelledAfter 0 sigData [] with
                  | RoundsFailed round => Finished (Some (roundError round), rounds)
                  | RoundsCancelled => Finished (None, rounds)
                  | RoundsDone sgs => distributePhase (Some {| sgs_Data := Some <$> sgs |})
                  end
              end
          end
      end
  end.

(** [resharing/utxo] [run] and [WaitFor]: the transaction hash and the error. *)
Definition reshare_utxo_run (cancelledAfter : nat → bool) (inTime : bool)
    (result : Result (T:=UtxoSigningData)) (sign : bytes → option SignatureData)
    : Outcome (string * option error) :=
  match r_err result with
  | Some e => Finished ("", Some (EWrap e "consensus phase error occurred"))
  | None =>
      match r_signers result with
      | None => Finished ("", None)
      | Some _ =>
          match r_sigData result with
          | Some d =>
              match us_ProposalData d with
              | None => Crashed
              | Some p =>
                  match signRounds sign cancelledAfter 0 (rp_SigData p) [] with
                  | RoundsFailed round => Finished ("", Some (roundError round))
                  | RoundsCancelled => Finished ("", Some (ENew "signing session cancelled"))
                  | RoundsDone sgs =>
                      if inTime then
                        match us_finalize tssPub leader sent d (Some <$> sgs) with
                        | Ok r => Finished r
                        | _ => Crashed
                        end
                      else Finished ("", Some (ESentinel ErrContextDone))
                  end
              end
          | None => Crashed
          end
      end
  end.

End utxo.

(** Which session [Run] starts, from the number of outputs in the wallet. *)
Definition isSignSession (unspentCount : res Z) : bool :=
  match unspentCount with
  | Ok n => negb (ConsolidationThreshold <? n)
  | _ => true
  end.

(** [utxo.Session.Receive]: the consensus party depends on the kind of the session. *)
Section utxo_receive.
Context `{Bech32, Crypto, RandSource, SignStartEncoding, SigLib}.
Context `{BitcoinEncoding, !GobMessage UtxoWithdrawalData, !GobMessage UtxoSigningData}.
Context `{!GobMessage SignStartData, !GobMessage Signatures}.

Inductive UtxoRouted :=
| UtxoSigning (r : SessionRouted UtxoWithdrawalData)
| UtxoConsolidation (r : Routed (T:=UtxoSigningData)).

#[local] Instance uw_Hashable : Hashable UtxoWithdrawalData := uw_HashString.

Definition utxo_Receive (isSign : bool) (s : ChainSession UtxoWithdrawalData)
    (consolidation : Consensus (T:=UtxoSigningData)) (initSigAccepted : bool)
    (request : option SubmitRequest) : res UtxoRouted :=
  match request with
  | None => Err (ENew "nil request")
  | Some rq =>
      match rq_Type rq with
      | RT_PROPOSAL | RT_ACCEPTANCE | RT_SIGN_START =>
          if isSign then UtxoSigning ∘ RConsensus <$> Consensus.Receive (cs_consensus s) (Some rq)
          else UtxoConsolidation <$> Consensus.Receive consolidation (Some rq)
      | RT_SIGN => UtxoSigning <$> receiveSign rq
      | RT_SIGNATURE_DISTRIBUTION =>
          UtxoSigning ∘ RDistribution <$> dist_Receive (cs_distributor s) initSigAccepted (Some rq)
      | _ => Err (ENew "unsupported request type")
      end
  end.

End utxo_receive.

(** ** The loop of the UTXO sessions *)

Record UtxoLoop := {
  ul_id : string; ul_next : Z; ul_constant : bool; ul_phase : Phase }.

Definition utxo_init (params : SigningParams) : UtxoLoop :=
  {| ul_id := GetConcreteSigningSessionIdentifier (sp_ChainId params) (ps_Id (sp_Params params));
     ul_next := ps_StartTime (sp_Params params); ul_constant := true; ul_phase := Waiting |}.

(** One iteration of [Run]: the start, and the end of a run that called
    [updateNextSessionStartTime] with [rounds] inputs, or did not. *)
Definition utxo_start (s : UtxoLoop) : UtxoLoop :=
  {| ul_id := ul_id s; ul_next := ul_next s + BoundarySigningSession; ul_constant := false;
     ul_phase := Running |}.

Definition utxo_finish (rounds : option Z) (s : UtxoLoop) : UtxoLoop :=
  {| ul_id := IncrementSessionIdentifier (ul_id s);
     ul_next := match rounds with
                | Some n => updateNextSessionStartTime (ul_next s) n
                | None => ul_next s
                end;
     ul_constant := match rounds with Some _ => true | None => ul_constant s end;
     ul_phase := Waiting |}.

(** [SigningSessionInfo] reports the time only when it is constant. *)
Definition utxo_info (threshold : Z) (chainId : string) (s : UtxoLoop) : res SigningSessionInfo :=
  ToSigningSessionInfo (ul_id s) (if ul_constant s then Some (ul_next s) else None)
    threshold chainId.

(** [Syncer.Sync]: the answers to at most [maxRetries] requests. *)
Fixpoint Sync (maxRetries : nat) (answers : list (res SigningSessionInfo))
    : res SigningSessionInfo :=
  match maxRetries, answers with
  | S n, a :: rest =>
      info ← wrap a "failed to get session info";
      if negb (si_NextSessionStartTime info =? 0) then Ok info else Sync n rest
  | _, _ => Err (ENew "no response from party")
  end.

(** ** resharing/zano *)

Record AssetDescriptor := { ad_Owner : string; ad_OwnerEthPubKey : string }.
Record AssetDescriptorBase := {
  ab_OperationType : Z; ab_OptAssetId : option string; ab_OptDescriptor : option AssetDescriptor }.

Definition OperationTypeTransferAssetOwnership : Z := 3.

Definition IsValidTransferAssetOwnershipOperation (a : AssetDescriptorBase) : bool :=
  (ab_OperationType a =? OperationTypeTransferAssetOwnership) &&
  bool_decide (is_Some (ab_OptAssetId a)) && bool_decide (is_Some (ab_OptDescriptor a)).

Record ZanoResharingProposalData := {
  zr_AssetId : string; zr_OwnerEthPubKey : string; zr_Data : DataForExternalSigning;
  zr_TxId : string; zr_SigData : bytes }.

Record ZanoSigningData := { zs_ProposalData : option ZanoResharingProposalData }.

(** The wallet's unsigned transfer of an asset's ownership, and [encoding/base64] and
    [encoding/json] applied to the decrypted transaction: the raw items of its
    [extra] array, each with its field [asset_descriptor_base], if it has one,
    decoded into an [AssetDescriptorBase]. *)
Class ZanoOwnership `{ZanoWallet} := {
  TransferAssetOwnershipUnsigned : string → string → bool → res EmitAssetResponse;
  base64_DecodeTx : DecryptTxDetailsResponse → res bytes;
  json_extra : bytes → res (list (option (res AssetDescriptorBase))) }.

(** [TxExtra.UnmarshalJSON]: the descriptors of the items that have one, in order. *)
Fixpoint TxExtra_UnmarshalJSON (rawItems : list (option (res AssetDescriptorBase)))
    : res (list AssetDescriptorBase) :=
  match rawItems with
  | [] => Ok []
  | None :: rest => TxExtra_UnmarshalJSON rest
  | Some item :: rest =>
      assetDescriptor ← wrap item "failed to unmarshal asset descriptor";
      entries ← TxExtra_UnmarshalJSON rest;
      Ok (assetDescriptor :: entries)
  end.

Section zano_resharing.
Context `{EthLib, ZanoWallet, !ZanoOwnership} (assetId ownerPubKey : string) (isEthKey : bool).

Definition zr_FormProposalData : res (option ZanoSigningData) :=
  tx ← wrap (TransferAssetOwnershipUnsigned assetId ownerPubKey isEthKey)
         "failed to form ownership unsigned transaction";
  sigData ← zano_FormSigningData (ea_TxID tx);
  Ok (Some {| zs_ProposalData := Some
    {| zr_AssetId := assetId; zr_OwnerEthPubKey := ownerPubKey; zr_Data := ea_Data tx;
       zr_TxId := ea_TxID tx; zr_SigData := sigData |} |}).

Definition GetAssetInfo (details : DecryptTxDetailsResponse) : res AssetDescriptorBase :=
  rawJsonTx ← wrap (base64_DecodeTx details) "failed to decode base64 transaction";
  extra ← wrap (rawItems ← json_extra rawJsonTx; TxExtra_UnmarshalJSON rawItems)
            "failed to unmarshal transaction";
  match extra with a :: _ => Ok a | [] => Err (ENew "asset info not found") end.

Definition validateAssetInfo (assetInfo : AssetDescriptorBase) : res unit :=
  if negb (IsValidTransferAssetOwnershipOperation assetInfo)
  then Err (ENew "invalid transfer asset ownership operation")
  else
    match ab_OptAssetId assetInfo, ab_OptDescriptor assetInfo with
    | Some id, Some d =>
        if negb (bool_decide (id = assetId)) then Err (ENew "asset id mismatch")
        else
          let proposedOwner := if isEthKey then ad_OwnerEthPubKey d else ad_Owner d in
          if negb (bool_decide (proposedOwner = ownerPubKey))
          then Err (ENew "new owner pub key mismatch")
          else Ok tt
    | _, _ => Panic
    end.

Definition zr_VerifyProposedData (data : ZanoSigningData) : res unit :=
  match zs_ProposalData data with
  | None => Panic
  | Some p =>
      details ← wrap (DecryptTxDetails (zr_Data p)) "failed to decrypt tx details";
      assetInfo ← wrap (GetAssetInfo details) "failed to get asset info from tx details";
      _ ← wrap (validateAssetInfo assetInfo) "asset info validation failed";
      sigData ← zano_FormSigningData (dt_VerifiedTxID details);
      if bool_decide (zr_SigData p = sigData) then Ok tt
      else Err (ENew "sign data does not match the expected one")
  end.

(** [resharing/zano/finalizer.go]: [sent] is the outcome of [SendSignedTransaction];
    the leader encodes the signature. *)
Context `{SigLib}.

Definition zr_finalize (leader : bool) (sent : option error) (data : ZanoSigningData)
    (signature : option SignatureData) : res (string * option error) :=
  match zs_ProposalData data with
  | None => Panic
  | Some p =>
      let result := ("0x" +:+ zr_TxId p)%string in
      if negb leader then Ok (result, None)
      else
        _ ← match signature with None => Ok "" | Some sg => zano_EncodeSignature sg end;
        Ok (result, sent)
  end.

Definition reshare_zano_run (leader : bool) (sent : option error) (inTime : bool)
    (result : Result (T:=ZanoSigningData)) (sign : bytes → option SignatureData)
    : Outcome (string * option error) :=
  match r_err result with
  | Some e => Finished ("", Some (EWrap e "consensus phase error occurred"))
  | None =>
      match r_signers result with
      | None => Finished ("", None)
      | Some _ =>
          match r_sigData result with
          | Some d =>
              match zs_ProposalData d with
              | None => Crashed
              | Some p =>
                  match sign (zr_SigData p) with
                  | None => Finished ("", Some (ENew "signing phase error occurred "))
                  | Some sg =>
                      if inTime then
                        match zr_finalize leader sent d (Some sg) with
                        | Ok r => Finished r
                        | _ => Crashed
                        end
                      else Finished ("", Some (ESentinel ErrContextDone))
                  end
              end
          | None => Crashed
          end
      end
  end.

End zano_resharing.

(** ** Theorems *)

Section receive_theorems.
Context `{Bech32, Crypto, RandSource, SignStartEncoding, SigLib}.
Context {T : Type} `{!Hashable T}.
Context `{!GobMessage T, !GobMessage SignStartData, !GobMessage Signatures}.

(** A session takes a request for its consensus or its distribution phase only
    when the request names the session's current identifier and a decodable sender,
    for the consensus a party of the group; requests of other types are refused. *)
Theorem session_Receive_bound self pub th parties ids id (s : ChainSession T) acc rq r :
  session_components self pub th parties ids id = Ok s →
  session_Receive s acc (Some rq) = Ok r →
  is_Some (bech32_decode (rq_Sender rq)) ∧
  match r with
  | RConsensus _ => rq_SessionId rq = id ∧ rq_Sender rq ∈ CoreAddress <$> parties
  | RDistribution _ => rq_SessionId rq = id
  | RSign sender _ => sender = rq_Sender rq ∧ rq_Type rq = RT_SIGN
  end.
Proof.
  unfold session_components. intros Hs Hr.
  destruct (DetermineLeader id ids) as [leader| |]; [|done..]. injection Hs as <-.
  unfold session_Receive in Hr. cbn [cs_consensus cs_distributor] in Hr.
  assert (∀ x : res (Routed (T:=T)), x = Consensus.Receive (New self id th parties leader) (Some rq) →
    RConsensus <$> x = Ok r →
    is_Some (bech32_decode (rq_Sender rq)) ∧
    match r with
    | RConsensus _ => rq_SessionId rq = id ∧ rq_Sender rq ∈ CoreAddress <$> parties
    | _ => True end ∧ ∃ c, r = RConsensus c) as Hcons.
  { intros x Hx Hf. destruct x as [c| |]; [|done..]. injection Hf as <-. symmetry in Hx.
    unfold Consensus.Receive in Hx.
    cbn [co_sessionId New co_parties] in Hx.
    destruct (bool_decide_reflect (rq_SessionId rq = id)) as [Hid|]; simpl in Hx; [|done].
    apply bind_Ok in Hx as (sender & Hsd & Hx). apply wrap_Ok, Addr.FromString_Ok in Hsd as [-> Hd].
    destruct (partiesByAddress parties !! rq_Sender rq) as [p|] eqn:Hp; [|done].
    split; [done|]. split; [|by eexists]. split; [done|]. apply partiesByAddress_is_Some. by eexists. }
  destruct (rq_Type rq) eqn:Ht; try done;
    try (destruct (Hcons _ eq_refl Hr) as (Hd & Hm & c & ->); by split).
  - unfold receiveSign in Hr. apply bind_Ok in Hr as (d & _ & Hr).
    apply bind_Ok in Hr as (sender & Hsd & Hr). apply wrap_Ok, Addr.FromString_Ok in Hsd as [-> Hd].
    by injection Hr as <-.
  - destruct (dist_Receive _ acc (Some rq)) as [dr| |] eqn:Hdr; [|done..]. injection Hr as <-.
    unfold dist_Receive in Hdr. cbn [NewSignaturesDistributor di_sessionId] in Hdr.
    destruct (bool_decide_reflect (rq_SessionId rq = id)) as [Hid|]; simpl in Hdr; [|done].
    destruct (negb _); [done|].
    apply bind_Ok in Hdr as (sender & Hsd & _). by apply wrap_Ok, Addr.FromString_Ok in Hsd as [_ ?].
Qed.

End receive_theorems.

Section utxo_theorems.
Context `{Bech32, Crypto, SigLib, WireLib, !UtxoHelper}.
Context {St : Type} `{!DepositsQ St, !DepositsSpec St}.
Implicit Types (s : St).

(** When the context is done in the delay between two signing rounds, the UTXO
    session returns without an error and the deposit stays PROCESSING, a status no
    later session takes up again. *)
Theorem utxo_cancelled_stuck tssPub leader sent dist cancelledAfter inp s d p data rest sg signers :
  inv s → r_err (in_consensus inp) = None → r_sigData (in_consensus inp) = Some d →
  r_signers (in_consensus inp) = Some signers → uw_ProposalData d = Some p →
  bp_SigData p = data :: rest → rest ≠ [] → in_signature inp data = Some sg →
  cancelledAfter 0%nat = true →
  ∃ s' n, runSigningSession tssPub leader sent dist cancelledAfter inp s = (Finished (s', None), n) ∧
    touches (uw_DepositIdentifier d) (λ row, d_WithdrawalStatus row = WS_PROCESSING)
      (view s) (view s').
Proof.
  intros Hinv He Hd Hs Hp Hdata Hrest Hsig Hc. unfold runSigningSession.
  rewrite He, Hd. simpl. rewrite Hp. simpl.
  destruct (UpdateStatus_view s (uw_DepositIdentifier d) WS_PROCESSING Hinv) as (s1 & -> & _ & Hv).
  unfold signAndDistribute. rewrite Hs, Hdata. simpl. rewrite Hsig, Hc. destruct rest; [done|]. do 2 eexists. split; [done|].
  rewrite Hv. apply touches_alter; [done|naive_solver|done].
Qed.

(** The finalizer leaves the database alone or marks the deposit as processed. *)
Lemma uw_finalize_view tssPub leader sent d sgs s s' e :
  inv s → uw_finalize tssPub leader sent d sgs s = Ok (s', e) →
  (s' = s ∧ is_Some e) ∨
  (inv s' ∧ ∃ hash data, view s' =
     alter (Pg.processed_update {| pd_Identifier := uw_DepositIdentifier d; pd_Signature := None;
              pd_TxHash := Some hash; pd_TxData := Some data |}) (uw_DepositIdentifier d) (view s)).
Proof.
  intros Hinv Hok. unfold uw_finalize in Hok. destruct (uw_ProposalData d) as [p|]; [|done].
  destruct (Deserialize _) as [tx|]; [|injection Hok as <- <-; left; eauto].
  destruct (InjectSignatures _ _ _) as [tx'| |]; [|injection Hok as <- <-; left; eauto|done].
  set (data' := {| pd_Identifier := uw_DepositIdentifier d; pd_Signature := None;
    pd_TxHash := Some _; pd_TxData := Some _ |}) in *.
  pose proof (UpdateProcessed_spec s data' Hinv) as Hu.
  destruct (q_UpdateProcessed data' s) as [s1|err|] eqn:Hq; [|injection Hok as <- <-; left; eauto|done].
  assert (inv s1) as Hinv1 by (eapply update_inv; [done|]; naive_solver).
  assert (s' = s1) as -> by (destruct (negb leader); by injection Hok as <- _).
  right. split; [done|]. eexists _, _. unfold spec_update_hash in Hu. simpl in Hu.
  destruct (view s !! uw_DepositIdentifier d) as [row|] eqn:Hrow.
  - destruct (fits_opt _ _); [|done]. by apply (inj Ok) in Hu as ->.
  - apply (inj Ok) in Hu as ->. rewrite alter_id; [done|]. intros x. by rewrite Hrow.
Qed.

Lemma signRounds_cancelled sign cancelledAfter data : ∀ idx acc,
  signRounds sign cancelledAfter idx data acc = RoundsCancelled → ∃ i, cancelledAfter i = true.
Proof.
  induction data as [|x data IH]; intros idx acc Hr; simpl in Hr; [done|].
  destruct (sign x); [|done]. destruct data; [done|].
  destruct (cancelledAfter idx) eqn:Hc; [by eexists|by eapply IH].
Qed.

(** What a session after the consensus leaves of its deposit. *)
Definition utxo_outcome (cancelledAfter : nat → bool) (timing : FinalizeTiming)
    (err : option error) (row : Deposit) : Prop :=
  match err with
  | None => d_WithdrawalStatus row = WS_PROCESSED ∨
      (d_WithdrawalStatus row = WS_PROCESSING ∧ ∃ i, cancelledAfter i = true)
  | Some _ => d_WithdrawalStatus row = WS_FAILED ∨
      (timing = TimedOutThenWrites ∧ d_WithdrawalStatus row = WS_PROCESSED)
  end.

Lemma touches_trans i (P Q : Deposit → Prop) m m1 m2 :
  touches i P m m1 → touches i Q m1 m2 → touches i Q m m2.
Proof.
  intros [Ho1 Hi1] [Ho2 Hi2]. split.
  - intros j Hj. by rewrite Ho2, Ho1.
  - intros row (row1 & Hr1 & _)%Hi1. by apply Hi2 in Hr1.
Qed.

Lemma touches_alter_self i f (P : Deposit → Prop) m :
  (∀ row, P (f row)) → touches i P m (alter f i m).
Proof. intros Hf. apply touches_alter; [done|by eauto|done]. Qed.

Lemma compensate_touches i (P : Deposit → Prop) s :
  inv s → (∀ row, P (set_WithdrawalStatus WS_FAILED row)) →
  touches i P (view s) (view (compensate i s)).
Proof.
  intros Hinv HP. destruct (compensate_view s i Hinv) as [_ ->]. by apply touches_alter_self.
Qed.

Lemma distributeAndFinalize_outcome tssPub leader sent dist cancelledAfter inp d sigData sgs s s' err :
  inv s → distributeAndFinalize tssPub leader sent dist inp d sigData sgs s = Finished (s', err) →
  touches (uw_DepositIdentifier d) (utxo_outcome cancelledAfter (in_timing inp) err)
    (view s) (view s').
Proof.
  intros Hinv Hd. unfold distributeAndFinalize in Hd. set (i := uw_DepositIdentifier d) in *.
  destruct (runDistribution dist sgs sigData (in_init inp) (in_relays inp))
    as [|[[x|] [e|]]| |]; try done;
    [injection Hd as <- <-; apply compensate_touches; [done|by left]| |
     injection Hd as <- <-; apply compensate_touches; [done|by left]].
  unfold finalizePhase in Hd. cbn [sk_finalize sk_identifier uw_kind] in Hd. fold i in Hd.
  destruct (in_timing inp) eqn:Ht.
  - destruct (uw_finalize tssPub leader sent d (sgs_Data x) s) as [[s2 e]| |] eqn:Hfin; [|done..].
    apply uw_finalize_view in Hfin as [[-> [e' ->]]|(Hinv3 & h & dt & Hv3)]; [| |done].
    + injection Hd as <- <-. apply compensate_touches; [done|by left].
    + destruct e as [e|]; injection Hd as <- <-.
      * eapply touches_trans; [|apply compensate_touches; [done|by left]].
        rewrite Hv3. by apply (touches_alter_self _ _ (λ _, True)).
      * rewrite Hv3. apply touches_alter_self. by left.
  - destruct (uw_finalize _ _ _ _ _ s) as [[s2 e]| |] eqn:Hfin; [|done..]. injection Hd as <- <-.
    apply uw_finalize_view in Hfin as [[-> Hs]|(Hinv3 & h & dt & Hv3)]; [| |done].
    + apply compensate_touches; [done|by left].
    + eapply touches_trans; [|apply compensate_touches; [done|by left]].
      rewrite Hv3. by apply (touches_alter_self _ _ (λ _, True)).
  - destruct (uw_finalize _ _ _ _ _ (compensate i s)) as [[s2 e]| |] eqn:Hfin; [|done..].
    injection Hd as <- <-. destruct (compensate_view s i Hinv) as [Hinv2 _].
    apply uw_finalize_view in Hfin as [[-> Hs]|(Hinv3 & h & dt & Hv3)]; [| |done].
    + apply compensate_touches; [done|by left].
    + eapply touches_trans; [by apply (compensate_touches i (λ _, True))|].
      rewrite Hv3. apply touches_alter_self. by right.
  - injection Hd as <- <-. apply compensate_touches; [done|by left].
Qed.

(** C36: The life cycle of a withdrawal in one UTXO signing session.  A session that
    reports no error leaves the deposit PROCESSED, unless its context was done
    between two rounds, which leaves it PROCESSING; a session that fails after the
    consensus leaves it FAILED, except that a finalizer that writes after its
    time-out turns it PROCESSED after all; no other deposit changes; without data
    nothing changes and the next start time is not touched. *)
Theorem utxo_runSigningSession_lifecycle tssPub leader sent dist cancelledAfter inp s s' err n :
  inv s →
  runSigningSession tssPub leader sent dist cancelledAfter inp s = (Finished (s', err), n) →
  match r_err (in_consensus inp), r_sigData (in_consensus inp) with
  | None, Some d =>
      n = (λ p, Z.of_nat (length (bp_SigData p))) <$> uw_ProposalData d ∧
      touches (uw_DepositIdentifier d) (utxo_outcome cancelledAfter (in_timing inp) err)
        (view s) (view s')
  | _, _ => s' = s ∧ n = None
  end.
Proof.
  intros Hinv Hrun. unfold runSigningSession in Hrun.
  destruct (r_err (in_consensus inp)); [by injection Hrun as <- _ <-|].
  destruct (r_sigData (in_consensus inp)) as [d|]; [|by injection Hrun as <- _ <-].
  cbn [sk_sigData uw_kind] in Hrun. destruct (uw_ProposalData d) as [p|]; [|done].
  set (i := uw_DepositIdentifier d) in *. simpl.
  destruct (UpdateStatus_view s i WS_PROCESSING Hinv) as (s1 & Hs1 & Hinv1 & Hv1).
  rewrite Hs1 in Hrun. injection Hrun as Hrun <-. split; [done|].
  eapply (touches_trans _ (λ row, d_WithdrawalStatus row = WS_PROCESSING) _ _ (view s1));
    [rewrite Hv1; by apply touches_alter_self|].
  unfold signAndDistribute in Hrun.
  destruct (r_signers (in_consensus inp)); [|by eapply distributeAndFinalize_outcome].
  destruct (signRounds _ _ _ _ _) as [sgs|round|] eqn:Hr.
  - by eapply distributeAndFinalize_outcome.
  - injection Hrun as <- <-. apply compensate_touches; [done|by left].
  - injection Hrun as <- <-. apply signRounds_cancelled in Hr as Hc.
    split; [done|]. intros row Hrow. exists row. split; [done|]. right. split; [|done].
    rewrite Hv1, lookup_alter_eq in Hrow. destruct (view s !! i); [|done]. by injection Hrow as <-.
Qed.

End utxo_theorems.

Section loop_theorems.

Definition idle_session (s : UtxoLoop) : UtxoLoop := utxo_finish None (utxo_start s).

Lemma idle_not_constant n s : ul_constant (Nat.iter (S n) idle_session s) = false.
Proof. done. Qed.

Lemma Sync_zero info k :
  si_NextSessionStartTime info = 0 → ∀ i, Sync k (replicate k (Ok info)) ≠ Ok i.
Proof. intros Hz. induction k as [|k IH]; intros i; simpl; [done|]. rewrite Hz. simpl. apply IH. Qed.

(** After any positive number of UTXO sessions without data the reported start
    time of the next session is missing, although the session waits for a time that
    is fixed: a node that synchronises with it exhausts its retries, however many. *)
Theorem utxo_idle_unsyncable n k th chainId s info :
  Sync k (replicate k (utxo_info th chainId (Nat.iter (S n) idle_session s))) ≠ Ok info.
Proof.
  set (s' := Nat.iter (S n) idle_session s).
  destruct (utxo_info th chainId s') as [i| |] eqn:Hi.
  - apply Sync_zero. unfold utxo_info in Hi.
    change (ul_constant s') with false in Hi. simpl in Hi. unfold ToSigningSessionInfo in Hi.
    apply bind_Ok in Hi as (id & _ & Hi). by apply (inj Ok) in Hi as <-.
  - by destruct k.
  - by destruct k.
Qed.

(** With data, the session extends the start of the next one so that the phases of
    all its inputs fit before it: the consensus, all signing rounds with the delays
    between them, the distribution and the finalization. *)
Theorem utxo_next_start_covers_rounds s rounds :
  0 < rounds < 2 ^ 29 →
  let s' := utxo_finish (Some rounds) (utxo_start s) in
  ul_constant s' = true ∧
  ul_next s' = ul_next s + BoundaryConsensus + getSigningPhaseDelay rounds
               + BoundarySignatureDistribution + BoundaryFinalize.
Proof.
  intros Hr. simpl. split; [done|].
  unfold updateNextSessionStartTime, getSigningPhaseDelay, BoundarySigningSession.
  assert (BoundarySign = 13000000000) as -> by done.
  assert (BoundaryBitcoinSignRoundDelay = 500000000) as -> by done.
  destruct (Z.leb_spec rounds 1) as [|Hgt]; [lia|].
  rewrite !int64_ok by (rewrite ?int64_ok by lia; lia). lia.
Qed.

End loop_theorems.

Section zano_theorems.
Context `{EthLib, ZanoWallet, !ZanoOwnership}.

(** An accepted resharing proposal of the Zano session is a transaction that, as
    the validator's own wallet decrypts it, transfers the ownership of the configured
    asset to the configured key, and the data to sign is the identifier of that
    transaction. *)
Theorem zano_resharing_sound assetId ownerPubKey isEthKey data u :
  zr_VerifyProposedData assetId ownerPubKey isEthKey data = Ok u →
  ∃ p details a d, zs_ProposalData data = Some p ∧ DecryptTxDetails (zr_Data p) = Ok details ∧
    GetAssetInfo details = Ok a ∧ ab_OperationType a = OperationTypeTransferAssetOwnership ∧
    ab_OptAssetId a = Some assetId ∧ ab_OptDescriptor a = Some d ∧
    (if isEthKey then ad_OwnerEthPubKey d else ad_Owner d) = ownerPubKey ∧
    zano_FormSigningData (dt_VerifiedTxID details) = Ok (zr_SigData p).
Proof.
  unfold zr_VerifyProposedData. destruct (zs_ProposalData data) as [p|]; [|done]. intros Hok.
  apply bind_Ok in Hok as (details & Hd & Hok). apply wrap_Ok in Hd.
  apply bind_Ok in Hok as (a & Ha & Hok). apply wrap_Ok in Ha.
  apply bind_Ok in Hok as (? & Hv & Hok). apply wrap_Ok in Hv.
  apply bind_Ok in Hok as (sg & Hs & Hok).
  destruct (bool_decide_reflect (zr_SigData p = sg)) as [<-|]; [|done].
  unfold validateAssetInfo, IsValidTransferAssetOwnershipOperation in Hv.
  destruct (Z.eqb_spec (ab_OperationType a) OperationTypeTransferAssetOwnership); [|done].
  destruct (ab_OptAssetId a) as [id|] eqn:Hid; [|by rewrite bool_decide_false in Hv by (by intros [])].
  destruct (ab_OptDescriptor a) as [d|] eqn:Hdesc;
    [|by rewrite (bool_decide_false (is_Some None)), andb_false_r in Hv by (by intros [])].
  destruct (negb _); [done|].
  destruct (bool_decide_reflect (id = assetId)) as [->|]; [|done]. simpl in Hv.
  destruct (bool_decide_reflect ((if isEthKey then ad_OwnerEthPubKey d else ad_Owner d) = ownerPubKey));
    [|done].
  by exists p, details, a, d.
Qed.

End zano_theorems.

(** ** Witnesses *)

Module SampleSessions.
Export SampleUtxo SampleConsensus.
#[export] Existing Instance sample_bech32.
#[export] Existing Instance sample_crypto.
#[export] Existing Instance sample_rand.

#[export] Existing Instance SampleWithdrawal.wallet.
#[export] Existing Instance SampleWithdrawal.eth.

#[export] Instance gob_string : GobMessage string := SampleConsensus.proposals.
#[export] Instance gob_start : GobMessage SignStartData := SampleConsensus.starts [].
#[export] Instance gob_signatures : GobMessage Signatures :=
  {| EncodeRoundMessage := λ _, []; DecodeRoundMessage := λ _, None |}.

Definition ids : list PartyID :=
  [{| pid_id := "o"; pid_moniker := "o"; pid_key := 1 |};
   {| pid_id := "p"; pid_moniker := "p"; pid_key := 2 |}].

Definition data : UtxoWithdrawalData :=
  {| uw_ProposalData := Some
       {| bp_DepositId := Some SampleSigning.msg_id; bp_SerializedTx := []; bp_FeeRate := 1000;
          bp_SigData := [[Byte.x07]; [Byte.x08]] |} |}.

#[export] Instance ownership : ZanoOwnership :=
  {| TransferAssetOwnershipUnsigned := λ _ _ _, Err (ENew "");
     base64_DecodeTx := λ _, Ok [];
     json_extra := λ _, Ok [None; Some (Ok {| ab_OperationType := 3; ab_OptAssetId := Some "asset";
       ab_OptDescriptor := Some {| ad_Owner := "o"; ad_OwnerEthPubKey := "key" |} |})] |}.

Definition ownership_data : ZanoSigningData :=
  {| zs_ProposalData := Some
       {| zr_AssetId := "asset"; zr_OwnerEthPubKey := "key";
          zr_Data := {| ze_OutputsAddresses := []; ze_UnsignedTx := ""; ze_FinalizedTx := "";
                        ze_TxSecretKey := "" |};
          zr_TxId := "ab"; zr_SigData := SampleWithdrawal.fit 20 (bytes_of_string "0xab") |} |}.
End SampleSessions.

Section witnesses.
Import SampleSessions.

Definition acceptance : SubmitRequest :=
  {| rq_Sender := "p"; rq_SessionId := "SIGN_1_5"; rq_Type := RT_ACCEPTANCE; rq_Data := None |}.

Lemma session_Receive_bound_witness :
  ∃ s : ChainSession string, ∃ r,
    session_components (sample_account "o") (tt : @ECDSAPub SampleSigning.lib) 1 [sample_party "p"]
      ids "SIGN_1_5" = Ok s ∧
    session_Receive s false (Some acceptance) = Ok r ∧ is_Some (bech32_decode "p").
Proof.
  destruct (DetermineLeader "SIGN_1_5" ids) as [leader| |] eqn:El; [|vm_compute in El; discriminate..].
  assert (∃ s : ChainSession string, session_components (sample_account "o")
    (tt : @ECDSAPub SampleSigning.lib) 1 [sample_party "p"] ids "SIGN_1_5" = Ok s ∧
    cs_consensus s = New (sample_account "o") "SIGN_1_5" 1 [sample_party "p"] leader) as (s & E & Hc)
    by (unfold session_components; rewrite El; eexists; split; reflexivity).
  assert (session_Receive s false (Some acceptance)
    = Ok (RConsensus (ToMsgs {| cm_Sender := "p"; cm_Type := RT_ACCEPTANCE; cm_Data := None |}))) as Er
    by (unfold session_Receive; rewrite Hc; reflexivity).
  eexists s, _. split; [exact E|]. split; [exact Er|].
  exact (proj1 (session_Receive_bound _ _ _ _ _ _ _ _ _ _ E Er)).
Defined.

Lemma utxo_cancelled_stuck_witness :
  ∃ (s' : Table) n row', runSigningSession (tt : @ECDSAPub SampleSigning.lib) true None SampleSigning.distributor (λ _, true)
      (SampleSigning.input data (Some SampleSigning.signature)) SampleSigning.table
    = (Finished (s', None), n) ∧
    table_view s' !! d_ident SampleSigning.row = Some row' ∧ d_WithdrawalStatus row' = WS_PROCESSING.
Proof.
  destruct (utxo_cancelled_stuck (St:=Table) (tt : @ECDSAPub SampleSigning.lib) true None SampleSigning.distributor (λ _, true)
    (SampleSigning.input data (Some SampleSigning.signature)) SampleSigning.table data
    {| bp_DepositId := Some SampleSigning.msg_id; bp_SerializedTx := []; bp_FeeRate := 1000;
       bp_SigData := [[Byte.x07]; [Byte.x08]] |} [Byte.x07] [[Byte.x08]] SampleSigning.signature
    [sample_party "p"]) as (s' & n & Hr & _ & Hrow);
    [exact SampleSigning.table_inv|reflexivity..|done|reflexivity|reflexivity|].
  destruct (Hrow (inserted_row 1 SampleSigning.row)) as (row' & Hr' & Hst);
    [vm_compute; reflexivity|].
  exists s', n, row'. split; [exact Hr|]. split; [exact Hr'|exact Hst].
Defined.

Lemma utxo_runSigningSession_lifecycle_witness :
  ∃ (s' : Table) e n row', runSigningSession (tt : @ECDSAPub SampleSigning.lib) true None SampleSigning.distributor (λ _, false)
      (SampleSigning.input data None) SampleSigning.table = (Finished (s', Some e), n) ∧
    table_view s' !! d_ident SampleSigning.row = Some row' ∧ d_WithdrawalStatus row' = WS_FAILED.
Proof.
  destruct (runSigningSession (tt : @ECDSAPub SampleSigning.lib) true None SampleSigning.distributor (λ _, false)
      (SampleSigning.input data None) SampleSigning.table) as [[|[s' [e|]]| |] n] eqn:E;
    [vm_compute in E; discriminate| |vm_compute in E; discriminate..].
  pose proof (utxo_runSigningSession_lifecycle (St:=Table) (tt : @ECDSAPub SampleSigning.lib) true None SampleSigning.distributor
    (λ _, false) (SampleSigning.input data None) SampleSigning.table s' (Some e) n
    SampleSigning.table_inv E) as (_ & _ & Hrow).
  destruct (Hrow (inserted_row 1 SampleSigning.row)) as (row' & Hr' & Hst);
    [vm_compute; reflexivity|].
  exists s', e, n, row'. split; [done|]. split; [exact Hr'|].
  destruct Hst as [Hst|[Ht _]]; [exact Hst|discriminate Ht].
Defined.

Lemma utxo_next_start_covers_rounds_witness :
  ul_next (utxo_finish (Some 3) (utxo_start
    {| ul_id := "SIGN_0_1"; ul_next := 0; ul_constant := true; ul_phase := Waiting |}))
  = 67 * Second.
Proof.
  destruct (utxo_next_start_covers_rounds
    {| ul_id := "SIGN_0_1"; ul_next := 0; ul_constant := true; ul_phase := Waiting |} 3) as [_ ->];
    [lia|by vm_compute].
Defined.

Lemma zano_resharing_sound_witness :
  ∃ details, DecryptTxDetails
    {| ze_OutputsAddresses := []; ze_UnsignedTx := ""; ze_FinalizedTx := ""; ze_TxSecretKey := "" |}
    = Ok details ∧ GetAssetInfo details = Ok {| ab_OperationType := 3; ab_OptAssetId := Some "asset";
       ab_OptDescriptor := Some {| ad_Owner := "o"; ad_OwnerEthPubKey := "key" |} |}.
Proof.
  destruct (zano_resharing_sound  "asset" "key"
    true ownership_data tt) as (p & details & a & d & [= <-] & Hd & Ha & _); [by vm_compute|].
  exists details. split; [done|]. exact eq_refl.
Defined.

End witnesses.
