(* ===== verification/Finalizers.v ===== *)
(** * The finalizers of the sessions and their goroutines

    Models the [Finalizer] of every chain ([internal/tss/session/signing/*/finalizer.go],
    [resharing/*/finalizer.go]): the builder, and [Finalize] with the goroutine it starts, the
    unbuffered channel between them, the context, and the deferred compensation of the session
    that called it, as a machine under every schedule.  The theorems show that its runs are
    exactly those of [finalizePhase] in [Signing], which the sessions are built on, and that a
    goroutine whose caller timed out never ends. *)

From S2P Require Import Prelude Core Deposits Broadcast Consensus Fetcher Withdrawal Utxo UtxoWithdrawal Signing Sessions.
#[local] Open Scope Z_scope.

(** ** The builder *)

(** The fields that the methods read; [S] is a signature or a list of signatures. *)
Record Finalizer (T S : Type) := { fz_data : option T; fz_signature : S; fz_sessionLeader : bool }.
Arguments fz_data {_ _} _.
Arguments fz_signature {_ _} _.
Arguments fz_sessionLeader {_ _} _.

Definition NewFinalizer {T S} (zero : S) (sessionLeader : bool) : Finalizer T S :=
  {| fz_data := None; fz_signature := zero; fz_sessionLeader := sessionLeader |}.
Definition WithData {T S} (data : T) (f : Finalizer T S) : Finalizer T S :=
  {| fz_data := Some data; fz_signature := fz_signature f; fz_sessionLeader := fz_sessionLeader f |}.
Definition WithSignature {T S} (sg : S) (f : Finalizer T S) : Finalizer T S :=
  {| fz_data := fz_data f; fz_signature := sg; fz_sessionLeader := fz_sessionLeader f |}.

(** ** Finalize *)

(** How [finalize] ends: a send on the channel, or closing it. *)
Inductive Signal := Sends (e : option error) | Closes.

Inductive Worker := Working | Reporting (sig : Signal) | Ended.

(** The caller: in its [select], back in the session, and after its deferred function. *)
Inductive Caller := Selecting | Returned (r : option error) | Handled (r : option error).

Section machine.
Context {St : Type} (work : St → res (St * Signal)) (compensation : St → St).
Context (reported : option error → option error) (timedOut : error).

Record FinState := { fs_db : St; fs_worker : Worker; fs_caller : Caller; fs_closed : bool; fs_done : bool }.

(** [go f.finalize(ctx)] *)
Definition fin_init (s : St) : FinState :=
  {| fs_db := s; fs_worker := Working; fs_caller := Selecting; fs_closed := false; fs_done := false |}.

Inductive fin_step : FinState → FinState → Prop :=
| fin_ctx db w c cl :
    fin_step {| fs_db := db; fs_worker := w; fs_caller := c; fs_closed := cl; fs_done := false |}
             {| fs_db := db; fs_worker := w; fs_caller := c; fs_closed := cl; fs_done := true |}
| fin_work db db' sig c cl d :
    work db = Ok (db', sig) →
    fin_step {| fs_db := db; fs_worker := Working; fs_caller := c; fs_closed := cl; fs_done := d |}
             {| fs_db := db'; fs_worker := Reporting sig; fs_caller := c; fs_closed := cl; fs_done := d |}
| fin_send db e cl d :
    fin_step {| fs_db := db; fs_worker := Reporting (Sends e); fs_caller := Selecting; fs_closed := cl; fs_done := d |}
             {| fs_db := db; fs_worker := Ended; fs_caller := Returned (reported e); fs_closed := cl; fs_done := d |}
| fin_close db c cl d :
    fin_step {| fs_db := db; fs_worker := Reporting Closes; fs_caller := c; fs_closed := cl; fs_done := d |}
             {| fs_db := db; fs_worker := Ended; fs_caller := c; fs_closed := true; fs_done := d |}
| fin_receive_closed db w d :
    fin_step {| fs_db := db; fs_worker := w; fs_caller := Selecting; fs_closed := true; fs_done := d |}
             {| fs_db := db; fs_worker := w; fs_caller := Returned (reported None); fs_closed := true; fs_done := d |}
| fin_timeout db w cl :
    fin_step {| fs_db := db; fs_worker := w; fs_caller := Selecting; fs_closed := cl; fs_done := true |}
             {| fs_db := db; fs_worker := w; fs_caller := Returned (Some timedOut); fs_closed := cl; fs_done := true |}
| fin_handle db w r cl d :
    fin_step {| fs_db := db; fs_worker := w; fs_caller := Returned r; fs_closed := cl; fs_done := d |}
             {| fs_db := match r with Some _ => compensation db | None => db end; fs_worker := w;
                fs_caller := Handled r; fs_closed := cl; fs_done := d |}.

(** The steps left: at most five. *)
Definition worker_left (w : Worker) : nat := match w with Working => 2 | Reporting _ => 1 | Ended => 0 end.
Definition caller_left (c : Caller) : nat := match c with Selecting => 2 | Returned _ => 1 | Handled _ => 0 end.
Definition fin_left (st : FinState) : nat :=
  worker_left (fs_worker st) + caller_left (fs_caller st) + (if fs_done st then 0 else 1).

Lemma fin_left_decreases st st' : fin_step st st' → (fin_left st' < fin_left st)%nat.
Proof. destruct 1; unfold fin_left; simpl; try lia; destruct w; simpl; try lia; destruct d; lia. Qed.

(** The caller can always go on once its context is done. *)
Lemma fin_progress st :
  fs_done st = true → (∃ r, fs_caller st = Handled r) ∨ ∃ st', fin_step st st'.
Proof.
  destruct st as [db w [|r|r] cl d]; simpl; intros ->; [right|right|left; eauto].
  - eexists. apply fin_timeout.
  - eexists. apply fin_handle.
Qed.

(** The database after a time-out: the worker wrote after the compensation or before it. *)
Definition timed_out_db (s db : St) (sig : Signal) : Prop :=
  work (compensation s) = Ok (db, sig) ∨ ∃ db0, work s = Ok (db0, sig) ∧ db = compensation db0.

Definition reports (sig : Signal) (r : option error) : Prop :=
  match sig with Sends e => r = reported e | Closes => r = reported None end.

Definition handle (r : option error) (db : St) : St := match r with Some _ => compensation db | None => db end.

(** What has happened to the database, given what the worker and the caller did. *)
Definition fin_inv (s : St) (st : FinState) : Prop :=
  let db := fs_db st in
  match fs_worker st with
  | Working => fs_closed st = false ∧
      match fs_caller st with
      | Selecting => db = s
      | Returned r => r = Some timedOut ∧ db = s
      | Handled r => r = Some timedOut ∧ db = compensation s
      end
  | Reporting sig => fs_closed st = false ∧
      match fs_caller st with
      | Selecting => work s = Ok (db, sig)
      | Returned r => r = Some timedOut ∧ work s = Ok (db, sig)
      | Handled r => r = Some timedOut ∧ timed_out_db s db sig
      end
  | Ended => ∃ sig,
      match fs_caller st with
      | Selecting => sig = Closes ∧ fs_closed st = true ∧ work s = Ok (db, sig)
      | Returned r => work s = Ok (db, sig) ∧ ((r = Some timedOut ∧ sig = Closes) ∨ reports sig r)
      | Handled r =>
          (r = Some timedOut ∧ sig = Closes ∧ timed_out_db s db sig) ∨
          (reports sig r ∧ ∃ db0, work s = Ok (db0, sig) ∧ db = handle r db0)
      end
  end.

Lemma fin_inv_step s st st' : fin_inv s st → fin_step st st' → fin_inv s st'.
Proof.
  intros Hi Hs. destruct Hs; unfold fin_inv, timed_out_db in *; simpl in *.
  - done.
  - destruct c as [|r|r]; naive_solver.
  - exists (Sends e). simpl. naive_solver.
  - exists Closes. destruct c as [|r|r]; naive_solver.
  - destruct w as [|sig|]; [naive_solver..|]. destruct Hi as (sig & -> & _ & Hw). exists Closes. naive_solver.
  - destruct w as [|sig|]; [naive_solver..|]. destruct Hi as (sig & -> & _ & Hw). exists Closes. naive_solver.
  - destruct w as [|sig|]; [naive_solver..|].
    destruct Hi as (sig & Hw & [[-> ->]|Hr]); [exists Closes; simpl; naive_solver|].
    exists sig. right. split; [done|]. exists db. split; [done|]. by destruct r.
Qed.

Lemma fin_reachable s st : star fin_step (fin_init s) st → fin_inv s st.
Proof. intros Hst. eapply (star_invariant _ _ (fin_inv_step s)); [exact Hst|]. done. Qed.

(** A goroutine that has to send after its caller timed out never ends. *)
Lemma sender_leaks s st :
  (∀ db db' sig, work db = Ok (db', sig) → ∃ e, sig = Sends e) → (∀ e, reported e ≠ Some timedOut) →
  star fin_step (fin_init s) st → fs_caller st = Returned (Some timedOut) ∨ fs_caller st = Handled (Some timedOut) →
  ∀ st', star fin_step st st' → fs_worker st' ≠ Ended.
Proof.
  intros Hsend Hrep Hst Hc st' Hst' Hw.
  assert (fs_caller st' = Returned (Some timedOut) ∨ fs_caller st' = Handled (Some timedOut)) as Hc'.
  { clear Hw Hst. induction Hst' as [|a b c Hab _ IH]; [done|]. apply IH. clear IH.
    destruct Hab; simpl in *; naive_solver. }
  pose proof (fin_reachable s st' (star_trans _ _ _ _ Hst Hst')) as Hi.
  unfold fin_inv in Hi. rewrite Hw in Hi. destruct Hi as (sig & Hi).
  assert (∀ db, work db = Ok (fs_db st', sig) → ∃ e, sig = Sends e) as Hs by (intros db; apply Hsend).
  destruct Hc' as [Hc'|Hc']; rewrite Hc' in Hi.
  - destruct Hi as (Hwk & [[_ ->]|Hr]); destruct (Hsend _ _ _ Hwk) as [e He]; [done|subst; by apply (Hrep e)].
  - destruct Hi as [(_ & -> & [Hwk|(db0 & Hwk & _)])|(Hr & db0 & Hwk & _)];
      destruct (Hsend _ _ _ Hwk) as [e He]; [done..|subst; by apply (Hrep e)].
Qed.

End machine.

(** ** The finalizers of the chains *)

Section chains.
Context `{SigLib} {St : Type} `{!DepositsQ St}.

(** [f.withdrawalData] of a finalizer without data is dereferenced. *)
Definition with_data {T S A} (f : Finalizer T S) (finalize : T → res A) : res A :=
  match fz_data f with None => Panic | Some d => finalize d end.

Definition evm_NewFinalizer : bool → Finalizer EvmWithdrawalData (option SignatureData) := NewFinalizer None.
Definition evm_WithData := WithData (T:=EvmWithdrawalData) (S:=option SignatureData).
Definition evm_WithSignature := WithSignature (T:=EvmWithdrawalData) (S:=option SignatureData).
Definition evm_finalize (f : Finalizer EvmWithdrawalData (option SignatureData)) (s : St) : res (St * option error) :=
  with_data f (λ d, hw_finalize d (fz_signature f) s).

Definition solana_NewFinalizer : bool → Finalizer SolanaWithdrawalData (option SignatureData) := NewFinalizer None.
Definition solana_WithData := WithData (T:=SolanaWithdrawalData) (S:=option SignatureData).
Definition solana_WithSignature := WithSignature (T:=SolanaWithdrawalData) (S:=option SignatureData).
Definition sol_finalize (f : Finalizer SolanaWithdrawalData (option SignatureData)) (s : St) : res (St * option error) :=
  with_data f (λ d, hw_finalize d (fz_signature f) s).

Definition ton_NewFinalizer : bool → Finalizer TonWithdrawalData (option SignatureData) := NewFinalizer None.
Definition ton_WithData := WithData (T:=TonWithdrawalData) (S:=option SignatureData).
Definition ton_WithSignature := WithSignature (T:=TonWithdrawalData) (S:=option SignatureData).
Definition tn_finalize (f : Finalizer TonWithdrawalData (option SignatureData)) (s : St) : res (St * option error) :=
  with_data f (λ d, hw_finalize d (fz_signature f) s).

Definition zano_NewFinalizer : bool → Finalizer ZanoWithdrawalData (option SignatureData) := NewFinalizer None.
Definition zano_WithData := WithData (T:=ZanoWithdrawalData) (S:=option SignatureData).
Definition zano_WithSignature := WithSignature (T:=ZanoWithdrawalData) (S:=option SignatureData).
Definition zano_finalize (sent : option error) (f : Finalizer ZanoWithdrawalData (option SignatureData)) (s : St)
    : res (St * option error) :=
  with_data f (λ d, zw_finalize (fz_sessionLeader f) sent d (fz_signature f) s).

Context `{WireLib, !UtxoHelper} (tssPub : ECDSAPub).

Definition utxo_NewFinalizer : bool → Finalizer UtxoWithdrawalData (list (option SignatureData)) := NewFinalizer [].
Definition utxo_WithData := WithData (T:=UtxoWithdrawalData) (S:=list (option SignatureData)).
Definition utxo_WithSignatures := WithSignature (T:=UtxoWithdrawalData) (S:=list (option SignatureData)).
Definition utxo_finalize (sent : option error) (f : Finalizer UtxoWithdrawalData (list (option SignatureData))) (s : St)
    : res (St * option error) :=
  with_data f (λ d, uw_finalize tssPub (fz_sessionLeader f) sent d (fz_signature f) s).

(** The finalizers of the resharing sessions have no database. *)
Definition reshare_NewFinalizer : bool → Finalizer UtxoSigningData (list (option SignatureData)) := NewFinalizer [].
Definition reshare_WithData := WithData (T:=UtxoSigningData) (S:=list (option SignatureData)).
Definition reshare_WithSignatures := WithSignature (T:=UtxoSigningData) (S:=list (option SignatureData)).
Definition reshare_finalize (sent : option error) (f : Finalizer UtxoSigningData (list (option SignatureData)))
    : res (string * option error) :=
  with_data f (λ d, us_finalize tssPub (fz_sessionLeader f) sent d (fz_signature f)).

Definition zano_reshare_NewFinalizer : bool → Finalizer ZanoSigningData (option SignatureData) := NewFinalizer None.
Definition zano_reshare_WithData := WithData (T:=ZanoSigningData) (S:=option SignatureData).
Definition zano_reshare_WithSignature := WithSignature (T:=ZanoSigningData) (S:=option SignatureData).
Definition zano_reshare_finalize (sent : option error) (f : Finalizer ZanoSigningData (option SignatureData))
    : res (string * option error) :=
  with_data f (λ d, zr_finalize (fz_sessionLeader f) sent d (fz_signature f)).

(** ** Finalize of the signing sessions *)

Definition session_work {T} (kind : SessionKind T) (d : T) (sgs : list (option SignatureData)) (s : St)
    : res (St * Signal) :=
  r ← sk_finalize kind d sgs s; Ok (fst r, Sends (snd r)).

Definition session_timedOut : error := EWrap (ESentinel ErrContextDone) "finalization timed out".
Definition session_reported (e : option error) : option error := errors_Wrap e "failed to finalize withdrawal".

Definition session_fin_step {T} (kind : SessionKind T) (d : T) (sgs : list (option SignatureData)) :=
  fin_step (session_work kind d sgs) (compensate (sk_identifier kind d)) session_reported session_timedOut.

(** ** Finalize of the resharing sessions *)

(** A transaction hash, or the zero value while [finalize] has not assigned it. *)
Definition utxo_reshare_work (sent : option error) (f : Finalizer UtxoSigningData (list (option SignatureData)))
    (_ : string) : res (string * Signal) :=
  r ← reshare_finalize sent f;
  Ok (fst r, match snd r with None => Closes | Some e => Sends (Some e) end).

(** The leader sends the outcome of the transaction, nil or not. *)
Definition zano_reshare_work (sent : option error) (f : Finalizer ZanoSigningData (option SignatureData))
    (_ : string) : res (string * Signal) :=
  r ← zano_reshare_finalize sent f;
  Ok (fst r, if fz_sessionLeader f then Sends (snd r) else Closes).

Definition reshare_fin_step (work : string → res (string * Signal)) :=
  fin_step work (λ result, result) (λ e, e) (ESentinel ErrContextDone).

(** What [Finalize] returns. *)
Definition reshare_result (st : FinState (St:=string)) : option (string * option error) :=
  match fs_caller st with
  | Handled (Some e) => Some (if bool_decide (e = ESentinel ErrContextDone) then "" else fs_db st, Some e)
  | Handled None => Some (fs_db st, None)
  | _ => None
  end.

End chains.

(** ** Theorems *)

Section theorems.
Context `{SigLib} {St : Type} `{!DepositsQ St}.

(** The calls of a session build a finalizer whose goroutine does the work of the session. *)
Lemma built_finalizers `{WireLib, !UtxoHelper} leader sent tssPub sg sgs (s : St) :
  (∀ d, evm_finalize (evm_WithSignature sg (evm_WithData d (evm_NewFinalizer leader))) s
        = sk_finalize (hw_kind EvmData) d [sg] s) ∧
  (∀ d, sol_finalize (solana_WithSignature sg (solana_WithData d (solana_NewFinalizer leader))) s
        = sk_finalize (hw_kind SolanaData) d [sg] s) ∧
  (∀ d, tn_finalize (ton_WithSignature sg (ton_WithData d (ton_NewFinalizer leader))) s
        = sk_finalize (hw_kind TonData) d [sg] s) ∧
  (∀ d, zano_finalize sent (zano_WithSignature sg (zano_WithData d (zano_NewFinalizer leader))) s
        = sk_finalize (zano_kind leader sent) d [sg] s) ∧
  (∀ d, utxo_finalize tssPub sent (utxo_WithSignatures sgs (utxo_WithData d (utxo_NewFinalizer leader))) s
        = sk_finalize (uw_kind tssPub leader sent) d sgs s).
Proof. done. Qed.

Lemma session_work_sends {T} (kind : SessionKind T) d sgs (s s' : St) sig :
  session_work kind d sgs s = Ok (s', sig) → ∃ e, sig = Sends e ∧ sk_finalize kind d sgs s = Ok (s', e).
Proof.
  unfold session_work. intros Hw. apply bind_Ok in Hw as ([s1 e] & Hf & [= <- <-]). by exists e.
Qed.

Lemma session_work_Ok {T} (kind : SessionKind T) d sgs (s s' : St) e :
  sk_finalize kind d sgs s = Ok (s', e) → session_work kind d sgs s = Ok (s', Sends e).
Proof. unfold session_work. by intros ->. Qed.

(** C16: The finalization of a session with its goroutine, under every schedule.  It takes at
    most five steps and does not stop before the session went on, once its context is done.
    Its outcomes are exactly those of the four timings that the sessions are built on: the
    finalizer reports in time, or its context is done and the write of the row comes before
    the compensation, after it, or not at all. *)
Theorem finalizer_refines {T} (kind : SessionKind T) d sgs (s : St) :
  (∀ st st', session_fin_step kind d sgs st st' → (fin_left st' < fin_left st ≤ 5)%nat) ∧
  (∀ st, fs_done st = true → (∃ r, fs_caller st = Handled r) ∨ ∃ st', session_fin_step kind d sgs st st') ∧
  ∀ s' err,
    (∃ st r, star (session_fin_step kind d sgs) (fin_init s) st ∧ fs_caller st = Handled r ∧
             s' = fs_db st ∧ err = errors_Wrap r "finalizer phase error occurred")
    ↔ ∃ timing, finalizePhase kind timing d sgs s = Finished (s', err).
Proof.
  split; [|split; [intros st; apply fin_progress|intros s' err; split]].
  - intros st st' Hs. split; [by eapply fin_left_decreases|].
    unfold fin_left, worker_left, caller_left. destruct (fs_worker st), (fs_caller st), (fs_done st); simpl; lia.
  - intros (st & r & Hst & Hc & -> & ->).
    apply fin_reachable in Hst. unfold fin_inv in Hst. destruct (fs_worker st) as [|sig|].
    + rewrite Hc in Hst. destruct Hst as (_ & -> & ->). by exists TimedOutNeverWrites.
    + rewrite Hc in Hst. destruct Hst as (_ & -> & [Hw|(db0 & Hw & ->)]);
        apply session_work_sends in Hw as (e & -> & Hf).
      * exists TimedOutThenWrites. unfold finalizePhase. by rewrite Hf.
      * exists TimedOutAfterWrite. unfold finalizePhase. by rewrite Hf.
    + rewrite Hc in Hst. destruct Hst as (sig & [(_ & -> & [Hw|(db0 & Hw & _)])|(Hr & db0 & Hw & ->)]);
        apply session_work_sends in Hw as (e & He & Hf); try done. subst sig. simpl in Hr. subst r.
      exists InTime. unfold finalizePhase. rewrite Hf. by destruct e.
  - intros [timing Hf]. unfold finalizePhase in Hf. destruct timing.
    + destruct (sk_finalize kind d sgs s) as [[s1 e]| |] eqn:Hk; [|done..].
      apply session_work_Ok in Hk. eexists _, (session_reported e). split.
      { eapply star_step; [by apply fin_work|]. eapply star_step; [apply fin_send|].
        eapply star_step; [apply fin_handle|apply star_refl]. }
      destruct e; injection Hf as <- <-; done.
    + destruct (sk_finalize kind d sgs s) as [[s1 e]| |] eqn:Hk; [|done..].
      apply session_work_Ok in Hk. injection Hf as <- <-. eexists _, (Some session_timedOut). split.
      { eapply star_step; [apply fin_ctx|]. eapply star_step; [by apply fin_work|].
      eapply star_step; [apply fin_timeout|]. eapply star_step; [apply fin_handle|apply star_refl]. }
      done.
    + destruct (sk_finalize kind d sgs (compensate _ s)) as [[s1 e]| |] eqn:Hk; [|done..].
      apply session_work_Ok in Hk. injection Hf as <- <-. eexists _, (Some session_timedOut). split.
      { eapply star_step; [apply fin_ctx|]. eapply star_step; [apply fin_timeout|].
      eapply star_step; [apply fin_handle|]. eapply star_step; [by apply fin_work|apply star_refl]. }
      done.
    + injection Hf as <- <-. eexists _, (Some session_timedOut). split.
      { eapply star_step; [apply fin_ctx|]. eapply star_step; [apply fin_timeout|].
      eapply star_step; [apply fin_handle|apply star_refl]. }
      done.
Qed.

(** A signing session whose finalizer timed out leaves its goroutine behind: nobody receives
    from the channel any more, and the goroutine never ends. *)
Theorem finalizer_goroutine_leaks {T} (kind : SessionKind T) d sgs (s : St) st :
  star (session_fin_step kind d sgs) (fin_init s) st →
  fs_caller st = Returned (Some session_timedOut) ∨ fs_caller st = Handled (Some session_timedOut) →
  ∀ st', star (session_fin_step kind d sgs) st st' → fs_worker st' ≠ Ended.
Proof.
  apply sender_leaks.
  - intros db db' sig (e & -> & _)%session_work_sends. eauto.
  - by intros [e|].
Qed.

End theorems.

Section reshare_theorems.
Context `{SigLib, WireLib, !UtxoHelper}.

(** [Finalize] of a resharing returns what [finalize] computes, or the error of the context. *)
Theorem reshare_Finalize_result tssPub leader sent d sgs st r :
  star (reshare_fin_step (utxo_reshare_work tssPub sent
          (reshare_WithSignatures sgs (reshare_WithData d (reshare_NewFinalizer leader))))) (fin_init "") st →
  reshare_result st = Some r →
  r = ("", Some (ESentinel ErrContextDone)) ∨ us_finalize tssPub leader sent d sgs = Ok r.
Proof.
  intros Hst Hr. apply fin_reachable in Hst. unfold fin_inv, timed_out_db in Hst. unfold reshare_result in Hr.
  destruct (fs_caller st) as [| |r0]; [done..|].
  destruct (fs_worker st) as [|sig|].
  - destruct Hst as (_ & -> & _). rewrite bool_decide_true in Hr by done. injection Hr as <-. by left.
  - destruct Hst as (_ & -> & _). rewrite bool_decide_true in Hr by done. injection Hr as <-. by left.
  - destruct Hst as (sig & [(-> & _)|(Hrep & db0 & Hw & Hdb)]).
    { rewrite bool_decide_true in Hr by done. injection Hr as <-. by left. }
    unfold utxo_reshare_work in Hw. apply bind_Ok in Hw as ([h e] & Hf & [= <- <-]).
    change (us_finalize tssPub leader sent d sgs = Ok (h, e)) in Hf.
    assert (fs_db st = h) as Hh by (by destruct r0). rewrite Hh in Hr.
    destruct e as [e|]; simpl in Hrep; subst r0; [|injection Hr as <-; by right].
    case_bool_decide as He; injection Hr as <-; [subst; by left|by right].
Qed.

End reshare_theorems.
