(* ===== verification/Intake.v ===== *)
(** * How deposits enter a node and what happens to them

    Models the API handlers ([internal/api/common/common.go],
    [internal/api/grpc/submit_withdrawal.go], [check_withdrawal.go] and the web socket
    of [internal/api/http/api_ws.go]), the distribution of deposits between
    the nodes ([internal/tss/session/distributor/distributor.go]) and the submission of
    withdrawals to the core with its event subscription
    ([internal/core/subscriber/main.go], [internal/core/connector/submit_tx.go]).

    Loops that run for ever are modelled by one iteration; [node_step] interleaves the
    iterations of all components of a node that write its database, in any order. *)

From S2P Require Import Prelude Core Deposits Broadcast Consensus Fetcher Withdrawal.
From S2P Require Import Mechanism Signing Utxo UtxoWithdrawal Sessions.
#[local] Open Scope Z_scope.

(** ** api/common *)

(** gRPC status codes *)
Inductive Code :=
| InvalidArgument | Internal | AlreadyExists | NotFound | FailedPrecondition
| PermissionDenied | Unauthenticated.

Inductive Reply (A : Type) := ROk (a : A) | RStatus (code : Code) (msg : string) | RPanic.
Arguments ROk {_} _.
Arguments RStatus {_} _ _.
Arguments RPanic {_}.

(** [validation.Required] refuses the empty string; [validation.Min(0)] refuses
    negative numbers. *)
Definition ValidateIdentifier (identifier : option MsgDepositIdentifier) : res unit :=
  match identifier with
  | None => Err (ENew "identifier is required")
  | Some i =>
      if bool_decide (md_TxHash i = "") || bool_decide (md_ChainId i = "") || (md_TxNonce i <? 0)
      then Err (ENew "invalid identifier")
      else Ok tt
  end.

Definition ValidateChainIdentifier (i : MsgDepositIdentifier) (client : Client) : res unit :=
  if negb (cl_TransactionHashValid client (md_TxHash i)) then Err (ENew "invalid transaction hash")
  else if bool_decide (cl_Type client = TypeZano) && negb (md_TxNonce i =? 0)
  then Err (ENew "event index must be 0 for Zano chain")
  else Ok tt.

Definition ToDbIdentifier (i : MsgDepositIdentifier) : DepositIdentifier :=
  {| TxHash := md_TxHash i; TxNonce := md_TxNonce i; ChainId := md_ChainId i |}.

(** [n, _ = strconv.ParseInt(s, 10, 64)]: the value that comes with an error, 0 for
    a syntax error and the nearest bound for a range error. *)
Definition ParseInt_value (s : string) : Z :=
  match parse_Z s with None => 0 | Some z => Z.max min_int64 (Z.min max_int64 z) end.

Definition IdentifierFromParams (chainId txHash txNonce : string) : res DepositIdentifier :=
  let data := {| md_TxHash := txHash; md_TxNonce := ParseInt_value txNonce;
                 md_ChainId := chainId |} in
  _ ← wrap (ValidateIdentifier (Some data)) "invalid data";
  Ok (ToDbIdentifier data).

Record TransferData := {
  td_Sender : option string; td_Receiver : string; td_DepositAmount : string;
  td_WithdrawalAmount : string; td_CommissionAmount : string; td_DepositAsset : string;
  td_WithdrawalAsset : string; td_IsWrappedAsset : bool; td_DepositBlock : Z;
  td_Signature : option string }.

Record CheckWithdrawalResponse := {
  cw_DepositIdentifier : MsgDepositIdentifier;
  cw_WithdrawalStatus : WithdrawalStatus;
  cw_TransferData : option TransferData;
  cw_WithdrawalIdentifier : option (option string * string) }.

Definition ToStatusResponse (d : Deposit) : CheckWithdrawalResponse :=
  let known := negb (bool_decide (d_WithdrawalStatus d = WS_INVALID)) in
  {| cw_DepositIdentifier := ToMsgDepositIdentifier (d_ident d);
     cw_WithdrawalStatus := d_WithdrawalStatus d;
     cw_TransferData :=
       if known then Some
         {| td_Sender := d_Depositor d; td_Receiver := d_Receiver d;
            td_DepositAmount := d_DepositAmount d; td_WithdrawalAmount := d_WithdrawalAmount d;
            td_CommissionAmount := d_CommissionAmount d; td_DepositAsset := d_DepositToken d;
            td_WithdrawalAsset := d_WithdrawalToken d; td_IsWrappedAsset := d_IsWrappedToken d;
            td_DepositBlock := d_DepositBlock d; td_Signature := d_Signature d |}
       else None;
     cw_WithdrawalIdentifier :=
       if known then Some (d_WithdrawalTxHash d, d_WithdrawalChainId d) else None |}.

(** [&db.Deposit{DepositIdentifier: id, WithdrawalStatus: INVALID}] *)
Definition invalid_deposit (id : DepositIdentifier) : Deposit :=
  {| d_Id := 0; d_ident := id; d_Depositor := None; d_DepositAmount := ""; d_DepositToken := "";
     d_Receiver := ""; d_WithdrawalToken := ""; d_DepositBlock := 0; d_CommissionAmount := "";
     d_ReferralId := 0; d_WithdrawalStatus := WS_INVALID; d_WithdrawalTxHash := None;
     d_WithdrawalChainId := ""; d_WithdrawalAmount := ""; d_IsWrappedToken := false;
     d_Signature := None; d_TxData := None; d_Submitted := false; d_Distributed := false |}.

(** ** The handlers *)

Section handlers.
Context {St : Type} `{BridgeCore, !DepositsQ St}.

(** The checks the handlers share: the client of the identifier's chain. *)
Definition validated (clients : Repository) (identifier : option MsgDepositIdentifier)
    : Reply MsgDepositIdentifier :=
  match ValidateIdentifier identifier, identifier with
  | Ok _, Some i =>
      match repo_Client clients (md_ChainId i) with
      | Ok client =>
          match ValidateChainIdentifier i client with
          | Ok _ => ROk i
          | _ => RStatus InvalidArgument "invalid identifier"
          end
      | _ => RStatus InvalidArgument "unsupported chain"
      end
  | _, _ => RStatus InvalidArgument "invalid identifier"
  end.

(** The insertion of an invalid deposit runs in a goroutine of its own and its
    error is only logged; the state is the one after it has run. *)
Definition SubmitWithdrawal (clients : Repository) (identifier : option MsgDepositIdentifier)
    (s : St) : St * Reply unit :=
  match validated clients identifier with
  | RStatus c m => (s, RStatus c m)
  | RPanic => (s, RPanic)
  | ROk i =>
      match GetDepositInfo i with
      | Panic => (s, RPanic)
      | Err _ => (s, RStatus Internal "internal error")
      | Ok (Some _) => (s, RStatus AlreadyExists "deposit already exists")
      | Ok None =>
          let id := ToDbIdentifier i in
          match q_Get id s with
          | Some _ => (s, RStatus AlreadyExists "deposit already exists")
          | None =>
              match FetchDeposit clients id with
              | Panic => (s, RPanic)
              | Err e =>
                  if ChainErrors.IsPendingDepositError e
                  then (s, RStatus FailedPrecondition "deposit pending")
                  else if ChainErrors.IsInvalidDepositError e || CoreErrors.IsInvalidDepositError e
                  then (fst (q_Insert (invalid_deposit id) s),
                        RStatus InvalidArgument "invalid deposit")
                  else (s, RStatus Internal "internal error")
              | Ok deposit =>
                  match q_Insert deposit s with
                  | (s', Ok _) => (s', ROk tt)
                  | (s', Err e) =>
                      (s', if errors_Is e ErrAlreadySubmitted
                           then RStatus AlreadyExists "transaction already submitted"
                           else RStatus Internal "internal error")
                  | (s', Panic) => (s', RPanic)
                  end
              end
          end
      end
  end.

Definition CheckWithdrawal (clients : Repository) (identifier : option MsgDepositIdentifier)
    (s : St) : Reply CheckWithdrawalResponse :=
  match validated clients identifier with
  | RStatus c m => RStatus c m
  | RPanic => RPanic
  | ROk i =>
      match q_Get (ToDbIdentifier i) s with
      | None => RStatus NotFound "withdrawal not found"
      | Some d => ROk (ToStatusResponse d)
      end
  end.

End handlers.

(** ** The web socket: what is written for the observed rows *)

(** [websocket.CloseMessage] with its close code *)
Inductive CloseCode := CloseNormalClosure | CloseGoingAway | CloseInternalServerErr.
Inductive Frame := FText (r : CheckWithdrawalResponse) | FClose (c : CloseCode).

(** One round of the polling loop.  [Tick row written]: the row read, [None] for a
    failed query, and whether writing to the socket succeeds. *)
Inductive PollEvent :=
| ConnClosed | CtxDone | Tick (row : option Deposit) (written : bool).

Definition is_final (st : WithdrawalStatus) : bool := bool_decide (st ∈ FinalWithdrawalStatuses).

Fixpoint pollLoop (prevStatus : WithdrawalStatus) (events : list PollEvent) : list Frame :=
  match events with
  | [] | ConnClosed :: _ => []
  | CtxDone :: _ => [FClose CloseGoingAway]
  | Tick None _ :: _ => [FClose CloseInternalServerErr]
  | Tick (Some withdrawal) written :: rest =>
      if bool_decide (d_WithdrawalStatus withdrawal = prevStatus) then pollLoop prevStatus rest
      else if negb written then [FClose CloseInternalServerErr]
      else FText (ToStatusResponse withdrawal) ::
           if is_final (d_WithdrawalStatus withdrawal) then [FClose CloseNormalClosure]
           else pollLoop (d_WithdrawalStatus withdrawal) rest
  end.

Definition watchWithdrawalStatus (withdrawal : Deposit) (written : bool)
    (events : list PollEvent) : list Frame :=
  if negb written then []
  else FText (ToStatusResponse withdrawal) ::
       if is_final (d_WithdrawalStatus withdrawal) then [FClose CloseNormalClosure]
       else pollLoop (d_WithdrawalStatus withdrawal) events.

(** ** tss/session/distributor *)

Record DistributedDepositMsg := {
  dm_Distributor : Address; dm_Identifier : option MsgDepositIdentifier }.

Definition GetIdentifier (d : DistributedDepositMsg) : DepositIdentifier :=
  match dm_Identifier d with
  | None => {| TxHash := ""; TxNonce := 0; ChainId := "" |}
  | Some i => ToDbIdentifier i
  end.

Definition distributorSelector : DepositsSelector :=
  {| sel_Ids := []; sel_ChainId := None; sel_WithdrawalChainId := None;
     sel_One := true; sel_Status := Some WS_PENDING; sel_NotSubmitted := false;
     sel_Distributed := false; sel_NotDistributed := true |}.

Section distributor.
Context {St : Type} `{BridgeCore, !DepositsQ St}.

(** One iteration of [runDistributor]: the identifier that is broadcast and the
    cooldown in seconds. *)
Definition distributorStep (s : St) : St * option MsgDepositIdentifier * Z :=
  match q_GetWithSelector distributorSelector s with
  | None => (s, None, 5)
  | Some pendingDeposit =>
      let msg := ToMsgDepositIdentifier (d_ident pendingDeposit) in
      match q_UpdateDistributedStatus (d_ident pendingDeposit) true s with
      | Ok s' => (s', Some msg, 0)
      | _ => (s, Some msg, 5)
      end
  end.

(** One iteration of [runAcceptor]: errors are only logged.  The goroutine recovers
    no panic. *)
Definition acceptorStep (clients : Repository) (msg : DistributedDepositMsg) (s : St) : res St :=
  let id := GetIdentifier msg in
  match q_Get id s with
  | Some _ => Ok s
  | None =>
      match FetchDeposit clients id with
      | Panic => Panic
      | Err e =>
          if ChainErrors.IsPendingDepositError e then Ok s
          else if ChainErrors.IsInvalidDepositError e || CoreErrors.IsInvalidDepositError e
          then Ok (fst (q_Insert (invalid_deposit id) s))
          else Ok s
      | Ok deposit => Ok (fst (q_Insert (set_Distributed true deposit) s))
      end
  end.

(** [Receive]: the message for the channel. *)
Definition distribution_Receive `{Bech32} (distributors : list Party)
    (request : option SubmitRequest) : res DistributedDepositMsg :=
  match request with
  | None => Err (ENew "nil request")
  | Some rq =>
      if bool_decide (rq_Data rq = None) then Err (ENew "nil request")
      else if negb (bool_decide (rq_Type rq = RT_DEPOSIT_DISTRIBUTION))
      then Err (ENew "invalid request type")
      else
        sender ← wrap (Addr.FromString (rq_Sender rq)) "failed to parse sender address";
        if negb (bool_decide (sender ∈ CoreAddress <$> distributors))
        then Err (ENew "sender is not a valid deposit distributor")
        else
          data ← of_option (UnmarshalDeposit (rq_Data rq)) "failed to unmarshal deposit identifier";
          match data with
          | None => Err (ENew "nil deposit identifier")
          | Some i => Ok {| dm_Distributor := sender; dm_Identifier := Some i |}
          end
  end.

End distributor.

(** ** core/connector: the submission *)

(** [strings.Contains] *)
Fixpoint str_contains (s sub : string) : bool :=
  has_prefix sub s || match s with EmptyString => false | String _ s' => str_contains s' sub end.

(** [submitMsgs] returns the text of its error; [alreadySubmitted] is the text of
    [bridgetypes.ErrTranscationAlreadySubmitted]. *)
Definition SubmitDeposits (alreadySubmitted : string)
    (submitMsgs : list Transaction → option string) (depositTxs : list Transaction)
    : option error :=
  match depositTxs with
  | [] => None
  | _ =>
      match submitMsgs depositTxs with
      | None => None
      | Some text =>
          if str_contains text alreadySubmitted then Some (ESentinel ErrTransactionAlreadySubmitted)
          else Some (EWrap (ENew text) "failed to submit deposits")
      end
  end.

(** The sequence number for the next transaction and the stored one. *)
Definition getAccountSequence (accountData : res Z) (accountSequence : Z) : Z * Z :=
  match accountData with
  | Ok sequence => (sequence, uint64 (sequence + 1))
  | _ => (accountSequence, uint64 (accountSequence + 1))
  end.

(** ** core/subscriber *)

Definition submitterSelector : DepositsSelector :=
  {| sel_Ids := []; sel_ChainId := None; sel_WithdrawalChainId := None;
     sel_One := true; sel_Status := Some WS_PROCESSED; sel_NotSubmitted := true;
     sel_Distributed := false; sel_NotDistributed := false |}.

(** The event of bridgeless-core: the name of its type and of its attributes. *)
Inductive AttrKey :=
| DepositTxHash | DepositNonce | DepositChainId | DepositAmount | DepositToken | DepositBlock
| WithdrawalAmount | Depositor | Receiver | WithdrawalChainID | WithdrawalTxHash
| WithdrawalToken | SignatureKey | IsWrapped | CommissionAmount.

#[export] Instance AttrKey_eq_dec : EqDecision AttrKey.
Proof. solve_decision. Defined.

(** The cases of the switch, in order. *)
Definition attr_keys : list AttrKey :=
  [DepositTxHash; DepositNonce; DepositChainId; DepositAmount; DepositToken; DepositBlock;
   WithdrawalAmount; Depositor; Receiver; WithdrawalChainID; WithdrawalTxHash;
   WithdrawalToken; SignatureKey; IsWrapped; CommissionAmount].

Class CoreEvents := {
  EventType_DEPOSIT_SUBMITTED : string;
  attr_name : AttrKey → string }.

Definition dot : ascii := "."%char.

(** [strings.SplitN(s, ".", 2)] *)
Fixpoint splitN2 (s : string) : string * option string :=
  match s with
  | EmptyString => (EmptyString, None)
  | String a s' =>
      if bool_decide (a = dot) then (EmptyString, Some s')
      else let '(p, r) := splitN2 s' in (String a p, r)
  end.

(** [strconv.ParseBool] *)
Definition ParseBool (s : string) : option bool :=
  if bool_decide (s ∈ ["1"; "t"; "T"; "TRUE"; "true"; "True"]) then Some true
  else if bool_decide (s ∈ ["0"; "f"; "F"; "FALSE"; "false"; "False"]) then Some false
  else None.

(** The assignments of the switch. *)
Definition set_event (d : Deposit) (ident : DepositIdentifier) (depositor : option string)
    (amount token receiver wtoken : string) (block : Z) (commission : string)
    (wtx : option string) (wchain wamount : string) (wrapped : bool) (signature : option string)
    : Deposit :=
  {| d_Id := d_Id d; d_ident := ident; d_Depositor := depositor; d_DepositAmount := amount;
     d_DepositToken := token; d_Receiver := receiver; d_WithdrawalToken := wtoken;
     d_DepositBlock := block; d_CommissionAmount := commission; d_ReferralId := d_ReferralId d;
     d_WithdrawalStatus := d_WithdrawalStatus d; d_WithdrawalTxHash := wtx;
     d_WithdrawalChainId := wchain; d_WithdrawalAmount := wamount; d_IsWrappedToken := wrapped;
     d_Signature := signature; d_TxData := d_TxData d; d_Submitted := d_Submitted d;
     d_Distributed := d_Distributed d |}.

Definition set_ident (f : DepositIdentifier → DepositIdentifier) (d : Deposit) : Deposit :=
  set_event d (f (d_ident d)) (d_Depositor d) (d_DepositAmount d) (d_DepositToken d) (d_Receiver d)
    (d_WithdrawalToken d) (d_DepositBlock d) (d_CommissionAmount d) (d_WithdrawalTxHash d)
    (d_WithdrawalChainId d) (d_WithdrawalAmount d) (d_IsWrappedToken d) (d_Signature d).

Definition non_empty (v : string) (old : option string) : option string :=
  if bool_decide (v = "") then old else Some v.

Definition attrUpdate (k : AttrKey) (v : string) : res (Deposit → Deposit) :=
  match k with
  | DepositTxHash =>
      Ok (set_ident (λ i, {| TxHash := v; TxNonce := TxNonce i; ChainId := ChainId i |}))
  | DepositNonce =>
      n ← of_option (ParseInt v) "failed to parse deposit nonce";
      Ok (set_ident (λ i, {| TxHash := TxHash i; TxNonce := n; ChainId := ChainId i |}))
  | DepositChainId =>
      Ok (set_ident (λ i, {| TxHash := TxHash i; TxNonce := TxNonce i; ChainId := v |}))
  | DepositAmount => Ok (λ d, set_event d (d_ident d) (d_Depositor d) v (d_DepositToken d)
      (d_Receiver d) (d_WithdrawalToken d) (d_DepositBlock d) (d_CommissionAmount d)
      (d_WithdrawalTxHash d) (d_WithdrawalChainId d) (d_WithdrawalAmount d) (d_IsWrappedToken d)
      (d_Signature d))
  | DepositToken => Ok (λ d, set_event d (d_ident d) (d_Depositor d) (d_DepositAmount d) v
      (d_Receiver d) (d_WithdrawalToken d) (d_DepositBlock d) (d_CommissionAmount d)
      (d_WithdrawalTxHash d) (d_WithdrawalChainId d) (d_WithdrawalAmount d) (d_IsWrappedToken d)
      (d_Signature d))
  | DepositBlock =>
      b ← of_option (ParseInt v) "failed to parse deposit block";
      Ok (λ d, set_event d (d_ident d) (d_Depositor d) (d_DepositAmount d) (d_DepositToken d)
        (d_Receiver d) (d_WithdrawalToken d) b (d_CommissionAmount d) (d_WithdrawalTxHash d)
        (d_WithdrawalChainId d) (d_WithdrawalAmount d) (d_IsWrappedToken d) (d_Signature d))
  | WithdrawalAmount => Ok (λ d, set_event d (d_ident d) (d_Depositor d) (d_DepositAmount d)
      (d_DepositToken d) (d_Receiver d) (d_WithdrawalToken d) (d_DepositBlock d)
      (d_CommissionAmount d) (d_WithdrawalTxHash d) (d_WithdrawalChainId d) v (d_IsWrappedToken d)
      (d_Signature d))
  | Depositor => Ok (λ d, set_event d (d_ident d) (Some v) (d_DepositAmount d) (d_DepositToken d)
      (d_Receiver d) (d_WithdrawalToken d) (d_DepositBlock d) (d_CommissionAmount d)
      (d_WithdrawalTxHash d) (d_WithdrawalChainId d) (d_WithdrawalAmount d) (d_IsWrappedToken d)
      (d_Signature d))
  | Receiver => Ok (λ d, set_event d (d_ident d) (d_Depositor d) (d_DepositAmount d)
      (d_DepositToken d) v (d_WithdrawalToken d) (d_DepositBlock d) (d_CommissionAmount d)
      (d_WithdrawalTxHash d) (d_WithdrawalChainId d) (d_WithdrawalAmount d) (d_IsWrappedToken d)
      (d_Signature d))
  | WithdrawalChainID => Ok (λ d, set_event d (d_ident d) (d_Depositor d) (d_DepositAmount d)
      (d_DepositToken d) (d_Receiver d) (d_WithdrawalToken d) (d_DepositBlock d)
      (d_CommissionAmount d) (d_WithdrawalTxHash d) v (d_WithdrawalAmount d) (d_IsWrappedToken d)
      (d_Signature d))
  | WithdrawalTxHash => Ok (λ d, set_event d (d_ident d) (d_Depositor d) (d_DepositAmount d)
      (d_DepositToken d) (d_Receiver d) (d_WithdrawalToken d) (d_DepositBlock d)
      (d_CommissionAmount d) (non_empty v (d_WithdrawalTxHash d)) (d_WithdrawalChainId d)
      (d_WithdrawalAmount d) (d_IsWrappedToken d) (d_Signature d))
  | WithdrawalToken => Ok (λ d, set_event d (d_ident d) (d_Depositor d) (d_DepositAmount d)
      (d_DepositToken d) (d_Receiver d) v (d_DepositBlock d) (d_CommissionAmount d)
      (d_WithdrawalTxHash d) (d_WithdrawalChainId d) (d_WithdrawalAmount d) (d_IsWrappedToken d)
      (d_Signature d))
  | SignatureKey => Ok (λ d, set_event d (d_ident d) (d_Depositor d) (d_DepositAmount d)
      (d_DepositToken d) (d_Receiver d) (d_WithdrawalToken d) (d_DepositBlock d)
      (d_CommissionAmount d) (d_WithdrawalTxHash d) (d_WithdrawalChainId d) (d_WithdrawalAmount d)
      (d_IsWrappedToken d) (non_empty v (d_Signature d)))
  | IsWrapped =>
      isWrapped ← of_option (ParseBool v) "failed to parse isWrapped attribute";
      Ok (λ d, set_event d (d_ident d) (d_Depositor d) (d_DepositAmount d) (d_DepositToken d)
        (d_Receiver d) (d_WithdrawalToken d) (d_DepositBlock d) (d_CommissionAmount d)
        (d_WithdrawalTxHash d) (d_WithdrawalChainId d) (d_WithdrawalAmount d) isWrapped
        (d_Signature d))
  | CommissionAmount => Ok (λ d, set_event d (d_ident d) (d_Depositor d) (d_DepositAmount d)
      (d_DepositToken d) (d_Receiver d) (d_WithdrawalToken d) (d_DepositBlock d) v
      (d_WithdrawalTxHash d) (d_WithdrawalChainId d) (d_WithdrawalAmount d) (d_IsWrappedToken d)
      (d_Signature d))
  end.

Section subscriber.
Context {St : Type} `{CoreEvents, !DepositsQ St}.

(** One iteration of [runSubmitter]: the submitted transaction and the cooldown. *)
Definition submitterStep (submit : Transaction → option error) (s : St)
    : St * option Transaction * Z :=
  match q_GetWithSelector submitterSelector s with
  | None => (s, None, 5)
  | Some pendingDeposit =>
      let tx := ToTransaction pendingDeposit in
      let done :=
        match submit tx with
        | None => true
        | Some e => errors_Is e ErrTransactionAlreadySubmitted
        end in
      if negb done then (s, Some tx, 5)
      else match q_UpdateSubmittedStatus (d_ident pendingDeposit) true s with
           | Ok s' => (s', Some tx, 0)
           | _ => (s, Some tx, 0)
           end
  end.

(** The body of the loop over the map of attributes. *)
Definition attrAction (a : string * list string) : res (Deposit → Deposit) :=
  let '(p0, p1) := splitN2 (fst a) in
  if negb (bool_decide (p0 = EventType_DEPOSIT_SUBMITTED)) then Ok id
  else
    match p1 with
    | None => Panic
    | Some name =>
        match List.find (λ k, bool_decide (name = attr_name k)) attr_keys with
        | None => Err (EWrap (ENew "unknown attribute key") "failed to parse attribute")
        | Some k => match snd a with [] => Panic | v :: _ => attrUpdate k v end
        end
    end.

(** [&database.Deposit{Submitted: true}] *)
Definition event_deposit : Deposit :=
  set_columns (invalid_deposit {| TxHash := ""; TxNonce := 0; ChainId := "" |})
    WS_UNSPECIFIED None None None true false.

(** The attributes in the order in which the loop meets them. *)
Fixpoint parseAttributes (attributes : list (string * list string)) (deposit : Deposit)
    : res Deposit :=
  match attributes with
  | [] => Ok deposit
  | a :: rest => f ← attrAction a; parseAttributes rest (f deposit)
  end.

Definition parseSubmittedDeposit (attributes : list (string * list string)) : res Deposit :=
  parseAttributes attributes event_deposit.

(** The handling of one event in [run]. *)
Definition eventStep (attributes : list (string * list string)) (s : St) : res St :=
  match parseSubmittedDeposit attributes with
  | Panic => Panic
  | Err _ => Ok s
  | Ok eventDeposit =>
      match q_Get (d_ident eventDeposit) s with
      | None => Ok (fst (q_InsertProcessedDeposit eventDeposit s))
      | Some existingDeposit =>
          match d_WithdrawalStatus existingDeposit with
          | WS_PROCESSING | WS_PENDING =>
              match q_UpdateWithdrawalDetails (d_ident existingDeposit)
                      (d_WithdrawalTxHash eventDeposit) (d_Signature eventDeposit) s with
              | Ok s' => Ok s'
              | Err _ => Ok s
              | Panic => Panic
              end
          | _ => Ok s
          end
      end
  end.

End subscriber.

(** ** The database writes of a node

    The components of a node run concurrently and meet in the database only.
    [node_write] is one call of one of them that writes: a run of the node is any
    interleaving of such calls.  [World core clients] are the answers of the core and
    of the chains that the node may see, over time. *)

Section node.
Context {St : Type} `{!DepositsQ St}.
Variable World : BridgeCore → Repository → Prop.

Definition fetched (i : DepositIdentifier) (d : Deposit) : Prop :=
  ∃ (core : BridgeCore) clients, World core clients ∧ FetchDeposit clients i = Ok d.

(** The writes of a signing session: PROCESSING when it starts, then FAILED or the
    finalizer's result. *)
Inductive session_write : St → St → Prop :=
| sw_status i st s s' :
    st = WS_PROCESSING ∨ st = WS_FAILED → q_UpdateStatus i st s = Ok s' → session_write s s'
| sw_processed data s s' : q_UpdateProcessed data s = Ok s' → session_write s s'.

Inductive node_write : St → St → Prop :=
| nw_fetched i d b s : fetched i d → node_write s (fst (q_Insert (set_Distributed b d) s))
| nw_invalid i s : node_write s (fst (q_Insert (invalid_deposit i) s))
| nw_event d s : node_write s (fst (q_InsertProcessedDeposit d s))
| nw_details i h g s s' : q_UpdateWithdrawalDetails i h g s = Ok s' → node_write s s'
| nw_distributed i b s s' : q_UpdateDistributedStatus i b s = Ok s' → node_write s s'
| nw_submitted i b s s' : q_UpdateSubmittedStatus i b s = Ok s' → node_write s s'
| nw_session s s' : session_write s s' → node_write s s'.

Lemma str_contains_app_l s t sub : str_contains t sub = true → str_contains (s +:+ t)%string sub = true.
Proof. intros Ht. induction s as [|a s IH]; simpl; [done|]. rewrite IH. apply orb_true_r. Qed.

Lemma write_one s s' : node_write s s' → star node_write s s'.
Proof. intros. eapply star_step; [done|constructor]. Qed.

Lemma fetched_undistributed i d : fetched i d → set_Distributed false d = d.
Proof.
  intros (core & clients & _ & Hf). unfold FetchDeposit in Hf.
  apply bind_Ok in Hf as (? & _ & Hf). destruct (negb _); [done|].
  apply bind_Ok in Hf as (? & _ & Hf). apply bind_Ok in Hf as (? & _ & Hf).
  destruct (negb _); [done|].
  apply bind_Ok in Hf as (? & _ & Hf). apply bind_Ok in Hf as (? & _ & Hf).
  apply bind_Ok in Hf as (? & _ & Hf). by apply (inj Ok) in Hf as <-.
Qed.

(** *** Every component only makes such writes *)

Lemma SubmitWithdrawal_writes (core : BridgeCore) clients identifier s s' r :
  World core clients → SubmitWithdrawal clients identifier s = (s', r) → star node_write s s'.
Proof.
  intros Hw. unfold SubmitWithdrawal.
  destruct (validated clients identifier) as [i| |]; [|by intros [= <- _]; constructor..].
  destruct (GetDepositInfo i) as [[]| |]; [by intros [= <- _]; constructor| |by intros [= <- _]; constructor..].
  destruct (q_Get (ToDbIdentifier i) s); [by intros [= <- _]; constructor|].
  destruct (FetchDeposit clients (ToDbIdentifier i)) as [d|e|] eqn:Hf; [| |by intros [= <- _]; constructor].
  - assert (fetched (ToDbIdentifier i) d) as Hfd by (by exists core, clients).
    assert (node_write s (q_Insert d s).1) as Hn.
    { pose proof (nw_fetched _ _ false s Hfd) as Hn. by rewrite (fetched_undistributed _ _ Hfd) in Hn. }
    destruct (q_Insert d s) as [s1 []]; simpl in Hn; intros [= <- _]; by apply write_one.
  - destruct (ChainErrors.IsPendingDepositError e); [by intros [= <- _]; constructor|].
    destruct (_ || _); intros [= <- _]; [apply write_one, nw_invalid|constructor].
Qed.

Lemma acceptorStep_writes (core : BridgeCore) clients msg s s' :
  World core clients → acceptorStep clients msg s = Ok s' → star node_write s s'.
Proof.
  intros Hw. unfold acceptorStep.
  destruct (q_Get (GetIdentifier msg) s); [by intros [= <-]; constructor|].
  destruct (FetchDeposit clients (GetIdentifier msg)) as [d|e|] eqn:Hf; [| |done].
  - intros Hs. apply (inj Ok) in Hs as <-. apply write_one, nw_fetched with (GetIdentifier msg).
    by exists core, clients.
  - destruct (ChainErrors.IsPendingDepositError e); [by intros [= <-]; constructor|].
    destruct (_ || _); intros Hs; apply (inj Ok) in Hs as <-; [apply write_one, nw_invalid|constructor].
Qed.

Lemma distributorStep_writes s s' m c :
  distributorStep s = (s', m, c) → star node_write s s'.
Proof.
  unfold distributorStep. destruct (q_GetWithSelector distributorSelector s) as [d|];
    [|by intros [= <- _ _]; constructor].
  destruct (q_UpdateDistributedStatus (d_ident d) true s) eqn:Hu; intros [= <- _ _];
    [by eapply write_one, nw_distributed|constructor..].
Qed.

Lemma submitterStep_writes submit s s' tx c :
  submitterStep submit s = (s', tx, c) → star node_write s s'.
Proof.
  unfold submitterStep. destruct (q_GetWithSelector submitterSelector s) as [d|];
    [|by intros [= <- _ _]; constructor].
  destruct (negb _); [by intros [= <- _ _]; constructor|].
  destruct (q_UpdateSubmittedStatus (d_ident d) true s) eqn:Hu; intros [= <- _ _];
    [by eapply write_one, nw_submitted|constructor..].
Qed.

Lemma eventStep_writes `{CoreEvents} attributes s s' :
  eventStep attributes s = Ok s' → star node_write s s'.
Proof.
  unfold eventStep. destruct (parseSubmittedDeposit attributes) as [e| |]; [|by intros [= <-]; constructor|done].
  destruct (q_Get (d_ident e) s) as [d|];
    [|intros Hs; apply (inj Ok) in Hs as <-; apply write_one, nw_event].
  destruct (d_WithdrawalStatus d); try (by intros [= <-]; constructor);
    destruct (q_UpdateWithdrawalDetails _ _ _ s) eqn:Hu; intros [= <-];
    first [by eapply write_one, nw_details|constructor].
Qed.

Lemma verify_writes {T} `{!DepositSigningData T, !Constructor T} (core : BridgeCore) clients (t : T) read s s' r :
  World core clients → verifyProposedData_at clients t read s = (s', r) → star node_write s s'.
Proof.
  intros Hw. unfold verifyProposedData_at.
  destruct (q_Get (ds_DepositIdentifier t) read); [by intros [= <- _]; constructor|].
  destruct (FetchDeposit clients (ds_DepositIdentifier t)) as [d|e|] eqn:Hf; [|by intros [= <- _]; constructor..].
  assert (node_write s (q_Insert (set_Distributed true d) s).1) as Hn.
  { apply nw_fetched with (ds_DepositIdentifier t). by exists core, clients. }
  destruct (q_Insert (set_Distributed true d) s) as [s1 [z|e|]]; simpl in Hn;
    [|destruct (errors_Is e ErrAlreadySubmitted)|]; intros [= <- _]; by apply write_one.
Qed.

End node.

(** *** The sessions *)

Section session_writes.
Context `{SigLib, Bech32, Crypto} {St : Type} `{!DepositsQ St}.
Implicit Types (s : St).

(** The database of a session that has ended or still waits for messages. *)
Definition outcome_state (o : Outcome (St * option error)) : option St :=
  match o with Finished p | StillWaiting p => Some (fst p) | _ => None end.

Definition kind_writes {T} (kind : SessionKind (St:=St) T) : Prop :=
  ∀ d sgs s s' e, sk_finalize kind d sgs s = Ok (s', e) → star session_write s s'.

Lemma session_write_one s s' : session_write s s' → star session_write s s'.
Proof. intros. eapply star_step; [done|constructor]. Qed.

Lemma compensate_writes i s : star session_write s (compensate i s).
Proof.
  unfold compensate. destruct (q_UpdateStatus i WS_FAILED s) eqn:Hu; [|constructor..].
  eapply session_write_one, sw_status; [by right|done].
Qed.

Lemma finalizePhase_writes {T} (kind : SessionKind T) timing d sgs s s' :
  kind_writes kind → outcome_state (finalizePhase kind timing d sgs s) = Some s' →
  star session_write s s'.
Proof.
  intros Hk. unfold finalizePhase. destruct timing.
  - destruct (sk_finalize kind d sgs s) as [[s1 [e|]]| |] eqn:Hf; simpl; [|intros [= <-]; by eapply Hk|done..].
    intros [= <-]. eapply star_trans; [by eapply Hk|apply compensate_writes].
  - destruct (sk_finalize kind d sgs s) as [[s1 e]| |] eqn:Hf; [|done..].
    intros [= <-]. eapply star_trans; [by eapply Hk|apply compensate_writes].
  - destruct (sk_finalize kind d sgs (compensate (sk_identifier kind d) s)) as [[s1 e]| |] eqn:Hf;
      [|done..]. intros [= <-]. eapply star_trans; [apply compensate_writes|by eapply Hk].
  - intros [= <-]. apply compensate_writes.
Qed.

Lemma finalize_writes data (r : option error) s s' e :
  match q_UpdateProcessed data s with
  | Ok s1 => Ok (s1, r) | Err e1 => Ok (s, Some (EWrap e1 "failed to update signature"))
  | Panic => Panic end = Ok (s', e) → star session_write s s'.
Proof.
  destruct (q_UpdateProcessed data s) eqn:Hu; [|intros [= <- _]; constructor|done].
  intros [= <- _]. by eapply session_write_one, sw_processed.
Qed.

Lemma hw_writes k : kind_writes (hw_kind k).
Proof.
  intros d sgs s s' e Hf. simpl in Hf. apply bind_Ok in Hf as ([sg|] & _ & Hf); [|done].
  unfold hw_finalize in Hf. apply bind_Ok in Hf as (? & _ & Hf). exact (finalize_writes _ _ _ _ _ Hf).
Qed.

Lemma zano_writes leader sent : kind_writes (zano_kind leader sent).
Proof.
  intros d sgs s s' e Hf. simpl in Hf. apply bind_Ok in Hf as (sg & _ & Hf).
  unfold zw_finalize in Hf. destruct (zw_ProposalData d) as [p|]; [|done].
  apply bind_Ok in Hf as (? & _ & Hf). destruct leader; exact (finalize_writes _ _ _ _ _ Hf).
Qed.

Lemma uw_writes `{WireLib, !UtxoHelper} pub leader sent : kind_writes (uw_kind pub leader sent).
Proof.
  intros d sgs s s' e Hf. simpl in Hf. unfold uw_finalize in Hf.
  destruct (uw_ProposalData d) as [p|]; [|done].
  destruct (Deserialize (bp_SerializedTx p)) as [tx|]; [|injection Hf as <- _; constructor].
  destruct (InjectSignatures tx sgs pub) as [tx'| |]; [|injection Hf as <- _; constructor|done].
  destruct leader; exact (finalize_writes _ _ _ _ _ Hf).
Qed.

(** What a session has written when it ends or still waits. *)
Lemma runSession_writes {T} (kind : SessionKind T) dist inp s s' :
  kind_writes kind → outcome_state (runSession kind dist inp s) = Some s' → star session_write s s'.
Proof.
  intros Hk. unfold runSession.
  destruct (r_err (in_consensus inp)); [intros [= <-]; constructor|].
  destruct (r_sigData (in_consensus inp)) as [d|]; [|intros [= <-]; constructor].
  destruct (q_UpdateStatus (sk_identifier kind d) WS_PROCESSING s) as [s1| |] eqn:Hu;
    [|intros [= <-]; constructor|done].
  intros Ho. eapply star_step; [eapply sw_status; [by left|done]|]. revert Ho.
  destruct (sk_sigData kind d) as [sigData| |]; [|done..].
  assert (star session_write s1 (if sk_named_result kind then compensate (sk_identifier kind d) s1 else s1)) as Hc.
  { destruct (sk_named_result kind); [apply compensate_writes|constructor]. }
  destruct (match r_signers (in_consensus inp) with Some _ => _ | None => _ end); [|intros [= <-]; exact Hc].
  destruct (runDistribution _ _ _ _ _) as [?|[[sgs|] [e|]]| |]; try done.
  - intros [= <-]. constructor.
  - intros [= <-]. apply compensate_writes.
  - by apply finalizePhase_writes.
  - intros [= <-]. apply compensate_writes.
Qed.

Lemma distributeAndFinalize_writes `{WireLib, !UtxoHelper} pub leader sent dist inp d sigData sgs s s' :
  outcome_state (distributeAndFinalize pub leader sent dist inp d sigData sgs s) = Some s' →
  star session_write s s'.
Proof.
  unfold distributeAndFinalize. destruct (runDistribution _ _ _ _ _) as [?|[[sg|] [e|]]| |]; try done.
  - intros [= <-]. constructor.
  - intros [= <-]. apply compensate_writes.
  - apply finalizePhase_writes, uw_writes.
  - intros [= <-]. apply compensate_writes.
Qed.

Lemma runSigningSession_writes `{WireLib, !UtxoHelper} pub leader sent dist cancelled inp s s' :
  outcome_state (runSigningSession pub leader sent dist cancelled inp s).1 = Some s' →
  star session_write s s'.
Proof.
  unfold runSigningSession. destruct (r_err (in_consensus inp)); [intros [= <-]; constructor|].
  destruct (r_sigData (in_consensus inp)) as [d|]; [|intros [= <-]; constructor].
  destruct (sk_sigData _ d) as [sigData| |]; [|done..]. simpl.
  destruct (q_UpdateStatus (uw_DepositIdentifier d) WS_PROCESSING s) as [s1| |] eqn:Hu;
    [|intros [= <-]; constructor|done].
  intros Ho. eapply star_step; [eapply sw_status; [by left|done]|]. revert Ho.
  unfold signAndDistribute.
  destruct (r_signers (in_consensus inp)); [|by apply distributeAndFinalize_writes].
  destruct (signRounds _ _ _ _ _).
  - by apply distributeAndFinalize_writes.
  - intros [= <-]. apply compensate_writes.
  - intros [= <-]. constructor.
Qed.

End session_writes.

(** ** Invariants of a node's database *)

Section node_invariants.
Context {St : Type} `{!DepositsQ St, !DepositsSpec St}.
Variable World : BridgeCore → Repository → Prop.
Implicit Types (s : St).

(** Column updates that keep the data of the deposit and make nothing PENDING. *)
Definition progress (f : Deposit → Deposit) : Prop :=
  ∀ d, same_data (f d) d ∧
       (d_WithdrawalStatus (f d) = WS_PENDING → d_WithdrawalStatus d = WS_PENDING).

Lemma progress_processed data : progress (Pg.processed_update data).
Proof. intros d. by destruct data as [? [] [] []]. Qed.

(** How one write changes the abstract store. *)
Inductive store_change (m m' : Store) : Prop :=
| sc_update f i : progress f → m' = alter f i m → store_change m m'
| sc_insert row : m !! d_ident row = None → m' = <[d_ident row := row]> m →
    (d_WithdrawalStatus row = WS_PENDING → ∃ i d, fetched World i d ∧ same_data row d) →
    store_change m m'
| sc_none : m' = m → store_change m m'.

Lemma update_change s s' (r : res St) f i :
  view <$> r = Ok (alter f i (view s)) → r = Ok s' → progress f → store_change (view s) (view s').
Proof. intros Hv -> Hf. apply (inj Ok) in Hv. by eapply sc_update. Qed.

Lemma update_hash_change s s' (r : res St) f i h :
  view <$> r = spec_update_hash i h f (view s) → r = Ok s' → progress f →
  store_change (view s) (view s').
Proof.
  unfold spec_update_hash. intros Hv -> Hf. simpl in Hv.
  destruct (view s !! i); [|apply (inj Ok) in Hv; by apply sc_none].
  destruct (fits_opt 100 h); [|done]. apply (inj Ok) in Hv. by eapply sc_update.
Qed.

Lemma insert_change m m' (row : Z → Deposit) id r :
  spec_insert row id m m' r →
  (d_WithdrawalStatus (row id) = WS_PENDING → ∃ i d, fetched World i d ∧ same_data (row id) d) →
  store_change m m'.
Proof.
  unfold spec_insert. intros Hs Hp.
  destruct (negb (row_fits (row id))); [destruct Hs; by apply sc_none|].
  destruct (m !! d_ident (row id)) eqn:Hl; destruct Hs; [by apply sc_none|by eapply sc_insert].
Qed.

Lemma node_write_change s s' :
  inv s → node_write World s s' → inv s' ∧ store_change (view s) (view s').
Proof.
  intros Hinv Hw. destruct Hw as [i d b s Hf|i s|d s|i h g s s' Hu|i b s s' Hu|i b s s' Hu|s s' Hw].
  - destruct (q_Insert (set_Distributed b d) s) as [s1 r] eqn:Hi.
    destruct (Insert_spec _ _ _ _ Hinv Hi) as (Hinv1 & id & Hs). split; [done|].
    eapply insert_change; [done|]. intros _. by exists i, d.
  - destruct (q_Insert (invalid_deposit i) s) as [s1 r] eqn:Hi.
    destruct (Insert_spec _ _ _ _ Hinv Hi) as (Hinv1 & id & Hs). split; [done|].
    by eapply insert_change.
  - destruct (q_InsertProcessedDeposit d s) as [s1 r] eqn:Hi.
    destruct (InsertProcessed_spec _ _ _ _ Hinv Hi) as (Hinv1 & id & Hs). split; [done|].
    by eapply insert_change.
  - split; [eapply update_inv; [done|]; naive_solver|].
    by eapply update_hash_change; [apply UpdateWithdrawalDetails_spec| |].
  - split; [eapply update_inv; [done|]; naive_solver|].
    by eapply update_change; [apply UpdateDistributedStatus_spec| |].
  - split; [eapply update_inv; [done|]; naive_solver|].
    by eapply update_change; [apply UpdateSubmittedStatus_spec| |].
  - destruct Hw as [i st s s' Hst Hu|data s s' Hu].
    + split; [eapply update_inv; [done|]; naive_solver|].
      eapply update_change; [by apply UpdateStatus_spec|done|].
      intros d. split; [done|]. simpl. by destruct Hst as [-> | ->].
    + split; [eapply update_inv; [done|]; naive_solver|].
      eapply update_hash_change; [by apply UpdateProcessed_spec|done|apply progress_processed].
Qed.

Lemma node_writes_inv s s' : inv s → star (node_write World) s s' → inv s'.
Proof.
  intros Hinv Hs. eapply (star_invariant (node_write World)); [|done..].
  intros a b Ha Hab. by apply node_write_change in Hab as [? _].
Qed.

(** PENDING rows hold data the node fetched from the source chain itself. *)
Definition pending_fetched s : Prop :=
  inv s ∧ ∀ i row, view s !! i = Some row → d_WithdrawalStatus row = WS_PENDING →
    ∃ i' d, fetched World i' d ∧ same_data row d.

Lemma pending_fetched_step s s' :
  node_write World s s' → pending_fetched s → pending_fetched s'.
Proof.
  intros Hw [Hinv Hp]. destruct (node_write_change _ _ Hinv Hw) as [Hinv' Hc]. split; [done|].
  intros i row Hl Hst. destruct Hc as [f j Hf Hm|new Hn Hm Hnew|Hm]; rewrite Hm in Hl.
  - destruct (decide (i = j)) as [->|Hij]; [|rewrite lookup_alter_ne in Hl by done; by eapply Hp].
    rewrite lookup_alter_eq in Hl. apply fmap_Some in Hl as (old & Hold & ->).
    destruct (Hf old) as [Hsame Hpend]. destruct (Hp j old Hold (Hpend Hst)) as (i' & d & ? & ?).
    exists i', d. split; [done|]. by etrans.
  - destruct (decide (i = d_ident new)) as [->|Hij].
    + rewrite lookup_insert_eq in Hl. injection Hl as <-. by apply Hnew.
    + rewrite lookup_insert_ne in Hl by done. by eapply Hp.
  - by eapply Hp.
Qed.

(** A row keeps its data, and once it is not PENDING it never is again. *)
Definition settled_row (i : DepositIdentifier) (d : Deposit) s : Prop :=
  inv s ∧ ∃ d', view s !! i = Some d' ∧ same_data d' d ∧ d_WithdrawalStatus d' ≠ WS_PENDING.

Lemma settled_row_step i d s s' :
  node_write World s s' → settled_row i d s → settled_row i d s'.
Proof.
  intros Hw (Hinv & d' & Hl & Hsame & Hst).
  destruct (node_write_change _ _ Hinv Hw) as [Hinv' Hc]. split; [done|].
  destruct Hc as [f j Hf Hm|new Hn Hm _|Hm]; rewrite Hm.
  - destruct (decide (i = j)) as [->|Hij]; [|by rewrite lookup_alter_ne by done; eauto].
    rewrite lookup_alter_eq, Hl. simpl. exists (f d'). destruct (Hf d') as [Hs Hp].
    split_and!; [done|by etrans|tauto].
  - exists d'. rewrite lookup_insert_ne by congruence. done.
  - by exists d'.
Qed.

End node_invariants.

(** ** Theorems *)

Section theorems.
Context {St : Type} `{!DepositsQ St, !DepositsSpec St}.
Variable World : BridgeCore → Repository → Prop.
(** The clients return the data of the deposit they are asked for, as those of all
    chains do ([DepositIdentifier: id]). *)
Hypothesis World_ident : ∀ core (clients : Repository) c cl i data,
  World core clients → (clients : gmap string Client) !! c = Some cl →
  cl_GetDepositData cl i = Ok data → dd_ident data = i.
Implicit Types (s : St).

Lemma fetched_data (core : BridgeCore) clients i d :
  World core clients → FetchDeposit clients i = Ok d →
  d_ident d = i ∧ d_WithdrawalStatus d = WS_PENDING ∧ d_WithdrawalTxHash d = None ∧
  d_Signature d = None ∧ d_Distributed d = false.
Proof.
  intros Hw Hf. unfold FetchDeposit in Hf. apply bind_Ok in Hf as (cl & Hcl & Hf).
  destruct (negb _); [done|]. apply bind_Ok in Hf as (data & Hd & Hf).
  apply bind_Ok in Hf as (? & _ & Hf). destruct (negb _); [done|].
  apply bind_Ok in Hf as (? & _ & Hf). apply bind_Ok in Hf as (? & _ & Hf).
  apply bind_Ok in Hf as (? & _ & Hf). apply (inj Ok) in Hf as <-. split; [|done]. simpl.
  apply wrap_Ok in Hcl. apply wrap_Ok in Hd. unfold repo_Client in Hcl.
  destruct ((clients : gmap string Client) !! ChainId i) as [cl'|] eqn:Hl; [|done].
  apply (inj Ok) in Hcl as ->. by eapply World_ident.
Qed.

Lemma insert_Ok s d :
  inv s → view s !! d_ident d = None → row_fits d = true → d_WithdrawalTxHash d = None →
  ∃ s' id, q_Insert d s = (s', Ok id) ∧ inv s' ∧
    view s' = <[d_ident d := inserted_row id d]> (view s).
Proof.
  intros Hinv Hn Hfit Htx. destruct (q_Insert d s) as [s' r] eqn:Hi.
  destruct (Insert_spec _ _ _ _ Hinv Hi) as (Hinv' & id & Hs).
  unfold spec_insert in Hs. cbv beta in Hs.
  assert (row_fits (inserted_row id d) = true) as Hfit'.
  { rewrite <- Hfit. unfold row_fits. simpl. by rewrite Htx. }
  rewrite Hfit' in Hs. simpl in Hs. rewrite Hn in Hs. destruct Hs as [Hv ->].
  by exists s', id.
Qed.

(** Whatever its components did before, in any interleaving, a node accepts a
    proposal only for a deposit it fetched from the source chain itself, under the
    proposed identifier: the data it agrees to sign is valid for exactly the receiver,
    the amount and the token it read there.  Neither a peer nor the API nor an event of
    the core can make it sign anything else. *)
Lemma accepted_was_fetched {T} `{!DepositSigningData T, !Constructor T}
    (core : BridgeCore) clients (t : T) s0 s later s' :
  inv s0 → view s0 = ∅ → star (node_write World) s0 s → World core clients →
  verifyProposedData_at clients t s later = (s', Ok tt) →
  ∃ d f, d_WithdrawalStatus d = WS_PENDING ∧ IsValid t d = Ok true ∧
    fetched World (ds_DepositIdentifier t) f ∧ same_data d f.
Proof.
  intros Hinv0 Hv0 Hstar Hw Hok.
  assert (pending_fetched World s) as [Hinv Hp].
  { eapply (star_invariant (node_write World)); [|done|].
    - intros a b Ha Hab. by eapply pending_fetched_step.
    - split; [done|]. intros i row. by rewrite Hv0, lookup_empty. }
  apply verify_Ok in Hok as (d & Hst & Hval & Hd). exists d.
  destruct Hd as [Hd|(f & Hf & ->)].
  - rewrite Get_spec in Hd by done. destruct (Hp _ _ Hd Hst) as (i & f & Hf & Hsame).
    exists f. split_and!; [done..| |done].
    destruct Hf as (core' & clients' & Hw' & Hf). exists core', clients'. split; [done|].
    apply view_ident in Hd; [|done].
    destruct (fetched_data _ _ _ _ Hw' Hf) as [Hi _]. by rewrite <- Hd, Hsame, Hi.
  - exists f. split_and!; [done..| |done]. by exists core, clients.
Qed.

(** C2: No deposit is signed twice.  Once a row is PROCESSING, PROCESSED, FAILED or
    INVALID, no later activity of the node makes it PENDING again or changes its data,
    the node rejects every proposal for it that it looks up from then on, whatever happens
    meanwhile, and never proposes it. *)
Theorem settled_never_signed {T} `{!DepositSigningData T, !Constructor T, !ConstructorSpec T}
    `{BridgeCore} s s' i d :
  inv s → view s !! i = Some d → d_WithdrawalStatus d ≠ WS_PENDING →
  star (node_write World) s s' →
  (∃ d', view s' !! i = Some d' ∧ same_data d' d ∧ d_WithdrawalStatus d' ≠ WS_PENDING) ∧
  (∀ clients (t : T), ds_DepositIdentifier t = i →
     mech_VerifyProposedData clients t s' = (s', Err (ENew "deposit is not in pending status"))) ∧
  (∀ clients (t : T) later, ds_DepositIdentifier t = i →
     verifyProposedData_at clients t s' later = (later, Err (ENew "deposit is not in pending status"))) ∧
  (∀ chainId (t : T), mech_FormProposalData chainId s' = Ok (Some t) → ds_DepositIdentifier t ≠ i).
Proof.
  intros Hinv Hl Hst Hstar.
  assert (settled_row i d s') as (Hinv' & d' & Hl' & Hsame & Hst').
  { eapply (star_invariant (node_write World)); [|done|].
    - intros a b Ha Hab. by eapply settled_row_step.
    - split; [done|]. by exists d. }
  split_and!.
  - by exists d'.
  - intros clients t <-. by eapply verify_not_pending.
  - intros clients t later <-. by eapply verify_not_pending.
  - intros chainId t. unfold mech_FormProposalData.
    pose proof (GetWithSelector_spec s' (depositSelector chainId) Hinv' eq_refl) as Hsel.
    destruct (q_GetWithSelector (depositSelector chainId) s') as [p|]; [|done].
    destruct (FormSigningData p) as [t'| |] eqn:Hform; simpl; [|done..]. intros [= <-].
    rewrite (formed_identifier _ _ Hform). intros Hi. destruct Hsel as (Hp & Hm & _).
    rewrite Hi, Hl' in Hp. injection Hp as ->. by apply selector_matches in Hm as (_ & Hm & _).
Qed.

(** The API round trip.  A valid identifier that neither the core nor the node
    knows, for a deposit the node can fetch, is accepted; the query then answers with
    the status PENDING and the fetched data, and a second submission is refused. *)
Theorem submit_then_check (core : BridgeCore) clients identifier i d s :
  inv s → World core clients → validated clients identifier = ROk i →
  GetDepositInfo i = Ok None → view s !! ToDbIdentifier i = None →
  FetchDeposit clients (ToDbIdentifier i) = Ok d → row_fits d = true →
  ∃ s', SubmitWithdrawal clients identifier s = (s', ROk tt) ∧ inv s' ∧
    CheckWithdrawal clients identifier s' = ROk (ToStatusResponse d) ∧
    cw_WithdrawalStatus (ToStatusResponse d) = WS_PENDING ∧
    SubmitWithdrawal clients identifier s'
    = (s', RStatus AlreadyExists "deposit already exists").
Proof.
  intros Hinv Hw Hval Hcore Hn Hf Hfit.
  destruct (fetched_data _ _ _ _ Hw Hf) as (Hid & Hst & Htx & Hsg & _).
  rewrite <- Hid in Hn. destruct (insert_Ok s d Hinv Hn Hfit Htx) as (s' & id & Hi & Hinv' & Hv).
  assert (q_Get (ToDbIdentifier i) s' = Some (inserted_row id d)) as Hget.
  { by rewrite Get_spec, Hv, <- Hid, lookup_insert_eq. }
  exists s'. unfold SubmitWithdrawal, CheckWithdrawal. rewrite Hval, Hcore, Hget.
  rewrite Get_spec, <- Hid, Hn, Hid, Hf, Hi by done. split_and!; [done..| |done|done].
  unfold ToStatusResponse. simpl. by rewrite Htx, Hsg.
Qed.


End theorems.

(** ** The events of the core *)

Section events.
Context `{CoreEvents}.

Lemma splitN2_join s : ∀ p r, splitN2 s = (p, Some r) → s = (p +:+ String dot r)%string.
Proof.
  induction s as [|a s IH]; intros p r; simpl; [done|].
  destruct (bool_decide_reflect (a = dot)) as [->|]; [by intros [= <- <-]|].
  destruct (splitN2 s) as [q [r'|]]; [|done]. intros [= <- <-]. by rewrite (IH q r' eq_refl).
Qed.

Lemma attrUpdate_comm k1 k2 v1 v2 f g d :
  k1 ≠ k2 → attrUpdate k1 v1 = Ok f → attrUpdate k2 v2 = Ok g → f (g d) = g (f d).
Proof.
  intros Hne Hf Hg.
  destruct k1; simpl in Hf; try (apply bind_Ok in Hf as (? & _ & Hf)); apply (inj Ok) in Hf as <-;
  (destruct k2; [..|]; try done; simpl in Hg; try (apply bind_Ok in Hg as (? & _ & Hg));
   apply (inj Ok) in Hg as <-; reflexivity).
Qed.

(** What an attribute that does not fail does. *)
Lemma attrAction_Ok a f :
  attrAction a = Ok f →
  f = id ∨ ∃ k v, fst a = (EventType_DEPOSIT_SUBMITTED +:+ String dot (attr_name k))%string ∧
                  attrUpdate k v = Ok f.
Proof.
  unfold attrAction. destruct (splitN2 (fst a)) as [p0 p1] eqn:Hs.
  destruct (bool_decide_reflect (p0 = EventType_DEPOSIT_SUBMITTED)) as [->|]; cbn [negb];
    [|intros [= <-]; by left].
  destruct p1 as [name|]; [|done].
  destruct (List.find (λ k, bool_decide (name = attr_name k)) attr_keys) as [k|] eqn:Hk; [|done].
  apply List.find_some in Hk as [_ Hk]. apply bool_decide_eq_true in Hk as ->.
  destruct (snd a) as [|v ?]; [done|]. intros Hu. right. exists k, v. split; [|done].
  by apply splitN2_join.
Qed.

Lemma attrAction_comm a b f g d :
  fst a ≠ fst b → attrAction a = Ok f → attrAction b = Ok g → f (g d) = g (f d).
Proof.
  intros Hne Hf Hg. apply attrAction_Ok in Hf as [->|(k & v & Ha & Hf)]; [done|].
  apply attrAction_Ok in Hg as [->|(k' & v' & Hb & Hg)]; [done|].
  eapply attrUpdate_comm; [|done..]. intros ->. congruence.
Qed.

(** The parsed event does not depend on the order in which Go's loop meets the
    attributes in the map: every order gives the same deposit, if one does. *)
Theorem parse_order_irrelevant attributes attributes' d :
  NoDup attributes.*1 → attributes ≡ₚ attributes' →
  parseSubmittedDeposit attributes = Ok d → parseSubmittedDeposit attributes' = Ok d.
Proof.
  unfold parseSubmittedDeposit. generalize event_deposit. intros d0 Hnd Hperm. revert d0.
  induction Hperm as [|a l l' Hperm IH|a b l|l l' l'' H1 IH1 H2 IH2]; intros d0; simpl in *.
  - done.
  - apply NoDup_cons in Hnd as [_ Hnd]. intros Hok. apply bind_Ok in Hok as (f & Hf & Hok).
    rewrite Hf. simpl. by apply IH.
  - apply NoDup_cons in Hnd as [Hnotin _]. intros Hok. apply bind_Ok in Hok as (f & Hf & Hok).
    apply bind_Ok in Hok as (g & Hg & Hok). rewrite Hg. simpl. rewrite Hf. simpl.
    rewrite (attrAction_comm b a f g); [done| |done|done]. intros Heq. apply Hnotin.
    rewrite Heq. apply elem_of_cons. by left.
  - intros Hok. apply IH2; [|by apply IH1]. by rewrite <- H1.
Qed.

End events.

(** ** The web socket *)

Definition frame_status (f : Frame) : option WithdrawalStatus :=
  match f with FText r => Some (cw_WithdrawalStatus r) | FClose _ => None end.

(** The observed statuses, up to the first poll that ends the connection. *)
Fixpoint observed (events : list PollEvent) : list WithdrawalStatus :=
  match events with
  | Tick (Some d) true :: rest => d_WithdrawalStatus d :: observed rest
  | _ => []
  end.

(** A status and the ones sent after it: no two neighbours are equal, only the last
    is final. *)
Fixpoint changing (prev : WithdrawalStatus) (l : list WithdrawalStatus) : Prop :=
  match l with
  | [] => True
  | x :: rest => is_final prev = false ∧ x ≠ prev ∧ changing x rest
  end.

Lemma pollLoop_changing events : ∀ prev,
  is_final prev = false → changing prev (omap frame_status (pollLoop prev events)).
Proof.
  induction events as [|[| |[d|] w] events IH]; intros prev Hp; simpl; try done.
  destruct (bool_decide_reflect (d_WithdrawalStatus d = prev)) as [|Hne]; [by apply IH|].
  destruct w; simpl; [|done]. split_and!; [done..|].
  destruct (is_final (d_WithdrawalStatus d)) eqn:Hd; simpl; [done|by apply IH].
Qed.

Lemma pollLoop_final events : ∀ prev st,
  is_final prev = false → st ∈ observed events → is_final st = true →
  ∃ r, FText r ∈ pollLoop prev events ∧ is_final (cw_WithdrawalStatus r) = true ∧
       last (pollLoop prev events) = Some (FClose CloseNormalClosure).
Proof.
  induction events as [|[| |[d|] [|]] events IH]; intros prev st Hp Hin Hst; simpl in *;
    try (by apply elem_of_nil in Hin).
  destruct (bool_decide_reflect (d_WithdrawalStatus d = prev)) as [Heq|Hne].
  { apply elem_of_cons in Hin as [->|Hin]; [congruence|by eapply IH]. }
  destruct (is_final (d_WithdrawalStatus d)) eqn:Hd; simpl.
  { exists (ToStatusResponse d). split_and!; [apply elem_of_cons; by left|done|done]. }
  apply elem_of_cons in Hin as [->|Hin]; [congruence|].
  destruct (IH (d_WithdrawalStatus d) st) as (r & Hr & Hf & Hl); [done..|].
  exists r. split_and!; [apply elem_of_cons; by right|done|]. by rewrite last_cons, Hl.
Qed.

(** What a client of the web socket sees: the status at the start, then only
    changes of it, none after a final one; and when the node observes a final status
    the client is told and the connection is closed normally. *)
Theorem watch_reports_changes d events :
  (∃ l, omap frame_status (watchWithdrawalStatus d true events) = d_WithdrawalStatus d :: l ∧
        changing (d_WithdrawalStatus d) l) ∧
  (∀ st, st ∈ d_WithdrawalStatus d :: observed events → is_final st = true →
     ∃ r, FText r ∈ watchWithdrawalStatus d true events ∧
       is_final (cw_WithdrawalStatus r) = true ∧
       last (watchWithdrawalStatus d true events) = Some (FClose CloseNormalClosure)).
Proof.
  unfold watchWithdrawalStatus. simpl.
  destruct (is_final (d_WithdrawalStatus d)) eqn:Hd; simpl.
  - split; [by exists []|]. intros st _ _. exists (ToStatusResponse d).
    split_and!; [apply elem_of_cons; by left|done|done].
  - split; [eexists; split; [done|by apply pollLoop_changing]|].
    intros st Hin Hst. apply elem_of_cons in Hin as [->|Hin]; [congruence|].
    destruct (pollLoop_final events (d_WithdrawalStatus d) st) as (r & Hr & Hf & Hl); [done..|].
    exists r. split_and!; [apply elem_of_cons; by right|done|]. by rewrite last_cons, Hl.
Qed.

(** ** Witnesses *)

Module SampleIntake.
Export SampleFetcher.
#[export] Existing Instance SampleFetcher.core.

Definition the_clients : Repository := clients 1000000.
Definition world (co : BridgeCore) (cl : Repository) : Prop := co = core ∧ cl = the_clients.

Lemma world_ident co (cls : Repository) c cl i data :
  world co cls → (cls : gmap string Client) !! c = Some cl →
  cl_GetDepositData cl i = Ok data → dd_ident data = i.
Proof.
  intros [_ ->] Hl Hd.
  assert (∃ chain, cl = client chain 1000000) as [chain ->].
  { change ((<["2" := client "2" 1000000]> (<["1" := client "1" 1000000]> (∅ : gmap string Client)))
      !! c = Some cl) in Hl.
    apply lookup_insert_Some in Hl as [[_ <-]|[_ Hl]]; [by eexists|].
    apply lookup_insert_Some in Hl as [[_ <-]|[_ Hl]]; [by eexists|]. by rewrite lookup_empty in Hl. }
  simpl in Hd. by injection Hd as <-.
Qed.

Definition msg : MsgDepositIdentifier := ToMsgDepositIdentifier identifier.

(** The node after it accepted the distributed deposit. *)
Definition stored : Table :=
  match acceptorStep the_clients {| dm_Distributor := "p"; dm_Identifier := Some msg |} empty_table with
  | Ok s => s | _ => empty_table end.

Lemma empty_inv : inv (St:=Table) empty_table.
Proof. split; simpl; constructor. Qed.

Lemma stored_writes : star (node_write world) empty_table stored.
Proof.
  eapply (acceptorStep_writes world core the_clients
            {| dm_Distributor := "p"; dm_Identifier := Some msg |}); [done|reflexivity].
Qed.

#[export] Instance events : CoreEvents := {|
  EventType_DEPOSIT_SUBMITTED := "DEPOSIT_SUBMITTED";
  attr_name := λ k, match k with
    | DepositTxHash => "tx_hash" | DepositNonce => "nonce" | DepositChainId => "chain"
    | DepositAmount => "amount" | DepositToken => "token" | DepositBlock => "block"
    | WithdrawalAmount => "w_amount" | Depositor => "depositor" | Receiver => "receiver"
    | WithdrawalChainID => "w_chain" | WithdrawalTxHash => "w_hash" | WithdrawalToken => "w_token"
    | SignatureKey => "signature" | IsWrapped => "wrapped" | CommissionAmount => "commission" end |}.
End SampleIntake.

Section witnesses.
Import SampleWithdrawal SampleIntake.

(** A constructor that signs the identifier. *)
Local Instance hash_identifier : Hashable DepositIdentifier := identifier_String.
Local Instance data_identifier : DepositSigningData DepositIdentifier :=
  {| ds_DepositIdentifier := λ i, i |}.
Local Instance constructor_identifier : Constructor DepositIdentifier :=
  {| FormSigningData := λ d, Ok (d_ident d); IsValid := λ t d, Ok (bool_decide (t = d_ident d)) |}.
Local Instance constructor_identifier_spec : ConstructorSpec DepositIdentifier.
Proof.
  split.
  - intros d t Ht. by injection Ht as <-.
  - intros d t Ht. injection Ht as <-. simpl. by rewrite bool_decide_true.
  - intros t d d' Hd. simpl. by rewrite (same_data_ident d d' Hd).
Qed.

Lemma accepted_was_fetched_witness :
  ∃ d f, d_WithdrawalStatus d = WS_PENDING ∧ IsValid identifier d = Ok true ∧
    fetched world identifier f ∧ same_data d f.
Proof.
  edestruct (accepted_was_fetched (St:=Table) world world_ident (T:=DepositIdentifier) core the_clients
           identifier empty_table stored stored) as (d & f & Hd).
  - exact empty_inv.
  - reflexivity.
  - exact stored_writes.
  - split; reflexivity.
  - vm_compute. reflexivity.
  - exists d, f. exact Hd.
Defined.

(** The stored deposit failed. *)
Definition failed : Table :=
  match Pg.UpdateStatus identifier WS_FAILED stored with Ok s => s | _ => stored end.

Lemma settled_never_signed_witness :
  (mech_VerifyProposedData the_clients identifier failed).2
  = Err (ENew "deposit is not in pending status").
Proof.
  destruct (view failed !! identifier) as [d|] eqn:E; [|vm_compute in E; discriminate].
  destruct (settled_never_signed (St:=Table) world (T:=DepositIdentifier) failed failed identifier d)
    as (_ & Hv & _).
  - eapply (db_step_wf stored); [|eapply (step_UpdateStatus identifier WS_FAILED); reflexivity].
    exact (node_writes_inv world _ _ empty_inv stored_writes).
  - exact E.
  - vm_compute in E. injection E as <-. discriminate.
  - apply star_refl.
  - rewrite (Hv the_clients identifier); reflexivity.
Defined.

Lemma submit_then_check_witness :
  ∃ s' : Table, SubmitWithdrawal the_clients (Some msg) empty_table = (s', ROk tt) ∧
    (SubmitWithdrawal the_clients (Some msg) s').2
    = RStatus AlreadyExists "deposit already exists".
Proof.
  destruct (FetchDeposit the_clients (ToDbIdentifier msg)) as [d| |] eqn:E;
    [|vm_compute in E; discriminate..].
  destruct (submit_then_check (St:=Table) world world_ident core the_clients (Some msg) msg d empty_table)
    as (s' & Hs & _ & _ & _ & Hs').
  - exact empty_inv.
  - split; reflexivity.
  - vm_compute. reflexivity.
  - reflexivity.
  - reflexivity.
  - exact E.
  - vm_compute in E. injection E as <-. vm_compute. reflexivity.
  - exists s'. split; [exact Hs|]. rewrite Hs'. reflexivity.
Defined.

Definition submitted : Table := (SubmitWithdrawal the_clients (Some msg) empty_table).1.

Lemma submitted_inv : inv (St:=Table) submitted.
Proof.
  refine (node_writes_inv world _ _ empty_inv _).
  eapply (SubmitWithdrawal_writes world core the_clients (Some msg)); [done|apply surjective_pairing].
Qed.


Definition event : list (string * list string) :=
  [("DEPOSIT_SUBMITTED.tx_hash", ["0xab"]); ("DEPOSIT_SUBMITTED.nonce", ["7"]); ("tx.height", ["1"])].

Lemma parse_order_irrelevant_witness :
  ∃ d, parseSubmittedDeposit event = Ok d ∧ parseSubmittedDeposit (reverse event) = Ok d.
Proof.
  destruct (parseSubmittedDeposit event) as [d| |] eqn:E; [|vm_compute in E; discriminate..].
  exists d. split; [reflexivity|]. apply (parse_order_irrelevant event); [|symmetry; apply reverse_Permutation|exact E].
  vm_compute. repeat (apply NoDup_cons_2; [intros Hin; repeat (apply elem_of_cons in Hin as [Hin|Hin]; [discriminate Hin|]); by apply elem_of_nil in Hin|]).
  apply NoDup_nil_2.
Defined.

End witnesses.
