(* ===== verification/Node.v ===== *)
(** * The peer-to-peer layer of a node

    Models [internal/p2p]: the certificates of the parties ([mtls.go]), the server that
    authenticates requests ([server.go]), the registry that routes them to the sessions
    ([session_manager.go]), the statuses of the peers ([connection_manager.go]) and the
    choice of the peer to synchronise with ([syncer.go]).

    TLS itself is a parameter: a request comes with the certificates the peer proved to
    own, and [crypto/x509] parses certificates and marshals their public keys.  Locks are
    modelled in [Parties.lock_step]; here every operation is atomic, as the locks make
    it. *)

From S2P Require Import Prelude Core Session Intake.
#[local] Open Scope Z_scope.

(** ** mtls.go *)

Class X509 := {
  Certificate : Type;
  (** [CertPool.AppendCertsFromPEM]: whether a certificate was found *)
  AppendCertsFromPEM : bytes → bool;
  (** [pem.Decode]: the first block *)
  pem_Decode : bytes → option bytes;
  ParseCertificate : bytes → res Certificate;
  (** [string(x509.MarshalPKIXPublicKey(cert.PublicKey))] *)
  MarshalPKIXPublicKey : Certificate → res string }.

Section mtls.
Context `{X509}.

#[local] Notation AuthorizedParties := (gmap string Address).

Definition auth_Add (p : AuthorizedParties) (cert : Certificate) (addr : Address)
    : res AuthorizedParties :=
  pubkeyRaw ← wrap (MarshalPKIXPublicKey cert) "failed to marshal certificate public key";
  Ok (<[pubkeyRaw := addr]> p).

Definition auth_Get (p : AuthorizedParties) (cert : Certificate) : option Address :=
  match MarshalPKIXPublicKey cert with
  | Ok pubkeyRaw => p !! pubkeyRaw
  | _ => None
  end.

Definition parsePEMCertificate (pemCert : bytes) : res Certificate :=
  match pem_Decode pemCert with
  | None => Err (ENew "invalid PEM block")
  | Some block => wrap (ParseCertificate block) "failed to parse certificate"
  end.

(** The loop of [ConfigurePartiesCertPool]; a party comes with its [PEMCert]. *)
Fixpoint configureParties (parties : list (Party * bytes)) (authorizedParties : AuthorizedParties)
    : res AuthorizedParties :=
  match parties with
  | [] => Ok authorizedParties
  | (party, partyCert) :: rest =>
      if negb (AppendCertsFromPEM partyCert) then Err (ENew "invalid PEM certificate for party")
      else
        cert ← wrap (parsePEMCertificate partyCert) "failed to parse certificate for party";
        authorizedParties ← wrap (auth_Add authorizedParties cert (CoreAddress party))
                              "failed to add party to authorized parties";
        configureParties rest authorizedParties
  end.

Definition ConfigurePartiesCertPool (parties : list (Party * bytes)) : res AuthorizedParties :=
  configureParties parties ∅.

(** ** session_manager.go

    Sessions are objects that the manager shares with the goroutines that run them:
    the registry holds pointers. *)

#[local] Notation SessionManager := (gmap string nat).

Definition mgr_Add (session : nat) (id : string) (m : SessionManager) : SessionManager :=
  <[id := session]> m.

Definition mgr_Get (m : SessionManager) (id : string) : option nat := m !! id.

Definition mgr_Receive (receive : nat → SubmitRequest → res unit) (m : SessionManager)
    (request : SubmitRequest) : res unit :=
  match m !! rq_SessionId request with
  | Some session => receive session request
  | None => Err (ESentinel ErrSessionNotFound)
  end.

Definition onIdChange (oldId newId : string) (m : SessionManager) : SessionManager :=
  match m !! oldId with
  | None => m
  | Some session => <[newId := session]> (delete oldId m)
  end.

(** [order]: the entries of the map in the order of the iteration; [info]: what the
    session's [SigningSessionInfo] returns. *)
Definition GetSigningSession (info : nat → option SigningSessionInfo)
    (order : list (string * nat)) (chainId : string) : res nat :=
  match List.find (λ e, match info (snd e) with
                        | Some i => bool_decide (si_ChainId i = chainId)
                        | None => false end) order with
  | Some e => Ok (snd e)
  | None => Err (ESentinel ErrSessionNotFound)
  end.

(** ** server.go *)

Inductive PartyStatus := PS_UNKNOWN | PS_KEYGEN | PS_SIGN | PS_RESHARE | PS_SYNC.

#[export] Instance PartyStatus_eq_dec : EqDecision PartyStatus.
Proof. solve_decision. Defined.

(** What the request's context says about the peer. *)
Inductive Peer := NoPeer | NoTLSInfo | TLSPeer (peerCertificates : list Certificate).

Definition authorizeParty (authParties : AuthorizedParties) (p : Peer) : Reply (option Address) :=
  match p with
  | NoPeer => RStatus Internal "internal server error"
  | NoTLSInfo => RStatus Unauthenticated "no tls info found"
  | TLSPeer [] => RStatus Unauthenticated "no client certificate found"
  | TLSPeer (clientCert :: _) => ROk (auth_Get authParties clientCert)
  end.

(** The interceptor of the server recovers from panics in handlers. *)
Definition recovered (r : res unit) : Reply unit :=
  match r with
  | Ok _ => ROk tt
  | Err _ => RStatus InvalidArgument "failed to receive"
  | Panic => RStatus Internal "internal server error"
  end.

Definition Submit (authParties : AuthorizedParties) (receive : nat → SubmitRequest → res unit)
    (m : SessionManager) (p : Peer) (request : option SubmitRequest) : Reply unit :=
  match request with
  | None => RStatus InvalidArgument "request is nil"
  | Some rq =>
      match authorizeParty authParties p with
      | RStatus c msg => RStatus c msg
      | RPanic => RPanic
      | ROk None => RStatus PermissionDenied "party is not in authorized parties list"
      | ROk (Some authorizedParty) =>
          if negb (bool_decide (authorizedParty = rq_Sender rq))
          then RStatus PermissionDenied "party is not authorized to send this request"
          else recovered (mgr_Receive receive m rq)
      end
  end.

Definition GetSigningSessionInfo (status : PartyStatus) (info : nat → option SigningSessionInfo)
    (order : list (string * nat)) (chainId : string) : Reply (option SigningSessionInfo) :=
  if negb (bool_decide (status = PS_SIGN))
  then RStatus FailedPrecondition "party is not in signing state"
  else match GetSigningSession info order chainId with
       | Ok session => ROk (info session)
       | _ => RStatus NotFound "session not found"
       end.

End mtls.

(** ** connection_manager.go *)

(** Channels are numbered; [cm_signals] are the ones a value was sent on, in order. *)
Record ConnectionManager := {
  cm_conns : gmap Address PartyStatus;
  cm_ready : gset Address;
  cm_subscribers : gmap nat Z;
  cm_signals : list nat }.

Definition NewConnectionManager (parties : list Party) : ConnectionManager :=
  {| cm_conns := list_to_map ((λ p, (CoreAddress p, PS_UNKNOWN)) <$> parties);
     cm_ready := ∅; cm_subscribers := ∅; cm_signals := [] |}.

Definition cm_Subscribe (ch : nat) (readyPartiesCount : Z) (c : ConnectionManager)
    : ConnectionManager :=
  {| cm_conns := cm_conns c; cm_ready := cm_ready c;
     cm_subscribers := <[ch := readyPartiesCount]> (cm_subscribers c);
     cm_signals := cm_signals c |}.

Definition GetReady (c : ConnectionManager) : gset Address := cm_ready c.
Definition GetReadyCount (c : ConnectionManager) : Z := Z.of_nat (size (cm_ready c)).

(** [response.GetStatus()]: the zero value for the nil response of a failed call. *)
Definition responseStatus (response : res PartyStatus) : PartyStatus :=
  match response with Ok s => s | _ => PS_UNKNOWN end.

(** One round of the inner loop of [watchStatuses], for the party [k]. *)
Definition watchStatus (requiredStatus : PartyStatus) (k : Address) (response : res PartyStatus)
    (c : ConnectionManager) : ConnectionManager :=
  let status := default PS_UNKNOWN (cm_conns c !! k) in
  let newStatus := responseStatus response in
  if bool_decide (status = newStatus) then c
  else
    let isReady := bool_decide (newStatus = requiredStatus) in
    let ready := if isReady then {[k]} ∪ cm_ready c else cm_ready c in
    let satisfied := filter (λ e : nat * Z, e.2 ≤ Z.of_nat (size ready)) (cm_subscribers c) in
    {| cm_conns := <[k := newStatus]> (cm_conns c);
       cm_ready := if bool_decide (status = requiredStatus) then ready ∖ {[k]} else ready;
       cm_subscribers := if isReady then cm_subscribers c ∖ satisfied else cm_subscribers c;
       cm_signals := if isReady then cm_signals c ++ (map_to_list satisfied).*1
                     else cm_signals c |}.

(** ** syncer.go *)

(** [statuses]: the parties with their answers, in the configured order. *)
Definition findAliveParty (statuses : list (Party * res PartyStatus)) (requiredStatus : PartyStatus)
    : option Party :=
  fst <$> List.find (λ e, match snd e with
                          | Ok s => bool_decide (s = requiredStatus)
                          | _ => false end) statuses.

Definition NewSyncer (statuses : list (Party * res PartyStatus)) (requiredStatus : PartyStatus)
    : res Party :=
  of_option (findAliveParty statuses requiredStatus) "no alive party found".

(** ** Authentication *)

Section authentication.
Context `{X509}.

Lemma configureParties_sound parties : ∀ p0 p key a,
  configureParties parties p0 = Ok p → p !! key = Some a →
  p0 !! key = Some a ∨
  ∃ party pem cert, (party, pem) ∈ parties ∧ parsePEMCertificate pem = Ok cert ∧
    MarshalPKIXPublicKey cert = Ok key ∧ CoreAddress party = a.
Proof.
  induction parties as [|[party pem] parties IH]; intros p0 p key a; simpl.
  { intros [= <-] Hl. by left. }
  destruct (AppendCertsFromPEM pem); simpl; [|done]. intros Hok Hl.
  apply bind_Ok in Hok as (cert & Hcert & Hok). apply wrap_Ok in Hcert.
  apply bind_Ok in Hok as (p1 & Hadd & Hok). apply wrap_Ok in Hadd.
  unfold auth_Add in Hadd. apply bind_Ok in Hadd as (key' & Hkey & Hadd). apply wrap_Ok in Hkey.
  apply (inj Ok) in Hadd as <-. destruct (IH _ _ _ _ Hok Hl) as [Hp|(q & pem' & c & Hin & Hrest)].
  - apply lookup_insert_Some in Hp as [[-> <-]|[_ Hp]]; [|by left].
    right. exists party, pem, cert. split; [apply elem_of_cons; by left|done].
  - right. exists q, pem', c. split; [apply elem_of_cons; by right|done].
Qed.

Lemma submit_authorized parties auth receive m p rq :
  ConfigurePartiesCertPool parties = Ok auth → Submit auth receive m p (Some rq) = ROk tt →
  (∃ cert certs key party pem own, p = TLSPeer (cert :: certs) ∧
     MarshalPKIXPublicKey cert = Ok key ∧ (party, pem) ∈ parties ∧
     parsePEMCertificate pem = Ok own ∧ MarshalPKIXPublicKey own = Ok key ∧
     CoreAddress party = rq_Sender rq) ∧
  ∃ session, mgr_Get m (rq_SessionId rq) = Some session ∧ receive session rq = Ok tt.
Proof.
  intros Hconf. unfold Submit, authorizeParty.
  destruct p as [| |[|cert certs]]; [done..|].
  destruct (auth_Get auth cert) as [a|] eqn:Hget; [|done].
  destruct (bool_decide_reflect (a = rq_Sender rq)) as [->|]; [|done]. simpl. intros Hok.
  unfold auth_Get in Hget. destruct (MarshalPKIXPublicKey cert) as [key| |] eqn:Hkey; [|done..].
  destruct (configureParties_sound _ _ _ _ _ Hconf Hget) as [Hn|(party & pem & own & Hin & Hrest)].
  { by rewrite lookup_empty in Hn. }
  split; [by exists cert, certs, key, party, pem, own|].
  unfold mgr_Receive in Hok. unfold mgr_Get.
  destruct (m !! rq_SessionId rq) as [session|]; [|done]. exists session. split; [done|].
  by destruct (receive session rq) as [[]| |].
Qed.

(** A request that a session accepts was sent by the party it names: the peer proved
    to own the key of the certificate configured for a party with the sender's address,
    and the request went to the session registered under its session identifier. *)
Theorem submit_authentic parties auth receive m p rq :
  ConfigurePartiesCertPool parties = Ok auth → Submit auth receive m p (Some rq) = ROk tt →
  (∃ cert certs key party pem own, p = TLSPeer (cert :: certs) ∧
     MarshalPKIXPublicKey cert = Ok key ∧ (party, pem) ∈ parties ∧
     parsePEMCertificate pem = Ok own ∧ MarshalPKIXPublicKey own = Ok key ∧
     CoreAddress party = rq_Sender rq) ∧
  ∃ session, mgr_Get m (rq_SessionId rq) = Some session ∧ receive session rq = Ok tt.
Proof. apply submit_authorized. Qed.

End authentication.

(** ** The registry of sessions *)

(** A node runs one signing session per chain, whose identifier changes, and sessions
    with a fixed identifier. *)
Inductive SessionName := Chain (chainId : string) (id : Z) | Fixed (id : string).

Definition name_id (n : SessionName) : string :=
  match n with
  | Chain c id => GetConcreteSigningSessionIdentifier c id
  | Fixed id => id
  end.

(** The manager's map; for every session the identifier it was last registered under; and
    the sessions whose [incrementSessionId] has stored the next identifier and has not yet
    called the listener: the two are separate steps, under no common lock. *)
Record Sessions := { reg : gmap string nat; names : gmap nat SessionName; stored : gset nat }.

(** [Id()] of a session: what it last stored. *)
Definition session_Id (s : Sessions) (p : nat) : option string :=
  (λ n, if bool_decide (p ∈ stored s) then IncrementSessionIdentifier (name_id n) else name_id n)
    <$> names s !! p.

(** Chains have distinct ids without the separator; fixed identifiers are not of the
    form of a signing session's. *)
Definition compatible (n n' : SessionName) : Prop :=
  match n, n' with
  | Chain c _, Chain c' _ => c ≠ c'
  | Fixed i, Fixed i' => i ≠ i'
  | _, _ => True
  end.

Definition name_ok (n : SessionName) : Prop :=
  match n with
  | Chain c id => str_elem underscore c = false ∧ in_int64 id
  | Fixed i => ∀ c id, i ≠ GetConcreteSigningSessionIdentifier c id
  end.

Inductive sessions_step : Sessions → Sessions → Prop :=
| ss_Add s p n :
    names s !! p = None → name_ok n → (∀ q n', names s !! q = Some n' → compatible n n') →
    sessions_step s
      {| reg := mgr_Add p (name_id n) (reg s); names := <[p := n]> (names s); stored := stored s |}
(* [incrementSessionId]: the session stores the new identifier, ... *)
| ss_store s p c id :
    names s !! p = Some (Chain c id) → p ∉ stored s →
    sessions_step s {| reg := reg s; names := names s; stored := {[p]} ∪ stored s |}
(* ... and calls the listener with the previous one and the new one *)
| ss_listener s p c id :
    names s !! p = Some (Chain c id) → p ∈ stored s →
    let next := IncrementSessionIdentifier (name_id (Chain c id)) in
    sessions_step s
      {| reg := onIdChange (name_id (Chain c id)) next (reg s);
         names := <[p := Chain c (int64 (id + 1))]> (names s);
         stored := stored s ∖ {[p]} |}.

Record sessions_wf (s : Sessions) : Prop := {
  wf_names : ∀ p n, names s !! p = Some n → name_ok n;
  wf_compatible : ∀ p q n n', p ≠ q → names s !! p = Some n → names s !! q = Some n' →
    compatible n n';
  wf_reg : ∀ i p, mgr_Get (reg s) i = Some p ↔ ∃ n, names s !! p = Some n ∧ name_id n = i }.

Lemma concrete_inj c c' i i' :
  str_elem underscore c = false → str_elem underscore c' = false →
  GetConcreteSigningSessionIdentifier c i = GetConcreteSigningSessionIdentifier c' i' → c = c'.
Proof.
  intros Hc Hc' Heq. apply (f_equal (split_on underscore)) in Heq.
  rewrite !split_concrete in Heq by done. by injection Heq.
Qed.

Lemma compatible_ids n n' : name_ok n → name_ok n' → compatible n n' → name_id n ≠ name_id n'.
Proof.
  destruct n as [c i|i], n' as [c' i'|i']; simpl.
  - intros [Hc _] [Hc' _] Hne Heq. by apply Hne, (concrete_inj c c' i i').
  - intros _ Hf _ Heq. by apply (Hf c i).
  - intros Hf _ _. apply Hf.
  - done.
Qed.

Lemma wf_same_id s p q n n' :
  sessions_wf s → names s !! p = Some n → names s !! q = Some n' → name_id n = name_id n' → p = q.
Proof.
  intros Hwf Hp Hq Heq. destruct (decide (p = q)) as [->|Hne]; [done|]. exfalso.
  apply (compatible_ids n n'); [by eapply wf_names|by eapply wf_names| |exact Heq].
  by eapply (wf_compatible _ Hwf p q).
Qed.

Lemma compatible_sym n n' : compatible n n' → compatible n' n.
Proof. destruct n, n'; simpl; auto. Qed.

Lemma sessions_Add_wf s p n st :
  sessions_wf s → names s !! p = None → name_ok n →
  (∀ q n', names s !! q = Some n' → compatible n n') →
  sessions_wf {| reg := mgr_Add p (name_id n) (reg s); names := <[p := n]> (names s); stored := st |}.
Proof.
  intros Hwf Hp Hok Hcomp.
  split; simpl.
  + intros q m Hq. apply lookup_insert_Some in Hq as [[_ <-]|[_ Hq]]; [done|by eapply wf_names].
  + intros q q' m m' Hne Hq Hq'. apply lookup_insert_Some in Hq as [[<- <-]|[? Hq]];
      apply lookup_insert_Some in Hq' as [[? <-]|[? Hq']]; [congruence|by eapply Hcomp| |].
    * apply compatible_sym. by eapply Hcomp.
    * by eapply (wf_compatible _ Hwf q q').
  + intros i q. unfold mgr_Get, mgr_Add. destruct (decide (name_id n = i)) as [<-|Hi].
    * rewrite lookup_insert_eq. split.
      -- intros [= <-]. exists n. by rewrite lookup_insert_eq.
      -- intros (m & Hm & Hid). apply lookup_insert_Some in Hm as [[<- _]|[? Hm]]; [done|].
         exfalso. symmetry in Hid. revert Hid. apply compatible_ids; [done|by eapply wf_names|].
         by eapply Hcomp.
    * rewrite lookup_insert_ne by done.
      change (mgr_Get (reg s) i = Some q ↔ ∃ m, <[p := n]> (names s) !! q = Some m ∧ name_id m = i).
      rewrite (wf_reg _ Hwf). split; intros (m & Hm & Hid); exists m.
      -- rewrite lookup_insert_ne; [done|]. intros ->. congruence.
      -- apply lookup_insert_Some in Hm as [[_ <-]|[_ Hm]]; [done|done].
Qed.

Lemma sessions_increment_wf s p c id st :
  sessions_wf s → names s !! p = Some (Chain c id) →
  sessions_wf
    {| reg := onIdChange (name_id (Chain c id)) (IncrementSessionIdentifier (name_id (Chain c id))) (reg s);
       names := <[p := Chain c (int64 (id + 1))]> (names s); stored := st |}.
Proof.
  intros Hwf Hp.
  destruct (wf_names _ Hwf _ _ Hp) as [Hc Hid].
  assert (mgr_Get (reg s) (name_id (Chain c id)) = Some p) as Hreg.
  { apply (wf_reg _ Hwf). by exists (Chain c id). }
  set (next := Chain c (int64 (id + 1))).
  assert (IncrementSessionIdentifier (name_id (Chain c id)) = name_id next) as Hinc.
  { by apply increment_concrete. }
  assert (∀ q n, q ≠ p → names s !! q = Some n → compatible next n) as Hother.
  { intros q n Hne Hq. exact (wf_compatible _ Hwf p q (Chain c id) n (not_eq_sym Hne) Hp Hq). }
  split; simpl.
  + intros q m Hq. apply lookup_insert_Some in Hq as [[_ <-]|[_ Hq]]; [|by eapply wf_names].
    split; [done|apply int64_range].
  + intros q q' m m' Hne Hq Hq'. apply lookup_insert_Some in Hq as [[<- <-]|[? Hq]];
      apply lookup_insert_Some in Hq' as [[? <-]|[? Hq']]; [congruence| | |].
    * by eapply (Hother q').
    * apply compatible_sym. by eapply (Hother q).
    * by eapply (wf_compatible _ Hwf q q').
  + intros i q. unfold mgr_Get, onIdChange. unfold mgr_Get in Hreg. simpl in Hreg. rewrite Hreg.
    change (GetConcreteSigningSessionIdentifier c id) with (name_id (Chain c id)). rewrite Hinc.
    destruct (decide (name_id next = i)) as [<-|Hi].
    * rewrite lookup_insert_eq. split.
      -- intros [= <-]. exists next. by rewrite lookup_insert_eq.
      -- intros (m & Hm & Hm2). apply lookup_insert_Some in Hm as [[<- _]|[? Hm]]; [done|].
         exfalso. symmetry in Hm2. revert Hm2.
         apply compatible_ids; [split; [done|apply int64_range]|by eapply wf_names|by eapply (Hother q)].
    * rewrite lookup_insert_ne by done.
      rewrite lookup_delete_Some.
      change (name_id (Chain c id) ≠ i ∧ mgr_Get (reg s) i = Some q ↔
              ∃ m, <[p := next]> (names s) !! q = Some m ∧ name_id m = i).
      rewrite (wf_reg _ Hwf). split.
      -- intros (Hne & m & Hm & Hm2). exists m. rewrite lookup_insert_ne; [done|].
         intros ->. congruence.
      -- intros (m & Hm & Hm2). apply lookup_insert_Some in Hm as [[_ <-]|[Hpq Hm]]; [done|].
         split; [|by exists m]. intros Heq. apply Hpq. eapply wf_same_id; [done..|congruence].
Qed.

Lemma sessions_step_wf s s' : sessions_wf s → sessions_step s s' → sessions_wf s'.
Proof.
  intros Hwf Hstep.
  destruct Hstep; [by apply sessions_Add_wf|by destruct Hwf|by apply sessions_increment_wf].
Qed.

Definition no_sessions : Sessions := {| reg := ∅; names := ∅; stored := ∅ |}.

Lemma sessions_reachable_wf s : star sessions_step no_sessions s → sessions_wf s.
Proof.
  intros Hs. eapply (star_invariant sessions_step); [apply sessions_step_wf|done|].
  split; simpl; [intros ??; by rewrite lookup_empty|intros ????; by rewrite lookup_empty|].
  intros i p. unfold mgr_Get. rewrite lookup_empty. split; [done|].
  intros (n & Hn & _). by rewrite lookup_empty in Hn.
Qed.

(** A session's next identifier is nobody's registered one. *)
Lemma next_id_unregistered s p c id q n :
  sessions_wf s → names s !! p = Some (Chain c id) → names s !! q = Some n →
  name_id n ≠ IncrementSessionIdentifier (name_id (Chain c id)).
Proof.
  intros Hwf Hp Hq. destruct (wf_names _ Hwf _ _ Hp) as [Hc Hid]. simpl.
  rewrite increment_concrete by done. destruct (decide (q = p)) as [->|Hne].
  - rewrite Hp in Hq. injection Hq as <-. simpl. intros Heq.
    apply (f_equal (split_on underscore)) in Heq. rewrite !split_concrete in Heq by done.
    injection Heq as Heq%print_Z_inj. by apply (int64_succ_ne id).
  - change (name_id n ≠ name_id (Chain c (int64 (id + 1)))).
    apply compatible_ids; [by eapply wf_names|split; [done|apply int64_range]|].
    pose proof (wf_compatible _ Hwf q p n _ Hne Hq Hp) as Hcomp. by destruct n.
Qed.

(** What the sessions report: their chain, or nothing for those with a fixed
    identifier. *)
Definition info_of (s : Sessions) (info : nat → option SigningSessionInfo) : Prop :=
  ∀ p n, names s !! p = Some n →
    match n with
    | Chain c _ => ∃ i, info p = Some i ∧ si_ChainId i = c
    | Fixed _ => info p = None
    end.

(** C18: However the sessions of a node are registered and change their identifiers, the
    listeners running at any later time than the stores, a request that names the current
    identifier of a session reaches exactly that session, unless the session is between
    the two steps of [incrementSessionId]: then the registry still knows it by the previous
    identifier, under which requests are delivered to it, and requests that name the new
    one are refused.  A request that names no registered identifier is refused, and the
    session reported for a chain is the session of that chain, in whatever order the map is
    iterated. *)
Theorem requests_routed s :
  star sessions_step no_sessions s →
  (∀ receive rq p, p ∉ stored s → session_Id s p = Some (rq_SessionId rq) →
     mgr_Receive receive (reg s) rq = receive p rq) ∧
  (∀ receive rq p c id, p ∈ stored s → names s !! p = Some (Chain c id) →
     session_Id s p ≠ Some (name_id (Chain c id)) ∧
     (rq_SessionId rq = name_id (Chain c id) → mgr_Receive receive (reg s) rq = receive p rq) ∧
     (session_Id s p = Some (rq_SessionId rq) →
        mgr_Receive receive (reg s) rq = Err (ESentinel ErrSessionNotFound))) ∧
  (∀ receive rq, (∀ p n, names s !! p = Some n → name_id n ≠ rq_SessionId rq) →
     mgr_Receive receive (reg s) rq = Err (ESentinel ErrSessionNotFound)) ∧
  (∀ info order chainId p, order ≡ₚ map_to_list (reg s) → info_of s info →
     GetSigningSession info order chainId = Ok p ↔ ∃ id, names s !! p = Some (Chain chainId id)).
Proof.
  intros Hs. apply sessions_reachable_wf in Hs as Hwf.
  assert (∀ receive rq p n, names s !! p = Some n → name_id n = rq_SessionId rq →
    mgr_Receive receive (reg s) rq = receive p rq) as Hfound.
  { intros receive rq p n Hp Hid. unfold mgr_Receive.
    assert (mgr_Get (reg s) (rq_SessionId rq) = Some p) as Hget by (apply wf_reg; eauto).
    unfold mgr_Get in Hget. by rewrite Hget. }
  assert (∀ receive rq, (∀ p n, names s !! p = Some n → name_id n ≠ rq_SessionId rq) →
    mgr_Receive receive (reg s) rq = Err (ESentinel ErrSessionNotFound)) as Hlost.
  { intros receive rq Hnone. unfold mgr_Receive.
    destruct (reg s !! rq_SessionId rq) as [p|] eqn:Hl; [|done].
    apply (wf_reg _ Hwf) in Hl as (n & Hp & Hid). by destruct (Hnone p n). }
  split_and!; [| |done|].
  - intros receive rq p Hst Hid. unfold session_Id in Hid. rewrite bool_decide_false in Hid by done.
    apply fmap_Some in Hid as (n & Hp & Hid). by eapply Hfound.
  - intros receive rq p c id Hst Hp. unfold session_Id. rewrite Hp, bool_decide_true by done.
    cbn [fmap option_fmap option_map]. split_and!.
    + intros [= Heq]. by apply (next_id_unregistered s p c id p (Chain c id)).
    + intros Hid. by eapply Hfound.
    + intros [= Hid]. apply Hlost. intros q n Hq. rewrite <- Hid. by eapply next_id_unregistered.
  - intros info order chainId p Hperm Hinfo. unfold GetSigningSession.
    assert (∀ e, In e order ↔ reg s !! e.1 = Some e.2) as Hin.
    { intros [i q]. rewrite <- list_elem_of_In, Hperm. apply elem_of_map_to_list. }
    destruct (List.find _ order) as [[i q]|] eqn:Hf.
    + apply List.find_some in Hf as [Hq Hc]. apply Hin, (wf_reg _ Hwf) in Hq as (n & Hq & _).
      simpl in Hq, Hc |- *. specialize (Hinfo q n Hq). destruct n as [c id|];
        [|by rewrite Hinfo in Hc]. destruct Hinfo as (inf & Hi & Hic). rewrite Hi in Hc.
      apply bool_decide_eq_true in Hc. subst chainId c. split; [intros [= <-]; by exists id|].
      intros (id' & Hp). f_equal. destruct (decide (q = p)) as [->|Hne]; [done|].
      by destruct (wf_compatible _ Hwf q p _ _ Hne Hq Hp).
    + split; [done|]. intros (id & Hp). exfalso.
      destruct (Hinfo _ _ Hp) as (inf & Hi & Hc).
      assert (reg s !! name_id (Chain chainId id) = Some p) as Hl by (apply (wf_reg _ Hwf); eauto).
      pose proof (List.find_none _ _ Hf (name_id (Chain chainId id), p) (proj2 (Hin (name_id (Chain chainId id), p)) Hl)) as Hfalse.
      simpl in Hfalse. rewrite Hi, bool_decide_true in Hfalse by done. done.
Qed.

(** ** The statuses of the peers *)

Inductive watch_step (required : PartyStatus) : ConnectionManager → ConnectionManager → Prop :=
| ws_watch c k response : k ∈ dom (cm_conns c) → watch_step required c (watchStatus required k response c)
| ws_subscribe c ch n :
    ch ∉ dom (cm_subscribers c) → ch ∉ cm_signals c → watch_step required c (cm_Subscribe ch n c).

Record cm_wf (required : PartyStatus) (c : ConnectionManager) : Prop := {
  wf_ready : ∀ k, k ∈ cm_ready c ↔ cm_conns c !! k = Some required;
  wf_signals : NoDup (cm_signals c);
  wf_fresh : ∀ ch, ch ∈ cm_signals c → ch ∉ dom (cm_subscribers c) }.

Lemma watchStatus_wf required k response c :
  k ∈ dom (cm_conns c) → cm_wf required c → cm_wf required (watchStatus required k response c).
Proof.
  intros Hk Hwf. apply elem_of_dom in Hk as [st Hst]. unfold watchStatus. rewrite Hst. simpl.
  destruct (bool_decide_reflect (st = responseStatus response)) as [|Hne]; [done|].
  set (new := responseStatus response) in *.
  destruct (bool_decide_reflect (new = required)) as [Hnew|Hnew]; split; simpl.
  - intros q. rewrite bool_decide_false by congruence.
    rewrite elem_of_union, elem_of_singleton, (wf_ready _ _ Hwf).
    destruct (decide (q = k)) as [->|Hq]; [rewrite lookup_insert_eq; naive_solver|].
    rewrite lookup_insert_ne by done. naive_solver.
  - apply NoDup_app. split_and!; [apply Hwf| |apply NoDup_fst_map_to_list].
    intros ch Hin Hsat. apply (wf_fresh _ _ Hwf ch Hin). apply list_elem_of_fmap in Hsat as ([ch' n] & -> & Hsat).
    apply elem_of_map_to_list, map_lookup_filter_Some in Hsat as [Hl _]. by apply elem_of_dom_2 in Hl.
  - intros ch Hin Hdom. apply elem_of_dom in Hdom as [n Hl]. apply lookup_difference_Some in Hl as [Hl Hno].
    apply elem_of_app in Hin as [Hin|Hin].
    + apply (wf_fresh _ _ Hwf ch Hin). by apply elem_of_dom_2 in Hl.
    + apply list_elem_of_fmap in Hin as ([ch' n'] & -> & Hsat). apply elem_of_map_to_list in Hsat.
      simpl in Hno. congruence.
  - intros q. destruct (bool_decide_reflect (st = required)) as [->|Hst'].
    + rewrite elem_of_difference, elem_of_singleton, (wf_ready _ _ Hwf).
      destruct (decide (q = k)) as [->|Hq]; [rewrite lookup_insert_eq; naive_solver|].
      rewrite lookup_insert_ne by done. naive_solver.
    + rewrite (wf_ready _ _ Hwf). destruct (decide (q = k)) as [->|Hq].
      * rewrite lookup_insert_eq, Hst. split; congruence.
      * by rewrite lookup_insert_ne by done.
  - apply Hwf.
  - apply Hwf.
Qed.

Lemma watch_step_wf required c c' : cm_wf required c → watch_step required c c' → cm_wf required c'.
Proof.
  intros Hwf Hstep. destruct Hstep as [c k response Hk|c ch n Hd Hs]; [by apply watchStatus_wf|].
  split; simpl; [apply Hwf..|]. intros ch' Hin. rewrite dom_insert, elem_of_union, elem_of_singleton.
  intros [->|Hin']; [done|]. by eapply (wf_fresh _ _ Hwf).
Qed.

(** Whatever the peers answer, the ready parties are exactly those whose last answer
    was the required status, and every subscriber is signalled at most once and dropped
    then, so that sending on its channel of capacity 1 never blocks the watcher. *)
Theorem ready_parties_exact parties required c :
  required ≠ PS_UNKNOWN → star (watch_step required) (NewConnectionManager parties) c →
  (∀ k, k ∈ GetReady c ↔ cm_conns c !! k = Some required) ∧ NoDup (cm_signals c) ∧
  (∀ ch, ch ∈ cm_signals c → cm_subscribers c !! ch = None).
Proof.
  intros Hreq Hs.
  assert (cm_wf required c) as Hwf.
  { eapply (star_invariant (watch_step required)); [apply watch_step_wf|done|].
    split; simpl; [|constructor|by intros ch Hin; apply elem_of_nil in Hin].
    intros k. split; [done|]. intros Hl. apply elem_of_list_to_map_2 in Hl.
    apply list_elem_of_fmap in Hl as (p & Heq & _). by injection Heq. }
  split_and!; [apply Hwf..|]. intros ch Hin. apply not_elem_of_dom. by eapply wf_fresh.
Qed.

(** ** Witnesses *)

Section witnesses.

Local Instance sample_x509 : X509 := {|
  Certificate := string;
  AppendCertsFromPEM := λ _, true;
  pem_Decode := Some;
  ParseCertificate := λ b, Ok (string_of_bytes b);
  MarshalPKIXPublicKey := λ c, Ok c |}.

Definition sample_peer (a : string) : Party :=
  {| CoreAddress := a; identifier := {| pid_id := a; pid_moniker := a; pid_key := 1 |} |}.

Definition sample_request : SubmitRequest :=
  {| rq_Sender := "alice"; rq_SessionId := "SIGN_1_7"; rq_Type := RT_SIGN; rq_Data := None |}.

Lemma submit_authentic_witness :
  ∃ session, mgr_Get (<["SIGN_1_7" := 3%nat]> ∅) (rq_SessionId sample_request) = Some session.
Proof.
  destruct (ConfigurePartiesCertPool
              [(sample_peer "alice", bytes_of_string "KA"); (sample_peer "bob", bytes_of_string "KB")])
    as [auth| |] eqn:E; [|vm_compute in E; discriminate..].
  destruct (submit_authentic
              [(sample_peer "alice", bytes_of_string "KA"); (sample_peer "bob", bytes_of_string "KB")]
              auth (λ _ _, Ok tt) (<["SIGN_1_7" := 3%nat]> ∅) (TLSPeer (H:=sample_x509) ["KA"]) sample_request)
    as [_ (session & Hs & _)].
  - exact E.
  - vm_compute in E. injection E as <-. vm_compute. reflexivity.
  - exists session. exact Hs.
Defined.

Definition one_session : Sessions :=
  {| reg := mgr_Add 0 (name_id (Chain "1" 6)) ∅; names := <[0%nat := Chain "1" 6]> ∅; stored := ∅ |}.
Definition storing_session : Sessions :=
  {| reg := reg one_session; names := names one_session; stored := {[0%nat]} ∪ stored one_session |}.
Definition next_session : Sessions :=
  {| reg := onIdChange (name_id (Chain "1" 6)) (IncrementSessionIdentifier (name_id (Chain "1" 6)))
              (reg storing_session);
     names := <[0%nat := Chain "1" (int64 (6 + 1))]> (names storing_session);
     stored := stored storing_session ∖ {[0%nat]} |}.

Lemma storing_session_reached : star sessions_step no_sessions storing_session.
Proof.
  eapply star_step; [apply (ss_Add no_sessions 0 (Chain "1" 6))|].
  - reflexivity.
  - split; [reflexivity|unfold in_int64, min_int64, max_int64; lia].
  - intros q n' Hq. simpl in Hq. rewrite lookup_empty in Hq. discriminate Hq.
  - eapply star_step; [apply (ss_store one_session 0 "1" 6); [reflexivity|set_solver]|apply star_refl].
Qed.

Lemma requests_routed_witness :
  let receive := λ (p : nat) (_ : SubmitRequest), if (p =? 0)%nat then Ok tt else Panic in
  mgr_Receive receive (reg storing_session) sample_request = Err (ESentinel ErrSessionNotFound) ∧
  mgr_Receive receive (reg next_session) sample_request = Ok tt.
Proof.
  intros receive. split.
  - destruct (requests_routed storing_session storing_session_reached) as (_ & Hb & _).
    destruct (Hb receive sample_request 0%nat "1" 6) as (_ & _ & Hr); [set_solver|reflexivity|].
    apply Hr. reflexivity.
  - destruct (requests_routed next_session) as [Ha _].
    + eapply star_trans; [exact storing_session_reached|].
      eapply star_step; [|apply star_refl].
      apply (ss_listener storing_session 0 "1" 6); [reflexivity|set_solver].
    + rewrite (Ha receive sample_request 0%nat); [reflexivity|set_solver|reflexivity].
Defined.

Lemma ready_parties_exact_witness :
  "bob" ∈ GetReady (watchStatus PS_SIGN "bob" (Ok PS_SIGN) (NewConnectionManager [sample_peer "bob"])).
Proof.
  apply (ready_parties_exact [sample_peer "bob"] PS_SIGN).
  - discriminate.
  - eapply star_step; [apply ws_watch|apply star_refl].
    apply elem_of_dom. exists PS_UNKNOWN. reflexivity.
  - reflexivity.
Defined.

End witnesses.
