(* ===== verification/ChainDeposits.v ===== *)
(** * Reading deposits from the EVM, Zano and TON chains

    Models [GetDepositData] of the clients in [internal/bridge/chain/evm],
    [internal/bridge/chain/zano] and [internal/bridge/chain/ton] with everything it calls
    under [src/].  What a node of the chain answers is a parameter ([EvmNode],
    [ZanoNode], [TonNode]), and so are the ABI decoder, JSON and the TON cells.

    Integers keep their width: confirmations are counted in [uint64], the nonce of an
    identifier is an [int64]. *)

From S2P Require Import Prelude Core Deposits Fetcher Withdrawal Intake.
#[local] Open Scope Z_scope.

(** Indexing a Go slice with an [int64]: out of range panics. *)
Definition slice_at {A} (l : list A) (i : Z) : res A :=
  if (0 <=? i) && (i <? Z.of_nat (length l)) then
    match l !! Z.to_nat i with Some a => Ok a | None => Panic end
  else Panic.

(** ** EVM *)

Module Evm.

(** evm/types.go *)
Inductive EventType := V1DepositedNative | V1DepositedERC20 | V2DepositedNative | V2DepositedERC20.

Definition EventNameDepositedNative : string := "DepositedNative".
Definition EventNameDepositedERC20 : string := "DepositedERC20".

Definition EventNameToEventV1 (name : string) : option EventType :=
  if bool_decide (name = EventNameDepositedNative) then Some V1DepositedNative
  else if bool_decide (name = EventNameDepositedERC20) then Some V1DepositedERC20 else None.
Definition EventNameToEventV2 (name : string) : option EventType :=
  if bool_decide (name = EventNameDepositedERC20) then Some V2DepositedERC20
  else if bool_decide (name = EventNameDepositedNative) then Some V2DepositedNative else None.
Definition EventToEventName (t : EventType) : string :=
  match t with
  | V1DepositedNative | V2DepositedNative => EventNameDepositedNative
  | V1DepositedERC20 | V2DepositedERC20 => EventNameDepositedERC20
  end.

Record Log := {
  lg_Address : string; lg_Topics : list string; lg_Data : bytes; lg_BlockNumber : Z }.
Record Receipt := { rc_Status : Z; rc_Logs : list Log; rc_BlockNumber : Z }.

(** The fields of the four event structs; version 1 has no referral id and native
    events no token. *)
Record EventBody := {
  eb_Amount : Z; eb_Token : string; eb_Receiver : string; eb_Network : string;
  eb_ReferralId : Z }.

(** go-ethereum: the identifier of an event of the version's ABI and
    [UnpackIntoInterface]; [common.HexToHash]. *)
Class EvmAbi := {
  abiV1_EventID : string → string;
  abiV2_EventID : string → string;
  abiV1_Unpack : string → bytes → option EventBody;
  abiV2_Unpack : string → bytes → option EventBody;
  HexToHash : string → string }.

(** What [eth_getTransactionByHash] answers. *)
Record rpcTx := {
  rt_Hash : string; rt_HasSignature : bool; rt_BlockNumber : option string;
  rt_From : option string;
  (** [types.Sender] *)
  rt_Sender : res string }.

Record EvmNode := {
  (** [QNotFound]: a null result *)
  en_TransactionByHash : string → query rpcTx;
  en_TransactionReceipt : string → res (option Receipt);
  en_BlockNumber : res Z }.

Record Chain := { ch_BridgeAddress : string; ch_Confirmations : Z }.

Definition ReceiptStatusSuccessful : Z := 1.

Section evm.
Context `{EvmAbi} (node : EvmNode) (chain : Chain).

Definition requiredEvents : list string := [EventNameDepositedNative; EventNameDepositedERC20].

(** The map built by [NewBridgeClient]. *)
Definition supportedEvents : gmap string (option EventType) :=
  foldl (λ m eventName,
           <[abiV2_EventID eventName := EventNameToEventV2 eventName]>
             (<[abiV1_EventID eventName := EventNameToEventV1 eventName]> m))
        ∅ requiredEvents.

(** [None] is the empty event type. *)
Definition GetDepositEventType (log : Log) : option EventType :=
  match lg_Topics log with
  | [] => None
  | topic :: _ => mjoin (supportedEvents !! topic)
  end.

Inductive TxLookup := TxErr (e : error) | TxNotFound | TxFound (tx : rpcTx) (isPending : bool).

Definition getTxByHash (hash : string) : TxLookup :=
  match en_TransactionByHash node hash with
  | QNotFound => TxNotFound
  | QOk raw =>
      if negb (rt_HasSignature raw)
      then TxErr (ENew "server returned transaction without signature")
      else TxFound raw (bool_decide (rt_BlockNumber raw = None))
  | QFailed msg => TxErr (ENew msg)
  end.

Definition GetTransactionReceipt (txHash : string) : res (Receipt * string) :=
  match getTxByHash txHash with
  | TxErr e => Err (EWrap e "failed to get transaction by hash")
  | TxNotFound => Err (ESentinel ErrTxNotFound)
  | TxFound tx pending =>
      if pending then Err (ESentinel ErrTxPending)
      else
        from ← match rt_From tx with
               | Some from => Ok from
               | None => wrap (rt_Sender tx) "failed to get transaction sender"
               end;
        receipt ← wrap (en_TransactionReceipt node (rt_Hash tx)) "failed to get tx receipt";
        match receipt with
        | None => Err (ENew "receipt is nil")
        | Some r => Ok (r, from)
        end
  end.

Definition validateConfirmations (receipt : Receipt) : res unit :=
  curHeight ← wrap (en_BlockNumber node) "failed to get current block number";
  if curHeight <? uint64 (uint64 (uint64 (rc_BlockNumber receipt) + ch_Confirmations chain) - 1)
  then Err (ESentinel ErrTxNotConfirmed) else Ok tt.

Definition unpack (t : EventType) (data : bytes) : option EventBody :=
  match t with
  | V1DepositedNative | V1DepositedERC20 => abiV1_Unpack (EventToEventName t) data
  | V2DepositedNative | V2DepositedERC20 => abiV2_Unpack (EventToEventName t) data
  end.

Definition depositOf (id : DepositIdentifier) (from : string) (log : Log) (t : EventType)
    (b : EventBody) : DepositData :=
  {| dd_ident := id; dd_Block := int64 (lg_BlockNumber log); dd_SourceAddress := from;
     dd_DepositAmount := eb_Amount b;
     dd_TokenAddress := match t with
       | V1DepositedNative | V2DepositedNative => DefaultNativeTokenAddress
       | V1DepositedERC20 | V2DepositedERC20 => to_lower (eb_Token b) end;
     dd_ReferralId := match t with
       | V1DepositedNative | V1DepositedERC20 => 0
       | V2DepositedNative | V2DepositedERC20 => eb_ReferralId b end;
     dd_DestinationAddress := eb_Receiver b; dd_DestinationChainId := eb_Network b |}.

Definition GetDepositData (id : DepositIdentifier) : res DepositData :=
  r ← wrap (GetTransactionReceipt (HexToHash (TxHash id))) "failed to get transaction receipt";
  let '(txReceipt, from) := r in
  if negb (rc_Status txReceipt =? ReceiptStatusSuccessful) then Err (ESentinel ErrTxFailed)
  else if Z.of_nat (length (rc_Logs txReceipt)) <? int64 (TxNonce id + 1)
  then Err (ESentinel ErrDepositNotFound)
  else
    log ← slice_at (rc_Logs txReceipt) (TxNonce id);
    if negb (bool_decide (lg_Address log = ch_BridgeAddress chain))
    then Err (ESentinel ErrUnsupportedContract)
    else
      match GetDepositEventType log with
      | None => Err (ESentinel ErrDepositNotFound)
      | Some eventType =>
          _ ← wrap (validateConfirmations txReceipt) "failed to validate confirmations";
          match unpack eventType (lg_Data log) with
          | None => Err (ESentinel ErrFailedUnpackLogs)
          | Some eventBody => Ok (depositOf id from log eventType eventBody)
          end
      end.

End evm.
End Evm.

(** ** Zano *)

Module Zano.

Record DepositMemo := { zm_Address : string; zm_ChainId : string; zm_ReferralId : Z }.

Definition memo_Validate (m : DepositMemo) : res unit :=
  if bool_decide (zm_Address m = "") then Err (ENew "address is empty")
  else if bool_decide (zm_ChainId m = "") then Err (ENew "chain id is empty")
  else Ok tt.

Definition OperationTypeAssetBurn : Z := 4.

(** pkg/zano/types *)
Record AssetDescriptorOperation := {
  ado_OperationType : Z; ado_OptAmount : option Z; ado_OptAssetId : option string }.

Definition IsAssetBurnOperation (o : AssetDescriptorOperation) : bool :=
  ado_OperationType o =? OperationTypeAssetBurn.

Definition IsValidAssetBurn (o : option AssetDescriptorOperation) : bool :=
  match o with
  | None => false
  | Some o => IsAssetBurnOperation o && bool_decide (is_Some (ado_OptAmount o)) &&
              bool_decide (is_Some (ado_OptAssetId o))
  end.

Record Transaction := {
  zt_Ado : option AssetDescriptorOperation; zt_Height : Z; zt_RemoteAddresses : list string;
  (** the bodies of the service entries *)
  zt_ServiceEntries : list string; zt_TxHash : string }.

Record GetTxResponse := {
  gt_In : list Transaction; gt_Out : list Transaction; gt_Pool : list Transaction }.

Record ZanoNode := {
  zn_GetTransactions : string → res GetTxResponse;
  zn_CurrentHeight : res Z }.

(** [json.Unmarshal] into a [DepositMemo] *)
Class ZanoJson := json_memo : bytes → option DepositMemo.

Section zano.
Context `{ZanoJson} (node : ZanoNode) (confirmations : Z).

(** The transaction, if any, and whether it is in the pool. *)
Definition GetTransaction (txHash : string) (searchIn searchOut searchPool : bool)
    : res (option Transaction * bool) :=
  let txHash := trim_prefix txHash "0x" in
  resp ← wrap (zn_GetTransactions node txHash) "failed to get transaction";
  match searchIn, gt_In resp with
  | true, tx :: _ => Ok (Some tx, false)
  | _, _ =>
      match searchOut, gt_Out resp with
      | true, tx :: _ => Ok (Some tx, false)
      | _, _ =>
          if searchPool then
            match List.find (λ tx, bool_decide (zt_TxHash tx = txHash)) (gt_Pool resp) with
            | Some tx => Ok (Some tx, true)
            | None => Ok (None, false)
            end
          else Ok (None, false)
      end
  end.

Definition validateConfirmations (txHeight : Z) : res unit :=
  if txHeight =? 0 then Err (ESentinel ErrTxPending)
  else
    currentHeight ← wrap (zn_CurrentHeight node) "failed to get current height";
    if uint64 (currentHeight - txHeight) <? confirmations
    then Err (ESentinel ErrTxNotConfirmed) else Ok tt.

Definition parseDepositMemo (body : string) : res DepositMemo :=
  raw ← of_option (hex_DecodeString body) "failed to decode hex body";
  depositMemo ← of_option (json_memo raw) "failed to unmarshal json data";
  match memo_Validate depositMemo with
  | Ok _ => Ok depositMemo
  | _ => Err (EWrap (ESentinel ErrInvalidTransactionMemo) "invalid memo")
  end.

Definition GetDepositData (id : DepositIdentifier) : res DepositData :=
  r ← wrap (GetTransaction (TxHash id) true false false) "failed to get transaction";
  match fst r with
  | None => Err (ESentinel ErrDepositNotFound)
  | Some transaction =>
      _ ← wrap (validateConfirmations (zt_Height transaction)) "failed to validate confirmations";
      if negb (IsValidAssetBurn (zt_Ado transaction)) then Err (ESentinel ErrDepositNotFound)
      else if Z.of_nat (length (zt_ServiceEntries transaction)) <? int64 (TxNonce id + 1)
      then Err (ESentinel ErrDepositNotFound)
      else
        entry ← slice_at (zt_ServiceEntries transaction) (TxNonce id);
        depositMemo ← wrap (parseDepositMemo entry) "failed to parse destination data";
        match zt_Ado transaction with
        | Some {| ado_OptAmount := Some amount; ado_OptAssetId := Some assetId |} =>
            Ok {| dd_ident := id; dd_Block := int64 (zt_Height transaction);
                  dd_SourceAddress := match zt_RemoteAddresses transaction with
                                      | [] => "" | a :: _ => a end;
                  dd_DepositAmount := amount; dd_TokenAddress := assetId;
                  dd_ReferralId := zm_ReferralId depositMemo;
                  dd_DestinationAddress := zm_Address depositMemo;
                  dd_DestinationChainId := zm_ChainId depositMemo |}
        | _ => Panic
        end
  end.

End zano.
End Zano.

(** ** TON *)

Module Ton.

Definition depositNativeOpCode : string := "0xe858a993".
Definition depositJettonOpCode : string := "0x02ddcbe3".
Definition opCodeBitSize : Z := 32.
Definition amountBitSize : Z := 257.
Definition receiverBitSize : Z := 1016.
Definition referralBitSize : Z := 16.
Definition receiverCellId : Z := 0.
Definition networkCellId : Z := 1.

(** tonutils-go: cells, and slices that are read from the front; [unicode.IsPrint] and
    the decoding of a string into runes. *)
Class TonCells := {
  Cell : Type;
  Slice : Type;
  TonAddress : Type;
  BeginParse : Cell → Slice;
  PeekRef : Cell → Z → res Cell;
  LoadBigUInt : Z → Slice → res (Z * Slice);
  LoadInt : Z → Slice → res (Z * Slice);
  LoadUInt : Z → Slice → res (Z * Slice);
  LoadBoolBit : Slice → res (bool * Slice);
  LoadAddr : Slice → res (TonAddress * Slice);
  LoadSlice : Z → Slice → res (bytes * Slice);
  LoadStringSnake : Slice → res (string * Slice);
  (** [addr.Testnet(isTestnet).String()] *)
  addr_String : bool → TonAddress → string;
  runes : string → list Z;
  IsPrint : Z → bool;
  rune_string : Z → string }.

(** Documented types: [LoadInt] returns an [int64], [LoadUInt] of 16 bits a value of
    16 bits. *)
Class TonCellsSpec `{TonCells} : Prop := {
  LoadInt_range n s z s' : LoadInt n s = Ok (z, s') → in_int64 z }.

Section ton.
Context `{TonCells}.

Inductive OutMsg := ExternalOut (body : Cell) | OtherMsg.
Record Tx := { tt_OutMsgCount : Z; tt_Out : res (list OutMsg); tt_LT : Z }.

Definition parseMsgOpCode (msg : Slice) : res string :=
  op ← wrap (LoadBigUInt opCodeBitSize msg) "failed to load message opcode";
  Ok ("0x" +:+ hex_EncodeToString (big_Bytes (fst op)))%string.

Definition cleanPrintable (s : string) : string :=
  foldr (λ r acc, (rune_string r +:+ acc)%string) "" (filter (λ r, IsPrint r = true) (runes s)).

Record depositContent := {
  dc_Sender : TonAddress; dc_Amount : Z; dc_Receiver : string; dc_ChainId : string;
  (** [IsWrapped] and [TokenAddress] of a jetton deposit *)
  dc_Token : option (bool * TonAddress); dc_ReferralId : Z }.

(** The receiver and the network, in the two references of the body, with the texts of the
    errors of either body. *)
Definition parseReceiver (refErr sliceErr : string) (body : Cell) : res string :=
  receiverCell ← wrap (PeekRef body receiverCellId) refErr;
  r ← wrap (LoadSlice receiverBitSize (BeginParse receiverCell)) sliceErr;
  Ok (cleanPrintable (string_of_bytes (fst r))).

Definition parseNetwork (refErr loadErr : string) (body : Cell) : res string :=
  networkCell ← wrap (PeekRef body networkCellId) refErr;
  r ← wrap (LoadStringSnake (BeginParse networkCell)) loadErr;
  Ok (cleanPrintable (fst r)).

Definition parseDepositJettonBody (body : Cell) : res depositContent :=
  r ← wrap (LoadInt opCodeBitSize (BeginParse body)) "failed to skip opCode bytes";
  sender ← wrap (LoadAddr (snd r)) "error loading sender";
  amount ← wrap (LoadInt amountBitSize (snd sender)) "error loading amount";
  isWrapped ← wrap (LoadBoolBit (snd amount)) "error loading wrapped";
  tokenAddr ← wrap (LoadAddr (snd isWrapped)) "error loading amount";
  referralId ← wrap (LoadUInt referralBitSize (snd tokenAddr)) "error parsing referralId";
  receiver ← parseReceiver "error getting address" "error parsing receiver" body;
  network ← parseNetwork "error getting network" "error loading network" body;
  Ok {| dc_Sender := fst sender; dc_Amount := fst amount; dc_Receiver := receiver;
        dc_ChainId := network; dc_Token := Some (fst isWrapped, fst tokenAddr);
        dc_ReferralId := fst referralId mod 2 ^ 16 |}.

Definition parseDepositNativeBody (body : Cell) : res depositContent :=
  r ← wrap (LoadInt opCodeBitSize (BeginParse body)) "failed to skip opCode bytes";
  sender ← wrap (LoadAddr (snd r)) "error parsing sender address";
  amount ← wrap (LoadInt amountBitSize (snd sender)) "error parsing amount";
  referralId ← wrap (LoadUInt referralBitSize (snd amount)) "error parsing referralId";
  receiver ← parseReceiver "error getting receiver ref" "error parsing receiver address" body;
  network ← parseNetwork "error getting network ref" "error parsing network" body;
  Ok {| dc_Sender := fst sender; dc_Amount := fst amount; dc_Receiver := receiver;
        dc_ChainId := network; dc_Token := None; dc_ReferralId := fst referralId mod 2 ^ 16 |}.

(** [formNativeDepositData] and [formJettonDepositData]; the identifier is set by the
    caller. *)
Definition formDepositData (isTestnet : bool) (content : depositContent) (tx : Tx) : DepositData :=
  {| dd_ident := {| TxHash := ""; TxNonce := 0; ChainId := "" |};
     dd_Block := int64 (tt_LT tx);
     dd_SourceAddress := addr_String isTestnet (dc_Sender content);
     dd_DepositAmount := dc_Amount content;
     dd_TokenAddress := match dc_Token content with
                        | None => DefaultNativeTokenAddress
                        | Some (_, a) => addr_String isTestnet a end;
     dd_ReferralId := dc_ReferralId content;
     dd_DestinationAddress := dc_Receiver content;
     dd_DestinationChainId := dc_ChainId content |}.

(** [errors.Wrap(err, bridgeTypes.ErrDepositNotFound.Error())]: the text only. *)
Definition body_error {A} (m : res A) : res A := wrap m "deposit not found".

Fixpoint parseMsgs (isTestnet : bool) (tx : Tx) (msgs : list OutMsg) : res DepositData :=
  match msgs with
  | [] => Err (ESentinel ErrDepositNotFound)
  | OtherMsg :: rest => parseMsgs isTestnet tx rest
  | ExternalOut body :: rest =>
      opCode ← wrap (parseMsgOpCode (BeginParse body)) "error parsing external out msg";
      if bool_decide (opCode = depositNativeOpCode) then
        content ← body_error (parseDepositNativeBody body);
        Ok (formDepositData isTestnet content tx)
      else if bool_decide (opCode = depositJettonOpCode) then
        content ← body_error (parseDepositJettonBody body);
        Ok (formDepositData isTestnet content tx)
      else parseMsgs isTestnet tx rest
  end.

Definition parseDepositData (isTestnet : bool) (tx : Tx) : res DepositData :=
  if tt_OutMsgCount tx =? 0 then Err (ESentinel ErrDepositNotFound)
  else
    msgs ← wrap (tt_Out tx) "error getting IO out msgs";
    parseMsgs isTestnet tx msgs.

(** [ListTransactions] for the bridge contract, one transaction up to the logical time
    and hash; [hexutil.MustDecode] panics on text that is not 0x-prefixed hex. *)
Record TonNode := { tn_ListTransactions : Z → bytes → res (list Tx) }.

Definition MustDecode (s : string) : res bytes :=
  match s with
  | String "0" (String "x" rest) | String "0" (String "X" rest) =>
      match hex_DecodeString rest with Some b => Ok b | None => Panic end
  | _ => Panic
  end.

Definition getTxByLtHash (node : TonNode) (lt : Z) (txHash : string) : res Tx :=
  hash ← MustDecode txHash;
  txs ← wrap (tn_ListTransactions node lt hash) "error getting deposit transaction";
  match txs with [] => Err (ESentinel ErrDepositNotFound) | tx :: _ => Ok tx end.

Definition with_identifier (id : DepositIdentifier) (d : DepositData) : DepositData :=
  {| dd_ident := id; dd_Block := dd_Block d; dd_SourceAddress := dd_SourceAddress d;
     dd_DepositAmount := dd_DepositAmount d; dd_TokenAddress := dd_TokenAddress d;
     dd_ReferralId := dd_ReferralId d; dd_DestinationAddress := dd_DestinationAddress d;
     dd_DestinationChainId := dd_DestinationChainId d |}.

Definition GetDepositData (node : TonNode) (isTestnet : bool) (id : DepositIdentifier)
    : res DepositData :=
  tx ← wrap (getTxByLtHash node (uint64 (TxNonce id)) (TxHash id)) "failed to get tx";
  data ← wrap (parseDepositData isTestnet tx) "failed to parse deposit data";
  Ok (with_identifier id data).

End ton.
End Ton.

(** ** Lemmas *)

Lemma slice_at_Ok {A} (l : list A) i a :
  slice_at l i = Ok a ↔ 0 ≤ i < Z.of_nat (length l) ∧ l !! Z.to_nat i = Some a.
Proof.
  unfold slice_at.
  destruct (Z.leb_spec 0 i); simpl; [|split; [done|lia]].
  destruct (Z.ltb_spec i (Z.of_nat (length l))); simpl; [|split; [done|lia]].
  destruct (l !! Z.to_nat i); [|naive_solver]. split; [intros [= ->]; done|naive_solver].
Qed.

Lemma slice_at_negative {A} (l : list A) i : i < 0 → slice_at l i = Panic.
Proof. intros Hi. unfold slice_at. by destruct (Z.leb_spec 0 i); [lia|]. Qed.

(** ** Theorems: EVM *)

Section evm_theorems.
Import Evm.
Context `{EvmAbi}.

(** The four events have different identifiers (they are hashes of different
    signatures). *)
Definition distinct_events : Prop :=
  NoDup [abiV1_EventID EventNameDepositedNative; abiV2_EventID EventNameDepositedNative;
         abiV1_EventID EventNameDepositedERC20; abiV2_EventID EventNameDepositedERC20].

(** The identifier of an event type. *)
Definition event_id (t : EventType) : string :=
  match t with
  | V1DepositedNative => abiV1_EventID EventNameDepositedNative
  | V1DepositedERC20 => abiV1_EventID EventNameDepositedERC20
  | V2DepositedNative => abiV2_EventID EventNameDepositedNative
  | V2DepositedERC20 => abiV2_EventID EventNameDepositedERC20
  end.

Lemma event_type_id topic t :
  distinct_events → mjoin (supportedEvents !! topic) = Some t → topic = event_id t.
Proof.
  intros Hd. unfold distinct_events in Hd. rewrite !NoDup_cons, !not_elem_of_cons in Hd.
  unfold supportedEvents, requiredEvents. cbn [foldl].
  rewrite !lookup_insert.
  repeat (case_decide; [simplify_eq; intros [= <-]; done|]). by rewrite lookup_empty.
Qed.

(** The client recognises exactly the four deposit events by the first topic. *)
Lemma event_type_of_id t :
  distinct_events → mjoin (supportedEvents !! event_id t) = Some t.
Proof.
  intros Hd. unfold distinct_events in Hd. rewrite !NoDup_cons, !not_elem_of_cons in Hd.
  unfold supportedEvents, requiredEvents. cbn [foldl]. rewrite !lookup_insert.
  destruct t; simpl; repeat case_decide; naive_solver congruence.
Qed.

(** C34: EVM deposit data come from the log with the identifier's index in the receipt of
    a successful transaction: a log of the bridge contract whose first topic is one of
    the four deposit events, decoded with that event's ABI, in a block with the
    configured number of confirmations. *)
Theorem evm_GetDepositData_sound node chain id d :
  distinct_events → 1 ≤ ch_Confirmations chain →
  GetDepositData node chain id = Ok d →
  ∃ receipt from log t body cur,
    GetTransactionReceipt node (HexToHash (TxHash id)) = Ok (receipt, from) ∧
    rc_Status receipt = ReceiptStatusSuccessful ∧
    0 ≤ TxNonce id ∧ rc_Logs receipt !! Z.to_nat (TxNonce id) = Some log ∧
    lg_Address log = ch_BridgeAddress chain ∧ head (lg_Topics log) = Some (event_id t) ∧
    en_BlockNumber node = Ok cur ∧
    (in_uint64 (rc_BlockNumber receipt) → in_uint64 (rc_BlockNumber receipt + ch_Confirmations chain) →
     ch_Confirmations chain ≤ cur - rc_BlockNumber receipt + 1) ∧
    unpack t (lg_Data log) = Some body ∧ d = depositOf id from log t body.
Proof.
  intros Hdist Hconf Hok. unfold GetDepositData in Hok.
  apply bind_Ok in Hok as ([receipt from] & Hr & Hok). apply wrap_Ok in Hr.
  destruct (Z.eqb_spec (rc_Status receipt) ReceiptStatusSuccessful) as [Hst|]; [|done].
  cbn [negb] in Hok. destruct (Z.of_nat _ <? _); [done|].
  apply bind_Ok in Hok as (log & Hlog & Hok). apply slice_at_Ok in Hlog as [[Hn _] Hlog].
  destruct (bool_decide_reflect (lg_Address log = ch_BridgeAddress chain)); [|done].
  cbn [negb] in Hok. destruct (GetDepositEventType log) as [t|] eqn:Ht; [|done].
  apply bind_Ok in Hok as (u & Hv & Hok). apply wrap_Ok in Hv.
  destruct (unpack t (lg_Data log)) as [body|] eqn:Hb; [|done]. apply (inj Ok) in Hok as <-.
  unfold validateConfirmations in Hv. apply bind_Ok in Hv as (cur & Hcur & Hv).
  apply wrap_Ok in Hcur. destruct (Z.ltb_spec cur (uint64 (uint64 (uint64 (rc_BlockNumber receipt) + ch_Confirmations chain) - 1)))
    as [|Hle]; [done|].
  exists receipt, from, log, t, body, cur. split_and!; try done.
  - unfold GetDepositEventType in Ht. destruct (lg_Topics log) as [|topic topics]; [done|].
    simpl. f_equal. by apply event_type_id.
  - intros Hb1 Hb2. rewrite (uint64_id (rc_BlockNumber receipt)), (uint64_id (_ + _)) in Hle by done.
    unfold in_uint64 in *. rewrite uint64_id in Hle by (unfold in_uint64; lia). lia.
Qed.

End evm_theorems.

(** ** Theorems: Zano *)

Section zano_theorems.
Import Zano.
Context `{ZanoJson}.

(** Zano deposit data come from an incoming transaction that burns an amount of an
    asset, and from the service entry with the identifier's index, which holds a memo
    with a destination; a height not above the current one has the configured number of
    confirmations. *)
Theorem zano_GetDepositData_sound node confirmations id d :
  GetDepositData node confirmations id = Ok d →
  ∃ resp tx rest ado entry raw memo cur,
    zn_GetTransactions node (trim_prefix (TxHash id) "0x") = Ok resp ∧ gt_In resp = tx :: rest ∧
    zt_Ado tx = Some ado ∧ ado_OperationType ado = OperationTypeAssetBurn ∧
    ado_OptAmount ado = Some (dd_DepositAmount d) ∧ ado_OptAssetId ado = Some (dd_TokenAddress d) ∧
    0 ≤ TxNonce id ∧ zt_ServiceEntries tx !! Z.to_nat (TxNonce id) = Some entry ∧
    hex_DecodeString entry = Some raw ∧ json_memo raw = Some memo ∧
    dd_DestinationAddress d = zm_Address memo ∧ zm_Address memo ≠ "" ∧
    dd_DestinationChainId d = zm_ChainId memo ∧ zm_ChainId memo ≠ "" ∧
    dd_ReferralId d = zm_ReferralId memo ∧
    zn_CurrentHeight node = Ok cur ∧ zt_Height tx ≠ 0 ∧
    (zt_Height tx ≤ cur → in_uint64 cur → 0 ≤ zt_Height tx → confirmations ≤ cur - zt_Height tx).
Proof.
  intros Hok. unfold GetDepositData in Hok.
  apply bind_Ok in Hok as (r & Hr & Hok). apply wrap_Ok in Hr.
  unfold GetTransaction in Hr. apply bind_Ok in Hr as (resp & Hresp & Hr). apply wrap_Ok in Hresp.
  destruct (gt_In resp) as [|tx rest] eqn:Hin; simpl in Hr; apply (inj Ok) in Hr as <-; [done|].
  cbn [fst] in Hok. apply bind_Ok in Hok as (u & Hv & Hok). apply wrap_Ok in Hv.
  destruct (zt_Ado tx) as [[op oa oi]|] eqn:Hado; [|done].
  destruct (IsValidAssetBurn (Some {| ado_OperationType := op; ado_OptAmount := oa; ado_OptAssetId := oi |}))
    eqn:Hburn; [|done]. cbn [negb] in Hok.
  destruct (Z.of_nat _ <? _); [done|].
  apply bind_Ok in Hok as (entry & Hentry & Hok). apply slice_at_Ok in Hentry as [[Hn _] Hentry].
  apply bind_Ok in Hok as (memo & Hmemo & Hok). apply wrap_Ok in Hmemo.
  destruct oa as [amount|]; [|done]. destruct oi as [asset|]; [|done]. apply (inj Ok) in Hok as <-.
  unfold parseDepositMemo in Hmemo. apply bind_Ok in Hmemo as (raw & Hraw & Hmemo).
  apply of_option_Ok in Hraw. apply bind_Ok in Hmemo as (m & Hm & Hmemo). apply of_option_Ok in Hm.
  destruct (memo_Validate m) as [[]| |] eqn:Hval; [|done..]. apply (inj Ok) in Hmemo as ->.
  unfold memo_Validate in Hval. destruct (bool_decide_reflect (zm_Address memo = "")); [done|].
  destruct (bool_decide_reflect (zm_ChainId memo = "")); [done|].
  unfold validateConfirmations in Hv. destruct (Z.eqb_spec (zt_Height tx) 0); [done|].
  apply bind_Ok in Hv as (cur & Hcur & Hv). apply wrap_Ok in Hcur.
  destruct (Z.ltb_spec (uint64 (cur - zt_Height tx)) confirmations) as [|Hle]; [done|].
  unfold IsValidAssetBurn in Hburn. rewrite !andb_true_iff in Hburn. destruct Hburn as [[Hop _] _].
  eexists resp, tx, rest, _, entry, raw, memo, cur. split_and!; try done.
  - by apply Z.eqb_eq in Hop.
  - intros H1 H2 H3. unfold in_uint64 in H2. by rewrite uint64_id in Hle by (unfold in_uint64; lia).
Qed.

(** The confirmations of a Zano transaction are a difference of unsigned numbers: when
    the daemon's height is below that of the transaction, as after a reorganisation or
    with a lagging daemon, the difference wraps around and the transaction counts as
    confirmed. *)
Theorem zano_confirmations_underflow node confirmations txHeight cur :
  zn_CurrentHeight node = Ok cur → 0 ≤ cur < txHeight → txHeight ≤ max_uint64 →
  confirmations ≤ 2 ^ 64 - (txHeight - cur) →
  validateConfirmations node confirmations txHeight = Ok tt.
Proof.
  intros Hcur Hlt Hmax Hconf. unfold validateConfirmations.
  destruct (Z.eqb_spec txHeight 0); [lia|]. rewrite Hcur. simpl.
  assert (uint64 (cur - txHeight) = 2 ^ 64 - (txHeight - cur)) as ->.
  { unfold uint64. rewrite <- (Z.mod_unique_pos (cur - txHeight) (2 ^ 64) (-1) (2 ^ 64 - (txHeight - cur)));
      [done| |lia]. unfold max_uint64 in Hmax. lia. }
  destruct (Z.ltb_spec (2 ^ 64 - (txHeight - cur)) confirmations); [lia|done].
Qed.

(** One burn on Zano, several deposits.  The amount and the asset are those of the
    transaction, and the nonce selects one of its memos: every further memo of a credited
    transaction is a deposit of the whole amount of its own under another identifier.
    Only the API insists on the nonce 0. *)
Theorem zano_memo_credits_again node confirmations i1 i2 d1 entry memo :
  GetDepositData node confirmations i1 = Ok d1 →
  TxHash i2 = TxHash i1 → 0 ≤ TxNonce i2 < max_int64 →
  (∀ resp tx rest, zn_GetTransactions node (trim_prefix (TxHash i1) "0x") = Ok resp →
     gt_In resp = tx :: rest → zt_ServiceEntries tx !! Z.to_nat (TxNonce i2) = Some entry) →
  parseDepositMemo entry = Ok memo →
  ∃ d2, GetDepositData node confirmations i2 = Ok d2 ∧ dd_ident d2 = i2 ∧
    dd_DepositAmount d2 = dd_DepositAmount d1 ∧ dd_TokenAddress d2 = dd_TokenAddress d1 ∧
    dd_DestinationAddress d2 = zm_Address memo ∧ dd_DestinationChainId d2 = zm_ChainId memo.
Proof.
  intros Hok Hhash Hn Hentry Hmemo. unfold GetDepositData in Hok |- *. rewrite Hhash.
  unfold GetTransaction in Hok |- *. cbv zeta in Hok |- *.
  destruct (zn_GetTransactions node (trim_prefix (TxHash i1) "0x")) as [resp| |]; [|done..].
  cbn [wrap mbind res_bind] in Hok |- *.
  destruct (gt_In resp) as [|tx rest] eqn:Hin; [done|]. cbn [wrap mbind res_bind fst] in Hok |- *.
  specialize (Hentry resp tx rest eq_refl Hin).
  apply bind_Ok in Hok as (u & Hu & Hok). rewrite Hu. cbn [mbind res_bind].
  destruct (IsValidAssetBurn (zt_Ado tx)); [|done]. cbn [negb] in Hok |- *.
  pose proof (lookup_lt_Some _ _ _ Hentry) as Hlt. unfold max_int64 in Hn.
  rewrite (int64_id (TxNonce i2 + 1)) by (unfold in_int64, min_int64, max_int64; lia).
  destruct (Z.ltb_spec (Z.of_nat (length (zt_ServiceEntries tx))) (TxNonce i2 + 1)); [lia|].
  rewrite (proj2 (slice_at_Ok _ (TxNonce i2) entry)) by (split; [lia|done]). cbn [mbind res_bind].
  rewrite Hmemo. cbn [wrap mbind res_bind].
  destruct (_ <? _); [done|]. apply bind_Ok in Hok as (e1 & _ & Hok). apply bind_Ok in Hok as (m1 & _ & Hok).
  destruct (zt_Ado tx) as [[op [amount|] [asset|]]|]; try done.
  apply (inj Ok) in Hok as <-. eexists. split; [done|]. done.
Qed.

End zano_theorems.

(** ** Theorems: TON *)

Section ton_theorems.
Import Ton.
Context `{TonCells, !TonCellsSpec}.

(** The content of the first deposit message. *)
Lemma parseMsgs_Ok isTestnet tx msgs d :
  parseMsgs isTestnet tx msgs = Ok d →
  ∃ pre body rest content, msgs = pre ++ ExternalOut body :: rest ∧
    ((parseMsgOpCode (BeginParse body) = Ok depositNativeOpCode ∧
      parseDepositNativeBody body = Ok content) ∨
     (parseMsgOpCode (BeginParse body) = Ok depositJettonOpCode ∧
      parseDepositJettonBody body = Ok content)) ∧
    d = formDepositData isTestnet content tx.
Proof.
  induction msgs as [|[body|] msgs IH]; intros Hok; simpl in Hok; [done| |].
  - apply bind_Ok in Hok as (op & Hop & Hok). apply wrap_Ok in Hop.
    destruct (bool_decide_reflect (op = depositNativeOpCode)) as [->|].
    { apply bind_Ok in Hok as (c & Hc & Hok). apply wrap_Ok in Hc. apply (inj Ok) in Hok as <-.
      exists [], body, msgs, c. eauto. }
    destruct (bool_decide_reflect (op = depositJettonOpCode)) as [->|].
    { apply bind_Ok in Hok as (c & Hc & Hok). apply wrap_Ok in Hc. apply (inj Ok) in Hok as <-.
      exists [], body, msgs, c. eauto 6. }
    destruct (IH Hok) as (pre & b & rest & c & -> & Hc). by exists (ExternalOut body :: pre), b, rest, c.
  - destruct (IH Hok) as (pre & b & rest & c & -> & Hc). by exists (OtherMsg :: pre), b, rest, c.
Qed.

Lemma native_amount body c : parseDepositNativeBody body = Ok c → in_int64 (dc_Amount c) ∧ dc_Token c = None.
Proof.
  unfold parseDepositNativeBody. intros Hok. apply bind_Ok in Hok as (? & _ & Hok).
  apply bind_Ok in Hok as (? & _ & Hok). apply bind_Ok in Hok as ([a s] & Ha & Hok). apply wrap_Ok in Ha.
  do 3 (apply bind_Ok in Hok as (? & _ & Hok)). apply (inj Ok) in Hok as <-. simpl.
  split; [by eapply LoadInt_range|done].
Qed.

Lemma jetton_amount body c : parseDepositJettonBody body = Ok c → in_int64 (dc_Amount c) ∧ is_Some (dc_Token c).
Proof.
  unfold parseDepositJettonBody. intros Hok. apply bind_Ok in Hok as (? & _ & Hok).
  apply bind_Ok in Hok as (? & _ & Hok). apply bind_Ok in Hok as ([a s] & Ha & Hok). apply wrap_Ok in Ha.
  do 5 (apply bind_Ok in Hok as (? & _ & Hok)). apply (inj Ok) in Hok as <-. simpl.
  split; [by eapply LoadInt_range|by eexists].
Qed.

(** TON deposit data come from the first deposit message that the bridge contract's
    transaction at the given logical time sent out; a native deposit has the native token
    address; and whatever the 257 bits of the message say, the amount is a 64-bit
    number. *)
Theorem ton_GetDepositData_sound node isTestnet id d :
  GetDepositData node isTestnet id = Ok d →
  ∃ hash tx txs msgs pre body rest content,
    MustDecode (TxHash id) = Ok hash ∧
    tn_ListTransactions node (uint64 (TxNonce id)) hash = Ok (tx :: txs) ∧ tt_Out tx = Ok msgs ∧
    msgs = pre ++ ExternalOut body :: rest ∧
    (parseDepositNativeBody body = Ok content ∧ dd_TokenAddress d = DefaultNativeTokenAddress ∨
     parseDepositJettonBody body = Ok content ∧
       ∃ w token, dc_Token content = Some (w, token) ∧ dd_TokenAddress d = addr_String isTestnet token) ∧
    dd_ident d = id ∧ dd_DepositAmount d = dc_Amount content ∧ in_int64 (dd_DepositAmount d) ∧
    dd_DestinationAddress d = dc_Receiver content ∧ dd_DestinationChainId d = dc_ChainId content.
Proof.
  unfold GetDepositData, getTxByLtHash, parseDepositData. intros Hok.
  apply bind_Ok in Hok as (tx & Htx & Hok). apply wrap_Ok in Htx.
  apply bind_Ok in Htx as (hash & Hhash & Htx). apply bind_Ok in Htx as (txs & Htxs & Htx).
  apply wrap_Ok in Htxs. destruct txs as [|tx' txs]; [done|]. apply (inj Ok) in Htx as ->.
  apply bind_Ok in Hok as (data & Hdata & Hok). apply wrap_Ok in Hdata. apply (inj Ok) in Hok as <-.
  destruct (tt_OutMsgCount tx =? 0); [done|].
  apply bind_Ok in Hdata as (msgs & Hmsgs & Hdata). apply wrap_Ok in Hmsgs.
  apply parseMsgs_Ok in Hdata as (pre & body & rest & c & Heq & Hc & ->).
  exists hash, tx, txs, msgs, pre, body, rest, c. simpl.
  assert (in_int64 (dc_Amount c)) as Ham.
  { destruct Hc as [[_ Hc]|[_ Hc]]; [apply (native_amount body)|apply (jetton_amount body)]; done. }
  split_and!; try done. destruct Hc as [[_ Hc]|[_ Hc]].
  - left. split; [done|]. by rewrite (proj2 (native_amount _ _ Hc)).
  - right. split; [done|]. destruct (jetton_amount _ _ Hc) as [_ [[w token] Ht]].
    exists w, token. by rewrite Ht.
Qed.

End ton_theorems.

(** ** Witnesses *)

Section witnesses.

Definition sample_id : DepositIdentifier := {| TxHash := "0xab"; TxNonce := 1; ChainId := "1" |}.

Local Instance sample_abi : Evm.EvmAbi := {|
  Evm.abiV1_EventID := λ n, ("1" +:+ n)%string; Evm.abiV2_EventID := λ n, ("2" +:+ n)%string;
  Evm.abiV1_Unpack := λ _ _, None;
  Evm.abiV2_Unpack := λ _ _, Some {| Evm.eb_Amount := 5; Evm.eb_Token := "0xT"; Evm.eb_Receiver := "r";
                                     Evm.eb_Network := "2"; Evm.eb_ReferralId := 3 |};
  Evm.HexToHash := λ s, s |}.

Definition sample_log (address : string) : Evm.Log :=
  {| Evm.lg_Address := address; Evm.lg_Topics := ["2DepositedERC20"]; Evm.lg_Data := [];
     Evm.lg_BlockNumber := 10 |}.

Definition sample_evm : Evm.EvmNode := {|
  Evm.en_TransactionByHash := λ h, QOk {| Evm.rt_Hash := h; Evm.rt_HasSignature := true;
    Evm.rt_BlockNumber := Some "0xa"; Evm.rt_From := Some "0xF"; Evm.rt_Sender := Err (ENew "") |};
  Evm.en_TransactionReceipt := λ _, Ok (Some {| Evm.rc_Status := 1;
    Evm.rc_Logs := [sample_log "0xO"; sample_log "0xB"]; Evm.rc_BlockNumber := 10 |});
  Evm.en_BlockNumber := Ok 12 |}.

Definition sample_chain : Evm.Chain := {| Evm.ch_BridgeAddress := "0xB"; Evm.ch_Confirmations := 3 |}.

Lemma sample_distinct : distinct_events.
Proof.
  unfold distinct_events. vm_compute.
  repeat (apply NoDup_cons_2; [intros Hin; repeat (apply elem_of_cons in Hin as [Hin|Hin]; [discriminate Hin|]); by apply elem_of_nil in Hin|]).
  apply NoDup_nil_2.
Qed.

Lemma evm_GetDepositData_sound_witness :
  ∃ d, Evm.GetDepositData sample_evm sample_chain sample_id = Ok d ∧
    ∃ log, Evm.lg_Address log = "0xB"%string ∧ dd_DepositAmount d = 5.
Proof.
  destruct (Evm.GetDepositData sample_evm sample_chain sample_id) as [d| |] eqn:E;
    [|vm_compute in E; discriminate..].
  exists d. split; [reflexivity|].
  destruct (evm_GetDepositData_sound sample_evm sample_chain sample_id d)
    as (rc & from & log & t & body & cur & _ & _ & _ & _ & Ha & _).
  - exact sample_distinct.
  - discriminate.
  - exact E.
  - exists log. split; [exact Ha|]. vm_compute in E. injection E as <-. reflexivity.
Defined.

Local Instance sample_json : Zano.ZanoJson := λ _,
  Some {| Zano.zm_Address := "r"; Zano.zm_ChainId := "2"; Zano.zm_ReferralId := 0 |}.

Definition sample_zano (height : Z) : Zano.ZanoNode := {|
  Zano.zn_GetTransactions := λ _, Ok {| Zano.gt_In := [{| Zano.zt_Ado := Some {|
      Zano.ado_OperationType := 4; Zano.ado_OptAmount := Some 9; Zano.ado_OptAssetId := Some "a" |};
    Zano.zt_Height := 10; Zano.zt_RemoteAddresses := []; Zano.zt_ServiceEntries := [""; "00"];
    Zano.zt_TxHash := "ab" |}]; Zano.gt_Out := []; Zano.gt_Pool := [] |};
  Zano.zn_CurrentHeight := Ok height |}.

Lemma zano_GetDepositData_sound_witness :
  ∃ d, Zano.GetDepositData (sample_zano 20) 10 sample_id = Ok d ∧
       ∃ memo : Zano.DepositMemo, dd_DestinationChainId d = Zano.zm_ChainId memo.
Proof.
  destruct (Zano.GetDepositData (sample_zano 20) 10 sample_id) as [d| |] eqn:E;
    [|vm_compute in E; discriminate..].
  exists d. split; [reflexivity|].
  destruct (zano_GetDepositData_sound (sample_zano 20) 10 sample_id d E)
    as (resp & tx & rest & ado & entry & raw & memo & cur & Hall).
  exists memo. apply Hall.
Defined.

Lemma zano_confirmations_underflow_witness :
  Zano.validateConfirmations (sample_zano 9) 10 10 = Ok tt.
Proof.
  apply (zano_confirmations_underflow (sample_zano 9) 10 10 9);
    [reflexivity|lia|unfold max_uint64; lia|lia].
Defined.

Definition memo_id (nonce : Z) : DepositIdentifier := {| TxHash := "0xab"; TxNonce := nonce; ChainId := "1" |}.

Definition two_memos : Zano.ZanoNode := {|
  Zano.zn_GetTransactions := λ _, Ok {| Zano.gt_In := [{| Zano.zt_Ado := Some {|
      Zano.ado_OperationType := 4; Zano.ado_OptAmount := Some 9; Zano.ado_OptAssetId := Some "a" |};
    Zano.zt_Height := 10; Zano.zt_RemoteAddresses := []; Zano.zt_ServiceEntries := ["00"; "00"];
    Zano.zt_TxHash := "ab" |}]; Zano.gt_Out := []; Zano.gt_Pool := [] |};
  Zano.zn_CurrentHeight := Ok 30 |}.

Lemma zano_memo_credits_again_witness :
  ∃ d2, Zano.GetDepositData two_memos 10 (memo_id 1) = Ok d2 ∧ dd_DepositAmount d2 = 9.
Proof.
  destruct (Zano.GetDepositData two_memos 10 (memo_id 0)) as [d1| |] eqn:E; [|vm_compute in E; discriminate..].
  destruct (zano_memo_credits_again two_memos 10 (memo_id 0) (memo_id 1) d1 "00"
              {| Zano.zm_Address := "r"; Zano.zm_ChainId := "2"; Zano.zm_ReferralId := 0 |} E)
    as (d2 & Hd2 & _ & Ham & _).
  - reflexivity.
  - split; [discriminate|reflexivity].
  - intros resp tx rest Hr Hin. injection Hr as <-. injection Hin as <- <-. reflexivity.
  - reflexivity.
  - exists d2. split; [exact Hd2|]. rewrite Ham. vm_compute in E. injection E as <-. reflexivity.
Defined.

(** Cells as lists of numbers with references. *)
Inductive sample_cell := SCell (values : list Z) (refs : list sample_cell).

Definition sample_load (s : list Z) : res (Z * list Z) :=
  match s with [] => Err (ENew "no more data") | z :: s' => Ok (int64 z, s') end.

Local Instance sample_cells : Ton.TonCells := {|
  Ton.Cell := sample_cell; Ton.Slice := list Z; Ton.TonAddress := Z;
  Ton.BeginParse := λ c, match c with SCell v _ => v end;
  Ton.PeekRef := λ c i, match c with SCell _ refs => of_option (refs !! Z.to_nat i) "" end;
  Ton.LoadBigUInt := λ _, sample_load; Ton.LoadInt := λ _, sample_load;
  Ton.LoadUInt := λ _, sample_load;
  Ton.LoadBoolBit := λ s, r ← sample_load s; Ok (0 <? fst r, snd r);
  Ton.LoadAddr := sample_load;
  Ton.LoadSlice := λ _ s, Ok (Z_byte <$> s, []);
  Ton.LoadStringSnake := λ s, Ok (string_of_bytes (Z_byte <$> s), []);
  Ton.addr_String := λ _ a, print_Z a;
  Ton.runes := λ s, byte_Z <$> bytes_of_string s; Ton.IsPrint := λ r, 32 <=? r;
  Ton.rune_string := λ r, string_of_bytes [Z_byte r] |}.
Local Instance sample_cells_spec : Ton.TonCellsSpec.
Proof.
  split. intros n [|z0 s] z s' Hl; [done|]. injection Hl as <- <-. apply int64_range.
Qed.

Definition sample_ton : Ton.TonNode := {| Ton.tn_ListTransactions := λ _ _,
  Ok [{| Ton.tt_OutMsgCount := 1; Ton.tt_LT := 7;
         Ton.tt_Out := Ok [Ton.OtherMsg; Ton.ExternalOut
           (SCell [3898124691; 17; 2 ^ 64 + 5; 1] [SCell [114; 1] []; SCell [50] []])] |}] |}.

Lemma ton_GetDepositData_sound_witness :
  ∃ d, Ton.GetDepositData sample_ton false sample_id = Ok d ∧ in_int64 (dd_DepositAmount d).
Proof.
  destruct (Ton.GetDepositData sample_ton false sample_id) as [d| |] eqn:E;
    [|vm_compute in E; discriminate..].
  exists d. split; [reflexivity|].
  destruct (ton_GetDepositData_sound sample_ton false sample_id d E)
    as (hash & tx & txs & msgs & pre & body & rest & content & Hall). apply Hall.
Defined.

End witnesses.
