(* ===== verification/SolanaInstructions.v ===== *)
(** * The instructions of the bridge program on Solana

    Models [internal/bridge/chain/solana/contract]: a module per instruction with its
    arguments and accounts as the struct has them (a pointer that may be nil is an
    [option]), its setters and getters, the derivation of its program addresses,
    [Validate], [MarshalWithEncoder], [UnmarshalWithDecoder] and the constructor.  A setter
    of an account assigns to an index of a slice, so it panics when the slice is too
    short.

    The libraries solana-go and binary are the class [SolanaGo]; the documented facts the
    package relies on (the Borsh coding of a value is read back, an account keeps its
    key) are [SolanaGoSpec]. *)

From S2P Require Import Prelude.
#[local] Open Scope Z_scope.

(** The types of the arguments. *)
Inductive ty := TString | TU8 | TU16 | TU64 | TBool | TArr (n : nat) | TVecArr (n : nat).

Definition val (t : ty) : Type :=
  match t with
  | TString => string
  | TU8 | TU16 | TU64 => Z
  | TBool => bool
  | TArr _ => bytes
  | TVecArr _ => list bytes
  end.

(** The values of the Go type among those of the Rocq type. *)
Definition has_type (t : ty) : val t → Prop :=
  match t with
  | TString => λ s, Z.of_nat (String.length s) < 2 ^ 32
  | TU8 => λ z, 0 ≤ z < 2 ^ 8
  | TU16 => λ z, 0 ≤ z < 2 ^ 16
  | TU64 => λ z, 0 ≤ z < 2 ^ 64
  | TBool => λ _, True
  | TArr n => λ l, length l = n
  | TVecArr n => λ l, Forall (λ b, length b = n) l ∧ Z.of_nat (length l) < 2 ^ 32
  end.

(** solana-go and binary.  [Encode] takes a pointer, [Decode] reads a value from the front
    of the remaining bytes. *)
Class SolanaGo := {
  PublicKey : Type;
  PublicKey_eq_dec :: EqDecision PublicKey;
  MustPublicKeyFromBase58 : string → PublicKey;
  key_Bytes : PublicKey → bytes;
  key_String : PublicKey → string;
  AccountMeta : Type;
  Meta : PublicKey → AccountMeta;
  WRITE : AccountMeta → AccountMeta;
  SIGNER : AccountMeta → AccountMeta;
  meta_PublicKey : AccountMeta → PublicKey;
  (** [AccountMetaSlice.Get] and [AccountMetaSlice.SetAccounts] *)
  Get : list (option AccountMeta) → Z → option AccountMeta;
  SetAccounts : list (option AccountMeta) → res (list (option AccountMeta));
  Encode (t : ty) : option (val t) → res bytes;
  Decode (t : ty) : bytes → res (val t * bytes);
  MarshalBorsh (t : ty) : val t → res bytes;
  CreateProgramAddress : list bytes → PublicKey → res PublicKey;
  FindProgramAddress : list bytes → PublicKey → res (PublicKey * Z);
  (** the eight bytes of a type identifier; the identifier of a variant by its name *)
  ReadTypeID : bytes → res (bytes * bytes);
  Sighash : string → bytes;
  UnmarshalBinaryVariant (A : Type) :
    list (string * (bytes → res (A * bytes))) → bytes → res ((bytes * A) * bytes) }.

(** [binary] reads back what it wrote; the accessors of the accounts. *)
Class SolanaGoSpec `{SolanaGo} : Prop := {
  Decode_Encode t v data rest :
    has_type t v → Encode t (Some v) = Ok data → Decode t (data ++ rest) = Ok (v, rest);
  ReadTypeID_app id rest : length id = 8%nat → ReadTypeID (id ++ rest) = Ok (id, rest);
  meta_PublicKey_Meta k : meta_PublicKey (Meta k) = k;
  meta_PublicKey_WRITE m : meta_PublicKey (WRITE m) = meta_PublicKey m;
  meta_PublicKey_SIGNER m : meta_PublicKey (SIGNER m) = meta_PublicKey m;
  Get_lookup l i : 0 ≤ i → Get l i = mjoin (l !! Z.to_nat i);
  SetAccounts_Ok l : SetAccounts l = Ok l;
  Sighash_length name : length (Sighash name) = 8%nat;
  (** a variant is dispatched on its identifier *)
  UnmarshalBinaryVariant_known A (defs : list (string * (bytes → res (A * bytes)))) name f rest :
    NoDup (Sighash <$> defs.*1) → (name, f) ∈ defs →
    UnmarshalBinaryVariant A defs (Sighash name ++ rest) =
      (r ← f rest; Ok ((Sighash name, fst r), snd r));
  UnmarshalBinaryVariant_sound A (defs : list (string * (bytes → res (A * bytes)))) data id a rest :
    UnmarshalBinaryVariant A defs data = Ok ((id, a), rest) →
    ∃ name f body, (name, f) ∈ defs ∧ id = Sighash name ∧ data = id ++ body ∧ f body = Ok (a, rest) }.

(** A nil pointer. *)
Definition is_set {A} (o : option A) : bool := match o with Some _ => true | None => false end.

(** [l[i] = v] *)
Definition set_at {A} (l : list A) (i : nat) (v : A) : res (list A) :=
  match l !! i with Some _ => Ok (<[i := v]> l) | None => Panic end.

(** [if inst.AccountMetaSlice[i] == nil { return errors.New(msg) }] *)
Definition validate_account {A} (l : list (option A)) (i : nat) (msg : string) : res unit :=
  match l !! i with
  | None => Panic
  | Some o => guard (is_set o) msg
  end.

(** A [Must] variant panics instead of returning an error. *)
Definition must {A} (m : res A) : res A := match m with Err _ => Panic | _ => m end.

Definition const_seed (s : string) : bytes := bytes_of_string s.

(** An argument of an instruction. *)
Record field := mk_field { f_type : ty; f_value : option (val f_type) }.
Definition field_set (f : field) : Prop := is_Some (f_value f).
Definition field_typed (f : field) : Prop :=
  match f_value f with Some v => has_type (f_type f) v | None => False end.

Section helpers.
Context `{SolanaGo}.

(** [Addresses] of addresses.go holds one address. *)
Definition SystemProgramAddress : PublicKey :=
  MustPublicKeyFromBase58 "11111111111111111111111111111111".

(** The end of each [find*Address] *)
Definition derive_address (ProgramID : PublicKey) (seeds : list bytes) (knownBumpSeed bumpSeed : Z)
    : res (PublicKey * Z) :=
  if negb (knownBumpSeed =? 0) then
    let seeds := seeds ++ [[Z_byte bumpSeed]] in
    pda ← CreateProgramAddress seeds ProgramID;
    Ok (pda, bumpSeed)
  else FindProgramAddress seeds ProgramID.

End helpers.

(** Reads back every argument of the record [x]. *)
Ltac solve_roundtrip x :=
  let Hty := fresh "Hty" in let Hm := fresh "Hm" in
  intros Hty Hm; destruct x; cbn in Hm;
  repeat (apply Forall_cons in Hty; let h := fresh "Ht" in destruct Hty as [h Hty]; unfold field_typed in h; cbn -[has_type val] in h);
  repeat match goal with
  | H : match ?o with Some _ => _ | None => False end |- _ => destruct o; [|done]
  end;
  repeat match goal with
  | H : mbind _ _ = Ok _ |- _ =>
      apply bind_Ok in H; let b := fresh "b" in let Hb := fresh "Hb" in destruct H as (b & Hb & H)
  end;
  apply (inj Ok) in Hm as <-; rewrite <- ?app_assoc;
  repeat match goal with
  | Hv : has_type ?t ?v, H : Encode ?t (Some ?v) = Ok _ |- _ =>
      rewrite (Decode_Encode t v _ _ Hv H); cbn [mbind res_bind fst snd]; clear H
  end; reflexivity.

(** Every argument that was read is set. *)
Ltac solve_complete :=
  let Hu := fresh "Hu" in
  intros Hu;
  repeat match type of Hu with
  | mbind _ _ = Ok _ => apply bind_Ok in Hu; let r := fresh "r" in destruct Hu as (r & _ & Hu); destruct r; cbn zeta in Hu; cbn [fst snd] in Hu
  end;
  injection Hu as <- _; split; [repeat constructor; by eexists|reflexivity].

(** *** [change_authority.go] *)

Module ChangeAuthority.
Section instruction.
Context `{SolanaGo} (ProgramID : PublicKey).

Record t := mk {
  BridgeId : option string; NewAuthorities : option (list bytes); NewNonce : option Z;
  Signature : option bytes; RecoveryId : option Z;
  AccountMetaSlice : list (option AccountMeta) }.

(** The embedded slice replaced. *)
Definition WithAccounts (accounts : list (option AccountMeta)) (inst : t) : t :=
    mk (BridgeId inst) (NewAuthorities inst) (NewNonce inst) (Signature inst)
    (RecoveryId inst) accounts.

Definition NewChangeAuthorityInstructionBuilder : t :=
  mk None None None None None (replicate 2 None).

Definition SetBridgeId (bridge_id : string) (inst : t) : t :=
    mk (Some bridge_id) (NewAuthorities inst) (NewNonce inst) (Signature inst)
    (RecoveryId inst) (AccountMetaSlice inst).

Definition SetNewAuthorities (new_authorities : list bytes) (inst : t) : t :=
    mk (BridgeId inst) (Some new_authorities) (NewNonce inst) (Signature inst)
    (RecoveryId inst) (AccountMetaSlice inst).

Definition SetNewNonce (new_nonce : Z) (inst : t) : t :=
    mk (BridgeId inst) (NewAuthorities inst) (Some new_nonce) (Signature inst)
    (RecoveryId inst) (AccountMetaSlice inst).

Definition SetSignature (signature : bytes) (inst : t) : t :=
    mk (BridgeId inst) (NewAuthorities inst) (NewNonce inst) (Some signature)
    (RecoveryId inst) (AccountMetaSlice inst).

Definition SetRecoveryId (recovery_id : Z) (inst : t) : t :=
    mk (BridgeId inst) (NewAuthorities inst) (NewNonce inst) (Signature inst)
    (Some recovery_id) (AccountMetaSlice inst).

Definition SetAuthorityAccount (authority : PublicKey) (inst : t) : res t :=
  accounts ← set_at (AccountMetaSlice inst) 0 (Some (WRITE (Meta authority)));
  Ok (WithAccounts accounts inst).

Definition GetAuthorityAccount (inst : t) : option AccountMeta :=
  Get (AccountMetaSlice inst) 0.

Definition findAuthorityAddress (bridgeId : string) (knownBumpSeed : Z)
    : res (PublicKey * Z) :=
  let bumpSeed := 0 in
  bridgeIdSeed ← MarshalBorsh TString bridgeId;
  let seeds := [const_seed "authority"; bridgeIdSeed] in
  derive_address ProgramID seeds knownBumpSeed bumpSeed.

Definition findAuthorityAddressWithBumpSeed (bridgeId : string) (bumpSeed : Z) : res PublicKey :=
  fst <$> findAuthorityAddress bridgeId bumpSeed.

Definition MustfindAuthorityAddressWithBumpSeed (bridgeId : string) (bumpSeed : Z) : res PublicKey :=
  must (fst <$> findAuthorityAddress bridgeId bumpSeed).

Definition FindAuthorityAddress (bridgeId : string) : res (PublicKey * Z) :=
  findAuthorityAddress bridgeId 0.

Definition MustFindAuthorityAddress (bridgeId : string) : res PublicKey :=
  must (fst <$> findAuthorityAddress bridgeId 0).

Definition SetSignerAccount (signer : PublicKey) (inst : t) : res t :=
  accounts ← set_at (AccountMetaSlice inst) 1 (Some (SIGNER (WRITE (Meta signer))));
  Ok (WithAccounts accounts inst).

Definition GetSignerAccount (inst : t) : option AccountMeta :=
  Get (AccountMetaSlice inst) 1.

Definition Validate (inst : t) : res unit :=
  _ ← guard (is_set (BridgeId inst)) "BridgeId parameter is not set";
  _ ← guard (is_set (NewAuthorities inst)) "NewAuthorities parameter is not set";
  _ ← guard (is_set (NewNonce inst)) "NewNonce parameter is not set";
  _ ← guard (is_set (Signature inst)) "Signature parameter is not set";
  _ ← guard (is_set (RecoveryId inst)) "RecoveryId parameter is not set";
  _ ← validate_account (AccountMetaSlice inst) 0 "accounts.Authority is not set";
  _ ← validate_account (AccountMetaSlice inst) 1 "accounts.Signer is not set";
  Ok tt.

Definition MarshalWithEncoder (obj : t) : res bytes :=
  b0 ← Encode TString (BridgeId obj);
  b1 ← Encode (TVecArr 33) (NewAuthorities obj);
  b2 ← Encode TU64 (NewNonce obj);
  b3 ← Encode (TArr 64) (Signature obj);
  b4 ← Encode TU8 (RecoveryId obj);
  Ok (b0 ++ b1 ++ b2 ++ b3 ++ b4).

Definition UnmarshalWithDecoder (obj : t) (decoder : bytes) : res (t * bytes) :=
  r ← Decode TString decoder;
  let obj := SetBridgeId (fst r) obj in let decoder := snd r in
  r ← Decode (TVecArr 33) decoder;
  let obj := SetNewAuthorities (fst r) obj in let decoder := snd r in
  r ← Decode TU64 decoder;
  let obj := SetNewNonce (fst r) obj in let decoder := snd r in
  r ← Decode (TArr 64) decoder;
  let obj := SetSignature (fst r) obj in let decoder := snd r in
  r ← Decode TU8 decoder;
  let obj := SetRecoveryId (fst r) obj in let decoder := snd r in
  Ok (obj, decoder).

Definition NewChangeAuthorityInstruction
    (bridge_id : string) (new_authorities : list bytes) (new_nonce : Z)
    (signature : bytes) (recovery_id : Z) (authority : PublicKey) (signer : PublicKey) : res t :=
  let inst := NewChangeAuthorityInstructionBuilder in
  let inst := SetBridgeId bridge_id inst in
  let inst := SetNewAuthorities new_authorities inst in
  let inst := SetNewNonce new_nonce inst in
  let inst := SetSignature signature inst in
  let inst := SetRecoveryId recovery_id inst in
  inst ← SetAuthorityAccount authority inst;
  inst ← SetSignerAccount signer inst;
  Ok inst.

Definition params (x : t) : list field :=
  [mk_field TString (BridgeId x);
   mk_field (TVecArr 33) (NewAuthorities x);
   mk_field TU64 (NewNonce x);
   mk_field (TArr 64) (Signature x);
   mk_field TU8 (RecoveryId x)].

Lemma ChangeAuthority_roundtrip `{!SolanaGoSpec} x obj data rest :
  Forall field_typed (params x) → MarshalWithEncoder x = Ok data →
  UnmarshalWithDecoder obj (data ++ rest) =
    Ok (WithAccounts (AccountMetaSlice obj) x, rest).
Proof. unfold params, MarshalWithEncoder, UnmarshalWithDecoder. solve_roundtrip x. Qed.

Lemma ChangeAuthority_complete obj data x rest :
  UnmarshalWithDecoder obj data = Ok (x, rest) →
  Forall field_set (params x) ∧ AccountMetaSlice x = AccountMetaSlice obj.
Proof. unfold params, UnmarshalWithDecoder. solve_complete. Qed.

End instruction.
End ChangeAuthority.

(** *** [deposit_native.go] *)

Module DepositNative.
Section instruction.
Context `{SolanaGo} (ProgramID : PublicKey).

Record t := mk {
  BridgeId : option string; Amount : option Z; ChainId : option string;
  Address : option string; ReferralId : option Z;
  AccountMetaSlice : list (option AccountMeta) }.

(** The embedded slice replaced. *)
Definition WithAccounts (accounts : list (option AccountMeta)) (inst : t) : t :=
    mk (BridgeId inst) (Amount inst) (ChainId inst) (Address inst) (ReferralId inst)
    accounts.

Definition NewDepositNativeInstructionBuilder : t :=
  mk None None None None None
  (<[2%nat := Some (Meta SystemProgramAddress)]> (replicate 3 None)).

Definition SetBridgeId (bridge_id : string) (inst : t) : t :=
    mk (Some bridge_id) (Amount inst) (ChainId inst) (Address inst) (ReferralId inst)
    (AccountMetaSlice inst).

Definition SetAmount (amount : Z) (inst : t) : t :=
    mk (BridgeId inst) (Some amount) (ChainId inst) (Address inst) (ReferralId inst)
    (AccountMetaSlice inst).

Definition SetChainId (chain_id : string) (inst : t) : t :=
    mk (BridgeId inst) (Amount inst) (Some chain_id) (Address inst) (ReferralId inst)
    (AccountMetaSlice inst).

Definition SetAddress (address : string) (inst : t) : t :=
    mk (BridgeId inst) (Amount inst) (ChainId inst) (Some address) (ReferralId inst)
    (AccountMetaSlice inst).

Definition SetReferralId (referral_id : Z) (inst : t) : t :=
    mk (BridgeId inst) (Amount inst) (ChainId inst) (Address inst) (Some referral_id)
    (AccountMetaSlice inst).

Definition SetAuthorityAccount (authority : PublicKey) (inst : t) : res t :=
  accounts ← set_at (AccountMetaSlice inst) 0 (Some (WRITE (Meta authority)));
  Ok (WithAccounts accounts inst).

Definition GetAuthorityAccount (inst : t) : option AccountMeta :=
  Get (AccountMetaSlice inst) 0.

Definition findAuthorityAddress (bridgeId : string) (knownBumpSeed : Z)
    : res (PublicKey * Z) :=
  let bumpSeed := 0 in
  bridgeIdSeed ← MarshalBorsh TString bridgeId;
  let seeds := [const_seed "authority"; bridgeIdSeed] in
  derive_address ProgramID seeds knownBumpSeed bumpSeed.

Definition findAuthorityAddressWithBumpSeed (bridgeId : string) (bumpSeed : Z) : res PublicKey :=
  fst <$> findAuthorityAddress bridgeId bumpSeed.

Definition MustfindAuthorityAddressWithBumpSeed (bridgeId : string) (bumpSeed : Z) : res PublicKey :=
  must (fst <$> findAuthorityAddress bridgeId bumpSeed).

Definition FindAuthorityAddress (bridgeId : string) : res (PublicKey * Z) :=
  findAuthorityAddress bridgeId 0.

Definition MustFindAuthorityAddress (bridgeId : string) : res PublicKey :=
  must (fst <$> findAuthorityAddress bridgeId 0).

Definition SetSenderAccount (sender : PublicKey) (inst : t) : res t :=
  accounts ← set_at (AccountMetaSlice inst) 1 (Some (SIGNER (WRITE (Meta sender))));
  Ok (WithAccounts accounts inst).

Definition GetSenderAccount (inst : t) : option AccountMeta :=
  Get (AccountMetaSlice inst) 1.

Definition SetSystemProgramAccount (systemProgram : PublicKey) (inst : t) : res t :=
  accounts ← set_at (AccountMetaSlice inst) 2 (Some (Meta systemProgram));
  Ok (WithAccounts accounts inst).

Definition GetSystemProgramAccount (inst : t) : option AccountMeta :=
  Get (AccountMetaSlice inst) 2.

Definition Validate (inst : t) : res unit :=
  _ ← guard (is_set (BridgeId inst)) "BridgeId parameter is not set";
  _ ← guard (is_set (Amount inst)) "Amount parameter is not set";
  _ ← guard (is_set (ChainId inst)) "ChainId parameter is not set";
  _ ← guard (is_set (Address inst)) "Address parameter is not set";
  _ ← guard (is_set (ReferralId inst)) "ReferralId parameter is not set";
  _ ← validate_account (AccountMetaSlice inst) 0 "accounts.Authority is not set";
  _ ← validate_account (AccountMetaSlice inst) 1 "accounts.Sender is not set";
  _ ← validate_account (AccountMetaSlice inst) 2 "accounts.SystemProgram is not set";
  Ok tt.

Definition MarshalWithEncoder (obj : t) : res bytes :=
  b0 ← Encode TString (BridgeId obj);
  b1 ← Encode TU64 (Amount obj);
  b2 ← Encode TString (ChainId obj);
  b3 ← Encode TString (Address obj);
  b4 ← Encode TU16 (ReferralId obj);
  Ok (b0 ++ b1 ++ b2 ++ b3 ++ b4).

Definition UnmarshalWithDecoder (obj : t) (decoder : bytes) : res (t * bytes) :=
  r ← Decode TString decoder;
  let obj := SetBridgeId (fst r) obj in let decoder := snd r in
  r ← Decode TU64 decoder;
  let obj := SetAmount (fst r) obj in let decoder := snd r in
  r ← Decode TString decoder;
  let obj := SetChainId (fst r) obj in let decoder := snd r in
  r ← Decode TString decoder;
  let obj := SetAddress (fst r) obj in let decoder := snd r in
  r ← Decode TU16 decoder;
  let obj := SetReferralId (fst r) obj in let decoder := snd r in
  Ok (obj, decoder).

Definition NewDepositNativeInstruction
    (bridge_id : string) (amount : Z) (chain_id : string) (address : string)
    (referral_id : Z) (authority : PublicKey) (sender : PublicKey)
    (systemProgram : PublicKey) : res t :=
  let inst := NewDepositNativeInstructionBuilder in
  let inst := SetBridgeId bridge_id inst in
  let inst := SetAmount amount inst in
  let inst := SetChainId chain_id inst in
  let inst := SetAddress address inst in
  let inst := SetReferralId referral_id inst in
  inst ← SetAuthorityAccount authority inst;
  inst ← SetSenderAccount sender inst;
  inst ← SetSystemProgramAccount systemProgram inst;
  Ok inst.

Definition params (x : t) : list field :=
  [mk_field TString (BridgeId x);
   mk_field TU64 (Amount x);
   mk_field TString (ChainId x);
   mk_field TString (Address x);
   mk_field TU16 (ReferralId x)].

Lemma DepositNative_roundtrip `{!SolanaGoSpec} x obj data rest :
  Forall field_typed (params x) → MarshalWithEncoder x = Ok data →
  UnmarshalWithDecoder obj (data ++ rest) =
    Ok (WithAccounts (AccountMetaSlice obj) x, rest).
Proof. unfold params, MarshalWithEncoder, UnmarshalWithDecoder. solve_roundtrip x. Qed.

Lemma DepositNative_complete obj data x rest :
  UnmarshalWithDecoder obj data = Ok (x, rest) →
  Forall field_set (params x) ∧ AccountMetaSlice x = AccountMetaSlice obj.
Proof. unfold params, UnmarshalWithDecoder. solve_complete. Qed.

End instruction.
End DepositNative.

(** *** [deposit_spl.go] *)

Module DepositSpl.
Section instruction.
Context `{SolanaGo} (ProgramID : PublicKey).

Record t := mk {
  BridgeId : option string; Amount : option Z; ChainId : option string;
  Address : option string; ReferralId : option Z;
  AccountMetaSlice : list (option AccountMeta) }.

(** The embedded slice replaced. *)
Definition WithAccounts (accounts : list (option AccountMeta)) (inst : t) : t :=
    mk (BridgeId inst) (Amount inst) (ChainId inst) (Address inst) (ReferralId inst)
    accounts.

Definition NewDepositSplInstructionBuilder : t :=
  mk None None None None None (replicate 5 None).

Definition SetBridgeId (bridge_id : string) (inst : t) : t :=
    mk (Some bridge_id) (Amount inst) (ChainId inst) (Address inst) (ReferralId inst)
    (AccountMetaSlice inst).

Definition SetAmount (amount : Z) (inst : t) : t :=
    mk (BridgeId inst) (Some amount) (ChainId inst) (Address inst) (ReferralId inst)
    (AccountMetaSlice inst).

Definition SetChainId (chain_id : string) (inst : t) : t :=
    mk (BridgeId inst) (Amount inst) (Some chain_id) (Address inst) (ReferralId inst)
    (AccountMetaSlice inst).

Definition SetAddress (address : string) (inst : t) : t :=
    mk (BridgeId inst) (Amount inst) (ChainId inst) (Some address) (ReferralId inst)
    (AccountMetaSlice inst).

Definition SetReferralId (referral_id : Z) (inst : t) : t :=
    mk (BridgeId inst) (Amount inst) (ChainId inst) (Address inst) (Some referral_id)
    (AccountMetaSlice inst).

Definition SetMintAccount (mint : PublicKey) (inst : t) : res t :=
  accounts ← set_at (AccountMetaSlice inst) 0 (Some (Meta mint));
  Ok (WithAccounts accounts inst).

Definition GetMintAccount (inst : t) : option AccountMeta :=
  Get (AccountMetaSlice inst) 0.

Definition SetSplVaultAccount (splVault : PublicKey) (inst : t) : res t :=
  accounts ← set_at (AccountMetaSlice inst) 1 (Some (WRITE (Meta splVault)));
  Ok (WithAccounts accounts inst).

Definition GetSplVaultAccount (inst : t) : option AccountMeta :=
  Get (AccountMetaSlice inst) 1.

Definition findSplVaultAddress (mint : PublicKey) (bridgeId : string) (knownBumpSeed : Z)
    : res (PublicKey * Z) :=
  let bumpSeed := 0 in
  bridgeIdSeed ← MarshalBorsh TString bridgeId;
  let seeds := [const_seed "vault"; key_Bytes mint; bridgeIdSeed] in
  derive_address ProgramID seeds knownBumpSeed bumpSeed.

Definition findSplVaultAddressWithBumpSeed (mint : PublicKey) (bridgeId : string) (bumpSeed : Z) : res PublicKey :=
  fst <$> findSplVaultAddress mint bridgeId bumpSeed.

Definition MustfindSplVaultAddressWithBumpSeed (mint : PublicKey) (bridgeId : string) (bumpSeed : Z) : res PublicKey :=
  must (fst <$> findSplVaultAddress mint bridgeId bumpSeed).

Definition FindSplVaultAddress (mint : PublicKey) (bridgeId : string) : res (PublicKey * Z) :=
  findSplVaultAddress mint bridgeId 0.

Definition MustFindSplVaultAddress (mint : PublicKey) (bridgeId : string) : res PublicKey :=
  must (fst <$> findSplVaultAddress mint bridgeId 0).

Definition SetSenderAccount (sender : PublicKey) (inst : t) : res t :=
  accounts ← set_at (AccountMetaSlice inst) 2 (Some (WRITE (Meta sender)));
  Ok (WithAccounts accounts inst).

Definition GetSenderAccount (inst : t) : option AccountMeta :=
  Get (AccountMetaSlice inst) 2.

Definition SetSignerAccount (signer : PublicKey) (inst : t) : res t :=
  accounts ← set_at (AccountMetaSlice inst) 3 (Some (SIGNER (WRITE (Meta signer))));
  Ok (WithAccounts accounts inst).

Definition GetSignerAccount (inst : t) : option AccountMeta :=
  Get (AccountMetaSlice inst) 3.

Definition SetTokenProgramAccount (tokenProgram : PublicKey) (inst : t) : res t :=
  accounts ← set_at (AccountMetaSlice inst) 4 (Some (Meta tokenProgram));
  Ok (WithAccounts accounts inst).

Definition GetTokenProgramAccount (inst : t) : option AccountMeta :=
  Get (AccountMetaSlice inst) 4.

Definition Validate (inst : t) : res unit :=
  _ ← guard (is_set (BridgeId inst)) "BridgeId parameter is not set";
  _ ← guard (is_set (Amount inst)) "Amount parameter is not set";
  _ ← guard (is_set (ChainId inst)) "ChainId parameter is not set";
  _ ← guard (is_set (Address inst)) "Address parameter is not set";
  _ ← guard (is_set (ReferralId inst)) "ReferralId parameter is not set";
  _ ← validate_account (AccountMetaSlice inst) 0 "accounts.Mint is not set";
  _ ← validate_account (AccountMetaSlice inst) 1 "accounts.SplVault is not set";
  _ ← validate_account (AccountMetaSlice inst) 2 "accounts.Sender is not set";
  _ ← validate_account (AccountMetaSlice inst) 3 "accounts.Signer is not set";
  _ ← validate_account (AccountMetaSlice inst) 4 "accounts.TokenProgram is not set";
  Ok tt.

Definition MarshalWithEncoder (obj : t) : res bytes :=
  b0 ← Encode TString (BridgeId obj);
  b1 ← Encode TU64 (Amount obj);
  b2 ← Encode TString (ChainId obj);
  b3 ← Encode TString (Address obj);
  b4 ← Encode TU16 (ReferralId obj);
  Ok (b0 ++ b1 ++ b2 ++ b3 ++ b4).

Definition UnmarshalWithDecoder (obj : t) (decoder : bytes) : res (t * bytes) :=
  r ← Decode TString decoder;
  let obj := SetBridgeId (fst r) obj in let decoder := snd r in
  r ← Decode TU64 decoder;
  let obj := SetAmount (fst r) obj in let decoder := snd r in
  r ← Decode TString decoder;
  let obj := SetChainId (fst r) obj in let decoder := snd r in
  r ← Decode TString decoder;
  let obj := SetAddress (fst r) obj in let decoder := snd r in
  r ← Decode TU16 decoder;
  let obj := SetReferralId (fst r) obj in let decoder := snd r in
  Ok (obj, decoder).

Definition NewDepositSplInstruction
    (bridge_id : string) (amount : Z) (chain_id : string) (address : string)
    (referral_id : Z) (mint : PublicKey) (splVault : PublicKey) (sender : PublicKey)
    (signer : PublicKey) (tokenProgram : PublicKey) : res t :=
  let inst := NewDepositSplInstructionBuilder in
  let inst := SetBridgeId bridge_id inst in
  let inst := SetAmount amount inst in
  let inst := SetChainId chain_id inst in
  let inst := SetAddress address inst in
  let inst := SetReferralId referral_id inst in
  inst ← SetMintAccount mint inst;
  inst ← SetSplVaultAccount splVault inst;
  inst ← SetSenderAccount sender inst;
  inst ← SetSignerAccount signer inst;
  inst ← SetTokenProgramAccount tokenProgram inst;
  Ok inst.

Definition params (x : t) : list field :=
  [mk_field TString (BridgeId x);
   mk_field TU64 (Amount x);
   mk_field TString (ChainId x);
   mk_field TString (Address x);
   mk_field TU16 (ReferralId x)].

Lemma DepositSpl_roundtrip `{!SolanaGoSpec} x obj data rest :
  Forall field_typed (params x) → MarshalWithEncoder x = Ok data →
  UnmarshalWithDecoder obj (data ++ rest) =
    Ok (WithAccounts (AccountMetaSlice obj) x, rest).
Proof. unfold params, MarshalWithEncoder, UnmarshalWithDecoder. solve_roundtrip x. Qed.

Lemma DepositSpl_complete obj data x rest :
  UnmarshalWithDecoder obj data = Ok (x, rest) →
  Forall field_set (params x) ∧ AccountMetaSlice x = AccountMetaSlice obj.
Proof. unfold params, UnmarshalWithDecoder. solve_complete. Qed.

End instruction.
End DepositSpl.

(** *** [deposit_wrapped.go] *)

Module DepositWrapped.
Section instruction.
Context `{SolanaGo} (ProgramID : PublicKey).

Record t := mk {
  BridgeId : option string; MintNonce : option Z; Symbol : option string;
  Amount : option Z; ChainId : option string; Address : option string;
  ReferralId : option Z;
  AccountMetaSlice : list (option AccountMeta) }.

(** The embedded slice replaced. *)
Definition WithAccounts (accounts : list (option AccountMeta)) (inst : t) : t :=
    mk (BridgeId inst) (MintNonce inst) (Symbol inst) (Amount inst) (ChainId inst)
    (Address inst) (ReferralId inst) accounts.

Definition NewDepositWrappedInstructionBuilder : t :=
  mk None None None None None None None (replicate 4 None).

Definition SetBridgeId (bridge_id : string) (inst : t) : t :=
    mk (Some bridge_id) (MintNonce inst) (Symbol inst) (Amount inst) (ChainId inst)
    (Address inst) (ReferralId inst) (AccountMetaSlice inst).

Definition SetMintNonce (mint_nonce : Z) (inst : t) : t :=
    mk (BridgeId inst) (Some mint_nonce) (Symbol inst) (Amount inst) (ChainId inst)
    (Address inst) (ReferralId inst) (AccountMetaSlice inst).

Definition SetSymbol (symbol : string) (inst : t) : t :=
    mk (BridgeId inst) (MintNonce inst) (Some symbol) (Amount inst) (ChainId inst)
    (Address inst) (ReferralId inst) (AccountMetaSlice inst).

Definition SetAmount (amount : Z) (inst : t) : t :=
    mk (BridgeId inst) (MintNonce inst) (Symbol inst) (Some amount) (ChainId inst)
    (Address inst) (ReferralId inst) (AccountMetaSlice inst).

Definition SetChainId (chain_id : string) (inst : t) : t :=
    mk (BridgeId inst) (MintNonce inst) (Symbol inst) (Amount inst) (Some chain_id)
    (Address inst) (ReferralId inst) (AccountMetaSlice inst).

Definition SetAddress (address : string) (inst : t) : t :=
    mk (BridgeId inst) (MintNonce inst) (Symbol inst) (Amount inst) (ChainId inst)
    (Some address) (ReferralId inst) (AccountMetaSlice inst).

Definition SetReferralId (referral_id : Z) (inst : t) : t :=
    mk (BridgeId inst) (MintNonce inst) (Symbol inst) (Amount inst) (ChainId inst)
    (Address inst) (Some referral_id) (AccountMetaSlice inst).

Definition SetMintAccount (mint : PublicKey) (inst : t) : res t :=
  accounts ← set_at (AccountMetaSlice inst) 0 (Some (WRITE (Meta mint)));
  Ok (WithAccounts accounts inst).

Definition GetMintAccount (inst : t) : option AccountMeta :=
  Get (AccountMetaSlice inst) 0.

Definition findMintAddress (symbol : string) (mintNonce : Z) (bridgeId : string) (knownBumpSeed : Z)
    : res (PublicKey * Z) :=
  let bumpSeed := 0 in
  symbolSeed ← MarshalBorsh TString symbol;
  mintNonceSeed ← MarshalBorsh TU64 mintNonce;
  bridgeIdSeed ← MarshalBorsh TString bridgeId;
  let seeds := [const_seed "mint"; symbolSeed; mintNonceSeed; bridgeIdSeed] in
  derive_address ProgramID seeds knownBumpSeed bumpSeed.

Definition findMintAddressWithBumpSeed (symbol : string) (mintNonce : Z) (bridgeId : string) (bumpSeed : Z) : res PublicKey :=
  fst <$> findMintAddress symbol mintNonce bridgeId bumpSeed.

Definition MustfindMintAddressWithBumpSeed (symbol : string) (mintNonce : Z) (bridgeId : string) (bumpSeed : Z) : res PublicKey :=
  must (fst <$> findMintAddress symbol mintNonce bridgeId bumpSeed).

Definition FindMintAddress (symbol : string) (mintNonce : Z) (bridgeId : string) : res (PublicKey * Z) :=
  findMintAddress symbol mintNonce bridgeId 0.

Definition MustFindMintAddress (symbol : string) (mintNonce : Z) (bridgeId : string) : res PublicKey :=
  must (fst <$> findMintAddress symbol mintNonce bridgeId 0).

Definition SetSenderAccount (sender : PublicKey) (inst : t) : res t :=
  accounts ← set_at (AccountMetaSlice inst) 1 (Some (WRITE (Meta sender)));
  Ok (WithAccounts accounts inst).

Definition GetSenderAccount (inst : t) : option AccountMeta :=
  Get (AccountMetaSlice inst) 1.

Definition SetSignerAccount (signer : PublicKey) (inst : t) : res t :=
  accounts ← set_at (AccountMetaSlice inst) 2 (Some (SIGNER (WRITE (Meta signer))));
  Ok (WithAccounts accounts inst).

Definition GetSignerAccount (inst : t) : option AccountMeta :=
  Get (AccountMetaSlice inst) 2.

Definition SetTokenProgramAccount (tokenProgram : PublicKey) (inst : t) : res t :=
  accounts ← set_at (AccountMetaSlice inst) 3 (Some (Meta tokenProgram));
  Ok (WithAccounts accounts inst).

Definition GetTokenProgramAccount (inst : t) : option AccountMeta :=
  Get (AccountMetaSlice inst) 3.

Definition Validate (inst : t) : res unit :=
  _ ← guard (is_set (BridgeId inst)) "BridgeId parameter is not set";
  _ ← guard (is_set (MintNonce inst)) "MintNonce parameter is not set";
  _ ← guard (is_set (Symbol inst)) "Symbol parameter is not set";
  _ ← guard (is_set (Amount inst)) "Amount parameter is not set";
  _ ← guard (is_set (ChainId inst)) "ChainId parameter is not set";
  _ ← guard (is_set (Address inst)) "Address parameter is not set";
  _ ← guard (is_set (ReferralId inst)) "ReferralId parameter is not set";
  _ ← validate_account (AccountMetaSlice inst) 0 "accounts.Mint is not set";
  _ ← validate_account (AccountMetaSlice inst) 1 "accounts.Sender is not set";
  _ ← validate_account (AccountMetaSlice inst) 2 "accounts.Signer is not set";
  _ ← validate_account (AccountMetaSlice inst) 3 "accounts.TokenProgram is not set";
  Ok tt.

Definition MarshalWithEncoder (obj : t) : res bytes :=
  b0 ← Encode TString (BridgeId obj);
  b1 ← Encode TU64 (MintNonce obj);
  b2 ← Encode TString (Symbol obj);
  b3 ← Encode TU64 (Amount obj);
  b4 ← Encode TString (ChainId obj);
  b5 ← Encode TString (Address obj);
  b6 ← Encode TU16 (ReferralId obj);
  Ok (b0 ++ b1 ++ b2 ++ b3 ++ b4 ++ b5 ++ b6).

Definition UnmarshalWithDecoder (obj : t) (decoder : bytes) : res (t * bytes) :=
  r ← Decode TString decoder;
  let obj := SetBridgeId (fst r) obj in let decoder := snd r in
  r ← Decode TU64 decoder;
  let obj := SetMintNonce (fst r) obj in let decoder := snd r in
  r ← Decode TString decoder;
  let obj := SetSymbol (fst r) obj in let decoder := snd r in
  r ← Decode TU64 decoder;
  let obj := SetAmount (fst r) obj in let decoder := snd r in
  r ← Decode TString decoder;
  let obj := SetChainId (fst r) obj in let decoder := snd r in
  r ← Decode TString decoder;
  let obj := SetAddress (fst r) obj in let decoder := snd r in
  r ← Decode TU16 decoder;
  let obj := SetReferralId (fst r) obj in let decoder := snd r in
  Ok (obj, decoder).

Definition NewDepositWrappedInstruction
    (bridge_id : string) (mint_nonce : Z) (symbol : string) (amount : Z)
    (chain_id : string) (address : string) (referral_id : Z) (mint : PublicKey)
    (sender : PublicKey) (signer : PublicKey) (tokenProgram : PublicKey) : res t :=
  let inst := NewDepositWrappedInstructionBuilder in
  let inst := SetBridgeId bridge_id inst in
  let inst := SetMintNonce mint_nonce inst in
  let inst := SetSymbol symbol inst in
  let inst := SetAmount amount inst in
  let inst := SetChainId chain_id inst in
  let inst := SetAddress address inst in
  let inst := SetReferralId referral_id inst in
  inst ← SetMintAccount mint inst;
  inst ← SetSenderAccount sender inst;
  inst ← SetSignerAccount signer inst;
  inst ← SetTokenProgramAccount tokenProgram inst;
  Ok inst.

Definition params (x : t) : list field :=
  [mk_field TString (BridgeId x);
   mk_field TU64 (MintNonce x);
   mk_field TString (Symbol x);
   mk_field TU64 (Amount x);
   mk_field TString (ChainId x);
   mk_field TString (Address x);
   mk_field TU16 (ReferralId x)].

Lemma DepositWrapped_roundtrip `{!SolanaGoSpec} x obj data rest :
  Forall field_typed (params x) → MarshalWithEncoder x = Ok data →
  UnmarshalWithDecoder obj (data ++ rest) =
    Ok (WithAccounts (AccountMetaSlice obj) x, rest).
Proof. unfold params, MarshalWithEncoder, UnmarshalWithDecoder. solve_roundtrip x. Qed.

Lemma DepositWrapped_complete obj data x rest :
  UnmarshalWithDecoder obj data = Ok (x, rest) →
  Forall field_set (params x) ∧ AccountMetaSlice x = AccountMetaSlice obj.
Proof. unfold params, UnmarshalWithDecoder. solve_complete. Qed.

End instruction.
End DepositWrapped.

(** *** [init_spl_vault.go] *)

Module InitSplVault.
Section instruction.
Context `{SolanaGo} (ProgramID : PublicKey).

Record t := mk {
  BridgeId : option string;
  AccountMetaSlice : list (option AccountMeta) }.

(** The embedded slice replaced. *)
Definition WithAccounts (accounts : list (option AccountMeta)) (inst : t) : t :=
    mk (BridgeId inst) accounts.

Definition NewInitSplVaultInstructionBuilder : t :=
  mk None (<[4%nat := Some (Meta SystemProgramAddress)]> (replicate 5 None)).

Definition SetBridgeId (bridge_id : string) (inst : t) : t :=
    mk (Some bridge_id) (AccountMetaSlice inst).

Definition SetMintAccount (mint : PublicKey) (inst : t) : res t :=
  accounts ← set_at (AccountMetaSlice inst) 0 (Some (Meta mint));
  Ok (WithAccounts accounts inst).

Definition GetMintAccount (inst : t) : option AccountMeta :=
  Get (AccountMetaSlice inst) 0.

Definition SetSplVaultAccount (splVault : PublicKey) (inst : t) : res t :=
  accounts ← set_at (AccountMetaSlice inst) 1 (Some (WRITE (Meta splVault)));
  Ok (WithAccounts accounts inst).

Definition GetSplVaultAccount (inst : t) : option AccountMeta :=
  Get (AccountMetaSlice inst) 1.

Definition findSplVaultAddress (mint : PublicKey) (bridgeId : string) (knownBumpSeed : Z)
    : res (PublicKey * Z) :=
  let bumpSeed := 0 in
  bridgeIdSeed ← MarshalBorsh TString bridgeId;
  let seeds := [const_seed "vault"; key_Bytes mint; bridgeIdSeed] in
  derive_address ProgramID seeds knownBumpSeed bumpSeed.

Definition findSplVaultAddressWithBumpSeed (mint : PublicKey) (bridgeId : string) (bumpSeed : Z) : res PublicKey :=
  fst <$> findSplVaultAddress mint bridgeId bumpSeed.

Definition MustfindSplVaultAddressWithBumpSeed (mint : PublicKey) (bridgeId : string) (bumpSeed : Z) : res PublicKey :=
  must (fst <$> findSplVaultAddress mint bridgeId bumpSeed).

Definition FindSplVaultAddress (mint : PublicKey) (bridgeId : string) : res (PublicKey * Z) :=
  findSplVaultAddress mint bridgeId 0.

Definition MustFindSplVaultAddress (mint : PublicKey) (bridgeId : string) : res PublicKey :=
  must (fst <$> findSplVaultAddress mint bridgeId 0).

Definition SetSignerAccount (signer : PublicKey) (inst : t) : res t :=
  accounts ← set_at (AccountMetaSlice inst) 2 (Some (SIGNER (WRITE (Meta signer))));
  Ok (WithAccounts accounts inst).

Definition GetSignerAccount (inst : t) : option AccountMeta :=
  Get (AccountMetaSlice inst) 2.

Definition SetTokenProgramAccount (tokenProgram : PublicKey) (inst : t) : res t :=
  accounts ← set_at (AccountMetaSlice inst) 3 (Some (Meta tokenProgram));
  Ok (WithAccounts accounts inst).

Definition GetTokenProgramAccount (inst : t) : option AccountMeta :=
  Get (AccountMetaSlice inst) 3.

Definition SetSystemProgramAccount (systemProgram : PublicKey) (inst : t) : res t :=
  accounts ← set_at (AccountMetaSlice inst) 4 (Some (Meta systemProgram));
  Ok (WithAccounts accounts inst).

Definition GetSystemProgramAccount (inst : t) : option AccountMeta :=
  Get (AccountMetaSlice inst) 4.

Definition Validate (inst : t) : res unit :=
  _ ← guard (is_set (BridgeId inst)) "BridgeId parameter is not set";
  _ ← validate_account (AccountMetaSlice inst) 0 "accounts.Mint is not set";
  _ ← validate_account (AccountMetaSlice inst) 1 "accounts.SplVault is not set";
  _ ← validate_account (AccountMetaSlice inst) 2 "accounts.Signer is not set";
  _ ← validate_account (AccountMetaSlice inst) 3 "accounts.TokenProgram is not set";
  _ ← validate_account (AccountMetaSlice inst) 4 "accounts.SystemProgram is not set";
  Ok tt.

Definition MarshalWithEncoder (obj : t) : res bytes :=
  b0 ← Encode TString (BridgeId obj);
  Ok (b0).

Definition UnmarshalWithDecoder (obj : t) (decoder : bytes) : res (t * bytes) :=
  r ← Decode TString decoder;
  let obj := SetBridgeId (fst r) obj in let decoder := snd r in
  Ok (obj, decoder).

Definition NewInitSplVaultInstruction
    (bridge_id : string) (mint : PublicKey) (splVault : PublicKey) (signer : PublicKey)
    (tokenProgram : PublicKey) (systemProgram : PublicKey) : res t :=
  let inst := NewInitSplVaultInstructionBuilder in
  let inst := SetBridgeId bridge_id inst in
  inst ← SetMintAccount mint inst;
  inst ← SetSplVaultAccount splVault inst;
  inst ← SetSignerAccount signer inst;
  inst ← SetTokenProgramAccount tokenProgram inst;
  inst ← SetSystemProgramAccount systemProgram inst;
  Ok inst.

Definition params (x : t) : list field :=
  [mk_field TString (BridgeId x)].

Lemma InitSplVault_roundtrip `{!SolanaGoSpec} x obj data rest :
  Forall field_typed (params x) → MarshalWithEncoder x = Ok data →
  UnmarshalWithDecoder obj (data ++ rest) =
    Ok (WithAccounts (AccountMetaSlice obj) x, rest).
Proof. unfold params, MarshalWithEncoder, UnmarshalWithDecoder. solve_roundtrip x. Qed.

Lemma InitSplVault_complete obj data x rest :
  UnmarshalWithDecoder obj data = Ok (x, rest) →
  Forall field_set (params x) ∧ AccountMetaSlice x = AccountMetaSlice obj.
Proof. unfold params, UnmarshalWithDecoder. solve_complete. Qed.

End instruction.
End InitSplVault.

(** *** [init_wrapped_mint.go] *)

Module InitWrappedMint.
Section instruction.
Context `{SolanaGo} (ProgramID : PublicKey).

Record t := mk {
  BridgeId : option string; Decimals : option Z; MintNonce : option Z;
  Symbol : option string; Name : option string; Uri : option string;
  AccountMetaSlice : list (option AccountMeta) }.

(** The embedded slice replaced. *)
Definition WithAccounts (accounts : list (option AccountMeta)) (inst : t) : t :=
    mk (BridgeId inst) (Decimals inst) (MintNonce inst) (Symbol inst) (Name inst)
    (Uri inst) accounts.

Definition NewInitWrappedMintInstructionBuilder : t :=
  mk None None None None None None
  (<[3%nat := Some (Meta SystemProgramAddress)]> (replicate 4 None)).

Definition SetBridgeId (bridge_id : string) (inst : t) : t :=
    mk (Some bridge_id) (Decimals inst) (MintNonce inst) (Symbol inst) (Name inst)
    (Uri inst) (AccountMetaSlice inst).

Definition SetDecimals (decimals : Z) (inst : t) : t :=
    mk (BridgeId inst) (Some decimals) (MintNonce inst) (Symbol inst) (Name inst)
    (Uri inst) (AccountMetaSlice inst).

Definition SetMintNonce (mint_nonce : Z) (inst : t) : t :=
    mk (BridgeId inst) (Decimals inst) (Some mint_nonce) (Symbol inst) (Name inst)
    (Uri inst) (AccountMetaSlice inst).

Definition SetSymbol (symbol : string) (inst : t) : t :=
    mk (BridgeId inst) (Decimals inst) (MintNonce inst) (Some symbol) (Name inst)
    (Uri inst) (AccountMetaSlice inst).

Definition SetName (name : string) (inst : t) : t :=
    mk (BridgeId inst) (Decimals inst) (MintNonce inst) (Symbol inst) (Some name)
    (Uri inst) (AccountMetaSlice inst).

Definition SetUri (uri : string) (inst : t) : t :=
    mk (BridgeId inst) (Decimals inst) (MintNonce inst) (Symbol inst) (Name inst)
    (Some uri) (AccountMetaSlice inst).

Definition SetMintAccount (mint : PublicKey) (inst : t) : res t :=
  accounts ← set_at (AccountMetaSlice inst) 0 (Some (WRITE (Meta mint)));
  Ok (WithAccounts accounts inst).

Definition GetMintAccount (inst : t) : option AccountMeta :=
  Get (AccountMetaSlice inst) 0.

Definition findMintAddress (symbol : string) (mintNonce : Z) (bridgeId : string) (knownBumpSeed : Z)
    : res (PublicKey * Z) :=
  let bumpSeed := 0 in
  symbolSeed ← MarshalBorsh TString symbol;
  mintNonceSeed ← MarshalBorsh TU64 mintNonce;
  bridgeIdSeed ← MarshalBorsh TString bridgeId;
  let seeds := [const_seed "mint"; symbolSeed; mintNonceSeed; bridgeIdSeed] in
  derive_address ProgramID seeds knownBumpSeed bumpSeed.

Definition findMintAddressWithBumpSeed (symbol : string) (mintNonce : Z) (bridgeId : string) (bumpSeed : Z) : res PublicKey :=
  fst <$> findMintAddress symbol mintNonce bridgeId bumpSeed.

Definition MustfindMintAddressWithBumpSeed (symbol : string) (mintNonce : Z) (bridgeId : string) (bumpSeed : Z) : res PublicKey :=
  must (fst <$> findMintAddress symbol mintNonce bridgeId bumpSeed).

Definition FindMintAddress (symbol : string) (mintNonce : Z) (bridgeId : string) : res (PublicKey * Z) :=
  findMintAddress symbol mintNonce bridgeId 0.

Definition MustFindMintAddress (symbol : string) (mintNonce : Z) (bridgeId : string) : res PublicKey :=
  must (fst <$> findMintAddress symbol mintNonce bridgeId 0).

Definition SetSignerAccount (signer : PublicKey) (inst : t) : res t :=
  accounts ← set_at (AccountMetaSlice inst) 1 (Some (SIGNER (WRITE (Meta signer))));
  Ok (WithAccounts accounts inst).

Definition GetSignerAccount (inst : t) : option AccountMeta :=
  Get (AccountMetaSlice inst) 1.

Definition SetTokenProgramAccount (tokenProgram : PublicKey) (inst : t) : res t :=
  accounts ← set_at (AccountMetaSlice inst) 2 (Some (Meta tokenProgram));
  Ok (WithAccounts accounts inst).

Definition GetTokenProgramAccount (inst : t) : option AccountMeta :=
  Get (AccountMetaSlice inst) 2.

Definition SetSystemProgramAccount (systemProgram : PublicKey) (inst : t) : res t :=
  accounts ← set_at (AccountMetaSlice inst) 3 (Some (Meta systemProgram));
  Ok (WithAccounts accounts inst).

Definition GetSystemProgramAccount (inst : t) : option AccountMeta :=
  Get (AccountMetaSlice inst) 3.

Definition Validate (inst : t) : res unit :=
  _ ← guard (is_set (BridgeId inst)) "BridgeId parameter is not set";
  _ ← guard (is_set (Decimals inst)) "Decimals parameter is not set";
  _ ← guard (is_set (MintNonce inst)) "MintNonce parameter is not set";
  _ ← guard (is_set (Symbol inst)) "Symbol parameter is not set";
  _ ← guard (is_set (Name inst)) "Name parameter is not set";
  _ ← guard (is_set (Uri inst)) "Uri parameter is not set";
  _ ← validate_account (AccountMetaSlice inst) 0 "accounts.Mint is not set";
  _ ← validate_account (AccountMetaSlice inst) 1 "accounts.Signer is not set";
  _ ← validate_account (AccountMetaSlice inst) 2 "accounts.TokenProgram is not set";
  _ ← validate_account (AccountMetaSlice inst) 3 "accounts.SystemProgram is not set";
  Ok tt.

Definition MarshalWithEncoder (obj : t) : res bytes :=
  b0 ← Encode TString (BridgeId obj);
  b1 ← Encode TU8 (Decimals obj);
  b2 ← Encode TU64 (MintNonce obj);
  b3 ← Encode TString (Symbol obj);
  b4 ← Encode TString (Name obj);
  b5 ← Encode TString (Uri obj);
  Ok (b0 ++ b1 ++ b2 ++ b3 ++ b4 ++ b5).

Definition UnmarshalWithDecoder (obj : t) (decoder : bytes) : res (t * bytes) :=
  r ← Decode TString decoder;
  let obj := SetBridgeId (fst r) obj in let decoder := snd r in
  r ← Decode TU8 decoder;
  let obj := SetDecimals (fst r) obj in let decoder := snd r in
  r ← Decode TU64 decoder;
  let obj := SetMintNonce (fst r) obj in let decoder := snd r in
  r ← Decode TString decoder;
  let obj := SetSymbol (fst r) obj in let decoder := snd r in
  r ← Decode TString decoder;
  let obj := SetName (fst r) obj in let decoder := snd r in
  r ← Decode TString decoder;
  let obj := SetUri (fst r) obj in let decoder := snd r in
  Ok (obj, decoder).

Definition NewInitWrappedMintInstruction
    (bridge_id : string) (decimals : Z) (mint_nonce : Z) (symbol : string)
    (name : string) (uri : string) (mint : PublicKey) (signer : PublicKey)
    (tokenProgram : PublicKey) (systemProgram : PublicKey) : res t :=
  let inst := NewInitWrappedMintInstructionBuilder in
  let inst := SetBridgeId bridge_id inst in
  let inst := SetDecimals decimals inst in
  let inst := SetMintNonce mint_nonce inst in
  let inst := SetSymbol symbol inst in
  let inst := SetName name inst in
  let inst := SetUri uri inst in
  inst ← SetMintAccount mint inst;
  inst ← SetSignerAccount signer inst;
  inst ← SetTokenProgramAccount tokenProgram inst;
  inst ← SetSystemProgramAccount systemProgram inst;
  Ok inst.

Definition params (x : t) : list field :=
  [mk_field TString (BridgeId x);
   mk_field TU8 (Decimals x);
   mk_field TU64 (MintNonce x);
   mk_field TString (Symbol x);
   mk_field TString (Name x);
   mk_field TString (Uri x)].

Lemma InitWrappedMint_roundtrip `{!SolanaGoSpec} x obj data rest :
  Forall field_typed (params x) → MarshalWithEncoder x = Ok data →
  UnmarshalWithDecoder obj (data ++ rest) =
    Ok (WithAccounts (AccountMetaSlice obj) x, rest).
Proof. unfold params, MarshalWithEncoder, UnmarshalWithDecoder. solve_roundtrip x. Qed.

Lemma InitWrappedMint_complete obj data x rest :
  UnmarshalWithDecoder obj data = Ok (x, rest) →
  Forall field_set (params x) ∧ AccountMetaSlice x = AccountMetaSlice obj.
Proof. unfold params, UnmarshalWithDecoder. solve_complete. Qed.

End instruction.
End InitWrappedMint.

(** *** [initialize.go] *)

Module Initialize.
Section instruction.
Context `{SolanaGo} (ProgramID : PublicKey).

Record t := mk {
  BridgeId : option string; Authorities : option (list bytes);
  AccountMetaSlice : list (option AccountMeta) }.

(** The embedded slice replaced. *)
Definition WithAccounts (accounts : list (option AccountMeta)) (inst : t) : t :=
    mk (BridgeId inst) (Authorities inst) accounts.

Definition NewInitializeInstructionBuilder : t :=
  mk None None (<[2%nat := Some (Meta SystemProgramAddress)]> (replicate 3 None)).

Definition SetBridgeId (bridge_id : string) (inst : t) : t :=
    mk (Some bridge_id) (Authorities inst) (AccountMetaSlice inst).

Definition SetAuthorities (authorities : list bytes) (inst : t) : t :=
    mk (BridgeId inst) (Some authorities) (AccountMetaSlice inst).

Definition SetAuthorityAccount (authority : PublicKey) (inst : t) : res t :=
  accounts ← set_at (AccountMetaSlice inst) 0 (Some (WRITE (Meta authority)));
  Ok (WithAccounts accounts inst).

Definition GetAuthorityAccount (inst : t) : option AccountMeta :=
  Get (AccountMetaSlice inst) 0.

Definition findAuthorityAddress (bridgeId : string) (knownBumpSeed : Z)
    : res (PublicKey * Z) :=
  let bumpSeed := 0 in
  bridgeIdSeed ← MarshalBorsh TString bridgeId;
  let seeds := [const_seed "authority"; bridgeIdSeed] in
  derive_address ProgramID seeds knownBumpSeed bumpSeed.

Definition findAuthorityAddressWithBumpSeed (bridgeId : string) (bumpSeed : Z) : res PublicKey :=
  fst <$> findAuthorityAddress bridgeId bumpSeed.

Definition MustfindAuthorityAddressWithBumpSeed (bridgeId : string) (bumpSeed : Z) : res PublicKey :=
  must (fst <$> findAuthorityAddress bridgeId bumpSeed).

Definition FindAuthorityAddress (bridgeId : string) : res (PublicKey * Z) :=
  findAuthorityAddress bridgeId 0.

Definition MustFindAuthorityAddress (bridgeId : string) : res PublicKey :=
  must (fst <$> findAuthorityAddress bridgeId 0).

Definition SetSignerAccount (signer : PublicKey) (inst : t) : res t :=
  accounts ← set_at (AccountMetaSlice inst) 1 (Some (SIGNER (WRITE (Meta signer))));
  Ok (WithAccounts accounts inst).

Definition GetSignerAccount (inst : t) : option AccountMeta :=
  Get (AccountMetaSlice inst) 1.

Definition SetSystemProgramAccount (systemProgram : PublicKey) (inst : t) : res t :=
  accounts ← set_at (AccountMetaSlice inst) 2 (Some (Meta systemProgram));
  Ok (WithAccounts accounts inst).

Definition GetSystemProgramAccount (inst : t) : option AccountMeta :=
  Get (AccountMetaSlice inst) 2.

Definition Validate (inst : t) : res unit :=
  _ ← guard (is_set (BridgeId inst)) "BridgeId parameter is not set";
  _ ← guard (is_set (Authorities inst)) "Authorities parameter is not set";
  _ ← validate_account (AccountMetaSlice inst) 0 "accounts.Authority is not set";
  _ ← validate_account (AccountMetaSlice inst) 1 "accounts.Signer is not set";
  _ ← validate_account (AccountMetaSlice inst) 2 "accounts.SystemProgram is not set";
  Ok tt.

Definition MarshalWithEncoder (obj : t) : res bytes :=
  b0 ← Encode TString (BridgeId obj);
  b1 ← Encode (TVecArr 33) (Authorities obj);
  Ok (b0 ++ b1).

Definition UnmarshalWithDecoder (obj : t) (decoder : bytes) : res (t * bytes) :=
  r ← Decode TString decoder;
  let obj := SetBridgeId (fst r) obj in let decoder := snd r in
  r ← Decode (TVecArr 33) decoder;
  let obj := SetAuthorities (fst r) obj in let decoder := snd r in
  Ok (obj, decoder).

Definition NewInitializeInstruction
    (bridge_id : string) (authorities : list bytes) (authority : PublicKey)
    (signer : PublicKey) (systemProgram : PublicKey) : res t :=
  let inst := NewInitializeInstructionBuilder in
  let inst := SetBridgeId bridge_id inst in
  let inst := SetAuthorities authorities inst in
  inst ← SetAuthorityAccount authority inst;
  inst ← SetSignerAccount signer inst;
  inst ← SetSystemProgramAccount systemProgram inst;
  Ok inst.

Definition params (x : t) : list field :=
  [mk_field TString (BridgeId x);
   mk_field (TVecArr 33) (Authorities x)].

Lemma Initialize_roundtrip `{!SolanaGoSpec} x obj data rest :
  Forall field_typed (params x) → MarshalWithEncoder x = Ok data →
  UnmarshalWithDecoder obj (data ++ rest) =
    Ok (WithAccounts (AccountMetaSlice obj) x, rest).
Proof. unfold params, MarshalWithEncoder, UnmarshalWithDecoder. solve_roundtrip x. Qed.

Lemma Initialize_complete obj data x rest :
  UnmarshalWithDecoder obj data = Ok (x, rest) →
  Forall field_set (params x) ∧ AccountMetaSlice x = AccountMetaSlice obj.
Proof. unfold params, UnmarshalWithDecoder. solve_complete. Qed.

End instruction.
End Initialize.

(** *** [withdraw_native.go] *)

Module WithdrawNative.
Section instruction.
Context `{SolanaGo} (ProgramID : PublicKey).

Record t := mk {
  BridgeId : option string; Hash : option bytes; Amount : option Z; Uid : option bytes;
  Signature : option bytes; RecoveryId : option Z;
  AccountMetaSlice : list (option AccountMeta) }.

(** The embedded slice replaced. *)
Definition WithAccounts (accounts : list (option AccountMeta)) (inst : t) : t :=
    mk (BridgeId inst) (Hash inst) (Amount inst) (Uid inst) (Signature inst)
    (RecoveryId inst) accounts.

Definition NewWithdrawNativeInstructionBuilder : t :=
  mk None None None None None None
  (<[4%nat := Some (Meta SystemProgramAddress)]> (replicate 5 None)).

Definition SetBridgeId (bridge_id : string) (inst : t) : t :=
    mk (Some bridge_id) (Hash inst) (Amount inst) (Uid inst) (Signature inst)
    (RecoveryId inst) (AccountMetaSlice inst).

Definition SetHash (hash : bytes) (inst : t) : t :=
    mk (BridgeId inst) (Some hash) (Amount inst) (Uid inst) (Signature inst)
    (RecoveryId inst) (AccountMetaSlice inst).

Definition SetAmount (amount : Z) (inst : t) : t :=
    mk (BridgeId inst) (Hash inst) (Some amount) (Uid inst) (Signature inst)
    (RecoveryId inst) (AccountMetaSlice inst).

Definition SetUid (uid : bytes) (inst : t) : t :=
    mk (BridgeId inst) (Hash inst) (Amount inst) (Some uid) (Signature inst)
    (RecoveryId inst) (AccountMetaSlice inst).

Definition SetSignature (signature : bytes) (inst : t) : t :=
    mk (BridgeId inst) (Hash inst) (Amount inst) (Uid inst) (Some signature)
    (RecoveryId inst) (AccountMetaSlice inst).

Definition SetRecoveryId (recovery_id : Z) (inst : t) : t :=
    mk (BridgeId inst) (Hash inst) (Amount inst) (Uid inst) (Signature inst)
    (Some recovery_id) (AccountMetaSlice inst).

Definition SetReceiverAccount (receiver : PublicKey) (inst : t) : res t :=
  accounts ← set_at (AccountMetaSlice inst) 0 (Some (WRITE (Meta receiver)));
  Ok (WithAccounts accounts inst).

Definition GetReceiverAccount (inst : t) : option AccountMeta :=
  Get (AccountMetaSlice inst) 0.

Definition SetAuthorityAccount (authority : PublicKey) (inst : t) : res t :=
  accounts ← set_at (AccountMetaSlice inst) 1 (Some (WRITE (Meta authority)));
  Ok (WithAccounts accounts inst).

Definition GetAuthorityAccount (inst : t) : option AccountMeta :=
  Get (AccountMetaSlice inst) 1.

Definition findAuthorityAddress (bridgeId : string) (knownBumpSeed : Z)
    : res (PublicKey * Z) :=
  let bumpSeed := 0 in
  bridgeIdSeed ← MarshalBorsh TString bridgeId;
  let seeds := [const_seed "authority"; bridgeIdSeed] in
  derive_address ProgramID seeds knownBumpSeed bumpSeed.

Definition findAuthorityAddressWithBumpSeed (bridgeId : string) (bumpSeed : Z) : res PublicKey :=
  fst <$> findAuthorityAddress bridgeId bumpSeed.

Definition MustfindAuthorityAddressWithBumpSeed (bridgeId : string) (bumpSeed : Z) : res PublicKey :=
  must (fst <$> findAuthorityAddress bridgeId bumpSeed).

Definition FindAuthorityAddress (bridgeId : string) : res (PublicKey * Z) :=
  findAuthorityAddress bridgeId 0.

Definition MustFindAuthorityAddress (bridgeId : string) : res PublicKey :=
  must (fst <$> findAuthorityAddress bridgeId 0).

Definition SetTxUsedAccount (txUsed : PublicKey) (inst : t) : res t :=
  accounts ← set_at (AccountMetaSlice inst) 2 (Some (WRITE (Meta txUsed)));
  Ok (WithAccounts accounts inst).

Definition GetTxUsedAccount (inst : t) : option AccountMeta :=
  Get (AccountMetaSlice inst) 2.

Definition findTxUsedAddress (hash : bytes) (bridgeId : string) (knownBumpSeed : Z)
    : res (PublicKey * Z) :=
  let bumpSeed := 0 in
  hashSeed ← MarshalBorsh (TArr 32) hash;
  bridgeIdSeed ← MarshalBorsh TString bridgeId;
  let seeds := [const_seed "withdraw"; hashSeed; bridgeIdSeed] in
  derive_address ProgramID seeds knownBumpSeed bumpSeed.

Definition findTxUsedAddressWithBumpSeed (hash : bytes) (bridgeId : string) (bumpSeed : Z) : res PublicKey :=
  fst <$> findTxUsedAddress hash bridgeId bumpSeed.

Definition MustfindTxUsedAddressWithBumpSeed (hash : bytes) (bridgeId : string) (bumpSeed : Z) : res PublicKey :=
  must (fst <$> findTxUsedAddress hash bridgeId bumpSeed).

Definition FindTxUsedAddress (hash : bytes) (bridgeId : string) : res (PublicKey * Z) :=
  findTxUsedAddress hash bridgeId 0.

Definition MustFindTxUsedAddress (hash : bytes) (bridgeId : string) : res PublicKey :=
  must (fst <$> findTxUsedAddress hash bridgeId 0).

Definition SetSignerAccount (signer : PublicKey) (inst : t) : res t :=
  accounts ← set_at (AccountMetaSlice inst) 3 (Some (SIGNER (WRITE (Meta signer))));
  Ok (WithAccounts accounts inst).

Definition GetSignerAccount (inst : t) : option AccountMeta :=
  Get (AccountMetaSlice inst) 3.

Definition SetSystemProgramAccount (systemProgram : PublicKey) (inst : t) : res t :=
  accounts ← set_at (AccountMetaSlice inst) 4 (Some (Meta systemProgram));
  Ok (WithAccounts accounts inst).

Definition GetSystemProgramAccount (inst : t) : option AccountMeta :=
  Get (AccountMetaSlice inst) 4.

Definition Validate (inst : t) : res unit :=
  _ ← guard (is_set (BridgeId inst)) "BridgeId parameter is not set";
  _ ← guard (is_set (Hash inst)) "Hash parameter is not set";
  _ ← guard (is_set (Amount inst)) "Amount parameter is not set";
  _ ← guard (is_set (Uid inst)) "Uid parameter is not set";
  _ ← guard (is_set (Signature inst)) "Signature parameter is not set";
  _ ← guard (is_set (RecoveryId inst)) "RecoveryId parameter is not set";
  _ ← validate_account (AccountMetaSlice inst) 0 "accounts.Receiver is not set";
  _ ← validate_account (AccountMetaSlice inst) 1 "accounts.Authority is not set";
  _ ← validate_account (AccountMetaSlice inst) 2 "accounts.TxUsed is not set";
  _ ← validate_account (AccountMetaSlice inst) 3 "accounts.Signer is not set";
  _ ← validate_account (AccountMetaSlice inst) 4 "accounts.SystemProgram is not set";
  Ok tt.

Definition MarshalWithEncoder (obj : t) : res bytes :=
  b0 ← Encode TString (BridgeId obj);
  b1 ← Encode (TArr 32) (Hash obj);
  b2 ← Encode TU64 (Amount obj);
  b3 ← Encode (TArr 32) (Uid obj);
  b4 ← Encode (TArr 64) (Signature obj);
  b5 ← Encode TU8 (RecoveryId obj);
  Ok (b0 ++ b1 ++ b2 ++ b3 ++ b4 ++ b5).

Definition UnmarshalWithDecoder (obj : t) (decoder : bytes) : res (t * bytes) :=
  r ← Decode TString decoder;
  let obj := SetBridgeId (fst r) obj in let decoder := snd r in
  r ← Decode (TArr 32) decoder;
  let obj := SetHash (fst r) obj in let decoder := snd r in
  r ← Decode TU64 decoder;
  let obj := SetAmount (fst r) obj in let decoder := snd r in
  r ← Decode (TArr 32) decoder;
  let obj := SetUid (fst r) obj in let decoder := snd r in
  r ← Decode (TArr 64) decoder;
  let obj := SetSignature (fst r) obj in let decoder := snd r in
  r ← Decode TU8 decoder;
  let obj := SetRecoveryId (fst r) obj in let decoder := snd r in
  Ok (obj, decoder).

Definition NewWithdrawNativeInstruction
    (bridge_id : string) (hash : bytes) (amount : Z) (uid : bytes) (signature : bytes)
    (recovery_id : Z) (receiver : PublicKey) (authority : PublicKey)
    (txUsed : PublicKey) (signer : PublicKey) (systemProgram : PublicKey) : res t :=
  let inst := NewWithdrawNativeInstructionBuilder in
  let inst := SetBridgeId bridge_id inst in
  let inst := SetHash hash inst in
  let inst := SetAmount amount inst in
  let inst := SetUid uid inst in
  let inst := SetSignature signature inst in
  let inst := SetRecoveryId recovery_id inst in
  inst ← SetReceiverAccount receiver inst;
  inst ← SetAuthorityAccount authority inst;
  inst ← SetTxUsedAccount txUsed inst;
  inst ← SetSignerAccount signer inst;
  inst ← SetSystemProgramAccount systemProgram inst;
  Ok inst.

Definition params (x : t) : list field :=
  [mk_field TString (BridgeId x);
   mk_field (TArr 32) (Hash x);
   mk_field TU64 (Amount x);
   mk_field (TArr 32) (Uid x);
   mk_field (TArr 64) (Signature x);
   mk_field TU8 (RecoveryId x)].

Lemma WithdrawNative_roundtrip `{!SolanaGoSpec} x obj data rest :
  Forall field_typed (params x) → MarshalWithEncoder x = Ok data →
  UnmarshalWithDecoder obj (data ++ rest) =
    Ok (WithAccounts (AccountMetaSlice obj) x, rest).
Proof. unfold params, MarshalWithEncoder, UnmarshalWithDecoder. solve_roundtrip x. Qed.

Lemma WithdrawNative_complete obj data x rest :
  UnmarshalWithDecoder obj data = Ok (x, rest) →
  Forall field_set (params x) ∧ AccountMetaSlice x = AccountMetaSlice obj.
Proof. unfold params, UnmarshalWithDecoder. solve_complete. Qed.

End instruction.
End WithdrawNative.

(** *** [withdraw_spl.go] *)

Module WithdrawSpl.
Section instruction.
Context `{SolanaGo} (ProgramID : PublicKey).

Record t := mk {
  BridgeId : option string; Hash : option bytes; Amount : option Z; Uid : option bytes;
  Signature : option bytes; RecoveryId : option Z;
  AccountMetaSlice : list (option AccountMeta) }.

(** The embedded slice replaced. *)
Definition WithAccounts (accounts : list (option AccountMeta)) (inst : t) : t :=
    mk (BridgeId inst) (Hash inst) (Amount inst) (Uid inst) (Signature inst)
    (RecoveryId inst) accounts.

Definition NewWithdrawSplInstructionBuilder : t :=
  mk None None None None None None
  (<[6%nat := Some (Meta SystemProgramAddress)]> (replicate 8 None)).

Definition SetBridgeId (bridge_id : string) (inst : t) : t :=
    mk (Some bridge_id) (Hash inst) (Amount inst) (Uid inst) (Signature inst)
    (RecoveryId inst) (AccountMetaSlice inst).

Definition SetHash (hash : bytes) (inst : t) : t :=
    mk (BridgeId inst) (Some hash) (Amount inst) (Uid inst) (Signature inst)
    (RecoveryId inst) (AccountMetaSlice inst).

Definition SetAmount (amount : Z) (inst : t) : t :=
    mk (BridgeId inst) (Hash inst) (Some amount) (Uid inst) (Signature inst)
    (RecoveryId inst) (AccountMetaSlice inst).

Definition SetUid (uid : bytes) (inst : t) : t :=
    mk (BridgeId inst) (Hash inst) (Amount inst) (Some uid) (Signature inst)
    (RecoveryId inst) (AccountMetaSlice inst).

Definition SetSignature (signature : bytes) (inst : t) : t :=
    mk (BridgeId inst) (Hash inst) (Amount inst) (Uid inst) (Some signature)
    (RecoveryId inst) (AccountMetaSlice inst).

Definition SetRecoveryId (recovery_id : Z) (inst : t) : t :=
    mk (BridgeId inst) (Hash inst) (Amount inst) (Uid inst) (Signature inst)
    (Some recovery_id) (AccountMetaSlice inst).

Definition SetMintAccount (mint : PublicKey) (inst : t) : res t :=
  accounts ← set_at (AccountMetaSlice inst) 0 (Some (Meta mint));
  Ok (WithAccounts accounts inst).

Definition GetMintAccount (inst : t) : option AccountMeta :=
  Get (AccountMetaSlice inst) 0.

Definition SetSplVaultAccount (splVault : PublicKey) (inst : t) : res t :=
  accounts ← set_at (AccountMetaSlice inst) 1 (Some (WRITE (Meta splVault)));
  Ok (WithAccounts accounts inst).

Definition GetSplVaultAccount (inst : t) : option AccountMeta :=
  Get (AccountMetaSlice inst) 1.

Definition findSplVaultAddress (mint : PublicKey) (bridgeId : string) (knownBumpSeed : Z)
    : res (PublicKey * Z) :=
  let bumpSeed := 0 in
  bridgeIdSeed ← MarshalBorsh TString bridgeId;
  let seeds := [const_seed "vault"; key_Bytes mint; bridgeIdSeed] in
  derive_address ProgramID seeds knownBumpSeed bumpSeed.

Definition findSplVaultAddressWithBumpSeed (mint : PublicKey) (bridgeId : string) (bumpSeed : Z) : res PublicKey :=
  fst <$> findSplVaultAddress mint bridgeId bumpSeed.

Definition MustfindSplVaultAddressWithBumpSeed (mint : PublicKey) (bridgeId : string) (bumpSeed : Z) : res PublicKey :=
  must (fst <$> findSplVaultAddress mint bridgeId bumpSeed).

Definition FindSplVaultAddress (mint : PublicKey) (bridgeId : string) : res (PublicKey * Z) :=
  findSplVaultAddress mint bridgeId 0.

Definition MustFindSplVaultAddress (mint : PublicKey) (bridgeId : string) : res PublicKey :=
  must (fst <$> findSplVaultAddress mint bridgeId 0).

Definition SetReceiverAccount (receiver : PublicKey) (inst : t) : res t :=
  accounts ← set_at (AccountMetaSlice inst) 2 (Some (WRITE (Meta receiver)));
  Ok (WithAccounts accounts inst).

Definition GetReceiverAccount (inst : t) : option AccountMeta :=
  Get (AccountMetaSlice inst) 2.

Definition SetAuthorityAccount (authority : PublicKey) (inst : t) : res t :=
  accounts ← set_at (AccountMetaSlice inst) 3 (Some (Meta authority));
  Ok (WithAccounts accounts inst).

Definition GetAuthorityAccount (inst : t) : option AccountMeta :=
  Get (AccountMetaSlice inst) 3.

Definition findAuthorityAddress (bridgeId : string) (knownBumpSeed : Z)
    : res (PublicKey * Z) :=
  let bumpSeed := 0 in
  bridgeIdSeed ← MarshalBorsh TString bridgeId;
  let seeds := [const_seed "authority"; bridgeIdSeed] in
  derive_address ProgramID seeds knownBumpSeed bumpSeed.

Definition findAuthorityAddressWithBumpSeed (bridgeId : string) (bumpSeed : Z) : res PublicKey :=
  fst <$> findAuthorityAddress bridgeId bumpSeed.

Definition MustfindAuthorityAddressWithBumpSeed (bridgeId : string) (bumpSeed : Z) : res PublicKey :=
  must (fst <$> findAuthorityAddress bridgeId bumpSeed).

Definition FindAuthorityAddress (bridgeId : string) : res (PublicKey * Z) :=
  findAuthorityAddress bridgeId 0.

Definition MustFindAuthorityAddress (bridgeId : string) : res PublicKey :=
  must (fst <$> findAuthorityAddress bridgeId 0).

Definition SetTxUsedAccount (txUsed : PublicKey) (inst : t) : res t :=
  accounts ← set_at (AccountMetaSlice inst) 4 (Some (WRITE (Meta txUsed)));
  Ok (WithAccounts accounts inst).

Definition GetTxUsedAccount (inst : t) : option AccountMeta :=
  Get (AccountMetaSlice inst) 4.

Definition findTxUsedAddress (hash : bytes) (bridgeId : string) (knownBumpSeed : Z)
    : res (PublicKey * Z) :=
  let bumpSeed := 0 in
  hashSeed ← MarshalBorsh (TArr 32) hash;
  bridgeIdSeed ← MarshalBorsh TString bridgeId;
  let seeds := [const_seed "withdraw"; hashSeed; bridgeIdSeed] in
  derive_address ProgramID seeds knownBumpSeed bumpSeed.

Definition findTxUsedAddressWithBumpSeed (hash : bytes) (bridgeId : string) (bumpSeed : Z) : res PublicKey :=
  fst <$> findTxUsedAddress hash bridgeId bumpSeed.

Definition MustfindTxUsedAddressWithBumpSeed (hash : bytes) (bridgeId : string) (bumpSeed : Z) : res PublicKey :=
  must (fst <$> findTxUsedAddress hash bridgeId bumpSeed).

Definition FindTxUsedAddress (hash : bytes) (bridgeId : string) : res (PublicKey * Z) :=
  findTxUsedAddress hash bridgeId 0.

Definition MustFindTxUsedAddress (hash : bytes) (bridgeId : string) : res PublicKey :=
  must (fst <$> findTxUsedAddress hash bridgeId 0).

Definition SetSignerAccount (signer : PublicKey) (inst : t) : res t :=
  accounts ← set_at (AccountMetaSlice inst) 5 (Some (SIGNER (WRITE (Meta signer))));
  Ok (WithAccounts accounts inst).

Definition GetSignerAccount (inst : t) : option AccountMeta :=
  Get (AccountMetaSlice inst) 5.

Definition SetSystemProgramAccount (systemProgram : PublicKey) (inst : t) : res t :=
  accounts ← set_at (AccountMetaSlice inst) 6 (Some (Meta systemProgram));
  Ok (WithAccounts accounts inst).

Definition GetSystemProgramAccount (inst : t) : option AccountMeta :=
  Get (AccountMetaSlice inst) 6.

Definition SetTokenProgramAccount (tokenProgram : PublicKey) (inst : t) : res t :=
  accounts ← set_at (AccountMetaSlice inst) 7 (Some (Meta tokenProgram));
  Ok (WithAccounts accounts inst).

Definition GetTokenProgramAccount (inst : t) : option AccountMeta :=
  Get (AccountMetaSlice inst) 7.

Definition Validate (inst : t) : res unit :=
  _ ← guard (is_set (BridgeId inst)) "BridgeId parameter is not set";
  _ ← guard (is_set (Hash inst)) "Hash parameter is not set";
  _ ← guard (is_set (Amount inst)) "Amount parameter is not set";
  _ ← guard (is_set (Uid inst)) "Uid parameter is not set";
  _ ← guard (is_set (Signature inst)) "Signature parameter is not set";
  _ ← guard (is_set (RecoveryId inst)) "RecoveryId parameter is not set";
  _ ← validate_account (AccountMetaSlice inst) 0 "accounts.Mint is not set";
  _ ← validate_account (AccountMetaSlice inst) 1 "accounts.SplVault is not set";
  _ ← validate_account (AccountMetaSlice inst) 2 "accounts.Receiver is not set";
  _ ← validate_account (AccountMetaSlice inst) 3 "accounts.Authority is not set";
  _ ← validate_account (AccountMetaSlice inst) 4 "accounts.TxUsed is not set";
  _ ← validate_account (AccountMetaSlice inst) 5 "accounts.Signer is not set";
  _ ← validate_account (AccountMetaSlice inst) 6 "accounts.SystemProgram is not set";
  _ ← validate_account (AccountMetaSlice inst) 7 "accounts.TokenProgram is not set";
  Ok tt.

Definition MarshalWithEncoder (obj : t) : res bytes :=
  b0 ← Encode TString (BridgeId obj);
  b1 ← Encode (TArr 32) (Hash obj);
  b2 ← Encode TU64 (Amount obj);
  b3 ← Encode (TArr 32) (Uid obj);
  b4 ← Encode (TArr 64) (Signature obj);
  b5 ← Encode TU8 (RecoveryId obj);
  Ok (b0 ++ b1 ++ b2 ++ b3 ++ b4 ++ b5).

Definition UnmarshalWithDecoder (obj : t) (decoder : bytes) : res (t * bytes) :=
  r ← Decode TString decoder;
  let obj := SetBridgeId (fst r) obj in let decoder := snd r in
  r ← Decode (TArr 32) decoder;
  let obj := SetHash (fst r) obj in let decoder := snd r in
  r ← Decode TU64 decoder;
  let obj := SetAmount (fst r) obj in let decoder := snd r in
  r ← Decode (TArr 32) decoder;
  let obj := SetUid (fst r) obj in let decoder := snd r in
  r ← Decode (TArr 64) decoder;
  let obj := SetSignature (fst r) obj in let decoder := snd r in
  r ← Decode TU8 decoder;
  let obj := SetRecoveryId (fst r) obj in let decoder := snd r in
  Ok (obj, decoder).

Definition NewWithdrawSplInstruction
    (bridge_id : string) (hash : bytes) (amount : Z) (uid : bytes) (signature : bytes)
    (recovery_id : Z) (mint : PublicKey) (splVault : PublicKey) (receiver : PublicKey)
    (authority : PublicKey) (txUsed : PublicKey) (signer : PublicKey)
    (systemProgram : PublicKey) (tokenProgram : PublicKey) : res t :=
  let inst := NewWithdrawSplInstructionBuilder in
  let inst := SetBridgeId bridge_id inst in
  let inst := SetHash hash inst in
  let inst := SetAmount amount inst in
  let inst := SetUid uid inst in
  let inst := SetSignature signature inst in
  let inst := SetRecoveryId recovery_id inst in
  inst ← SetMintAccount mint inst;
  inst ← SetSplVaultAccount splVault inst;
  inst ← SetReceiverAccount receiver inst;
  inst ← SetAuthorityAccount authority inst;
  inst ← SetTxUsedAccount txUsed inst;
  inst ← SetSignerAccount signer inst;
  inst ← SetSystemProgramAccount systemProgram inst;
  inst ← SetTokenProgramAccount tokenProgram inst;
  Ok inst.

Definition params (x : t) : list field :=
  [mk_field TString (BridgeId x);
   mk_field (TArr 32) (Hash x);
   mk_field TU64 (Amount x);
   mk_field (TArr 32) (Uid x);
   mk_field (TArr 64) (Signature x);
   mk_field TU8 (RecoveryId x)].

Lemma WithdrawSpl_roundtrip `{!SolanaGoSpec} x obj data rest :
  Forall field_typed (params x) → MarshalWithEncoder x = Ok data →
  UnmarshalWithDecoder obj (data ++ rest) =
    Ok (WithAccounts (AccountMetaSlice obj) x, rest).
Proof. unfold params, MarshalWithEncoder, UnmarshalWithDecoder. solve_roundtrip x. Qed.

Lemma WithdrawSpl_complete obj data x rest :
  UnmarshalWithDecoder obj data = Ok (x, rest) →
  Forall field_set (params x) ∧ AccountMetaSlice x = AccountMetaSlice obj.
Proof. unfold params, UnmarshalWithDecoder. solve_complete. Qed.

End instruction.
End WithdrawSpl.

(** *** [withdraw_wrapped.go] *)

Module WithdrawWrapped.
Section instruction.
Context `{SolanaGo} (ProgramID : PublicKey).

Record t := mk {
  BridgeId : option string; Hash : option bytes; MintNonce : option Z;
  Symbol : option string; Amount : option Z; Uid : option bytes;
  Signature : option bytes; RecoveryId : option Z;
  AccountMetaSlice : list (option AccountMeta) }.

(** The embedded slice replaced. *)
Definition WithAccounts (accounts : list (option AccountMeta)) (inst : t) : t :=
    mk (BridgeId inst) (Hash inst) (MintNonce inst) (Symbol inst) (Amount inst)
    (Uid inst) (Signature inst) (RecoveryId inst) accounts.

Definition NewWithdrawWrappedInstructionBuilder : t :=
  mk None None None None None None None None
  (<[5%nat := Some (Meta SystemProgramAddress)]> (replicate 7 None)).

Definition SetBridgeId (bridge_id : string) (inst : t) : t :=
    mk (Some bridge_id) (Hash inst) (MintNonce inst) (Symbol inst) (Amount inst)
    (Uid inst) (Signature inst) (RecoveryId inst) (AccountMetaSlice inst).

Definition SetHash (hash : bytes) (inst : t) : t :=
    mk (BridgeId inst) (Some hash) (MintNonce inst) (Symbol inst) (Amount inst)
    (Uid inst) (Signature inst) (RecoveryId inst) (AccountMetaSlice inst).

Definition SetMintNonce (mint_nonce : Z) (inst : t) : t :=
    mk (BridgeId inst) (Hash inst) (Some mint_nonce) (Symbol inst) (Amount inst)
    (Uid inst) (Signature inst) (RecoveryId inst) (AccountMetaSlice inst).

Definition SetSymbol (symbol : string) (inst : t) : t :=
    mk (BridgeId inst) (Hash inst) (MintNonce inst) (Some symbol) (Amount inst)
    (Uid inst) (Signature inst) (RecoveryId inst) (AccountMetaSlice inst).

Definition SetAmount (amount : Z) (inst : t) : t :=
    mk (BridgeId inst) (Hash inst) (MintNonce inst) (Symbol inst) (Some amount)
    (Uid inst) (Signature inst) (RecoveryId inst) (AccountMetaSlice inst).

Definition SetUid (uid : bytes) (inst : t) : t :=
    mk (BridgeId inst) (Hash inst) (MintNonce inst) (Symbol inst) (Amount inst)
    (Some uid) (Signature inst) (RecoveryId inst) (AccountMetaSlice inst).

Definition SetSignature (signature : bytes) (inst : t) : t :=
    mk (BridgeId inst) (Hash inst) (MintNonce inst) (Symbol inst) (Amount inst)
    (Uid inst) (Some signature) (RecoveryId inst) (AccountMetaSlice inst).

Definition SetRecoveryId (recovery_id : Z) (inst : t) : t :=
    mk (BridgeId inst) (Hash inst) (MintNonce inst) (Symbol inst) (Amount inst)
    (Uid inst) (Signature inst) (Some recovery_id) (AccountMetaSlice inst).

Definition SetMintAccount (mint : PublicKey) (inst : t) : res t :=
  accounts ← set_at (AccountMetaSlice inst) 0 (Some (WRITE (Meta mint)));
  Ok (WithAccounts accounts inst).

Definition GetMintAccount (inst : t) : option AccountMeta :=
  Get (AccountMetaSlice inst) 0.

Definition findMintAddress (symbol : string) (mintNonce : Z) (bridgeId : string) (knownBumpSeed : Z)
    : res (PublicKey * Z) :=
  let bumpSeed := 0 in
  symbolSeed ← MarshalBorsh TString symbol;
  mintNonceSeed ← MarshalBorsh TU64 mintNonce;
  bridgeIdSeed ← MarshalBorsh TString bridgeId;
  let seeds := [const_seed "mint"; symbolSeed; mintNonceSeed; bridgeIdSeed] in
  derive_address ProgramID seeds knownBumpSeed bumpSeed.

Definition findMintAddressWithBumpSeed (symbol : string) (mintNonce : Z) (bridgeId : string) (bumpSeed : Z) : res PublicKey :=
  fst <$> findMintAddress symbol mintNonce bridgeId bumpSeed.

Definition MustfindMintAddressWithBumpSeed (symbol : string) (mintNonce : Z) (bridgeId : string) (bumpSeed : Z) : res PublicKey :=
  must (fst <$> findMintAddress symbol mintNonce bridgeId bumpSeed).

Definition FindMintAddress (symbol : string) (mintNonce : Z) (bridgeId : string) : res (PublicKey * Z) :=
  findMintAddress symbol mintNonce bridgeId 0.

Definition MustFindMintAddress (symbol : string) (mintNonce : Z) (bridgeId : string) : res PublicKey :=
  must (fst <$> findMintAddress symbol mintNonce bridgeId 0).

Definition SetReceiverAccount (receiver : PublicKey) (inst : t) : res t :=
  accounts ← set_at (AccountMetaSlice inst) 1 (Some (WRITE (Meta receiver)));
  Ok (WithAccounts accounts inst).

Definition GetReceiverAccount (inst : t) : option AccountMeta :=
  Get (AccountMetaSlice inst) 1.

Definition SetAuthorityAccount (authority : PublicKey) (inst : t) : res t :=
  accounts ← set_at (AccountMetaSlice inst) 2 (Some (Meta authority));
  Ok (WithAccounts accounts inst).

Definition GetAuthorityAccount (inst : t) : option AccountMeta :=
  Get (AccountMetaSlice inst) 2.

Definition findAuthorityAddress (bridgeId : string) (knownBumpSeed : Z)
    : res (PublicKey * Z) :=
  let bumpSeed := 0 in
  bridgeIdSeed ← MarshalBorsh TString bridgeId;
  let seeds := [const_seed "authority"; bridgeIdSeed] in
  derive_address ProgramID seeds knownBumpSeed bumpSeed.

Definition findAuthorityAddressWithBumpSeed (bridgeId : string) (bumpSeed : Z) : res PublicKey :=
  fst <$> findAuthorityAddress bridgeId bumpSeed.

Definition MustfindAuthorityAddressWithBumpSeed (bridgeId : string) (bumpSeed : Z) : res PublicKey :=
  must (fst <$> findAuthorityAddress bridgeId bumpSeed).

Definition FindAuthorityAddress (bridgeId : string) : res (PublicKey * Z) :=
  findAuthorityAddress bridgeId 0.

Definition MustFindAuthorityAddress (bridgeId : string) : res PublicKey :=
  must (fst <$> findAuthorityAddress bridgeId 0).

Definition SetTxUsedAccount (txUsed : PublicKey) (inst : t) : res t :=
  accounts ← set_at (AccountMetaSlice inst) 3 (Some (WRITE (Meta txUsed)));
  Ok (WithAccounts accounts inst).

Definition GetTxUsedAccount (inst : t) : option AccountMeta :=
  Get (AccountMetaSlice inst) 3.

Definition findTxUsedAddress (hash : bytes) (bridgeId : string) (knownBumpSeed : Z)
    : res (PublicKey * Z) :=
  let bumpSeed := 0 in
  hashSeed ← MarshalBorsh (TArr 32) hash;
  bridgeIdSeed ← MarshalBorsh TString bridgeId;
  let seeds := [const_seed "withdraw"; hashSeed; bridgeIdSeed] in
  derive_address ProgramID seeds knownBumpSeed bumpSeed.

Definition findTxUsedAddressWithBumpSeed (hash : bytes) (bridgeId : string) (bumpSeed : Z) : res PublicKey :=
  fst <$> findTxUsedAddress hash bridgeId bumpSeed.

Definition MustfindTxUsedAddressWithBumpSeed (hash : bytes) (bridgeId : string) (bumpSeed : Z) : res PublicKey :=
  must (fst <$> findTxUsedAddress hash bridgeId bumpSeed).

Definition FindTxUsedAddress (hash : bytes) (bridgeId : string) : res (PublicKey * Z) :=
  findTxUsedAddress hash bridgeId 0.

Definition MustFindTxUsedAddress (hash : bytes) (bridgeId : string) : res PublicKey :=
  must (fst <$> findTxUsedAddress hash bridgeId 0).

Definition SetSignerAccount (signer : PublicKey) (inst : t) : res t :=
  accounts ← set_at (AccountMetaSlice inst) 4 (Some (SIGNER (WRITE (Meta signer))));
  Ok (WithAccounts accounts inst).

Definition GetSignerAccount (inst : t) : option AccountMeta :=
  Get (AccountMetaSlice inst) 4.

Definition SetSystemProgramAccount (systemProgram : PublicKey) (inst : t) : res t :=
  accounts ← set_at (AccountMetaSlice inst) 5 (Some (Meta systemProgram));
  Ok (WithAccounts accounts inst).

Definition GetSystemProgramAccount (inst : t) : option AccountMeta :=
  Get (AccountMetaSlice inst) 5.

Definition SetTokenProgramAccount (tokenProgram : PublicKey) (inst : t) : res t :=
  accounts ← set_at (AccountMetaSlice inst) 6 (Some (Meta tokenProgram));
  Ok (WithAccounts accounts inst).

Definition GetTokenProgramAccount (inst : t) : option AccountMeta :=
  Get (AccountMetaSlice inst) 6.

Definition Validate (inst : t) : res unit :=
  _ ← guard (is_set (BridgeId inst)) "BridgeId parameter is not set";
  _ ← guard (is_set (Hash inst)) "Hash parameter is not set";
  _ ← guard (is_set (MintNonce inst)) "MintNonce parameter is not set";
  _ ← guard (is_set (Symbol inst)) "Symbol parameter is not set";
  _ ← guard (is_set (Amount inst)) "Amount parameter is not set";
  _ ← guard (is_set (Uid inst)) "Uid parameter is not set";
  _ ← guard (is_set (Signature inst)) "Signature parameter is not set";
  _ ← guard (is_set (RecoveryId inst)) "RecoveryId parameter is not set";
  _ ← validate_account (AccountMetaSlice inst) 0 "accounts.Mint is not set";
  _ ← validate_account (AccountMetaSlice inst) 1 "accounts.Receiver is not set";
  _ ← validate_account (AccountMetaSlice inst) 2 "accounts.Authority is not set";
  _ ← validate_account (AccountMetaSlice inst) 3 "accounts.TxUsed is not set";
  _ ← validate_account (AccountMetaSlice inst) 4 "accounts.Signer is not set";
  _ ← validate_account (AccountMetaSlice inst) 5 "accounts.SystemProgram is not set";
  _ ← validate_account (AccountMetaSlice inst) 6 "accounts.TokenProgram is not set";
  Ok tt.

Definition MarshalWithEncoder (obj : t) : res bytes :=
  b0 ← Encode TString (BridgeId obj);
  b1 ← Encode (TArr 32) (Hash obj);
  b2 ← Encode TU64 (MintNonce obj);
  b3 ← Encode TString (Symbol obj);
  b4 ← Encode TU64 (Amount obj);
  b5 ← Encode (TArr 32) (Uid obj);
  b6 ← Encode (TArr 64) (Signature obj);
  b7 ← Encode TU8 (RecoveryId obj);
  Ok (b0 ++ b1 ++ b2 ++ b3 ++ b4 ++ b5 ++ b6 ++ b7).

Definition UnmarshalWithDecoder (obj : t) (decoder : bytes) : res (t * bytes) :=
  r ← Decode TString decoder;
  let obj := SetBridgeId (fst r) obj in let decoder := snd r in
  r ← Decode (TArr 32) decoder;
  let obj := SetHash (fst r) obj in let decoder := snd r in
  r ← Decode TU64 decoder;
  let obj := SetMintNonce (fst r) obj in let decoder := snd r in
  r ← Decode TString decoder;
  let obj := SetSymbol (fst r) obj in let decoder := snd r in
  r ← Decode TU64 decoder;
  let obj := SetAmount (fst r) obj in let decoder := snd r in
  r ← Decode (TArr 32) decoder;
  let obj := SetUid (fst r) obj in let decoder := snd r in
  r ← Decode (TArr 64) decoder;
  let obj := SetSignature (fst r) obj in let decoder := snd r in
  r ← Decode TU8 decoder;
  let obj := SetRecoveryId (fst r) obj in let decoder := snd r in
  Ok (obj, decoder).

Definition NewWithdrawWrappedInstruction
    (bridge_id : string) (hash : bytes) (mint_nonce : Z) (symbol : string) (amount : Z)
    (uid : bytes) (signature : bytes) (recovery_id : Z) (mint : PublicKey)
    (receiver : PublicKey) (authority : PublicKey) (txUsed : PublicKey)
    (signer : PublicKey) (systemProgram : PublicKey) (tokenProgram : PublicKey) : res t :=
  let inst := NewWithdrawWrappedInstructionBuilder in
  let inst := SetBridgeId bridge_id inst in
  let inst := SetHash hash inst in
  let inst := SetMintNonce mint_nonce inst in
  let inst := SetSymbol symbol inst in
  let inst := SetAmount amount inst in
  let inst := SetUid uid inst in
  let inst := SetSignature signature inst in
  let inst := SetRecoveryId recovery_id inst in
  inst ← SetMintAccount mint inst;
  inst ← SetReceiverAccount receiver inst;
  inst ← SetAuthorityAccount authority inst;
  inst ← SetTxUsedAccount txUsed inst;
  inst ← SetSignerAccount signer inst;
  inst ← SetSystemProgramAccount systemProgram inst;
  inst ← SetTokenProgramAccount tokenProgram inst;
  Ok inst.

Definition params (x : t) : list field :=
  [mk_field TString (BridgeId x);
   mk_field (TArr 32) (Hash x);
   mk_field TU64 (MintNonce x);
   mk_field TString (Symbol x);
   mk_field TU64 (Amount x);
   mk_field (TArr 32) (Uid x);
   mk_field (TArr 64) (Signature x);
   mk_field TU8 (RecoveryId x)].

Lemma WithdrawWrapped_roundtrip `{!SolanaGoSpec} x obj data rest :
  Forall field_typed (params x) → MarshalWithEncoder x = Ok data →
  UnmarshalWithDecoder obj (data ++ rest) =
    Ok (WithAccounts (AccountMetaSlice obj) x, rest).
Proof. unfold params, MarshalWithEncoder, UnmarshalWithDecoder. solve_roundtrip x. Qed.

Lemma WithdrawWrapped_complete obj data x rest :
  UnmarshalWithDecoder obj data = Ok (x, rest) →
  Forall field_set (params x) ∧ AccountMetaSlice x = AccountMetaSlice obj.
Proof. unfold params, UnmarshalWithDecoder. solve_complete. Qed.

End instruction.
End WithdrawWrapped.
