(* ===== verification/SolanaContract.v ===== *)
(** * Decoding the bridge program's instructions and reading a Solana deposit

    Models [instructions.go] and [accounts.go] of
    [internal/bridge/chain/solana/contract] and [GetDepositData] of
    [internal/bridge/chain/solana/deposit.go]. *)

From S2P Require Import Prelude Core Deposits Fetcher Withdrawal Intake ChainDeposits SolanaInstructions.
#[local] Open Scope Z_scope.

Definition type_id (l : list Z) : bytes := Z_byte <$> l.

Definition Instruction_ChangeAuthority : bytes := type_id [50; 106; 66; 104; 99; 118; 145; 88].
Definition Instruction_DepositNative : bytes := type_id [13; 158; 13; 223; 95; 213; 28; 6].
Definition Instruction_DepositSpl : bytes := type_id [224; 0; 198; 175; 198; 47; 105; 204].
Definition Instruction_DepositWrapped : bytes := type_id [55; 72; 116; 0; 195; 33; 142; 235].
Definition Instruction_InitSplVault : bytes := type_id [119; 252; 157; 7; 107; 181; 216; 143].
Definition Instruction_InitWrappedMint : bytes := type_id [130; 249; 176; 48; 101; 223; 71; 226].
Definition Instruction_Initialize : bytes := type_id [175; 175; 109; 31; 13; 152; 155; 237].
Definition Instruction_WithdrawNative : bytes := type_id [113; 227; 26; 32; 53; 66; 90; 250].
Definition Instruction_WithdrawSpl : bytes := type_id [181; 154; 94; 86; 62; 115; 6; 186].
Definition Instruction_WithdrawWrapped : bytes := type_id [65; 137; 94; 48; 86; 93; 152; 251].

(** [new(T)] for each implementation. *)
Notation new_ChangeAuthority := (ChangeAuthority.mk None None None None None []).
Notation new_DepositNative := (DepositNative.mk None None None None None []).
Notation new_DepositSpl := (DepositSpl.mk None None None None None []).
Notation new_DepositWrapped := (DepositWrapped.mk None None None None None None None []).
Notation new_InitSplVault := (InitSplVault.mk None []).
Notation new_InitWrappedMint := (InitWrappedMint.mk None None None None None None []).
Notation new_Initialize := (Initialize.mk None None []).
Notation new_WithdrawNative := (WithdrawNative.mk None None None None None None []).
Notation new_WithdrawSpl := (WithdrawSpl.mk None None None None None None []).
Notation new_WithdrawWrapped := (WithdrawWrapped.mk None None None None None None None None []).

Section contract.
Context `{SolanaGo} (ProgramID : PublicKey).

(** The implementations an [Instruction] may hold. *)
Inductive Impl :=
| Impl_ChangeAuthority (inst : ChangeAuthority.t)
| Impl_DepositNative (inst : DepositNative.t)
| Impl_DepositSpl (inst : DepositSpl.t)
| Impl_DepositWrapped (inst : DepositWrapped.t)
| Impl_InitSplVault (inst : InitSplVault.t)
| Impl_InitWrappedMint (inst : InitWrappedMint.t)
| Impl_Initialize (inst : Initialize.t)
| Impl_WithdrawNative (inst : WithdrawNative.t)
| Impl_WithdrawSpl (inst : WithdrawSpl.t)
| Impl_WithdrawWrapped (inst : WithdrawWrapped.t).

(** [BaseVariant] *)
Record Instruction := { in_TypeID : bytes; in_Impl : Impl }.

Definition Build_ChangeAuthority (inst : ChangeAuthority.t) : Instruction :=
  {| in_TypeID := Instruction_ChangeAuthority; in_Impl := Impl_ChangeAuthority inst |}.
Definition ValidateAndBuild_ChangeAuthority (inst : ChangeAuthority.t) : res Instruction :=
  _ ← ChangeAuthority.Validate inst; Ok (Build_ChangeAuthority inst).

Definition Build_DepositNative (inst : DepositNative.t) : Instruction :=
  {| in_TypeID := Instruction_DepositNative; in_Impl := Impl_DepositNative inst |}.
Definition ValidateAndBuild_DepositNative (inst : DepositNative.t) : res Instruction :=
  _ ← DepositNative.Validate inst; Ok (Build_DepositNative inst).

Definition Build_DepositSpl (inst : DepositSpl.t) : Instruction :=
  {| in_TypeID := Instruction_DepositSpl; in_Impl := Impl_DepositSpl inst |}.
Definition ValidateAndBuild_DepositSpl (inst : DepositSpl.t) : res Instruction :=
  _ ← DepositSpl.Validate inst; Ok (Build_DepositSpl inst).

Definition Build_DepositWrapped (inst : DepositWrapped.t) : Instruction :=
  {| in_TypeID := Instruction_DepositWrapped; in_Impl := Impl_DepositWrapped inst |}.
Definition ValidateAndBuild_DepositWrapped (inst : DepositWrapped.t) : res Instruction :=
  _ ← DepositWrapped.Validate inst; Ok (Build_DepositWrapped inst).

Definition Build_InitSplVault (inst : InitSplVault.t) : Instruction :=
  {| in_TypeID := Instruction_InitSplVault; in_Impl := Impl_InitSplVault inst |}.
Definition ValidateAndBuild_InitSplVault (inst : InitSplVault.t) : res Instruction :=
  _ ← InitSplVault.Validate inst; Ok (Build_InitSplVault inst).

Definition Build_InitWrappedMint (inst : InitWrappedMint.t) : Instruction :=
  {| in_TypeID := Instruction_InitWrappedMint; in_Impl := Impl_InitWrappedMint inst |}.
Definition ValidateAndBuild_InitWrappedMint (inst : InitWrappedMint.t) : res Instruction :=
  _ ← InitWrappedMint.Validate inst; Ok (Build_InitWrappedMint inst).

Definition Build_Initialize (inst : Initialize.t) : Instruction :=
  {| in_TypeID := Instruction_Initialize; in_Impl := Impl_Initialize inst |}.
Definition ValidateAndBuild_Initialize (inst : Initialize.t) : res Instruction :=
  _ ← Initialize.Validate inst; Ok (Build_Initialize inst).

Definition Build_WithdrawNative (inst : WithdrawNative.t) : Instruction :=
  {| in_TypeID := Instruction_WithdrawNative; in_Impl := Impl_WithdrawNative inst |}.
Definition ValidateAndBuild_WithdrawNative (inst : WithdrawNative.t) : res Instruction :=
  _ ← WithdrawNative.Validate inst; Ok (Build_WithdrawNative inst).

Definition Build_WithdrawSpl (inst : WithdrawSpl.t) : Instruction :=
  {| in_TypeID := Instruction_WithdrawSpl; in_Impl := Impl_WithdrawSpl inst |}.
Definition ValidateAndBuild_WithdrawSpl (inst : WithdrawSpl.t) : res Instruction :=
  _ ← WithdrawSpl.Validate inst; Ok (Build_WithdrawSpl inst).

Definition Build_WithdrawWrapped (inst : WithdrawWrapped.t) : Instruction :=
  {| in_TypeID := Instruction_WithdrawWrapped; in_Impl := Impl_WithdrawWrapped inst |}.
Definition ValidateAndBuild_WithdrawWrapped (inst : WithdrawWrapped.t) : res Instruction :=
  _ ← WithdrawWrapped.Validate inst; Ok (Build_WithdrawWrapped inst).

(** The arguments and the accounts of an implementation; the accounts replaced; the name of
    its variant and its identifier. *)
Definition impl_params (i : Impl) : list field :=
  match i with
  | Impl_ChangeAuthority x => ChangeAuthority.params x
  | Impl_DepositNative x => DepositNative.params x
  | Impl_DepositSpl x => DepositSpl.params x
  | Impl_DepositWrapped x => DepositWrapped.params x
  | Impl_InitSplVault x => InitSplVault.params x
  | Impl_InitWrappedMint x => InitWrappedMint.params x
  | Impl_Initialize x => Initialize.params x
  | Impl_WithdrawNative x => WithdrawNative.params x
  | Impl_WithdrawSpl x => WithdrawSpl.params x
  | Impl_WithdrawWrapped x => WithdrawWrapped.params x
  end.

Definition impl_accounts (i : Impl) : list (option AccountMeta) :=
  match i with
  | Impl_ChangeAuthority x => ChangeAuthority.AccountMetaSlice x
  | Impl_DepositNative x => DepositNative.AccountMetaSlice x
  | Impl_DepositSpl x => DepositSpl.AccountMetaSlice x
  | Impl_DepositWrapped x => DepositWrapped.AccountMetaSlice x
  | Impl_InitSplVault x => InitSplVault.AccountMetaSlice x
  | Impl_InitWrappedMint x => InitWrappedMint.AccountMetaSlice x
  | Impl_Initialize x => Initialize.AccountMetaSlice x
  | Impl_WithdrawNative x => WithdrawNative.AccountMetaSlice x
  | Impl_WithdrawSpl x => WithdrawSpl.AccountMetaSlice x
  | Impl_WithdrawWrapped x => WithdrawWrapped.AccountMetaSlice x
  end.

Definition impl_SetAccounts (accounts : list (option AccountMeta)) (i : Impl) : Impl :=
  match i with
  | Impl_ChangeAuthority x => Impl_ChangeAuthority (ChangeAuthority.WithAccounts accounts x)
  | Impl_DepositNative x => Impl_DepositNative (DepositNative.WithAccounts accounts x)
  | Impl_DepositSpl x => Impl_DepositSpl (DepositSpl.WithAccounts accounts x)
  | Impl_DepositWrapped x => Impl_DepositWrapped (DepositWrapped.WithAccounts accounts x)
  | Impl_InitSplVault x => Impl_InitSplVault (InitSplVault.WithAccounts accounts x)
  | Impl_InitWrappedMint x => Impl_InitWrappedMint (InitWrappedMint.WithAccounts accounts x)
  | Impl_Initialize x => Impl_Initialize (Initialize.WithAccounts accounts x)
  | Impl_WithdrawNative x => Impl_WithdrawNative (WithdrawNative.WithAccounts accounts x)
  | Impl_WithdrawSpl x => Impl_WithdrawSpl (WithdrawSpl.WithAccounts accounts x)
  | Impl_WithdrawWrapped x => Impl_WithdrawWrapped (WithdrawWrapped.WithAccounts accounts x)
  end.

Definition impl_name (i : Impl) : string :=
  match i with
  | Impl_ChangeAuthority _ => "change_authority"
  | Impl_DepositNative _ => "deposit_native"
  | Impl_DepositSpl _ => "deposit_spl"
  | Impl_DepositWrapped _ => "deposit_wrapped"
  | Impl_InitSplVault _ => "init_spl_vault"
  | Impl_InitWrappedMint _ => "init_wrapped_mint"
  | Impl_Initialize _ => "initialize"
  | Impl_WithdrawNative _ => "withdraw_native"
  | Impl_WithdrawSpl _ => "withdraw_spl"
  | Impl_WithdrawWrapped _ => "withdraw_wrapped"
  end.

Definition impl_id (i : Impl) : bytes :=
  match i with
  | Impl_ChangeAuthority _ => Instruction_ChangeAuthority
  | Impl_DepositNative _ => Instruction_DepositNative
  | Impl_DepositSpl _ => Instruction_DepositSpl
  | Impl_DepositWrapped _ => Instruction_DepositWrapped
  | Impl_InitSplVault _ => Instruction_InitSplVault
  | Impl_InitWrappedMint _ => Instruction_InitWrappedMint
  | Impl_Initialize _ => Instruction_Initialize
  | Impl_WithdrawNative _ => Instruction_WithdrawNative
  | Impl_WithdrawSpl _ => Instruction_WithdrawSpl
  | Impl_WithdrawWrapped _ => Instruction_WithdrawWrapped
  end.

(** [encoder.Encode(inst.Impl)] calls the method of the implementation. *)
Definition impl_MarshalWithEncoder (i : Impl) : res bytes :=
  match i with
  | Impl_ChangeAuthority x => ChangeAuthority.MarshalWithEncoder x
  | Impl_DepositNative x => DepositNative.MarshalWithEncoder x
  | Impl_DepositSpl x => DepositSpl.MarshalWithEncoder x
  | Impl_DepositWrapped x => DepositWrapped.MarshalWithEncoder x
  | Impl_InitSplVault x => InitSplVault.MarshalWithEncoder x
  | Impl_InitWrappedMint x => InitWrappedMint.MarshalWithEncoder x
  | Impl_Initialize x => Initialize.MarshalWithEncoder x
  | Impl_WithdrawNative x => WithdrawNative.MarshalWithEncoder x
  | Impl_WithdrawSpl x => WithdrawSpl.MarshalWithEncoder x
  | Impl_WithdrawWrapped x => WithdrawWrapped.MarshalWithEncoder x
  end.

(** [InstructionImplDef]: a fresh struct is decoded for a known name. *)
Definition InstructionImplDef : list (string * (bytes → res (Impl * bytes))) :=
  [("change_authority", λ d, r ← ChangeAuthority.UnmarshalWithDecoder new_ChangeAuthority d; Ok (Impl_ChangeAuthority (fst r), snd r));
   ("deposit_native", λ d, r ← DepositNative.UnmarshalWithDecoder new_DepositNative d; Ok (Impl_DepositNative (fst r), snd r));
   ("deposit_spl", λ d, r ← DepositSpl.UnmarshalWithDecoder new_DepositSpl d; Ok (Impl_DepositSpl (fst r), snd r));
   ("deposit_wrapped", λ d, r ← DepositWrapped.UnmarshalWithDecoder new_DepositWrapped d; Ok (Impl_DepositWrapped (fst r), snd r));
   ("init_spl_vault", λ d, r ← InitSplVault.UnmarshalWithDecoder new_InitSplVault d; Ok (Impl_InitSplVault (fst r), snd r));
   ("init_wrapped_mint", λ d, r ← InitWrappedMint.UnmarshalWithDecoder new_InitWrappedMint d; Ok (Impl_InitWrappedMint (fst r), snd r));
   ("initialize", λ d, r ← Initialize.UnmarshalWithDecoder new_Initialize d; Ok (Impl_Initialize (fst r), snd r));
   ("withdraw_native", λ d, r ← WithdrawNative.UnmarshalWithDecoder new_WithdrawNative d; Ok (Impl_WithdrawNative (fst r), snd r));
   ("withdraw_spl", λ d, r ← WithdrawSpl.UnmarshalWithDecoder new_WithdrawSpl d; Ok (Impl_WithdrawSpl (fst r), snd r));
   ("withdraw_wrapped", λ d, r ← WithdrawWrapped.UnmarshalWithDecoder new_WithdrawWrapped d; Ok (Impl_WithdrawWrapped (fst r), snd r))].

Definition InstructionIDToName (id : bytes) : string :=
  if bool_decide (id = Instruction_ChangeAuthority) then "ChangeAuthority"
  else if bool_decide (id = Instruction_DepositNative) then "DepositNative"
  else if bool_decide (id = Instruction_DepositSpl) then "DepositSpl"
  else if bool_decide (id = Instruction_DepositWrapped) then "DepositWrapped"
  else if bool_decide (id = Instruction_InitSplVault) then "InitSplVault"
  else if bool_decide (id = Instruction_InitWrappedMint) then "InitWrappedMint"
  else if bool_decide (id = Instruction_Initialize) then "Initialize"
  else if bool_decide (id = Instruction_WithdrawNative) then "WithdrawNative"
  else if bool_decide (id = Instruction_WithdrawSpl) then "WithdrawSpl"
  else if bool_decide (id = Instruction_WithdrawWrapped) then "WithdrawWrapped"
  else "".
(** [MarshalWithEncoder], [Data], [Accounts] and [ProgramID] of an [Instruction]. *)
Definition Instruction_MarshalWithEncoder (inst : Instruction) : res bytes :=
  b ← impl_MarshalWithEncoder (in_Impl inst);
  Ok (in_TypeID inst ++ b).

Definition Data (inst : Instruction) : res bytes :=
  wrap (Instruction_MarshalWithEncoder inst) "unable to encode instruction".

Definition Accounts (inst : Instruction) : list (option AccountMeta) := impl_accounts (in_Impl inst).

Definition Instruction_ProgramID (inst : Instruction) : PublicKey := ProgramID.

Definition Instruction_UnmarshalWithDecoder (decoder : bytes) : res (Instruction * bytes) :=
  r ← UnmarshalBinaryVariant Impl InstructionImplDef decoder;
  Ok ({| in_TypeID := fst (fst r); in_Impl := snd (fst r) |}, snd r).

Definition DecodeInstruction (accounts : list (option AccountMeta)) (data : bytes) : res Instruction :=
  r ← wrap (Instruction_UnmarshalWithDecoder data) "unable to decode instruction";
  let inst := fst r in
  slice ← wrap (SetAccounts accounts) "unable to set accounts for instruction";
  Ok {| in_TypeID := in_TypeID inst; in_Impl := impl_SetAccounts slice (in_Impl inst) |}.

Definition registryDecodeInstruction (accounts : list (option AccountMeta)) (data : bytes)
    : res Instruction :=
  DecodeInstruction accounts data.

(** A compiled instruction with what the message resolves for it: [message.Program] of its
    program index and [ResolveInstructionAccounts]. *)
Record CompiledInstruction := {
  ci_Program : res PublicKey; ci_Accounts : res (list (option AccountMeta)); ci_Data : bytes }.

Record Message := { msg_Instructions : list CompiledInstruction }.

Fixpoint decodeInstructions (l : list CompiledInstruction) (instructions : list Instruction)
    : res (list Instruction) :=
  match l with
  | [] => Ok instructions
  | ins :: l' =>
      programID ← ci_Program ins;
      if negb (bool_decide (programID = ProgramID)) then decodeInstructions l' instructions
      else
        accounts ← ci_Accounts ins;
        insDecoded ← DecodeInstruction accounts (ci_Data ins);
        decodeInstructions l' (instructions ++ [insDecoded])
  end.

Definition DecodeInstructions (message : Message) : res (list Instruction) :=
  decodeInstructions (msg_Instructions message) [].

(** ** Accounts of the program *)

Record AuthorityAccount := { aa_Bump : Z; aa_Signers : list bytes; aa_AuthNonce : Z }.

Definition AuthorityAccountDiscriminator : bytes := type_id [36; 108; 254; 18; 167; 144; 27; 36].

Definition AuthorityAccount_MarshalWithEncoder (obj : AuthorityAccount) : res bytes :=
  b1 ← Encode TU8 (Some (aa_Bump obj));
  b2 ← Encode (TVecArr 33) (Some (aa_Signers obj));
  b3 ← Encode TU64 (Some (aa_AuthNonce obj));
  Ok (AuthorityAccountDiscriminator ++ b1 ++ b2 ++ b3).

Definition AuthorityAccount_UnmarshalWithDecoder (decoder : bytes) : res (AuthorityAccount * bytes) :=
  r ← ReadTypeID decoder;
  if negb (bool_decide (fst r = AuthorityAccountDiscriminator))
  then Err (ENew "wrong discriminator")
  else
    bump ← Decode TU8 (snd r);
    signers ← Decode (TVecArr 33) (snd bump);
    nonce ← Decode TU64 (snd signers);
    Ok ({| aa_Bump := fst bump; aa_Signers := fst signers; aa_AuthNonce := fst nonce |}, snd nonce).

Record TxUsedAccount := { ta_Used : bool }.

Definition TxUsedAccountDiscriminator : bytes := type_id [241; 123; 49; 175; 159; 254; 70; 203].

Definition TxUsedAccount_MarshalWithEncoder (obj : TxUsedAccount) : res bytes :=
  b1 ← Encode TBool (Some (ta_Used obj));
  Ok (TxUsedAccountDiscriminator ++ b1).

(** An account with nothing after the discriminator keeps the zero value. *)
Definition TxUsedAccount_UnmarshalWithDecoder (decoder : bytes) : res (TxUsedAccount * bytes) :=
  r ← ReadTypeID decoder;
  if negb (bool_decide (fst r = TxUsedAccountDiscriminator)) then Err (ENew "wrong discriminator")
  else
    match snd r with
    | [] => Ok ({| ta_Used := false |}, [])
    | rest => used ← Decode TBool rest; Ok ({| ta_Used := fst used |}, snd used)
    end.

(** ** Reading a deposit *)

(** What [getTransaction] answers; the metadata and the transaction are pointers. *)
Record TransactionResult := {
  tr_Slot : Z; tr_Meta : option (option error); tr_Transaction : option bytes }.

Class SolanaNode := {
  Signature : Type;
  SignatureFromBase58 : string → res Signature;
  GetTransaction : Signature → res TransactionResult;
  TransactionFromDecoder : bytes → res Message }.

(** [*p] *)
Definition deref {A} (p : option A) : res A := match p with Some a => Ok a | None => Panic end.

Context `{SolanaNode} (BridgeId : string).

(** The common part of the three cases: [BridgeId], the sender, the amount, the token, the
    receiver, the chain and the referral, in the order they are evaluated. *)
Definition depositCase (id : DepositIdentifier) (slot : Z)
    (bridgeId : option string) (sender : option AccountMeta) (amount : option Z)
    (token : res string) (address chainId : option string) (referralId : option Z)
    : res DepositData :=
  bid ← deref bridgeId;
  if negb (bool_decide (bid = BridgeId)) then Err (ESentinel ErrInvalidBridgeId)
  else
    senderMeta ← deref sender;
    amount ← deref amount;
    token ← token;
    address ← deref address;
    chainId ← deref chainId;
    referralId ← deref referralId;
    Ok {| dd_ident := id; dd_Block := int64 slot;
          dd_SourceAddress := key_String (meta_PublicKey senderMeta);
          dd_DepositAmount := int64 amount; dd_TokenAddress := token; dd_ReferralId := referralId;
          dd_DestinationAddress := address; dd_DestinationChainId := chainId |}.

Definition account_String (m : option AccountMeta) : res string :=
  m ← deref m; Ok (key_String (meta_PublicKey m)).

Definition instructionDeposit (id : DepositIdentifier) (slot : Z) (i : Impl) : res DepositData :=
  match i with
  | Impl_DepositNative d =>
      depositCase id slot (DepositNative.BridgeId d) (DepositNative.GetSenderAccount d)
        (DepositNative.Amount d) (Ok DefaultNativeTokenAddress) (DepositNative.Address d)
        (DepositNative.ChainId d) (DepositNative.ReferralId d)
  | Impl_DepositSpl d =>
      depositCase id slot (DepositSpl.BridgeId d) (DepositSpl.GetSenderAccount d)
        (DepositSpl.Amount d) (account_String (DepositSpl.GetMintAccount d)) (DepositSpl.Address d)
        (DepositSpl.ChainId d) (DepositSpl.ReferralId d)
  | Impl_DepositWrapped d =>
      depositCase id slot (DepositWrapped.BridgeId d) (DepositWrapped.GetSenderAccount d)
        (DepositWrapped.Amount d) (account_String (DepositWrapped.GetMintAccount d))
        (DepositWrapped.Address d) (DepositWrapped.ChainId d) (DepositWrapped.ReferralId d)
  | _ => Err (ESentinel ErrDepositNotFound)
  end.

Definition GetDepositData (id : DepositIdentifier) : res DepositData :=
  signature ← wrap (SignatureFromBase58 (TxHash id)) "failed to parse tx signature";
  out ← wrap (GetTransaction signature) "failed to get transaction";
  metaErr ← deref (tr_Meta out);
  match metaErr with
  | Some _ => Err (ESentinel ErrTxFailed)
  | None =>
      raw ← deref (tr_Transaction out);
      message ← wrap (TransactionFromDecoder raw) "failed to decode transaction";
      instructions ← wrap (DecodeInstructions message) "failed to decode instructions";
      if (Z.of_nat (length instructions) <=? TxNonce id) || (TxNonce id <? 0)
      then Err (ESentinel ErrInvalidTxNonce)
      else
        instr ← slice_at instructions (TxNonce id);
        if negb (bool_decide (Instruction_ProgramID instr = ProgramID))
        then Err (ESentinel ErrUnsupportedContract)
        else instructionDeposit id (tr_Slot out) (in_Impl instr)
  end.

End contract.

(** ** Lemmas *)

Section contract_lemmas.
Context `{SolanaGo, !SolanaGoSpec} (ProgramID : PublicKey).

(** The identifiers the package declares are the ones its variants have: the first eight
    bytes of the hash of the instruction's name. *)
Definition ids_match : Prop := ∀ i : Impl, Sighash (impl_name i) = impl_id i.

Definition build (i : Impl) : Instruction := {| in_TypeID := impl_id i; in_Impl := i |}.

Lemma impl_SetAccounts_id i : impl_SetAccounts (impl_accounts i) i = i.
Proof. by destruct i as [x|x|x|x|x|x|x|x|x|x]; destruct x. Qed.

Lemma impl_SetAccounts_twice a b i : impl_SetAccounts a (impl_SetAccounts b i) = impl_SetAccounts a i.
Proof. by destruct i. Qed.

Lemma impl_accounts_Set a i : impl_accounts (impl_SetAccounts a i) = a.
Proof. by destruct i. Qed.

Lemma impl_params_Set a i : impl_params (impl_SetAccounts a i) = impl_params i.
Proof. by destruct i. Qed.

Lemma impl_name_Set a i : impl_name (impl_SetAccounts a i) = impl_name i.
Proof. by destruct i. Qed.

Lemma impl_id_Set a i : impl_id (impl_SetAccounts a i) = impl_id i.
Proof. by destruct i. Qed.

Lemma variant_ids_NoDup : ids_match → NoDup (Sighash <$> InstructionImplDef.*1).
Proof.
  intros Hids.
  assert (Sighash <$> InstructionImplDef.*1 = impl_id <$>
    [Impl_ChangeAuthority new_ChangeAuthority;
     Impl_DepositNative new_DepositNative;
     Impl_DepositSpl new_DepositSpl;
     Impl_DepositWrapped new_DepositWrapped;
     Impl_InitSplVault new_InitSplVault;
     Impl_InitWrappedMint new_InitWrappedMint;
     Impl_Initialize new_Initialize;
     Impl_WithdrawNative new_WithdrawNative;
     Impl_WithdrawSpl new_WithdrawSpl;
     Impl_WithdrawWrapped new_WithdrawWrapped]) as ->.
  { cbn [fmap list_fmap]. rewrite <- !Hids. reflexivity. }
  apply (bool_decide_unpack _). reflexivity.
Qed.

(** A variant decodes what its implementation encodes. *)
Lemma variant_roundtrip i data rest :
  Forall field_typed (impl_params i) → impl_MarshalWithEncoder i = Ok data →
  ∃ f, (impl_name i, f) ∈ InstructionImplDef ∧ f (data ++ rest) = Ok (impl_SetAccounts [] i, rest).
Proof.
  intros Hty Hm. unfold InstructionImplDef.
  destruct i; simpl in Hty, Hm |- *; (eexists; split; [repeat first [apply list_elem_of_here|apply list_elem_of_further]|]); simpl.
  - by rewrite (ChangeAuthority.ChangeAuthority_roundtrip _ _ _ _ Hty Hm).
  - by rewrite (DepositNative.DepositNative_roundtrip _ _ _ _ Hty Hm).
  - by rewrite (DepositSpl.DepositSpl_roundtrip _ _ _ _ Hty Hm).
  - by rewrite (DepositWrapped.DepositWrapped_roundtrip _ _ _ _ Hty Hm).
  - by rewrite (InitSplVault.InitSplVault_roundtrip _ _ _ _ Hty Hm).
  - by rewrite (InitWrappedMint.InitWrappedMint_roundtrip _ _ _ _ Hty Hm).
  - by rewrite (Initialize.Initialize_roundtrip _ _ _ _ Hty Hm).
  - by rewrite (WithdrawNative.WithdrawNative_roundtrip _ _ _ _ Hty Hm).
  - by rewrite (WithdrawSpl.WithdrawSpl_roundtrip _ _ _ _ Hty Hm).
  - by rewrite (WithdrawWrapped.WithdrawWrapped_roundtrip _ _ _ _ Hty Hm).
Qed.

Lemma Data_Ok i data :
  Data (build i) = Ok data → ∃ body, impl_MarshalWithEncoder i = Ok body ∧ data = impl_id i ++ body.
Proof.
  unfold Data, Instruction_MarshalWithEncoder. intros Hd. apply wrap_Ok in Hd.
  apply bind_Ok in Hd as (b & Hb & Hd). apply (inj Ok) in Hd as <-. eauto.
Qed.

Lemma decode_encoded accounts i data rest :
  ids_match → Forall field_typed (impl_params i) → Data (build i) = Ok data →
  DecodeInstruction accounts (data ++ rest) = Ok (build (impl_SetAccounts accounts i)).
Proof.
  intros Hids Hty Hd. apply Data_Ok in Hd as (body & Hm & ->).
  destruct (variant_roundtrip i body rest Hty Hm) as (f & Hf & Hr).
  unfold DecodeInstruction, Instruction_UnmarshalWithDecoder.
  rewrite <- app_assoc, <- (Hids i), (UnmarshalBinaryVariant_known _ _ _ f _ (variant_ids_NoDup Hids) Hf), Hr.
  simpl. rewrite SetAccounts_Ok. simpl. unfold build. by rewrite impl_SetAccounts_twice, impl_id_Set, Hids.
Qed.

(** Whatever the bytes, a decoded instruction has every argument set, and the accounts it
    was given. *)
Lemma decoded_complete accounts data inst :
  DecodeInstruction accounts data = Ok inst →
  Forall field_set (impl_params (in_Impl inst)) ∧ impl_accounts (in_Impl inst) = accounts.
Proof.
  unfold DecodeInstruction, Instruction_UnmarshalWithDecoder. rewrite SetAccounts_Ok. intros Hd.
  apply bind_Ok in Hd as (r & Hr & Hd). apply wrap_Ok in Hr. simpl in Hd. apply (inj Ok) in Hd as <-. simpl.
  rewrite impl_accounts_Set, impl_params_Set. split; [|done].
  apply bind_Ok in Hr as ([[id i] rest] & Hr & Hi). apply (inj Ok) in Hi as <-. simpl.
  apply UnmarshalBinaryVariant_sound in Hr as (name & f & body & Hin & _ & _ & Hf).
  unfold InstructionImplDef in Hin. rewrite !elem_of_cons, elem_of_nil in Hin.
  destruct Hin as [Hin|[Hin|[Hin|[Hin|[Hin|[Hin|[Hin|[Hin|[Hin|[Hin|[]]]]]]]]]]]; injection Hin as -> ->;
    apply bind_Ok in Hf as ([x d] & Hx & Hf); apply (inj Ok) in Hf; injection Hf as <- <-.
  - by apply ChangeAuthority.ChangeAuthority_complete in Hx as [? _].
  - by apply DepositNative.DepositNative_complete in Hx as [? _].
  - by apply DepositSpl.DepositSpl_complete in Hx as [? _].
  - by apply DepositWrapped.DepositWrapped_complete in Hx as [? _].
  - by apply InitSplVault.InitSplVault_complete in Hx as [? _].
  - by apply InitWrappedMint.InitWrappedMint_complete in Hx as [? _].
  - by apply Initialize.Initialize_complete in Hx as [? _].
  - by apply WithdrawNative.WithdrawNative_complete in Hx as [? _].
  - by apply WithdrawSpl.WithdrawSpl_complete in Hx as [? _].
  - by apply WithdrawWrapped.WithdrawWrapped_complete in Hx as [? _].
Qed.

(** An instruction of a message: one of another program, or a built instruction of the
    bridge program. *)
Inductive encodes : CompiledInstruction → option Impl → Prop :=
| encodes_other ci p : ci_Program ci = Ok p → p ≠ ProgramID → encodes ci None
| encodes_own ci i :
    ci_Program ci = Ok ProgramID → ci_Accounts ci = Ok (impl_accounts i) →
    Forall field_typed (impl_params i) → Data (build i) = Ok (ci_Data ci) → encodes ci (Some i).

Lemma decodeInstructions_encoded l os acc :
  ids_match → Forall2 encodes l os →
  decodeInstructions ProgramID l acc = Ok (acc ++ (build <$> omap id os)).
Proof.
  intros Hids Hl. revert acc. induction Hl as [|ci o l os Hc Hl IH]; intros acc; simpl.
  { by rewrite app_nil_r. }
  destruct Hc as [ci p Hp Hne|ci i Hp Ha Hty Hd]; rewrite Hp; simpl.
  - rewrite bool_decide_false by done. apply IH.
  - rewrite bool_decide_true by done. rewrite Ha. cbn [negb mbind res_bind].
    rewrite <- (app_nil_r (ci_Data ci)), (decode_encoded _ i _ [] Hids Hty Hd), impl_SetAccounts_id.
    cbn [mbind res_bind]. rewrite IH. by rewrite <- app_assoc.
Qed.

(** What decoding returns comes from the instructions of the bridge program, in order. *)
Lemma decodeInstructions_sound l acc insts :
  decodeInstructions ProgramID l acc = Ok insts →
  ∃ own, insts = acc ++ own ∧
    Forall2 (λ ci inst, ∃ accounts, ci_Accounts ci = Ok accounts ∧
               DecodeInstruction accounts (ci_Data ci) = Ok inst)
      (filter (λ ci, ci_Program ci = Ok ProgramID) l) own.
Proof.
  revert acc. induction l as [|ci l IH]; intros acc Hd; simpl in Hd.
  { apply (inj Ok) in Hd as <-. exists []. by rewrite app_nil_r. }
  apply bind_Ok in Hd as (p & Hp & Hd). destruct (bool_decide_reflect (p = ProgramID)) as [->|Hne]; simpl in Hd.
  - apply bind_Ok in Hd as (accounts & Ha & Hd). apply bind_Ok in Hd as (inst & Hi & Hd).
    destruct (IH _ Hd) as (own & -> & Hown). exists (inst :: own). rewrite <- app_assoc. split; [done|].
    rewrite filter_cons_True by done. constructor; eauto.
  - destruct (IH _ Hd) as (own & -> & Hown). exists own. split; [done|].
    rewrite filter_cons_False; [done|]. rewrite Hp. congruence.
Qed.

Lemma Get_at l i a : 0 ≤ i → l !! Z.to_nat i = Some (Some a) → Get l i = Some a.
Proof. intros Hi Hl. by rewrite Get_lookup, Hl by done. Qed.

(** The deposit an instruction built by its constructor makes. *)
Inductive deposits : Impl → string → PublicKey → string → Z → string → string → Z → Prop :=
| deposits_native bid amount chain address referral authority sender system x :
    DepositNative.NewDepositNativeInstruction bid amount chain address referral
      authority sender system = Ok x →
    deposits (Impl_DepositNative x) bid sender DefaultNativeTokenAddress amount address chain referral
| deposits_spl bid amount chain address referral mint vault sender signer token x :
    DepositSpl.NewDepositSplInstruction bid amount chain address referral
      mint vault sender signer token = Ok x →
    deposits (Impl_DepositSpl x) bid sender (key_String mint) amount address chain referral
| deposits_wrapped bid nonce symbol amount chain address referral mint sender signer token x :
    DepositWrapped.NewDepositWrappedInstruction bid nonce symbol amount chain address referral
      mint sender signer token = Ok x →
    deposits (Impl_DepositWrapped x) bid sender (key_String mint) amount address chain referral.

Lemma NewDepositNative_eq bid amount chain address referral authority sender system :
  DepositNative.NewDepositNativeInstruction bid amount chain address referral authority sender system =
  Ok (DepositNative.mk (Some bid) (Some amount) (Some chain) (Some address) (Some referral)
        [Some (WRITE (Meta authority)); Some (SIGNER (WRITE (Meta sender))); Some (Meta system)]).
Proof. reflexivity. Qed.

Lemma NewDepositSpl_eq bid amount chain address referral mint vault sender signer token :
  DepositSpl.NewDepositSplInstruction bid amount chain address referral mint vault sender signer token =
  Ok (DepositSpl.mk (Some bid) (Some amount) (Some chain) (Some address) (Some referral)
        [Some (Meta mint); Some (WRITE (Meta vault)); Some (WRITE (Meta sender));
         Some (SIGNER (WRITE (Meta signer))); Some (Meta token)]).
Proof. reflexivity. Qed.

Lemma NewDepositWrapped_eq bid nonce symbol amount chain address referral mint sender signer token :
  DepositWrapped.NewDepositWrappedInstruction bid nonce symbol amount chain address referral
    mint sender signer token =
  Ok (DepositWrapped.mk (Some bid) (Some nonce) (Some symbol) (Some amount) (Some chain) (Some address)
        (Some referral)
        [Some (WRITE (Meta mint)); Some (WRITE (Meta sender)); Some (SIGNER (WRITE (Meta signer)));
         Some (Meta token)]).
Proof. reflexivity. Qed.

(** The account with an index that is present. *)
Lemma depositCase_Ok bid id slot sender amount token address chain referral m :
  sender = Some m →
  depositCase bid id slot (Some bid) sender (Some amount) (Ok token) (Some address) (Some chain)
    (Some referral) =
    Ok {| dd_ident := id; dd_Block := int64 slot; dd_SourceAddress := key_String (meta_PublicKey m);
          dd_DepositAmount := int64 amount; dd_TokenAddress := token; dd_ReferralId := referral;
          dd_DestinationAddress := address; dd_DestinationChainId := chain |}.
Proof. intros ->. unfold depositCase. cbn [deref mbind res_bind]. by rewrite bool_decide_true. Qed.

Lemma deposits_read i bid sender token amount address chain referral id slot :
  deposits i bid sender token amount address chain referral →
  instructionDeposit bid id slot i =
    Ok {| dd_ident := id; dd_Block := int64 slot; dd_SourceAddress := key_String sender;
          dd_DepositAmount := int64 amount; dd_TokenAddress := token; dd_ReferralId := referral;
          dd_DestinationAddress := address; dd_DestinationChainId := chain |}.
Proof.
  intros Hdep. destruct Hdep as [? ? ? ? ? ? ? ? x Hx|? ? ? ? ? ? ? ? ? ? x Hx|? ? ? ? ? ? ? ? ? ? ? x Hx].
  - rewrite NewDepositNative_eq in Hx. apply (inj Ok) in Hx as <-. cbn [instructionDeposit].
    etrans; [eapply depositCase_Ok; by apply Get_at|].
    by rewrite meta_PublicKey_SIGNER, meta_PublicKey_WRITE, meta_PublicKey_Meta.
  - rewrite NewDepositSpl_eq in Hx. apply (inj Ok) in Hx as <-. cbn [instructionDeposit].
    unfold account_String, DepositSpl.GetMintAccount. erewrite Get_at by done. cbn [deref mbind res_bind].
    etrans; [eapply depositCase_Ok; by apply Get_at|]. by rewrite !meta_PublicKey_WRITE, !meta_PublicKey_Meta.
  - rewrite NewDepositWrapped_eq in Hx. apply (inj Ok) in Hx as <-. cbn [instructionDeposit].
    unfold account_String, DepositWrapped.GetMintAccount. erewrite Get_at by done. cbn [deref mbind res_bind].
    etrans; [eapply depositCase_Ok; by apply Get_at|]. by rewrite !meta_PublicKey_WRITE, !meta_PublicKey_Meta.
Qed.

End contract_lemmas.

(** ** Theorems *)

Section contract_theorems.
Context `{SolanaGo, !SolanaGoSpec} (ProgramID : PublicKey) `{!SolanaNode}.

(** C32: Every instruction of the bridge program is read back: decoding the data of a built
    instruction, whatever follows them, gives the same variant with the same arguments and
    the accounts of the transaction. *)
Theorem instruction_roundtrip i accounts data rest :
  ids_match → Forall field_typed (impl_params i) → Data (build i) = Ok data →
  DecodeInstruction accounts (data ++ rest) = Ok (build (impl_SetAccounts accounts i)).
Proof. intros Hids Hty Hd. by apply decode_encoded. Qed.

(** C31: A Solana deposit is read as it was made: when the instructions of a successful
    transaction are encoded ones, the identifier's nonce counts the bridge program's
    instructions only, and the instruction at that position is a deposit to this bridge
    built by one of the three constructors, the client returns its sender, token,
    receiver, chain and referral, and its amount as a signed 64-bit number. *)
Theorem solana_deposit_read BridgeId id sig out raw message os i sender token amount address chain referral :
  ids_match →
  SignatureFromBase58 (TxHash id) = Ok sig → GetTransaction sig = Ok out →
  tr_Meta out = Some None → tr_Transaction out = Some raw → TransactionFromDecoder raw = Ok message →
  Forall2 (encodes ProgramID) (msg_Instructions message) os →
  0 ≤ TxNonce id → omap Datatypes.id os !! Z.to_nat (TxNonce id) = Some i →
  deposits i BridgeId sender token amount address chain referral →
  GetDepositData ProgramID BridgeId id =
    Ok {| dd_ident := id; dd_Block := int64 (tr_Slot out); dd_SourceAddress := key_String sender;
          dd_DepositAmount := int64 amount; dd_TokenAddress := token; dd_ReferralId := referral;
          dd_DestinationAddress := address; dd_DestinationChainId := chain |}.
Proof.
  intros Hids Hsig Hout Hmeta Htx Hmsg Hl Hn Hi Hdep. unfold GetDepositData.
  rewrite Hsig. cbn [wrap mbind res_bind]. rewrite Hout. cbn [wrap mbind res_bind].
  rewrite Hmeta, Htx. cbn [deref mbind res_bind]. rewrite Hmsg. cbn [wrap mbind res_bind].
  unfold DecodeInstructions. rewrite (decodeInstructions_encoded _ _ _ [] Hids Hl). cbn [wrap mbind res_bind app].
  assert (Hb : (build <$> omap Datatypes.id os) !! Z.to_nat (TxNonce id) = Some (build i))
    by (by rewrite list_lookup_fmap, Hi).
  pose proof (lookup_lt_Some _ _ _ Hb) as Hlt.
  destruct (Z.leb_spec (Z.of_nat (length (build <$> omap Datatypes.id os))) (TxNonce id)); [lia|].
  destruct (Z.ltb_spec (TxNonce id) 0); [lia|]. cbn [orb].
  rewrite (proj2 (slice_at_Ok (build <$> omap Datatypes.id os) (TxNonce id) (build i))) by (split; [lia|done]).
  cbn [mbind res_bind]. rewrite bool_decide_true by done. cbn [negb in_Impl build]. by apply deposits_read.
Qed.

(** The data of a deposit come from an instruction with this bridge's identifier. *)
Lemma depositCase_inv BridgeId id slot bid sender amount token address chain referral d :
  depositCase BridgeId id slot bid sender amount token address chain referral = Ok d →
  bid = Some BridgeId ∧ dd_ident d = id ∧
  ∃ a m, amount = Some a ∧ dd_DepositAmount d = int64 a ∧
    sender = Some m ∧ dd_SourceAddress d = key_String (meta_PublicKey m) ∧
    token = Ok (dd_TokenAddress d) ∧ address = Some (dd_DestinationAddress d) ∧
    chain = Some (dd_DestinationChainId d) ∧ referral = Some (dd_ReferralId d).
Proof.
  unfold depositCase. intros Hd. destruct bid as [bid|]; [|done]. cbn [deref mbind res_bind] in Hd.
  destruct (bool_decide_reflect (bid = BridgeId)) as [->|]; [|done]. cbn [negb] in Hd.
  destruct sender as [m|]; [|done]. destruct amount as [a|]; [|done].
  destruct token as [t| |]; [|done..]. destruct address as [ad|]; [|done].
  destruct chain as [c|]; [|done]. destruct referral as [r|]; [|done].
  apply (inj Ok) in Hd as <-. simpl. eauto 12.
Qed.

(** Solana deposit data come from a transaction that did not fail and from an
    instruction of the bridge program in it, the one the nonce counts to among the
    program's instructions, which decodes to one of the three deposit variants with this
    bridge's identifier. *)
Theorem solana_GetDepositData_sound BridgeId id d :
  GetDepositData ProgramID BridgeId id = Ok d →
  ∃ sig out raw message ci accounts inst,
    SignatureFromBase58 (TxHash id) = Ok sig ∧ GetTransaction sig = Ok out ∧ tr_Meta out = Some None ∧
    tr_Transaction out = Some raw ∧ TransactionFromDecoder raw = Ok message ∧ 0 ≤ TxNonce id ∧
    filter (λ ci, ci_Program ci = Ok ProgramID) (msg_Instructions message) !! Z.to_nat (TxNonce id) = Some ci ∧
    ci_Accounts ci = Ok accounts ∧ DecodeInstruction accounts (ci_Data ci) = Ok inst ∧
    dd_ident d = id ∧ in_int64 (dd_DepositAmount d) ∧
    match in_Impl inst with
    | Impl_DepositNative x => DepositNative.BridgeId x = Some BridgeId ∧
        dd_TokenAddress d = DefaultNativeTokenAddress ∧
        DepositNative.Address x = Some (dd_DestinationAddress d) ∧
        DepositNative.ChainId x = Some (dd_DestinationChainId d)
    | Impl_DepositSpl x => DepositSpl.BridgeId x = Some BridgeId ∧
        account_String (DepositSpl.GetMintAccount x) = Ok (dd_TokenAddress d) ∧
        DepositSpl.Address x = Some (dd_DestinationAddress d) ∧
        DepositSpl.ChainId x = Some (dd_DestinationChainId d)
    | Impl_DepositWrapped x => DepositWrapped.BridgeId x = Some BridgeId ∧
        account_String (DepositWrapped.GetMintAccount x) = Ok (dd_TokenAddress d) ∧
        DepositWrapped.Address x = Some (dd_DestinationAddress d) ∧
        DepositWrapped.ChainId x = Some (dd_DestinationChainId d)
    | _ => False
    end.
Proof.
  unfold GetDepositData. intros Hd.
  apply bind_Ok in Hd as (sig & Hsig & Hd). apply wrap_Ok in Hsig.
  apply bind_Ok in Hd as (out & Hout & Hd). apply wrap_Ok in Hout.
  destruct (tr_Meta out) as [[e|]|] eqn:Hmeta; [done| |done]. cbn [deref mbind res_bind] in Hd.
  destruct (tr_Transaction out) as [raw|] eqn:Hraw; [|done]. cbn [deref mbind res_bind] in Hd.
  apply bind_Ok in Hd as (message & Hmsg & Hd). apply wrap_Ok in Hmsg.
  apply bind_Ok in Hd as (insts & Hinsts & Hd). apply wrap_Ok in Hinsts.
  destruct (_ || _); [done|]. apply bind_Ok in Hd as (inst & Hinst & Hd).
  apply slice_at_Ok in Hinst as [[Hn _] Hinst]. rewrite bool_decide_true in Hd by done. cbn [negb] in Hd.
  apply decodeInstructions_sound in Hinsts as (own & -> & Hown). simpl in Hinst.
  destruct (Forall2_lookup_r _ _ _ _ _ Hown Hinst) as (ci & Hci & accounts & Ha & Hdec).
  exists sig, out, raw, message, ci, accounts, inst. do 9 (split; [done|]).
  destruct (in_Impl inst); try done; simpl in Hd; apply depositCase_inv in Hd as
    (Hbid & Hid & a & m & _ & Ham & _ & _ & Htok & Haddr & Hch & _); rewrite Ham;
    (split; [done|]; split; [apply int64_range|]); split_and!; try done; by apply (inj Ok) in Htok.
Qed.

(** The bridge id of a deposit instruction and the accounts its case of [GetDepositData]
    dereferences: the sender, and the mint of a token. *)
Definition deposit_needs (i : Impl) : option (option string * list Z) :=
  match i with
  | Impl_DepositNative d => Some (DepositNative.BridgeId d, [1])
  | Impl_DepositSpl d => Some (DepositSpl.BridgeId d, [2; 0])
  | Impl_DepositWrapped d => Some (DepositWrapped.BridgeId d, [1; 0])
  | _ => None
  end.

(** C33: Exactly when reading a decoded instruction panics.  Whatever bytes the transaction
    carried, an instruction that decodes has every argument of its variant and the
    transaction's accounts.  Reading the deposit from it then dereferences a nil pointer if
    and only if it is a deposit for the client's bridge id one of whose needed accounts
    (sender, mint) is missing from the instruction's list of accounts, which neither the
    decoder nor the client checks. *)
Theorem decoded_deposit_panics_iff BridgeId id slot accounts data inst :
  DecodeInstruction accounts data = Ok inst →
  Forall field_set (impl_params (in_Impl inst)) ∧ impl_accounts (in_Impl inst) = accounts ∧
  (instructionDeposit BridgeId id slot (in_Impl inst) = Panic ↔
   ∃ needed k, deposit_needs (in_Impl inst) = Some (Some BridgeId, needed) ∧ k ∈ needed ∧
     Get accounts k = None).
Proof.
  intros Hd. destruct (decoded_complete accounts data inst Hd) as [Hset Hacc].
  do 2 (split; [done|]). rewrite <- Hacc.
  destruct (in_Impl inst) as [x|x|x|x|x|x|x|x|x|x]; try (split; [done|intros (? & ? & ? & _); done]);
    simpl in *; unfold DepositNative.params, DepositSpl.params, DepositWrapped.params in Hset;
    rewrite ?Forall_cons in Hset; unfold field_set in Hset; simpl in Hset; destruct_and! Hset;
    repeat match goal with H : is_Some _ |- _ => destruct H as [? ->] end; unfold depositCase, account_String;
    unfold DepositNative.GetSenderAccount, DepositSpl.GetSenderAccount, DepositSpl.GetMintAccount,
      DepositWrapped.GetSenderAccount, DepositWrapped.GetMintAccount;
    cbn [deref mbind res_bind];
    (case_bool_decide as Hb; simpl; [subst|split; [done|intros (? & ? & [= -> _] & _); done]]).
  - destruct (Get _ 1) eqn:Hg1; simpl; (split; [try done; intros _|intros (? & ? & [= <-] & Hk & Hn)]).
    + apply list_elem_of_singleton in Hk as ->. congruence.
    + eexists _, 1. split; [done|]. split; [by left|done].
    + done.
  - destruct (Get _ 2) eqn:Hg2; simpl; [destruct (Get _ 0) eqn:Hg0; simpl|];
      (split; [try done; intros _|intros (? & ? & [= <-] & Hk & Hn)]); try done.
    + apply elem_of_cons in Hk as [->|Hk%list_elem_of_singleton]; congruence.
    + eexists _, 0. split; [done|]. split; [by right; left|done].
    + eexists _, 2. split; [done|]. split; [by left|done].
  - destruct (Get _ 1) eqn:Hg1; simpl; [destruct (Get _ 0) eqn:Hg0; simpl|];
      (split; [try done; intros _|intros (? & ? & [= <-] & Hk & Hn)]); try done.
    + apply elem_of_cons in Hk as [->|Hk%list_elem_of_singleton]; congruence.
    + eexists _, 0. split; [done|]. split; [by right; left|done].
    + eexists _, 1. split; [done|]. split; [by left|done].
Qed.

(** The seed passed to [findAuthorityAddressWithBumpSeed] is not used: the address is
    derived with the seed zero whatever bump seed the caller knows. *)
Theorem known_bump_seed_ignored bridgeId k1 k2 :
  k1 ≠ 0 → k2 ≠ 0 →
  DepositNative.findAuthorityAddressWithBumpSeed ProgramID bridgeId k1 =
  DepositNative.findAuthorityAddressWithBumpSeed ProgramID bridgeId k2.
Proof.
  intros Hk1 Hk2. unfold DepositNative.findAuthorityAddressWithBumpSeed, DepositNative.findAuthorityAddress, derive_address.
  by rewrite (proj2 (Z.eqb_neq k1 0) Hk1), (proj2 (Z.eqb_neq k2 0) Hk2).
Qed.

Lemma AuthorityAccount_roundtrip obj data rest :
  has_type TU8 (aa_Bump obj) → has_type (TVecArr 33) (aa_Signers obj) → has_type TU64 (aa_AuthNonce obj) →
  AuthorityAccount_MarshalWithEncoder obj = Ok data →
  AuthorityAccount_UnmarshalWithDecoder (data ++ rest) = Ok (obj, rest).
Proof.
  intros Ht1 Ht2 Ht3 Hm. unfold AuthorityAccount_MarshalWithEncoder in Hm.
  apply bind_Ok in Hm as (b1 & Hb1 & Hm). apply bind_Ok in Hm as (b2 & Hb2 & Hm).
  apply bind_Ok in Hm as (b3 & Hb3 & Hm). apply (inj Ok) in Hm as <-.
  unfold AuthorityAccount_UnmarshalWithDecoder. rewrite <- !app_assoc, ReadTypeID_app by done.
  cbn [mbind res_bind fst snd]. rewrite bool_decide_true by done. cbn [negb].
  rewrite (Decode_Encode _ _ _ _ Ht1 Hb1). cbn [mbind res_bind fst snd].
  rewrite (Decode_Encode _ _ _ _ Ht2 Hb2). cbn [mbind res_bind fst snd].
  rewrite (Decode_Encode _ _ _ _ Ht3 Hb3). by destruct obj.
Qed.

End contract_theorems.

(** ** Witnesses

    An instance of [SolanaGo] with the Borsh coding: little-endian integers, strings and
    vectors with a 32-bit length. *)

Section witnesses.

Definition wtake (n : nat) (d : bytes) : res (bytes * bytes) :=
  if bool_decide (n ≤ length d)%nat then Ok (take n d, drop n d) else Err (ENew "EOF").

Fixpoint wchunks (n count : nat) (d : bytes) : res (list bytes * bytes) :=
  match count with
  | O => Ok ([], d)
  | S count' => x ← wtake n d; r ← wchunks n count' (snd x); Ok (fst x :: fst r, snd r)
  end.

Definition wencode (t : ty) : val t → bytes :=
  match t with
  | TString => λ s, le_bytes 4 (Z.of_nat (String.length s)) ++ bytes_of_string s
  | TU8 => λ z, le_bytes 1 z
  | TU16 => λ z, le_bytes 2 z
  | TU64 => λ z, le_bytes 8 z
  | TBool => λ b, [Z_byte (if b then 1 else 0)]
  | TArr _ => λ l, l
  | TVecArr _ => λ l, le_bytes 4 (Z.of_nat (length l)) ++ concat l
  end.

Definition wdecode (t : ty) : bytes → res (val t * bytes) :=
  match t with
  | TString => λ d, n ← wtake 4 d; s ← wtake (Z.to_nat (le_Z (fst n))) (snd n); Ok (string_of_bytes (fst s), snd s)
  | TU8 => λ d, n ← wtake 1 d; Ok (le_Z (fst n), snd n)
  | TU16 => λ d, n ← wtake 2 d; Ok (le_Z (fst n), snd n)
  | TU64 => λ d, n ← wtake 8 d; Ok (le_Z (fst n), snd n)
  | TBool => λ d, n ← wtake 1 d; Ok (negb (le_Z (fst n) =? 0), snd n)
  | TArr n => λ d, wtake n d
  | TVecArr n => λ d, c ← wtake 4 d; wchunks n (Z.to_nat (le_Z (fst c))) (snd c)
  end.

Lemma wtake_app a b : wtake (length a) (a ++ b) = Ok (a, b).
Proof.
  unfold wtake. rewrite bool_decide_true by (rewrite length_app; lia).
  by rewrite take_app_length, drop_app_length.
Qed.

Lemma wtake_app' n a b : length a = n → wtake n (a ++ b) = Ok (a, b).
Proof. intros <-. apply wtake_app. Qed.

Lemma wchunks_app n l rest :
  Forall (λ b, length b = n) l → wchunks n (length l) (concat l ++ rest) = Ok (l, rest).
Proof.
  induction 1 as [|x l Hx Hl IH]; simpl; [done|]. rewrite <- app_assoc, (wtake_app' n) by done. simpl.
  by rewrite IH.
Qed.

Lemma wdecode_wencode t v rest : has_type t v → wdecode t (wencode t v ++ rest) = Ok (v, rest).
Proof.
  assert (Hle : ∀ n z, 0 ≤ z < 256 ^ Z.of_nat n → le_Z (le_bytes n z) = z).
  { intros n z Hz. rewrite le_Z_le_bytes. by apply Z.mod_small. }
  destruct t as [| | | | |n|n]; intros Hv; cbn [wdecode wencode val has_type] in *.
  - rewrite <- app_assoc, (wtake_app' 4) by apply length_le_bytes. cbn [mbind res_bind fst snd].
    rewrite Hle by lia. rewrite Nat2Z.id, (wtake_app' (String.length v)) by apply length_bytes_of_string.
    cbn [mbind res_bind fst snd]. unfold string_of_bytes, bytes_of_string.
    by rewrite String.string_of_list_byte_of_string.
  - rewrite (wtake_app' 1) by apply length_le_bytes. cbn [mbind res_bind fst snd]. by rewrite Hle by lia.
  - rewrite (wtake_app' 2) by apply length_le_bytes. cbn [mbind res_bind fst snd]. by rewrite Hle by lia.
  - rewrite (wtake_app' 8) by apply length_le_bytes. cbn [mbind res_bind fst snd]. by rewrite Hle by lia.
  - rewrite (wtake_app' 1) by done. by destruct v.
  - by apply wtake_app'.
  - destruct Hv as [Hall Hlen]. rewrite <- app_assoc, (wtake_app' 4) by apply length_le_bytes.
    cbn [mbind res_bind fst snd]. rewrite Hle by lia. rewrite Nat2Z.id. by apply wchunks_app.
Qed.

Definition wids : list (string * bytes) :=
  [("change_authority", Instruction_ChangeAuthority); ("deposit_native", Instruction_DepositNative);
   ("deposit_spl", Instruction_DepositSpl); ("deposit_wrapped", Instruction_DepositWrapped);
   ("init_spl_vault", Instruction_InitSplVault); ("init_wrapped_mint", Instruction_InitWrappedMint);
   ("initialize", Instruction_Initialize); ("withdraw_native", Instruction_WithdrawNative);
   ("withdraw_spl", Instruction_WithdrawSpl); ("withdraw_wrapped", Instruction_WithdrawWrapped)].

Definition wSighash (name : string) : bytes :=
  match List.find (λ p, bool_decide (fst p = name)) wids with
  | Some p => snd p
  | None => type_id [0; 0; 0; 0; 0; 0; 0; 0]
  end.

Definition wvariant (A : Type) (defs : list (string * (bytes → res (A * bytes)))) (data : bytes)
    : res ((bytes * A) * bytes) :=
  h ← wtake 8 data;
  match List.find (λ p, bool_decide (wSighash (fst p) = fst h)) defs with
  | Some p => r ← snd p (snd h); Ok ((fst h, fst r), snd r)
  | None => Err (ENew "no known type")
  end.

Local Instance sample_solana : SolanaGo := {|
  PublicKey := string; PublicKey_eq_dec := _; MustPublicKeyFromBase58 := λ s, s;
  key_Bytes := bytes_of_string; key_String := λ s, s;
  AccountMeta := (string * bool * bool)%type; Meta := λ k, (k, false, false);
  WRITE := λ m, (fst (fst m), true, snd m); SIGNER := λ m, (fst (fst m), snd (fst m), true);
  meta_PublicKey := λ m, fst (fst m);
  Get := λ l i, mjoin (l !! Z.to_nat i); SetAccounts := Ok;
  Encode := λ t o, match o with Some v => Ok (wencode t v) | None => Err (ENew "nil") end;
  Decode := wdecode; MarshalBorsh := λ t v, Ok (wencode t v);
  CreateProgramAddress := λ seeds p, Ok (p +:+ string_of_bytes (concat seeds))%string;
  FindProgramAddress := λ seeds p, Ok ((p +:+ string_of_bytes (concat seeds))%string, 255);
  ReadTypeID := wtake 8; Sighash := wSighash; UnmarshalBinaryVariant := wvariant |}.

Lemma wSighash_length name : length (wSighash name) = 8%nat.
Proof.
  unfold wSighash. destruct (List.find _ wids) as [p|] eqn:E; [|done].
  apply List.find_some in E as [Hin _]. unfold wids in Hin.
  repeat (destruct Hin as [<-|Hin]; [done|]). done.
Qed.

Local Instance sample_solana_spec : SolanaGoSpec.
Proof.
  split; try done.
  - intros t v data rest Hty He. injection He as <-. by apply wdecode_wencode.
  - intros id rest Hid. by apply wtake_app'.
  - apply wSighash_length.
  - intros A defs name f rest Hnd Hin. cbn [UnmarshalBinaryVariant sample_solana Sighash] in *. unfold wvariant.
    rewrite (wtake_app' 8) by apply wSighash_length. cbn [mbind res_bind fst snd].
    assert (List.find (λ p, bool_decide (wSighash (fst p) = wSighash name)) defs = Some (name, f)) as ->; [|done].
    clear rest. induction defs as [|[n g] defs IH]; [by apply elem_of_nil in Hin|].
    cbn [fmap list_fmap fst] in Hnd. apply NoDup_cons in Hnd as [Hni Hnd]. cbn [List.find fst].
    apply elem_of_cons in Hin as [[= <- <-]|Hin]; [by rewrite bool_decide_true|].
    rewrite bool_decide_false; [by apply IH|]. intros Heq. apply Hni. rewrite Heq.
    apply list_elem_of_fmap. exists name. split; [done|]. apply list_elem_of_fmap. by exists (name, f).
  - intros A defs data id a rest Hd. cbn [UnmarshalBinaryVariant sample_solana Sighash] in *. unfold wvariant in Hd.
    apply bind_Ok in Hd as ([h d] & Hh & Hd). cbn [fst snd] in Hd.
    unfold wtake in Hh. case_bool_decide; [|done]. injection Hh as <- <-.
    destruct (List.find _ defs) as [[name f]|] eqn:Hf; [|done]. apply bind_Ok in Hd as ([a' r'] & Hr & Hd).
    injection Hd as <- <- <-. apply List.find_some in Hf as [Hin Heq].
    apply bool_decide_eq_true in Heq. simpl in Heq. exists name, f, (drop 8 data).
    split_and!; [by apply list_elem_of_In|done|by rewrite take_drop|done].
Qed.

Lemma sample_ids : ids_match.
Proof. by intros []. Qed.

Definition wkey (s : string) : @PublicKey sample_solana := s.

Definition wdeposit : DepositSpl.t :=
  DepositSpl.mk (Some "b"%string) (Some 7) (Some "2"%string) (Some "r"%string) (Some 1)
    [Some (Meta "mint"%string); Some (WRITE (Meta "vault"%string)); Some (WRITE (Meta "sender"%string));
     Some (SIGNER (WRITE (Meta "signer"%string))); Some (Meta "token"%string)].

Definition wdata : bytes := match Data (build (Impl_DepositSpl wdeposit)) with Ok d => d | _ => [] end.

Lemma wtyped : Forall field_typed (impl_params (Impl_DepositSpl wdeposit)).
Proof. repeat constructor; by vm_compute. Qed.

Lemma instruction_roundtrip_witness :
  DecodeInstruction [] (wdata ++ [Byte.x00]) = Ok (build (impl_SetAccounts [] (Impl_DepositSpl wdeposit))).
Proof.
  apply (instruction_roundtrip (Impl_DepositSpl wdeposit) [] wdata [Byte.x00]);
    [exact sample_ids|exact wtyped|reflexivity].
Defined.

Definition wmessage : Message :=
  {| msg_Instructions :=
       [{| ci_Program := Ok "other"%string; ci_Accounts := Err (ENew ""); ci_Data := [] |};
        {| ci_Program := Ok "bridge"%string; ci_Accounts := Ok (DepositSpl.AccountMetaSlice wdeposit);
           ci_Data := wdata |}] |}.

Local Instance sample_node : SolanaNode := {|
  Signature := string; SignatureFromBase58 := Ok;
  GetTransaction := λ _, Ok {| tr_Slot := 5; tr_Meta := Some None; tr_Transaction := Some [] |};
  TransactionFromDecoder := λ _, Ok wmessage |}.

Definition wid : DepositIdentifier := {| TxHash := "sig"; TxNonce := 0; ChainId := "sol" |}.

Lemma solana_deposit_read_witness :
  GetDepositData (wkey "bridge") "b" wid =
    Ok {| dd_ident := wid; dd_Block := int64 5; dd_SourceAddress := "sender";
          dd_DepositAmount := int64 7; dd_TokenAddress := "mint"; dd_ReferralId := 1;
          dd_DestinationAddress := "r"; dd_DestinationChainId := "2" |}.
Proof.
  refine (solana_deposit_read (wkey "bridge") "b" wid "sig"%string
    {| tr_Slot := 5; tr_Meta := Some None; tr_Transaction := Some [] |} [] wmessage
    [None; Some (Impl_DepositSpl wdeposit)] (Impl_DepositSpl wdeposit) "sender"%string "mint"%string 7 "r" "2" 1
    sample_ids eq_refl eq_refl eq_refl eq_refl eq_refl _ _ _ _).
  - constructor; [|constructor; [|constructor]].
    + eapply encodes_other; [reflexivity|discriminate].
    + apply encodes_own; [reflexivity|reflexivity|exact wtyped|reflexivity].
  - discriminate.
  - reflexivity.
  - exact (deposits_spl "b" 7 "2" "r" 1 (wkey "mint") (wkey "vault") (wkey "sender") (wkey "signer")
             (wkey "token") wdeposit eq_refl).
Defined.

Lemma solana_GetDepositData_sound_witness :
  ∃ d, GetDepositData (wkey "bridge") "b" wid = Ok d ∧ in_int64 (dd_DepositAmount d).
Proof.
  destruct (GetDepositData (wkey "bridge") "b" wid) as [d| |] eqn:E;
    [|vm_compute in E; discriminate..].
  exists d. split; [reflexivity|].
  destruct (solana_GetDepositData_sound (wkey "bridge") "b" wid d E)
    as (? & ? & ? & ? & ? & ? & ? & _ & _ & _ & _ & _ & _ & _ & _ & _ & _ & Ham & _). exact Ham.
Defined.

(** The deposit of the witnesses is read with its accounts; decoded without any it panics. *)
Lemma decoded_deposit_panics_iff_witness :
  instructionDeposit "b" wid 5 (Impl_DepositSpl wdeposit) ≠ Panic ∧
  ∃ inst, DecodeInstruction [] wdata = Ok inst ∧ instructionDeposit "b" wid 5 (in_Impl inst) = Panic.
Proof.
  split.
  - edestruct (decoded_deposit_panics_iff "b" wid 5 (DepositSpl.AccountMetaSlice wdeposit) wdata
             (build (Impl_DepositSpl wdeposit))) as (_ & _ & Hp); [reflexivity|].
    intros (needed & k & Hn & Hk & Hget)%Hp. vm_compute in Hn. injection Hn as <-.
    apply elem_of_cons in Hk as [->|Hk%list_elem_of_singleton]; [|subst k]; vm_compute in Hget; discriminate.
  - exists (build (impl_SetAccounts [] (Impl_DepositSpl wdeposit))).
    assert (DecodeInstruction [] wdata = Ok (build (impl_SetAccounts [] (Impl_DepositSpl wdeposit)))) as E
      by reflexivity.
    split; [exact E|].
    destruct (decoded_deposit_panics_iff "b" wid 5 [] wdata _ E) as (_ & _ & Hp).
    apply (proj2 Hp). exists [2; 0], 2. split; [reflexivity|].
    split; [apply list_elem_of_here|reflexivity].
Defined.

Lemma known_bump_seed_ignored_witness :
  DepositNative.findAuthorityAddressWithBumpSeed (wkey "bridge") "b" 254 =
  DepositNative.findAuthorityAddressWithBumpSeed (wkey "bridge") "b" 255.
Proof. apply (known_bump_seed_ignored (wkey "bridge") "b" 254 255); discriminate. Defined.

End witnesses.
