(* ===== verification/SolanaEvents.v ===== *)
(** * The errors, events, accounts and printed form of the Solana bridge program

    Models [errors.go], [events.go], [types.go] and the [EncodeToTree] methods of
    [internal/bridge/chain/solana/contract]: the custom errors of the program and how they
    are found in an RPC error, the events of a transaction, and the tree that an instruction
    is printed as.  base58, base64 and the printing library are parameters. *)

From S2P Require Import Prelude SolanaInstructions SolanaContract.
#[local] Open Scope Z_scope.

(** ** errors.go *)

Record customErrorDef := { ce_code : Z; ce_name : string; ce_msg : string }.

Definition ErrInvalidAmount := {| ce_code := 6000; ce_msg := "Cannot deposit 0 tokens"; ce_name := "InvalidAmount" |}.
Definition ErrInvalidSignature := {| ce_code := 6001; ce_msg := "Unauthorized signers"; ce_name := "InvalidSignature" |}.
Definition ErrDoubleSpending :=
  {| ce_code := 6002; ce_msg := "Attempting double-spending withdrawal"; ce_name := "DoubleSpending" |}.
Definition ErrMismatchedHash := {| ce_code := 6003; ce_msg := "Mismatched hash"; ce_name := "MismatchedHash" |}.
Definition ErrInvalidWithdrawal :=
  {| ce_code := 6004; ce_msg := "Attempting to withdraw too many lamports"; ce_name := "InvalidWithdrawal" |}.
Definition ErrOutdatedNonce :=
  {| ce_code := 6005; ce_msg := "Nonce must be larger than the old one"; ce_name := "OutdatedNonce" |}.

Definition Errors : gmap Z customErrorDef :=
  {[6000 := ErrInvalidAmount; 6001 := ErrInvalidSignature; 6002 := ErrDoubleSpending;
    6003 := ErrMismatchedHash; 6004 := ErrInvalidWithdrawal; 6005 := ErrOutdatedNonce]}.

Definition Code (e : customErrorDef) : Z := ce_code e.
Definition Name (e : customErrorDef) : string := ce_name e.
(** [fmt.Sprintf("%s(%d): %s", e.name, e.code, e.msg)] *)
Definition Error (e : customErrorDef) : string :=
  (ce_name e +:+ "(" +:+ print_Z (ce_code e) +:+ "): " +:+ ce_msg e)%string.

(** An [interface{}] of encoding/json.  [JFloat m e] is the float64 [m * 2^e]. *)
Inductive JVal :=
| JNull | JBool (b : bool) | JString (s : string)
| JNumber (text : string) | JFloat (m e : Z)
| JArray (items : list JVal) | JObject (members : list (string * JVal)).

(** The type assertions; a missing member of a map is a nil interface. *)
Definition as_object (v : JVal) : option (list (string * JVal)) :=
  match v with JObject m => Some m | _ => None end.
Definition as_array (v : JVal) : option (list JVal) :=
  match v with JArray l => Some l | _ => None end.
Definition member (k : string) (m : list (string * JVal)) : option JVal := (list_to_map m : gmap string JVal) !! k.

(** [int(v)] of a float64: truncated; Go leaves the result of an overflow open. *)
Definition float_int (overflow : Z → Z) (m e : Z) : Z :=
  let z := if 0 <=? e then m * 2 ^ e else Z.quot m (2 ^ (- e)) in
  if (min_int64 <=? z) && (z <=? max_int64) then z else overflow z.

(** [jsonrpc.RPCError] in the chain of the error, and its data. *)
Record RPCError := { re_Data : option JVal }.

Definition customCode (overflow : Z → Z) (v : option JVal) : option Z :=
  match v with
  | Some (JNumber text) => ParseInt text
  | Some (JFloat m e) => Some (float_int overflow m e)
  | _ => None
  end.

(** [None]: [ok] is false. *)
Definition decodeErrorCode (overflow : Z → Z) (rpcErr : option RPCError) : option Z :=
  jErr ← rpcErr;
  data ← re_Data jErr;
  root ← as_object data;
  rootErr ← member "err" root ≫= as_object;
  rootErrInstructionError ← member "InstructionError" rootErr;
  items ← as_array rootErrInstructionError;
  if (length items =? 2)%nat then
    v ← (items !! 1%nat) ≫= as_object;
    customCode overflow (member "Custom" v)
  else None.

Definition DecodeCustomError (overflow : Z → Z) (rpcErr : option RPCError) : option customErrorDef :=
  errCode ← decodeErrorCode overflow rpcErr;
  Errors !! errCode.

(** ** types.go *)

Section types.
Context `{SolanaGo}.

Record Authority := { au_Bump : Z; au_Signers : list bytes; au_AuthNonce : Z }.

Definition Authority_MarshalWithEncoder (obj : Authority) : res bytes :=
  b1 ← Encode TU8 (Some (au_Bump obj));
  b2 ← Encode (TVecArr 33) (Some (au_Signers obj));
  b3 ← Encode TU64 (Some (au_AuthNonce obj));
  Ok (b1 ++ b2 ++ b3).

Definition Authority_UnmarshalWithDecoder (decoder : bytes) : res (Authority * bytes) :=
  bump ← Decode TU8 decoder;
  signers ← Decode (TVecArr 33) (snd bump);
  nonce ← Decode TU64 (snd signers);
  Ok ({| au_Bump := fst bump; au_Signers := fst signers; au_AuthNonce := fst nonce |}, snd nonce).

Record TxUsed := { tu_Used : bool }.

Definition TxUsed_MarshalWithEncoder (obj : TxUsed) : res bytes := Encode TBool (Some (tu_Used obj)).

(** Without remaining bytes the receiver [obj] keeps its value. *)
Definition TxUsed_UnmarshalWithDecoder (obj : TxUsed) (decoder : bytes) : res (TxUsed * bytes) :=
  match decoder with
  | [] => Ok (obj, [])
  | _ => used ← Decode TBool decoder; Ok ({| tu_Used := fst used |}, snd used)
  end.

End types.

(** ** events.go *)

Definition eventLogPrefix : string := "Program data: ".

Class EventLib := {
  base64_Encode : bytes → string;
  base64_DecodeString : string → res bytes;
  base58_Encode : bytes → string;
  base58_Decode : string → res bytes }.

Class EventLibSpec `{EventLib} : Prop := {
  base64_roundtrip bs : base64_DecodeString (base64_Encode bs) = Ok bs;
  base58_roundtrip bs : base58_Decode (base58_Encode bs) = Ok bs }.

Section events.
Context `{SolanaGo, EventLib} {EventData : Type}.

Record Event := { ev_Name : string; ev_Data : EventData }.

(** [eventTypes] and [eventNames]: what [UnmarshalWithDecoder] of the type of a
    discriminator reads, and its name. *)
Record EventTable := {
  eventTypes : bytes → option (bytes → res EventData); eventNames : bytes → string }.

Fixpoint decodeEventsFromLogMessage (logMessages : list string) : res (list bytes) :=
  match logMessages with
  | [] => Ok []
  | log :: rest =>
      if has_prefix eventLogPrefix log then
        match base64_DecodeString (trim_prefix eventLogPrefix log) with
        | Ok eventBinary =>
            eventBinaries ← decodeEventsFromLogMessage rest;
            Ok (eventBinary :: eventBinaries)
        | Err _ => Err (ENew "failed to decode logMessage event")
        | Panic => Panic
        end
      else decodeEventsFromLogMessage rest
  end.

(** An inner instruction as compiled: an index into the account keys, and its data. *)
Record InnerIx := { ix_ProgramIDIndex : nat; ix_Data : bytes }.

Fixpoint cpiEvents (instructions : list InnerIx) (accountKeys : list PublicKey) (targetProgramId : PublicKey)
    : res (list bytes) :=
  match instructions with
  | [] => Ok []
  | ix :: rest =>
      match accountKeys !! ix_ProgramIDIndex ix with
      | None => Panic
      | Some key =>
          if negb (bool_decide (key = targetProgramId)) then cpiEvents rest accountKeys targetProgramId
          else
            ixData ← base58_Decode (base58_Encode (ix_Data ix));
            if (length ixData <? 8)%nat then cpiEvents rest accountKeys targetProgramId
            else
              let eventBase64 := base64_Encode (drop 8 ixData) in
              eventBinary ← base64_DecodeString eventBase64;
              eventBinaries ← cpiEvents rest accountKeys targetProgramId;
              Ok (eventBinary :: eventBinaries)
      end
  end.

Definition decodeEventsFromEmitCPI (InnerInstructions : list (list InnerIx)) (accountKeys : list PublicKey)
    (targetProgramId : PublicKey) : res (list bytes) :=
  cpiEvents (mjoin InnerInstructions) accountKeys targetProgramId.

(** The events read before an error are returned with it. *)
Fixpoint parseEvents (t : EventTable) (base64Binaries : list bytes) : res (list Event * option error) :=
  match base64Binaries with
  | [] => Ok ([], None)
  | eventBinary :: rest =>
      if (length eventBinary <? 8)%nat then parseEvents t rest
      else
        let eventDiscriminator := take 8 eventBinary in
        match eventTypes t eventDiscriminator with
        | None => parseEvents t rest
        | Some unmarshal =>
            match unmarshal eventBinary with
            | Err e => Ok ([], Some (EWrap e "failed to unmarshal event"))
            | Panic => Panic
            | Ok data =>
                r ← parseEvents t rest;
                Ok ({| ev_Name := eventNames t eventDiscriminator; ev_Data := data |} :: fst r,
                    snd r)
            end
        end
  end.

(** The transaction and its metadata; [ResolveLookups] of solana-go extends the account keys
    by the tables the callback returned. *)
Record EventMessage := { em_AddressTableLookups : list PublicKey; em_AccountKeys : list PublicKey }.
Record EventMeta := { em_LogMessages : list string; em_InnerInstructions : list (list InnerIx) }.
Record EventTx := { et_Transaction : res EventMessage; et_Meta : option EventMeta }.

Definition DecodeEvents (t : EventTable) (txData : EventTx) (targetProgramId : PublicKey)
    {Tables : Type} (getAddressTables : list PublicKey → res Tables)
    (ResolveLookups : Tables → EventMessage → res EventMessage) : res (list Event * option error) :=
  tx ← et_Transaction txData;
  let altAddresses := em_AddressTableLookups tx in
  tx ← match altAddresses with
       | [] => Ok tx
       | _ => tables ← getAddressTables altAddresses; ResolveLookups tables tx
       end;
  match et_Meta txData with
  | None => Panic
  | Some meta =>
      logMessageEventBinaries ← decodeEventsFromLogMessage (em_LogMessages meta);
      emitedCPIEventBinaries ←
        decodeEventsFromEmitCPI (em_InnerInstructions meta) (em_AccountKeys tx) targetProgramId;
      parseEvents t (logMessageEventBinaries ++ emitedCPIEventBinaries)
  end.

(** The tables of the package. *)
Definition packageEvents : EventTable := {| eventTypes := λ _, None; eventNames := λ _, "" |}.

End events.
Arguments EventTable : clear implicits.
Arguments Event : clear implicits.

(** ** EncodeToTree *)

(** A branch with its children. *)
Inductive Tree := Branch (text : string) (children : list Tree).

Definition tree_text (t : Tree) : string := match t with Branch s _ => s end.
Definition tree_children (t : Tree) : list Tree := match t with Branch _ l => l end.

Class TreeFormat `{SolanaGo} := {
  format_Program : string → PublicKey → string;
  format_Instruction : string → string;
  format_Param (t : ty) : string → val t → string;
  format_Meta : string → option AccountMeta → string }.

Section trees.
Context `{SolanaGo, !TreeFormat} (ProgramID : PublicKey).

Definition ProgramName : string := "bridge".

(** [paramsBranch.Child(ag_format.Param(name, *inst.Field))] *)
Definition param (name : string) (t : ty) (v : option (val t)) : res Tree :=
  v ← deref v; Ok (Branch (format_Param t name v) []).

Definition len_label (what : string) (n : nat) : string :=
  (what +:+ "[len=" +:+ print_Z (Z.of_nat n) +:+ "]")%string.

(** The calls common to the ten methods. *)
Definition encode_tree (name : string) (params : list (res Tree)) (accounts : list (string * option AccountMeta))
    : res Tree :=
  params ← mapM id params;
  Ok (Branch (format_Program ProgramName ProgramID)
        [Branch (format_Instruction name)
           [Branch (len_label "Params" (length params)) params;
            Branch (len_label "Accounts" (length accounts))
              ((λ a, Branch (format_Meta (fst a) (snd a)) []) <$> accounts)]]).

Definition ChangeAuthority_EncodeToTree (inst : ChangeAuthority.t) : res Tree :=
  encode_tree "ChangeAuthority"
    [param "       BridgeId" TString (ChangeAuthority.BridgeId inst);
     param " NewAuthorities" (TVecArr 33) (ChangeAuthority.NewAuthorities inst);
     param "       NewNonce" TU64 (ChangeAuthority.NewNonce inst);
     param "      Signature" (TArr 64) (ChangeAuthority.Signature inst);
     param "     RecoveryId" TU8 (ChangeAuthority.RecoveryId inst)]
    [("authority", Get (ChangeAuthority.AccountMetaSlice inst) 0);
     ("   signer", Get (ChangeAuthority.AccountMetaSlice inst) 1)].

Definition DepositNative_EncodeToTree (inst : DepositNative.t) : res Tree :=
  encode_tree "DepositNative"
    [param "   BridgeId" TString (DepositNative.BridgeId inst);
     param "     Amount" TU64 (DepositNative.Amount inst);
     param "    ChainId" TString (DepositNative.ChainId inst);
     param "    Address" TString (DepositNative.Address inst);
     param " ReferralId" TU16 (DepositNative.ReferralId inst)]
    [("     authority", Get (DepositNative.AccountMetaSlice inst) 0);
     ("        sender", Get (DepositNative.AccountMetaSlice inst) 1);
     ("system_program", Get (DepositNative.AccountMetaSlice inst) 2)].

Definition DepositSpl_EncodeToTree (inst : DepositSpl.t) : res Tree :=
  encode_tree "DepositSpl"
    [param "   BridgeId" TString (DepositSpl.BridgeId inst);
     param "     Amount" TU64 (DepositSpl.Amount inst);
     param "    ChainId" TString (DepositSpl.ChainId inst);
     param "    Address" TString (DepositSpl.Address inst);
     param " ReferralId" TU16 (DepositSpl.ReferralId inst)]
    [("         mint", Get (DepositSpl.AccountMetaSlice inst) 0);
     ("    spl_vault", Get (DepositSpl.AccountMetaSlice inst) 1);
     ("       sender", Get (DepositSpl.AccountMetaSlice inst) 2);
     ("       signer", Get (DepositSpl.AccountMetaSlice inst) 3);
     ("token_program", Get (DepositSpl.AccountMetaSlice inst) 4)].

Definition DepositWrapped_EncodeToTree (inst : DepositWrapped.t) : res Tree :=
  encode_tree "DepositWrapped"
    [param "   BridgeId" TString (DepositWrapped.BridgeId inst);
     param "  MintNonce" TU64 (DepositWrapped.MintNonce inst);
     param "     Symbol" TString (DepositWrapped.Symbol inst);
     param "     Amount" TU64 (DepositWrapped.Amount inst);
     param "    ChainId" TString (DepositWrapped.ChainId inst);
     param "    Address" TString (DepositWrapped.Address inst);
     param " ReferralId" TU16 (DepositWrapped.ReferralId inst)]
    [("         mint", Get (DepositWrapped.AccountMetaSlice inst) 0);
     ("       sender", Get (DepositWrapped.AccountMetaSlice inst) 1);
     ("       signer", Get (DepositWrapped.AccountMetaSlice inst) 2);
     ("token_program", Get (DepositWrapped.AccountMetaSlice inst) 3)].

Definition InitSplVault_EncodeToTree (inst : InitSplVault.t) : res Tree :=
  encode_tree "InitSplVault"
    [param " BridgeId" TString (InitSplVault.BridgeId inst)]
    [("          mint", Get (InitSplVault.AccountMetaSlice inst) 0);
     ("     spl_vault", Get (InitSplVault.AccountMetaSlice inst) 1);
     ("        signer", Get (InitSplVault.AccountMetaSlice inst) 2);
     (" token_program", Get (InitSplVault.AccountMetaSlice inst) 3);
     ("system_program", Get (InitSplVault.AccountMetaSlice inst) 4)].

Definition InitWrappedMint_EncodeToTree (inst : InitWrappedMint.t) : res Tree :=
  encode_tree "InitWrappedMint"
    [param "  BridgeId" TString (InitWrappedMint.BridgeId inst);
     param "  Decimals" TU8 (InitWrappedMint.Decimals inst);
     param " MintNonce" TU64 (InitWrappedMint.MintNonce inst);
     param "    Symbol" TString (InitWrappedMint.Symbol inst);
     param "      Name" TString (InitWrappedMint.Name inst);
     param "       Uri" TString (InitWrappedMint.Uri inst)]
    [("          mint", Get (InitWrappedMint.AccountMetaSlice inst) 0);
     ("        signer", Get (InitWrappedMint.AccountMetaSlice inst) 1);
     (" token_program", Get (InitWrappedMint.AccountMetaSlice inst) 2);
     ("system_program", Get (InitWrappedMint.AccountMetaSlice inst) 3)].

Definition Initialize_EncodeToTree (inst : Initialize.t) : res Tree :=
  encode_tree "Initialize"
    [param "   BridgeId" TString (Initialize.BridgeId inst);
     param "Authorities" (TVecArr 33) (Initialize.Authorities inst)]
    [("     authority", Get (Initialize.AccountMetaSlice inst) 0);
     ("        signer", Get (Initialize.AccountMetaSlice inst) 1);
     ("system_program", Get (Initialize.AccountMetaSlice inst) 2)].

Definition WithdrawNative_EncodeToTree (inst : WithdrawNative.t) : res Tree :=
  encode_tree "WithdrawNative"
    [param "   BridgeId" TString (WithdrawNative.BridgeId inst);
     param "       Hash" (TArr 32) (WithdrawNative.Hash inst);
     param "     Amount" TU64 (WithdrawNative.Amount inst);
     param "        Uid" (TArr 32) (WithdrawNative.Uid inst);
     param "  Signature" (TArr 64) (WithdrawNative.Signature inst);
     param " RecoveryId" TU8 (WithdrawNative.RecoveryId inst)]
    [("      receiver", Get (WithdrawNative.AccountMetaSlice inst) 0);
     ("     authority", Get (WithdrawNative.AccountMetaSlice inst) 1);
     ("       tx_used", Get (WithdrawNative.AccountMetaSlice inst) 2);
     ("        signer", Get (WithdrawNative.AccountMetaSlice inst) 3);
     ("system_program", Get (WithdrawNative.AccountMetaSlice inst) 4)].

Definition WithdrawSpl_EncodeToTree (inst : WithdrawSpl.t) : res Tree :=
  encode_tree "WithdrawSpl"
    [param "   BridgeId" TString (WithdrawSpl.BridgeId inst);
     param "       Hash" (TArr 32) (WithdrawSpl.Hash inst);
     param "     Amount" TU64 (WithdrawSpl.Amount inst);
     param "        Uid" (TArr 32) (WithdrawSpl.Uid inst);
     param "  Signature" (TArr 64) (WithdrawSpl.Signature inst);
     param " RecoveryId" TU8 (WithdrawSpl.RecoveryId inst)]
    [("          mint", Get (WithdrawSpl.AccountMetaSlice inst) 0);
     ("     spl_vault", Get (WithdrawSpl.AccountMetaSlice inst) 1);
     ("      receiver", Get (WithdrawSpl.AccountMetaSlice inst) 2);
     ("     authority", Get (WithdrawSpl.AccountMetaSlice inst) 3);
     ("       tx_used", Get (WithdrawSpl.AccountMetaSlice inst) 4);
     ("        signer", Get (WithdrawSpl.AccountMetaSlice inst) 5);
     ("system_program", Get (WithdrawSpl.AccountMetaSlice inst) 6);
     (" token_program", Get (WithdrawSpl.AccountMetaSlice inst) 7)].

Definition WithdrawWrapped_EncodeToTree (inst : WithdrawWrapped.t) : res Tree :=
  encode_tree "WithdrawWrapped"
    [param "   BridgeId" TString (WithdrawWrapped.BridgeId inst);
     param "       Hash" (TArr 32) (WithdrawWrapped.Hash inst);
     param "  MintNonce" TU64 (WithdrawWrapped.MintNonce inst);
     param "     Symbol" TString (WithdrawWrapped.Symbol inst);
     param "     Amount" TU64 (WithdrawWrapped.Amount inst);
     param "        Uid" (TArr 32) (WithdrawWrapped.Uid inst);
     param "  Signature" (TArr 64) (WithdrawWrapped.Signature inst);
     param " RecoveryId" TU8 (WithdrawWrapped.RecoveryId inst)]
    [("          mint", Get (WithdrawWrapped.AccountMetaSlice inst) 0);
     ("      receiver", Get (WithdrawWrapped.AccountMetaSlice inst) 1);
     ("     authority", Get (WithdrawWrapped.AccountMetaSlice inst) 2);
     ("       tx_used", Get (WithdrawWrapped.AccountMetaSlice inst) 3);
     ("        signer", Get (WithdrawWrapped.AccountMetaSlice inst) 4);
     ("system_program", Get (WithdrawWrapped.AccountMetaSlice inst) 5);
     (" token_program", Get (WithdrawWrapped.AccountMetaSlice inst) 6)].

(** Every implementation is printable, so the other branch of [Instruction.EncodeToTree] is
    not taken. *)
Definition Instruction_EncodeToTree (inst : Instruction) : res Tree :=
  match in_Impl inst with
  | Impl_ChangeAuthority x => ChangeAuthority_EncodeToTree x
  | Impl_DepositNative x => DepositNative_EncodeToTree x
  | Impl_DepositSpl x => DepositSpl_EncodeToTree x
  | Impl_DepositWrapped x => DepositWrapped_EncodeToTree x
  | Impl_InitSplVault x => InitSplVault_EncodeToTree x
  | Impl_InitWrappedMint x => InitWrappedMint_EncodeToTree x
  | Impl_Initialize x => Initialize_EncodeToTree x
  | Impl_WithdrawNative x => WithdrawNative_EncodeToTree x
  | Impl_WithdrawSpl x => WithdrawSpl_EncodeToTree x
  | Impl_WithdrawWrapped x => WithdrawWrapped_EncodeToTree x
  end.

End trees.

(** ** Theorems *)

(** The error that the RPC node reports for a failed instruction of the program. *)
Definition instruction_error (index code : JVal) : option RPCError :=
  Some {| re_Data := Some (JObject [("err", JObject [("InstructionError", JArray [index; JObject [("Custom", code)]])])]) |}.

Lemma Errors_code c e : Errors !! c = Some e → ce_code e = c.
Proof.
  unfold Errors. intros He. repeat (apply lookup_insert_Some in He as [[<- <-]|[_ He]]; [done|]).
  by apply lookup_singleton_Some in He as [<- <-].
Qed.

(** The custom errors.  The table is keyed by the codes of its errors; the error of a failed
    instruction is found whether the node's answer was decoded with numbers as text or as
    floats; and whatever is found carries the code of the answer. *)
Theorem DecodeCustomError_correct overflow :
  (∀ c e, Errors !! c = Some e → Code e = c ∧ 6000 ≤ c ≤ 6005) ∧
  (∀ c e index, Errors !! c = Some e →
     DecodeCustomError overflow (instruction_error index (JNumber (print_Z c))) = Some e ∧
     DecodeCustomError overflow (instruction_error index (JFloat c 0)) = Some e) ∧
  (∀ err e, DecodeCustomError overflow err = Some e → decodeErrorCode overflow err = Some (Code e)).
Proof.
  assert (∀ c e, Errors !! c = Some e → Code e = c ∧ 6000 ≤ c ≤ 6005) as Htab.
  { intros c e He. split; [by apply Errors_code|]. unfold Errors in He.
    repeat (apply lookup_insert_Some in He as [[<- _]|[_ He]]; [lia|]).
    apply lookup_singleton_Some in He as [<- _]. lia. }
  split_and!; [done| |].
  - intros c e index He. destruct (Htab c e He) as [_ Hc].
    assert (in_int64 c) as Hi by (unfold in_int64, min_int64, max_int64; lia).
    assert (∀ v, DecodeCustomError overflow (instruction_error index v) =
              (c ← customCode overflow (Some v); Errors !! c)) as Hshape by reflexivity.
    rewrite !Hshape. unfold customCode. split; [by rewrite ParseInt_print|].
    unfold float_int. change (0 <=? 0) with true. cbv iota zeta. rewrite Z.mul_1_r.
    by rewrite (proj2 (Z.leb_le min_int64 c)), (proj2 (Z.leb_le c _)) by (unfold in_int64 in Hi; lia).
  - intros err e Hd. apply bind_Some in Hd as (c & Hc & He). rewrite Hc. f_equal. symmetry. by apply Htab.
Qed.

Section theorems.
Context `{SolanaGo, !SolanaGoSpec}.

Lemma Authority_roundtrip a data rest :
  has_type TU8 (au_Bump a) → has_type (TVecArr 33) (au_Signers a) → has_type TU64 (au_AuthNonce a) →
  Authority_MarshalWithEncoder a = Ok data → Authority_UnmarshalWithDecoder (data ++ rest) = Ok (a, rest).
Proof.
  intros H1 H2 H3 Hm. unfold Authority_MarshalWithEncoder in Hm.
  apply bind_Ok in Hm as (b1 & E1 & Hm). apply bind_Ok in Hm as (b2 & E2 & Hm).
  apply bind_Ok in Hm as (b3 & E3 & Hm). injection Hm as <-.
  unfold Authority_UnmarshalWithDecoder. rewrite <- !app_assoc.
  rewrite (Decode_Encode TU8 (au_Bump a) b1) by done. simpl.
  rewrite (Decode_Encode (TVecArr 33) (au_Signers a) b2) by done. simpl.
  rewrite (Decode_Encode TU64 (au_AuthNonce a) b3) by done. by destruct a.
Qed.

(** ** Events *)

Context `{EventLib, !EventLibSpec} {EventData : Type}.

(** The binaries of the logs: every message with the prefix, in order. *)
Lemma decodeEventsFromLogMessage_Ok logs l :
  decodeEventsFromLogMessage logs = Ok l →
  mapM (λ log, base64_DecodeString (trim_prefix eventLogPrefix log))
    (filter (λ log, has_prefix eventLogPrefix log = true) logs) = Ok l.
Proof.
  revert l. induction logs as [|log logs IH]; intros l; cbn [decodeEventsFromLogMessage]; [done|].
  destruct (has_prefix eventLogPrefix log) eqn:Hp.
  - rewrite filter_cons_True by done. destruct (base64_DecodeString _) as [b| |] eqn:Hb; [|done..].
    intros Hr. apply bind_Ok in Hr as (bs & Hbs & [= <-]). cbn [mapM]. rewrite Hb, (IH bs) by done. done.
  - rewrite filter_cons_False by congruence. apply IH.
Qed.

(** The binaries of the inner instructions of the program: their data without the first eight
    bytes, in order. *)
Lemma cpiEvents_spec keys target l :
  Forall (λ ix, is_Some (keys !! ix_ProgramIDIndex ix)) l →
  cpiEvents l keys target = Ok (drop 8 ∘ ix_Data <$>
    filter (λ ix, keys !! ix_ProgramIDIndex ix = Some target ∧ (8 ≤ length (ix_Data ix))%nat) l).
Proof.
  induction 1 as [|ix l [key Hk] _ IH]; [done|]. cbn [cpiEvents]. rewrite Hk.
  case_bool_decide as Hkey; cbn [negb]; [|rewrite IH, filter_cons_False by naive_solver; done].
  rewrite base58_roundtrip. cbn [mbind res_bind].
  destruct (Nat.ltb_spec (length (ix_Data ix)) 8).
  - rewrite IH, filter_cons_False by (intros [_ ?]; lia). done.
  - rewrite filter_cons_True by naive_solver. rewrite base64_roundtrip, IH. done.
Qed.

Lemma cpiEvents_panics keys target l ix :
  keys !! ix_ProgramIDIndex ix = None → cpiEvents (ix :: l) keys target = Panic.
Proof. intros Hk. simpl. by rewrite Hk. Qed.

(** Every event returned comes from a binary with its discriminator. *)
Lemma parseEvents_sound (t : EventTable EventData) l evts e :
  parseEvents t l = Ok (evts, e) →
  Forall (λ ev, ∃ b f, b ∈ l ∧ eventTypes t (take 8 b) = Some f ∧ f b = Ok (ev_Data ev) ∧
                       ev_Name ev = eventNames t (take 8 b)) evts.
Proof.
  revert evts e. induction l as [|b l IH]; intros evts e; cbn [parseEvents]; [intros [= <- _]; constructor|].
  assert (∀ evts e, parseEvents t l = Ok (evts, e) → Forall (λ ev, ∃ b0 f, b0 ∈ b :: l ∧
    eventTypes t (take 8 b0) = Some f ∧ f b0 = Ok (ev_Data ev) ∧ ev_Name ev = eventNames t (take 8 b0)) evts) as IH'.
  { intros evts' e' Hp. eapply Forall_impl; [by eapply IH|]. intros ev (b0 & f & Hin & ?).
    exists b0, f. split; [by right|done]. }
  destruct (_ <? _)%nat; [apply IH'|]. destruct (eventTypes t (take 8 b)) as [f|] eqn:Hf; [|apply IH'].
  destruct (f b) as [data| |] eqn:Hd; [|intros [= <- _]; constructor|done].
  intros Hr. apply bind_Ok in Hr as ([evts' e'] & Hr & [= <- <-]).
  constructor; [|by eapply IH']. exists b, f. simpl. split; [by left|done].
Qed.

(** With the tables of the package no transaction has events. *)
Theorem package_has_no_events txData target {Tables} (tables : list PublicKey → res Tables) resolve evts e :
  DecodeEvents (packageEvents (EventData:=EventData)) txData target tables resolve = Ok (evts, e) →
  evts = [] ∧ e = None.
Proof.
  assert (∀ l, parseEvents (packageEvents (EventData:=EventData)) l = Ok ([], None)) as Hp.
  { induction l as [|b l IH]; [done|]. simpl. by destruct (_ <? _)%nat. }
  unfold DecodeEvents. intros Hd. apply bind_Ok in Hd as (tx & _ & Hd). apply bind_Ok in Hd as (tx' & _ & Hd).
  destruct (et_Meta txData); [|done]. apply bind_Ok in Hd as (l1 & _ & Hd). apply bind_Ok in Hd as (l2 & _ & Hd).
  rewrite Hp in Hd. by injection Hd as <- <-.
Qed.

(** ** Printing *)

Context `{!TreeFormat} (ProgramID : PublicKey).

Lemma param_None name t : param name t None = Panic.
Proof. done. Qed.

(** A decoded instruction is printed without dereferencing a nil pointer, and the tree lists
    its arguments and its accounts under labels with their numbers. *)
Theorem decoded_instruction_prints accounts data inst :
  DecodeInstruction accounts data = Ok inst →
  ∃ name params accs, Instruction_EncodeToTree ProgramID inst =
    Ok (Branch (format_Program ProgramName ProgramID) [Branch (format_Instruction name)
         [Branch (len_label "Params" (length params)) params;
          Branch (len_label "Accounts" (length accs))
            ((λ a, Branch (format_Meta (fst a) (snd a)) []) <$> accs)]]) ∧
    length params = length (impl_params (in_Impl inst)).
Proof.
  intros Hd. destruct (decoded_complete accounts data inst Hd) as [Hset _]. clear Hd.
  unfold Instruction_EncodeToTree.
  destruct (in_Impl inst) as [x|x|x|x|x|x|x|x|x|x]; cbn [impl_params] in *;
    unfold ChangeAuthority.params, DepositNative.params, DepositSpl.params, DepositWrapped.params,
      InitSplVault.params, InitWrappedMint.params, Initialize.params, WithdrawNative.params,
      WithdrawSpl.params, WithdrawWrapped.params in *;
    rewrite ?Forall_cons in Hset; unfold field_set in Hset; cbn [f_value f_type] in Hset; destruct_and! Hset;
    unfold ChangeAuthority_EncodeToTree, DepositNative_EncodeToTree, DepositSpl_EncodeToTree,
      DepositWrapped_EncodeToTree, InitSplVault_EncodeToTree, InitWrappedMint_EncodeToTree,
      Initialize_EncodeToTree, WithdrawNative_EncodeToTree, WithdrawSpl_EncodeToTree, WithdrawWrapped_EncodeToTree;
    repeat match goal with H : is_Some _ |- _ => destruct H as [? ->] end;
    (do 3 eexists; split; [reflexivity|reflexivity]).
Qed.

End theorems.
