(* ===== verification/Clients.v ===== *)
(** * The configured chain clients and the node that uses them

    Models the five implementations of [chain.Client] with their validators
    ([internal/bridge/chain/*/client.go]) and their creation from the configuration
    ([internal/bridge/chain/config/config.go]), and puts the clients of [ChainDeposits],
    [SolanaContract] and [UtxoDeposit] under the node of [Intake]: what the node signs is
    what it read from a configured chain.

    The program identifier of the Solana bindings is a package variable that every Solana
    chain of the configuration overwrites and that the clients read when they decode. *)

From S2P Require Import Prelude Core Session Deposits Consensus Fetcher Withdrawal Mechanism Signing Utxo UtxoWithdrawal UtxoDeposit Intake ChainDeposits SolanaInstructions SolanaContract.
#[local] Open Scope Z_scope.

(** go-ethereum's [common.IsHexAddress] and tonutils' [address.ParseAddr]. *)
Class AddressLib := { IsHexAddress : string → bool; ParseAddr : string → bool }.

(** [^[1-9A-HJ-NP-Za-km-z]{97}$] *)
Definition zano_addressPattern (addr : string) : bool :=
  (String.length addr =? 97)%nat && str_forall is_base58 addr.

Definition zano_WithdrawalAmountValid (amount : Z) : bool := 0 <? amount.

Section clients.
Context `{AddressLib, SolanaLib, Evm.EvmAbi, Zano.ZanoJson, Ton.TonCells, SolanaGo}.
Context `{EncodingLib, SigLib, WireLib}.

(** A chain of the configuration, with the node that answers for it. *)
Inductive Chain :=
| EvmChain (id : string) (node : Evm.EvmNode) (chain : Evm.Chain)
| ZanoChain (id : string) (node : Zano.ZanoNode) (confirmations : Z)
| UtxoChain (id : string) (helper : UtxoHelper) (node : UtxoNode) (receivers : list string)
    (confirmations : Z)
| TonChain (id : string) (node : Ton.TonNode) (isTestnet : bool)
| SolanaChain (id : string) (node : SolanaNode) (bridgeAddress : PublicKey) (bridgeId : string)
| OtherChain (id : string).

Definition chain_Id (c : Chain) : string :=
  match c with
  | EvmChain id _ _ | ZanoChain id _ _ | UtxoChain id _ _ _ _ | TonChain id _ _
  | SolanaChain id _ _ _ | OtherChain id => id
  end.

Definition evm_client (id : string) (node : Evm.EvmNode) (chain : Evm.Chain) : Client :=
  {| cl_Type := TypeEVM; cl_ChainId := id; cl_GetDepositData := Evm.GetDepositData node chain;
     cl_AddressValid := IsHexAddress; cl_TransactionHashValid := DefaultTransactionHashPattern;
     cl_WithdrawalAmountValid := evm_WithdrawalAmountValid |}.

Definition zano_client (id : string) (node : Zano.ZanoNode) (confirmations : Z) : Client :=
  {| cl_Type := TypeZano; cl_ChainId := id; cl_GetDepositData := Zano.GetDepositData node confirmations;
     cl_AddressValid := zano_addressPattern; cl_TransactionHashValid := DefaultTransactionHashPattern;
     cl_WithdrawalAmountValid := zano_WithdrawalAmountValid |}.

Definition utxo_client (id : string) (helper : UtxoHelper) (node : UtxoNode) (receivers : list string)
    (confirmations : Z) : Client :=
  {| cl_Type := TypeBitcoin; cl_ChainId := id;
     cl_GetDepositData := utxo_GetDepositData node receivers confirmations;
     cl_AddressValid := AddressValid; cl_TransactionHashValid := DefaultTransactionHashPattern;
     cl_WithdrawalAmountValid := utxo_WithdrawalAmountValid |}.

Definition ton_client (id : string) (node : Ton.TonNode) (isTestnet : bool) : Client :=
  {| cl_Type := TypeTON; cl_ChainId := id; cl_GetDepositData := Ton.GetDepositData node isTestnet;
     cl_AddressValid := ParseAddr; cl_TransactionHashValid := DefaultTransactionHashPattern;
     cl_WithdrawalAmountValid := ton_WithdrawalAmountValid |}.

(** [programID] is the value of the package variable. *)
Definition solana_client (programID : PublicKey) (id : string) (node : SolanaNode) (bridgeId : string)
    : Client :=
  {| cl_Type := TypeSolana; cl_ChainId := id;
     cl_GetDepositData := SolanaContract.GetDepositData programID bridgeId;
     cl_AddressValid := λ addr, bool_decide (is_Some (PublicKeyFromBase58 addr));
     cl_TransactionHashValid := SolanaTransactionHashPattern;
     cl_WithdrawalAmountValid := sol_WithdrawalAmountValid |}.

(** [SetProgramID] in [solana.FromChain], for every Solana chain in turn. *)
Definition SetProgramID (programID : PublicKey) (c : Chain) : PublicKey :=
  match c with SolanaChain _ _ bridgeAddress _ => bridgeAddress | _ => programID end.

Definition clientOf (programID : PublicKey) (c : Chain) : res Client :=
  match c with
  | ZanoChain id node confirmations => Ok (zano_client id node confirmations)
  | EvmChain id node chain => Ok (evm_client id node chain)
  | UtxoChain id helper node receivers confirmations =>
      Ok (utxo_client id helper node receivers confirmations)
  | TonChain id node isTestnet => Ok (ton_client id node isTestnet)
  | SolanaChain id node _ bridgeId => Ok (solana_client programID id node bridgeId)
  | OtherChain _ => Panic
  end.

Fixpoint clientsOf (programID : PublicKey) (chains : list Chain) : res (list Client) :=
  match chains with
  | [] => Ok []
  | c :: chains' => cl ← clientOf programID c; rest ← clientsOf programID chains'; Ok (cl :: rest)
  end.

(** [chainer.Clients]; [ProgramID] is the variable's initial value.  The clients read the
    variable later, after the loop. *)
Definition Clients (ProgramID : PublicKey) (chains : list Chain) : res (list Client) :=
  clientsOf (foldl SetProgramID ProgramID chains) chains.

(** ** Lemmas *)

Lemma clientsOf_elem programID chains cls cl :
  clientsOf programID chains = Ok cls → cl ∈ cls → ∃ c, c ∈ chains ∧ clientOf programID c = Ok cl.
Proof.
  revert cls. induction chains as [|c chains IH]; intros cls Hc Hin; simpl in Hc.
  { apply (inj Ok) in Hc as <-. by apply elem_of_nil in Hin. }
  apply bind_Ok in Hc as (cl' & Hcl & Hc). apply bind_Ok in Hc as (rest & Hrest & Hc).
  apply (inj Ok) in Hc as <-. apply elem_of_cons in Hin as [->|Hin].
  - exists c. split; [apply list_elem_of_here|done].
  - destruct (IH rest Hrest Hin) as (c' & Hin' & Hc'). exists c'. split; [by apply list_elem_of_further|done].
Qed.

Lemma clientOf_id programID c cl : clientOf programID c = Ok cl → cl_ChainId cl = chain_Id c.
Proof. by destruct c; intros [= <-]. Qed.

Lemma repository_elem (cls : list Client) id cl :
  (NewClientsRepository cls : gmap string Client) !! id = Some cl → cl ∈ cls ∧ cl_ChainId cl = id.
Proof.
  unfold NewClientsRepository. induction cls as [|x cls IH] using rev_ind; simpl; [done|].
  rewrite foldl_app. cbn [foldl]. set (m := foldl _ _ cls) in *.
  change ((<[cl_ChainId x := x]> (m : gmap string Client)) !! id = Some cl →
          cl ∈ cls ++ [x] ∧ cl_ChainId cl = id).
  rewrite lookup_insert. case_decide as Heq.
  - intros [= <-]. split; [|done]. apply elem_of_app. right. apply list_elem_of_here.
  - intros Hl. destruct (IH Hl) as [Hin Hid]. split; [|done]. apply elem_of_app. by left.
Qed.

Lemma evm_ident node chain i d : Evm.GetDepositData node chain i = Ok d → dd_ident d = i.
Proof.
  unfold Evm.GetDepositData. intros Hok. apply bind_Ok in Hok as ([receipt from] & _ & Hok).
  destruct (negb _); [done|]. destruct (_ <? _); [done|]. apply bind_Ok in Hok as (log & _ & Hok).
  destruct (negb _); [done|]. destruct (Evm.GetDepositEventType log); [|done].
  apply bind_Ok in Hok as (u & _ & Hok). destruct (Evm.unpack _ _); [|done]. by apply (inj Ok) in Hok as <-.
Qed.

Lemma zano_ident node confirmations i d : Zano.GetDepositData node confirmations i = Ok d → dd_ident d = i.
Proof.
  unfold Zano.GetDepositData. intros Hok. apply bind_Ok in Hok as ([[tx|] b] & _ & Hok); [|done].
  cbn [fst] in Hok. apply bind_Ok in Hok as (u & _ & Hok). destruct (negb _); [done|].
  destruct (_ <? _); [done|]. apply bind_Ok in Hok as (entry & _ & Hok). apply bind_Ok in Hok as (memo & _ & Hok).
  destruct (Zano.zt_Ado tx) as [[op [amount|] [asset|]]|]; try done. by apply (inj Ok) in Hok as <-.
Qed.

Lemma ton_ident node isTestnet i d : Ton.GetDepositData node isTestnet i = Ok d → dd_ident d = i.
Proof.
  unfold Ton.GetDepositData. intros Hok. apply bind_Ok in Hok as (tx & _ & Hok).
  apply bind_Ok in Hok as (data & _ & Hok). by apply (inj Ok) in Hok as <-.
Qed.

Lemma utxo_ident (helper : UtxoHelper) node receivers confirmations i d :
  utxo_GetDepositData node receivers confirmations i = Ok d → dd_ident d = i.
Proof.
  unfold utxo_GetDepositData. intros Hok. apply bind_Ok in Hok as (tx & _ & Hok).
  destruct (bool_decide _); [done|]. destruct (_ <? _); [done|]. apply bind_Ok in Hok as (h & _ & Hok).
  apply bind_Ok in Hok as ([amount memo] & _ & Hok). destruct (tr_Vin tx); [done|].
  apply bind_Ok in Hok as (dep & _ & Hok). by apply (inj Ok) in Hok as <-.
Qed.

Lemma solana_ident (node : SolanaNode) programID bridgeId i d :
  SolanaContract.GetDepositData programID bridgeId i = Ok d → dd_ident d = i.
Proof.
  unfold SolanaContract.GetDepositData. intros Hok. apply bind_Ok in Hok as (sig & _ & Hok).
  apply bind_Ok in Hok as (out & _ & Hok). apply bind_Ok in Hok as ([e|] & _ & Hok); [done|].
  apply bind_Ok in Hok as (raw & _ & Hok). apply bind_Ok in Hok as (msg & _ & Hok).
  apply bind_Ok in Hok as (insts & _ & Hok). destruct (_ || _); [done|].
  apply bind_Ok in Hok as (inst & _ & Hok). destruct (negb _); [done|].
  destruct (in_Impl inst); try done; by apply depositCase_inv in Hok as (_ & Hid & _).
Qed.

Lemma client_ident programID c cl i d :
  clientOf programID c = Ok cl → cl_GetDepositData cl i = Ok d → dd_ident d = i.
Proof.
  destruct c; simpl; intros Hc; [..|done]; apply (inj Ok) in Hc as <-; simpl.
  - apply evm_ident.
  - apply zano_ident.
  - apply utxo_ident.
  - apply ton_ident.
  - apply solana_ident.
Qed.

End clients.

(** ** The node with the configured clients *)

Section node.
Context `{AddressLib, SolanaLib, Evm.EvmAbi, Zano.ZanoJson, Ton.TonCells, SolanaGo}.
Context `{EncodingLib, SigLib, WireLib}.
Context {St : Type} `{!DepositsQ St, !DepositsSpec St}.
(** The initial program identifier, and the configuration: the configured chains with the
    answers their nodes give over time. *)
Variable ProgramID : PublicKey.
Variable Config : list Chain → Prop.
Implicit Types (s : St).

Definition configured (core : BridgeCore) (clients : Repository) : Prop :=
  ∃ chains cls, Config chains ∧ Clients ProgramID chains = Ok cls ∧ clients = NewClientsRepository cls.

(** A client of the repository is the one of a configured chain with the identifier it is
    asked for. *)
Lemma configured_client core clients id cl :
  configured core clients → (clients : gmap string Client) !! id = Some cl →
  ∃ chains c, Config chains ∧ c ∈ chains ∧ chain_Id c = id ∧
    clientOf (foldl SetProgramID ProgramID chains) c = Ok cl.
Proof.
  intros (chains & cls & Hcfg & Hcls & ->) Hl. destruct (repository_elem cls id cl Hl) as [Hin Hid].
  destruct (clientsOf_elem _ _ _ _ Hcls Hin) as (c & Hc & Hcl). exists chains, c.
  split_and!; [done..| |done]. by rewrite <- (clientOf_id _ _ _ Hcl).
Qed.

Lemma configured_ident core (clients : Repository) c cl i data :
  configured core clients → (clients : gmap string Client) !! c = Some cl →
  cl_GetDepositData cl i = Ok data → dd_ident data = i.
Proof.
  intros Hw Hl Hd. destruct (configured_client _ _ _ _ Hw Hl) as (chains & ch & _ & _ & _ & Hcl).
  by eapply client_ident.
Qed.

(** C1: A node signs only what it read from a configured chain.  Whatever the API, the
    peers, the core's events and the sessions did before, in any interleaving, and do while
    the proposal is verified ([later] is any state at the time of the insert), a proposal
    is accepted only if the client of a configured chain with the identifier's chain id
    returned the deposit, the token pair exists in the core, and the signed data is valid
    for the receiver and destination chain of that deposit and for its amount, converted
    between the decimals, less the commission. *)
Theorem node_signs_chain_deposits {T} `{!DepositSigningData T, !Constructor T}
    (core : BridgeCore) clients (t : T) s0 s later s' :
  inv s0 → view s0 = ∅ → star (node_write configured) s0 s → configured core clients →
  verifyProposedData_at clients t s later = (s', Ok tt) →
  ∃ (core' : BridgeCore) chains c cl data srcInfo dstInfo w cm d,
    Config chains ∧ c ∈ chains ∧ chain_Id c = ChainId (ds_DepositIdentifier t) ∧
    clientOf (foldl SetProgramID ProgramID chains) c = Ok cl ∧
    cl_GetDepositData cl (ds_DepositIdentifier t) = Ok data ∧
    GetTokens (ChainId (ds_DepositIdentifier t)) (dd_TokenAddress data) (dd_DestinationChainId data)
      = Ok (srcInfo, dstInfo) ∧
    GetWithdrawalAmount (dd_DepositAmount data) srcInfo dstInfo = Ok (w, cm) ∧
    d_WithdrawalStatus d = WS_PENDING ∧ IsValid t d = Ok true ∧
    same_data d (ToNewDeposit data w cm (ti_Address dstInfo) (ti_IsWrapped dstInfo)).
Proof.
  intros Hinv Hv Hstar Hw Hok.
  destruct (accepted_was_fetched configured configured_ident core clients t s0 s later s' Hinv Hv Hstar Hw Hok)
    as (d & f & Hst & Hval & (core' & clients' & Hw' & Hf) & Hsame).
  apply FetchDeposit_Ok in Hf
    as (src & dst & data & srcInfo & dstInfo & w & cm & Hsrc & _ & Hd & _ & _ & Hti & Hg & ->).
  unfold repo_Client in Hsrc.
  destruct ((clients' : gmap string Client) !! ChainId (ds_DepositIdentifier t)) as [cl|] eqn:Hl; [|done].
  apply (inj Ok) in Hsrc as ->.
  destruct (configured_client _ _ _ _ Hw' Hl) as (chains & c & Hcfg & Hc & Hid & Hcl).
  by exists core', chains, c, src, data, srcInfo, dstInfo, w, cm, d.
Qed.

(** Without the checks of the API, a fetch that panics stops the node. *)
Lemma fetch_panic_stops (core : BridgeCore) clients cl i s :
  inv s → view s !! i = None → (clients : gmap string Client) !! ChainId i = Some cl →
  cl_TransactionHashValid cl (TxHash i) = true → cl_GetDepositData cl i = Panic →
  (∀ sender, acceptorStep clients {| dm_Distributor := sender; dm_Identifier := Some (ToMsgDepositIdentifier i) |} s = Panic) ∧
  ∀ T `{!DepositSigningData T, !Constructor T} (t : T), ds_DepositIdentifier t = i →
    mech_VerifyProposedData clients t s = (s, Panic).
Proof.
  intros Hinv Hn Hl Hh Hp.
  assert (FetchDeposit clients i = Panic) as Hf.
  { unfold FetchDeposit, repo_Client. rewrite Hl. simpl. rewrite Hh. simpl. by rewrite Hp. }
  split.
  - intros sender. unfold acceptorStep, GetIdentifier. cbn [dm_Identifier].
    assert (ToDbIdentifier (ToMsgDepositIdentifier i) = i) as -> by (by destruct i).
    by rewrite Get_spec, Hn, Hf by done.
  - intros T HS HC t <-. unfold mech_VerifyProposedData, verifyProposedData_at. by rewrite Get_spec, Hn, Hf by done.
Qed.

(** C39: A negative nonce stops a node.  The API refuses it, but neither the message that
    distributes a deposit nor a proposal is checked: for an identifier that names a
    successful transaction of a configured EVM chain with a negative nonce, indexing the
    logs panics in the goroutine of the acceptor and in that of the consensus. *)
Theorem negative_nonce_stops_node (core : BridgeCore) clients id node chain i receipt from s :
  inv s → view s !! i = None →
  (clients : gmap string Client) !! ChainId i = Some (evm_client id node chain) →
  DefaultTransactionHashPattern (TxHash i) = true →
  Evm.GetTransactionReceipt node (Evm.HexToHash (TxHash i)) = Ok (receipt, from) →
  Evm.rc_Status receipt = Evm.ReceiptStatusSuccessful → min_int64 ≤ TxNonce i < 0 →
  (∀ sender, acceptorStep clients {| dm_Distributor := sender; dm_Identifier := Some (ToMsgDepositIdentifier i) |} s = Panic) ∧
  ∀ T `{!DepositSigningData T, !Constructor T} (t : T), ds_DepositIdentifier t = i →
    mech_VerifyProposedData clients t s = (s, Panic).
Proof.
  intros Hinv Hn Hl Hh Hr Hst Hneg. eapply fetch_panic_stops; [done..|]. simpl.
  unfold Evm.GetDepositData. rewrite Hr. cbn [wrap mbind res_bind]. rewrite Hst. cbn [Z.eqb].
  rewrite Z.eqb_refl. cbn [negb]. unfold min_int64 in Hneg.
  rewrite int64_id by (unfold in_int64, min_int64, max_int64; lia).
  destruct (Z.ltb_spec (Z.of_nat (length (Evm.rc_Logs receipt))) (TxNonce i + 1)); [lia|].
  by rewrite slice_at_negative by lia.
Qed.

Lemma sol_oversized `{ProposalEncoding} d w :
  parse_Z (d_WithdrawalAmount d) = Some w → max_uint64 < w → ∃ e, sol_GetSignHash d = Err e.
Proof.
  intros Hw Hlt. unfold sol_GetSignHash, sol_preimage.
  destruct (ParseUint (d_WithdrawalAmount d)) as [z|] eqn:Hp; [|by eexists].
  apply ParseUint_parse_Z in Hp as [Hz Hr]. rewrite Hw in Hz. injection Hz as ->.
  unfold in_uint64 in Hr. lia.
Qed.

(** A withdrawal that Solana cannot express blocks the chain.  Fetching does not ask
    the destination's client whether the amount is valid, so a deposit of more than 64
    bits is stored as PENDING; once it is the oldest one for a Solana chain, every session
    a node leads fails to form its proposal, while the deposit stays the oldest. *)
Theorem oversized_withdrawal_blocks `{EthLib, TonLib, ProposalEncoding} chainId s d w :
  q_GetWithSelector (depositSelector chainId) s = Some d →
  parse_Z (d_WithdrawalAmount d) = Some w → max_uint64 < w →
  sol_WithdrawalAmountValid w = false ∧
  ∃ e, mech_FormProposalData (T:=SolanaWithdrawalData) chainId s = Err e.
Proof.
  intros Hsel Hw Hlt. split.
  - unfold sol_WithdrawalAmountValid. rewrite bool_decide_false; [done|]. unfold in_uint64. lia.
  - destruct (sol_oversized d w Hw Hlt) as [e He]. unfold mech_FormProposalData. rewrite Hsel.
    simpl. unfold hw_FormSigningData. simpl. rewrite He. by eexists.
Qed.

End node.

(** ** Witnesses *)

Section witnesses.
Import SampleFetcher SampleWithdrawal SampleUtxo.

Local Instance w_addresses : AddressLib := {| IsHexAddress := λ _, true; ParseAddr := λ _, true |}.
Local Instance w_abi : Evm.EvmAbi := {|
  Evm.abiV1_EventID := λ n, ("1" +:+ n)%string; Evm.abiV2_EventID := λ n, ("2" +:+ n)%string;
  Evm.abiV1_Unpack := λ _ _, None;
  Evm.abiV2_Unpack := λ _ _, Some {| Evm.eb_Amount := 1000000; Evm.eb_Token := "0xT"; Evm.eb_Receiver := "r";
                                     Evm.eb_Network := "2"; Evm.eb_ReferralId := 0 |};
  Evm.HexToHash := λ s, s |}.
Local Existing Instances ChainDeposits.sample_json ChainDeposits.sample_cells SolanaContract.sample_solana
  UtxoDeposit.sample_encoding.

Definition w_hash : string :=
  "0xabababababababababababababababababababababababababababababababab".
Definition w_id (nonce : Z) : DepositIdentifier := {| TxHash := w_hash; TxNonce := nonce; ChainId := "1" |}.
Definition w_chains : list Chain :=
  [EvmChain "1" sample_evm sample_chain; EvmChain "2" sample_evm sample_chain].
Definition w_config (chains : list Chain) : Prop := chains = w_chains.
Definition w_program : PublicKey := wkey "bridge".
Definition w_clients : Repository :=
  NewClientsRepository [evm_client "1" sample_evm sample_chain; evm_client "2" sample_evm sample_chain].

Lemma w_configured : configured w_program w_config core w_clients.
Proof. by exists w_chains, [evm_client "1" sample_evm sample_chain; evm_client "2" sample_evm sample_chain]. Qed.

(** The constructor of [Intake] that signs the identifier. *)
Local Existing Instances Intake.hash_identifier Intake.data_identifier Intake.constructor_identifier.

(** The node after a peer distributed the deposit. *)
Definition w_message (nonce : Z) : DistributedDepositMsg :=
  {| dm_Distributor := "p"; dm_Identifier := Some (ToMsgDepositIdentifier (w_id nonce)) |}.
Definition w_stored : Table :=
  match acceptorStep w_clients (w_message 1) empty_table with Ok s => s | _ => empty_table end.

Lemma w_writes : star (node_write (configured w_program w_config)) empty_table w_stored.
Proof.
  eapply (acceptorStep_writes (configured w_program w_config) core w_clients (w_message 1));
    [exact w_configured|reflexivity].
Qed.

Lemma node_signs_chain_deposits_witness :
  ∃ chains c, w_config chains ∧ c ∈ chains ∧ chain_Id c = "1"%string.
Proof.
  destruct (node_signs_chain_deposits w_program w_config core w_clients (w_id 1) empty_table w_stored w_stored w_stored)
    as (core' & chains & c & cl & data & si & di & w & cm & d & Hcfg & Hc & Hid & _).
  - exact SampleIntake.empty_inv.
  - reflexivity.
  - exact w_writes.
  - exact w_configured.
  - vm_compute. reflexivity.
  - exists chains, c. split; [exact Hcfg|]. split; [exact Hc|exact Hid].
Defined.

Definition w_empty : Table := empty_table.

Lemma negative_nonce_stops_node_witness : acceptorStep w_clients (w_message (-1)) w_empty = Panic.
Proof.
  edestruct (negative_nonce_stops_node core w_clients "1" sample_evm sample_chain (w_id (-1)))
    as [Hp _]; [exact SampleIntake.empty_inv|reflexivity|reflexivity|reflexivity|reflexivity|reflexivity|split; [discriminate|reflexivity]|].
  exact (Hp "p"%string).
Defined.

(** A table with one distributed deposit of 2^64 units. *)
Definition w_large : Table :=
  fst (Pg.Insert (set_Distributed true (ToNewDeposit
    {| dd_ident := w_id 1; dd_Block := 1; dd_SourceAddress := "s"; dd_DepositAmount := 2 ^ 64;
       dd_TokenAddress := "t"; dd_ReferralId := 0; dd_DestinationAddress := "r"; dd_DestinationChainId := "sol" |}
    (2 ^ 64) 0 "t" false)) empty_table).

Lemma oversized_withdrawal_blocks_witness :
  ∃ e, mech_FormProposalData (T:=SolanaWithdrawalData) "sol" w_large = Err e.
Proof.
  destruct (q_GetWithSelector (depositSelector "sol") w_large) as [d|] eqn:E; [|vm_compute in E; discriminate].
  apply (oversized_withdrawal_blocks "sol" w_large d (2 ^ 64) E).
  - vm_compute in E. injection E as <-. reflexivity.
  - reflexivity.
Defined.

End witnesses.
