(* ===== verification/Service.v ===== *)
(** * The service around the sessions

    Models the secrets storage ([internal/secrets/vault/vault.go]) with the account
    ([internal/core/account.go]), the transactions of the core connector
    ([internal/core/connector/main.go]), the JSON-RPC client of Zano ([pkg/zano]), the health
    checker ([internal/api/health/checker.go]) and the start of the signing service
    ([cmd/service/run/sign.go]), whose goroutines are the steps of a relation.

    The vault, HTTP, JSON and the Cosmos SDK are classes of operations. *)

From S2P Require Import Prelude Core Session Deposits Consensus Fetcher Withdrawal Intake Node.
#[local] Open Scope Z_scope.

(** ** core/account.go *)

(** go-ethereum's [hexutil], the key's address and bech32's [ConvertAndEncode]. *)
Class KeyLib := {
  hexutil_Encode : bytes → string;
  hexutil_Decode : string → option bytes;
  pubkey_Address : bytes → bytes;
  ConvertAndEncode : string → bytes → option string }.

Class KeyLibSpec `{KeyLib} : Prop := {
  hexutil_roundtrip bs : hexutil_Decode (hexutil_Encode bs) = Some bs }.

Definition defaultHrp : string := "bridge".

Section account.
Context `{KeyLib}.

(** The optional prefix is the first of [hrp]. *)
Definition NewAccount (prv : string) (hrp : list string) : res (Account bytes) :=
  raw ← wrap (of_option (hexutil_Decode prv) "hex") "failed to decode private key";
  let prefix := match hrp with [] => defaultHrp | h :: _ => h end in
  address ← wrap (of_option (ConvertAndEncode prefix (pubkey_Address raw)) "bech32")
              "failed to convert and encode address";
  Ok {| prv := raw; CosmosAddress := address |}.

End account.

(** ** secrets/vault *)

(** A value of a secret is a string or something else. *)
Inductive Value := VString (s : string) | VOther.
Notation SecretData := (gmap string Value).

(** The key-value engine of the vault; [None] is a nil answer. *)
Class KVv2 (St : Type) := {
  kv_Get : string → St → res (option SecretData);
  kv_Put : string → SecretData → St → res St }.

Class KVv2Spec (St : Type) `{KVv2 St} : Prop := {
  kv_Get_Put path d s s' : kv_Put path d s = Ok s' → kv_Get path s' = Ok (Some d);
  kv_Get_Put_ne path path' d s s' :
    kv_Put path d s = Ok s' → path' ≠ path → kv_Get path' s' = kv_Get path' s }.

(** [encoding/json] for the two structs of tss-lib, and [tls.X509KeyPair]. *)
Class SecretsCodec := {
  LocalPreParams : Type;
  LocalPartySaveData : Type;
  Certificate_t : Type;
  preparams_Marshal : LocalPreParams → option string;
  preparams_Unmarshal : string → option LocalPreParams;
  share_Marshal : LocalPartySaveData → option string;
  share_Unmarshal : string → option LocalPartySaveData;
  X509KeyPair : bytes → bytes → option Certificate_t }.

Class SecretsCodecSpec `{SecretsCodec} : Prop := {
  preparams_roundtrip p str : preparams_Marshal p = Some str → preparams_Unmarshal str = Some p;
  share_roundtrip d str : share_Marshal d = Some str → share_Unmarshal str = Some d }.

Definition valueKey : string := "value".
Definition keyPreParams : string := "keygen_preparams".
Definition keyAccount : string := "core_account".
Definition keyTssShare : string := "tss_share".
Definition keyTlsCert : string := "tls_cert".
Definition tlsCertData : string := "cert_data".
Definition tlsKeyData : string := "key_data".

Section vault.
Context {St : Type} `{!KVv2 St, KeyLib, SecretsCodec}.

Definition load (path : string) (s : St) : res SecretData :=
  kvData ← wrap (kv_Get path s) "failed to load data";
  of_option kvData "data not found".

Definition store (path : string) (value : SecretData) (s : St) : res St :=
  wrap (kv_Put path value s) "failed to save data".

(** [data[key].(string)] *)
Definition string_value (data : SecretData) (key msg : string) : res string :=
  match data !! key with
  | Some (VString v) => Ok v
  | _ => Err (ENew msg)
  end.

Definition GetKeygenPreParams (s : St) : res LocalPreParams :=
  data ← wrap (load keyPreParams s) "failed to load preparams";
  val ← string_value data valueKey "preparams value not found";
  wrap (of_option (preparams_Unmarshal val) "json") "failed to decode preparams".

Definition SaveKeygenPreParams (params : LocalPreParams) (s : St) : res St :=
  raw ← wrap (of_option (preparams_Marshal params) "json") "failed to marshal preparams";
  store keyPreParams {[valueKey := VString raw]} s.

(** [json.Marshal] of the pointer: a nil one is the JSON null. *)
Definition share_json (data : option LocalPartySaveData) : option string :=
  match data with None => Some "null" | Some d => share_Marshal d end.

Definition SaveTssShare (data : option LocalPartySaveData) (s : St) : res St :=
  raw ← wrap (of_option (share_json data) "json") "failed to marshal share data";
  store keyTssShare {[valueKey := VString raw]} s.

Definition GetTssShare (s : St) : res LocalPartySaveData :=
  kvData ← wrap (load keyTssShare s) "failed to load share data";
  val ← string_value kvData valueKey "share data not found";
  wrap (of_option (share_Unmarshal val) "json") "failed to decode share data".

Definition GetCoreAccount (s : St) : res (Account bytes) :=
  kvData ← wrap (load keyAccount s) "failed to load account";
  val ← string_value kvData valueKey "account value not found";
  wrap (NewAccount val []) "failed to parse account".

Definition SaveCoreAccount (account : Account bytes) (s : St) : res St :=
  store keyAccount {[valueKey := VString (hexutil_Encode (prv account))]} s.

Definition GetLocalPartyTlsCertificate (s : St) : res Certificate_t :=
  kvData ← wrap (load keyTlsCert s) "failed to load tls certificate data";
  rawCert ← string_value kvData tlsCertData "tls certificate data not found";
  rawKey ← string_value kvData tlsKeyData "tls key data not found";
  wrap (of_option (X509KeyPair (bytes_of_string rawCert) (bytes_of_string rawKey)) "x509")
    "failed to parse tls certificate".

Definition SaveLocalPartyTlsCertificate (rawCert rawKey : bytes) (s : St) : res St :=
  store keyTlsCert {[tlsCertData := VString (string_of_bytes rawCert);
                     tlsKeyData := VString (string_of_bytes rawKey)]} s.

(** What the signing service loads when it starts. *)
Definition load_secrets (s : St) : res (Account bytes * LocalPartySaveData * Certificate_t) :=
  account ← wrap (GetCoreAccount s) "failed to get core account";
  share ← wrap (GetTssShare s) "failed to get tss share";
  cert ← wrap (GetLocalPartyTlsCertificate s) "failed to get local party tls certificate";
  Ok (account, share, cert).

End vault.

(** ** core/connector *)

Definition gasLimit : Z := 3000000.

(** The Cosmos SDK: a builder of transactions with its steps, the account query and the
    broadcast of a transaction, which answers with a code. *)
Class CosmosTx := {
  Msg : Type;
  Builder : Type;
  Sig_t : Type;
  SetMsgs : list Msg → res Builder;
  SetGasAndFee : Z → string → Z → Builder → Builder;
  SetEmptySignature : Z → Builder → res Builder;
  SignWithPrivKey : string → Z → Z → Builder → res Sig_t;
  SetSignatures : Sig_t → Builder → res Builder;
  TxEncoder : Builder → res bytes }.

Record Settings := { st_ChainId : string; st_Denom : string; st_MinGasPrice : Z }.
Record Connector := {
  cn_settings : Settings; cn_accountNumber : Z; cn_accountSequence : Z }.

Definition set_sequence (z : Z) (c : Connector) : Connector :=
  {| cn_settings := cn_settings c; cn_accountNumber := cn_accountNumber c; cn_accountSequence := z |}.

(** [sdk.NewInt64Coin(denom, amount)] panics on a negative amount. *)
Definition NewInt64Coin (amount : Z) : res Z := if amount <? 0 then Panic else Ok amount.

Section connector.
Context `{CosmosTx}.

(** [accountData] is the answer to the account query of this call. *)
Definition buildTx (accountData : res Z) (gas feeAmount : Z) (msgs : list Msg) (c : Connector)
    : Connector * res bytes :=
  match wrap (SetMsgs msgs) "failed to set messages" with
  | Ok txBuilder =>
      let '(sequence, stored) := getAccountSequence accountData (cn_accountSequence c) in
      let c := set_sequence stored c in
      (c, coin ← NewInt64Coin (int64 feeAmount);
          let txBuilder := SetGasAndFee gas (st_Denom (cn_settings c)) coin txBuilder in
          txBuilder ← wrap (SetEmptySignature sequence txBuilder) "failed to set signature";
          sig ← wrap (SignWithPrivKey (st_ChainId (cn_settings c)) (cn_accountNumber c) sequence txBuilder)
                  "failed to sign with private key";
          txBuilder ← wrap (SetSignatures sig txBuilder) "failed to set signatures";
          TxEncoder txBuilder)
  | Err e => (c, Err e)
  | Panic => (c, Panic)
  end.

Definition feeAmount (c : Connector) : Z := uint64 (gasLimit * st_MinGasPrice (cn_settings c)).

(** [broadcast] answers with the code and the log. *)
Definition submitMsgs (accountData : res Z) (broadcast : bytes → res (Z * string)) (msgs : list Msg)
    (c : Connector) : Connector * res unit :=
  match msgs with
  | [] => (c, Ok tt)
  | _ =>
      let '(c, built) := buildTx accountData gasLimit (feeAmount c) msgs c in
      (c, tx ← wrap built "failed to build transaction";
          r ← wrap (broadcast tx) "failed to broadcast transaction";
          if negb (fst r =? 0)
          then Err (ENew ("transaction failed with code " +:+ print_Z (fst r) +:+ ": " +:+ snd r)%string)
          else Ok tt)
  end.

(** The sequence number in the transaction of each of several submissions. *)
Fixpoint sequences (answers : list (res Z)) (accountSequence : Z) : list Z :=
  match answers with
  | [] => []
  | a :: answers' =>
      let '(sequence, stored) := getAccountSequence a accountSequence in
      sequence :: sequences answers' stored
  end.

End connector.

(** ** pkg/zano *)

Record RPCRequest (P : Type) := { rq_Method : string; rq_Params : P; rq_ID : Z }.
Arguments Build_RPCRequest {_} _ _ _.

Inductive zano_params :=
| PTransfer (comment : string) (destinations : list (string * Z)) (services : list string) (fee : string)
    (hideReceiver : bool) (mixin : Z) (paymentID : string) (pushPayer servicesPermanent : bool)
| PGetTx (filterByHeight inTxs : bool) (maxHeight minHeight : Z) (outTxs pool : bool) (txid : string)
| PBurnAsset (assetId burnAmount : string)
| PEmitAsset (assetId : string) (destinations : list (string * Z)) (doNotSplit : bool)
| PTransferOwnership (assetId : string) (newOwner newOwnerEthPubKey : option string)
| PTxDetails (outputs : list string) (txBlob txID txSecretKey : string)
| PSendExtSigned (ethSig expectedTxID finalizedTx unsignedTx : string) (unlockOnFail : bool)
| PNone.

(** HTTP and JSON: the request is posted to an address, the answer is the result or an RPC
    error with its code and message. *)
Inductive rpc_answer := AResult (raw : bytes) | AError (code : Z) (message : string).
Class ZanoHttp := {
  http_Post : string → RPCRequest zano_params → res rpc_answer;
  http_Get : string → res bytes }.

Record ZanoRpc := { zc_walletRPC : string; zc_nodeRPC : string; zc_rawNodeRPC : string; zc_idCounter : Z }.

(** [atomic.Uint32.Add(1)] *)
Definition nextID (c : ZanoRpc) : ZanoRpc * Z :=
  let id := (zc_idCounter c + 1) mod 2 ^ 32 in
  ({| zc_walletRPC := zc_walletRPC c; zc_nodeRPC := zc_nodeRPC c; zc_rawNodeRPC := zc_rawNodeRPC c;
      zc_idCounter := id |}, id).

Definition newline : string := String (ascii_of_nat 10) EmptyString.
Definition defaultMixin : Z := 15.
Definition defaultFee : string := "10000000000".

Section zano_rpc.
Context `{ZanoHttp}.

Definition Call {R} (method : string) (decode : bytes → option R) (params : zano_params)
    (isWalletMethod : bool) (c : ZanoRpc) : ZanoRpc * res R :=
  let '(c, id) := nextID c in
  let rpc := if isWalletMethod then zc_walletRPC c else zc_nodeRPC c in
  (c, resp ← wrap (http_Post rpc (Build_RPCRequest method params id)) "failed to send request";
      match resp with
      | AError code message =>
          Err (ENew ("RPC Error: Code=" +:+ print_Z code +:+ ", Message=" +:+ message +:+ newline)%string)
      | AResult raw => wrap (of_option (decode raw) "json") "failed to unmarshal result"
      end).

Definition CallRaw {R} (method : string) (decode : bytes → option R) (c : ZanoRpc) : res R :=
  raw ← wrap (http_Get (zc_rawNodeRPC c +:+ "/" +:+ method)%string) "failed to send request";
  wrap (of_option (decode raw) "json") "failed to unmarshal response body".

Definition sdk_Transfer {R} (decode : bytes → option R) (comment : string) (service : list string)
    (destinations : list (string * Z)) (c : ZanoRpc) : ZanoRpc * res R :=
  match destinations with
  | [] => (c, Err (ENew "destinations must be non-empty"))
  | _ => Call "transfer" decode
           (PTransfer comment destinations service defaultFee true defaultMixin "" false true) true c
  end.

Definition sdk_BurnAsset {R} (decode : bytes → option R) (assetId amount : string) (c : ZanoRpc) :=
  Call "burn_asset" decode (PBurnAsset assetId amount) true c.

Definition sdk_GetTransactions {R} (decode : bytes → option R) (txid : string) (c : ZanoRpc) :=
  Call "search_for_transactions" decode (PGetTx false true 0 0 true true txid) true c.

Definition sdk_EmitAsset {R} (decode : bytes → option R) (assetId : string)
    (destinations : list (string * Z)) (c : ZanoRpc) : ZanoRpc * res R :=
  match destinations with
  | [] => (c, Err (ENew "destinations must be non-empty"))
  | _ => Call "emit_asset" decode (PEmitAsset assetId destinations false) true c
  end.

Definition sdk_TransferAssetOwnership {R} (decode : bytes → option R) (assetId newOwnerPubKey : string)
    (isEthKey : bool) (c : ZanoRpc) : ZanoRpc * res R :=
  Call "transfer_asset_ownership" decode
    (if isEthKey then PTransferOwnership assetId None (Some newOwnerPubKey)
     else PTransferOwnership assetId (Some newOwnerPubKey) None) true c.

Definition sdk_TxDetails {R} (decode : bytes → option R) (outputAddress : list string)
    (txBlob txID txSecretKey : string) (c : ZanoRpc) : ZanoRpc * res R :=
  Call "decrypt_tx_details" decode (PTxDetails outputAddress txBlob txID txSecretKey) false c.

Definition sdk_SendExtSignedAssetTX {R} (decode : bytes → option R)
    (ethSig expectedTXID finalizedTx unsignedTx : string) (unlockTransfersOnFail : bool) (c : ZanoRpc) :=
  Call "send_ext_signed_asset_tx" decode
    (PSendExtSigned ethSig expectedTXID finalizedTx unsignedTx unlockTransfersOnFail) true c.

(** The answer's status and height. *)
Definition sdk_CurrentHeight (decode : bytes → option (string * Z)) (c : ZanoRpc) : res Z :=
  resp ← CallRaw "getheight" decode c;
  if negb (bool_decide (fst resp = "OK")) then Err (ENew ("unexpected status: " +:+ fst resp)%string)
  else Ok (snd resp).

Definition sdk_GetWalletInfo {R} (decode : bytes → option R) (c : ZanoRpc) :=
  Call "get_wallet_info" decode PNone true c.

(** zano/types.go *)
Record SignedTransaction := {
  sx_ExpectedTxHash : string; sx_FinalizedTx : string; sx_Data : string; sx_Signature : string }.

(** zano/withdraw.go: [decode] gives the status. *)
Definition SendSignedTransaction (decode : bytes → option string) (signedTx : SignedTransaction)
    (c : ZanoRpc) : ZanoRpc * res string :=
  let '(c, r) := sdk_SendExtSignedAssetTX decode (sx_Signature signedTx) (sx_ExpectedTxHash signedTx)
                   (sx_FinalizedTx signedTx) (sx_Data signedTx) false c in
  (c, status ← wrap r "failed to send signed transaction";
      if negb (bool_decide (status = "OK"))
      then Err (ENew ("unexpected send signed transaction status: " +:+ status)%string)
      else Ok ("0x" +:+ sx_ExpectedTxHash signedTx)%string).

End zano_rpc.

(** ** api/health *)

Record Status := { hs_Ok : bool; hs_Error : string }.
Record StatusMap := { sm_statuses : gmap string Status; sm_overallOk : bool }.

Definition NewStatusMap : StatusMap := {| sm_statuses := ∅; sm_overallOk := true |}.

(** [err] is the text of the error. *)
Definition sm_Set (name : string) (err : option string) (s : StatusMap) : StatusMap :=
  match err with
  | None => {| sm_statuses := <[name := {| hs_Ok := true; hs_Error := "" |}]> (sm_statuses s);
               sm_overallOk := sm_overallOk s |}
  | Some text => {| sm_statuses := <[name := {| hs_Ok := false; hs_Error := text |}]> (sm_statuses s);
                    sm_overallOk := false |}
  end.

Record Response := { rs_Ok : bool; rs_Statuses : gmap string Status }.
Definition Collect (s : StatusMap) : Response :=
  {| rs_Ok := sm_overallOk s; rs_Statuses := sm_statuses s |}.

(** The checks to run: the connector and the client of every chain. *)
Definition checks (coreConnector : option string) (clients : gmap string (option string))
    : list (string * option string) :=
  ("core_connector", coreConnector) ::
  ((λ p, (("chain_" +:+ fst p)%string, snd p)) <$> map_to_list clients).

(** The goroutines report in some order, a permutation of the checks. *)
Definition check (order : list (string * option string)) : Response :=
  Collect (foldl (λ s p, sm_Set (fst p) (snd p) s) NewStatusMap order).

(** ** cmd/service/run/sign.go *)

(** The session [configureSigningSession] makes for a client; none for another type, and the
    nil session would be run. *)
Inductive SessionType := EvmSession | ZanoSession | BtcSession | TonSession | SolanaSession.
Definition configureSigningSession (t : ChainType) : option SessionType :=
  match t with
  | TypeEVM => Some EvmSession
  | TypeZano => Some ZanoSession
  | TypeBitcoin => Some BtcSession
  | TypeTON => Some TonSession
  | TypeSolana => Some SolanaSession
  | TypeOther => None
  end.

(** What the goroutine of a chain has done. *)
Inductive Spin := Starting | Registered | SyncFailed.
#[export] Instance Spin_eq_dec : EqDecision Spin.
Proof. solve_decision. Defined.

Record Startup := {
  su_status : PartyStatus;
  (** the server's goroutine has set its status *)
  su_server : bool;
  su_chains : gmap string Spin;
  (** the goroutine that waits for the sessions has set the status *)
  su_switched : bool }.

Definition startup (chains : gset string) : Startup :=
  {| su_status := PS_UNKNOWN; su_server := false; su_chains := gset_to_gmap Starting chains;
     su_switched := false |}.

Definition spun (m : gmap string Spin) : Prop := ∀ id x, m !! id = Some x → x ≠ Starting.

(** One step of one of the goroutines of [runSigningServiceMode], in any order. *)
Inductive startup_step (syncEnabled : bool) : Startup → Startup → Prop :=
| su_run_server st :
    su_server st = false →
    startup_step syncEnabled st
      {| su_status := if syncEnabled then PS_SYNC else PS_SIGN; su_server := true;
         su_chains := su_chains st; su_switched := su_switched st |}
| su_session st id :
    su_chains st !! id = Some Starting →
    startup_step syncEnabled st
      {| su_status := su_status st; su_server := su_server st;
         su_chains := <[id := Registered]> (su_chains st); su_switched := su_switched st |}
| su_sync_fails st id :
    syncEnabled = true → su_chains st !! id = Some Starting →
    startup_step syncEnabled st
      {| su_status := su_status st; su_server := su_server st;
         su_chains := <[id := SyncFailed]> (su_chains st); su_switched := su_switched st |}
| su_switch st :
    syncEnabled = true → su_switched st = false → spun (su_chains st) →
    startup_step syncEnabled st
      {| su_status := PS_SIGN; su_server := su_server st; su_chains := su_chains st; su_switched := true |}.

(** ** Theorems *)

Section vault_theorems.
Context {St : Type} `{!KVv2 St, !KVv2Spec St, KeyLib, !KeyLibSpec, SecretsCodec, !SecretsCodecSpec}.
Implicit Types (s : St).

Lemma load_store path d s s' : store path d s = Ok s' → load path s' = Ok d.
Proof.
  unfold store, load. intros Hs. apply wrap_Ok in Hs. by rewrite (kv_Get_Put _ _ _ _ Hs).
Qed.

Lemma load_store_ne path path' d s s' : store path d s = Ok s' → path' ≠ path → load path' s' = load path' s.
Proof.
  unfold store, load. intros Hs Hne. apply wrap_Ok in Hs. by rewrite (kv_Get_Put_ne _ _ _ _ _ Hs Hne).
Qed.

Lemma string_value_single k v msg : string_value {[k := VString v]} k msg = Ok v.
Proof. unfold string_value. by rewrite lookup_singleton_eq. Qed.

(** What is saved in the vault is loaded again: the share of the key, the parameters of
    the key generation, the TLS key pair and the account of a key with the default prefix;
    and the secrets do not overwrite one another, so the node that saved its account, its
    certificate and, after key generation, its share starts with exactly these. *)
Theorem vault_roundtrip s0 s1 s2 s3 s4 account rawCert rawKey cert share params :
  NewAccount (hexutil_Encode (prv account)) [] = Ok account →
  X509KeyPair rawCert rawKey = Some cert →
  SaveCoreAccount account s0 = Ok s1 → SaveLocalPartyTlsCertificate rawCert rawKey s1 = Ok s2 →
  SaveKeygenPreParams params s2 = Ok s3 → SaveTssShare (Some share) s3 = Ok s4 →
  load_secrets s4 = Ok (account, share, cert) ∧ GetKeygenPreParams s4 = Ok params.
Proof.
  intros Hacc Hcert Hs1 Hs2 Hs3 Hs4.
  unfold SaveKeygenPreParams in Hs3. apply bind_Ok in Hs3 as (pre & Hpre & Hs3).
  unfold SaveTssShare in Hs4. apply bind_Ok in Hs4 as (sh & Hsh & Hs4).
  apply wrap_Ok, of_option_Ok in Hpre. apply wrap_Ok, of_option_Ok in Hsh.
  unfold SaveCoreAccount in Hs1. unfold SaveLocalPartyTlsCertificate in Hs2.
  pose proof (load_store _ _ _ _ Hs1) as L1. pose proof (load_store _ _ _ _ Hs2) as L2.
  pose proof (load_store _ _ _ _ Hs3) as L3. pose proof (load_store _ _ _ _ Hs4) as L4.
  assert (load keyAccount s4 = load keyAccount s1) as La.
  { by rewrite (load_store_ne _ _ _ _ _ Hs4), (load_store_ne _ _ _ _ _ Hs3), (load_store_ne _ _ _ _ _ Hs2). }
  assert (load keyTlsCert s4 = load keyTlsCert s2) as Lt.
  { by rewrite (load_store_ne _ _ _ _ _ Hs4), (load_store_ne _ _ _ _ _ Hs3). }
  assert (load keyPreParams s4 = load keyPreParams s3) as Lp by (by rewrite (load_store_ne _ _ _ _ _ Hs4)).
  split.
  - unfold load_secrets, GetCoreAccount, GetTssShare, GetLocalPartyTlsCertificate.
    rewrite La, L1, Lt, L2, L4. cbn [wrap mbind res_bind]. rewrite !string_value_single.
    cbn [wrap mbind res_bind]. rewrite Hacc, (share_roundtrip _ _ Hsh). cbn [wrap of_option mbind res_bind].
    unfold string_value. rewrite lookup_insert_eq. cbn [mbind res_bind].
    rewrite lookup_insert_ne, lookup_singleton_eq by done. cbn [mbind res_bind].
    unfold bytes_of_string, string_of_bytes.
    by rewrite !String.list_byte_of_string_of_list_byte, Hcert.
  - unfold GetKeygenPreParams. rewrite Lp, L3. cbn [wrap mbind res_bind].
    rewrite string_value_single. cbn [mbind res_bind]. by rewrite (preparams_roundtrip _ _ Hpre).
Qed.

End vault_theorems.

Section connector_theorems.

Lemma sequences_failing fails q i :
  Forall (λ a : res Z, ∀ z, a ≠ Ok z) fails → 0 ≤ q → q + Z.of_nat (length fails) ≤ max_uint64 →
  (i < length fails)%nat → sequences fails q !! i = Some (q + Z.of_nat i).
Proof.
  intros Hall. revert q i. induction Hall as [|a fails Ha Hall IH]; intros q i Hq Hmax Hi; simpl in *; [lia|].
  assert (getAccountSequence a q = (q, q + 1)) as ->.
  { unfold getAccountSequence. rewrite uint64_id by (unfold in_uint64; lia). destruct a; [|done..]. by destruct (Ha a). }
  destruct i as [|i]; simpl; [f_equal; lia|]. rewrite IH by lia. f_equal. lia.
Qed.

(** The sequence numbers of the node's transactions: a transaction carries the sequence
    the core reports for the account, and while the core does not answer the query the
    following ones carry the consecutive numbers, without a gap or a repetition. *)
Theorem sequences_consecutive fails q stored :
  Forall (λ a : res Z, ∀ z, a ≠ Ok z) fails → 0 ≤ q → q + 1 + Z.of_nat (length fails) ≤ max_uint64 →
  ∀ i, (i ≤ length fails)%nat → sequences (Ok q :: fails) stored !! i = Some (q + Z.of_nat i).
Proof.
  intros Hall Hq Hmax [|i] Hi; simpl; [f_equal; lia|].
  rewrite (uint64_id (q + 1)) by (unfold in_uint64; lia).
  rewrite sequences_failing by (done || lia). f_equal. lia.
Qed.

(** The fee is exact as long as it fits a signed number; a price above makes building the
    coin panic or the fee wrong. *)
Lemma fee_exact c :
  0 ≤ st_MinGasPrice (cn_settings c) → gasLimit * st_MinGasPrice (cn_settings c) ≤ max_int64 →
  NewInt64Coin (int64 (feeAmount c)) = Ok (gasLimit * st_MinGasPrice (cn_settings c)).
Proof.
  intros H0 Hmax. unfold feeAmount, NewInt64Coin, gasLimit, max_int64 in *.
  rewrite uint64_id by (unfold in_uint64, max_uint64; lia).
  rewrite int64_id by (unfold in_int64, min_int64, max_int64; lia).
  destruct (Z.ltb_spec (3000000 * st_MinGasPrice (cn_settings c)) 0); [lia|done].
Qed.

Lemma fee_panics : NewInt64Coin (int64 (uint64 (gasLimit * 3074457345619))) = Panic.
Proof. reflexivity. Qed.

(** [err.Error()] of the errors of this file. *)
Fixpoint error_text (sentinel_text : sentinel → string) (e : error) : string :=
  match e with
  | ESentinel s => sentinel_text s
  | ENew msg => msg
  | EWrap c msg => (msg +:+ ": " +:+ error_text sentinel_text c)%string
  end.

(** The result of a submission as [SubmitDeposits] reads it. *)
Definition submit_text (sentinel_text : sentinel → string) (r : res unit) : option string :=
  match r with Ok _ => None | Err e => Some (error_text sentinel_text e) | Panic => Some "" end.

(** A deposit that another node has submitted is settled.  When the core refuses the
    transaction and its log says that the transaction is already submitted, the submitter
    marks the node's row as submitted, as it does after a submission of its own. *)
Theorem already_submitted_settles `{CosmosTx} {St : Type} `{!DepositsQ St, !DepositsSpec St}
    sentinel_text already accountData broadcast (encode : list Transaction → Msg) c d s tx code log :
  inv s → q_GetWithSelector submitterSelector s = Some d →
  (buildTx accountData gasLimit (feeAmount c) [encode [ToTransaction d]] c).2 = Ok tx →
  broadcast tx = Ok (code, log) → code ≠ 0 → str_contains log already = true →
  ∃ s' t cd,
    submitterStep (λ t, SubmitDeposits already
      (λ txs, submit_text sentinel_text (submitMsgs accountData broadcast [encode txs] c).2) [t]) s
    = (s', t, cd) ∧ view s' = alter (set_Submitted true) (d_ident d) (view s).
Proof.
  intros Hinv Hsel Hb Hbr Hcode Hlog. unfold submitterStep. rewrite Hsel.
  unfold SubmitDeposits, submitMsgs.
  destruct (buildTx accountData gasLimit (feeAmount c) [encode [ToTransaction d]] c) as [c' built] eqn:Hbuild.
  simpl in Hb. subst built. cbn [snd wrap mbind res_bind]. rewrite Hbr. cbn [wrap mbind res_bind fst snd].
  rewrite (proj2 (Z.eqb_neq code 0) Hcode). cbn [negb submit_text error_text].
  assert (Hc : str_contains ("transaction failed with code " +:+ print_Z code +:+ ": " +:+ log) already = true).
  { by do 3 apply str_contains_app_l. }
  rewrite Hc. cbn [errors_Is negb]. rewrite bool_decide_true by done. cbn [negb].
  pose proof (UpdateSubmittedStatus_spec s (d_ident d) true Hinv) as Hu.
  destruct (q_UpdateSubmittedStatus (d_ident d) true s) as [s1| |]; [|done..].
  apply (inj Ok) in Hu. by eexists s1, _, _.
Qed.

End connector_theorems.

Section zano_theorems.
Context `{ZanoHttp}.

(** A withdrawal on Zano is reported with the hash of the proposal only when the wallet
    confirmed the broadcast of the transaction with the group's signature; a failure does
    not unlock the wallet's outputs. *)
Lemma SendSignedTransaction_Ok decode tx c c' h :
  SendSignedTransaction decode tx c = (c', Ok h) →
  h = ("0x" +:+ sx_ExpectedTxHash tx)%string ∧
  ∃ raw, http_Post (zc_walletRPC c) (Build_RPCRequest "send_ext_signed_asset_tx"
      (PSendExtSigned (sx_Signature tx) (sx_ExpectedTxHash tx) (sx_FinalizedTx tx) (sx_Data tx) false)
      ((zc_idCounter c + 1) mod 2 ^ 32)) = Ok (AResult raw) ∧ decode raw = Some "OK"%string.
Proof.
  unfold SendSignedTransaction, sdk_SendExtSignedAssetTX, Call, nextID. cbn [zc_walletRPC].
  intros Hs. apply pair_eq in Hs as [_ Hs]. apply bind_Ok in Hs as (status & Hst & Hs). apply wrap_Ok in Hst.
  apply bind_Ok in Hst as ([raw|code msg] & Hp & Hst); [|done]. apply wrap_Ok in Hp.
  apply wrap_Ok, of_option_Ok in Hst.
  destruct (bool_decide_reflect (status = "OK"%string)) as [->|]; [|done]. apply (inj Ok) in Hs as <-. eauto.
Qed.

End zano_theorems.

Section health_theorems.

Definition status_of (err : option string) : Status :=
  match err with
  | None => {| hs_Ok := true; hs_Error := "" |}
  | Some text => {| hs_Ok := false; hs_Error := text |}
  end.

Lemma check_fold order s :
  let r := foldl (λ s p, sm_Set (fst p) (snd p) s) s order in
  (sm_overallOk r = true ↔ sm_overallOk s = true ∧ Forall (λ p, p.2 = None) order) ∧
  (NoDup order.*1 → ∀ name err, (name, err) ∈ order → sm_statuses r !! name = Some (status_of err)) ∧
  (∀ name, name ∉ order.*1 → sm_statuses r !! name = sm_statuses s !! name).
Proof.
  revert s. induction order as [|[name err] order IH]; intros s r; simpl in r.
  { subst r. split_and!; [naive_solver| |done]. intros _ name err Hin. by apply elem_of_nil in Hin. }
  destruct (IH (sm_Set name err s)) as (Hok & Hin & Hout). fold r in Hok, Hin, Hout.
  split_and!.
  - rewrite Hok, Forall_cons. destruct err; simpl; naive_solver.
  - intros Hnd n e He. apply NoDup_cons in Hnd as [Hni Hnd].
    apply elem_of_cons in He as [[= -> ->]|He]; [|by apply Hin].
    rewrite Hout by done. destruct err; simpl; by rewrite lookup_insert_eq.
  - intros n Hn. apply not_elem_of_cons in Hn as [Hne Hn]. rewrite Hout by done.
    destruct err; simpl; by rewrite lookup_insert_ne by done.
Qed.

Lemma checks_names core clients : NoDup (checks core clients).*1.
Proof.
  unfold checks. cbn [fmap list_fmap fst]. apply NoDup_cons. split.
  - intros Hin. apply list_elem_of_fmap in Hin as ([n e] & Heq & Hin).
    apply list_elem_of_fmap in Hin as ([id r] & [= -> ->] & _). discriminate Heq.
  - rewrite <- list_fmap_compose. change (fst ∘ _) with ((λ i : string, "chain_" +:+ i)%string ∘ (fst : string * option string → string)).
    rewrite list_fmap_compose. apply NoDup_fmap_2; [|apply NoDup_fst_map_to_list].
    intros a b Heq. by injection Heq.
Qed.

(** The health endpoint tells the truth in whatever order its goroutines report: the
    answer is ok exactly when the connector and every chain answered, and the status of
    each chain is its own. *)
Theorem health_check_exact core clients order :
  order ≡ₚ checks core clients →
  let r := check order in
  (rs_Ok r = true ↔ core = None ∧ map_Forall (λ _ err, err = None) clients) ∧
  rs_Statuses r !! "core_connector"%string = Some (status_of core) ∧
  (∀ id err, clients !! id = Some err → rs_Statuses r !! ("chain_" +:+ id)%string = Some (status_of err)).
Proof.
  intros Hperm r. destruct (check_fold order NewStatusMap) as (Hok & Hin & _).
  assert (NoDup order.*1) as Hnd by (rewrite Hperm; apply checks_names). specialize (Hin Hnd).
  assert (Helem : ∀ p, p ∈ order ↔ p ∈ checks core clients) by (intros p; by rewrite Hperm).
  split_and!.
  - etrans; [exact Hok|]. rewrite Hperm. unfold checks. rewrite Forall_cons, Forall_fmap. simpl.
    rewrite map_Forall_to_list. split.
    + intros (_ & Hc & Hall). split; [done|]. eapply Forall_impl; [exact Hall|]. by intros [].
    + intros (Hc & Hall). split_and!; [done..|]. eapply Forall_impl; [exact Hall|]. by intros [].
  - apply Hin, Helem. unfold checks. apply list_elem_of_here.
  - intros id err Hl. apply Hin, Helem. unfold checks. apply list_elem_of_further, list_elem_of_fmap.
    exists (id, err). split; [done|]. by apply elem_of_map_to_list.
Qed.

End health_theorems.

Section startup_theorems.

(** In sync mode the status SIGN means that the switch was made. *)
Record startup_wf (chains : gset string) (st : Startup) : Prop := {
  sw_chains : dom (su_chains st) = chains;
  sw_sign : su_status st = PS_SIGN → su_switched st = true;
  sw_switched : su_switched st = true → spun (su_chains st) }.

Lemma spun_insert m id x : spun m → x ≠ Starting → spun (<[id := x]> m).
Proof. intros Hm Hx i y. rewrite lookup_insert. case_decide; [by intros [= <-]|apply Hm]. Qed.

Lemma startup_step_wf chains st st' :
  startup_wf chains st → startup_step true st st' → startup_wf chains st'.
Proof.
  intros [Hd Hs Hw] Hstep. destruct Hstep as [st Hsv|st id Hl|st id _ Hl|st _ Hsw Hsp]; split; simpl; try done.
  - rewrite dom_insert_L. apply elem_of_dom_2 in Hl. set_solver.
  - intros Hsw. apply spun_insert; [by apply Hw|done].
  - rewrite dom_insert_L. apply elem_of_dom_2 in Hl. set_solver.
  - intros Hsw. apply spun_insert; [by apply Hw|done].
Qed.

(** A node that synchronises reports that it signs only when every chain's goroutine
    has ended: for every configured chain the session was registered, so that its start
    can be asked for, or the synchronisation of that chain has failed. *)
Theorem sync_then_sign chains st id :
  star (startup_step true) (startup chains) st → su_status st = PS_SIGN → id ∈ chains →
  su_chains st !! id = Some Registered ∨ su_chains st !! id = Some SyncFailed.
Proof.
  intros Hstar Hst Hid.
  assert (startup_wf chains st) as [Hd Hs Hw].
  { eapply (star_invariant (startup_step true)); [intros a b; apply startup_step_wf|exact Hstar|].
    split; simpl; [by rewrite dom_gset_to_gmap|done..]. }
  rewrite <- Hd in Hid. apply elem_of_dom in Hid as [x Hx].
  specialize (Hw (Hs Hst) id x Hx). destruct x; [done|by left|by right].
Qed.

(** The status is set by two goroutines that do not wait for each other: when the one of
    the server runs last, the node stays in the state SYNC although it signs. *)
Lemma sync_status_lost chains :
  ∃ st, star (startup_step true) (startup chains) st ∧ su_switched st = true ∧ su_server st = true ∧
    su_status st = PS_SYNC ∧ ∀ id, id ∈ chains → su_chains st !! id = Some Registered.
Proof.
  assert (Hreg : ∀ (done : gset string) st, done ⊆ chains → su_chains st = gset_to_gmap Starting chains →
    ∃ st', star (startup_step true) st st' ∧ su_server st' = su_server st ∧ su_switched st' = su_switched st ∧
      su_chains st' = gset_to_gmap Registered done ∪ gset_to_gmap Starting chains).
  { intros done st. induction done as [|id done Hid IH] using set_ind_L.
    - intros _ Hc. exists st. split_and!; [constructor|done..|]. by rewrite gset_to_gmap_empty, (left_id_L ∅ (∪)).
    - intros Hsub Hc. destruct IH as (st' & Hstar & Hsv & Hsw & Hc'); [set_solver|done|].
      eexists. split; [eapply star_trans; [exact Hstar|]; eapply star_step; [apply (su_session true st' id)|constructor]|].
      + rewrite Hc'. apply lookup_union_Some_raw. right. split.
        * by apply lookup_gset_to_gmap_None.
        * apply lookup_gset_to_gmap_Some. split; [set_solver|done].
      + simpl. split_and!; [done..|]. by rewrite Hc', gset_to_gmap_union_singleton, insert_union_l. }
  destruct (Hreg chains (startup chains)) as (st & Hstar & Hsv & Hsw & Hc); [done..|].
  assert (Hall : ∀ id, id ∈ chains → su_chains st !! id = Some Registered).
  { intros id Hid. rewrite Hc. apply lookup_union_Some_l, lookup_gset_to_gmap_Some. done. }
  eexists. split; [|split_and!].
  - eapply star_trans; [exact Hstar|]. eapply star_step; [apply su_switch; [done|exact Hsw|]|].
    + intros id x Hx. rewrite Hc in Hx. apply lookup_union_Some_raw in Hx as [Hx|[Hn Hx]].
      * by apply lookup_gset_to_gmap_Some in Hx as [_ <-].
      * apply lookup_gset_to_gmap_Some in Hx as [Hx _]. apply lookup_gset_to_gmap_None in Hn. done.
    + eapply star_step; [apply su_run_server; exact Hsv|constructor].
  - done.
  - done.
  - done.
  - exact Hall.
Qed.

End startup_theorems.

(** ** Witnesses *)

Section witnesses.

(** A vault in memory; keys and secrets are written as they are. *)
Local Instance w_kv : KVv2 (gmap string SecretData) := {|
  kv_Get := λ path s, Ok (s !! path); kv_Put := λ path d s, Ok (<[path := d]> s) |}.
Local Instance w_kv_spec : KVv2Spec (gmap string SecretData).
Proof.
  split.
  - intros path d s s' Hp. apply (inj Ok) in Hp as <-. simpl. by rewrite lookup_insert_eq.
  - intros path path' d s s' Hp Hne. apply (inj Ok) in Hp as <-. simpl. by rewrite lookup_insert_ne.
Qed.
Local Instance w_keys : KeyLib := {|
  hexutil_Encode := hex_EncodeToString; hexutil_Decode := hex_DecodeString;
  pubkey_Address := λ k, k; ConvertAndEncode := λ p k, Some (p +:+ string_of_bytes k)%string |}.
Local Instance w_keys_spec : KeyLibSpec.
Proof. split. intros bs. apply hex_roundtrip. Qed.
Local Instance w_codec : SecretsCodec := {|
  LocalPreParams := string; LocalPartySaveData := string; Certificate_t := (bytes * bytes)%type;
  preparams_Marshal := Some; preparams_Unmarshal := Some; share_Marshal := Some; share_Unmarshal := Some;
  X509KeyPair := λ c k, Some (c, k) |}.
Local Instance w_codec_spec : SecretsCodecSpec.
Proof. split; by intros ? ? [= <-]. Qed.

Definition w_pre (s : string) : @LocalPreParams w_codec := s.
Definition w_share (s : string) : @LocalPartySaveData w_codec := s.
Definition w_cert (c k : bytes) : @Certificate_t w_codec := (c, k).

Definition w_account : Account bytes := {| prv := [Byte.x61]; CosmosAddress := "bridgea" |}.
Definition w_s1 : gmap string SecretData := default ∅ (match SaveCoreAccount w_account (∅ : gmap string SecretData) with Ok s => Some s | _ => None end).
Definition w_s2 : gmap string SecretData := default ∅ (match SaveLocalPartyTlsCertificate [Byte.x62] [Byte.x63] w_s1 with Ok s => Some s | _ => None end).
Definition w_s3 : gmap string SecretData := default ∅ (match SaveKeygenPreParams (w_pre "pre") w_s2 with Ok s => Some s | _ => None end).
Definition w_s4 : gmap string SecretData := default ∅ (match SaveTssShare (Some (w_share "share")) w_s3 with Ok s => Some s | _ => None end).

Lemma vault_roundtrip_witness :
  load_secrets w_s4 = Ok (w_account, w_share "share", w_cert [Byte.x62] [Byte.x63]).
Proof.
  apply (vault_roundtrip (∅ : gmap string SecretData) w_s1 w_s2 w_s3 w_s4 w_account [Byte.x62] [Byte.x63]
    (w_cert [Byte.x62] [Byte.x63]) (w_share "share") (w_pre "pre")); reflexivity.
Defined.

Lemma sequences_consecutive_witness :
  sequences [Ok 7; Err (ENew ""); Err (ENew "")] 0 !! 2%nat = Some 9.
Proof.
  apply (sequences_consecutive [Err (ENew ""); Err (ENew "")] 7 0).
  - by repeat constructor.
  - discriminate.
  - discriminate.
  - apply (bool_decide_unpack _). reflexivity.
Defined.

Local Instance w_cosmos : CosmosTx := {|
  Msg := list Transaction; Builder := nat; Sig_t := nat; SetMsgs := λ m, Ok (length m);
  SetGasAndFee := λ _ _ _ b, b; SetEmptySignature := λ _ b, Ok b; SignWithPrivKey := λ _ _ _ b, Ok b;
  SetSignatures := λ _ b, Ok b; TxEncoder := λ _, Ok [] |}.

Definition w_connector : Connector := {|
  cn_settings := {| st_ChainId := "core"; st_Denom := "bridge"; st_MinGasPrice := 10 |};
  cn_accountNumber := 1; cn_accountSequence := 5 |}.

Definition w_encode (txs : list Transaction) : @Msg w_cosmos := txs.

(** A table with one processed deposit. *)
Definition w_ident : DepositIdentifier := {| TxHash := "0xab"; TxNonce := 0; ChainId := "1" |}.
Definition w_row : Deposit := ToNewDeposit
  {| dd_ident := w_ident; dd_Block := 1; dd_SourceAddress := "s"; dd_DepositAmount := 5;
     dd_TokenAddress := "t"; dd_ReferralId := 0; dd_DestinationAddress := "r"; dd_DestinationChainId := "2" |}
  5 0 "t" false.
Definition w_pending : Table := fst (Pg.Insert w_row empty_table).
Definition w_processed : Table :=
  match Pg.UpdateStatus w_ident WS_PROCESSED w_pending with Ok s => s | _ => w_pending end.

Lemma w_processed_inv : inv (St:=Table) w_processed.
Proof.
  assert (inv (St:=Table) w_pending) as Hp.
  { exact (proj1 (Insert_spec (St:=Table) empty_table w_row w_pending (snd (Pg.Insert w_row empty_table))
                    SampleIntake.empty_inv (surjective_pairing _))). }
  eapply update_inv; [exact Hp|]. right. left. exists w_ident, WS_PROCESSED. reflexivity.
Qed.

Lemma already_submitted_settles_witness :
  ∃ d s', q_GetWithSelector submitterSelector w_processed = Some d ∧
    view (St:=Table) s' = alter (set_Submitted true) (d_ident d) (view w_processed).
Proof.
  destruct (q_GetWithSelector submitterSelector w_processed) as [d|] eqn:E; [|vm_compute in E; discriminate].
  destruct (already_submitted_settles (St:=Table) (λ _, ""%string) "already" (Ok 3) (λ _, Ok (19, "tx already in"%string))
              w_encode w_connector d w_processed [] 19 "tx already in") as (s' & t & cd & _ & Hv).
  - exact w_processed_inv.
  - exact E.
  - reflexivity.
  - reflexivity.
  - discriminate.
  - reflexivity.
  - exists d, s'. split; [reflexivity|exact Hv].
Defined.

Lemma health_check_exact_witness :
  rs_Ok (check [("chain_1"%string, Some "down"%string); ("core_connector"%string, None)]) = false.
Proof.
  destruct (health_check_exact None {[ "1"%string := Some "down"%string ]}
              [("chain_1"%string, Some "down"%string); ("core_connector"%string, None)]) as (Hok & _).
  - unfold checks. rewrite map_to_list_singleton. apply perm_swap.
  - apply not_true_is_false. intros Ht. apply Hok in Ht as [_ Hall].
    apply map_Forall_singleton in Hall. discriminate Hall.
Defined.

Definition w_start : Startup := startup {["1"%string]}.
Definition w_ready : Startup :=
  {| su_status := PS_SIGN; su_server := true; 
     su_chains := <["1"%string := Registered]> (gset_to_gmap Starting {["1"%string]}); su_switched := true |}.

Lemma w_ready_reachable : star (startup_step true) w_start w_ready.
Proof.
  eapply star_step; [apply su_run_server; reflexivity|].
  eapply star_step; [apply (su_session true _ "1"); reflexivity|].
  eapply star_step; [|constructor].
  apply su_switch; [reflexivity..|]. intros id x. cbn [su_chains w_start startup].
  rewrite lookup_insert. case_decide as Hid; [by intros [= <-]|].
  intros Hx. apply lookup_gset_to_gmap_Some in Hx as [Hx _]. apply elem_of_singleton in Hx. congruence.
Qed.

Lemma sync_then_sign_witness :
  su_chains w_ready !! "1"%string = Some Registered ∨ su_chains w_ready !! "1"%string = Some SyncFailed.
Proof.
  apply (sync_then_sign {["1"%string]} w_ready "1").
  - exact w_ready_reachable.
  - reflexivity.
  - apply elem_of_singleton. reflexivity.
Defined.

End witnesses.
