(* ===== verification/PartyRun.v ===== *)
(** * The goroutines of a TSS party

    Models [Run], [WaitFor], [Receive], [receiveMsgs] and [receiveUpdates] of
    [internal/tss/signer.go] and [internal/tss/keygener.go] as a machine: three goroutines
    and the handlers of the peers' requests share the channels [out], [end] and [msgs], the
    wait group, the context and the flag [ended].  Every [select] with several ready cases
    is a choice of the action, so a statement about all runs covers every schedule.

    A party of tss-lib is the class [TssRun]: what a call to it emits on its channels.
    [TssRunSpec] bounds the emissions. *)

From S2P Require Import Prelude Core Session Broadcast Consensus Signing Parties.
#[local] Open Scope Z_scope.

Definition OutChannelSize : nat := 1000.
Definition EndChannelSize : nat := 1.

(** What a call to the tss-lib party sends before it returns. *)
Inductive Emission (R : Type) := EmitOut (m : TssMessage) | EmitEnd (r : R).
Arguments EmitOut {_} _.
Arguments EmitEnd {_} _.

Class TssRun `{TssLib} (R : Type) := {
  (** [party.Start()]: the new state, what it sends, and its error *)
  StartParty : TssParty → TssParty * list (Emission R) * option error;
  (** what [UpdateFromBytes] sends *)
  UpdateEmits : TssParty → bytes → option PartyID → bool → list (Emission R) }.

Fixpoint outs {R} (l : list (Emission R)) : nat :=
  match l with [] => 0 | EmitOut _ :: l' => S (outs l') | EmitEnd _ :: l' => outs l' end.
Fixpoint ends {R} (l : list (Emission R)) : nat :=
  match l with [] => 0 | EmitOut _ :: l' => ends l' | EmitEnd _ :: l' => S (ends l') end.

(** Messages have a destination, results satisfy [good]. *)
Definition emission_ok {R} (good : R → Prop) (e : Emission R) : Prop :=
  match e with EmitOut m => tm_To m ≠ Some [] | EmitEnd r => good r end.

(** What the code relies on: the protocol sends a bounded number of messages and at most
    one result, sends nothing before it is started, addresses its messages, and a party
    that fails to start has no result.  [good] is what the library promises of a result. *)
Class TssRunSpec `{TssRun} (good : R → Prop) := {
  outs_left : TssParty → nat;
  ends_left : TssParty → nat;
  started : TssParty → bool;
  update_started st w i b : started (UpdateFromBytes st w i b) = started st;
  update_silent st w i b : started st = false → UpdateEmits st w i b = [];
  update_outs st w i b :
    (outs (UpdateEmits st w i b) + outs_left (UpdateFromBytes st w i b) ≤ outs_left st)%nat;
  update_ends st w i b :
    (ends (UpdateEmits st w i b) + ends_left (UpdateFromBytes st w i b) ≤ ends_left st)%nat;
  start_outs st st' l e :
    StartParty st = (st', l, e) → (outs l + outs_left st' ≤ outs_left st)%nat;
  start_ends st st' l e :
    StartParty st = (st', l, e) → (ends l + ends_left st' ≤ ends_left st)%nat;
  start_fails st st' l e :
    StartParty st = (st', l, Some e) → ends l = 0%nat ∧ ends_left st' = 0%nat;
  emits_good st st' l e :
    StartParty st = (st', l, e) → Forall (emission_ok good) l;
  updates_good st w i b : Forall (emission_ok good) (UpdateEmits st w i b) }.

Section machine.
Context `{Bech32, TssSort, TssLib} {R : Type} `{!TssRun R}.
Context (p : LocalParty) (net : Transport).

Inductive StartPc := SReady | SEmitting (l : list (Emission R)) (err : option error) | SDone.
Inductive RecvPc := RWaiting | RUpdating (l : list (Emission R)) | RDone.

Record PartyState := {
  st_tss : TssParty;
  (* program counters of the three goroutines *)
  st_start : StartPc; st_recv : RecvPc; st_listening : bool;
  (* channels *)
  st_out : list TssMessage; st_end : list R; st_endClosed : bool;
  st_msgs : list partyMsg; st_msgsClosed : bool;
  st_wg : nat; st_ctx : bool; st_ended : bool; st_result : option R;
  (* handlers between the check of [ended] and the send on [msgs], and those that
     panicked there: the session's read lock they held is not released *)
  st_inside : list partyMsg; st_leaked : nat;
  st_sent : list (SubmitRequest * gset Address);
  (* a goroutine panicked *)
  st_crashed : bool }.

(** ** Field updates *)

Definition set_tss x s := {| st_tss := x; st_start := st_start s; st_recv := st_recv s;
  st_listening := st_listening s; st_out := st_out s; st_end := st_end s;
  st_endClosed := st_endClosed s; st_msgs := st_msgs s; st_msgsClosed := st_msgsClosed s;
  st_wg := st_wg s; st_ctx := st_ctx s; st_ended := st_ended s; st_result := st_result s;
  st_inside := st_inside s; st_leaked := st_leaked s; st_sent := st_sent s;
  st_crashed := st_crashed s |}.
Definition set_start x s := {| st_tss := st_tss s; st_start := x; st_recv := st_recv s;
  st_listening := st_listening s; st_out := st_out s; st_end := st_end s;
  st_endClosed := st_endClosed s; st_msgs := st_msgs s; st_msgsClosed := st_msgsClosed s;
  st_wg := st_wg s; st_ctx := st_ctx s; st_ended := st_ended s; st_result := st_result s;
  st_inside := st_inside s; st_leaked := st_leaked s; st_sent := st_sent s;
  st_crashed := st_crashed s |}.
Definition set_recv x s := {| st_tss := st_tss s; st_start := st_start s; st_recv := x;
  st_listening := st_listening s; st_out := st_out s; st_end := st_end s;
  st_endClosed := st_endClosed s; st_msgs := st_msgs s; st_msgsClosed := st_msgsClosed s;
  st_wg := st_wg s; st_ctx := st_ctx s; st_ended := st_ended s; st_result := st_result s;
  st_inside := st_inside s; st_leaked := st_leaked s; st_sent := st_sent s;
  st_crashed := st_crashed s |}.
Definition set_channels out end_ endClosed msgs msgsClosed s :=
  {| st_tss := st_tss s; st_start := st_start s; st_recv := st_recv s;
  st_listening := st_listening s; st_out := out; st_end := end_;
  st_endClosed := endClosed; st_msgs := msgs; st_msgsClosed := msgsClosed;
  st_wg := st_wg s; st_ctx := st_ctx s; st_ended := st_ended s; st_result := st_result s;
  st_inside := st_inside s; st_leaked := st_leaked s; st_sent := st_sent s;
  st_crashed := st_crashed s |}.
Definition set_done listening wg ctx ended result s :=
  {| st_tss := st_tss s; st_start := st_start s; st_recv := st_recv s;
  st_listening := listening; st_out := st_out s; st_end := st_end s;
  st_endClosed := st_endClosed s; st_msgs := st_msgs s; st_msgsClosed := st_msgsClosed s;
  st_wg := wg; st_ctx := ctx; st_ended := ended; st_result := result;
  st_inside := st_inside s; st_leaked := st_leaked s; st_sent := st_sent s;
  st_crashed := st_crashed s |}.
Definition set_env inside leaked sent crashed s :=
  {| st_tss := st_tss s; st_start := st_start s; st_recv := st_recv s;
  st_listening := st_listening s; st_out := st_out s; st_end := st_end s;
  st_endClosed := st_endClosed s; st_msgs := st_msgs s; st_msgsClosed := st_msgsClosed s;
  st_wg := st_wg s; st_ctx := st_ctx s; st_ended := st_ended s; st_result := st_result s;
  st_inside := inside; st_leaked := leaked; st_sent := sent; st_crashed := crashed |}.

Definition set_out x s :=
  set_channels x (st_end s) (st_endClosed s) (st_msgs s) (st_msgsClosed s) s.
Definition set_end x s :=
  set_channels (st_out s) x (st_endClosed s) (st_msgs s) (st_msgsClosed s) s.
Definition close_end s :=
  set_channels (st_out s) (st_end s) true (st_msgs s) (st_msgsClosed s) s.
Definition set_msgs x s :=
  set_channels (st_out s) (st_end s) (st_endClosed s) x (st_msgsClosed s) s.
Definition close_msgs s :=
  set_channels (st_out s) (st_end s) (st_endClosed s) (st_msgs s) true s.
Definition wg_Done s :=
  set_done (st_listening s) (pred (st_wg s)) (st_ctx s) (st_ended s) (st_result s) s.
Definition stop_listening s :=
  set_done false (pred (st_wg s)) (st_ctx s) (st_ended s) (st_result s) s.
Definition set_result x s :=
  set_done (st_listening s) (st_wg s) (st_ctx s) (st_ended s) x s.
Definition crash s := set_env (st_inside s) (st_leaked s) (st_sent s) true s.
Definition add_sent x s := set_env (st_inside s) (st_leaked s) (st_sent s ++ [x]) (st_crashed s) s.

(** ** The goroutines *)

(** A send of the library: blocked ([None]) on a full channel, a panic on a closed one. *)
Definition emit (e : Emission R) (s : PartyState) : option PartyState :=
  match e with
  | EmitOut m =>
      if (length (st_out s) <? OutChannelSize)%nat then Some (set_out (st_out s ++ [m]) s) else None
  | EmitEnd r =>
      if st_endClosed s then Some (crash s)
      else if (length (st_end s) <? EndChannelSize)%nat then Some (set_end (st_end s ++ [r]) s)
      else None
  end.

(** The goroutine that calls [party.Start]. *)
Definition start_step (s : PartyState) : option PartyState :=
  match st_start s with
  | SReady =>
      let '(tss, l, err) := StartParty (st_tss s) in
      Some (set_start (SEmitting l err) (set_tss tss s))
  | SEmitting (e :: l) err => set_start (SEmitting l err) <$> emit e s
  | SEmitting [] err =>
      Some (set_start SDone (wg_Done match err with Some _ => close_end s | None => s end))
  | SDone => None
  end.

(** What [UpdateFromBytes] sends for a message, after the check of its sender. *)
Definition receiveEmits (msg : partyMsg) (st : TssParty) : list (Emission R) :=
  match lp_parties p !! pm_Sender msg, Addr.PartyKey (pm_Sender msg) with
  | Some _, Ok key =>
      UpdateEmits st (pm_WireMsg msg) (FindByKey (lp_sortedPartyIds p) key) (pm_IsBroadcast msg)
  | _, _ => []
  end.

(** [receiveMsgs]; [onContext] is the case the [select] takes. *)
Definition receiveMsgs_step (onContext : bool) (s : PartyState) : option PartyState :=
  match st_recv s with
  | RWaiting =>
      if onContext then if st_ctx s then Some (set_recv RDone (wg_Done s)) else None
      else
        match st_msgs s with
        | [] => if st_msgsClosed s then Some (set_recv RDone (wg_Done s)) else None
        | msg :: rest =>
            match receiveMsg p msg (st_tss s) with
            | Ok tss =>
                Some (set_recv (RUpdating (receiveEmits msg (st_tss s)))
                        (set_tss tss (set_msgs rest s)))
            | _ => Some (crash s)
            end
        end
  | RUpdating (e :: l) => set_recv (RUpdating l) <$> emit e s
  | RUpdating [] => Some (set_recv RWaiting s)
  | RDone => None
  end.

Inductive Select := OnContext | OnEnd | OnOut.

(** [receiveUpdates] *)
Definition receiveUpdates_step (case : Select) (s : PartyState) : option PartyState :=
  if negb (st_listening s) then None
  else
    match case with
    | OnContext => if st_ctx s then Some (stop_listening s) else None
    | OnEnd =>
        match st_end s with
        | r :: rest => Some (stop_listening (set_result (Some r) (close_msgs (set_end rest s))))
        | [] =>
            if st_endClosed s then Some (stop_listening (set_result None (close_msgs s))) else None
        end
    | OnOut =>
        match st_out s with
        | [] => None
        | msg :: rest =>
            match routeOut p net msg with
            | Ok (Some x) => Some (add_sent x (set_out rest s))
            | Ok None => Some (set_out rest s)
            | _ => Some (crash s)
            end
        end
    end.

(** [WaitFor]: the wait group, then [ended]; it returns [st_result]. *)
Definition WaitFor_step (s : PartyState) : option PartyState :=
  if (st_wg s =? 0)%nat && negb (st_ended s)
  then Some (set_done (st_listening s) (st_wg s) (st_ctx s) true (st_result s) s)
  else None.

(** [Receive] in two steps: the check of [ended], and the send. *)
Definition Receive_enter (msg : partyMsg) (s : PartyState) : option PartyState :=
  if st_ended s then None
  else Some (set_env (st_inside s ++ [msg]) (st_leaked s) (st_sent s) (st_crashed s) s).

Definition Receive_send (i : nat) (s : PartyState) : option PartyState :=
  match st_inside s !! i with
  | None => None
  | Some msg =>
      let inside := delete i (st_inside s) in
      if st_msgsClosed s
      then Some (set_env inside (S (st_leaked s)) (st_sent s) (st_crashed s) s)
      else if (length (st_msgs s) <? MsgsCapacity)%nat
      then Some (set_env inside (st_leaked s) (st_sent s) (st_crashed s)
                   (set_msgs (st_msgs s ++ [msg]) s))
      else None
  end.

(** The party's own actions, and those of its environment. *)
Inductive Action :=
| AStart | AReceive (onContext : bool) | AUpdates (case : Select) | AWait
| ACancel | AEnter (msg : partyMsg) | ASend (i : nat).

Definition internal (a : Action) : bool :=
  match a with ACancel | AEnter _ | ASend _ => false | _ => true end.

Definition exec (a : Action) (s : PartyState) : option PartyState :=
  if st_crashed s then None
  else
    match a with
    | AStart => start_step s
    | AReceive onContext => receiveMsgs_step onContext s
    | AUpdates case => receiveUpdates_step case s
    | AWait => WaitFor_step s
    | ACancel => Some (set_done (st_listening s) (st_wg s) true (st_ended s) (st_result s) s)
    | AEnter msg => Receive_enter msg s
    | ASend i => Receive_send i s
    end.

Definition party_step (s s' : PartyState) : Prop := ∃ a, exec a s = Some s'.
Definition internal_step (s s' : PartyState) : Prop :=
  ∃ a, internal a = true ∧ exec a s = Some s'.

(** [Run]: fresh channels [out] and [end]; the channel [msgs] exists since the creation of
    the party and may hold messages. *)
Definition party_Run (tss : TssParty) (msgs inside : list partyMsg) : PartyState :=
  {| st_tss := tss; st_start := SReady; st_recv := RWaiting; st_listening := true;
     st_out := []; st_end := []; st_endClosed := false; st_msgs := msgs; st_msgsClosed := false;
     st_wg := 3; st_ctx := false; st_ended := false; st_result := None;
     st_inside := inside; st_leaked := 0; st_sent := []; st_crashed := false |}.

(** A sequence of actions, [None] when one of them is not enabled. *)
Fixpoint exec_all (l : list Action) (s : PartyState) : option PartyState :=
  match l with
  | [] => Some s
  | a :: rest => exec a s ≫= exec_all rest
  end.

Lemma exec_all_star l s s' : exec_all l s = Some s' → star party_step s s'.
Proof.
  revert s. induction l as [|a l IH]; intros s; simpl; [intros [= <-]; constructor|].
  destruct (exec a s) as [s1|] eqn:E; [|done]. intros Hl.
  econstructor; [by exists a|]. by apply IH.
Qed.

(** ** The invariant *)

Definition start_pending (s : PartyState) : list (Emission R) :=
  match st_start s with SEmitting l _ => l | _ => [] end.
Definition recv_pending (s : PartyState) : list (Emission R) :=
  match st_recv s with RUpdating l => l | _ => [] end.
Definition pending (s : PartyState) : list (Emission R) := start_pending s ++ recv_pending s.

Definition live (s : PartyState) : nat :=
  (match st_start s with SDone => 0 | _ => 1 end + match st_recv s with RDone => 0 | _ => 1 end +
   (if st_listening s then 1 else 0))%nat.

End machine.

Arguments PartyState {_} _.
Arguments StartPc : clear implicits.
Arguments RecvPc : clear implicits.

(** ** Lemmas *)

Lemma outs_app {R} (l k : list (Emission R)) : outs (l ++ k) = (outs l + outs k)%nat.
Proof. induction l as [|[] l IH]; simpl; lia. Qed.

Lemma ends_app {R} (l k : list (Emission R)) : ends (l ++ k) = (ends l + ends k)%nat.
Proof. induction l as [|[] l IH]; simpl; lia. Qed.

Section invariant.
Context `{Bech32, TssSort, TssLib} {R : Type} `{!TssRun R} {good : R → Prop} `{!TssRunSpec good}.
Context (p : LocalParty) (net : Transport).
Implicit Types (s : PartyState R).

(** The addresses of the group decode: [NewParty] panics otherwise. *)
Definition parties_decode : Prop :=
  ∀ a, is_Some (lp_parties p !! a) → is_Some (bech32_decode a).

Record party_inv s : Prop := {
  pi_wg : st_wg s = live s;
  pi_alive : st_crashed s = false;
  pi_outs : (outs (pending s) + length (st_out s) + outs_left (st_tss s) ≤ OutChannelSize)%nat;
  pi_ends : (ends (pending s) + length (st_end s) + ends_left (st_tss s) ≤ EndChannelSize)%nat;
  pi_ready : st_start s = SReady → started (st_tss s) = false ∧ recv_pending s = [];
  pi_failing l e : st_start s = SEmitting l (Some e) →
    ends (pending s) = 0%nat ∧ ends_left (st_tss s) = 0%nat;
  pi_failed : st_endClosed s = true →
    st_start s = SDone ∧ ends (pending s) = 0%nat ∧ ends_left (st_tss s) = 0%nat;
  pi_pending : Forall (emission_ok good) (pending s);
  pi_out : Forall (λ m, tm_To m ≠ Some []) (st_out s);
  pi_end : Forall good (st_end s);
  pi_result :
    if st_listening s then st_msgsClosed s = false ∧ st_result s = None
    else if st_msgsClosed s
    then match st_result s with Some r => good r | None => st_endClosed s = true end
    else st_ctx s = true ∧ st_result s = None;
  pi_ended : st_ended s = true → live s = 0%nat }.

(** What a call returns does not exceed what the party may still send. *)
Lemma receive_bounds msg st st' :
  receiveMsg p msg st = Ok st' →
  (outs (receiveEmits p msg st) + outs_left st' ≤ outs_left st)%nat ∧
  (ends (receiveEmits p msg st) + ends_left st' ≤ ends_left st)%nat ∧
  started st' = started st ∧
  (started st = false → receiveEmits p msg st = []) ∧
  Forall (emission_ok good) (receiveEmits p msg st).
Proof.
  unfold receiveMsg, receiveEmits. destruct (lp_parties p !! pm_Sender msg).
  - destruct (Addr.PartyKey (pm_Sender msg)) as [key| |]; simpl; [|done..]. intros [= <-].
    split_and!; [apply update_outs|apply update_ends|apply update_started|
      apply update_silent|apply updates_good].
  - intros [= <-]. simpl. split_and!; done || constructor.
Qed.

Lemma receiveMsg_returns msg st : parties_decode → ∃ st', receiveMsg p msg st = Ok st'.
Proof.
  intros Hp. unfold receiveMsg. destruct (lp_parties p !! pm_Sender msg) eqn:E; [|by eexists].
  destruct (Hp (pm_Sender msg)) as [bs Hbs]; [by eexists|].
  unfold Addr.PartyKey, Addr.Bytes. rewrite Hbs. by eexists.
Qed.

Lemma routeOut_returns msg : tm_To msg ≠ Some [] → ∃ x, routeOut p net msg = Ok x.
Proof.
  intros Ht. unfold routeOut. destruct (tm_WireBytes msg); [|by eexists].
  destruct (tm_To msg) as [[|to [|to' tos]]|]; [done| |by eexists..].
  destruct (Send _ _ _ _); by eexists.
Qed.

Lemma party_inv_Run tss msgs inside :
  (outs_left tss ≤ OutChannelSize)%nat → (ends_left tss ≤ EndChannelSize)%nat →
  started tss = false → party_inv (party_Run tss msgs inside).
Proof. intros. split; simpl; try done; try lia. Qed.

(** A send keeps the invariant: [a] and [b] are what is pending before and after. *)
Lemma emit_spec e s s' :
  emit e s = Some s' → emission_ok good e → (st_endClosed s = true → ends [e] = 0%nat) →
  (st_out s' = st_out s ++ match e with EmitOut m => [m] | _ => [] end) ∧
  (st_end s' = st_end s ++ match e with EmitEnd r => [r] | _ => [] end) ∧
  s' = set_channels (st_out s') (st_end s') (st_endClosed s) (st_msgs s) (st_msgsClosed s) s.
Proof.
  intros He Hok Hcl. destruct e as [m|r]; simpl in He.
  - destruct (_ <? _)%nat; [|done]. injection He as <-. simpl. rewrite app_nil_r. done.
  - destruct (st_endClosed s) eqn:Ec; [by specialize (Hcl eq_refl)|].
    destruct (_ <? _)%nat; [|done]. injection He as <-. simpl.
    rewrite app_nil_r. unfold set_end. by rewrite Ec.
Qed.

(** The parts of the invariant, and the invariant of a new state part by part. *)
Ltac inv_split := split; unfold pending, start_pending, recv_pending, live; simpl.
Ltac inv_fields Hi :=
  destruct Hi as [Hwg Halive Houts Hends Hready Hfailing Hfailed Hpend Hout Hend Hres Hended].

Lemma start_step_inv s s' : party_inv s → start_step s = Some s' → party_inv s'.
Proof.
  intros Hi. pose proof Hi as Hi'. inv_fields Hi. unfold start_step.
  destruct (st_start s) as [|[|e l] err|] eqn:Es; [| | |done].
  - destruct (StartParty (st_tss s)) as [[tss l] err] eqn:Est. intros [= <-].
    destruct (Hready eq_refl) as [_ Hrp].
    pose proof (start_outs _ _ _ _ Est). pose proof (start_ends _ _ _ _ Est).
    unfold pending, start_pending, recv_pending, live in *. rewrite Es in *.
    inv_split; rewrite ?Hrp, ?app_nil_r in *; simpl in *; try done; try lia.
    + intros l' e [= -> ->]. by apply (start_fails _ _ _ _ Est).
    + intros Hc. by destruct (Hfailed Hc).
    + by eapply emits_good.
  - intros [= <-]. unfold pending, start_pending, recv_pending, live in *. rewrite Es in *.
    destruct err as [e|]; inv_split; try done; try lia.
    + intros _. by destruct (Hfailing _ _ eq_refl).
    + by destruct (st_listening s), (st_msgsClosed s), (st_result s).
    + intros Hd. specialize (Hended Hd). lia.
    + intros Hc. by destruct (Hfailed Hc).
    + intros Hd. specialize (Hended Hd). lia.
  - intros He. apply fmap_Some in He as (s1 & He & ->).
    assert (st_endClosed s = false) as Hcl.
    { destruct (st_endClosed s); [|done]. by destruct (Hfailed eq_refl). }
    unfold pending, start_pending, recv_pending, live in *. rewrite Es in *. simpl in *.
    apply Forall_cons in Hpend as [Hek Hpend].
    apply emit_spec in He as (Ho & Hn & ->); [|done|by rewrite Hcl].
    rewrite Ho, Hn. inv_split; rewrite ?length_app; try done.
    + destruct e; simpl in *; lia.
    + destruct e; simpl in *; lia.
    + intros l' e' [= -> ->]. destruct (Hfailing _ _ eq_refl). destruct e; simpl in *; lia.
    + by rewrite Hcl.
    + apply Forall_app. split; [done|]. destruct e; by repeat constructor.
    + apply Forall_app. split; [done|]. destruct e; by repeat constructor.
Qed.

Lemma receiveMsgs_step_inv b s s' :
  parties_decode → party_inv s → receiveMsgs_step p b s = Some s' → party_inv s'.
Proof.
  intros Hp Hi. inv_fields Hi. unfold receiveMsgs_step.
  assert (∀ s', st_recv s = RWaiting → set_recv RDone (wg_Done s) = s' → party_inv s') as Hdone.
  { intros ? Er <-. unfold pending, start_pending, recv_pending, live in *. rewrite Er in *.
    inv_split; try done; try lia.
    - intros Hd. specialize (Hended Hd). lia. }
  destruct (st_recv s) as [|[|e l]|] eqn:Er; [| | |done].
  - destruct b; [destruct (st_ctx s); [|done]; intros [= ?]; by apply Hdone|].
    destruct (st_msgs s) as [|msg rest].
    { destruct (st_msgsClosed s); [|done]. intros [= ?]. by apply Hdone. }
    destruct (receiveMsg_returns msg (st_tss s) Hp) as [tss Ht]. rewrite Ht. intros [= <-].
    destruct (receive_bounds _ _ _ Ht) as (Ho & Hn & Hst & Hsil & Hok).
    unfold pending, start_pending, recv_pending, live in *. rewrite Er in *.
    rewrite app_nil_r in *. inv_split; rewrite ?outs_app, ?ends_app; try done; try lia.
    + intros Hr. destruct (Hready Hr) as [Hf _]. rewrite Hst. split; [done|by apply Hsil].
    + intros l e He. destruct (Hfailing l e He). lia.
    + intros Hc. destruct (Hfailed Hc) as (? & ? & ?). split; [done|]. lia.
    + by apply Forall_app.
  - intros [= <-]. unfold pending, start_pending, recv_pending, live in *. rewrite Er in *.
    by inv_split.
  - intros He. apply fmap_Some in He as (s1 & He & ->).
    unfold pending, start_pending, recv_pending, live in *. rewrite Er in *.
    rewrite outs_app, ends_app in *. apply Forall_app in Hpend as [Hps Hpr].
    apply Forall_cons in Hpr as [Hek Hpr].
    apply emit_spec in He as (Ho & Hn & ->); [|done|].
    2:{ intros Hc. destruct (Hfailed Hc) as (? & ? & ?). destruct e; simpl in *; lia. }
    rewrite Ho, Hn. inv_split; rewrite ?length_app, ?outs_app, ?ends_app; try done.
    + destruct e; simpl in *; lia.
    + destruct e; simpl in *; lia.
    + intros Hr. by destruct (Hready Hr).
    + intros l' e' Hs. destruct (Hfailing _ _ Hs). destruct e; simpl in *; lia.
    + intros Hc. destruct (Hfailed Hc) as (? & ? & ?). split; [done|]. destruct e; simpl in *; lia.
    + by apply Forall_app.
    + apply Forall_app. split; [done|]. destruct e; by repeat constructor.
    + apply Forall_app. split; [done|]. destruct e; by repeat constructor.
Qed.

Lemma receiveUpdates_step_inv case s s' :
  party_inv s → receiveUpdates_step p net case s = Some s' → party_inv s'.
Proof.
  intros Hi. inv_fields Hi. unfold receiveUpdates_step.
  destruct (st_listening s) eqn:El; [|done]. simpl. destruct Hres as [Hmc Hr].
  unfold pending, start_pending, recv_pending, live in *. rewrite El in *.
  assert (st_ended s = false) as Hne.
  { destruct (st_ended s); [|done]. specialize (Hended eq_refl). lia. }
  destruct case.
  - destruct (st_ctx s) eqn:Ec; [|done]. intros [= <-].
    inv_split; rewrite ?Hmc, ?Hne; try done; lia.
  - destruct (st_end s) as [|r rest] eqn:Ee.
    + destruct (st_endClosed s) eqn:Ec; [|done]. intros [= <-].
      inv_split; rewrite ?Ec, ?Ee, ?Hne; try done; lia.
    + intros [= <-]. apply Forall_cons in Hend as [Hg Hend].
      inv_split; simpl in *; rewrite ?Hne; try done; lia.
  - destruct (st_out s) as [|msg rest] eqn:Eo; [done|].
    apply Forall_cons in Hout as [Ht Hout].
    destruct (routeOut_returns msg Ht) as [[x|] Hx]; rewrite Hx; intros [= <-];
      inv_split; simpl in *; rewrite ?El, ?Hne; try done; lia.
Qed.

Lemma exec_inv a s s' : parties_decode → party_inv s → exec p net a s = Some s' → party_inv s'.
Proof.
  intros Hp Hi. unfold exec. rewrite (pi_alive _ Hi). destruct a as [|b|case| | |msg|i].
  - by apply start_step_inv.
  - by apply receiveMsgs_step_inv.
  - by apply receiveUpdates_step_inv.
  - unfold WaitFor_step. destruct (st_wg s =? 0)%nat eqn:Ew; [|done]. apply Nat.eqb_eq in Ew.
    destruct (st_ended s); [done|]. intros [= <-]. inv_fields Hi. split; try done.
    simpl. intros _. unfold live in *. simpl. lia.
  - intros [= <-]. inv_fields Hi. split; try done. simpl.
    destruct (st_listening s), (st_msgsClosed s); naive_solver.
  - unfold Receive_enter. destruct (st_ended s) eqn:Ee; [done|]. intros [= <-]. inv_fields Hi.
    by split.
  - unfold Receive_send. destruct (st_inside s !! i); [|done].
    destruct (st_msgsClosed s) eqn:Em.
    + intros [= <-]. inv_fields Hi. split; try done; simpl; by rewrite Em in *.
    + destruct (_ <? _)%nat; [|done]. intros [= <-]. inv_fields Hi. split; try done.
      all: simpl; by rewrite Em in *.
Qed.

Lemma reachable_inv s s' : parties_decode → party_inv s → star (party_step p net) s s' → party_inv s'.
Proof.
  intros Hp Hi Hs. eapply star_invariant; [|done..]. intros a b Ha [act Hact]. by eapply exec_inv.
Qed.

(** ** Termination *)

Definition measure s : nat :=
  (3 * (outs_left (st_tss s) + ends_left (st_tss s)) + 2 * length (pending s) +
   length (st_out s) + length (st_end s) + 2 * length (st_msgs s) +
   match st_start s with SReady => 2 | SEmitting _ _ => 1 | SDone => 0 end +
   match st_recv s with RWaiting => 1 | RUpdating _ => 2 | RDone => 0 end +
   (if st_listening s then 1 else 0) + (if st_ended s then 0 else 1))%nat.

Lemma length_emissions (l : list (Emission R)) : length l = (outs l + ends l)%nat.
Proof. induction l as [|[] l IH]; simpl; lia. Qed.

Lemma emit_measure e s s' : emit e s = Some s' → st_crashed s' = false →
  (length (st_out s') + length (st_end s') = S (length (st_out s) + length (st_end s)))%nat ∧
  s' = set_channels (st_out s') (st_end s') (st_endClosed s) (st_msgs s) (st_msgsClosed s) s.
Proof.
  intros He Hc. destruct e as [m|r]; simpl in He.
  - destruct (_ <? _)%nat; [|done]. injection He as <-. simpl. rewrite length_app. simpl. split; [lia|done].
  - destruct (st_endClosed s) eqn:Ec; [by injection He as <-|].
    destruct (_ <? _)%nat; [|done]. injection He as <-. simpl. rewrite length_app.
    simpl. split; [lia|]. unfold set_end. by rewrite Ec.
Qed.

Lemma start_step_decreases s s' :
  start_step s = Some s' → st_crashed s' = false → (measure s' < measure s)%nat.
Proof.
  unfold start_step, measure, pending, start_pending, recv_pending.
  destruct (st_start s) as [|[|e l] err|] eqn:Es; [| | |done].
  - destruct (StartParty (st_tss s)) as [[tss l] err] eqn:Est. intros [= <-] _.
    pose proof (start_outs _ _ _ _ Est). pose proof (start_ends _ _ _ _ Est). simpl.
    rewrite !length_app, !length_emissions. lia.
  - intros [= <-] _. destruct err; simpl; lia.
  - intros He Hc. apply fmap_Some in He as (s1 & He & ->).
    apply emit_measure in He as [Hl ->]; [|done]. simpl in *. lia.
Qed.

Lemma receiveMsgs_step_decreases b s s' :
  receiveMsgs_step p b s = Some s' → st_crashed s' = false → (measure s' < measure s)%nat.
Proof.
  unfold receiveMsgs_step, measure, pending, start_pending, recv_pending.
  destruct (st_recv s) as [|[|e l]|] eqn:Er; [| | |done].
  - destruct b; [destruct (st_ctx s); [|done]; intros [= <-] _; simpl; lia|].
    destruct (st_msgs s) as [|msg rest] eqn:Em.
    { destruct (st_msgsClosed s); [|done]. intros [= <-] _. simpl. rewrite Em. simpl. lia. }
    destruct (receiveMsg p msg (st_tss s)) as [tss| |] eqn:Ht; intros [= <-]; [|done..]. intros _.
    destruct (receive_bounds _ _ _ Ht) as (Ho & Hn & _). simpl.
    rewrite !length_app, !length_emissions. simpl. lia.
  - intros [= <-] _. simpl. lia.
  - intros He Hc. apply fmap_Some in He as (s1 & He & ->).
    apply emit_measure in He as [Hl ->]; [|done]. simpl in *. rewrite !length_app. simpl. lia.
Qed.

Lemma receiveUpdates_step_decreases case s s' :
  receiveUpdates_step p net case s = Some s' → st_crashed s' = false → (measure s' < measure s)%nat.
Proof.
  unfold receiveUpdates_step, measure, pending, start_pending, recv_pending.
  destruct (st_listening s) eqn:El; [|done]. simpl. destruct case.
  - destruct (st_ctx s); [|done]. intros [= <-] _. simpl. lia.
  - destruct (st_end s) as [|r rest] eqn:Ee.
    + destruct (st_endClosed s); [|done]. intros [= <-] _. simpl. rewrite Ee. simpl. lia.
    + intros [= <-] _. simpl. lia.
  - destruct (st_out s) as [|msg rest]; [done|].
    destruct (routeOut p net msg) as [[x|]| |]; intros [= <-]; try done; intros _; simpl;
      rewrite El; lia.
Qed.

Lemma internal_decreases s s' :
  parties_decode → party_inv s → internal_step p net s s' → (measure s' < measure s)%nat.
Proof.
  intros Hp Hi (a & Ha & He). pose proof (pi_alive _ (exec_inv _ _ _ Hp Hi He)) as Hc.
  unfold exec in He. rewrite (pi_alive _ Hi) in He. destruct a as [|b|case| | | |]; try done.
  - by apply start_step_decreases.
  - by eapply receiveMsgs_step_decreases.
  - by eapply receiveUpdates_step_decreases.
  - unfold WaitFor_step in He. destruct (st_wg s =? 0)%nat, (st_ended s) eqn:Ee; try done.
    injection He as <-. unfold measure, pending, start_pending, recv_pending. simpl. rewrite Ee. lia.
Qed.

(** The context is done, or the library has delivered or failed. *)
Definition delivered s : Prop :=
  st_ctx s = true ∨ st_msgsClosed s = true ∨ st_end s ≠ [] ∨ st_endClosed s = true.

Lemma emit_enabled e s l k :
  party_inv s → pending s = l ++ e :: k → is_Some (emit e s).
Proof.
  intros Hi Hp. pose proof (pi_outs _ Hi) as Ho. pose proof (pi_ends _ Hi) as Hn.
  rewrite Hp, ?outs_app, ?ends_app in *. destruct e as [m|r]; simpl in *.
  - destruct (Nat.ltb_spec (length (st_out s)) OutChannelSize); [by eexists|lia].
  - destruct (st_endClosed s); [by eexists|].
    destruct (Nat.ltb_spec (length (st_end s)) EndChannelSize); [by eexists|lia].
Qed.

Lemma calls_progress s :
  party_inv s → st_start s ≠ SDone ∨ recv_pending s ≠ [] ∨ st_recv s = RUpdating [] →
  ∃ s', internal_step p net s s'.
Proof.
  intros Hi Hcase.
  assert (∀ a s', internal a = true → exec p net a s = Some s' → ∃ s', internal_step p net s s') as Hex
    by (intros a s' ??; exists s'; by exists a).
  pose proof (pi_alive _ Hi) as Hal.
  destruct (st_start s) as [|[|e l] err|] eqn:Es.
  - destruct (StartParty (st_tss s)) as [[tss l] err] eqn:Est.
    eapply (Hex AStart); [done|]. unfold exec, start_step. by rewrite Hal, Es, Est.
  - eapply (Hex AStart); [done|]. unfold exec, start_step. by rewrite Hal, Es.
  - destruct (emit_enabled e s [] (l ++ recv_pending s) Hi) as [s' Hs'].
    { unfold pending, start_pending. by rewrite Es. }
    eapply (Hex AStart); [done|]. unfold exec, start_step. by rewrite Hal, Es, Hs'.
  - destruct Hcase as [?|Hcase]; [done|]. unfold recv_pending in *.
    destruct (st_recv s) as [|[|e l]|] eqn:Er; try by destruct Hcase.
    + eapply (Hex (AReceive false)); [done|]. unfold exec, receiveMsgs_step. by rewrite Hal, Er.
    + destruct (emit_enabled e s [] l Hi) as [s' Hs'].
      { unfold pending, start_pending, recv_pending. by rewrite Es, Er. }
      eapply (Hex (AReceive false)); [done|]. unfold exec, receiveMsgs_step. by rewrite Hal, Er, Hs'.
Qed.

Lemma delivered_progress s :
  parties_decode → party_inv s → delivered s → st_ended s = false → ∃ s', internal_step p net s s'.
Proof.
  intros Hp Hi Hd He.
  assert (∀ a s', internal a = true → exec p net a s = Some s' → ∃ s', internal_step p net s s') as Hex
    by (intros a s' ??; exists s'; by exists a).
  pose proof (pi_alive _ Hi) as Hal. pose proof (pi_result _ Hi) as Hr.
  destruct (st_start s) eqn:Es; [apply calls_progress; [done|left; by rewrite Es]..|].
  destruct (st_listening s) eqn:El.
  - destruct Hr as [Hmc _]. destruct Hd as [Hc|[Hc|[Hc|Hc]]]; [|congruence|..].
    + eapply (Hex (AUpdates OnContext)); [done|]. unfold exec, receiveUpdates_step.
      by rewrite Hal, El, Hc.
    + destruct (st_end s) as [|r rest] eqn:Ee; [done|].
      eapply (Hex (AUpdates OnEnd)); [done|]. unfold exec, receiveUpdates_step. by rewrite Hal, El, Ee.
    + destruct (st_end s) as [|r rest] eqn:Ee; eapply (Hex (AUpdates OnEnd)); try done;
        unfold exec, receiveUpdates_step; by rewrite Hal, El, Ee, ?Hc.
  - destruct (st_recv s) as [|[|e l]|] eqn:Er.
    + destruct (st_ctx s) eqn:Hc.
      { eapply (Hex (AReceive true)); [done|]. unfold exec, receiveMsgs_step. by rewrite Hal, Er, Hc. }
      destruct (st_msgsClosed s) eqn:Em; [|by destruct Hr].
      destruct (st_msgs s) as [|msg rest] eqn:Eq.
      * eapply (Hex (AReceive false)); [done|]. unfold exec, receiveMsgs_step. by rewrite Hal, Er, Eq, Em.
      * destruct (receiveMsg_returns msg (st_tss s) Hp) as [tss Ht].
        eapply (Hex (AReceive false)); [done|]. unfold exec, receiveMsgs_step. by rewrite Hal, Er, Eq, Ht.
    + apply calls_progress; [done|]. by do 2 right.
    + apply calls_progress; [done|]. right; left. unfold recv_pending. by rewrite Er.
    + eapply (Hex AWait); [done|]. unfold exec, WaitFor_step. rewrite Hal, (pi_wg _ Hi), He.
      unfold live. by rewrite Es, Er, El.
Qed.

(** What the actions do to the fields that decide the outcome. *)
Lemma emit_fields e s s' : emit e s = Some s' →
  st_ctx s' = st_ctx s ∧ st_msgsClosed s' = st_msgsClosed s ∧ st_endClosed s' = st_endClosed s ∧
  st_listening s' = st_listening s ∧ st_result s' = st_result s ∧ st_inside s' = st_inside s ∧
  st_leaked s' = st_leaked s ∧ ∃ k, st_end s' = st_end s ++ k.
Proof.
  destruct e as [m|r]; simpl.
  - destruct (_ <? _)%nat; [|done]. intros [= <-]. simpl. split_and!; try done. exists []. by rewrite app_nil_r.
  - destruct (st_endClosed s) eqn:Ec.
    + intros [= <-]. simpl. split_and!; try done. exists []. by rewrite app_nil_r.
    + destruct (_ <? _)%nat; [|done]. intros [= <-]. simpl. split_and!; try done. by exists [r].
Qed.

Lemma start_step_fields s s' : start_step s = Some s' →
  st_ctx s' = st_ctx s ∧ st_msgsClosed s' = st_msgsClosed s ∧
  (st_endClosed s = true → st_endClosed s' = true) ∧ st_listening s' = st_listening s ∧
  st_result s' = st_result s ∧ st_inside s' = st_inside s ∧ st_leaked s' = st_leaked s ∧
  ∃ k, st_end s' = st_end s ++ k.
Proof.
  unfold start_step. destruct (st_start s) as [|[|e l] err|]; [| | |done].
  - destruct (StartParty _) as [[tss l] err]. intros [= <-]. simpl.
    split_and!; try done. exists []. by rewrite app_nil_r.
  - intros [= <-]. destruct err; simpl; split_and!; try done; exists []; by rewrite app_nil_r.
  - intros He. apply fmap_Some in He as (s1 & He & ->).
    apply emit_fields in He as (? & ? & Hc & ? & ? & ? & ? & ?). simpl. by rewrite Hc.
Qed.

Lemma receiveMsgs_step_fields b s s' : receiveMsgs_step p b s = Some s' →
  st_ctx s' = st_ctx s ∧ st_msgsClosed s' = st_msgsClosed s ∧
  (st_endClosed s = true → st_endClosed s' = true) ∧ st_listening s' = st_listening s ∧
  st_result s' = st_result s ∧ st_inside s' = st_inside s ∧ st_leaked s' = st_leaked s ∧
  ∃ k, st_end s' = st_end s ++ k.
Proof.
  assert (∃ k, st_end s = st_end s ++ k) as Hk by (exists []; by rewrite app_nil_r).
  unfold receiveMsgs_step. destruct (st_recv s) as [|[|e l]|]; [| | |done].
  - destruct b; [destruct (st_ctx s) eqn:Ec; [|done]; intros [= <-]; by split_and!|].
    destruct (st_msgs s); [destruct (st_msgsClosed s) eqn:Ec; [|done]; intros [= <-]; by split_and!|].
    destruct (receiveMsg _ _ _); intros [= <-]; by split_and!.
  - intros [= <-]. by split_and!.
  - intros He. apply fmap_Some in He as (s1 & He & ->).
    apply emit_fields in He as (? & ? & Hc & ? & ? & ? & ? & ?). simpl. by rewrite Hc.
Qed.

Lemma delivered_step s s' : delivered s → internal_step p net s s' → delivered s'.
Proof.
  intros Hd (a & Ha & He). unfold exec in He. destruct (st_crashed s); [done|].
  unfold delivered in *. destruct a as [|b|case| | | |]; try done.
  - apply start_step_fields in He as (Hc & Hm & Hec & _ & _ & _ & _ & k & Hk).
    rewrite Hc, Hm, Hk. destruct Hd as [?|[?|[?|?]]]; [tauto..| |tauto].
    do 2 right. left. by destruct (st_end s).
  - apply receiveMsgs_step_fields in He as (Hc & Hm & Hec & _ & _ & _ & _ & k & Hk).
    rewrite Hc, Hm, Hk. destruct Hd as [?|[?|[?|?]]]; [tauto..| |tauto].
    do 2 right. left. by destruct (st_end s).
  - unfold receiveUpdates_step in He. destruct (st_listening s); [|done]. simpl in He.
    destruct case.
    + destruct (st_ctx s) eqn:Ec; [|done]. injection He as <-. by left.
    + destruct (st_end s) as [|r rest]; [destruct (st_endClosed s); [|done]|];
        injection He as <-; by right; left.
    + destruct (st_out s); [done|].
      destruct (routeOut _ _ _) as [[]| |]; injection He as <-; done.
  - unfold WaitFor_step in He. destruct (_ && _); [|done]. by injection He as <-.
Qed.

Lemma internal_star s s' : star (internal_step p net) s s' → star (party_step p net) s s'.
Proof. induction 1 as [|a b c (act & _ & He)]; [constructor|]. econstructor; [by exists act|done]. Qed.

Lemma internal_inv s s' :
  parties_decode → party_inv s → star (internal_step p net) s s' → party_inv s'.
Proof. intros Hp Hi Hs. eapply reachable_inv; [done..|]. by apply internal_star. Qed.

Lemma internal_Acc s : parties_decode → party_inv s → Acc (flip (internal_step p net)) s.
Proof.
  intros Hp. induction s as [s IH] using (induction_ltof1 _ measure). intros Hi.
  constructor. intros s' Hs. apply IH.
  - unfold ltof. by apply internal_decreases.
  - destruct Hs as (a & _ & He). by eapply exec_inv.
Qed.

(** A result that the library has put into its channel while the updates are read. *)
Definition has_result (r : R) s : Prop :=
  st_ctx s = false ∧
  ((st_listening s = true ∧ st_end s = [r]) ∨
   (st_listening s = false ∧ st_msgsClosed s = true ∧ st_result s = Some r)).

Lemma has_result_step r s s' :
  parties_decode → party_inv s → has_result r s → internal_step p net s s' → has_result r s'.
Proof.
  intros Hp Hi [Hctx Hcase] (a & Ha & He).
  pose proof (pi_ends _ (exec_inv _ _ _ Hp Hi He)) as Hn.
  assert (∀ k, st_end s = [r] → st_end s' = st_end s ++ k → st_end s' = [r]) as Hsame.
  { intros k E E'. rewrite E' in Hn. rewrite E in Hn, E'. rewrite length_app in Hn. simpl in *.
    destruct k; [done|]. unfold EndChannelSize in Hn. simpl in *. lia. }
  unfold exec in He. destruct (st_crashed s); [done|]. unfold has_result.
  destruct a as [|b|case| | | |]; try done.
  - apply start_step_fields in He as (Hc & Hm & _ & Hl & Hr & _ & _ & k & Hk).
    rewrite Hc, Hm, Hl, Hr. split; [done|].
    destruct Hcase as [[? E]|?]; [left|by right]. split; [done|by eapply Hsame].
  - apply receiveMsgs_step_fields in He as (Hc & Hm & _ & Hl & Hr & _ & _ & k & Hk).
    rewrite Hc, Hm, Hl, Hr. split; [done|].
    destruct Hcase as [[? E]|?]; [left|by right]. split; [done|by eapply Hsame].
  - unfold receiveUpdates_step in He.
    destruct Hcase as [[Hl E]|(Hl & _)]; rewrite Hl in He; [|done]. simpl in He.
    rewrite Hctx, E in He. destruct case; [done|injection He as <-; split; [done|by right]|].
    destruct (st_out s); [done|]. destruct (routeOut _ _ _) as [[]| |]; injection He as <-;
      (split; [done|by left]).
  - unfold WaitFor_step in He. destruct (_ && _); [|done]. by injection He as <-.
Qed.

(** The same with an environment that may cancel: the result is in the channel, was taken,
    or was given up because the context is done. *)
Definition result_or_cancelled (r : R) s : Prop :=
  (st_listening s = true ∧ st_end s = [r]) ∨
  (st_listening s = false ∧
   (st_result s = Some r ∨ st_ctx s = true ∧ st_result s = None)).

Lemma result_or_cancelled_step r s s' :
  parties_decode → party_inv s → result_or_cancelled r s → party_step p net s s' →
  result_or_cancelled r s'.
Proof.
  intros Hp Hi Hcase [a He].
  pose proof (pi_ends _ (exec_inv _ _ _ Hp Hi He)) as Hn. pose proof (pi_result _ Hi) as Hres.
  assert (∀ k, st_end s = [r] → st_end s' = st_end s ++ k → st_end s' = [r]) as Hsame.
  { intros k E E'. rewrite E' in Hn. rewrite E in Hn, E'. rewrite length_app in Hn. simpl in *.
    destruct k; [done|]. unfold EndChannelSize in Hn. simpl in *. lia. }
  unfold exec in He. destruct (st_crashed s); [done|]. unfold result_or_cancelled.
  destruct a as [|b|case| | |msg|i].
  - apply start_step_fields in He as (-> & _ & _ & -> & -> & _ & _ & k & Hk).
    destruct Hcase as [[? E]|?]; [left|by right]. split; [done|by eapply Hsame].
  - apply receiveMsgs_step_fields in He as (-> & _ & _ & -> & -> & _ & _ & k & Hk).
    destruct Hcase as [[? E]|?]; [left|by right]. split; [done|by eapply Hsame].
  - unfold receiveUpdates_step in He.
    destruct Hcase as [[Hl E]|[Hl _]]; rewrite Hl in He, Hres; [|done]. simpl in He.
    rewrite E in He. destruct Hres as [_ Hnone]. destruct case.
    + destruct (st_ctx s) eqn:Hc; [|done]. injection He as <-. simpl. right. by split; [|right].
    + injection He as <-. simpl. right. by split; [|left].
    + destruct (st_out s); [done|]. destruct (routeOut _ _ _) as [[]| |]; injection He as <-;
        by left.
  - unfold WaitFor_step in He. destruct (_ && _); [|done]. by injection He as <-.
  - injection He as <-. simpl. destruct Hcase as [?|[? [?|[_ ?]]]]; tauto.
  - unfold Receive_enter in He. destruct (st_ended s); [done|]. by injection He as <-.
  - unfold Receive_send in He. destruct (st_inside s !! i); [|done].
    destruct (st_msgsClosed s); [by injection He as <-|].
    destruct (_ <? _)%nat; [|done]. by injection He as <-.
Qed.

(** The channel is closed and a handler holds the session's read lock. *)
Definition wedged s : Prop :=
  st_msgsClosed s = true ∧ (0 < length (st_inside s) + st_leaked s)%nat.

Lemma wedged_step s s' : wedged s → party_step p net s s' → wedged s'.
Proof.
  intros [Hm Hpos] [a He]. unfold exec in He. destruct (st_crashed s); [done|].
  unfold wedged. destruct a as [|b|case| | |msg|i].
  - apply start_step_fields in He as (_ & -> & _ & _ & _ & -> & -> & _). done.
  - apply receiveMsgs_step_fields in He as (_ & -> & _ & _ & _ & -> & -> & _). done.
  - unfold receiveUpdates_step in He. destruct (st_listening s); [|done]. simpl in He.
    destruct case.
    + destruct (st_ctx s); [|done]. by injection He as <-.
    + destruct (st_end s); [destruct (st_endClosed s); [|done]|]; by injection He as <-.
    + destruct (st_out s); [done|]. destruct (routeOut _ _ _) as [[]| |]; by injection He as <-.
  - unfold WaitFor_step in He. destruct (_ && _); [|done]. by injection He as <-.
  - by injection He as <-.
  - unfold Receive_enter in He. destruct (st_ended s); [done|]. injection He as <-. simpl.
    split; [done|]. rewrite length_app. simpl. lia.
  - unfold Receive_send in He. destruct (st_inside s !! i) eqn:E; [|done]. rewrite Hm in He.
    injection He as <-. simpl. split; [done|lia].
Qed.

End invariant.

(** ** The two parties of the code *)

(** The parties that [NewParty] built have addresses that decode. *)
Lemma built_parties_decode `{Bech32} (p : LocalParty) (parties : list Party) :
  lp_parties p = partiesByAddress parties →
  Forall (λ q, NewParty (CoreAddress q) = Ok q) parties → parties_decode p.
Proof.
  intros Hp Hall a. rewrite Hp, partiesByAddress_is_Some, list_elem_of_fmap.
  intros (q & -> & Hq). rewrite Forall_forall in Hall. specialize (Hall q Hq).
  unfold NewParty, PartyIdentifier, Addr.PartyKey, Addr.Bytes in Hall.
  destruct (bech32_decode (CoreAddress q)); [by eexists|done].
Qed.

(** [keygener.go]: the same goroutines around the key generation of tss-lib. *)
Module KeygenParty.
Section keygen.
Context `{Bech32, TssSort, TssLib} {LocalPartySaveData : Type} `{!TssRun LocalPartySaveData}.
Context (p : LocalParty) (net : Transport).

Definition Run (tss : TssParty) (msgs : list partyMsg) : PartyState LocalPartySaveData :=
  party_Run tss msgs [].
Definition start : PartyState LocalPartySaveData → option (PartyState LocalPartySaveData) :=
  start_step.
Definition WaitFor : PartyState LocalPartySaveData → option (PartyState LocalPartySaveData) :=
  WaitFor_step.
Definition Receive : partyMsg → PartyState LocalPartySaveData → option (PartyState LocalPartySaveData) :=
  Receive_enter.
Definition receiveMsgs : bool → PartyState LocalPartySaveData → option (PartyState LocalPartySaveData) :=
  receiveMsgs_step p.
Definition receiveUpdates : Select → PartyState LocalPartySaveData → option (PartyState LocalPartySaveData) :=
  receiveUpdates_step p net.
End keygen.
End KeygenParty.

(** ** Theorems *)

Section theorems.
Context `{Bech32, TssSort, TssLib} {R : Type} `{!TssRun R} {good : R → Prop} `{!TssRunSpec good}.
Context (p : LocalParty) (net : Transport).
Implicit Types (s : PartyState R).

(** The states a party reaches after [Run], under any schedule and whatever the peers send,
    with a library within the capacity of the channels. *)
Definition reaches tss s : Prop :=
  parties_decode p ∧ started tss = false ∧ (outs_left tss ≤ OutChannelSize)%nat ∧
  (ends_left tss ≤ EndChannelSize)%nat ∧
  ∃ msgs inside, star (party_step p net) (party_Run tss msgs inside) s.

Lemma reaches_inv tss s : reaches tss s → party_inv s.
Proof.
  intros (Hp & Hs & Ho & He & msgs & inside & Hstar).
  eapply reachable_inv; [done| |done]. by apply party_inv_Run.
Qed.

(** C19: A party ends.  Once its context is done, or tss-lib has delivered a result or failed
    to start, whatever the schedule: the three goroutines and [WaitFor] take finitely many
    steps, and where none of them can take another one, [WaitFor] has returned; no sender
    of the library blocks for ever on a full channel. *)
Theorem party_terminates tss s :
  reaches tss s → delivered s →
  Acc (flip (internal_step p net)) s ∧
  ∀ s', star (internal_step p net) s s' → (∀ s'', ¬ internal_step p net s' s'') →
    st_ended s' = true.
Proof.
  intros Hr Hd. pose proof (reaches_inv _ _ Hr) as Hi. destruct Hr as (Hp & _).
  split; [by apply internal_Acc|]. intros s' Hs Hno.
  destruct (st_ended s') eqn:He; [done|]. exfalso.
  destruct (delivered_progress p net s' Hp) as [s'' Hs'']; [| |done|by eapply Hno].
  - by eapply internal_inv.
  - eapply star_invariant; [|done..]. intros a b. apply delivered_step.
Qed.

(** C20: The result of tss-lib.  Let the library have put its result into the channel while
    the context is not done and the updates are still read.  Every schedule of the party's
    goroutines in which the context stays so ends with [WaitFor] returning this result.
    In every run, with cancellation and message handlers at any point, [WaitFor] returns
    this result, or none, and the latter only when the context was cancelled. *)
Theorem party_result_returned tss s r :
  reaches tss s → st_ctx s = false → st_listening s = true → st_end s = [r] →
  (∀ s', star (internal_step p net) s s' → (∀ s'', ¬ internal_step p net s' s'') →
     st_ended s' = true ∧ st_result s' = Some r) ∧
  (∀ s', star (party_step p net) s s' → st_ended s' = true →
     st_result s' = Some r ∨ st_ctx s' = true ∧ st_result s' = None).
Proof.
  intros Hr Hc Hl He. pose proof (reaches_inv _ _ Hr) as Hi. destruct Hr as (Hp & _). split.
  2: { intros s' Hs Hend.
       assert (party_inv s' ∧ result_or_cancelled r s') as [Hi' Hh].
       { eapply (star_invariant (party_step p net) (λ s, party_inv s ∧ result_or_cancelled r s)); [|done|].
         - intros a b [Ha Hra] Hab. split; [|by eapply result_or_cancelled_step].
           destruct Hab as (act & Hab). by eapply exec_inv.
         - split; [done|by left]. }
       destruct Hh as [[Hl' _]|[_ Hh]]; [|done].
       pose proof (pi_ended _ Hi' Hend) as Hlive. unfold live in Hlive. rewrite Hl' in Hlive. lia. }
  intros s' Hs Hno.
  assert (st_ended s' = true) as Hend.
  { destruct (st_ended s') eqn:E; [done|]. exfalso.
    destruct (delivered_progress p net s' Hp) as [s'' Hs'']; [by eapply internal_inv| |done|by eapply Hno].
    eapply star_invariant; [|done|]; [intros a b; apply delivered_step|].
    do 2 right. left. by rewrite He. }
  split; [done|].
  assert (party_inv s' ∧ has_result r s') as [Hi' [_ Hh]].
  { eapply (star_invariant (internal_step p net) (λ s, party_inv s ∧ has_result r s)); [|done|].
    - intros a b [Ha Hra] Hab. split; [|by eapply has_result_step].
      destruct Hab as (act & _ & Hab). by eapply exec_inv.
    - split; [done|]. split; [done|by left]. }
  destruct Hh as [[Hl' _]|(_ & _ & Hh)]; [|done].
  pose proof (pi_ended _ Hi' Hend) as Hlive. unfold live in Hlive. rewrite Hl' in Hlive. lia.
Qed.

(** C21: The goroutines refine what the sessions rely on: when [WaitFor] has returned, no
    goroutine panicked, and its value is the one of an end event of the sequential model: the
    end of the context, a failed start, or a result that tss-lib produced. *)
Theorem party_refines_EndEvent tss s :
  reaches tss s → st_ended s = true →
  st_crashed s = false ∧ st_wg s = 0%nat ∧
  ∃ e : EndEvent R, st_result s = party_WaitFor e ∧
    match e with
    | EndContext => st_ctx s = true
    | EndResult r => good r
    | EndClosed => st_endClosed s = true
    end.
Proof.
  intros Hr He. pose proof (reaches_inv _ _ Hr) as Hi.
  pose proof (pi_ended _ Hi He) as Hl. split; [apply (pi_alive _ Hi)|].
  split; [by rewrite (pi_wg _ Hi)|]. pose proof (pi_result _ Hi) as Hres.
  unfold live in Hl. destruct (st_listening s); [lia|].
  destruct (st_msgsClosed s); [destruct (st_result s) as [r|]|destruct Hres as [Hc ->]].
  - by exists (EndResult r).
  - by exists EndClosed.
  - by exists EndContext.
Qed.

(** C40: A message that comes between the result and the end of a party stops its session:
    once [receiveUpdates] has closed the channel while a handler is between the check of
    [ended] and the send, the handler's send panics with the session's read lock held (the
    lock is not released by a deferred call and the server recovers from the panic), so on
    every run from there the write lock that the session's loop needs is never free. *)
Theorem late_message_wedges_session s s' :
  st_msgsClosed s = true → st_inside s ≠ [] → star (party_step p net) s s' →
  ¬ (st_inside s' = [] ∧ st_leaked s' = 0%nat).
Proof.
  intros Hm Hin Hs.
  assert (wedged s') as [_ Hpos].
  { eapply star_invariant; [|done|]; [intros a b; apply wedged_step|].
    split; [done|]. destruct (st_inside s); [done|]. simpl. lia. }
  intros [Hi Hl]. rewrite Hi, Hl in Hpos. simpl in Hpos. lia.
Qed.

End theorems.

Section witnesses.

(** A library whose party sends one message when it starts and has its result after the
    first message it gets. *)
Definition demo_tss : TssLib :=
  {| TssParty := bool * nat;
     UpdateFromBytes := λ st _ _ _, if (st.1 : bool) then (true, 0%nat) else st |}.
#[local] Existing Instance demo_tss.

#[local] Instance demo_run : TssRun string := {
  StartParty := λ st : TssParty,
    ((true, st.2), if (st.1 : bool) then []
       else [EmitOut {| tm_WireBytes := Some []; tm_To := None; tm_IsBroadcast := true |}], None);
  UpdateEmits := λ (st : TssParty) _ _ _,
    if (st.1 : bool) then match st.2 with O => [] | S _ => [EmitEnd "signature"] end else [] }.

#[local] Instance demo_spec : TssRunSpec (λ r, r = "signature").
Proof.
  refine {| outs_left := λ st : TssParty, if (st.1 : bool) then 0%nat else 1%nat;
            ends_left := λ st : TssParty, st.2; started := λ st : TssParty, st.1 |}.
  - by intros [[] n].
  - by intros [[] n].
  - intros [[] [|n]]; simpl; lia.
  - intros [[] [|n]]; simpl; lia.
  - intros [[] n] st' l e [= <- <- <-]; simpl; lia.
  - intros [[] n] st' l e [= <- <- <-]; simpl; lia.
  - by intros [[] n] st' l e [=].
  - intros [[] n] st' l e [= <- <- <-]; by repeat constructor.
  - intros [[] [|n]] w i b; simpl; by repeat constructor.
Defined.

#[local] Instance demo_bech : Bech32 := λ _, Some [].

Definition demo_party : LocalParty :=
  {| lp_self := "me"; lp_sessionId := "SIGN_1_5"; lp_type := RT_SIGN;
     lp_parties := {[ "bob" := zero_party ]}; lp_sortedPartyIds := [] |}.
Definition demo_msg : partyMsg := {| pm_Sender := "bob"; pm_WireMsg := []; pm_IsBroadcast := false |}.
Definition demo_start : TssParty := (false, 1%nat).
Definition demo_init : PartyState string := party_Run demo_start [demo_msg] [].

(** The party starts, reads the message and has its result in the channel. *)
Definition demo_prefix : list Action :=
  [AStart; AStart; AStart; AReceive false; AReceive false].
Definition demo_rest : list Action :=
  [AReceive false; AUpdates OnOut; AUpdates OnEnd; AReceive false; AWait].

Definition demo_at (l : list Action) : PartyState string :=
  default demo_init (exec_all demo_party (λ _ _, true) l demo_init).

Definition demo_late : list Action :=
  demo_prefix ++ [AUpdates OnEnd; AEnter demo_msg; AReceive false; AReceive false; ASend 0; AWait].

Definition runs (l : list Action) : bool :=
  match exec_all demo_party (λ _ _, true) l demo_init with Some _ => true | None => false end.

Lemma demo_reaches l :
  runs l = true → reaches demo_party (λ _ _, true) demo_start (demo_at l).
Proof.
  unfold runs. destruct (exec_all demo_party (λ _ _, true) l demo_init) as [s|] eqn:Hs; [|done].
  intros _. split; [by intros a _; eexists|]. split; [done|].
  split; [apply Nat.leb_le; reflexivity|]. split; [simpl; unfold EndChannelSize; lia|].
  exists [demo_msg], []. unfold demo_at. rewrite Hs. by eapply exec_all_star.
Qed.

Lemma demo_prefix_runs : runs demo_prefix = true ∧ runs (demo_prefix ++ demo_rest) = true.
Proof. vm_compute. done. Qed.

Lemma demo_prefix_state :
  st_end (demo_at demo_prefix) = ["signature"] ∧ st_ctx (demo_at demo_prefix) = false ∧
  st_listening (demo_at demo_prefix) = true.
Proof. vm_compute. done. Qed.

Lemma demo_final_state :
  st_ended (demo_at (demo_prefix ++ demo_rest)) = true ∧
  st_result (demo_at (demo_prefix ++ demo_rest)) = Some "signature".
Proof. vm_compute. done. Qed.

Lemma demo_late_state :
  st_ended (demo_at demo_late) = true ∧ st_leaked (demo_at demo_late) = 1%nat ∧
  st_msgsClosed (demo_at (take 7 demo_late)) = true ∧
  st_inside (demo_at (take 7 demo_late)) = [demo_msg].
Proof. vm_compute. done. Qed.

Lemma party_terminates_witness :
  Acc (flip (internal_step demo_party (λ _ _, true))) (demo_at demo_prefix).
Proof.
  refine (proj1 (party_terminates demo_party (λ _ _, true) demo_start (demo_at demo_prefix) _ _)).
  - apply demo_reaches, demo_prefix_runs.
  - do 2 right. left. by rewrite (proj1 demo_prefix_state).
Defined.

Lemma party_result_returned_witness :
  st_end (demo_at demo_prefix) = ["signature"%string] ∧
  (∀ s', star (internal_step demo_party (λ _ _, true)) (demo_at demo_prefix) s' →
     (∀ s'', ¬ internal_step demo_party (λ _ _, true) s' s'') →
     st_ended s' = true ∧ st_result s' = Some "signature") ∧
  ∀ s', star (party_step demo_party (λ _ _, true)) (demo_at demo_prefix) s' → st_ended s' = true →
    st_result s' = Some "signature" ∨ st_ctx s' = true ∧ st_result s' = None.
Proof.
  split; [apply demo_prefix_state|].
  apply (party_result_returned demo_party (λ _ _, true) demo_start).
  - apply demo_reaches, demo_prefix_runs.
  - apply demo_prefix_state.
  - apply demo_prefix_state.
  - apply demo_prefix_state.
Defined.

Lemma party_refines_EndEvent_witness :
  st_result (demo_at (demo_prefix ++ demo_rest)) = Some "signature" ∧
  st_crashed (demo_at (demo_prefix ++ demo_rest)) = false.
Proof.
  split; [apply demo_final_state|].
  refine (proj1 (party_refines_EndEvent demo_party (λ _ _, true) demo_start
                   (demo_at (demo_prefix ++ demo_rest)) _ _)).
  - apply demo_reaches, demo_prefix_runs.
  - apply demo_final_state.
Defined.

(** A second message of the peer comes right after the result was read. *)
Lemma late_message_wedges_session_witness :
  st_leaked (demo_at demo_late) = 1%nat ∧
  ∀ s', star (party_step demo_party (λ _ _, true)) (demo_at (take 7 demo_late)) s' →
    ¬ (st_inside s' = [] ∧ st_leaked s' = 0%nat).
Proof.
  split; [apply demo_late_state|]. intros s'.
  apply late_message_wedges_session; [apply demo_late_state|].
  by rewrite (proj2 (proj2 (proj2 demo_late_state))).
Defined.

End witnesses.
