(* ===== verification/Commands.v ===== *)
(** * The commands

    Models the commands that run one session or manage the secrets: [service run keygen]
    ([cmd/service/run/keygen.go]), [service sign] ([cmd/service/sign.go]), [service run
    reshare] ([cmd/service/run/reshare]), [helpers generate] and [helpers vault]
    ([cmd/helpers]) and their output flags ([cmd/utils/flags.go]).

    A command changes the vault, the files and the console ([World]).  The session a command
    runs is its input: when it may start, and how its party ended ([SessionRun]); the end of a
    party is an end event, which [PartyRun] justifies.  The p2p server's goroutine is given by
    its outcome.  Reading the configuration file and the key generation itself are inputs. *)

From S2P Require Import Prelude Core Session Deposits Broadcast Consensus Fetcher Withdrawal Mechanism Signing Utxo UtxoWithdrawal UtxoDeposit Parties Sessions Intake Node ChainDeposits SolanaInstructions SolanaContract Clients Service.
#[local] Open Scope Z_scope.

(** ** cmd/utils/flags.go *)

Record Output := { o_Type : string; o_FilePath : string }.

Definition OutputValid (o : Output) : bool :=
  bool_decide (o_Type o = "console") || bool_decide (o_Type o = "file") ||
  bool_decide (o_Type o = "vault").

(** ** What a command changes *)

Record World (St : Type) := {
  wd_vault : St; wd_files : gmap string string; wd_console : list string }.
Arguments wd_vault {_} _.
Arguments wd_files {_} _.
Arguments wd_console {_} _.
Arguments Build_World {_} _ _ _.

Section world.
Context {St : Type}.
Implicit Types (w : World St).

Definition set_vault (v : St) w : World St := Build_World v (wd_files w) (wd_console w).
Definition Println (line : string) w : World St :=
  Build_World (wd_vault w) (wd_files w) (wd_console w ++ [line]).

(** [os.WriteFile]: some paths cannot be written. *)
Definition WriteFile (writable : string → bool) (path raw : string) w : World St * res unit :=
  if writable path
  then (Build_World (wd_vault w) (<[path := raw]> (wd_files w)) (wd_console w), Ok tt)
  else (w, Err (ENew "open")).

(** Runs a command's part that saves to the vault. *)
Definition saved (r : res St) (msg : string) w : World St * res unit :=
  match wrap r msg with
  | Ok v => (set_vault v w, Ok tt)
  | Err e => (w, Err e)
  | Panic => (w, Panic)
  end.

(** A part of a command after one that may fail. *)
Definition after {A} (r : res A) (k : A → World St → World St * res unit) w : World St * res unit :=
  match r with
  | Ok a => k a w
  | Err e => (w, Err e)
  | Panic => (w, Panic)
  end.

(** [errgroup.Group] without a context, for the session's goroutine and the server's:
    [Wait] returns the first error; a panic ends the program. *)
Definition Wait (sessionFirst : bool) (session server : res unit) : res unit :=
  match session, server with
  | Panic, _ | _, Panic => Panic
  | Err e, Err e' => if sessionFirst then Err e else Err e'
  | Err e, Ok _ => Err e
  | Ok _, r => r
  end.

End world.

(** When a one-shot session starts, and how its party ends. *)
Record SessionRun (R : Type) := {
  sr_runDelay : Z; sr_cancelled : bool; sr_connected : Z;
  sr_end : EndEvent R; sr_ctxErr : option error }.
Arguments sr_runDelay {_} _.
Arguments sr_cancelled {_} _.
Arguments sr_connected {_} _.
Arguments sr_end {_} _.
Arguments sr_ctxErr {_} _.

(** The goroutine of the p2p server and the order of the two. *)
Record Server := { sv_outcome : res unit; sv_sessionFirst : bool }.

(** [Run] and [WaitFor]: a session that was cancelled before its start has neither a result
    nor an error. *)
Definition session_result {R} (started : res bool) (runMsg waitMsg : string)
    (finish : option R * option error) : res (option R) :=
  started ← wrap started runMsg;
  let '(result, err) := if (started : bool) then finish else (None, None) in
  match err with Some e => Err (EWrap e waitMsg) | None => Ok result end.

Section commands.
Context {St : Type} `{!KVv2 St, KeyLib, SecretsCodec, Bech32, TssSort, SigLib}.
Context (writable : string → bool) (o : Output).
Implicit Types (w : World St).

(** ** service run keygen *)

Definition storeKeygenResult (result : option LocalPartySaveData) w : World St * res unit :=
  after (wrap (of_option (share_json result) "json") "failed to marshal keygen result") (λ raw w,
    if bool_decide (o_Type o = "console") then (Println raw w, Ok tt)
    else if bool_decide (o_Type o = "file") then
      let '(w', r) := WriteFile writable (o_FilePath o) raw w in
      (w', wrap r "failed to write keygen result to file")
    else if bool_decide (o_Type o = "vault") then
      saved (SaveTssShare result (wd_vault w)) "failed to save keygen result to vault" w
    else (w, Ok tt)) w.

Definition keygen_secrets (s : St) : res (LocalPreParams * Account bytes * Certificate_t) :=
  preParams ← wrap (GetKeygenPreParams s) "failed to get keygen pre-parameters";
  account ← wrap (GetCoreAccount s) "failed to get core account";
  cert ← wrap (GetLocalPartyTlsCertificate s) "failed to get local party TLS certificate";
  Ok (preParams, account, cert).

Definition keygen_session (partiesCount : Z) (run : SessionRun LocalPartySaveData)
    : res (option LocalPartySaveData) :=
  session_result (keygen_Run (sr_runDelay run) (sr_cancelled run) (sr_connected run) partiesCount)
    "failed to run keygen session" "failed to obtain keygen session result"
    (keygen_run (sr_end run) (sr_ctxErr run)).

Definition keygen_RunE (sessionId : Z) (parties : list Party) (run : SessionRun LocalPartySaveData)
    (server : Server) w : World St * res unit :=
  if negb (OutputValid o) then (w, Err (ENew "invalid output type"))
  else
    after (keygen_secrets (wd_vault w)) (λ secrets w,
      after (NewKeygenParty (CosmosAddress (snd (fst secrets))) parties
               (GetKeygenSessionIdentifier sessionId)) (λ _ w,
        let '(w', r) := after (keygen_session (Z.of_nat (length parties)) run) storeKeygenResult w in
        (w', Wait (sv_sessionFirst server) r (sv_outcome server))) w) w.

(** ** service sign *)

(** [hexutil.MustDecode] panics; an empty string is not data. *)
Definition dataToSign (rawData : string) : res bytes :=
  let rawData := if has_prefix "0x" rawData then rawData else ("0x" +:+ rawData)%string in
  match hexutil_Decode rawData with
  | None => Panic
  | Some [] => Err (EWrap (ENew "empty data to-sign") "invalid data")
  | Some data => Ok data
  end.

(** The fields of a nil result are read; [json_string] is the JSON of a string. *)
Definition saveSigningResult (json_string : string → string) (result : option SignatureData) w
    : World St * res unit :=
  match result with
  | None => (w, Panic)
  | Some sg =>
      let signature := hexutil_Encode (sd_Signature sg ++ sd_SignatureRecovery sg) in
      if bool_decide (o_Type o = "console") then (Println signature w, Ok tt)
      else if bool_decide (o_Type o = "file") then
        let '(w', r) := WriteFile writable (o_FilePath o) (json_string signature) w in
        (w', wrap r "failed to write signing result to file")
      else (w, Ok tt)
  end.

(** [share.ECDSAPub.ToECDSAPubKey()] dereferences a pointer of the share. *)
Context (share_pub : LocalPartySaveData → res ECDSAPub).

Definition default_session (partiesCount : Z) (run : SessionRun SignatureData)
    : res (option SignatureData) :=
  session_result (default_Run (sr_runDelay run) (sr_cancelled run) (sr_connected run) partiesCount)
    "failed to run signing session" "failed to obtain signing session result"
    (default_run (sr_end run) (sr_ctxErr run)).

Definition finishSigning (json_string : string → string) (verify : bool) (share : LocalPartySaveData)
    (data : bytes) (result : option SignatureData) w : World St * res unit :=
  let '(w', r) := saveSigningResult json_string result w in
  (w', _ ← wrap r "failed to save signing result";
       if verify then
         pk ← share_pub share;
         valid ← Verify pk data result;
         if (valid : bool) then Ok tt else Err (ENew "signature verification failed")
       else Ok tt).

Definition sign_secrets (s : St) : res (Account bytes * LocalPartySaveData * Certificate_t) :=
  account ← wrap (GetCoreAccount s) "failed to get core account";
  localSaveData ← wrap (GetTssShare s) "failed to get local share";
  cert ← wrap (GetLocalPartyTlsCertificate s) "failed to get local party TLS certificate";
  Ok (account, localSaveData, cert).

Definition sign_RunE (json_string : string → string) (verify : bool) (rawData : string)
    (sessionId : Z) (parties : list Party) (run : SessionRun SignatureData) (server : Server) w
    : World St * res unit :=
  if negb (OutputValid o) then (w, Err (ENew "invalid output type"))
  else
    after (dataToSign rawData) (λ data w,
      after (sign_secrets (wd_vault w)) (λ secrets w,
        after (NewSignParty (CosmosAddress (fst (fst secrets)))
                 (GetDefaultSigningSessionIdentifier sessionId) parties) (λ _ w,
          let '(w', r) := after (default_session (Z.of_nat (length parties)) run)
                            (finishSigning json_string verify (snd (fst secrets)) data) w in
          (w', Wait (sv_sessionFirst server) r (sv_outcome server))) w) w) w.

(** ** helpers *)

(** [helpers generate cosmos-account]: the printed key has no prefix.  [json_map] is the JSON
    of the two fields. *)
Definition storeAccount (json_map : string → string → string) (account : Account bytes) w
    : World St * res unit :=
  let prvRaw := drop_str 2 (hexutil_Encode (prv account)) in
  if bool_decide (o_Type o = "console") then
    (Println ("Address: " +:+ CosmosAddress account)%string
       (Println ("Private key: " +:+ prvRaw)%string w), Ok tt)
  else if bool_decide (o_Type o = "file") then
    let '(w', r) := WriteFile writable (o_FilePath o) (json_map prvRaw (CosmosAddress account)) w in
    (w', wrap r "failed to write pre-parameters to file")
  else if bool_decide (o_Type o = "vault") then
    saved (SaveCoreAccount account (wd_vault w)) "failed to save account to vault" w
  else (w, Ok tt).

(** [priv] is the generated key. *)
Definition generate_account_RunE (json_map : string → string → string) (hrp : string)
    (priv : res bytes) w : World St * res unit :=
  if negb (OutputValid o) then (w, Err (ENew "invalid output type"))
  else
    after (priv ← wrap priv "failed to generate private key";
           wrap (NewAccount (hexutil_Encode priv) [hrp]) "failed to create account")
      (storeAccount json_map) w.

Definition storePreParams (params : LocalPreParams) w : World St * res unit :=
  after (wrap (of_option (preparams_Marshal params) "json") "failed to marshal pre-parameters") (λ raw w,
    if bool_decide (o_Type o = "console") then (Println raw w, Ok tt)
    else if bool_decide (o_Type o = "file") then
      let '(w', r) := WriteFile writable (o_FilePath o) raw w in
      (w', wrap r "failed to write pre-parameters to file")
    else if bool_decide (o_Type o = "vault") then
      saved (SaveKeygenPreParams params (wd_vault w)) "failed to save pre-parameters to vault" w
    else (w, Ok tt)) w.

(** [params] is the generated value, [valid] its check [ValidateWithProof]. *)
Definition preparams_RunE (params : res LocalPreParams) (valid : LocalPreParams → bool) w
    : World St * res unit :=
  if negb (OutputValid o) then (w, Err (ENew "invalid output type"))
  else
    after (wrap params "failed to generate pre-parameters") (λ params w,
      if negb (valid params)
      then (w, Err (ENew "generated pre-parameters are invalid, please try again"))
      else storePreParams params (Println "Pre-parameters generated successfully" w)) (Println "Generating pre-parameters..." w).

(** [helpers vault set cosmos-account] *)
Definition set_account_RunE (privKey hrp : string) w : World St * res unit :=
  after (wrap (NewAccount privKey [hrp]) "failed to parse Cosmos account") (λ acc w,
    saved (SaveCoreAccount acc (wd_vault w)) "failed to save account to vault" w) w.

(** [os.ReadFile] *)
Definition ReadFile (path msg : string) w : res string :=
  wrap (of_option (wd_files w !! path) "open") msg.

(** [json.Unmarshal(raw, &share)] into a nil pointer: the JSON null leaves it nil. *)
Definition share_pointer (raw : string) : option (option LocalPartySaveData) :=
  if bool_decide (raw = "null") then Some None else Some <$> share_Unmarshal raw.

(** [helpers vault set tss-share] *)
Definition set_share_RunE (sharePath : string) w : World St * res unit :=
  after (raw ← ReadFile sharePath "failed to read TSS share file" w;
         wrap (of_option (share_pointer raw) "json") "failed to unmarshal TSS share") (λ share w,
    saved (SaveTssShare share (wd_vault w)) "failed to save TSS share to vault" w) w.

(** [helpers vault set tls-cert] *)
Definition set_cert_RunE (certPath keyPath : string) w : World St * res unit :=
  after (rawCert ← ReadFile certPath "failed to read TLS cert file" w;
         rawKey ← ReadFile keyPath "failed to read TLS key file" w;
         _ ← wrap (of_option (X509KeyPair (bytes_of_string rawCert) (bytes_of_string rawKey)) "x509")
               "failed to parse TLS cert and key";
         Ok (rawCert, rawKey)) (λ pair w,
    saved (SaveLocalPartyTlsCertificate (bytes_of_string (fst pair)) (bytes_of_string (snd pair))
             (wd_vault w)) "failed to save TLS certificate to vault" w) w.

(** [helpers vault get pubkey]; [coordinates] prints the key's point. *)
Definition get_pubkey_RunE (coordinates : ECDSAPub → string * string) w : World St * res unit :=
  after (share ← wrap (GetTssShare (wd_vault w)) "failed to get TSS share from vault";
         share_pub share) (λ pubKey w,
    (Println ("Y coordinate: " +:+ snd (coordinates pubKey))%string
       (Println ("X coordinate: " +:+ fst (coordinates pubKey))%string w), Ok tt)) w.

End commands.

(** ** service run reshare *)

Section reshare.
Context `{AddressLib, SolanaLib, Evm.EvmAbi, Zano.ZanoJson, Ton.TonCells, SolanaGo}.
Context `{EncodingLib, sigLib : SigLib, wire : WireLib}.
Context `{Bech32, TssSort, RandSource, Crypto}.

(** The flags: the default parameters with the threshold of the inputs lowered. *)
Definition consolidateParams (feeRate outputsCount maxInputsCount : Z) : ConsolidateOutputsParams :=
  {| cp_FeeRate := feeRate; cp_MaxInputsCount := maxInputsCount; cp_InputsThreshold := 1;
     cp_OutputsCount := outputsCount |}.
Definition defaultReshareParams : ConsolidateOutputsParams :=
  consolidateParams (cp_FeeRate DefaultConsolidateOutputsParams)
    (cp_OutputsCount DefaultConsolidateOutputsParams)
    (cp_MaxInputsCount DefaultConsolidateOutputsParams).

(** The first UTXO chain with the identifier, and the first Zano chain. *)
Fixpoint find_utxo (chainId : string) (chains : list Chain) : option UtxoHelper :=
  match chains with
  | [] => None
  | UtxoChain id helper _ _ _ :: rest =>
      if bool_decide (id = chainId) then Some helper else find_utxo chainId rest
  | _ :: rest => find_utxo chainId rest
  end.

Fixpoint find_zano (chains : list Chain) : option Zano.ZanoNode :=
  match chains with
  | [] => None
  | ZanoChain _ node _ :: _ => Some node
  | _ :: rest => find_zano rest
  end.

(** When a resharing session starts. *)
Record ReshareStart := {
  rs_runDelay : Z; rs_cancelled : bool; rs_connected : Z; rs_threshold : Z }.

(** What the second goroutine returns: the hash, or that the party was not active. *)
Definition reshare_result (start : ReshareStart) (chain : string) (outcome : Outcome (string * option error))
    : Outcome (res (option string)) :=
  match wrap (reshare_Run (rs_runDelay start) (rs_cancelled start) (rs_connected start)
                (rs_threshold start)) ("failed to run " +:+ chain +:+ " resharing session")%string with
  | Err e => Finished (Err e)
  | Panic => Crashed
  | Ok false => Finished (Ok None)
  | Ok true =>
      let report r := match r with
        | (_, Some e) => Err (EWrap e "failed to obtain migration tx hash")
        | (txHash, None) => if bool_decide (txHash = ""%string) then Ok None else Ok (Some txHash)
        end in
      match outcome with
      | Finished r => Finished (report r)
      | StillWaiting r => StillWaiting (report r)
      | Blocked => Blocked
      | Crashed => Crashed
      end
  end.

(** [NewSession]: the leader is drawn for the session, and a nil key of the share, parties
    without an address or a target without a script make it panic. *)
Definition reshare_leader (self : Address) (sessionId : Z) (parties : list Party) : res bool :=
  ids ← SortAllParties parties self;
  leader ← DetermineLeader (GetReshareSessionIdentifier sessionId) ids;
  Ok (bool_decide (self = leader)).

Context {St : Type} `{!KVv2 St, KeyLib, SecretsCodec} (share_pub : LocalPartySaveData → res ECDSAPub).

Definition reshare_secrets (s : St) : res (LocalPartySaveData * Account bytes * Certificate_t) :=
  share ← wrap (GetTssShare s) "failed to get tss share";
  account ← wrap (GetCoreAccount s) "failed to get core account";
  cert ← wrap (GetLocalPartyTlsCertificate s) "failed to get local party TLS certificate";
  Ok (share, account, cert).

(** [service run reshare utxo] *)
Definition reshare_utxo_RunE (s : St) (chains : list Chain) (chainId targetAddr : string)
    (sessionId : Z) (parties : list Party) (start : ReshareStart)
    (cancelledAfter : nat → bool) (inTime : bool) (sent : option error)
    (result : Result (T:=UtxoSigningData)) (sign : bytes → option SignatureData)
    : Outcome (res (option string)) :=
  match reshare_secrets s with
  | Err e => Finished (Err e)
  | Panic => Crashed
  | Ok (share, account, _) =>
      match find_utxo chainId chains with
      | None => Finished (Err (ENew "utxo client configuration not found"))
      | Some helper =>
          if negb (AddressValid (UtxoHelper:=helper) targetAddr)
          then Finished (Err (ENew ("invalid target address: " +:+ targetAddr)%string))
          else
            match reshare_leader (CosmosAddress account) sessionId parties, share_pub share,
                  PayToAddrScript (UtxoHelper:=helper) targetAddr with
            | Ok leader, Ok tssPub, Ok _ =>
                reshare_result start "utxo"
                  (reshare_utxo_run (H3:=helper) tssPub leader sent cancelledAfter inTime result sign)
            | _, _, _ => Crashed
            end
      end
  end.

(** [service run reshare zano] *)
Definition reshare_zano_RunE (s : St) (chains : list Chain) (sessionId : Z) (parties : list Party)
    (start : ReshareStart) (inTime : bool) (sent : option error)
    (result : Result (T:=ZanoSigningData)) (sign : bytes → option SignatureData)
    : Outcome (res (option string)) :=
  match reshare_secrets s with
  | Err e => Finished (Err e)
  | Panic => Crashed
  | Ok (_, account, _) =>
      match find_zano chains with
      | None => Finished (Err (ENew "zano client configuration not found"))
      | Some _ =>
          match reshare_leader (CosmosAddress account) sessionId parties with
          | Ok leader =>
              reshare_result start "zano" (reshare_zano_run leader sent inTime result sign)
          | _ => Crashed
          end
      end
  end.

End reshare.

(** ** Lemmas *)

(** A session that was not cancelled and has no error has a result. *)
Lemma session_result_Ok {R} started m1 m2 (fin : option R * option error) x :
  session_result started m1 m2 fin = Ok x →
  (started = Ok false ∧ x = None) ∨ (started = Ok true ∧ fin = (x, None)).
Proof.
  unfold session_result. intros Hok. apply bind_Ok in Hok as (b & Hb & Hok). apply wrap_Ok in Hb.
  destruct b; [right|left; by injection Hok as <-].
  destruct fin as [r [e|]]; [done|]. by injection Hok as <-.
Qed.

Lemma oneshot_Run_Ok kind delay cancelled n m b :
  oneshot_Run kind delay cancelled n m = Ok b → b = negb cancelled ∧ 0 < delay.
Proof.
  unfold oneshot_Run. destruct (Z.leb_spec delay 0); [done|]. destruct cancelled; [intros [= <-]; done|].
  destruct (negb _); [done|]. by intros [= <-].
Qed.

Lemma oneshot_run_Ok {R} (e : EndEvent R) ctxErr msg x :
  oneshot_run e ctxErr msg = (x, None) → ∃ r, e = EndResult r ∧ x = Some r.
Proof. unfold oneshot_run. destruct e; simpl; intros [= <-]; naive_solver. Qed.

Lemma Wait_Ok first a b u : Wait first a b = Ok u → a = Ok tt ∧ b = Ok tt.
Proof. destruct a as [[]| |], b as [[]| |]; simpl; try done; by destruct first. Qed.

Lemma after_Ok {St A} (r : res A) (k : A → World St → World St * res unit) (w w' : World St) u :
  after r k w = (w', Ok u) → ∃ a, r = Ok a ∧ k a w = (w', Ok u).
Proof. destruct r; simpl; naive_solver. Qed.

Lemma saved_Ok {St} (r : res St) msg (w w' : World St) u :
  saved r msg w = (w', Ok u) → ∃ v, r = Ok v ∧ w' = set_vault v w.
Proof. unfold saved. destruct r; simpl; naive_solver. Qed.

Section lemmas.
Context {St : Type} `{!KVv2 St, !KVv2Spec St, KeyLib, SecretsCodec, !SecretsCodecSpec, Bech32, TssSort, SigLib}.
Context (writable : string → bool) (o : Output).
Implicit Types (w : World St).

Lemma SaveTssShare_load share (s s' : St) :
  SaveTssShare (Some share) s = Ok s' →
  GetTssShare s' = Ok share ∧ ∀ path, path ≠ keyTssShare → load path s' = load path s.
Proof.
  unfold SaveTssShare. intros Hok. apply bind_Ok in Hok as (raw & Hraw & Hst).
  apply wrap_Ok, of_option_Ok in Hraw. simpl in Hraw. split.
  - unfold GetTssShare. rewrite (load_store _ _ _ _ Hst). cbn [wrap mbind res_bind].
    rewrite string_value_single. cbn [mbind res_bind]. by rewrite (share_roundtrip _ _ Hraw).
  - intros path Hne. by apply (load_store_ne _ _ _ _ _ Hst).
Qed.

End lemmas.

(** The signatures of the rounds, one for each piece of data. *)
Lemma signRounds_done sign cancelledAfter data : ∀ idx acc sgs,
  signRounds sign cancelledAfter idx data acc = RoundsDone sgs →
  ∃ l, sgs = acc ++ l ∧ Forall2 (λ d sg, sign d = Some sg) data l.
Proof.
  induction data as [|d data IH]; intros idx acc sgs; simpl.
  { intros [= <-]. exists []. by rewrite app_nil_r. }
  destruct (sign d) as [sg|] eqn:Hd; [|done]. destruct data as [|d' data].
  { intros [= <-]. exists [sg]. split; [done|]. by repeat constructor. }
  destruct (cancelledAfter idx); [done|]. intros Hr.
  apply IH in Hr as (l & -> & Hl). exists (sg :: l). rewrite <- app_assoc. split; [done|]. by constructor.
Qed.

(** ** Theorems *)

Section theorems.
Context {St : Type} `{!KVv2 St, !KVv2Spec St, KeyLib, SecretsCodec, !SecretsCodecSpec, Bech32, TssSort, SigLib}.
Context (writable : string → bool) (o : Output).
Implicit Types (w : World St).

(** C26: Key generation ends with a node that can sign: when the command succeeds with the
    vault as its output, and it was not cancelled before its start, its party had a result,
    and the signing service loads from the vault exactly this share with the account and the
    certificate the key was generated with; files and console are as before. *)
Theorem keygen_then_sign sessionId parties run server w w' account cert params :
  keygen_secrets (wd_vault w) = Ok (params, account, cert) →
  o_Type o = "vault"%string → sr_cancelled run = false →
  keygen_RunE writable o sessionId parties run server w = (w', Ok tt) →
  ∃ share, sr_end run = EndResult share ∧ load_secrets (wd_vault w') = Ok (account, share, cert) ∧
    wd_files w' = wd_files w ∧ wd_console w' = wd_console w.
Proof.
  intros Hsec Ho Hc. unfold keygen_RunE. destruct (negb (OutputValid o)); [done|].
  rewrite Hsec. cbn [after fst snd]. intros Hrun. apply after_Ok in Hrun as (p & _ & Hrun).
  destruct (after _ (storeKeygenResult writable o) w) as [w1 r] eqn:Hst. injection Hrun as -> Hw.
  apply Wait_Ok in Hw as [-> _]. apply after_Ok in Hst as (x & Hx & Hst).
  apply session_result_Ok in Hx as [[Hs _]|[Hs Hfin]];
    apply oneshot_Run_Ok in Hs as [Hb _]; rewrite Hc in Hb; [done|].
  unfold keygen_run in Hfin. apply oneshot_run_Ok in Hfin as (share & Hend & ->). exists share. split; [done|].
  unfold storeKeygenResult in Hst. rewrite Ho in Hst. apply after_Ok in Hst as (raw & _ & Hst).
  simpl in Hst. apply saved_Ok in Hst as (v & Hv & ->). cbn [wd_vault wd_files wd_console set_vault].
  split; [|done]. apply SaveTssShare_load in Hv as [Hshare Hother].
  unfold keygen_secrets in Hsec. apply bind_Ok in Hsec as (pp & _ & Hsec).
  apply bind_Ok in Hsec as (acc & Ha & Hsec). apply bind_Ok in Hsec as (ct & Hct & Hsec).
  injection Hsec as -> -> ->. apply wrap_Ok in Ha. apply wrap_Ok in Hct.
  assert (GetCoreAccount v = Ok account) as Ha' by (unfold GetCoreAccount in *; by rewrite Hother).
  assert (GetLocalPartyTlsCertificate v = Ok cert) as Hct'
    by (unfold GetLocalPartyTlsCertificate in *; by rewrite Hother).
  unfold load_secrets. by rewrite Ha', Hshare, Hct'.
Qed.

(** A key generation that is interrupted before its start destroys the share: with the
    vault as its output the command ends without an error and the vault holds the JSON null,
    which the signing service reads as an empty share, whatever share was there before. *)
Theorem cancelled_keygen_erases_share sessionId parties run server w p secrets v empty :
  o_Type o = "vault"%string → keygen_secrets (wd_vault w) = Ok secrets →
  NewKeygenParty (CosmosAddress (snd (fst secrets))) parties (GetKeygenSessionIdentifier sessionId) = Ok p →
  0 < sr_runDelay run → sr_cancelled run = true → sv_outcome server = Ok tt →
  SaveTssShare None (wd_vault w) = Ok v → share_Unmarshal "null" = Some empty →
  keygen_RunE writable o sessionId parties run server w = (set_vault v w, Ok tt) ∧
  GetTssShare v = Ok empty.
Proof.
  intros Ho Hsec Hp Hd Hc Hsv Hv Hnull. split.
  - unfold keygen_RunE, OutputValid. rewrite Ho. cbn. rewrite Hsec. cbn [after]. rewrite Hp. cbn [after].
    unfold keygen_session, session_result, keygen_Run, oneshot_Run.
    destruct (Z.leb_spec (sr_runDelay run) 0); [lia|]. rewrite Hc. cbn [wrap mbind res_bind after].
    unfold storeKeygenResult. cbn [after of_option wrap share_json]. rewrite Ho.
    rewrite !bool_decide_false, bool_decide_true by done. unfold saved. rewrite Hv. cbn. by rewrite Hsv.
  - unfold SaveTssShare in Hv. apply bind_Ok in Hv as (raw & Hraw & Hst).
    apply wrap_Ok, of_option_Ok in Hraw. injection Hraw as <-.
    unfold GetTssShare. rewrite (load_store _ _ _ _ Hst). cbn [wrap mbind res_bind].
    rewrite string_value_single. cbn [mbind res_bind]. by rewrite Hnull.
Qed.

(** The command that signs one message: when it succeeds with the verification on, and it
    was not cancelled before its start, the signature of its party verifies under the key of
    the node's share for the decoded argument, and the output is exactly this signature
    with its recovery byte (with the vault as output there is none). *)
Theorem sign_command_sound share_pub json_string rawData sessionId parties run server w w' :
  sr_cancelled run = false →
  sign_RunE writable o share_pub json_string true rawData sessionId parties run server w = (w', Ok tt) →
  ∃ data share pk sg,
    dataToSign rawData = Ok data ∧ data ≠ [] ∧ GetTssShare (wd_vault w) = Ok share ∧
    share_pub share = Ok pk ∧ sr_end run = EndResult sg ∧ Verify pk data (Some sg) = Ok true ∧
    wd_vault w' = wd_vault w ∧
    let signature := hexutil_Encode (sd_Signature sg ++ sd_SignatureRecovery sg) in
    (o_Type o = "console"%string → wd_console w' = wd_console w ++ [signature]) ∧
    (o_Type o = "file"%string → wd_files w' = <[o_FilePath o := json_string signature]> (wd_files w)).
Proof.
  intros Hc. unfold sign_RunE. destruct (negb (OutputValid o)); [done|].
  intros Hrun. apply after_Ok in Hrun as (data & Hdata & Hrun).
  apply after_Ok in Hrun as (secrets & Hsec & Hrun). apply after_Ok in Hrun as (p & _ & Hrun).
  destruct (after _ (finishSigning _ _ _ _ _ _ _) w) as [w1 r] eqn:Hst. injection Hrun as -> Hw.
  apply Wait_Ok in Hw as [-> _]. apply after_Ok in Hst as (x & Hx & Hst).
  apply session_result_Ok in Hx as [[Hs _]|[Hs Hfin]];
    apply oneshot_Run_Ok in Hs as [Hb _]; rewrite Hc in Hb; [done|].
  unfold default_run in Hfin. apply oneshot_run_Ok in Hfin as (sg & Hend & ->).
  unfold sign_secrets in Hsec. apply bind_Ok in Hsec as (acc & _ & Hsec).
  apply bind_Ok in Hsec as (share & Hsh & Hsec). apply bind_Ok in Hsec as (ct & _ & Hsec).
  injection Hsec as <-. apply wrap_Ok in Hsh. cbn [fst snd] in Hst.
  unfold finishSigning in Hst. destruct (saveSigningResult _ _ _ _ _) as [w2 r2] eqn:Hsave.
  injection Hst as -> Hver. apply bind_Ok in Hver as (u & Hu & Hver). apply wrap_Ok in Hu as ->.
  apply bind_Ok in Hver as (pk & Hpk & Hver).
  assert (Verify pk data (Some sg) = Ok true) as Hvalid.
  { unfold Verify. simpl in Hver. by destruct (ecdsa_Verify _ _ _ _). }
  exists data, share, pk, sg.
  split; [done|]. split.
  { unfold dataToSign in Hdata. destruct (hexutil_Decode _) as [[|]|]; try done. by injection Hdata as <-. }
  do 4 (split; [done|]). unfold saveSigningResult in Hsave.
  destruct (bool_decide_reflect (o_Type o = "console"%string)) as [Ho|Ho].
  { injection Hsave as <- _. split; [done|]. split; [done|]. congruence. }
  destruct (bool_decide_reflect (o_Type o = "file"%string)) as [Ho'|Ho'].
  - unfold WriteFile in Hsave. destruct (writable _); [|done]. injection Hsave as <- _. done.
  - injection Hsave as <- _. done.
Qed.

(** Interrupted before its start, the same command reads the fields of a nil result. *)
Lemma cancelled_sign_panics share_pub json_string verify rawData data secrets sessionId parties run server w p :
  OutputValid o = true → dataToSign rawData = Ok data → sign_secrets (wd_vault w) = Ok secrets →
  NewSignParty (CosmosAddress (fst (fst secrets))) (GetDefaultSigningSessionIdentifier sessionId) parties = Ok p →
  0 < sr_runDelay run → sr_cancelled run = true →
  sign_RunE writable o share_pub json_string verify rawData sessionId parties run server w = (w, Panic).
Proof.
  intros Ho Hd Hs Hp Hdelay Hc. unfold sign_RunE. rewrite Ho. cbn [negb]. rewrite Hd. cbn [after].
  rewrite Hs. cbn [after]. rewrite Hp. cbn [after].
  unfold default_session, session_result, default_Run, oneshot_Run.
  destruct (Z.leb_spec (sr_runDelay run) 0); [lia|]. by rewrite Hc.
Qed.

(** The prefix of an account is not saved: whatever prefix the account was set with, it is
    loaded with the default one. *)
Lemma account_prefix_lost key hrp w w' acc :
  (∀ bs, hexutil_Decode (hexutil_Encode bs) = Some bs) →
  NewAccount key [hrp] = Ok acc → set_account_RunE key hrp w = (w', Ok tt) →
  GetCoreAccount (wd_vault w') = wrap (NewAccount key []) "failed to parse account".
Proof.
  intros Hhex Hacc. unfold set_account_RunE. rewrite Hacc. cbn [wrap after]. intros Hs.
  apply saved_Ok in Hs as (v & Hv & ->). cbn [wd_vault set_vault].
  unfold GetCoreAccount. unfold SaveCoreAccount in Hv. rewrite (load_store _ _ _ _ Hv). cbn [wrap mbind res_bind].
  rewrite string_value_single. cbn [mbind res_bind]. f_equal. unfold NewAccount in *. rewrite Hhex.
  apply bind_Ok in Hacc as (raw & Hraw & Hacc). rewrite Hraw. cbn [wrap of_option mbind res_bind].
  apply bind_Ok in Hacc as (a & _ & Hacc). by injection Hacc as <-.
Qed.

(** The key that [generate cosmos-account] prints is refused by [vault set cosmos-account],
    which wants the prefix that was cut off. *)
Lemma generated_key_refused key hrp w :
  hexutil_Encode key = ("0x" +:+ hex_EncodeToString key)%string →
  hexutil_Decode (hex_EncodeToString key) = None →
  ∃ e, set_account_RunE (drop_str 2 (hexutil_Encode key)) hrp w = (w, Err e).
Proof.
  intros He Hd. rewrite He. unfold set_account_RunE, NewAccount.
  replace (drop_str 2 _) with (hex_EncodeToString key) by (simpl; by destruct (hex_EncodeToString key)).
  rewrite Hd. by eexists.
Qed.

End theorems.

Section reshare_theorems.
Context `{AddressLib, SolanaLib, Evm.EvmAbi, Zano.ZanoJson, Ton.TonCells, SolanaGo}.
Context `{EncodingLib, sigLib : SigLib, wire : WireLib}.
Context `{Bech32, TssSort, RandSource, Crypto}.
Context {St : Type} `{!KVv2 St, KeyLib, SecretsCodec} (share_pub : LocalPartySaveData → res ECDSAPub).

(** A resharing on a UTXO chain reports a transaction only when it is signed: the target
    address is valid on the configured chain, the parties agreed on a proposal, there is one
    signature for each of its inputs, the hash is the one of the agreed transaction with these
    signatures under the node's key, and the leader has sent it. *)
Theorem reshare_utxo_reports (s : St) chains chainId targetAddr sessionId parties start cancelledAfter
    inTime sent result sign h :
  reshare_utxo_RunE share_pub s chains chainId targetAddr sessionId parties start cancelledAfter
    inTime sent result sign = Finished (Ok (Some h)) →
  ∃ helper share account cert pub leader d p sgs tx tx',
    find_utxo chainId chains = Some helper ∧ AddressValid (UtxoHelper:=helper) targetAddr = true ∧
    reshare_secrets s = Ok (share, account, cert) ∧ share_pub share = Ok pub ∧
    reshare_leader (CosmosAddress account) sessionId parties = Ok leader ∧
    r_err result = None ∧ is_Some (r_signers result) ∧ r_sigData result = Some d ∧
    us_ProposalData d = Some p ∧ Forall2 (λ data sg, sign data = Some sg) (rp_SigData p) sgs ∧
    Deserialize (rp_SerializedTx p) = Some tx ∧
    InjectSignatures (UtxoHelper:=helper) tx (Some <$> sgs) pub = Ok tx' ∧
    h = ("0x" +:+ TxHash_of (UtxoHelper:=helper) tx')%string ∧ (leader = true → sent = None).
Proof.
  unfold reshare_utxo_RunE. destruct (reshare_secrets s) as [[[share account] cert]| |]; [|done..].
  destruct (find_utxo chainId chains) as [helper|]; [|done].
  destruct (AddressValid (UtxoHelper:=helper) targetAddr) eqn:Hav; [|done]. cbn [negb].
  destruct (reshare_leader _ _ _) as [leader| |] eqn:Hlead; [|done..].
  destruct (share_pub share) as [pub| |] eqn:Hpub; [|done..].
  destruct (PayToAddrScript (UtxoHelper:=helper) targetAddr) as [script| |]; [|done..].
  unfold reshare_result. destruct (wrap (reshare_Run _ _ _ _) _) as [[]| |]; [|done..].
  unfold reshare_utxo_run. destruct (r_err result); [done|].
  destruct (r_signers result) as [signers|]; [|done].
  destruct (r_sigData result) as [d|]; [|done].
  destruct (us_ProposalData d) as [p|] eqn:Hp; [|done].
  destruct (signRounds _ _ _ _ _) as [sgs|n|] eqn:Hr; [|done..].
  destruct inTime; [|done].
  apply signRounds_done in Hr as (l & -> & Hl). cbn [app]. unfold us_finalize. rewrite Hp.
  destruct (Deserialize (rp_SerializedTx p)) as [tx|] eqn:Hds; [|done].
  destruct (InjectSignatures (UtxoHelper:=helper) tx (Some <$> l) pub) as [tx'| |] eqn:Hinj; [|done..].
  intros Hrep. exists helper, share, account, cert, pub, leader, d, p, l, tx, tx'.
  assert (h = ("0x" +:+ TxHash_of (UtxoHelper:=helper) tx')%string ∧ (leader = true → sent = None)) as [-> Hsent].
  { destruct leader; cbn [negb] in Hrep; [destruct sent; cbn [errors_Wrap fmap option_fmap option_map] in Hrep; [done|]|];
      rewrite bool_decide_false in Hrep by done; by injection Hrep as <-. }
  split_and!; done || by eexists.
Qed.

End reshare_theorems.

(** ** Witnesses *)

Section witnesses.
#[local] Existing Instances Service.w_kv Service.w_kv_spec Service.w_codec Service.w_codec_spec.

(** As [hexutil]: with the prefix. *)
#[local] Instance w_hexutil : KeyLib := {|
  hexutil_Encode := λ bs, ("0x" +:+ hex_EncodeToString bs)%string;
  hexutil_Decode := λ s, hex_DecodeString (trim_prefix s "0x");
  pubkey_Address := λ k, k; ConvertAndEncode := λ p k, Some (p +:+ string_of_bytes k)%string |}.

#[local] Instance w_bech : Bech32 := λ _, Some [].
#[local] Instance w_sort : TssSort := λ ids, ids.
#[local] Instance w_siglib : SigLib := {|
  ECDSAPub := unit; ecdsa_Verify := λ _ _ r s, r =? s; Signing.hexutil_Encode := λ _, ""%string;
  marshal_signature := λ _, []; hex_sha256 := λ _, ""%string; encode_zano_tx := λ _ _ _ _, ""%string |}.

Definition w_output (t : string) : Output := {| o_Type := t; o_FilePath := "out.json" |}.
Definition w_world : World (gmap string SecretData) := Build_World w_s4 ∅ [].
Definition w_server : Server := {| sv_outcome := Ok tt; sv_sessionFirst := true |}.
Definition w_run {R} (cancelled : bool) (r : R) : SessionRun R :=
  {| sr_runDelay := 5; sr_cancelled := cancelled; sr_connected := 0; sr_end := EndResult r;
     sr_ctxErr := None |}.

Definition w_generated : World (gmap string SecretData) * res unit :=
  keygen_RunE (λ _, true) (w_output "vault") 1 [] (w_run false (w_share "new")) w_server w_world.

Lemma w_generated_ok : snd w_generated = Ok tt.
Proof. vm_compute. reflexivity. Qed.

Lemma keygen_then_sign_witness : ∃ share,
  load_secrets (wd_vault (fst w_generated)) = Ok (w_account, share, w_cert [Byte.x62] [Byte.x63]) ∧
  share = w_share "new".
Proof.
  destruct (keygen_then_sign (λ _, true) (w_output "vault") 1 [] (w_run false (w_share "new")) w_server
              w_world (fst w_generated) w_account (w_cert [Byte.x62] [Byte.x63]) (w_pre "pre"))
    as (share & He & Hl & _).
  - vm_compute. reflexivity.
  - reflexivity.
  - reflexivity.
  - rewrite <- w_generated_ok. apply surjective_pairing.
  - exists share. split; [exact Hl|]. injection He as He. symmetry. exact He.
Defined.

Definition w_erased : gmap string SecretData :=
  match SaveTssShare None (wd_vault w_world) with Ok v => v | _ => ∅ end.
Definition w_local : LocalParty :=
  match NewKeygenParty "bridgea" [] (GetKeygenSessionIdentifier 1) with
  | Ok p => p
  | _ => {| lp_self := ""; lp_sessionId := ""; lp_type := RT_OTHER; lp_parties := ∅; lp_sortedPartyIds := [] |}
  end.

Lemma w_secrets_ok :
  keygen_secrets (wd_vault w_world) = Ok (w_pre "pre", w_account, w_cert [Byte.x62] [Byte.x63]).
Proof. vm_compute. reflexivity. Qed.

Lemma w_erased_ok : SaveTssShare None (wd_vault w_world) = Ok w_erased.
Proof. reflexivity. Qed.

Lemma cancelled_keygen_erases_share_witness :
  GetTssShare (wd_vault w_world) = Ok (w_share "share") ∧
  keygen_RunE (λ _, true) (w_output "vault") 1 [] (w_run true (w_share "new")) w_server w_world
    = (set_vault w_erased w_world, Ok tt) ∧
  GetTssShare w_erased = Ok (w_share "null").
Proof.
  split; [vm_compute; reflexivity|].
  apply (cancelled_keygen_erases_share (λ _, true) (w_output "vault") 1 [] (w_run true (w_share "new")) w_server
           w_world w_local (w_pre "pre", w_account, w_cert [Byte.x62] [Byte.x63]) w_erased (w_share "null")).
  - reflexivity.
  - exact w_secrets_ok.
  - reflexivity.
  - reflexivity.
  - reflexivity.
  - reflexivity.
  - exact w_erased_ok.
  - reflexivity.
Defined.

Definition w_sig : SignatureData :=
  {| sd_Signature := [Byte.xaa]; sd_SignatureRecovery := [Byte.x01]; sd_R := [Byte.x07]; sd_S := [Byte.x07];
     sd_M := [] |}.
Definition w_pub (_ : LocalPartySaveData) : res ECDSAPub := Ok tt.
Definition w_signed : World (gmap string SecretData) * res unit :=
  sign_RunE (λ _, true) (w_output "console") w_pub (λ s, s) true "0xab" 1 [] (w_run false w_sig) w_server w_world.

Lemma w_signed_ok : snd w_signed = Ok tt.
Proof. vm_compute. reflexivity. Qed.

Lemma sign_command_sound_witness :
  wd_console (fst w_signed) = ["0xaa01"%string] ∧
  ∃ pk, Verify (pk : @ECDSAPub w_siglib) [Byte.xab] (Some w_sig) = Ok true.
Proof.
  split; [vm_compute; reflexivity|].
  destruct (sign_command_sound (λ _, true) (w_output "console") w_pub (λ s, s) "0xab" 1 []
              (w_run false w_sig) w_server w_world (fst w_signed))
    as (data & share & pk & sg & Hd & _ & _ & _ & He & Hv & _).
  - reflexivity.
  - rewrite <- w_signed_ok. apply surjective_pairing.
  - exists pk. vm_compute in Hd. injection Hd as <-. injection He as <-. exact Hv.
Defined.

End witnesses.

Section reshare_witness.
Import SampleFetcher SampleWithdrawal SampleUtxo.
#[local] Existing Instances Service.w_kv Service.w_codec w_hexutil w_bech w_sort.
#[local] Existing Instances Clients.w_addresses Clients.w_abi ChainDeposits.sample_json
  ChainDeposits.sample_cells SolanaContract.sample_solana UtxoDeposit.sample_encoding.

#[local] Instance w_rand : RandSource := λ _ _, 0.

Definition w_utxo_chains : list Chain :=
  [UtxoChain "0" the_helper UtxoDeposit.sample_node ["tss"%string] 6].
Definition w_agreed : Result (T:=UtxoSigningData) :=
  {| r_sigData := match cons_FormProposalData client "dst" params with Ok t => t | _ => None end;
     r_signers := Some []; r_err := None |}.
Definition w_group_key (_ : LocalPartySaveData) : res (@ECDSAPub SampleSigning.lib) := Ok tt.
Definition w_reshare : Outcome (res (option string)) :=
  reshare_utxo_RunE w_group_key w_s4 w_utxo_chains "0" "dst" 1 []
    {| rs_runDelay := 5; rs_cancelled := false; rs_connected := 2; rs_threshold := 2 |}
    (λ _, false) true None w_agreed (λ _, Some w_sig).

Lemma w_reshare_ok : w_reshare = Finished (Ok (Some "0xhash"%string)).
Proof. vm_compute. reflexivity. Qed.

Lemma reshare_utxo_reports_witness : ∃ d p tx,
  r_sigData w_agreed = Some d ∧ us_ProposalData d = Some p ∧ Deserialize (rp_SerializedTx p) = Some tx.
Proof.
  destruct (reshare_utxo_reports w_group_key w_s4 w_utxo_chains "0" "dst" 1 []
    {| rs_runDelay := 5; rs_cancelled := false; rs_connected := 2; rs_threshold := 2 |}
    (λ _, false) true None w_agreed (λ _, Some w_sig) "0xhash" w_reshare_ok)
    as (hl & sh & ac & ct & pb & ld & d & p & sgs & tx & tx' & _ & _ & _ & _ & _ & _ & _ & Hd & Hp & _ & Htx & _).
  exists d, p, tx. split; [exact Hd|]. split; [exact Hp|exact Htx].
Defined.

End reshare_witness.
