(* ===== verification/NodeRpc.v ===== *)
(** * The nodes and wallets of UTXO chains, and the configured chains

    Models the RPC client of the UTXO nodes and wallets
    ([internal/bridge/chain/utxo/rpc/rpc.go]), the calls the chain client makes with it
    ([utxo/client/transaction.go], [withdraw.go], [client.go]), and how the entries of the
    configuration become chains ([utxo/chain/chain.go], [utxo/types], [utxo/helper/factory],
    and [FromChain] of the other chains).

    The HTTP transport, [encoding/json] and figure's decoders are parameters. *)

From S2P Require Import Prelude Core Deposits Fetcher Withdrawal Signing Utxo UtxoWithdrawal UtxoDeposit Intake ChainDeposits SolanaInstructions SolanaContract Clients.
#[local] Open Scope Z_scope.

(** ** utxo/types *)

Definition ChainBtc : string := "btc".
Definition ChainBch : string := "bch".
Definition NetworkMainnet : string := "mainnet".
Definition NetworkTestnet3 : string := "testnet3".
Definition NetworkTestnet4 : string := "testnet4".

Definition chain_Validate (s : string) : option error :=
  if bool_decide (s = ChainBtc) || bool_decide (s = ChainBch) then None
  else Some (ENew ("invalid type: " +:+ s)%string).

Definition network_Validate (n : string) : option error :=
  if bool_decide (n = NetworkMainnet) || bool_decide (n = NetworkTestnet3) ||
     bool_decide (n = NetworkTestnet4) then None
  else Some (ENew ("invalid network: " +:+ n)%string).

(** ** utxo/rpc/rpc.go *)

Record RpcClient := { rc_host : string; rc_user : string; rc_password : string; rc_chain : string }.

(** An error is a text or an RPC error, which prints as its code and its message. *)
Inductive RpcError := PlainError (text : string) | RPCError (code : Z) (message : string).

Definition rpc_error_text (e : RpcError) : string :=
  match e with
  | PlainError text => text
  | RPCError code message => (print_Z code +:+ ": " +:+ message)%string
  end.

(** [strings.SplitN(s, ": ", 2)]: the part after the first separator, if there is one. *)
Fixpoint after_colon (s : string) : option string :=
  match s with
  | EmptyString => None
  | String a s' =>
      match s' with
      | String b rest =>
          if (a =? ":")%char && (b =? " ")%char then Some rest else after_colon s'
      | EmptyString => None
      end
  end.

Inductive RpcArg :=
| ArgString (s : string) | ArgInt (z : Z) | ArgBool (b : bool) | ArgNull
| ArgFeeRate (perMille : Z) | ArgOutpoints (ops : list (string * Z)).

(** The transport posts a method with its arguments and answers with the JSON of the result
    or with the text of an error; [json_error] reads [{"error":{"code":..,"message":..}}], and
    the other functions read the results. *)
Class UtxoTransport `{WireLib} := {
  Json : Type;
  (** [rpc.DialOptions]: whether the URL is one it can dial *)
  rpc_dial : string → bool;
  rpc_post : RpcClient → string → list RpcArg → Json + string;
  json_error : string → option (Z * string);
  json_float : Json → option float64;
  json_smartFee : Json → option (option (list string) * option float64);
  json_string : Json → option string;
  json_int : Json → option Z;
  json_tx : Json → option TxRawResult;
  json_blockHeight : Json → option Z;
  json_unspent : Json → option (list Unspent);
  json_walletInfo : Json → option unit }.

Section rpc.
Context `{WireLib, !UtxoTransport}.

(** [http] unless [strings.Contains(host, "://")]. *)
Definition NewRpcClient (host user password chain : string) : res RpcClient :=
  let url := if str_contains host "://" then host else ("http://" +:+ host)%string in
  if rpc_dial url then Ok {| rc_host := url; rc_user := user; rc_password := password; rc_chain := chain |}
  else Err (ENew "failed to connect to RPC server").

Definition extractRpcError (e : RpcError) : RpcError :=
  match after_colon (rpc_error_text e) with
  | None => e
  | Some rest =>
      match json_error rest with
      | None => e
      | Some (code, message) => RPCError code message
      end
  end.

(** [Client.Call]: the transport's error or that of the decoding, extracted. *)
Definition rpc_Call {R} (decode : Json → option R) (c : RpcClient) (method : string)
    (args : list RpcArg) : R + RpcError :=
  match rpc_post c method args with
  | inr text => inr (extractRpcError (PlainError text))
  | inl raw =>
      match decode raw with
      | Some r => inl r
      | None => inr (extractRpcError (PlainError "json: cannot unmarshal"))
      end
  end.

(** The methods extract the error once more. *)
Definition rpc_method {R} (decode : Json → option R) (c : RpcClient) (method : string)
    (args : list RpcArg) : R + RpcError :=
  match rpc_Call decode c method args with
  | inl r => inl r
  | inr e => inr (extractRpcError e)
  end.

Definition rpc_res {R} (r : R + RpcError) : res R :=
  match r with inl x => Ok x | inr e => Err (ENew (rpc_error_text e)) end.

Definition estimateFeeBch (c : RpcClient) : res float64 := rpc_res (rpc_method json_float c "estimatefee" []).

Definition confirmationsTarget : Z := 5.

Definition estimateFeeBtc (c : RpcClient) : res float64 :=
  result ← rpc_res (rpc_method json_smartFee c "estimatesmartfee" [ArgInt confirmationsTarget; ArgNull]);
  match result with
  | (Some errs, _) => Err (ENew "estimatesmartfee")
  | (None, None) => Err (ENew "fee rate is nil")
  | (None, Some feeRate) => Ok feeRate
  end.

Definition EstimateFee (c : RpcClient) : res Z :=
  if bool_decide (rc_chain c = ChainBch) || bool_decide (rc_chain c = ChainBtc) then
    fee ← wrap (if bool_decide (rc_chain c = ChainBch) then estimateFeeBch c else estimateFeeBtc c)
            "failed to estimate fee";
    amt ← of_option (NewAmount fee) "failed to convert fee to btcutil.Amount";
    if amt <? DefaultFeeRateBtcPerKvb then Err (ENew "estimated fee is too low") else Ok amt
  else Err (ENew ("unsupported chain: " +:+ rc_chain c)%string).

Definition GetRawTransactionVerbose (c : RpcClient) (txHash : string) : TxRawResult + RpcError :=
  rpc_method json_tx c "getrawtransaction" [ArgString txHash; ArgBool true].

Definition GetBlockVerbose (c : RpcClient) (hash : string) : res Z :=
  rpc_res (rpc_method json_blockHeight c "getblock" [ArgString hash; ArgInt 1]).

(** The limit of the fee rate is 0.1 on Bitcoin, the flag false on Bitcoin Cash. *)
Definition maxFee (chain : string) : RpcArg :=
  if bool_decide (chain = ChainBtc) then ArgFeeRate 100
  else if bool_decide (chain = ChainBch) then ArgBool false
  else ArgNull.

Definition SendRawTransaction (c : RpcClient) (tx : MsgTx) : res string :=
  rpc_res (rpc_method json_string c "sendrawtransaction"
             [ArgString (hex_EncodeToString (Serialize tx)); maxFee (rc_chain c)]).

Definition GetBlockCount (c : RpcClient) : res Z := rpc_res (rpc_method json_int c "getblockcount" []).

Definition maxConfirm : Z := 9999999.

Definition rpc_ListUnspent (c : RpcClient) (minConfirm : Z) : res (list Unspent) :=
  rpc_res (rpc_method json_unspent c "listunspent" [ArgInt minConfirm; ArgInt maxConfirm; ArgNull]).

Definition GetWalletInfo (c : RpcClient) : res unit :=
  rpc_res (rpc_method json_walletInfo c "getwalletinfo" []).

(** The outpoints as the wallet names them. *)
Definition outpoint_key (op : OutPoint) : string * Z := (Hash_String (op_Hash op), op_Index op).

(** No result is read. *)
Definition LockUnspent (c : RpcClient) (unlock : bool) (ops : list OutPoint) : res unit :=
  rpc_res (rpc_method (λ _, Some tt) c "lockunspent" [ArgBool unlock; ArgOutpoints (outpoint_key <$> ops)]).

(** ** utxo/client *)

Definition errTxNotFound : string := "No such mempool or blockchain transaction".

(** The node of [UtxoDeposit], answering through its RPC client. *)
Definition rpc_node (c : RpcClient) : UtxoNode := {|
  un_getRawTransaction := λ txHash,
    match GetRawTransactionVerbose c txHash with
    | inl tx => QOk tx
    | inr e => if str_contains (rpc_error_text e) errTxNotFound then QNotFound
               else QFailed (rpc_error_text e)
    end;
  un_getBlockHeight := GetBlockVerbose c |}.

(** The client of [UtxoWithdrawal], with the wallet and the node. *)
Definition rpc_client (node wallet : RpcClient) (confirmations : Z) : UtxoClient := {|
  uc_ListUnspent := rpc_ListUnspent wallet confirmations;
  uc_EstimateFee := EstimateFee node |}.

Definition UnspentCount (client : UtxoClient) : res Z :=
  unspent ← wrap (uc_ListUnspent client) "failed to get available UTXOs";
  Ok (Z.of_nat (length unspent)).

Definition LockOutputs (wallet : RpcClient) (tx : MsgTx) : res unit :=
  LockUnspent wallet false (lockedOutputs tx).

Definition utxo_HealthCheck (node wallet : RpcClient) : res unit :=
  _ ← wrap (GetBlockCount node) "failed to check node health";
  _ ← wrap (GetWalletInfo wallet) "failed to check wallet health";
  Ok tt.

End rpc.

(** ** utxo/helper/factory *)

Inductive Net := MainNet | TestNet3 | TestNet4.

(** The scripts and addresses under the parameters of a network; [None] are nil parameters. *)
Class ChainParams `{SigLib} := {
  btc_scripts : option Net → ScriptLib;
  bch_scripts : option Net → ScriptLib }.

Definition network_params (network : string) : option Net :=
  if bool_decide (network = NetworkMainnet) then Some MainNet
  else if bool_decide (network = NetworkTestnet3) then Some TestNet3
  else if bool_decide (network = NetworkTestnet4) then Some TestNet4
  else None.

Section factory.
Context `{SigLib, WireLib, GoSort, Btc.BtcLib, Bch.BchLib, !ChainParams}.

Definition NewUtxoHelper (chainType network : string) : res UtxoHelper :=
  if bool_decide (chainType = ChainBtc) then
    match network_params network with
    | Some TestNet4 => Panic
    | params => Ok (@Btc.helper _ (btc_scripts params) _ _ _)
    end
  else if bool_decide (chainType = ChainBch) then
    Ok (@Bch.helper _ (bch_scripts (network_params network)) _ _ _)
  else Panic.

End factory.

(** ** The configuration of the chains *)

(** An entry of the list of chains: its parts are decoded later. *)
Record RawChain (Raw : Type) := {
  rw_Id : string; rw_Type : ChainType; rw_Confirmations : Z;
  rw_Rpc : Raw; rw_BridgeAddresses : Raw; rw_Meta : Raw }.
Arguments rw_Id {_} _.
Arguments rw_Type {_} _.
Arguments rw_Confirmations {_} _.
Arguments rw_Rpc {_} _.
Arguments rw_BridgeAddresses {_} _.
Arguments rw_Meta {_} _.

(** A host with its user and password. *)
Record Endpoint := { ep_host : string; ep_user : string; ep_pass : string }.

(** figure's decoders with the hooks of the chains: the connections they open, or an error. *)
Class Figure `{Ton.TonCells, SolanaGo} (Raw : Type) := {
  fig_utxo_meta : Raw → option (string * string);
  fig_utxo_rpc : Raw → option (Endpoint * Endpoint);
  fig_strings : Raw → option (list string);
  fig_evm_rpc : Raw → option Evm.EvmNode;
  fig_evm_address : Raw → option string;
  fig_zano_rpc : Raw → option Zano.ZanoNode;
  fig_ton_rpc : Raw → option (bool * Ton.TonNode);
  fig_ton_address : Raw → option string;
  fig_solana_meta : Raw → option string;
  fig_solana_key : Raw → option PublicKey;
  fig_solana_rpc : Raw → option SolanaNode }.

(** [if err := figure...Please(); err != nil { panic(err) }] *)
Definition must {A} (o : option A) : res A := match o with Some a => Ok a | None => Panic end.

Definition must_ok {A} (r : res A) : res A := match r with Ok a => Ok a | _ => Panic end.

Section config.
Context `{AddressLib, SolanaLib, Evm.EvmAbi, Zano.ZanoJson, Ton.TonCells, SolanaGo}.
Context `{EncodingLib, sigLib : SigLib, wire : WireLib, !GoSort, Btc.BtcLib, Bch.BchLib, !ChainParams}.
Context `{!UtxoTransport} {Raw : Type} `{!Figure Raw}.
Implicit Types (c : RawChain Raw).

(** [clientHook]: a client for an endpoint. *)
Definition clientHook (chain : string) (e : Endpoint) : res RpcClient :=
  wrap (NewRpcClient (ep_host e) (ep_user e) (ep_pass e) chain) "failed to create bitcoin rpc client".

Definition utxo_FromChain c : res Chain :=
  if negb (bool_decide (rw_Type c = TypeBitcoin)) then Panic
  else
    meta ← must (fig_utxo_meta (rw_Meta c));
    rpcs ← must (fig_utxo_rpc (rw_Rpc c));
    wallet ← must_ok (clientHook (snd meta) (fst rpcs));
    node ← must_ok (clientHook (snd meta) (snd rpcs));
    receivers ← must (fig_strings (rw_BridgeAddresses c));
    hlp ← NewUtxoHelper (snd meta) (fst meta);
    if negb (forallb (AddressValid (UtxoHelper:=hlp)) receivers) then Panic
    else
      match GetWalletInfo wallet with
      | Ok _ => Ok (UtxoChain (rw_Id c) hlp (rpc_node node) receivers (rw_Confirmations c))
      | _ => Panic
      end.

Definition evm_FromChain c : res Chain :=
  if negb (bool_decide (rw_Type c = TypeEVM)) then Panic
  else
    node ← must (fig_evm_rpc (rw_Rpc c));
    address ← must (fig_evm_address (rw_BridgeAddresses c));
    Ok (EvmChain (rw_Id c) node
          {| Evm.ch_BridgeAddress := address; Evm.ch_Confirmations := rw_Confirmations c |}).

(** The receivers are decoded and not used by the client. *)
Definition zano_FromChain c : res Chain :=
  if negb (bool_decide (rw_Type c = TypeZano)) then Panic
  else
    _ ← must (fig_strings (rw_BridgeAddresses c));
    node ← must (fig_zano_rpc (rw_Rpc c));
    Ok (ZanoChain (rw_Id c) node (rw_Confirmations c)).

Definition ton_FromChain c : res Chain :=
  if negb (bool_decide (rw_Type c = TypeTON)) then Panic
  else
    _ ← must (fig_ton_address (rw_BridgeAddresses c));
    rpc ← must (fig_ton_rpc (rw_Rpc c));
    Ok (TonChain (rw_Id c) (snd rpc) (fst rpc)).

Definition solana_FromChain c : res Chain :=
  if negb (bool_decide (rw_Type c = TypeSolana)) then Panic
  else
    bridgeId ← must (fig_solana_meta (rw_Meta c));
    node ← must (fig_solana_rpc (rw_Rpc c));
    bridgeAddress ← must (fig_solana_key (rw_BridgeAddresses c));
    Ok (SolanaChain (rw_Id c) node bridgeAddress bridgeId).

(** The switch of [chainer.Clients]. *)
Definition FromChain c : res Chain :=
  match rw_Type c with
  | TypeZano => zano_FromChain c
  | TypeEVM => evm_FromChain c
  | TypeBitcoin => utxo_FromChain c
  | TypeTON => ton_FromChain c
  | TypeSolana => solana_FromChain c
  | TypeOther => Panic
  end.

(** [chainer.Chains]: [None] when the list cannot be decoded. *)
Definition Chains (cfg : option (list (RawChain Raw))) : res (list (RawChain Raw)) :=
  match cfg with
  | None | Some [] => Panic
  | Some chains => Ok chains
  end.

Fixpoint fromChains (chains : list (RawChain Raw)) : res (list Chain) :=
  match chains with
  | [] => Ok []
  | c :: rest => ch ← FromChain c; chs ← fromChains rest; Ok (ch :: chs)
  end.

Definition configured_clients (ProgramID : PublicKey) (cfg : option (list (RawChain Raw)))
    : res (list Client) :=
  raws ← Chains cfg;
  chains ← fromChains raws;
  Clients ProgramID chains.

End config.

(** ** Theorems *)

Section rpc_theorems.
Context `{WireLib, !UtxoTransport}.

Lemma after_colon_app p rest :
  str_elem ":" p = false → after_colon (p +:+ ": " +:+ rest)%string = Some rest.
Proof.
  induction p as [|a p IH]; intros Hp; [done|]. simpl in Hp. apply orb_false_iff in Hp as [Ha Hp].
  specialize (IH Hp).
  change (match (p +:+ ": " +:+ rest)%string with
          | String b r => if (a =? ":")%char && (b =? " ")%char then Some r
                          else after_colon (p +:+ ": " +:+ rest)%string
          | EmptyString => None end = Some rest).
  destruct (p +:+ ": " +:+ rest)%string as [|b r] eqn:E; [by destruct p|]. by rewrite Ha.
Qed.

Lemma extract_RPCError code message :
  json_error message = None → extractRpcError (RPCError code message) = RPCError code message.
Proof.
  intros Hj. unfold extractRpcError. cbn [rpc_error_text].
  rewrite after_colon_app by (apply print_Z_no; set_solver). by rewrite Hj.
Qed.

Lemma rpc_method_error {R} (decode : Json → option R) c method args status body code message :
  str_elem ":" status = false → json_error body = Some (code, message) → json_error message = None →
  rpc_post c method args = inr (status +:+ ": " +:+ body)%string →
  rpc_method decode c method args = inr (RPCError code message).
Proof.
  intros Hs Hb Hm Hp. unfold rpc_method, rpc_Call. rewrite Hp. do 2 f_equal.
  unfold extractRpcError at 2. cbn [rpc_error_text]. rewrite after_colon_app by done. rewrite Hb.
  by apply extract_RPCError.
Qed.

(** The error a node reports reaches the caller: an HTTP error with a JSON body becomes
    the RPC error with its code and its message, and extracting it a second time, which every
    method does, keeps it, unless the message itself reads as a JSON error. *)
Theorem node_error_reaches_caller {R} (decode : Json → option R) c method args status body code message :
  str_elem ":" status = false → json_error body = Some (code, message) → json_error message = None →
  rpc_post c method args = inr (status +:+ ": " +:+ body)%string →
  rpc_method decode c method args = inr (RPCError code message).
Proof. apply rpc_method_error. Qed.

(** A message that is the JSON null is lost: the caller sees code 0 and no text. *)
Lemma json_message_lost {R} (decode : Json → option R) c method args status body code :
  str_elem ":" status = false → json_error body = Some (code, "null"%string) →
  json_error "null" = Some (0, ""%string) →
  rpc_post c method args = inr (status +:+ ": " +:+ body)%string →
  rpc_method decode c method args = inr (RPCError 0 "").
Proof.
  intros Hs Hb Hn Hp. unfold rpc_method, rpc_Call. rewrite Hp.
  unfold extractRpcError at 2. cbn [rpc_error_text]. rewrite after_colon_app by done. rewrite Hb.
  unfold extractRpcError. cbn [rpc_error_text].
  rewrite after_colon_app by (apply print_Z_no; set_solver). by rewrite Hn.
Qed.

(** The rate a transaction is built with is within the limits on every answer of the node. *)
Lemma fee_rate_bounded c : FeeRateValid (EstimateFeeOrDefault (EstimateFee c)) = true.
Proof.
  unfold FeeRateValid, EstimateFeeOrDefault, MaxFeeRateBtcPerKvb.
  destruct (EstimateFee c) as [fee| |]; [|done..].
  destruct (Z.ltb_spec fee DefaultFeeRateBtcPerKvb); [done|]. destruct (Z.ltb_spec 5000 fee); [done|].
  destruct (Z.ltb_spec fee DefaultFeeRateBtcPerKvb); [lia|]. by destruct (Z.ltb_spec 5000 fee); [lia|].
Qed.

End rpc_theorems.

Section deposit_theorems.
Context `{EncodingLib, SigLib, WireLib, !UtxoHelper, !UtxoTransport}.

Lemma unknown_transaction_query c hash status body code message :
  str_elem ":" status = false → json_error body = Some (code, message) → json_error message = None →
  str_contains message errTxNotFound = true →
  rpc_post c "getrawtransaction" [ArgString hash; ArgBool true] = inr (status +:+ ": " +:+ body)%string →
  un_getRawTransaction (rpc_node c) hash = QNotFound.
Proof.
  intros Hs Hb Hm Hc Hp. unfold rpc_node, GetRawTransactionVerbose. cbn [un_getRawTransaction].
  rewrite (rpc_method_error json_tx _ _ _ _ _ _ _ Hs Hb Hm Hp). cbn [rpc_error_text].
  by rewrite (str_contains_app_l _ _ _ (str_contains_app_l ": " _ _ Hc)).
Qed.

(** A deposit that the node does not know is refused as invalid and not retried: when the
    node answers the query of the transaction with an error that says that there is no such
    transaction, the chain client returns an error of the invalid class. *)
Theorem unknown_transaction_invalid c receivers confirmations id status body code message :
  str_elem ":" status = false → json_error body = Some (code, message) → json_error message = None →
  str_contains message errTxNotFound = true →
  rpc_post c "getrawtransaction" [ArgString (trim_prefix (TxHash id) "0x"); ArgBool true] =
    inr (status +:+ ": " +:+ body)%string →
  ∃ e, utxo_GetDepositData (rpc_node c) receivers confirmations id = Err e ∧
       ChainErrors.IsInvalidDepositError e = true ∧ ChainErrors.IsPendingDepositError e = false.
Proof.
  intros Hs Hb Hm Hc Hp. unfold utxo_GetDepositData, UtxoDeposit.GetTransaction.
  rewrite (unknown_transaction_query _ _ _ _ _ _ Hs Hb Hm Hc Hp). by eexists.
Qed.

End deposit_theorems.

Section config_theorems.
Context `{AddressLib, SolanaLib, Evm.EvmAbi, Zano.ZanoJson, Ton.TonCells, SolanaGo}.
Context `{EncodingLib, sigLib : SigLib, wire : WireLib, !GoSort, Btc.BtcLib, Bch.BchLib, !ChainParams}.
Context `{!UtxoTransport} {Raw : Type} `{!Figure Raw}.
Implicit Types (c : RawChain Raw).

Lemma must_Ok {A} (m : option A) a : must m = Ok a → m = Some a.
Proof. destruct m; naive_solver. Qed.

(** What an entry becomes: a chain with its identifier and of its type, and on a UTXO chain
    receivers that are valid addresses. *)
Definition built_from c (ch : Chain) : Prop :=
  chain_Id ch = rw_Id c ∧
  match ch with
  | EvmChain _ _ chain => rw_Type c = TypeEVM ∧ Evm.ch_Confirmations chain = rw_Confirmations c
  | ZanoChain _ _ confirmations => rw_Type c = TypeZano ∧ confirmations = rw_Confirmations c
  | UtxoChain _ helper _ receivers confirmations =>
      rw_Type c = TypeBitcoin ∧ confirmations = rw_Confirmations c ∧
      fig_strings (rw_BridgeAddresses c) = Some receivers ∧
      Forall (λ a, AddressValid (UtxoHelper:=helper) a = true) receivers
  | TonChain _ _ _ => rw_Type c = TypeTON
  | SolanaChain _ _ bridgeAddress _ =>
      rw_Type c = TypeSolana ∧ fig_solana_key (rw_BridgeAddresses c) = Some bridgeAddress
  | OtherChain _ => False
  end.

Lemma FromChain_built c ch : FromChain c = Ok ch → built_from c ch.
Proof.
  unfold FromChain. destruct (rw_Type c) eqn:Et; intros Hok; [..|done].
  - unfold evm_FromChain in Hok. rewrite bool_decide_true in Hok by done. cbn [negb] in Hok. inv_ok. done.
  - unfold zano_FromChain in Hok. rewrite bool_decide_true in Hok by done. cbn [negb] in Hok. inv_ok. done.
  - unfold utxo_FromChain in Hok. rewrite bool_decide_true in Hok by done. cbn [negb] in Hok.
    apply bind_Ok in Hok as (meta & _ & Hok). apply bind_Ok in Hok as (rpcs & _ & Hok).
    apply bind_Ok in Hok as (wallet & _ & Hok). apply bind_Ok in Hok as (node & _ & Hok).
    apply bind_Ok in Hok as (receivers & Hr & Hok). apply bind_Ok in Hok as (hlp & _ & Hok).
    destruct (forallb _ receivers) eqn:Hall; [|done]. cbn [negb] in Hok.
    destruct (GetWalletInfo _); [|done..]. apply (inj Ok) in Hok as <-.
    apply must_Ok in Hr. split; [done|]. split_and!; try done.
    apply Forall_forall. intros x Hx. apply forallb_forall with (x := x) in Hall; [done|]. by apply list_elem_of_In.
  - unfold ton_FromChain in Hok. rewrite bool_decide_true in Hok by done. cbn [negb] in Hok. inv_ok. done.
  - unfold solana_FromChain in Hok. rewrite bool_decide_true in Hok by done. cbn [negb] in Hok.
    apply bind_Ok in Hok as (bid & _ & Hok). apply bind_Ok in Hok as (node & _ & Hok).
    apply bind_Ok in Hok as (key & Hk & Hok). apply (inj Ok) in Hok as <-. apply must_Ok in Hk. by split.
Qed.

Lemma fromChains_built raws chains : fromChains raws = Ok chains → Forall2 built_from raws chains.
Proof.
  revert chains. induction raws as [|c raws IH]; intros chains Hok; simpl in Hok.
  - apply (inj Ok) in Hok as <-. constructor.
  - apply bind_Ok in Hok as (ch & Hch & Hok). apply bind_Ok in Hok as (chs & Hchs & Hok).
    apply (inj Ok) in Hok as <-. constructor; [by apply FromChain_built|by apply IH].
Qed.

Lemma clientsOf_types programID chains cls :
  clientsOf programID chains = Ok cls → Forall2 (λ ch cl, clientOf programID ch = Ok cl) chains cls.
Proof.
  revert cls. induction chains as [|c chains IH]; intros cls Hok; simpl in Hok.
  - apply (inj Ok) in Hok as <-. constructor.
  - apply bind_Ok in Hok as (cl & Hcl & Hok). apply bind_Ok in Hok as (rest & Hrest & Hok).
    apply (inj Ok) in Hok as <-. constructor; [done|by apply IH].
Qed.

(** The clients are those of the configuration: a node starts only with a non-empty list
    of chains, and then has exactly one client per entry, in the order of the entries, with the
    identifier and the type of its entry; a UTXO chain's receivers are valid addresses of the
    chain. *)
Theorem configured_clients_match ProgramID cfg cls :
  configured_clients ProgramID cfg = Ok cls →
  ∃ raws chains, cfg = Some raws ∧ raws ≠ [] ∧ Forall2 built_from raws chains ∧
    Forall2 (λ c cl, cl_ChainId cl = rw_Id c ∧ cl_Type cl = rw_Type c) raws cls.
Proof.
  unfold configured_clients. intros Hok. apply bind_Ok in Hok as (raws & Hraws & Hok).
  apply bind_Ok in Hok as (chains & Hchains & Hok). exists raws, chains.
  assert (cfg = Some raws ∧ raws ≠ []) as [-> Hne]
    by (destruct cfg as [[|]|]; try done; by apply (inj Ok) in Hraws as <-).
  apply fromChains_built in Hchains. apply clientsOf_types in Hok. split_and!; try done.
  clear -Hchains Hok. revert Hok. generalize (foldl SetProgramID ProgramID chains) as pid. intros pid. revert cls.
  induction Hchains as [|c ch raws chains Hb _ IH]; intros cls Hok.
  { by inversion Hok. }
  apply Forall2_cons_inv_l in Hok as (cl & cls' & Hcl & Hok' & ->). constructor; [|by apply IH].
  destruct Hb as [Hid Hty]. rewrite (clientOf_id _ _ _ Hcl).
  split; [done|]. destruct ch; simpl in Hcl, Hty; inv_ok; done.
Qed.

(** Every validated pair has a helper, but for the fourth test network of Bitcoin. *)
Lemma NewUtxoHelper_total chain network :
  chain_Validate chain = None → network_Validate network = None →
  (∃ h, NewUtxoHelper chain network = Ok h) ∨
  (chain = ChainBtc ∧ network = NetworkTestnet4 ∧ NewUtxoHelper chain network = Panic).
Proof.
  unfold chain_Validate, network_Validate, NewUtxoHelper, network_params.
  destruct (bool_decide_reflect (chain = ChainBtc)) as [->|]; simpl.
  - intros _. repeat case_bool_decide; simpl; try done; subst; (left; by eexists) || by right.
  - destruct (bool_decide (chain = ChainBch)); [|done]. left. by eexists.
Qed.

End config_theorems.

(** ** Witnesses *)

Section witnesses.
Import SampleFetcher SampleWithdrawal SampleUtxo.
#[local] Existing Instances Clients.w_addresses Clients.w_abi ChainDeposits.sample_json
  ChainDeposits.sample_cells SolanaContract.sample_solana UtxoDeposit.sample_encoding.

(** A node that knows its wallet and no transactions. *)
#[local] Instance w_transport : UtxoTransport := {|
  Json := unit; rpc_dial := λ _, true;
  rpc_post := λ _ method _,
    if bool_decide (method = "getwalletinfo"%string) then inl tt
    else inr ("500 Internal Server Error: " +:+ "{}")%string;
  json_error := λ s, if bool_decide (s = "{}"%string) then Some (-5, errTxNotFound) else None;
  json_float := λ _, None; json_smartFee := λ _, None; json_string := λ _, None; json_int := λ _, None;
  json_tx := λ _, None; json_blockHeight := λ _, None; json_unspent := λ _, None;
  json_walletInfo := λ _, Some tt |}.

Definition w_rpc : RpcClient :=
  {| rc_host := "http://127.0.0.1:18332"; rc_user := "user"; rc_password := "pass"; rc_chain := ChainBtc |}.

Lemma node_error_reaches_caller_witness :
  rpc_method json_tx w_rpc "getrawtransaction" [ArgString "ab"; ArgBool true]
    = inr (RPCError (-5) errTxNotFound).
Proof. by apply (node_error_reaches_caller json_tx w_rpc _ _ "500 Internal Server Error" "{}"). Defined.

Lemma unknown_transaction_invalid_witness : ∃ e,
  utxo_GetDepositData (rpc_node w_rpc) ["tss"%string] 6 {| TxHash := "0xab"; TxNonce := 0; ChainId := "0" |} = Err e ∧
  ChainErrors.IsInvalidDepositError e = true ∧ ChainErrors.IsPendingDepositError e = false.
Proof.
  by apply (unknown_transaction_invalid w_rpc ["tss"%string] 6 {| TxHash := "0xab"; TxNonce := 0; ChainId := "0" |}
    "500 Internal Server Error" "{}" (-5) errTxNotFound).
Defined.

#[local] Instance w_bch : Bch.BchLib := {|
  Bch.CalcSignatureHash := λ script _ _ _, Some script; Bch.EstimateSerializeSize := λ _ _, 500;
  Bch.FeeForSerializeSize := λ _ size, size; Bch.BchMsgTx_TxHash := λ _, "hash"%string;
  Bch.author := λ _ _ _, Done (Err (ENew "insufficient funds")) |}.
#[local] Instance w_params : ChainParams := {| btc_scripts := λ _, scripts; bch_scripts := λ _, scripts |}.

(** The parts of an entry are words. *)
#[local] Instance w_figure : Figure string := {|
  fig_utxo_meta := λ s, Some (s, ChainBtc);
  fig_utxo_rpc := λ s, Some ({| ep_host := s; ep_user := "u"; ep_pass := "p" |},
                             {| ep_host := s; ep_user := "u"; ep_pass := "p" |});
  fig_strings := λ s, Some [s];
  fig_evm_rpc := λ _, Some ChainDeposits.sample_evm; fig_evm_address := Some;
  fig_zano_rpc := λ _, Some (ChainDeposits.sample_zano 20);
  fig_ton_rpc := λ _, None; fig_ton_address := λ _, None;
  fig_solana_meta := λ _, None; fig_solana_key := λ _, None; fig_solana_rpc := λ _, None |}.

Definition w_entry (id : string) (type : ChainType) (meta : string) : RawChain string :=
  {| rw_Id := id; rw_Type := type; rw_Confirmations := 6; rw_Rpc := "localhost:1";
     rw_BridgeAddresses := "bridge"; rw_Meta := meta |}.
Definition w_entries : list (RawChain string) :=
  [w_entry "1" TypeEVM ""; w_entry "0" TypeBitcoin NetworkTestnet3; w_entry "2" TypeZano ""].

Lemma w_entries_ok :
  match configured_clients Clients.w_program (Some w_entries) with Ok _ => true | _ => false end = true.
Proof. vm_compute. reflexivity. Qed.

Lemma configured_clients_match_witness : ∃ cls,
  configured_clients Clients.w_program (Some w_entries) = Ok cls ∧
  Forall2 (λ c cl, cl_ChainId cl = rw_Id c ∧ cl_Type cl = rw_Type c) w_entries cls.
Proof.
  destruct (configured_clients Clients.w_program (Some w_entries)) as [cls| |] eqn:E;
    [|pose proof w_entries_ok as Hw; rewrite E in Hw; discriminate..].
  exists cls. split; [done|].
  destruct (configured_clients_match Clients.w_program (Some w_entries) cls E)
    as (raws & chains & Hcfg & _ & _ & Hall). injection Hcfg as ->. exact Hall.
Defined.

End witnesses.
