(* ===== verification/ApiServer.v ===== *)
(** * The API server

    Models the servers of [internal/api/server.go] with what they are made of: the values in
    the context of a request ([internal/api/ctx/ctx.go]), the gRPC interceptors
    ([internal/api/middlewares/grpc_interceptors.go]), the gateway from HTTP to the gRPC
    handlers ([internal/api/types/api_server.pb.gw.go]), the routes, the web socket with its
    goroutines ([internal/api/http/api_ws.go], [middlewares/hijacked_conn_closer.go]) and the
    start of the server ([cmd/service/run/api.go]).

    The decoding of a body and of a number in a path are parameters. *)

From S2P Require Import Prelude Core Deposits Fetcher Withdrawal Mechanism Intake Service.
#[local] Open Scope Z_scope.

(** ** api/ctx *)

Inductive ctxKey := dbKey | loggerKey | clientsKey | processorKey | coreConnectorKey | healthCheckerKey.
#[export] Instance ctxKey_eq_dec : EqDecision ctxKey.
Proof. solve_decision. Defined.

(** [deposit.Fetcher]: its clients and its core. *)
Record FetcherOf := { ft_clients : Repository; ft_core : BridgeCore }.

(** [health.Checker]: the results of the checks, in the order in which they are reported. *)
Definition CheckerOf : Type := list (string * option string).

Inductive CtxValue :=
| VDB | VLogger | VClients (r : Repository) | VFetcher (f : FetcherOf) | VCore (c : BridgeCore)
| VHealth (h : CheckerOf).

(** [context.WithValue]: the newest value first. *)
Definition Ctx : Type := list (ctxKey * CtxValue).
Definition Extender : Type := Ctx → Ctx.

Fixpoint Value (k : ctxKey) (c : Ctx) : option CtxValue :=
  match c with
  | [] => None
  | (k', v) :: c' => if bool_decide (k = k') then Some v else Value k c'
  end.

Definition DBProvider : Extender := λ c, (dbKey, VDB) :: c.
Definition LoggerProvider : Extender := λ c, (loggerKey, VLogger) :: c.
Definition ClientsProvider (cr : Repository) : Extender := λ c, (clientsKey, VClients cr) :: c.
Definition FetcherProvider (f : FetcherOf) : Extender := λ c, (processorKey, VFetcher f) :: c.
Definition CoreConnectorProvider (x : BridgeCore) : Extender := λ c, (coreConnectorKey, VCore x) :: c.
Definition HealthCheckerProvider (h : CheckerOf) : Extender := λ c, (healthCheckerKey, VHealth h) :: c.

(** The type assertions panic on a value that is absent. *)
Definition ctx_DB (c : Ctx) : res unit := match Value dbKey c with Some VDB => Ok tt | _ => Panic end.
Definition ctx_Logger (c : Ctx) : res unit :=
  match Value loggerKey c with Some VLogger => Ok tt | _ => Panic end.
Definition ctx_Clients (c : Ctx) : res Repository :=
  match Value clientsKey c with Some (VClients r) => Ok r | _ => Panic end.
Definition ctx_Fetcher (c : Ctx) : res FetcherOf :=
  match Value processorKey c with Some (VFetcher f) => Ok f | _ => Panic end.
Definition ctx_CoreConnector (c : Ctx) : res BridgeCore :=
  match Value coreConnectorKey c with Some (VCore x) => Ok x | _ => Panic end.
Definition ctx_HealthChecker (c : Ctx) : res CheckerOf :=
  match Value healthCheckerKey c with Some (VHealth h) => Ok h | _ => Panic end.

(** ** The handlers, with the values of their context *)

(** What the server writes to its log. *)
Inductive LogEntry := LogStarted (m : string) | LogFinished (m : string) (status : option Code)
                    | LogPanicked (m : string).

Section server.
Context {St : Type} `{!DepositsQ St}.

(** The database and the log. *)
Record World := { w_db : St; w_log : list LogEntry }.
Definition log (e : LogEntry) (w : World) : World := {| w_db := w_db w; w_log := w_log w ++ [e] |}.
Definition with_db (s : St) (w : World) : World := {| w_db := s; w_log := w_log w |}.

Definition Handler (A : Type) : Type := Ctx → World → World * Reply A.
Definition Interceptor : Type := ∀ A, Handler A → Handler A.

Definition handled {A B} (r : res A) (k : A → World → World * Reply B) (w : World) : World * Reply B :=
  match r with Ok a => k a w | Err _ => (w, RStatus Internal "internal error") | Panic => (w, RPanic) end.

(** The submission after the values of the context are read. *)
Definition submit_with (clients : Repository) (fetcher : FetcherOf) (core : BridgeCore)
    (i : MsgDepositIdentifier) (s : St) : St * Reply unit :=
  match GetDepositInfo (H:=core) i with
  | Panic => (s, RPanic)
  | Err _ => (s, RStatus Internal "internal error")
  | Ok (Some _) => (s, RStatus AlreadyExists "deposit already exists")
  | Ok None =>
      let id := ToDbIdentifier i in
      match q_Get id s with
      | Some _ => (s, RStatus AlreadyExists "deposit already exists")
      | None =>
          match FetchDeposit (H:=ft_core fetcher) (ft_clients fetcher) id with
          | Panic => (s, RPanic)
          | Err e =>
              if ChainErrors.IsPendingDepositError e
              then (s, RStatus FailedPrecondition "deposit pending")
              else if ChainErrors.IsInvalidDepositError e || CoreErrors.IsInvalidDepositError e
              then (fst (q_Insert (invalid_deposit id) s), RStatus InvalidArgument "invalid deposit")
              else (s, RStatus Internal "internal error")
          | Ok deposit =>
              match q_Insert deposit s with
              | (s', Ok _) => (s', ROk tt)
              | (s', Err e) =>
                  (s', if errors_Is e ErrAlreadySubmitted
                       then RStatus AlreadyExists "transaction already submitted"
                       else RStatus Internal "internal error")
              | (s', Panic) => (s', RPanic)
              end
          end
      end
  end.

Definition api_SubmitWithdrawal (identifier : option MsgDepositIdentifier) : Handler unit := λ c w,
  match ValidateIdentifier identifier with
  | Ok _ =>
      handled (ctx_Clients c) (λ clients,
      handled (ctx_DB c) (λ _,
      handled (ctx_Logger c) (λ _,
      handled (ctx_Fetcher c) (λ fetcher,
      handled (ctx_CoreConnector c) (λ core w,
        match validated clients identifier with
        | ROk i => let '(s, r) := submit_with clients fetcher core i (w_db w) in (with_db s w, r)
        | RStatus code m => (w, RStatus code m)
        | RPanic => (w, RPanic)
        end))))) w
  | _ => (w, RStatus InvalidArgument "invalid identifier")
  end.

Definition api_CheckWithdrawal (identifier : option MsgDepositIdentifier) : Handler CheckWithdrawalResponse := λ c w,
  match ValidateIdentifier identifier with
  | Ok _ =>
      handled (ctx_DB c) (λ _,
      handled (ctx_Logger c) (λ _,
      handled (ctx_Clients c) (λ clients w, (w, CheckWithdrawal clients identifier (w_db w))))) w
  | _ => (w, RStatus InvalidArgument "invalid identifier")
  end.

(** ** api/middlewares *)

Definition ContextExtenderInterceptor (extenders : list Extender) : Interceptor := λ _ handler c w,
  handler (foldl (λ c extend, extend c) c extenders) w.

(** [status.Code(err)]; a panic of the handler passes by. *)
Definition LoggerInterceptor (method : string) : Interceptor := λ _ handler c w,
  let '(w', r) := handler c (log (LogStarted method) w) in
  match r with
  | ROk _ => (log (LogFinished method None) w', r)
  | RStatus code _ => (log (LogFinished method (Some code)) w', r)
  | RPanic => (w', r)
  end.

Definition RecoveryInterceptor (method : string) : Interceptor := λ _ handler c w,
  let '(w', r) := handler c w in
  match r with
  | RPanic => (log (LogPanicked method) w', RStatus Internal "internal server error")
  | _ => (w', r)
  end.

(** [grpc.ChainUnaryInterceptor]: the first one is the outermost. *)
Definition ChainUnaryInterceptor (l : list Interceptor) : Interceptor :=
  λ A handler, foldr (λ i h, i A h) handler l.

(** The P2P server has an interceptor of its own, which does the same, and no other one. *)
Definition p2p_RecoveryInterceptor : string → Interceptor := RecoveryInterceptor.
Definition p2p_call {A} (method : string) (handler : Handler A) (w : World) : World * Reply A :=
  ChainUnaryInterceptor [p2p_RecoveryInterceptor method] A handler [] w.

(** ** server.go *)

Record Server := { srv_clients : Repository; srv_processor : FetcherOf; srv_connector : BridgeCore }.

Definition grpcInterceptors (s : Server) (method : string) : list Interceptor :=
  [ContextExtenderInterceptor [LoggerProvider; DBProvider; ClientsProvider (srv_clients s);
     FetcherProvider (srv_processor s); CoreConnectorProvider (srv_connector s)];
   LoggerInterceptor method; RecoveryInterceptor method].

Definition SubmitMethod : string := "/api.API/SubmitWithdrawal".
Definition CheckMethod : string := "/api.API/CheckWithdrawal".

(** A call of the gRPC server, which starts from an empty context. *)
Definition grpc_call {A} (s : Server) (method : string) (handler : Handler A) (w : World) : World * Reply A :=
  ChainUnaryInterceptor (grpcInterceptors s method) A handler [] w.

Definition grpc_Submit (s : Server) (i : option MsgDepositIdentifier) : World → World * Reply unit :=
  grpc_call s SubmitMethod (api_SubmitWithdrawal i).
Definition grpc_Check (s : Server) (i : option MsgDepositIdentifier) :
    World → World * Reply CheckWithdrawalResponse :=
  grpc_call s CheckMethod (api_CheckWithdrawal i).

End server.
Arguments World : clear implicits.
Arguments Handler : clear implicits.
Arguments Interceptor : clear implicits.

(** ** The gateway *)

(** [Decode] of the body: a message, no body ([io.EOF]), or an error. *)
Inductive BodyResult := Decoded (i : MsgDepositIdentifier) | BodyEOF | BodyError (text : string).

Class GatewayLib := {
  DecodeBody : string → BodyResult;
  (** [runtime.Int64] *)
  runtime_Int64 : string → option Z }.

(** What a client sees over HTTP: the handlers' replies, an error of the gateway's with its
    gRPC code, a problem, or the 404 of a path that is not routed. *)
Inductive Problem := BadRequest | InternalError | ProblemNotFound.
Inductive HttpResponse :=
| RespSubmitted | RespChecked (r : CheckWithdrawalResponse) | RespError (code : Code) (msg : string)
| RespProblem (p : Problem) | RespUpgraded (d : Deposit) | RespHealth (available : bool) (r : Service.Response)
| RespStatic | RespNoRoute | RespPanic.

Inductive Method := GET | POST | OtherMethod.
#[export] Instance Method_eq_dec : EqDecision Method.
Proof. solve_decision. Defined.

Record HttpRequest := {
  hr_method : Method; hr_path : list string; hr_body : string;
  (** [upgrader.Upgrade] *)
  hr_upgrade : bool }.

Section http.
Context {St : Type} `{!DepositsQ St, !GatewayLib}.

Definition zero_identifier : MsgDepositIdentifier := {| md_TxHash := ""; md_TxNonce := 0; md_ChainId := "" |}.

Definition local_request_API_SubmitWithdrawal_0 (body : string) : Handler St unit := λ c w,
  match DecodeBody body with
  | BodyError text => (w, RStatus InvalidArgument text)
  | Decoded i => api_SubmitWithdrawal (Some i) c w
  | BodyEOF => api_SubmitWithdrawal (Some zero_identifier) c w
  end.

(** [runtime.String] returns its argument. *)
Definition local_request_API_CheckWithdrawal_0 (pathParams : gmap string string) :
    Handler St CheckWithdrawalResponse := λ c w,
  match pathParams !! "chain_id"%string with
  | None => (w, RStatus InvalidArgument "missing parameter chain_id")
  | Some chainId =>
      match pathParams !! "tx_hash"%string with
      | None => (w, RStatus InvalidArgument "missing parameter tx_hash")
      | Some txHash =>
          match pathParams !! "tx_nonce"%string with
          | None => (w, RStatus InvalidArgument "missing parameter tx_nonce")
          | Some val =>
              match runtime_Int64 val with
              | None => (w, RStatus InvalidArgument "type mismatch, parameter: tx_nonce")
              | Some txNonce =>
                  api_CheckWithdrawal
                    (Some {| md_TxHash := txHash; md_TxNonce := txNonce; md_ChainId := chainId |}) c w
              end
          end
      end
  end.

Definition check_params (chainId txHash txNonce : string) : gmap string string :=
  {["chain_id"%string := chainId; "tx_hash"%string := txHash; "tx_nonce"%string := txNonce]}.

(** [runtime.HTTPError] or the forwarded message. *)
Definition forward {A} (ok : A → HttpResponse) (r : World St * Reply A) : World St * HttpResponse :=
  match r with
  | (w, ROk a) => (w, ok a)
  | (w, RStatus code m) => (w, RespError code m)
  | (w, RPanic) => (w, RespPanic)
  end.

(** [RegisterAPIHandlerServer]: the patterns and their handlers. *)
Definition gateway (r : HttpRequest) (c : Ctx) (w : World St) : World St * HttpResponse :=
  match hr_method r, hr_path r with
  | POST, ["submit"%string] =>
      forward (λ _, RespSubmitted) (local_request_API_SubmitWithdrawal_0 (hr_body r) c w)
  | GET, ["check"%string; chainId; txHash; txNonce] =>
      forward RespChecked (local_request_API_CheckWithdrawal_0 (check_params chainId txHash txNonce) c w)
  | _, _ => (w, RespNoRoute)
  end.

(** ** api/http *)

(** [CheckWithdrawalWs] up to the upgrade of the connection. *)
Definition CheckWithdrawalWs (chainId txHash txNonce : string) (upgrade : bool) (c : Ctx) (w : World St)
    : HttpResponse :=
  match ctx_Logger c, ctx_DB c, ctx_Clients c with
  | Ok _, Ok _, Ok clients =>
      match IdentifierFromParams chainId txHash txNonce with
      | Ok identifier =>
          match repo_Client clients (ChainId identifier) with
          | Ok client =>
              match ValidateChainIdentifier (ToMsgDepositIdentifier identifier) client with
              | Ok _ =>
                  match q_Get identifier (w_db w) with
                  | None => RespProblem ProblemNotFound
                  | Some deposit => if upgrade then RespUpgraded deposit else RespProblem BadRequest
                  end
              | _ => RespProblem BadRequest
              end
          | _ => RespProblem BadRequest
          end
      | _ => RespProblem BadRequest
      end
  | _, _, _ => RespPanic
  end.

(** [WriteHeader(503)] unless the response is ok. *)
Definition Health (c : Ctx) : HttpResponse :=
  match ctx_HealthChecker c with
  | Ok h => let response := check h in RespHealth (rs_Ok response) response
  | _ => RespPanic
  end.

(** The routes of [httpRouter]: those that are not mounted at the root come first. *)
Definition routes (r : HttpRequest) (c : Ctx) (w : World St) : World St * HttpResponse :=
  match hr_method r, hr_path r with
  | GET, ["ws"%string; "check"%string; chainId; txHash; txNonce] =>
      (w, CheckWithdrawalWs chainId txHash txNonce (hr_upgrade r) c w)
  | GET, ["private"%string; "health"%string] => (w, Health c)
  | _, ["static"%string; "api_server.swagger.json"%string] => (w, RespStatic)
  | _, ["api"%string] => (w, RespStatic)
  | _, _ => gateway r c w
  end.

(** [ape.RecoverMiddleware] *)
Definition recovered (r : World St * HttpResponse) : World St * HttpResponse :=
  match r with (w, RespPanic) => (w, RespProblem InternalError) | _ => r end.

Definition httpRouter (s : Server) (h : CheckerOf) (r : HttpRequest) (w : World St) : World St * HttpResponse :=
  recovered (routes r (foldl (λ c extend, extend c) []
    [LoggerProvider; DBProvider; ClientsProvider (srv_clients s); FetcherProvider (srv_processor s);
     CoreConnectorProvider (srv_connector s); HealthCheckerProvider h]) w).

End http.

(** ** cmd/service/run/api.go *)

Definition NewConnector (getAccountData : Address → res (Z * Z)) (account : Account bytes)
    (settings : Settings) : res Connector :=
  data ← wrap (getAccountData (CosmosAddress account)) "failed to get account data";
  Ok {| cn_settings := settings; cn_accountNumber := fst data; cn_accountSequence := snd data |}.

(** The queries of the connection are [core]. *)
Definition runServiceApiMode {V} `{KeyLib, KVv2 V} (getAccountData : Address → res (Z * Z))
    (settings : Settings) (core : BridgeCore) (clients : list Client) (storage : V) : res Server :=
  account ← wrap (GetCoreAccount storage) "failed to get core account";
  _ ← wrap (NewConnector getAccountData account settings) "failed to create core connector";
  let clientsRepo := NewClientsRepository clients in
  Ok {| srv_clients := clientsRepo;
        srv_processor := {| ft_clients := clientsRepo; ft_core := core |};
        srv_connector := core |}.

(** ** The goroutines of a web socket

    The handler ([watchWithdrawalStatus]), the reader ([watchConnectionClosing]) and the one
    that [HijackedConnectionCloser] starts share the socket, the channel of the reader and the
    context of the request. *)

Module Ws.

Inductive MainPc := MFirst | MPolling (prevStatus : WithdrawalStatus) | MReturning | MClosed | MGone.

Record State := {
  ws_main : MainPc; ws_reader : bool; ws_closer : bool;
  (** the contexts of the program and of the request; the peer closed or broke the connection *)
  ws_app : bool; ws_ctx : bool; ws_peer : bool;
  ws_open : bool; ws_connClosed : bool; ws_frames : list Frame;
  (** the outcome of the first write and the rounds of the loop so far *)
  ws_written : bool; ws_rounds : list PollEvent }.

Definition set_main (m : MainPc) (frames : list Frame) (e : list PollEvent) (s : State) : State :=
  {| ws_main := m; ws_reader := ws_reader s; ws_closer := ws_closer s; ws_app := ws_app s;
     ws_ctx := ws_ctx s; ws_peer := ws_peer s; ws_open := ws_open s; ws_connClosed := ws_connClosed s;
     ws_frames := ws_frames s ++ frames; ws_written := ws_written s; ws_rounds := ws_rounds s ++ e |}.
Definition set_flags (closer app ctx peer opened written : bool) (m : MainPc) (s : State) : State :=
  {| ws_main := m; ws_reader := ws_reader s; ws_closer := closer; ws_app := app; ws_ctx := ctx;
     ws_peer := peer; ws_open := opened; ws_connClosed := ws_connClosed s; ws_frames := ws_frames s;
     ws_written := written; ws_rounds := ws_rounds s |}.

(** The first message, and what follows a final status. *)
Definition first_write (d : Deposit) (written : bool) (s : State) : State :=
  let s' := set_flags (ws_closer s) (ws_app s) (ws_ctx s) (ws_peer s) (ws_open s) written (ws_main s) s in
  if negb written then set_main MReturning [] [] s'
  else if is_final (d_WithdrawalStatus d)
  then set_main MReturning [FText (ToStatusResponse d); FClose CloseNormalClosure] [] s'
  else set_main (MPolling (d_WithdrawalStatus d)) [FText (ToStatusResponse d)] [] s'.

(** One round of the loop. *)
Definition poll (prevStatus : WithdrawalStatus) (e : PollEvent) (s : State) : option State :=
  match e with
  | ConnClosed => if ws_connClosed s then Some (set_main MReturning [] [e] s) else None
  | CtxDone => if ws_ctx s then Some (set_main MReturning [FClose CloseGoingAway] [e] s) else None
  | Tick None _ => Some (set_main MReturning [FClose CloseInternalServerErr] [e] s)
  | Tick (Some withdrawal) written =>
      if bool_decide (d_WithdrawalStatus withdrawal = prevStatus) then Some (set_main (MPolling prevStatus) [] [e] s)
      else if negb written then Some (set_main MReturning [FClose CloseInternalServerErr] [e] s)
      else if is_final (d_WithdrawalStatus withdrawal)
      then Some (set_main MReturning [FText (ToStatusResponse withdrawal); FClose CloseNormalClosure] [e] s)
      else Some (set_main (MPolling (d_WithdrawalStatus withdrawal)) [FText (ToStatusResponse withdrawal)] [e] s)
  end.

Inductive Action :=
| AFirst (written : bool) | ARound (e : PollEvent) | AClose | ACancel | ARead | ACloserApp | ACloserCtx
| EShutdown | EPeer.

(** The steps that wait for nothing but the goroutines: the ticker's rounds, the shutdown and
    the peer are the environment's. *)
Definition internal (a : Action) : bool :=
  match a with ARound (Tick _ _) | EShutdown | EPeer => false | _ => true end.

Definition exec (d : Deposit) (a : Action) (s : State) : option State :=
  match a with
  | AFirst written => match ws_main s with MFirst => Some (first_write d written s) | _ => None end
  | ARound e => match ws_main s with MPolling prevStatus => poll prevStatus e s | _ => None end
  (* the deferred [ws.Close()] *)
  | AClose =>
      match ws_main s with
      | MReturning => Some (set_flags (ws_closer s) (ws_app s) (ws_ctx s) (ws_peer s) false (ws_written s) MClosed s)
      | _ => None
      end
  (* the deferred [cancel()] of the middleware *)
  | ACancel =>
      match ws_main s with
      | MClosed => Some (set_flags (ws_closer s) (ws_app s) true (ws_peer s) (ws_open s) (ws_written s) MGone s)
      | _ => None
      end
  (* [ReadMessage] fails or reads a close message, and [done] is closed *)
  | ARead =>
      if ws_reader s && (ws_peer s || negb (ws_open s))
      then Some {| ws_main := ws_main s; ws_reader := false; ws_closer := ws_closer s; ws_app := ws_app s;
                   ws_ctx := ws_ctx s; ws_peer := ws_peer s; ws_open := ws_open s; ws_connClosed := true;
                   ws_frames := ws_frames s; ws_written := ws_written s; ws_rounds := ws_rounds s |}
      else None
  | ACloserApp =>
      if ws_closer s && ws_app s
      then Some (set_flags false (ws_app s) true (ws_peer s) (ws_open s) (ws_written s) (ws_main s) s) else None
  | ACloserCtx =>
      if ws_closer s && ws_ctx s
      then Some (set_flags false (ws_app s) (ws_ctx s) (ws_peer s) (ws_open s) (ws_written s) (ws_main s) s) else None
  | EShutdown => Some (set_flags (ws_closer s) true (ws_ctx s) (ws_peer s) (ws_open s) (ws_written s) (ws_main s) s)
  | EPeer => Some (set_flags (ws_closer s) (ws_app s) (ws_ctx s) true (ws_open s) (ws_written s) (ws_main s) s)
  end.

(** After the upgrade. *)
Definition upgraded : State :=
  {| ws_main := MFirst; ws_reader := true; ws_closer := true; ws_app := false; ws_ctx := false;
     ws_peer := false; ws_open := true; ws_connClosed := false; ws_frames := []; ws_written := true;
     ws_rounds := [] |}.

Definition step (d : Deposit) (s s' : State) : Prop := ∃ a, exec d a s = Some s'.
Definition internal_step (d : Deposit) (s s' : State) : Prop := ∃ a, internal a = true ∧ exec d a s = Some s'.

(** Every goroutine has returned and the socket is closed. *)
Definition released (s : State) : Prop :=
  ws_main s = MGone ∧ ws_reader s = false ∧ ws_closer s = false ∧ ws_open s = false.

(** The program stops, the peer leaves, or the handler is past its loop. *)
Definition ending (s : State) : Prop :=
  ws_app s = true ∨ ws_peer s = true ∨ match ws_main s with MPolling _ | MFirst => False | _ => True end.

End Ws.

(** ** Lemmas *)

Section ws_lemmas.
Import Ws.
Context (d : Deposit).

(** What has been written is what the loop of [Intake] writes for the rounds so far. *)
Definition frames_agree (s : State) : Prop :=
  match ws_main s with
  | MFirst => ws_frames s = [] ∧ ws_rounds s = []
  | MPolling prev =>
      ∀ rest, watchWithdrawalStatus d (ws_written s) (ws_rounds s ++ rest) = ws_frames s ++ pollLoop prev rest
  | _ => ∀ rest, watchWithdrawalStatus d (ws_written s) (ws_rounds s ++ rest) = ws_frames s
  end.

Record ws_inv (s : State) : Prop := {
  wi_closer : ws_closer s = false → ws_ctx s = true;
  wi_reader : ws_reader s = false → ws_connClosed s = true;
  wi_gone : ws_main s = MGone → ws_ctx s = true ∧ ws_open s = false;
  wi_closed : ws_main s = MClosed → ws_open s = false;
  wi_frames : frames_agree s }.

Lemma ws_inv_upgraded : ws_inv upgraded.
Proof. by split. Qed.

Lemma poll_frames prev e s s' :
  ws_main s = MPolling prev → frames_agree s → poll prev e s = Some s' → frames_agree s'.
Proof.
  unfold frames_agree. intros Hm Hf He. rewrite Hm in Hf. destruct e as [| |[w|] written]; simpl in He.
  - destruct (ws_connClosed s); simplify_eq. intros rest. simpl. by rewrite <- app_assoc, Hf.
  - destruct (ws_ctx s); simplify_eq. intros rest. simpl. by rewrite <- app_assoc, Hf.
  - case_bool_decide as Hw; [|destruct written; simpl in He; [destruct (is_final _) eqn:Hfin|]]; simplify_eq;
      intros rest; simpl; rewrite <- app_assoc, Hf; simpl;
      [by rewrite bool_decide_true, app_nil_r|..]; rewrite (bool_decide_false _ Hw), ?Hfin, <- ?app_assoc; done.
  - simplify_eq. intros rest. simpl. by rewrite <- app_assoc, Hf.
Qed.

Lemma first_frames written s :
  frames_agree s → ws_main s = MFirst → frames_agree (first_write d written s).
Proof.
  unfold frames_agree. intros Hf Hm. rewrite Hm in Hf. destruct Hf as [Hf Hr].
  unfold first_write. destruct written; simpl; [destruct (is_final _) eqn:Hfin|]; simpl;
    rewrite Hf, Hr; intros rest; unfold watchWithdrawalStatus; simpl; by rewrite ?Hfin.
Qed.

Lemma ws_step_inv s s' : ws_inv s → step d s s' → ws_inv s'.
Proof.
  intros [Hc Hr Hg Hcl Hf] (a & He). destruct a as [written|e| | | | | | |]; simpl in He.
  - destruct (ws_main s) eqn:Hm; simplify_eq. split; [..|by apply first_frames];
      unfold first_write; destruct written, (is_final _); simpl; done.
  - destruct (ws_main s) as [|prev| | |] eqn:Hm; simplify_eq. split; [..|by eapply poll_frames];
      destruct e as [| |[w|] []]; simpl in He; repeat case_match; simplify_eq; simpl; done.
  - destruct (ws_main s) eqn:Hm; simplify_eq. split; try done.
    unfold frames_agree in *. simpl. by rewrite Hm in Hf.
  - destruct (ws_main s) eqn:Hm; simplify_eq. split; try done; simpl; [by auto|].
    unfold frames_agree in *. simpl. by rewrite Hm in Hf.
  - destruct (_ && _); simplify_eq. by split.
  - destruct (ws_closer s && ws_app s); simplify_eq. split; try done. simpl. intros Hm. by destruct (Hg Hm).
  - destruct (ws_closer s && ws_ctx s) eqn:Hb; simplify_eq. apply andb_true_iff in Hb as [_ Hctx]. by split.
  - simplify_eq. by split.
  - simplify_eq. by split.
Qed.

Definition main_weight (m : MainPc) : nat :=
  match m with MFirst => 4 | MPolling _ => 3 | MReturning => 2 | MClosed => 1 | MGone => 0 end.
Definition weight (s : State) : nat :=
  (main_weight (ws_main s) + (if ws_reader s then 1 else 0) + (if ws_closer s then 1 else 0))%nat.

Lemma internal_lighter s s' : internal_step d s s' → (weight s' < weight s)%nat.
Proof.
  intros (a & Ha & He). unfold weight. destruct a as [written|e| | | | | | |]; simpl in He; try done.
  - destruct (ws_main s) eqn:Hm; simplify_eq. unfold first_write.
    destruct written, (is_final _); simpl; lia.
  - destruct (ws_main s) as [|prev| | |] eqn:Hm; simplify_eq.
    destruct e as [| |]; [..|done]; simpl in He; case_match; simplify_eq; simpl; lia.
  - destruct (ws_main s) eqn:Hm; simplify_eq. simpl. lia.
  - destruct (ws_main s) eqn:Hm; simplify_eq. simpl. lia.
  - destruct (ws_reader s); simplify_eq. simpl in He. case_match; simplify_eq. simpl. lia.
  - destruct (ws_closer s); simplify_eq. simpl in He. case_match; simplify_eq. simpl. lia.
  - destruct (ws_closer s); simplify_eq. simpl in He. case_match; simplify_eq. simpl. lia.
Qed.

Lemma ws_internal_Acc s : Acc (flip (internal_step d)) s.
Proof.
  induction s as [s IH] using (induction_ltof1 _ weight). constructor. intros s' Hs.
  apply IH. by apply internal_lighter.
Qed.

Lemma ending_step s s' : ending s → internal_step d s s' → ending s'.
Proof.
  intros Hend (a & Ha & He). unfold ending in *. destruct a as [written|e| | | | | | |]; simpl in He; try done.
  - destruct (ws_main s) eqn:Hm; simplify_eq. unfold first_write.
    destruct written, (is_final _); simpl; tauto.
  - destruct (ws_main s) as [|prev| | |] eqn:Hm; simplify_eq.
    destruct e as [| |]; [..|done]; simpl in He; case_match; simplify_eq; simpl; tauto.
  - destruct (ws_main s) eqn:Hm; simplify_eq. simpl. tauto.
  - destruct (ws_main s) eqn:Hm; simplify_eq. simpl. tauto.
  - destruct (_ && _); simplify_eq. done.
  - destruct (_ && _); simplify_eq. done.
  - destruct (_ && _); simplify_eq. done.
Qed.

(** Where no goroutine can go on, all of them have returned. *)
Lemma quiescent_released s :
  ws_inv s → ending s → (∀ s', ¬ internal_step d s s') → released s.
Proof.
  intros [Hc Hr Hg _ _] Hend Hno.
  assert (∀ a, internal a = true → exec d a s = None) as Hnone.
  { intros a Ha. destruct (exec d a s) as [s'|] eqn:E; [|done]. destruct (Hno s'). by exists a. }
  assert (ws_main s = MGone) as Hm.
  { destruct (ws_main s) as [|prev| | |] eqn:Hm.
    - specialize (Hnone (AFirst true) eq_refl). simpl in Hnone. by rewrite Hm in Hnone.
    - pose proof (Hnone (ARound ConnClosed) eq_refl) as H1. pose proof (Hnone (ARound CtxDone) eq_refl) as H2.
      pose proof (Hnone ARead eq_refl) as H3. pose proof (Hnone ACloserApp eq_refl) as H4.
      simpl in *. rewrite Hm in H1, H2. simpl in H1, H2.
      destruct (ws_connClosed s), (ws_ctx s); try done.
      unfold ending in Hend. rewrite Hm in Hend.
      destruct (ws_closer s), (ws_reader s), (ws_app s), (ws_peer s); naive_solver.
    - specialize (Hnone AClose eq_refl). simpl in Hnone. by rewrite Hm in Hnone.
    - specialize (Hnone ACancel eq_refl). simpl in Hnone. by rewrite Hm in Hnone.
    - done. }
  destruct (Hg Hm) as [Hctx Hopen].
  pose proof (Hnone ARead eq_refl) as H3. pose proof (Hnone ACloserCtx eq_refl) as H4. simpl in H3, H4.
  rewrite Hopen, orb_true_r, andb_true_r in H3. rewrite Hctx, andb_true_r in H4.
  unfold released. destruct (ws_reader s), (ws_closer s); done.
Qed.

End ws_lemmas.

(** ** Theorems *)

Section ws_theorems.
Import Ws.

(** C27: A web socket is released: once the program stops, the peer closes the connection or
    the handler is done, then whatever the schedule the three goroutines take finitely many
    steps, and where none can go on all of them have returned and the socket is closed. *)
Theorem ws_connection_released d s :
  star (step d) upgraded s → ending s →
  Acc (flip (internal_step d)) s ∧
  ∀ s', star (internal_step d) s s' → (∀ s'', ¬ internal_step d s' s'') → released s'.
Proof.
  intros Hr Hend. split; [apply ws_internal_Acc|]. intros s' Hs Hno.
  assert (star (step d) s s') as Hs'.
  { clear -Hs. induction Hs as [|x y z (a & _ & Ha)]; [constructor|]. econstructor; [by exists a|done]. }
  apply (quiescent_released d); [| |done].
  - eapply star_invariant; [apply ws_step_inv|exact (star_trans _ _ _ _ Hr Hs')|apply ws_inv_upgraded].
  - eapply star_invariant; [|exact Hs|done]. intros x y. apply ending_step.
Qed.

(** The goroutines write what the handler means to: under every schedule, when the handler
    is past its loop, the frames on the socket are exactly those of the sequential loop for the
    rounds it went through, and before that they are a prefix of them. *)
Theorem ws_refines_watch d s :
  star (step d) upgraded s →
  ∀ rest, ws_frames s `prefix_of` watchWithdrawalStatus d (ws_written s) (ws_rounds s ++ rest) ∧
  (match ws_main s with MFirst | MPolling _ => False | _ => True end →
   ws_frames s = watchWithdrawalStatus d (ws_written s) (ws_rounds s)).
Proof.
  intros Hs rest.
  assert (ws_inv d s) as [_ _ _ _ Hf]
    by (eapply star_invariant; [apply ws_step_inv|done|apply ws_inv_upgraded]).
  unfold frames_agree in Hf. destruct (ws_main s); simpl.
  - destruct Hf as [-> _]. split; [apply prefix_nil|done].
  - rewrite Hf. split; [by eexists|done].
  - rewrite Hf. split; [reflexivity|]. intros _. by rewrite <- (Hf []), app_nil_r.
  - rewrite Hf. split; [reflexivity|]. intros _. by rewrite <- (Hf []), app_nil_r.
  - rewrite Hf. split; [reflexivity|]. intros _. by rewrite <- (Hf []), app_nil_r.
Qed.

End ws_theorems.

Section api_theorems.
Context {St : Type} `{!DepositsQ St, !GatewayLib}.

(** How the servers answer a reply of a handler, a panic included, and what is logged. *)
Definition over_grpc {A} (r : Reply A) : Reply A :=
  match r with RPanic => RStatus Internal "internal server error" | _ => r end.
Definition over_http {A} (ok : A → HttpResponse) (r : Reply A) : HttpResponse :=
  match r with ROk a => ok a | RStatus code m => RespError code m | RPanic => RespProblem InternalError end.
Definition logged {A} (method : string) (r : Reply A) : list LogEntry :=
  match r with
  | ROk _ => [LogStarted method; LogFinished method None]
  | RStatus code _ => [LogStarted method; LogFinished method (Some code)]
  | RPanic => [LogStarted method; LogPanicked method; LogFinished method (Some Internal)]
  end.

(** The context of a gRPC call and of an HTTP request. *)
Definition grpc_ctx (s : Server) : Ctx :=
  foldl (λ c extend, extend c) [] [LoggerProvider; DBProvider; ClientsProvider (srv_clients s);
    FetcherProvider (srv_processor s); CoreConnectorProvider (srv_connector s)].
Definition http_ctx (s : Server) (h : CheckerOf) : Ctx :=
  foldl (λ c extend, extend c) [] [LoggerProvider; DBProvider; ClientsProvider (srv_clients s);
    FetcherProvider (srv_processor s); CoreConnectorProvider (srv_connector s); HealthCheckerProvider h].

(** The handler works on the database with [f]. *)
Definition implements {A} (handler : Handler St A) (c : Ctx) (f : St → St * Reply A) : Prop :=
  ∀ w, handler c w = (with_db (f (w_db w)).1 w, (f (w_db w)).2).

Lemma with_db_same (w : World St) : with_db (w_db w) w = w.
Proof. by destruct w. Qed.

Lemma grpc_call_spec {A} s method (handler : Handler St A) f w :
  implements handler (grpc_ctx s) f →
  grpc_call s method handler w =
    ({| w_db := (f (w_db w)).1; w_log := w_log w ++ logged method (f (w_db w)).2 |},
     over_grpc (f (w_db w)).2).
Proof.
  intros Hf. unfold grpc_call, ChainUnaryInterceptor, grpcInterceptors. simpl.
  unfold ContextExtenderInterceptor, LoggerInterceptor, RecoveryInterceptor. fold (grpc_ctx s). rewrite Hf.
  simpl. destruct (f (w_db w)) as [db r]. simpl. destruct r; unfold log, with_db; simpl; by rewrite <- !app_assoc.
Qed.

(** A server whose fetcher uses the same clients and the same core. *)
Definition wired (s : Server) (clients : Repository) (core : BridgeCore) : Prop :=
  s = {| srv_clients := clients; srv_processor := {| ft_clients := clients; ft_core := core |};
         srv_connector := core |}.

Definition same_values (c c' : Ctx) : Prop :=
  ctx_DB c = ctx_DB c' ∧ ctx_Logger c = ctx_Logger c' ∧ ctx_Clients c = ctx_Clients c' ∧
  ctx_Fetcher c = ctx_Fetcher c' ∧ ctx_CoreConnector c = ctx_CoreConnector c'.

Lemma submit_implements s clients core i c :
  wired s clients core → same_values c (grpc_ctx s) →
  implements (api_SubmitWithdrawal i) c (SubmitWithdrawal (H:=core) clients i).
Proof.
  intros -> (Hdb & Hl & Hc & Hf & Hx) w. unfold api_SubmitWithdrawal.
  rewrite Hdb, Hl, Hc, Hf, Hx. simpl. unfold SubmitWithdrawal.
  destruct (ValidateIdentifier i) eqn:Hv.
  - destruct (validated clients i) as [m| |] eqn:Hval; simpl; try by rewrite with_db_same.
    unfold submit_with. simpl. set (x := match GetDepositInfo m with Ok _ => _ | _ => _ end).
    by destruct x.
  - unfold validated. rewrite Hv. simpl. by rewrite with_db_same.
  - unfold validated. rewrite Hv. simpl. by rewrite with_db_same.
Qed.

Lemma check_implements s clients core i c :
  wired s clients core → same_values c (grpc_ctx s) →
  implements (api_CheckWithdrawal i) c (λ db, (db, CheckWithdrawal clients i db)).
Proof.
  intros -> (Hdb & Hl & Hc & _) w. unfold api_CheckWithdrawal. rewrite Hdb, Hl, Hc. simpl. rewrite with_db_same.
  destruct (ValidateIdentifier i) eqn:Hv; simpl; [done|..]; unfold CheckWithdrawal, validated; by rewrite Hv.
Qed.

Lemma check_params_lookup a b c :
  check_params a b c !! "chain_id"%string = Some a ∧ check_params a b c !! "tx_hash"%string = Some b ∧
  check_params a b c !! "tx_nonce"%string = Some c.
Proof. unfold check_params. split_and!; by simplify_map_eq. Qed.

Lemma http_same_values s h : same_values (http_ctx s h) (grpc_ctx s).
Proof. done. Qed.

Lemma forward_spec {A} (ok : A → HttpResponse) (handler : Handler St A) c f w :
  implements handler c f → (∀ a, ok a ≠ RespPanic) →
  recovered (forward ok (handler c w)) = (with_db (f (w_db w)).1 w, over_http ok (f (w_db w)).2).
Proof.
  intros Hf Hok. rewrite Hf. destruct (f (w_db w)) as [db r]. simpl. destruct r as [a| |]; simpl; [|done..].
  specialize (Hok a). by destruct (ok a).
Qed.

(** C24: The transports agree: on the server that the command starts, a request has the same
    effect on the database and the same answer over gRPC and over HTTP, those of the handlers
    of [Intake]; every gRPC request is answered, a panic of the handler as an internal error,
    and logged when it starts and when it ends.  The web socket is opened only for the deposit
    that the check of the same identifier reports. *)
Theorem api_transports_agree {V} `{KeyLib, KVv2 V} getAccountData settings core clients (storage : V) s h w :
  runServiceApiMode getAccountData settings core clients storage = Ok s →
  let repo := NewClientsRepository clients in
  (∀ i body upgrade, DecodeBody body = Decoded i →
     let '(db, r) := SubmitWithdrawal (H:=core) repo (Some i) (w_db w) in
     grpc_Submit s (Some i) w = ({| w_db := db; w_log := w_log w ++ logged SubmitMethod r |}, over_grpc r) ∧
     httpRouter s h {| hr_method := POST; hr_path := ["submit"%string]; hr_body := body; hr_upgrade := upgrade |} w
       = (with_db db w, over_http (λ _, RespSubmitted) r)) ∧
  (∀ i nonce body upgrade, runtime_Int64 nonce = Some (md_TxNonce i) →
     let r := CheckWithdrawal repo (Some i) (w_db w) in
     grpc_Check s (Some i) w = ({| w_db := w_db w; w_log := w_log w ++ logged CheckMethod r |}, over_grpc r) ∧
     httpRouter s h {| hr_method := GET; hr_path := ["check"%string; md_ChainId i; md_TxHash i; nonce];
                       hr_body := body; hr_upgrade := upgrade |} w = (w, over_http RespChecked r)) ∧
  (∀ i nonce body d, ParseInt_value nonce = md_TxNonce i →
     (httpRouter s h {| hr_method := GET; hr_path := ["ws"%string; "check"%string; md_ChainId i; md_TxHash i; nonce];
                        hr_body := body; hr_upgrade := true |} w).2 = RespUpgraded d →
     CheckWithdrawal repo (Some i) (w_db w) = ROk (ToStatusResponse d)).
Proof.
  intros Hrun repo. unfold runServiceApiMode in Hrun. inv_ok.
  set (s := {| srv_clients := _ |}). assert (wired s repo core) as Hw by done.
  split; [|split].
  - intros i body upgrade Hb. destruct (SubmitWithdrawal _ _ _) as [db r] eqn:E.
    pose proof (submit_implements s repo core (Some i) _ Hw (http_same_values s h)) as Hh.
    assert (implements (api_SubmitWithdrawal (Some i)) (grpc_ctx s) (SubmitWithdrawal (H:=core) repo (Some i))) as Hg
      by by eapply submit_implements.
    unfold grpc_Submit. rewrite (grpc_call_spec _ _ _ _ _ Hg), E. split; [done|].
    unfold httpRouter, routes, gateway, local_request_API_SubmitWithdrawal_0. simpl. rewrite Hb.
    pose proof (forward_spec (λ _, RespSubmitted) _ _ _ w Hh) as Hf. rewrite E in Hf. by apply Hf.
  - intros i nonce body upgrade Hn.
    pose proof (check_implements s repo core (Some i) _ Hw (http_same_values s h)) as Hh.
    assert (implements (api_CheckWithdrawal (Some i)) (grpc_ctx s) (λ db, (db, CheckWithdrawal repo (Some i) db))) as Hg
      by by eapply check_implements.
    unfold grpc_Check. rewrite (grpc_call_spec _ _ _ _ _ Hg). split; [done|].
    unfold httpRouter, routes, gateway, local_request_API_CheckWithdrawal_0. simpl.
    pose proof (forward_spec RespChecked _ _ _ w Hh) as Hf. simpl in Hf. rewrite with_db_same in Hf.
    destruct (check_params_lookup (md_ChainId i) (md_TxHash i) nonce) as (-> & -> & ->).
    rewrite Hn. destruct i; by apply Hf.
  - intros i nonce body d Hn. unfold httpRouter, routes, CheckWithdrawalWs. simpl.
    unfold IdentifierFromParams. rewrite Hn. destruct i as [hash n chain].
    cbn [md_TxHash md_TxNonce md_ChainId]. unfold CheckWithdrawal, validated.
    destruct (ValidateIdentifier _); [|done..]. cbn [wrap mbind res_bind].
    unfold ToMsgDepositIdentifier, ToDbIdentifier. cbn [ChainId TxHash TxNonce md_TxHash md_TxNonce md_ChainId].
    unfold repo. destruct (repo_Client _ chain); [|done..].
    destruct (ValidateChainIdentifier _ _); [|done..].
    destruct (q_Get _ _); simpl; [|done]. by intros [= ->].
Qed.

End api_theorems.

(** ** Witnesses *)

Section witnesses.
Import SampleIntake Ws.
#[local] Existing Instances Service.w_kv Service.w_keys.
#[local] Instance w_gateway : GatewayLib := {|
  DecodeBody := λ body, if bool_decide (body = ""%string) then BodyEOF else Decoded msg;
  runtime_Int64 := parse_Z |}.

Definition w_settings : Settings := {| st_ChainId := "core"; st_Denom := "abridge"; st_MinGasPrice := 1 |}.
Definition w_server : res Server :=
  runServiceApiMode (λ _, Ok (1, 1)) w_settings core [client "1" 1000000; client "2" 1000000] w_s4.
Definition w_start : World Table := {| w_db := empty_table; w_log := [] |}.

Lemma api_transports_agree_witness : ∃ s db,
  w_server = Ok s ∧
  grpc_Submit s (Some msg) w_start
    = ({| w_db := db; w_log := [LogStarted SubmitMethod; LogFinished SubmitMethod None] |}, ROk tt) ∧
  httpRouter s [] {| hr_method := POST; hr_path := ["submit"%string]; hr_body := "{}"; hr_upgrade := false |} w_start
    = (with_db db w_start, RespSubmitted).
Proof.
  destruct w_server as [s| |] eqn:E; [|vm_compute in E; discriminate..].
  destruct (api_transports_agree (St:=Table) (λ _, Ok (1, 1)) w_settings core
    [client "1" 1000000; client "2" 1000000] w_s4 s [] w_start E) as (Hs & _).
  specialize (Hs msg "{}"%string false eq_refl).
  destruct (SubmitWithdrawal _ _ _) as [db r] eqn:Er.
  assert (r = ROk tt) as -> by (pose proof (f_equal snd Er) as Hr; vm_compute in Hr; symmetry; exact Hr).
  exists s, db. split; [reflexivity|]. exact Hs.
Defined.

Definition w_pending : Deposit := sample_deposit.

Fixpoint ws_run (l : list Action) (s : State) : option State :=
  match l with [] => Some s | a :: rest => exec w_pending a s ≫= ws_run rest end.

Lemma ws_run_star l : ∀ s s', ws_run l s = Some s' → star (step w_pending) s s'.
Proof.
  induction l as [|a l IH]; intros s s'; simpl; [intros [= <-]; constructor|].
  intros (s1 & He & Hl)%bind_Some. econstructor; [by exists a|by apply IH].
Qed.

(** The first message, then the program stops. *)
Definition w_actions : list Action := [AFirst true; EShutdown; ACloserApp; ARound CtxDone].
Definition w_stopped : option State := ws_run w_actions upgraded.

Lemma ws_connection_released_witness : ∃ s,
  w_stopped = Some s ∧ Acc (flip (internal_step w_pending)) s.
Proof.
  destruct w_stopped as [s|] eqn:E; [|vm_compute in E; discriminate].
  exists s. split; [reflexivity|].
  apply (ws_connection_released w_pending s (ws_run_star w_actions upgraded s E)).
  left. vm_compute in E. injection E as <-. reflexivity.
Defined.

Lemma ws_refines_watch_witness : ∃ s,
  w_stopped = Some s ∧ ws_frames s = [FText (ToStatusResponse w_pending); FClose CloseGoingAway].
Proof.
  destruct w_stopped as [s|] eqn:E; [|vm_compute in E; discriminate].
  exists s. split; [reflexivity|].
  destruct (ws_refines_watch w_pending s (ws_run_star w_actions upgraded s E) []) as [_ Hf].
  rewrite Hf; vm_compute in E; injection E as <-; [reflexivity|exact I].
Defined.

End witnesses.
