(* ===== verification/ChainLoops.v ===== *)
(** * The loops of the signing sessions

    Models [NewSession], the builder methods, [Build] and [Run] of the EVM, Solana, TON and
    Zano sessions ([internal/tss/session/signing/*/session.go]) as one function over the rounds
    of the loop, composed of the sessions of [Signing] and of whatever the other components of
    the node write to the database in between; and the withdrawal data and the finalizers of
    those chains ([internal/bridge/withdrawal/*.go], [signing/*/finalizer.go]) as the instances
    of the definitions of [Withdrawal] and [Signing]. *)

From S2P Require Import Prelude Core Session Deposits Broadcast Consensus Fetcher Withdrawal Mechanism Signing Sessions Intake.
#[local] Open Scope Z_scope.

(** ** The builder *)

(** Whether the fetcher, the client and the connector are set. *)
Record Wiring := { wr_fetcher : bool; wr_client : bool; wr_coreConnector : bool }.

Definition unwired : Wiring := {| wr_fetcher := false; wr_client := false; wr_coreConnector := false |}.
Definition WithDepositFetcher (w : Wiring) : Wiring :=
  {| wr_fetcher := true; wr_client := wr_client w; wr_coreConnector := wr_coreConnector w |}.
Definition WithClient (w : Wiring) : Wiring :=
  {| wr_fetcher := wr_fetcher w; wr_client := true; wr_coreConnector := wr_coreConnector w |}.
Definition WithCoreConnector (w : Wiring) : Wiring :=
  {| wr_fetcher := wr_fetcher w; wr_client := wr_client w; wr_coreConnector := true |}.

Definition session_Build (w : Wiring) : res unit :=
  if negb (wr_fetcher w) then Err (ENew "deposit fetcher is not set")
  else if negb (wr_client w) then Err (ENew "blockchain client is not set")
  else if negb (wr_coreConnector w) then Err (ENew "core connector is not set")
  else Ok tt.

(** ** The loop *)

Section loop.
Context `{SigLib, Bech32, Crypto} {St : Type} `{!DepositsQ St}.

(** A round of the loop: what the other components write while it waits, whether the context
    is done first, and the inputs of the session; [rd_sent] is the outcome of sending the
    transaction, on a chain where the leader sends it. *)
Record Round (T : Type) := {
  rd_others : St → St; rd_cancelled : bool; rd_input : SessionInput T; rd_sent : option error }.
Arguments rd_others {_} _ _.
Arguments rd_cancelled {_} _.
Arguments rd_input {_} _.
Arguments rd_sent {_} _.

Definition loop_running (l : LoopState) : LoopState :=
  {| ls_sessionId := ls_sessionId l;
     ls_nextSessionStartTime := ls_nextSessionStartTime l + BoundarySigningSession; ls_phase := Running |}.

(** [incrementSessionId] *)
Definition loop_finished (l : LoopState) : LoopState :=
  {| ls_sessionId := IncrementSessionIdentifier (ls_sessionId l);
     ls_nextSessionStartTime := ls_nextSessionStartTime l; ls_phase := Waiting |}.

(** The components are built anew for every session; its error is only logged.  [StillWaiting]
    is a loop that waits for its next round, or for a message in a session. *)
Fixpoint session_loop {T} (kind : string → Round T → SessionKind T) (dist : string → SignaturesDistributor)
    (rounds : list (Round T)) (l : LoopState) (s : St) : Outcome (LoopState * St) :=
  match rounds with
  | [] => StillWaiting (l, s)
  | r :: rest =>
      let s := rd_others r s in
      if rd_cancelled r then Finished (l, s)
      else
        match runSession (kind (ls_sessionId l) r) (dist (ls_sessionId l)) (rd_input r) s with
        | Finished (s', _) => session_loop kind dist rest (loop_finished (loop_running l)) s'
        | StillWaiting (s', _) => StillWaiting (loop_running l, s')
        | Blocked => Blocked
        | Crashed => Crashed
        end
  end.

(** [now] is the time at which [Run] is called. *)
Definition session_Run {T} (kind : string → Round T → SessionKind T) (dist : string → SignaturesDistributor)
    (now : Z) (params : SigningParams) (rounds : list (Round T)) (s : St) : res (Outcome (LoopState * St)) :=
  if ls_nextSessionStartTime (loop_init params) - now <=? 0 then Err (ENew "target time is in the past")
  else Ok (session_loop kind dist rounds (loop_init params) s).

End loop.
Arguments Round : clear implicits.
Arguments rd_others {_ _} _ _.
Arguments rd_cancelled {_ _} _.
Arguments rd_input {_ _} _.
Arguments rd_sent {_ _} _.

(** ** The chains *)

Section chains.
Context `{Bech32, Crypto, SigLib, EthLib, SolanaLib, TonLib, ZanoWallet, ProposalEncoding}.
Context {St : Type} `{!DepositsQ St}.

Definition evm_NewSession : SigningParams → LoopState := loop_init.
Definition evm_Build : Wiring → res unit := session_Build.
Definition evm_Run := session_Run (St:=St) (λ _ _, hw_kind EvmData).
Definition evm_Finalize := finalizePhase (St:=St) (hw_kind EvmData).

Definition solana_DepositIdentifier : SolanaWithdrawalData → DepositIdentifier := hw_DepositIdentifier.
Definition solana_HashString : SolanaWithdrawalData → string := hw_HashString.
Definition solana_FormSigningData : Deposit → res SolanaWithdrawalData := hw_FormSigningData (GetSignHash SolanaData).
Definition solana_IsValid : SolanaWithdrawalData → Deposit → res bool := hw_IsValid (GetSignHash SolanaData).
Definition solana_finalize : SolanaWithdrawalData → option SignatureData → St → res (St * option error) :=
  hw_finalize.
Definition solana_Finalize := finalizePhase (St:=St) (hw_kind SolanaData).
Definition solana_NewSession : SigningParams → LoopState := loop_init.
Definition solana_Build : Wiring → res unit := session_Build.
Definition solana_Run := session_Run (St:=St) (λ _ _, hw_kind SolanaData).
Definition solana_SigningSessionInfo : Z → string → LoopState → res SigningSessionInfo := loop_info.

Definition ton_DepositIdentifier : TonWithdrawalData → DepositIdentifier := hw_DepositIdentifier.
Definition ton_HashString : TonWithdrawalData → string := hw_HashString.
Definition ton_FormSigningData : Deposit → res TonWithdrawalData := hw_FormSigningData (GetSignHash TonData).
Definition ton_IsValid : TonWithdrawalData → Deposit → res bool := hw_IsValid (GetSignHash TonData).
Definition ton_finalize : TonWithdrawalData → option SignatureData → St → res (St * option error) :=
  hw_finalize.
Definition ton_Finalize := finalizePhase (St:=St) (hw_kind TonData).
Definition ton_NewSession : SigningParams → LoopState := loop_init.
Definition ton_Build : Wiring → res unit := session_Build.
Definition ton_Run := session_Run (St:=St) (λ _ _, hw_kind TonData).
Definition ton_SigningSessionInfo : Z → string → LoopState → res SigningSessionInfo := loop_info.

(** The leader of a session sends the transaction. *)
Definition zano_Finalize (leader : bool) (sent : option error) := finalizePhase (St:=St) (zano_kind leader sent).
Definition zano_NewSession : SigningParams → LoopState := loop_init.
Definition zano_Build : Wiring → res unit := session_Build.
Definition zano_Run (isLeader : string → bool) :=
  session_Run (St:=St) (λ id r, zano_kind (isLeader id) (rd_sent r)).
(** The UTXO session checks the same; its loop is in [UtxoLoop]. *)
Definition utxo_Build : Wiring → res unit := session_Build.
Definition zano_SigningSessionInfo : Z → string → LoopState → res SigningSessionInfo := loop_info.

End chains.

Section resharing.
Context `{Bech32, Crypto, RandSource, SignStartEncoding, SigLib, EthLib, ZanoWallet, !ZanoOwnership}.
Context `{!GobMessage SignStartData, !GobMessage ZanoSigningData}.

Definition reshare_zano_Receive : Consensus (T:=ZanoSigningData) → option SubmitRequest →
    res (SessionRouted ZanoSigningData) := reshare_Receive.
Definition reshare_zano_Run : Z → bool → Z → Z → res bool := reshare_Run.

End resharing.

(** ** Theorems *)

Section theorems.
Context `{SigLib, Bech32, Crypto} {St : Type} `{!DepositsQ St, !DepositsSpec St}.
Variable World : BridgeCore → Repository → Prop.

Definition loop_outcome (o : Outcome (LoopState * St)) : option (LoopState * St) :=
  match o with Finished p | StillWaiting p => Some p | _ => None end.

Lemma session_writes_node s s' : star session_write s s' → star (node_write (St:=St) World) s s'.
Proof. induction 1; [constructor|]. econstructor; [by apply nw_session|done]. Qed.

(** The rounds before the first one that is cancelled. *)
Fixpoint completed {T} (rounds : list (Round St T)) : nat :=
  match rounds with [] => 0 | r :: rest => if rd_cancelled r then 0 else S (completed rest) end.

Lemma loop_session_steps l :
  ls_phase l = Waiting → star loop_step l (loop_running l) ∧ star loop_step l (loop_finished (loop_running l)).
Proof.
  destruct l as [id t ph]. simpl. intros ->. split.
  - eapply star_step; [apply loop_start|constructor].
  - eapply star_step; [apply loop_start|]. eapply star_step; [apply loop_finish|constructor].
Qed.

Lemma session_loop_refines {T} (kind : string → Round St T → SessionKind T) dist rounds :
  (∀ id r, kind_writes (kind id r)) → Forall (λ r, ∀ s, star (node_write World) s (rd_others r s)) rounds →
  ∀ l s l' s', ls_phase l = Waiting → loop_outcome (session_loop kind dist rounds l s) = Some (l', s') →
    star loop_step l l' ∧ star (node_write World) s s'.
Proof.
  intros Hk. induction 1 as [|r rounds Hr _ IH]; intros l s l' s' Hl; simpl.
  { intros [= <- <-]. split; constructor. }
  destruct (loop_session_steps l Hl) as [Hrun Hfin].
  destruct (rd_cancelled r); [intros [= <- <-]; split; [constructor|apply Hr]|].
  pose proof (runSession_writes (kind (ls_sessionId l) r) (dist (ls_sessionId l)) (rd_input r) (rd_others r s)) as Hw.
  destruct (runSession _ _ _ _) as [[s1 e]|[s1 e]| |]; simpl; [| |done..].
  - intros [= <- <-]. split; [done|]. eapply star_trans; [apply Hr|]. by apply session_writes_node, Hw.
  - intros Ho. destruct (IH (loop_finished (loop_running l)) s1 l' s' eq_refl Ho) as [Hl1 Hs1]. split; [by eapply star_trans|].
    eapply star_trans; [apply Hr|]. eapply star_trans; [|done]. by apply session_writes_node, Hw.
Qed.

(** A loop whose sessions end goes through all its rounds up to the cancellation. *)
Lemma session_loop_complete {T} (kind : string → Round St T → SessionKind T) dist rounds l s l' s' :
  session_loop kind dist rounds l s = Finished (l', s') →
  l' = Nat.iter (completed rounds) (λ l, loop_finished (loop_running l)) l.
Proof.
  revert l s. induction rounds as [|r rounds IH]; intros l s; simpl; [done|].
  destruct (rd_cancelled r); [by intros [= <- _]|].
  destruct (runSession _ _ _ _) as [[]|[]| |]; try done. intros Hf. rewrite (IH _ _ Hf).
  simpl. clear. generalize (completed rounds) as n. induction n as [|n IHn]; simpl; [done|]. by rewrite IHn.
Qed.

Lemma iterated_start n l :
  ls_nextSessionStartTime (Nat.iter n (λ l, loop_finished (loop_running l)) l) =
    ls_nextSessionStartTime l + Z.of_nat n * BoundarySigningSession ∧
  (ls_phase l = Waiting → ls_phase (Nat.iter n (λ l, loop_finished (loop_running l)) l) = Waiting).
Proof.
  induction n as [|n [IH _]]; [split; [simpl; lia|done]|].
  split; [|done]. simpl Nat.iter. cbn [loop_finished loop_running ls_nextSessionStartTime]. rewrite IH. lia.
Qed.

Lemma iterated_id chainId id t n :
  str_elem underscore chainId = false → in_int64 id → id + Z.of_nat n ≤ max_int64 →
  ls_sessionId (Nat.iter n (λ l, loop_finished (loop_running l))
    {| ls_sessionId := GetConcreteSigningSessionIdentifier chainId id;
       ls_nextSessionStartTime := t; ls_phase := Waiting |}) =
  GetConcreteSigningSessionIdentifier chainId (id + Z.of_nat n).
Proof.
  intros Hc Hid. induction n as [|n IH]; intros Hn; [simpl; by rewrite Z.add_0_r|].
  simpl Nat.iter. cbn [loop_finished loop_running ls_sessionId]. rewrite IH by lia.
  rewrite increment_next; [f_equal; lia|done|unfold in_int64 in *; lia|lia].
Qed.

(** C11: The loop of a chain's sessions.  [Run] refuses a start in the past and nothing else.
    Under any interleaving with the node's other components, whatever the sessions do, its
    states are those of the abstract loop and its effect on the database is a sequence of
    writes that the node may do; an error of a session does not stop it: it ends only when it
    is cancelled, and then the sessions before had consecutive identifiers and started one
    signing bound apart. *)
Theorem session_loop_runs {T} (kind : string → Round St T → SessionKind T) dist now params rounds s :
  (∀ id r, kind_writes (kind id r)) → Forall (λ r, ∀ s, star (node_write World) s (rd_others r s)) rounds →
  (ps_StartTime (sp_Params params) ≤ now ∧
   session_Run kind dist now params rounds s = Err (ENew "target time is in the past")) ∨
  (now < ps_StartTime (sp_Params params) ∧
   ∃ o, session_Run kind dist now params rounds s = Ok o ∧
    (∀ l' s', loop_outcome o = Some (l', s') →
       star loop_step (loop_init params) l' ∧ star (node_write World) s s') ∧
    (∀ l' s', o = Finished (l', s') →
       let n := Z.of_nat (completed rounds) in
       ls_phase l' = Waiting ∧
       ls_nextSessionStartTime l' = ps_StartTime (sp_Params params) + n * BoundarySigningSession ∧
       (str_elem underscore (sp_ChainId params) = false → in_int64 (ps_Id (sp_Params params)) →
        ps_Id (sp_Params params) + n ≤ max_int64 →
        ls_sessionId l' =
          GetConcreteSigningSessionIdentifier (sp_ChainId params) (ps_Id (sp_Params params) + n)))).
Proof.
  intros Hk Hr. unfold session_Run. cbn [loop_init ls_nextSessionStartTime].
  destruct (Z.leb_spec (ps_StartTime (sp_Params params) - now) 0); [left; split; [lia|done]|right].
  split; [lia|]. eexists. split; [done|]. split.
  - intros l' s'. by apply (session_loop_refines kind dist rounds Hk Hr).
  - intros l' s' Ho. apply session_loop_complete in Ho as ->.
    destruct (iterated_start (completed rounds) (loop_init params)) as [Ht Hp].
    split; [by apply Hp|]. split; [done|]. intros Hc Hid Hn. by apply iterated_id.
Qed.

End theorems.

(** ** Witness *)

Section witness.
Import SampleSigning SampleIntake.

(** The first session signs a withdrawal, the second one fails, then the loop is cancelled. *)
Definition w_round (cancelled : bool) (sg : option SignatureData) : Round Table EvmWithdrawalData :=
  {| rd_others := λ s, s; rd_cancelled := cancelled; rd_input := input data sg; rd_sent := None |}.
Definition w_rounds : list (Round Table EvmWithdrawalData) :=
  [w_round false (Some signature); w_round false None; w_round true None].
Definition w_params : SigningParams :=
  {| sp_Params := {| ps_Id := 5; ps_StartTime := 10; ps_Threshold := 1 |}; sp_ChainId := "1" |}.
Definition w_ends (o : res (Outcome (LoopState * Table))) : bool :=
  match o with Ok (Finished _) => true | _ => false end.

Lemma w_rounds_end : w_ends (evm_Run (λ _, distributor) 0 w_params w_rounds table) = true.
Proof. vm_compute. reflexivity. Qed.

Lemma session_loop_runs_witness : ∃ l s,
  evm_Run (λ _, distributor) 0 w_params w_rounds table = Ok (Finished (l, s)) ∧
  ls_sessionId l = "SIGN_1_7"%string ∧ star (node_write SampleIntake.world) table s.
Proof.
  assert (Forall (λ r : Round Table EvmWithdrawalData, ∀ s, star (node_write SampleIntake.world) s (rd_others r s))
            w_rounds) as Hothers by (repeat constructor).
  destruct (session_loop_runs (St:=Table) SampleIntake.world (λ _ _, hw_kind EvmData) (λ _, distributor)
    0 w_params w_rounds table (λ _ _, hw_writes EvmData) Hothers) as [[Hn _]|(_ & o & Ho & Hr & Hf)].
  - vm_compute in Hn. destruct (Hn eq_refl).
  - pose proof w_rounds_end as Hend. unfold evm_Run in *. rewrite Ho in Hend.
    assert (∃ l s, o = Finished (l, s)) as (l & s & ->)
      by (clear -Hend; destruct o as [|[l s]| |]; try discriminate; by exists l, s).
    exists l, s. split; [exact Ho|]. destruct (Hr l s eq_refl) as [_ Hs]. split; [|exact Hs].
    destruct (Hf _ _ eq_refl) as (_ & _ & Hid).
    apply Hid; [reflexivity|..]; vm_compute; [split|]; discriminate.
Defined.

End witness.
