(* ===== verification/UtxoLoop.v ===== *)
(** * The loop of the UTXO sessions

    Models [Run] of [internal/tss/session/signing/utxo/session.go]: every round of the loop is
    a signing session or, when the wallet holds too many outputs, a consolidation session
    ([Sessions]), and the start of the next one depends on the number of inputs that the
    consensus agreed to sign. *)

From S2P Require Import Prelude Core Session Deposits Broadcast Consensus Fetcher Withdrawal Utxo UtxoWithdrawal Mechanism Signing Sessions Intake ChainLoops.
#[local] Open Scope Z_scope.

(** ** The loop *)

(** [updateNextSessionStartTime] inside a session; [None]: it was not called. *)
Definition utxo_update (rounds : option Z) (l : UtxoLoop) : UtxoLoop :=
  {| ul_id := ul_id l;
     ul_next := match rounds with
                | Some n => updateNextSessionStartTime (ul_next l) n
                | None => ul_next l
                end;
     ul_constant := match rounds with Some _ => true | None => ul_constant l end;
     ul_phase := ul_phase l |}.

(** The state after a session with these inputs. *)
Definition utxo_session (l : UtxoLoop) (rounds : option Z) : UtxoLoop := utxo_finish rounds (utxo_start l).

Section loop.
Context `{Bech32, Crypto, SigLib, WireLib, !UtxoHelper} {St : Type} `{!DepositsQ St}.
Variables (tssPub : ECDSAPub) (isLeader : string → bool) (dist : string → SignaturesDistributor).

(** A round: the writes of the other components while it waits, whether the context is done
    first, the answer of [UnspentCount], and the inputs of the session of either kind. *)
Record UtxoRound := {
  ur_others : St → St; ur_cancelled : bool; ur_unspentCount : res Z;
  ur_signing : SessionInput UtxoWithdrawalData; ur_consolidation : SessionInput UtxoSigningData;
  ur_cancelledAfter : nat → bool; ur_inTime : bool; ur_sent : option error }.

(** The session of a round: the database, the error and the number of inputs. *)
Definition runRound (id : string) (r : UtxoRound) (s : St) : Outcome (St * option error) * option Z :=
  match ur_unspentCount r with
  | Panic => (Crashed, None)
  | unspentCount =>
      if isSignSession unspentCount then
        runSigningSession tssPub (isLeader id) (ur_sent r) (dist id) (ur_cancelledAfter r) (ur_signing r) s
      else
        match runConsolidationSession tssPub (isLeader id) (ur_sent r) (dist id) (ur_cancelledAfter r)
                (ur_inTime r) (ur_consolidation r) with
        | Finished (e, n) => (Finished (s, e), n)
        | StillWaiting (e, n) => (StillWaiting (s, e), n)
        | Blocked => (Blocked, None)
        | Crashed => (Crashed, None)
        end
  end.

(** The error of a session is only logged.  The writes of the node's other components come
    between the rounds, while the loop waits. *)
Fixpoint utxo_loop (rounds : list UtxoRound) (l : UtxoLoop) (s : St) : Outcome (UtxoLoop * St) :=
  match rounds with
  | [] => StillWaiting (l, s)
  | r :: rest =>
      let s := ur_others r s in
      if ur_cancelled r then Finished (l, s)
      else
        match runRound (ul_id l) r s with
        | (Finished (s', _), n) => utxo_loop rest (utxo_session l n) s'
        | (StillWaiting (s', _), n) => StillWaiting (utxo_update n (utxo_start l), s')
        | (Blocked, _) => Blocked
        | (Crashed, _) => Crashed
        end
  end.

(** [now] is the time at which [Run] is called. *)
Definition utxo_Run (now : Z) (params : SigningParams) (rounds : list UtxoRound) (s : St)
    : res (Outcome (UtxoLoop * St)) :=
  if ul_next (utxo_init params) - now <=? 0 then Err (ENew "target time is in the past")
  else Ok (utxo_loop rounds (utxo_init params) s).

End loop.
Arguments UtxoRound : clear implicits.

(** ** Specification *)

Section spec.
Context `{Bech32, Crypto, SigLib, WireLib, !UtxoHelper} {St : Type} `{!DepositsQ St}.

(** The number of inputs that the consensus of a round agreed to sign; nothing else of the
    session is read. *)
Definition agreed {T} (sigData : T → option (list bytes)) (result : Result (T:=T)) : option Z :=
  match r_err result, r_sigData result with
  | None, Some d => Z.of_nat ∘ length <$> sigData d
  | _, _ => None
  end.

Definition round_inputs (r : UtxoRound St) : option Z :=
  if isSignSession (ur_unspentCount r)
  then agreed (λ d, bp_SigData <$> uw_ProposalData d) (in_consensus (ur_signing r))
  else agreed (λ d, rp_SigData <$> us_ProposalData d) (in_consensus (ur_consolidation r)).

(** The inputs of the sessions before the cancellation. *)
Fixpoint loop_inputs (rounds : list (UtxoRound St)) : list (option Z) :=
  match rounds with
  | [] => []
  | r :: rest => if ur_cancelled r then [] else round_inputs r :: loop_inputs rest
  end.

(** The time between the start of a session and of the next one. *)
Definition session_span (rounds : option Z) : Z :=
  BoundaryConsensus + match rounds with Some n => getSigningPhaseDelay n | None => BoundarySign end
  + BoundarySignatureDistribution + BoundaryFinalize.

End spec.

(** ** Lemmas *)

Definition few_inputs (rounds : option Z) : Prop := match rounds with Some n => 0 ≤ n < 2 ^ 29 | None => True end.

Lemma utxo_session_span l n :
  few_inputs n → ul_next (utxo_session l n) = ul_next l + session_span n.
Proof.
  destruct n as [n|]; [|intros _; unfold session_span; simpl; unfold BoundarySigningSession; lia].
  intros Hn. unfold session_span. destruct (decide (n = 0)) as [->|Hz].
  - simpl. change (getSigningPhaseDelay 0) with BoundarySign.
    change (updateNextSessionStartTime ?t 0) with t. unfold BoundarySigningSession. lia.
  - destruct (utxo_next_start_covers_rounds l n) as [_ Ht]; [simpl in Hn; lia|].
    unfold utxo_session. rewrite Ht. lia.
Qed.

Lemma sessions_start l ns :
  Forall few_inputs ns →
  ul_next (foldl utxo_session l ns) = ul_next l + foldr (λ n t, session_span n + t) 0 ns.
Proof.
  intros Hns. revert l. induction Hns as [|n ns Hn _ IH]; intros l; simpl foldl; simpl foldr; [lia|].
  rewrite IH, utxo_session_span by done. lia.
Qed.

Lemma sessions_id chainId ns : ∀ l id,
  str_elem underscore chainId = false → in_int64 id → id + Z.of_nat (length ns) ≤ max_int64 →
  ul_id l = GetConcreteSigningSessionIdentifier chainId id →
  ul_id (foldl utxo_session l ns) = GetConcreteSigningSessionIdentifier chainId (id + Z.of_nat (length ns)).
Proof.
  induction ns as [|n ns IH]; intros l id Hc Hid Hn Hl; simpl foldl.
  { by rewrite Z.add_0_r. }
  simpl length in *.
  rewrite (IH _ (id + 1)); [f_equal; lia|done|unfold in_int64, min_int64, max_int64 in *; lia|lia|].
  simpl. rewrite Hl. apply increment_next; [done|done|lia].
Qed.

Section lemmas.
Context `{Bech32, Crypto, SigLib, WireLib, !UtxoHelper} {St : Type} `{!DepositsQ St, !DepositsSpec St}.
Implicit Types (r : UtxoRound St) (s : St).

Lemma runSigningSession_inputs pub leader sent dist cancelled inp s :
  let '(o, n) := runSigningSession (St:=St) pub leader sent dist cancelled inp s in
  o = Crashed ∨ n = agreed (λ d, bp_SigData <$> uw_ProposalData d) (in_consensus inp).
Proof.
  unfold runSigningSession, agreed.
  destruct (r_err _); [by right|]. destruct (r_sigData _) as [d|]; [|by right]. simpl.
  destruct (uw_ProposalData d) as [p|]; [by right|by left].
Qed.

Lemma runConsolidationSession_inputs pub leader sent dist cancelled inTime inp e n :
  let o := runConsolidationSession pub leader sent dist cancelled inTime inp in
  o = Finished (e, n) ∨ o = StillWaiting (e, n) →
  n = agreed (λ d, rp_SigData <$> us_ProposalData d) (in_consensus inp).
Proof.
  unfold runConsolidationSession, agreed.
  destruct (r_err _); [by intros [[= _ <-]|]|].
  destruct (r_sigData _) as [d|]; [|by intros [[= _ <-]|]].
  destruct (us_ProposalData d) as [p|]; [|by intros []]. cbn.
  repeat case_match; intros [|]; simplify_eq; done.
Qed.

Lemma runRound_inputs pub isLeader dist id r s :
  let '(o, n) := runRound pub isLeader dist id r s in
  match o with Finished _ | StillWaiting _ => n = round_inputs r | _ => True end.
Proof.
  unfold runRound, round_inputs. destruct (ur_unspentCount r) as [c|e|]; [| |done].
  1: destruct (isSignSession (Ok c)).
  2: { pose proof (runConsolidationSession_inputs pub (isLeader id) (ur_sent r) (dist id)
         (ur_cancelledAfter r) (ur_inTime r) (ur_consolidation r)) as Hi.
       destruct (runConsolidationSession _ _ _ _ _ _ _) as [[e n]|[e n]| |]; [..|done|done];
         eapply Hi; by eauto. }
  all: simpl.
  all: pose proof (runSigningSession_inputs pub (isLeader id) (ur_sent r) (dist id)
         (ur_cancelledAfter r) (ur_signing r) s) as Hi.
  all: destruct (runSigningSession _ _ _ _ _ _ _) as [[] n]; by destruct Hi.
Qed.

Lemma runRound_writes pub isLeader dist id r s s' :
  outcome_state (runRound pub isLeader dist id r s).1 = Some s' → star session_write s s'.
Proof.
  unfold runRound.
  destruct (ur_unspentCount r) as [c|e|]; [destruct (isSignSession (Ok c))| |done];
    try apply runSigningSession_writes.
  destruct (runConsolidationSession _ _ _ _ _ _ _) as [[? ?]|[? ?]| |]; try done;
    intros [= <-]; constructor.
Qed.

End lemmas.

(** ** Theorems *)

Section theorems.
Context `{Bech32, Crypto, SigLib, WireLib, !UtxoHelper} {St : Type} `{!DepositsQ St, !DepositsSpec St}.
Variable World : BridgeCore → Repository → Prop.
Variables (tssPub : ECDSAPub) (isLeader : string → bool) (dist : string → SignaturesDistributor).
Implicit Types (rounds : list (UtxoRound St)) (s : St).

Lemma utxo_loop_complete rounds : ∀ l s l' s',
  utxo_loop tssPub isLeader dist rounds l s = Finished (l', s') →
  l' = foldl utxo_session l (loop_inputs rounds).
Proof.
  induction rounds as [|r rounds IH]; intros l s l' s'; simpl; [done|].
  destruct (ur_cancelled r); [by intros [= <- _]|].
  pose proof (runRound_inputs tssPub isLeader dist (ul_id l) r (ur_others r s)) as Hi.
  destruct (runRound _ _ _ _ _ _) as [[[]|[s1 e]| |] n]; try done. simpl. rewrite <- Hi. apply IH.
Qed.

Lemma utxo_loop_writes rounds :
  Forall (λ r, ∀ s, star (node_write World) s (ur_others r s)) rounds → ∀ l s s',
  outcome_state (match utxo_loop tssPub isLeader dist rounds l s with
                 | Finished (_, s) => Finished (s, None) | StillWaiting (_, s) => StillWaiting (s, None)
                 | Blocked => Blocked | Crashed => Crashed end) = Some s' →
  star (node_write World) s s'.
Proof.
  induction 1 as [|r rounds Hr _ IH]; intros l s s'; simpl; [intros [= <-]; constructor|].
  destruct (ur_cancelled r); [intros [= <-]; apply Hr|].
  pose proof (runRound_writes tssPub isLeader dist (ul_id l) r (ur_others r s)) as Hw.
  destruct (runRound _ _ _ _ _ _) as [[[s1 e]|[s1 e]| |] n]; simpl; [| |done..]; intros Ho;
    (eapply star_trans; [apply Hr|]).
  - injection Ho as <-. by apply session_writes_node, Hw.
  - eapply star_trans; [by apply session_writes_node, Hw|by eapply IH].
Qed.

(** C37: The loop of the UTXO sessions.  [Run] refuses a start in the past and nothing else.
    Under any interleaving with the node's other components, whatever its signing and
    consolidation sessions do, its effect on the database is a sequence of writes that the
    node may do.  An error of a session does not stop it; when it is cancelled, its state is a
    function of the numbers of inputs that the consensus of each session agreed to sign, so
    that two nodes that agreed on the same data are at the same point: the identifiers were
    consecutive, and every session started after the bounds of all phases of the one before,
    with one signing bound and one delay for each of its inputs. *)
Theorem utxo_loop_runs now params rounds s :
  Forall (λ r, ∀ s, star (node_write World) s (ur_others r s)) rounds →
  (ps_StartTime (sp_Params params) ≤ now ∧
   utxo_Run tssPub isLeader dist now params rounds s = Err (ENew "target time is in the past")) ∨
  (now < ps_StartTime (sp_Params params) ∧
   ∃ o, utxo_Run tssPub isLeader dist now params rounds s = Ok o ∧
    (∀ l' s', o = Finished (l', s') ∨ o = StillWaiting (l', s') → star (node_write World) s s') ∧
    (∀ l' s', o = Finished (l', s') →
       let sessions := loop_inputs rounds in
       let n := Z.of_nat (length sessions) in
       l' = foldl utxo_session (utxo_init params) sessions ∧
       (Forall few_inputs sessions →
        ul_next l' = ps_StartTime (sp_Params params) + foldr (λ i t, session_span i + t) 0 sessions) ∧
       (str_elem underscore (sp_ChainId params) = false → in_int64 (ps_Id (sp_Params params)) →
        ps_Id (sp_Params params) + n ≤ max_int64 →
        ul_id l' = GetConcreteSigningSessionIdentifier (sp_ChainId params) (ps_Id (sp_Params params) + n)))).
Proof.
  intros Hr. unfold utxo_Run. cbn [utxo_init ul_next].
  destruct (Z.leb_spec (ps_StartTime (sp_Params params) - now) 0); [left; split; [lia|done]|right].
  split; [lia|]. eexists. split; [done|]. split.
  - intros l' s' Ho. apply (utxo_loop_writes rounds Hr (utxo_init params)). by destruct Ho as [->| ->].
  - intros l' s' Ho. apply utxo_loop_complete in Ho as ->. split; [done|]. split.
    + intros Hf. by rewrite sessions_start.
    + intros Hc Hid Hn. by apply sessions_id.
Qed.

End theorems.

(** A node for which the consensus of a session failed, while the others agreed to sign [n]
    inputs, starts every later session earlier than they do, by the bounds of all inputs but
    one: nothing in the loop brings the start times together again. *)
Theorem utxo_missed_consensus_drifts l n later :
  0 ≤ n < 2 ^ 29 → Forall few_inputs later →
  ul_next (foldl utxo_session l (Some n :: later)) - ul_next (foldl utxo_session l (None :: later)) =
    (Z.max n 1 - 1) * (BoundarySign + BoundaryBitcoinSignRoundDelay).
Proof.
  intros Hn Hl. rewrite !sessions_start by by constructor. simpl foldr.
  unfold session_span, getSigningPhaseDelay.
  assert (BoundarySign = 13000000000) as -> by done.
  assert (BoundaryBitcoinSignRoundDelay = 500000000) as -> by done.
  destruct (Z.leb_spec n 1); [lia|]. rewrite !int64_ok by (rewrite ?int64_ok by lia; lia). lia.
Qed.

(** ** Witness *)

Section witness.
Import SampleSigning SampleIntake SampleSessions.

(** A signing session that fails in its first round, a consolidation without data, then the
    loop is cancelled. *)
Definition w_utxo_round (cancelled : bool) (unspent : Z) : UtxoRound Table :=
  {| ur_others := λ s, s; ur_cancelled := cancelled; ur_unspentCount := Ok unspent;
     ur_signing := SampleSigning.input SampleSessions.data None;
     ur_consolidation :=
       {| in_consensus := {| r_sigData := None; r_signers := None; r_err := None |};
          in_signature := λ _, None; in_init := None; in_relays := no_relays; in_timing := InTime |};
     ur_cancelledAfter := λ _, false; ur_inTime := true; ur_sent := None |}.
Definition w_utxo_rounds : list (UtxoRound Table) :=
  [w_utxo_round false 1; w_utxo_round false (ConsolidationThreshold + 1); w_utxo_round true 1].
Definition w_utxo_params : SigningParams :=
  {| sp_Params := {| ps_Id := 5; ps_StartTime := 10; ps_Threshold := 1 |}; sp_ChainId := "0" |}.
Definition w_utxo_run := utxo_Run (tt : @ECDSAPub SampleSigning.lib) (λ _, true) (λ _, SampleSigning.distributor)
  0 w_utxo_params w_utxo_rounds SampleSigning.table.

Lemma w_utxo_rounds_end : match w_utxo_run with Ok (Finished _) => true | _ => false end = true.
Proof. vm_compute. reflexivity. Qed.

Lemma utxo_loop_runs_witness : ∃ l s,
  w_utxo_run = Ok (Finished (l, s)) ∧ ul_id l = "SIGN_0_7"%string ∧
  ul_next l = 10 + session_span (Some 2) + session_span None ∧
  star (node_write SampleIntake.world) SampleSigning.table s.
Proof.
  assert (Forall (λ r : UtxoRound Table, ∀ s, star (node_write SampleIntake.world) s (ur_others r s))
            w_utxo_rounds) as Hothers by (repeat constructor).
  destruct (utxo_loop_runs (St:=Table) SampleIntake.world (tt : @ECDSAPub SampleSigning.lib) (λ _, true)
    (λ _, SampleSigning.distributor) 0 w_utxo_params w_utxo_rounds SampleSigning.table Hothers)
    as [[Hn _]|(_ & o & Ho & Hr & Hf)].
  - vm_compute in Hn. destruct (Hn eq_refl).
  - pose proof w_utxo_rounds_end as Hend. unfold w_utxo_run in *. rewrite Ho in Hend.
    assert (∃ l s, o = Finished (l, s)) as (l & s & ->)
      by (clear -Hend; destruct o as [|[l s]| |]; try discriminate; by exists l, s).
    exists l, s. split; [exact Ho|]. destruct (Hf l s eq_refl) as (_ & Ht & Hid).
    split; [apply Hid; [reflexivity|..]; vm_compute; [split|]; discriminate|].
    split; [|by eapply Hr; left].
    rewrite Ht; [reflexivity|]. repeat constructor; vm_compute; congruence.
Defined.

End witness.
