(* ===== verification/Config.v ===== *)
(** * The configured parties, the P2P server, and the commands that parse keys

    Models how the entries of the configuration become parties with their TLS connections
    ([internal/p2p/config/party.go]), the creation of the P2P server from them and its status
    ([internal/p2p/server.go]), the connection to the core
    ([internal/core/connector/config/config.go]), and the commands under
    [cmd/helpers/parse].

    figure's decoding, the dialing of gRPC and the curve's encoding are parameters. *)

From S2P Require Import Prelude Core Session Deposits Fetcher Signing Utxo Intake Node Service NodeRpc.
#[local] Open Scope Z_scope.

(** ** p2p/config *)

(** An entry of the list of parties. *)
Record PartyConf := { pc_CoreAddress : Address; pc_Connection : string; pc_TlsCertificatePath : string }.

(** [grpc.NewClient] with its TLS credentials: the certificates that the peer's chain must
    lead to, and the certificate that the node shows. *)
Record ClientConn (Cert : Type) := { cc_target : string; cc_RootCAs : list bytes; cc_Certificates : list Cert }.
Arguments cc_target {_} _.
Arguments cc_RootCAs {_} _.
Arguments cc_Certificates {_} _.

(** A party with its connection and its certificate. *)
Record ConfiguredParty (Cert : Type) := {
  cp_party : Party; cp_connection : ClientConn Cert; cp_pemCert : bytes }.
Arguments cp_party {_} _.
Arguments cp_connection {_} _.
Arguments cp_pemCert {_} _.

Class PartyFigure (Raw : Type) := {
  (** the list of the entries, and the text fields of an entry *)
  raw_list : Raw → option (list Raw);
  raw_party : Raw → option (string * string * string);
  (** [grpc.NewClient] accepts the target *)
  grpc_target : string → bool }.

Section parties.
Context `{Bech32, X509, SecretsCodec, !KeyLib} {V : Type} `{!KVv2 V} {Raw : Type} `{!PartyFigure Raw}.
Implicit Types (storage : V) (raw : Raw).

(** [os.ReadFile] *)
Variable readFile : string → option bytes.

(** [figure] with [core.AddressHook] *)
Definition decodeParty raw : res PartyConf :=
  match raw_party raw with
  | None => Err (ENew "failed to unmarshal party")
  | Some (address, connection, path) =>
      addr ← wrap (Addr.FromString address) "failed to unmarshal address";
      Ok {| pc_CoreAddress := addr; pc_Connection := connection; pc_TlsCertificatePath := path |}
  end.

Definition configureConnection (party : PartyConf) (partyCertPEM : bytes) storage : res (ClientConn Certificate_t) :=
  selfCert ← wrap (GetLocalPartyTlsCertificate storage) "failed to get local party tls certificate";
  if negb (AppendCertsFromPEM partyCertPEM) then Err (ENew "invalid party certificate")
  else if grpc_target (pc_Connection party)
  then Ok {| cc_target := pc_Connection party; cc_RootCAs := [partyCertPEM]; cc_Certificates := [selfCert] |}
  else Err (ENew "grpc: invalid target").

(** [NewParty] panics on an address that does not decode. *)
Definition partyHook storage raw : res (ConfiguredParty Certificate_t) :=
  partyConf ← wrap (decodeParty raw) "failed to unmarshal party";
  partyCert ← of_option (readFile (pc_TlsCertificatePath partyConf)) "failed to read party certificate";
  conn ← wrap (configureConnection partyConf partyCert storage) "failed to connect party";
  party ← NewParty (pc_CoreAddress partyConf);
  Ok {| cp_party := party; cp_connection := conn; cp_pemCert := partyCert |}.

Fixpoint hookAll storage (raws : list Raw) : res (list (ConfiguredParty Certificate_t)) :=
  match raws with
  | [] => Ok []
  | raw :: rest => p ← partyHook storage raw; ps ← hookAll storage rest; Ok (p :: ps)
  end.

(** [Parties]: any error is a panic. *)
Definition Parties storage raw : res (list (ConfiguredParty Certificate_t)) :=
  match raw_list raw with
  | None => Panic
  | Some raws => match hookAll storage raws with Ok ps => Ok ps | _ => Panic end
  end.

(** ** p2p/server.go *)

Record P2PServer := {
  ps_status : PartyStatus; ps_authParties : gmap string Address;
  ps_ClientCAs : list bytes; ps_Certificates : list Certificate_t }.

Definition NewP2PServer (parties : list (ConfiguredParty Certificate_t)) (tlsCert : Certificate_t) : res P2PServer :=
  match ConfigurePartiesCertPool ((λ p, (cp_party p, cp_pemCert p)) <$> parties) with
  | Ok authorizedParties =>
      Ok {| ps_status := PS_UNKNOWN; ps_authParties := authorizedParties;
            ps_ClientCAs := cp_pemCert <$> parties; ps_Certificates := [tlsCert] |}
  | _ => Panic
  end.

Definition SetStatus (status : PartyStatus) (s : P2PServer) : P2PServer :=
  {| ps_status := status; ps_authParties := ps_authParties s; ps_ClientCAs := ps_ClientCAs s;
     ps_Certificates := ps_Certificates s |}.

Definition server_Status (s : P2PServer) : PartyStatus := ps_status s.

(** The server of a node in the given state, from its configuration. *)
Definition configured_server storage raw (status : PartyStatus) : res P2PServer :=
  cert ← wrap (GetLocalPartyTlsCertificate storage) "failed to get local party TLS certificate";
  parties ← Parties storage raw;
  server ← NewP2PServer parties cert;
  Ok (SetStatus status server).

(** ** Theorems *)

(** The entry of the configuration that an element of the result is made of. *)
Definition made_of storage raw (p : ConfiguredParty Certificate_t) : Prop :=
  ∃ address connection path self,
    raw_party raw = Some (address, connection, path) ∧ readFile path = Some (cp_pemCert p) ∧
    GetLocalPartyTlsCertificate storage = Ok self ∧ AppendCertsFromPEM (cp_pemCert p) = true ∧
    CoreAddress (cp_party p) = address ∧ is_Some (bech32_decode address) ∧
    cp_connection p = {| cc_target := connection; cc_RootCAs := [cp_pemCert p]; cc_Certificates := [self] |}.

Lemma FromString_decodes s a : Addr.FromString s = Ok a → a = s ∧ is_Some (bech32_decode s).
Proof.
  unfold Addr.FromString, Addr.Validate. destruct (bech32_decode s) eqn:E; simpl; [|done].
  intros [= <-]. by split.
Qed.

Lemma partyHook_made storage raw p : partyHook storage raw = Ok p → made_of storage raw p.
Proof.
  unfold partyHook, decodeParty, configureConnection. intros Hok.
  apply bind_Ok in Hok as (conf & Hconf & Hok). apply wrap_Ok in Hconf.
  destruct (raw_party raw) as [[[address connection] path]|] eqn:Hraw; [|done].
  apply bind_Ok in Hconf as (addr & Haddr & Hconf). apply wrap_Ok in Haddr.
  apply FromString_decodes in Haddr as [-> Hdec]. apply (inj Ok) in Hconf as <-. simpl in Hok.
  apply bind_Ok in Hok as (cert & Hcert & Hok). apply bind_Ok in Hok as (conn & Hconn & Hok).
  apply bind_Ok in Hok as (party & Hparty & Hok). apply (inj Ok) in Hok as <-. apply wrap_Ok in Hconn.
  apply bind_Ok in Hconn as (self & Hself & Hconn). apply wrap_Ok in Hself.
  destruct (AppendCertsFromPEM cert) eqn:Ha; [|done]. simpl in Hconn.
  destruct (grpc_target connection); [|done]. apply (inj Ok) in Hconn as <-.
  unfold NewParty in Hparty. apply bind_Ok in Hparty as (id & _ & Hparty). apply (inj Ok) in Hparty as <-.
  exists address, connection, path, self. destruct (readFile path); [|done]. apply (inj Ok) in Hcert as ->. done.
Qed.

Lemma hookAll_made storage raws ps : hookAll storage raws = Ok ps → Forall2 (made_of storage) raws ps.
Proof.
  revert ps. induction raws as [|raw raws IH]; intros ps Hok; simpl in Hok.
  - apply (inj Ok) in Hok as <-. constructor.
  - apply bind_Ok in Hok as (p & Hp & Hok). apply bind_Ok in Hok as (qs & Hqs & Hok).
    apply (inj Ok) in Hok as <-. constructor; [by apply partyHook_made|by apply IH].
Qed.

(** C17: From the configuration file to a request: a node that starts has one party per entry,
    dialed at the entry's address, shown the node's own certificate and verified against the
    certificate of the entry's file alone; and a request that its server passes to a session
    comes from a peer that owns the key of the certificate of an entry whose address is the
    sender. *)
Theorem config_authenticates storage cfg status server receive m p rq :
  configured_server storage cfg status = Ok server →
  Submit (ps_authParties server) receive m p (Some rq) = ROk tt →
  ∃ raws parties, raw_list cfg = Some raws ∧ Forall2 (made_of storage) raws parties ∧
    ps_ClientCAs server = cp_pemCert <$> parties ∧ server_Status server = status ∧
    ∃ raw connection path pem cert certs key own,
      raw ∈ raws ∧ raw_party raw = Some (rq_Sender rq, connection, path) ∧ readFile path = Some pem ∧
      p = TLSPeer (cert :: certs) ∧ MarshalPKIXPublicKey cert = Ok key ∧
      parsePEMCertificate pem = Ok own ∧ MarshalPKIXPublicKey own = Ok key.
Proof.
  unfold configured_server. intros Hok Hsub. apply bind_Ok in Hok as (self & _ & Hok).
  apply bind_Ok in Hok as (parties & Hp & Hok). apply bind_Ok in Hok as (s0 & Hs & Hok).
  apply (inj Ok) in Hok as <-. unfold NewP2PServer in Hs.
  destruct (ConfigurePartiesCertPool _) as [auth| |] eqn:Hauth; [|done..]. apply (inj Ok) in Hs as <-.
  unfold Parties in Hp. destruct (raw_list cfg) as [raws|]; [|done].
  destruct (hookAll storage raws) as [ps| |] eqn:Hh; [|done..]. apply (inj Ok) in Hp as ->.
  apply hookAll_made in Hh. exists raws, parties. split_and!; [done..|].
  destruct (submit_authorized _ _ _ _ _ _ Hauth Hsub)
    as ((cert & certs & key & party & pem & own & Hpeer & Hkey & Hin & Hown & Hk & Haddr) & _).
  apply list_elem_of_fmap in Hin as (cp & [= -> ->] & Hin).
  apply list_elem_of_lookup_1 in Hin as [n Hn].
  destruct (Forall2_lookup_r _ _ _ _ _ Hh Hn) as (raw & Hraw & address & connection & path & self' & Hr & Hf & _ & _ & Ha & _).
  apply list_elem_of_lookup_2 in Hraw. rewrite <- Haddr, Ha.
  by exists raw, connection, path, (cp_pemCert cp), cert, certs, key, own.
Qed.

End parties.

(** ** core/connector/config *)

(** The security of the connection to the core: [tls.Config] with [VersionTLS13], or none. *)
Inductive Security := Insecure | TLS13.

Record ConnectionConf := { cf_Addr : string; cf_EnableTLS : bool }.

Definition CoreConnectorConfig (dial : string → bool) (cfg : option (Settings * ConnectionConf))
    : res (Settings * (string * Security)) :=
  match cfg with
  | None => Panic
  | Some (settings, connection) =>
      if dial (cf_Addr connection)
      then Ok (settings, (cf_Addr connection, if cf_EnableTLS connection then TLS13 else Insecure))
      else Panic
  end.

(** ** cmd/helpers/parse *)

(** [elliptic.Marshal] panics on a point that is not on the curve. *)
Class CurveLib := {
  OnCurve : Z → Z → bool;
  (** the 65 bytes of a point of the curve, and the 33 of the compressed one *)
  MarshalPoint : Z → Z → bytes;
  UnmarshalPubkey : bytes → option (Z * Z);
  CompressPoint : Z * Z → bytes;
  Keccak256 : bytes → bytes;
  (** [common.BytesToAddress(b).Hex()] *)
  AddressHex : bytes → string }.

Class CurveLibSpec `{CurveLib} : Prop := {
  (** the points have positive coordinates of 32 bytes *)
  marshalled x y : OnCurve x y = true →
    ∃ rest, MarshalPoint x y = Byte.x04 :: rest ∧ UnmarshalPubkey (MarshalPoint x y) = Some (x, y) }.

Section parse.
Context `{CurveLib, sigLib : SigLib}.

Definition Marshal (x y : Z) : res bytes := if OnCurve x y then Ok (MarshalPoint x y) else Panic.

Definition parseCoordinates (args : string * string) : res (Z * Z) :=
  x ← of_option (parse_Z (fst args)) "failed to parse x-cord";
  y ← of_option (parse_Z (snd args)) "failed to parse y-cord";
  Ok (x, y).

(** The commands print and return nothing else. *)
Definition parse_address_eth (args : string * string) : res string :=
  xy ← parseCoordinates args;
  marshalled ← Marshal (fst xy) (snd xy);
  Ok ("Ethereum address: " +:+ AddressHex (drop 12 (Keccak256 (drop 1 marshalled))))%string.

Definition parse_pubkey (args : string * string) : res (list string) :=
  xy ← parseCoordinates args;
  marshalled ← Marshal (fst xy) (snd xy);
  match UnmarshalPubkey marshalled with
  | None => Err (ENew "failed to unmarshal pubkey")
  | Some key => Ok [("Pubkey: " +:+ Signing.hexutil_Encode (drop 1 marshalled))%string;
                    ("Compressed: " +:+ Signing.hexutil_Encode (CompressPoint key))%string]
  end.

(** A pair of coordinates as a key of the library; it is not checked to be on the curve. *)
Definition parse_address_utxo `{WireLib, !GoSort, Btc.BtcLib, Bch.BchLib, !ChainParams}
    (ecdsa_PublicKey : Z → Z → ECDSAPub) (network chain : string) (args : string * string) : res string :=
  xy ← parseCoordinates args;
  match network_Validate network with
  | Some e => Err (EWrap e "invalid network type")
  | None =>
      match chain_Validate chain with
      | Some e => Err (EWrap e "invalid chain type")
      | None =>
          hlp ← NewUtxoHelper chain network;
          Ok ("Utxo address: " +:+ P2pkhAddress (UtxoHelper:=hlp) (ecdsa_PublicKey (fst xy) (snd xy)))%string
      end
  end.

(** On a point of the curve, given in decimal, the key is printed without its first byte. *)
Lemma parse_pubkey_point `{!CurveLibSpec} x y :
  OnCurve x y = true →
  ∃ rest, MarshalPoint x y = Byte.x04 :: rest ∧
    parse_pubkey (print_Z x, print_Z y) =
      Ok [("Pubkey: " +:+ Signing.hexutil_Encode rest)%string;
          ("Compressed: " +:+ Signing.hexutil_Encode (CompressPoint (x, y)))%string].
Proof.
  intros Hc. destruct (marshalled x y Hc) as (rest & Hm & Hu). exists rest. split; [done|].
  unfold parse_pubkey, parseCoordinates, Marshal. simpl. rewrite !parse_print_Z. simpl. rewrite Hc. simpl.
  by rewrite Hu, Hm.
Qed.

(** The printed coordinates of a stored share are those the command takes; one off the curve
    is a panic, not an error. *)
Lemma parse_off_curve x y : OnCurve x y = false → parse_pubkey (print_Z x, print_Z y) = Panic.
Proof.
  intros Hc. unfold parse_pubkey, parseCoordinates, Marshal. simpl. rewrite !parse_print_Z. simpl. by rewrite Hc.
Qed.

End parse.

(** ** Witness *)

Section witness.
#[local] Existing Instances Node.sample_x509 sample_bech32 Service.w_kv Service.w_keys Service.w_codec.

(** The configuration is a list of words, the file of a party holds its name. *)
Inductive WRaw := WList (l : list WRaw) | WParty (address : string).
#[local] Instance w_party_figure : PartyFigure WRaw := {|
  raw_list := λ r, match r with WList l => Some l | _ => None end;
  raw_party := λ r, match r with WParty a => Some (a, (a +:+ ":9090")%string, (a +:+ ".pem")%string) | _ => None end;
  grpc_target := λ _, true |}.
Definition w_read (path : string) : option bytes := Some (bytes_of_string path).
Definition w_cfg : WRaw := WList [WParty "alice"; WParty "bob"].
Definition w_registry : gmap string nat := <["SIGN_1_7"%string := 3%nat]> ∅.
Definition w_p2p : res P2PServer := configured_server w_read w_s4 w_cfg PS_SIGN.

Lemma w_p2p_submits :
  match w_p2p with
  | Ok server => Submit (ps_authParties server) (λ _ _, Ok tt) w_registry (TLSPeer (H:=Node.sample_x509) ["alice.pem"%string]) (Some sample_request)
  | _ => RPanic
  end = ROk tt.
Proof. vm_compute. reflexivity. Qed.

Lemma config_authenticates_witness : ∃ server raws parties,
  w_p2p = Ok server ∧ raw_list w_cfg = Some raws ∧ Forall2 (made_of w_read w_s4) raws parties ∧
  server_Status server = PS_SIGN.
Proof.
  pose proof w_p2p_submits as Hsub. destruct w_p2p as [server| |] eqn:E; [|discriminate..].
  destruct (config_authenticates w_read w_s4 w_cfg PS_SIGN server (λ _ _, Ok tt) w_registry
    (TLSPeer (H:=Node.sample_x509) ["alice.pem"%string]) sample_request E Hsub) as (raws & parties & Hr & Hp & _ & Hs & _).
  exists server, raws, parties. split; [reflexivity|]. split; [exact Hr|]. split; [exact Hp|exact Hs].
Defined.

End witness.
