(* ===== verification/Workers.v ===== *)
(** * The background goroutines of a node, interleaved at their database calls

    Models the four goroutines that run beside the signing sessions: [Run] of
    [internal/tss/session/distributor/distributor.go] starts [runDistributor] and
    [runAcceptor], [Run] of [internal/core/subscriber/main.go] starts [run] and
    [runSubmitter].  [Intake] has one iteration of each as a function; here an iteration is
    a sequence of steps, one per call of the database, of a chain, of the core or of a peer,
    so that the other goroutines, the API and the sessions write between a goroutine's read
    and its write.  The process may be killed and started again at any point.  The theorems
    show that the writes are still those of [node_write], and that a row is marked as
    submitted or distributed only after that happened. *)

From S2P Require Import Prelude Core Deposits Broadcast Consensus Fetcher Withdrawal.
From S2P Require Import Mechanism Signing Utxo UtxoWithdrawal Sessions Intake.
#[local] Open Scope Z_scope.

(** ** Constructors *)

Definition DepositAcceptorSessionIdentifier : string := "DEPOSIT_DISTRIBUTION".

(** [NewDepositDistributionSession]: the set of the parties' addresses. *)
Definition NewDepositDistributionSession (distributors : list Party) : gset Address :=
  list_to_set (CoreAddress <$> distributors).

Definition distribution_Id (_ : gset Address) : string := DepositAcceptorSessionIdentifier.

(** The capacity of [d.msgs]. *)
Definition distributionCapacity : nat := 100.

(** [SigningSessionInfo] is a no-op. *)
Definition distribution_SigningSessionInfo (_ : gset Address) : option Session.SigningSessionInfo := None.

(** The query of [NewSubmitEventSubscriber]. *)
Definition subscriberQuery (eventType attributeKeyDepositTxHash : string) : string :=
  "tm.event='Tx' AND " +:+ eventType +:+ "." +:+ attributeKeyDepositTxHash +:+ " EXISTS".

(** [Run] of the subscriber: without a subscription nothing is started. *)
Definition subscriber_started {A} (subscribed : res A) : res A := wrap subscribed "subscriber init failed".

(** ** The goroutines *)

Inductive DistributorAt := DWait (cooldown : Z) | DFound (d : Deposit) | DSent (d : Deposit) | DReturned.
Inductive AcceptorAt :=
| AWait | ARead (i : DepositIdentifier) | AFetch (i : DepositIdentifier) | AInsert (d : Deposit) | AReturned.
Inductive SubmitterAt := SWait (cooldown : Z) | SFound (d : Deposit) | SAccepted (d : Deposit) | SReturned.
Inductive SubscriberAt :=
| EWait | ERead (d : Deposit) | EInsert (d : Deposit) | EUpdate (i : DepositIdentifier) (d : Deposit) | EReturned.

Section workers.
Context {St : Type} `{Bech32, CoreEvents, !DepositsQ St}.
Variable World : BridgeCore → Repository → Prop.
Variable distributors : list Party.

Record Workers := {
  wk_db : St;
  wk_done : bool;
  wk_crashed : bool;
  wk_msgs : list DistributedDepositMsg;
  wk_distributor : DistributorAt;
  wk_acceptor : AcceptorAt;
  wk_submitter : SubmitterAt;
  wk_subscriber : SubscriberAt;
  (** what has been broadcast, accepted by the core and announced by its events *)
  wk_sent : list Deposit;
  wk_accepted : list Deposit;
  wk_events : list Deposit }.

(** The process starts with a database and the history of the earlier ones. *)
Definition workers_start (s : St) (sent accepted events : list Deposit) : Workers :=
  {| wk_db := s; wk_done := false; wk_crashed := false; wk_msgs := [];
     wk_distributor := DWait 0; wk_acceptor := AWait; wk_submitter := SWait 0; wk_subscriber := EWait;
     wk_sent := sent; wk_accepted := accepted; wk_events := events |}.

Definition set_db (s : St) (w : Workers) : Workers :=
  {| wk_db := s; wk_done := wk_done w; wk_crashed := wk_crashed w; wk_msgs := wk_msgs w;
     wk_distributor := wk_distributor w; wk_acceptor := wk_acceptor w; wk_submitter := wk_submitter w;
     wk_subscriber := wk_subscriber w; wk_sent := wk_sent w; wk_accepted := wk_accepted w;
     wk_events := wk_events w |}.
Definition set_stopped (done crashed : bool) (w : Workers) : Workers :=
  {| wk_db := wk_db w; wk_done := done; wk_crashed := crashed; wk_msgs := wk_msgs w;
     wk_distributor := wk_distributor w; wk_acceptor := wk_acceptor w; wk_submitter := wk_submitter w;
     wk_subscriber := wk_subscriber w; wk_sent := wk_sent w; wk_accepted := wk_accepted w;
     wk_events := wk_events w |}.
Definition set_distributor (a : DistributorAt) (sent : list Deposit) (w : Workers) : Workers :=
  {| wk_db := wk_db w; wk_done := wk_done w; wk_crashed := wk_crashed w; wk_msgs := wk_msgs w;
     wk_distributor := a; wk_acceptor := wk_acceptor w; wk_submitter := wk_submitter w;
     wk_subscriber := wk_subscriber w; wk_sent := sent ++ wk_sent w; wk_accepted := wk_accepted w;
     wk_events := wk_events w |}.
Definition set_acceptor (a : AcceptorAt) (msgs : list DistributedDepositMsg) (w : Workers) : Workers :=
  {| wk_db := wk_db w; wk_done := wk_done w; wk_crashed := wk_crashed w; wk_msgs := msgs;
     wk_distributor := wk_distributor w; wk_acceptor := a; wk_submitter := wk_submitter w;
     wk_subscriber := wk_subscriber w; wk_sent := wk_sent w; wk_accepted := wk_accepted w;
     wk_events := wk_events w |}.
Definition set_submitter (a : SubmitterAt) (accepted : list Deposit) (w : Workers) : Workers :=
  {| wk_db := wk_db w; wk_done := wk_done w; wk_crashed := wk_crashed w; wk_msgs := wk_msgs w;
     wk_distributor := wk_distributor w; wk_acceptor := wk_acceptor w; wk_submitter := a;
     wk_subscriber := wk_subscriber w; wk_sent := wk_sent w; wk_accepted := accepted ++ wk_accepted w;
     wk_events := wk_events w |}.
Definition set_subscriber (a : SubscriberAt) (events : list Deposit) (w : Workers) : Workers :=
  {| wk_db := wk_db w; wk_done := wk_done w; wk_crashed := wk_crashed w; wk_msgs := wk_msgs w;
     wk_distributor := wk_distributor w; wk_acceptor := wk_acceptor w; wk_submitter := wk_submitter w;
     wk_subscriber := a; wk_sent := wk_sent w; wk_accepted := wk_accepted w;
     wk_events := events ++ wk_events w |}.

(** *** runDistributor *)

Inductive runDistributor : Workers → Workers → Prop :=
| rd_done w c :
    wk_distributor w = DWait c → wk_done w = true → runDistributor w (set_distributor DReturned [] w)
| rd_select w c :
    wk_distributor w = DWait c →
    runDistributor w (set_distributor
      match q_GetWithSelector distributorSelector (wk_db w) with None => DWait 5 | Some d => DFound d end [] w)
| rd_broadcast w d :
    wk_distributor w = DFound d → runDistributor w (set_distributor (DSent d) [d] w)
| rd_update w d :
    wk_distributor w = DSent d →
    runDistributor w
      match q_UpdateDistributedStatus (d_ident d) true (wk_db w) with
      | Ok s => set_distributor (DWait 0) [] (set_db s w)
      | _ => set_distributor (DWait 5) [] w
      end.

(** *** runAcceptor *)

(** What the acceptor does with the answer of [FetchDeposit]; [None] is a panic. *)
Definition fetchedNext (i : DepositIdentifier) (r : res Deposit) : option AcceptorAt :=
  match r with
  | Ok d => Some (AInsert (set_Distributed true d))
  | Err e =>
      if ChainErrors.IsPendingDepositError e then Some AWait
      else if ChainErrors.IsInvalidDepositError e || CoreErrors.IsInvalidDepositError e
      then Some (AInsert (invalid_deposit i)) else Some AWait
  | Panic => None
  end.

Inductive runAcceptor : Workers → Workers → Prop :=
| ra_done w : wk_acceptor w = AWait → wk_done w = true → runAcceptor w (set_acceptor AReturned (wk_msgs w) w)
| ra_read w msg rest :
    wk_acceptor w = AWait → wk_msgs w = msg :: rest →
    runAcceptor w (set_acceptor (ARead (GetIdentifier msg)) rest w)
| ra_get w i :
    wk_acceptor w = ARead i →
    runAcceptor w (set_acceptor match q_Get i (wk_db w) with Some _ => AWait | None => AFetch i end (wk_msgs w) w)
| ra_fetch w i (core : BridgeCore) clients :
    wk_acceptor w = AFetch i → World core clients →
    runAcceptor w
      match fetchedNext i (FetchDeposit clients i) with
      | Some a => set_acceptor a (wk_msgs w) w
      | None => set_stopped (wk_done w) true w
      end
| ra_insert w d :
    wk_acceptor w = AInsert d →
    runAcceptor w (set_acceptor AWait (wk_msgs w) (set_db (fst (q_Insert d (wk_db w))) w)).

(** *** runSubmitter *)

Definition submissionDone (answer : option error) : bool :=
  match answer with None => true | Some e => errors_Is e ErrTransactionAlreadySubmitted end.

Inductive runSubmitter : Workers → Workers → Prop :=
| rs_done w c :
    wk_submitter w = SWait c → wk_done w = true → runSubmitter w (set_submitter SReturned [] w)
| rs_select w c :
    wk_submitter w = SWait c →
    runSubmitter w (set_submitter
      match q_GetWithSelector submitterSelector (wk_db w) with None => SWait 5 | Some d => SFound d end [] w)
| rs_submit w d (answer : Transaction → option error) :
    wk_submitter w = SFound d →
    runSubmitter w
      (if submissionDone (answer (ToTransaction d)) then set_submitter (SAccepted d) [d] w
       else set_submitter (SWait 5) [] w)
| rs_update w d :
    wk_submitter w = SAccepted d →
    runSubmitter w
      match q_UpdateSubmittedStatus (d_ident d) true (wk_db w) with
      | Ok s => set_submitter (SWait 0) [] (set_db s w)
      | _ => set_submitter (SWait 0) [] w
      end.

(** *** run *)

(** What [run] does once it has read the row. *)
Definition eventNext (d : Deposit) (existing : option Deposit) : SubscriberAt :=
  match existing with
  | None => EInsert d
  | Some e =>
      match d_WithdrawalStatus e with
      | WS_PROCESSING | WS_PENDING => EUpdate (d_ident e) d
      | _ => EWait
      end
  end.

Inductive run : Workers → Workers → Prop :=
| re_done w : wk_subscriber w = EWait → wk_done w = true → run w (set_subscriber EReturned [] w)
| re_closed w : wk_subscriber w = EWait → run w (set_subscriber EReturned [] w)
| re_event w attributes :
    wk_subscriber w = EWait →
    run w match parseSubmittedDeposit attributes with
          | Ok d => set_subscriber (ERead d) [d] w
          | Err _ => w
          | Panic => set_stopped (wk_done w) true w
          end
| re_get w d :
    wk_subscriber w = ERead d → run w (set_subscriber (eventNext d (q_Get (d_ident d) (wk_db w))) [] w)
| re_insert w d :
    wk_subscriber w = EInsert d →
    run w (set_subscriber EWait [] (set_db (fst (q_InsertProcessedDeposit d (wk_db w))) w))
| re_update w i d :
    wk_subscriber w = EUpdate i d →
    run w match q_UpdateWithdrawalDetails i (d_WithdrawalTxHash d) (d_Signature d) (wk_db w) with
          | Ok s => set_subscriber EWait [] (set_db s w)
          | Err _ => set_subscriber EWait [] w
          | Panic => set_stopped (wk_done w) true w
          end.

(** *** The node around them *)

(** The writes of the API and of the sessions. *)
Inductive other_write : St → St → Prop :=
| ow_fetched i d b s : fetched World i d → other_write s (fst (q_Insert (set_Distributed b d) s))
| ow_invalid i s : other_write s (fst (q_Insert (invalid_deposit i) s))
| ow_session s s' : session_write s s' → other_write s s'.

(** A goroutine that panics ends the process, and the others with it. *)
Inductive workers_step : Workers → Workers → Prop :=
| ws_distributor w w' : wk_crashed w = false → runDistributor w w' → workers_step w w'
| ws_acceptor w w' : wk_crashed w = false → runAcceptor w w' → workers_step w w'
| ws_submitter w w' : wk_crashed w = false → runSubmitter w w' → workers_step w w'
| ws_subscriber w w' : wk_crashed w = false → run w w' → workers_step w w'
| ws_other w s : wk_crashed w = false → other_write (wk_db w) s → workers_step w (set_db s w)
| ws_receive w rq msg :
    wk_crashed w = false → distribution_Receive distributors rq = Ok msg →
    (length (wk_msgs w) < distributionCapacity)%nat →
    workers_step w (set_acceptor (wk_acceptor w) (wk_msgs w ++ [msg]) w)
| ws_cancel w : workers_step w (set_stopped true (wk_crashed w) w)
| ws_restart w :
    workers_step w (workers_start (wk_db w) (wk_sent w) (wk_accepted w) (wk_events w)).

(** [wg.Wait()] of the two [Run]s is over. *)
Definition returned (w : Workers) : Prop :=
  wk_distributor w = DReturned ∧ wk_acceptor w = AReturned ∧ wk_submitter w = SReturned ∧
  wk_subscriber w = EReturned.

End workers.
Arguments Workers _ : clear implicits.

(** ** How the steps change the rows *)

#[local] Notation Store := (gmap DepositIdentifier Deposit).

(** Rows stay and keep their data; a mark that is new is one of [sub] or [dist]. *)
Definition marked (sub dist : DepositIdentifier → Prop) (m m' : Store) : Prop :=
  (∀ i row, m !! i = Some row → ∃ row', m' !! i = Some row' ∧ same_data row' row ∧
     (d_Submitted row' = true → d_Submitted row = true ∨ sub i) ∧
     (d_Distributed row' = true → d_Distributed row = true ∨ dist i)) ∧
  (∀ i row', m !! i = None → m' !! i = Some row' → d_Submitted row' = true → sub i).

Section marks.
Context (sub dist : DepositIdentifier → Prop).

Lemma marked_refl m : marked sub dist m m.
Proof. split; [|naive_solver]. intros i row Hl. exists row. naive_solver. Qed.

Lemma marked_alter f i m :
  (∀ d, same_data (f d) d ∧ (d_Submitted (f d) = true → d_Submitted d = true ∨ sub i) ∧
        (d_Distributed (f d) = true → d_Distributed d = true ∨ dist i)) →
  marked sub dist m (alter f i m).
Proof.
  intros Hf. split.
  - intros j row Hl. destruct (decide (j = i)) as [->|Hij].
    + rewrite lookup_alter_eq, Hl. exists (f row). split; [done|apply Hf].
    + rewrite lookup_alter_ne by done. exists row. naive_solver.
  - intros j row' Hn. destruct (decide (j = i)) as [->|Hij];
      [by rewrite lookup_alter_eq, Hn|by rewrite lookup_alter_ne, Hn by done].
Qed.

Lemma marked_insert (row : Z → Deposit) id m m' r :
  spec_insert row id m m' r → (d_Submitted (row id) = true → sub (d_ident (row id))) → marked sub dist m m'.
Proof.
  unfold spec_insert. intros Hs Hsub.
  destruct (negb (row_fits (row id))); [destruct Hs as [-> _]; apply marked_refl|].
  destruct (m !! d_ident (row id)) eqn:Hl; destruct Hs as [-> _]; [apply marked_refl|]. split.
  - intros i r0 Hi. exists r0. rewrite lookup_insert_ne by congruence. naive_solver.
  - intros i row' Hn Hi. destruct (decide (i = d_ident (row id))) as [->|Hij].
    + rewrite lookup_insert_eq in Hi. by injection Hi as <-.
    + rewrite lookup_insert_ne in Hi by done. congruence.
Qed.

Lemma marked_update_hash i h f m m' :
  spec_update_hash i h f m = Ok m' →
  (∀ d, same_data (f d) d ∧ (d_Submitted (f d) = true → d_Submitted d = true ∨ sub i) ∧
        (d_Distributed (f d) = true → d_Distributed d = true ∨ dist i)) →
  marked sub dist m m'.
Proof.
  unfold spec_update_hash. intros Hv Hf. destruct (m !! i); [|injection Hv as <-; apply marked_refl].
  destruct (fits_opt 100 h); [|done]. injection Hv as <-. by apply marked_alter.
Qed.

End marks.

Section invariant.
Context {St : Type} `{Bech32, CoreEvents, !DepositsQ St, !DepositsSpec St}.
Variable World : BridgeCore → Repository → Prop.
Variable distributors : list Party.
Implicit Types (w : Workers St).

#[local] Notation step := (workers_step (St:=St) World distributors).

Definition submitted_by w (i : DepositIdentifier) : Prop :=
  ∃ d, (d ∈ wk_accepted w ∨ d ∈ wk_events w) ∧ d_ident d = i.
Definition distributed_by w (i : DepositIdentifier) : Prop := ∃ d, d ∈ wk_sent w ∧ d_ident d = i.

(** A row that the node held PROCESSED, and still holds. *)
Definition was_processed w (d : Deposit) : Prop :=
  d_WithdrawalStatus d = WS_PROCESSED ∧
  ∃ row, view (wk_db w) !! d_ident d = Some row ∧ same_data row d.

(** What the goroutines remember between their steps is justified by the history. *)
Record workers_wf w : Prop := {
  ww_inv : inv (wk_db w);
  ww_found d : wk_submitter w = SFound d → was_processed w d;
  ww_accepted d : d ∈ wk_accepted w → was_processed w d;
  ww_submitter d : wk_submitter w = SAccepted d → d ∈ wk_accepted w;
  ww_distributor d : wk_distributor w = DSent d → d ∈ wk_sent w;
  ww_read d : wk_subscriber w = ERead d ∨ wk_subscriber w = EInsert d → d ∈ wk_events w;
  ww_update i d : wk_subscriber w = EUpdate i d → d ∈ wk_events w ∧ d_ident d = i;
  ww_insert d : wk_acceptor w = AInsert d →
    (∃ i f, fetched World i f ∧ d = set_Distributed true f) ∨ ∃ i, d = invalid_deposit i }.

Lemma insert_marked sub dist (d : Deposit) (s : St) :
  inv s → inv (fst (q_Insert d s)) ∧ marked sub dist (view s) (view (fst (q_Insert d s))).
Proof.
  intros Hinv. destruct (q_Insert d s) as [s' r] eqn:Hi.
  destruct (Insert_spec _ _ _ _ Hinv Hi) as (Hinv' & id & Hs). split; [done|].
  by eapply marked_insert.
Qed.

Lemma session_write_marked sub dist (s s' : St) :
  inv s → session_write s s' → inv s' ∧ marked sub dist (view s) (view s').
Proof.
  intros Hinv Hw. destruct Hw as [i st s s' _ Hu|data s s' Hu].
  - split; [eapply update_inv; [done|]; naive_solver|].
    pose proof (UpdateStatus_spec s i st Hinv) as Hv. rewrite Hu in Hv. apply (inj Ok) in Hv.
    rewrite Hv. apply marked_alter. naive_solver.
  - split; [eapply update_inv; [done|]; naive_solver|].
    pose proof (UpdateProcessed_spec s data Hinv) as Hv. rewrite Hu in Hv. symmetry in Hv.
    eapply marked_update_hash; [exact Hv|].
    intros d. split; [by destruct data as [? [] [] []]|]. destruct data as [? [] [] []]; simpl; auto.
Qed.

(** Every step keeps the table and marks only what its history justifies. *)
Lemma step_marked w w' :
  workers_wf w → step w w' →
  inv (wk_db w') ∧ marked (submitted_by w) (distributed_by w) (view (wk_db w)) (view (wk_db w')).
Proof.
  intros [Hinv Hfound Hacc Hsub Hdist Hread Hupd Hins] Hs.
  assert (inv (wk_db w) ∧ marked (submitted_by w) (distributed_by w) (view (wk_db w)) (view (wk_db w))) as Hsame
    by (split; [done|apply marked_refl]).
  destruct Hs as [w w' _ Hs|w w' _ Hs|w w' _ Hs|w w' _ Hs|w s _ Hs|w rq msg _ _ _|w|w]; [..|done|done|done].
  - destruct Hs as [| | |w d Hd]; [done..|].
    destruct (q_UpdateDistributedStatus (d_ident d) true (wk_db w)) as [s| |] eqn:Hu; [|done..]. simpl.
    split; [eapply update_inv; [done|]; naive_solver|].
    pose proof (UpdateDistributedStatus_spec (wk_db w) (d_ident d) true Hinv) as Hv. rewrite Hu in Hv.
    apply (inj Ok) in Hv. rewrite Hv. apply marked_alter. intros d0. split_and!; [done|by left|].
    intros _. right. exists d. auto.
  - destruct Hs as [| | |w i core clients|w d]; [done..| |apply insert_marked; done].
    by destruct (fetchedNext _ _).
  - destruct Hs as [| |w d answer|w d Hd]; [done..|by destruct (submissionDone _)|].
    destruct (q_UpdateSubmittedStatus (d_ident d) true (wk_db w)) as [s| |] eqn:Hu; [|done..]. simpl.
    split; [eapply update_inv; [done|]; naive_solver|].
    pose proof (UpdateSubmittedStatus_spec (wk_db w) (d_ident d) true Hinv) as Hv. rewrite Hu in Hv.
    apply (inj Ok) in Hv. rewrite Hv. apply marked_alter. intros d0. split_and!; [done| |by left].
    intros _. right. exists d. auto.
  - destruct Hs as [| |w attributes| |w d Hd|w i d Hd]; [done..|by destruct (parseSubmittedDeposit _)|done| |].
    + simpl. destruct (q_InsertProcessedDeposit d (wk_db w)) as [s r] eqn:Hi. simpl.
      destruct (InsertProcessed_spec _ _ _ _ Hinv Hi) as (Hinv' & id & Hs). split; [done|].
      eapply marked_insert; [done|]. intros _. exists d. auto.
    + destruct (q_UpdateWithdrawalDetails i _ _ (wk_db w)) as [s| |] eqn:Hu; [|done..]. simpl.
      split; [eapply update_inv; [done|]; naive_solver|]. destruct (Hupd _ _ Hd) as [He Hi].
      pose proof (UpdateWithdrawalDetails_spec (wk_db w) i (d_WithdrawalTxHash d) (d_Signature d) Hinv) as Hv.
      rewrite Hu in Hv. symmetry in Hv. eapply marked_update_hash; [exact Hv|].
      intros d0. split_and!; [done| |by left]. intros _. right. exists d. auto.
  - simpl. destruct Hs as [i d b s _|i s|s s' Hs]; [by apply insert_marked..|by apply session_write_marked].
Qed.

(** The history only grows. *)
Lemma history_grows w w' :
  step w w' → wk_sent w ⊆ wk_sent w' ∧ wk_accepted w ⊆ wk_accepted w' ∧ wk_events w ⊆ wk_events w'.
Proof.
  intros Hs.
  destruct Hs as [w w' _ Hs|w w' _ Hs|w w' _ Hs|w w' _ Hs|w s _ Hs|w rq msg _ _ _|w|w]; [..|done|done|done|done].
  all: destruct Hs; repeat case_match; simpl; set_solver.
Qed.

Lemma was_processed_step w w' d :
  workers_wf w → step w w' → was_processed w d → was_processed w' d.
Proof.
  intros Hw Hs (Hst & row & Hl & Hd). split; [done|].
  destruct (step_marked _ _ Hw Hs) as (_ & [Hm _]). destruct (Hm _ _ Hl) as (row' & Hl' & Hsame & _).
  exists row'. split; [done|]. by etrans.
Qed.

(** What the selector of the submitter finds. *)
Lemma submitter_finds w d :
  inv (wk_db w) → q_GetWithSelector submitterSelector (wk_db w) = Some d → was_processed w d.
Proof.
  intros Hinv Hq. pose proof (GetWithSelector_spec (wk_db w) submitterSelector Hinv eq_refl) as Hsel.
  rewrite Hq in Hsel. destruct Hsel as (Hl & Hm & _). split; [|by exists d].
  unfold sel_matches in Hm. simpl in Hm. repeat apply andb_prop in Hm as [Hm ?].
  by repeat match goal with Hb : bool_decide _ = true |- _ => apply bool_decide_eq_true in Hb end.
Qed.

(** The fields of [workers_wf] that a step does not touch. *)
Ltac wf_kept :=
  split; [done|..]; simpl; try discriminate;
  try (intros d0 ?; match goal with Hk : ∀ d, _ → was_processed _ d |- _ => apply Hk end);
  try (intros ? [?|?]; discriminate);
  try match goal with H : _ |- _ => exact H end;
  eauto.

Lemma workers_wf_step w w' : workers_wf w → step w w' → workers_wf w'.
Proof.
  intros Hw Hs. pose proof (proj1 (step_marked _ _ Hw Hs)) as Hinv'.
  pose proof (λ d, was_processed_step _ _ d Hw Hs) as Hkeep.
  destruct Hw as [Hinv Hfound Hacc Hsub Hdist Hread Hupd Hins].
  destruct Hs as [w w' _ Hs|w w' _ Hs|w w' _ Hs|w w' _ Hs|w s _ Hs|w rq msg _ _ _|w|w].
  - destruct Hs as [| |w d|w d]; repeat case_match; wf_kept.
    intros d' [= ->]. by left.
  - destruct Hs as [| | |w i core clients Hi HW|w d Hd]; [repeat case_match; wf_kept..| |wf_kept].
    unfold fetchedNext in *. destruct (FetchDeposit clients i) as [f|e|] eqn:Hf; [|destruct (ChainErrors.IsPendingDepositError e); [|destruct (_ || _)]|]; wf_kept.
    + intros d [= <-]. left. exists i, f. split; [|done]. by exists core, clients.
    + intros d [= <-]. right. by exists i.
  - destruct Hs as [|w c Hc|w d answer Hd|w d Hd].
    + wf_kept.
    + destruct (q_GetWithSelector submitterSelector (wk_db w)) as [d|] eqn:Hq; wf_kept.
      simplify_eq. by apply submitter_finds.
    + destruct (submissionDone _); wf_kept.
      * set_solver.
      * intros d' [= ->]. by left.
    + destruct (q_UpdateSubmittedStatus _ _ _); wf_kept.
  - destruct Hs as [| |w attributes Hd|w d Hd|w d Hd|w i d Hd]; [wf_kept..| | | |].
    + destruct (parseSubmittedDeposit attributes) as [d| |]; wf_kept.
      intros d' [[= ->]|?]; [by left|done].
    + unfold eventNext. destruct (q_Get (d_ident d) (wk_db w)) as [e|] eqn:He.
      * rewrite Get_spec in He by done. apply view_ident in He; [|done].
        destruct (d_WithdrawalStatus e); wf_kept; intros ? ? [= <- <-]; auto.
      * wf_kept. intros d' [?|[= <-]]; [done|]. apply Hread. by left.
    + wf_kept.
    + destruct (q_UpdateWithdrawalDetails _ _ _ _); wf_kept.
  - wf_kept.
  - wf_kept.
  - wf_kept.
  - wf_kept.
Qed.

Lemma workers_reachable s w : inv s → star step (workers_start s [] [] []) w → workers_wf w.
Proof.
  intros Hinv Hs. eapply (star_invariant _ workers_wf workers_wf_step); [exact Hs|].
  split; simpl; try discriminate; [done|set_solver|]. by intros ? [?|?].
Qed.

(** A step makes at most one of the writes of the node. *)
Lemma step_writes w w' : workers_wf w → step w w' → star (node_write World) (wk_db w) (wk_db w').
Proof.
  intros Hw Hs.
  destruct Hs as [w w' _ Hs|w w' _ Hs|w w' _ Hs|w w' _ Hs|w s _ Hs|w rq msg _ _ _|w|w]; [..|constructor|constructor|constructor].
  - destruct Hs as [| | |w d Hd]; [constructor..|].
    destruct (q_UpdateDistributedStatus _ _ _) eqn:Hu; [by eapply write_one, nw_distributed|constructor..].
  - destruct Hs as [| | |w i core clients|w d Hd]; [constructor..| |].
    + destruct (fetchedNext _ _); constructor.
    + apply write_one. simpl. destruct (ww_insert w Hw d Hd) as [(i & f & Hf & ->)|(i & ->)];
        [by eapply nw_fetched|apply nw_invalid].
  - destruct Hs as [| |w d answer|w d Hd]; [constructor..|destruct (submissionDone _); constructor|].
    destruct (q_UpdateSubmittedStatus _ _ _) eqn:Hu; [by eapply write_one, nw_submitted|constructor..].
  - destruct Hs as [| |w attributes| |w d Hd|w i d Hd]; [constructor..|by destruct (parseSubmittedDeposit _); constructor|constructor|apply write_one, nw_event|].
    destruct (q_UpdateWithdrawalDetails _ _ _ _) eqn:Hu; [by eapply write_one, nw_details|constructor..].
  - apply write_one. destruct Hs; [by eapply nw_fetched|apply nw_invalid|by apply nw_session].
Qed.

Lemma steps_write w w' : workers_wf w → star step w w' → star (node_write World) (wk_db w) (wk_db w').
Proof.
  intros Hw Hs. induction Hs as [|a b c Hab _ IH]; [constructor|].
  eapply star_trans; [by apply step_writes|]. apply IH. by eapply workers_wf_step.
Qed.

(** The marks of a row, relative to an earlier state of the table. *)
Definition marks_since (m0 : Store) w : Prop :=
  marked (submitted_by w) (distributed_by w) m0 (view (wk_db w)).

Lemma submitted_by_step w w' i : step w w' → submitted_by w i → submitted_by w' i.
Proof. intros (_ & Ha & He)%history_grows (d & Hd & Hi). exists d. set_solver. Qed.
Lemma distributed_by_step w w' i : step w w' → distributed_by w i → distributed_by w' i.
Proof. intros (Hs & _)%history_grows (d & Hd & Hi). exists d. set_solver. Qed.

Lemma marks_since_step m0 w w' : workers_wf w → step w w' → marks_since m0 w → marks_since m0 w'.
Proof.
  intros Hw Hs [Hold Hnew]. destruct (step_marked _ _ Hw Hs) as (_ & Ho & Hn).
  pose proof (λ i, submitted_by_step w w' i Hs) as Hsub. pose proof (λ i, distributed_by_step w w' i Hs) as Hdist.
  split.
  - intros i row Hl. destruct (Hold i row Hl) as (row1 & Hl1 & Hd1 & Hs1 & Hx1).
    destruct (Ho i row1 Hl1) as (row2 & Hl2 & Hd2 & Hs2 & Hx2).
    exists row2. split; [done|]. split; [by etrans|]. naive_solver.
  - intros i row' Hl0 Hl' Hsm. destruct (view (wk_db w) !! i) as [row1|] eqn:Hl1.
    + destruct (Ho i row1 Hl1) as (row2 & Hl2 & _ & Hs2 & _). rewrite Hl' in Hl2. injection Hl2 as ->.
      destruct (Hs2 Hsm); [apply Hsub; by eapply Hnew|by apply Hsub].
    + apply Hsub. by eapply Hn.
Qed.

Lemma steps_marked w w' : workers_wf w → star step w w' → marks_since (view (wk_db w)) w'.
Proof.
  intros Hw Hs. assert (workers_wf w' ∧ marks_since (view (wk_db w)) w') as [_ Hm]; [|done].
  eapply (star_invariant step (λ w', workers_wf w' ∧ marks_since (view (wk_db w)) w')); [|exact Hs|].
  - intros a b [Ha Hma] Hab. split; [by eapply workers_wf_step|by eapply marks_since_step].
  - split; [done|apply marked_refl].
Qed.

End invariant.

(** ** Theorems *)

Section theorems.
Context {St : Type} `{Bech32, CoreEvents, !DepositsQ St, !DepositsSpec St}.
Variable World : BridgeCore → Repository → Prop.
Variable distributors : list Party.

(** C22: The goroutines beside the sessions, with reads that are stale when they write, with
    every interleaving and with the process killed and started again at any point.  Their
    writes are those of [node_write], so that what holds of these holds of the running
    service.  A row is marked as submitted only if it was so before, or the core accepted (or
    already had) the withdrawal of this row, read when it was PROCESSED, or announced it.
    A row keeps its data, and is marked as distributed only after it was broadcast. *)
Theorem marks_justified s w i row :
  inv s → star (workers_step World distributors) (workers_start s [] [] []) w →
  view (wk_db w) !! i = Some row →
  star (node_write World) s (wk_db w) ∧
  (d_Submitted row = true →
     (∃ row0, view s !! i = Some row0 ∧ d_Submitted row0 = true) ∨
     (∃ d, d ∈ wk_accepted w ∧ d_ident d = i ∧ d_WithdrawalStatus d = WS_PROCESSED ∧ same_data row d) ∨
     (∃ d, d ∈ wk_events w ∧ d_ident d = i)) ∧
  (∀ w', star (workers_step World distributors) w w' →
     ∃ row', view (wk_db w') !! i = Some row' ∧ same_data row' row ∧
       (d_Distributed row = false → d_Distributed row' = true → ∃ d, d ∈ wk_sent w' ∧ d_ident d = i)).
Proof.
  intros Hinv Hs Hl.
  assert (workers_wf World (workers_start s [] [] [])) as Hw0 by (eapply (workers_reachable World distributors); [done|constructor]).
  assert (workers_wf World w) as Hw by (by eapply (workers_reachable World distributors)).
  split; [by apply (steps_write _ _ _ _ Hw0 Hs)|]. split.
  - intros Hsub. destruct (steps_marked _ _ _ _ Hw0 Hs) as [Hold Hnew]. simpl in Hold, Hnew.
    assert (d_Submitted row = true →
      (∃ row0, view s !! i = Some row0 ∧ d_Submitted row0 = true) ∨ submitted_by w i) as Hj.
    { intros _. destruct (view s !! i) as [row0|] eqn:Hl0; [|right; by eapply Hnew].
      destruct (Hold i row0 Hl0) as (row1 & Hl1 & _ & Hs1 & _). rewrite Hl in Hl1. injection Hl1 as <-.
      destruct (Hs1 Hsub); [left; eauto|by right]. }
    destruct (Hj Hsub) as [?|(d & [Ha|He] & Hd)]; [by left| |right; right; eauto].
    right. left. exists d. destruct (ww_accepted _ _ Hw d Ha) as (Hst & row1 & Hl1 & Hsame).
    rewrite Hd, Hl in Hl1. injection Hl1 as <-. done.
  - intros w' Hs'. destruct (steps_marked _ _ _ _ Hw Hs') as [Hold _].
    destruct (Hold i row Hl) as (row' & Hl' & Hsame & _ & Hx). exists row'. split_and!; [done..|].
    intros Hf Ht. destruct (Hx Ht); [congruence|done].
Qed.

#[local] Notation step := (workers_step (St:=St) World distributors).

(** The calls that a goroutine has left once the context is done. *)
Definition distributor_left (a : DistributorAt) : nat :=
  match a with DReturned => 0 | DWait _ => 1 | DSent _ => 2 | DFound _ => 3 end.
Definition acceptor_left (a : AcceptorAt) : nat :=
  match a with AReturned => 0 | AWait => 1 | AInsert _ => 2 | AFetch _ => 3 | ARead _ => 4 end.
Definition submitter_left (a : SubmitterAt) : nat :=
  match a with SReturned => 0 | SWait _ => 1 | SAccepted _ => 2 | SFound _ => 3 end.
Definition subscriber_left (a : SubscriberAt) : nat :=
  match a with EReturned => 0 | EWait => 1 | EInsert _ | EUpdate _ _ => 2 | ERead _ => 3 end.
Definition workers_left (w : Workers St) : nat :=
  distributor_left (wk_distributor w) + acceptor_left (wk_acceptor w) +
  submitter_left (wk_submitter w) + subscriber_left (wk_subscriber w).

(** [w'] is nearer to the end than [w]. *)
Definition nearer (w w' : Workers St) : Prop :=
  wk_done w' = true ∧ (wk_crashed w' = true ∨ (workers_left w' < workers_left w)%nat).

Ltac nearer_by Hpc :=
  unfold nearer, workers_left; simpl; rewrite Hpc; simpl; split; [done|first [by left|right; lia]].

Lemma distributor_progress w :
  wk_done w = true → distributor_left (wk_distributor w) ≠ 0%nat → ∃ w', runDistributor w w' ∧ nearer w w'.
Proof.
  intros Hd Hl. destruct (wk_distributor w) as [c|d|d|] eqn:Hw; [..|done].
  - eexists. split; [by eapply rd_done|]. nearer_by Hw.
  - eexists. split; [by eapply rd_broadcast|]. nearer_by Hw.
  - eexists. split; [by eapply rd_update|]. destruct (q_UpdateDistributedStatus _ _ _); nearer_by Hw.
Qed.

Lemma acceptor_progress (core : BridgeCore) clients w :
  World core clients → wk_done w = true → acceptor_left (wk_acceptor w) ≠ 0%nat →
  ∃ w', runAcceptor World w w' ∧ nearer w w'.
Proof.
  intros HW Hd Hl. destruct (wk_acceptor w) as [|i|i|d|] eqn:Hw; [..|done].
  - eexists. split; [by eapply ra_done|]. nearer_by Hw.
  - eexists. split; [by eapply ra_get|]. destruct (q_Get i (wk_db w)); nearer_by Hw.
  - eexists. split; [by eapply ra_fetch|]. unfold fetchedNext.
    destruct (FetchDeposit clients i) as [f|e|]; [nearer_by Hw| |nearer_by Hw].
    destruct (ChainErrors.IsPendingDepositError e); [nearer_by Hw|]. destruct (_ || _); nearer_by Hw.
  - eexists. split; [by eapply ra_insert|]. nearer_by Hw.
Qed.

Lemma submitter_progress w :
  wk_done w = true → submitter_left (wk_submitter w) ≠ 0%nat → ∃ w', runSubmitter w w' ∧ nearer w w'.
Proof.
  intros Hd Hl. destruct (wk_submitter w) as [c|d|d|] eqn:Hw; [..|done].
  - eexists. split; [by eapply rs_done|]. nearer_by Hw.
  - eexists. split; [by apply (rs_submit w d (λ _, None))|]. nearer_by Hw.
  - eexists. split; [by eapply rs_update|]. destruct (q_UpdateSubmittedStatus _ _ _); nearer_by Hw.
Qed.

Lemma subscriber_progress w :
  wk_done w = true → subscriber_left (wk_subscriber w) ≠ 0%nat → ∃ w', run w w' ∧ nearer w w'.
Proof.
  intros Hd Hl. destruct (wk_subscriber w) as [|d|d|i d|] eqn:Hw; [..|done].
  - eexists. split; [by eapply re_done|]. nearer_by Hw.
  - eexists. split; [by eapply re_get|]. unfold eventNext.
    destruct (q_Get _ _) as [e|]; [destruct (d_WithdrawalStatus e)|]; nearer_by Hw.
  - eexists. split; [by eapply re_insert|]. nearer_by Hw.
  - eexists. split; [by eapply re_update|]. destruct (q_UpdateWithdrawalDetails _ _ _ _); nearer_by Hw.
Qed.

(** No goroutine is blocked: one of those that have not returned can go on. *)
Lemma workers_progress (core : BridgeCore) clients w :
  World core clients → wk_done w = true → wk_crashed w = false →
  returned w ∨ ∃ w', step w w' ∧ nearer w w'.
Proof.
  intros HW Hdone Hc.
  destruct (decide (distributor_left (wk_distributor w) = 0%nat)) as [Hd|Hd].
  2: { destruct (distributor_progress w Hdone Hd) as (w' & ? & ?). right. exists w'. split; [by apply ws_distributor|done]. }
  destruct (decide (acceptor_left (wk_acceptor w) = 0%nat)) as [Ha|Ha].
  2: { destruct (acceptor_progress core clients w HW Hdone Ha) as (w' & ? & ?). right. exists w'. split; [by apply ws_acceptor|done]. }
  destruct (decide (submitter_left (wk_submitter w) = 0%nat)) as [Hs|Hs].
  2: { destruct (submitter_progress w Hdone Hs) as (w' & ? & ?). right. exists w'. split; [by apply ws_submitter|done]. }
  destruct (decide (subscriber_left (wk_subscriber w) = 0%nat)) as [He|He].
  2: { destruct (subscriber_progress w Hdone He) as (w' & ? & ?). right. exists w'. split; [by apply ws_subscriber|done]. }
  left. split_and!; [by destruct (wk_distributor w)|by destruct (wk_acceptor w)|
    by destruct (wk_submitter w)|by destruct (wk_subscriber w)].
Qed.

(** Once the context of the service is done the goroutines can all return, whatever they were
    doing, or a chain client panics: nothing waits for an event that need not come. *)
Theorem workers_can_stop (core : BridgeCore) clients w :
  World core clients → wk_done w = true → wk_crashed w = false →
  ∃ w', star step w w' ∧ (wk_crashed w' = true ∨ returned w').
Proof.
  intros HW. remember (workers_left w) as n eqn:Hn. revert w Hn.
  induction (lt_wf n) as [n _ IH]. intros w -> Hd Hc.
  destruct (workers_progress core clients w HW Hd Hc) as [Hr|(w1 & Hs & Hd1 & Hlt)].
  { exists w. split; [constructor|by right]. }
  destruct (wk_crashed w1) eqn:Hc1.
  { exists w1. split; [by eapply star_step; [done|constructor]|by left]. }
  destruct Hlt as [|Hlt]; [congruence|]. destruct (IH _ Hlt w1 eq_refl Hd1 Hc1) as (w2 & Hs2 & Hend).
  exists w2. split; [by eapply star_step|done].
Qed.

(** When the stream of events ends, [run] returns and the service goes on without it: no
    event is handled before the process is started again. *)
Lemma closed_stream_unnoticed w :
  wk_crashed w = false → wk_subscriber w = EWait →
  step w (set_subscriber EReturned [] w) ∧
  ∀ w', run (set_subscriber EReturned [] w) w' → False.
Proof.
  intros Hc He. split; [apply ws_subscriber; [done|by apply re_closed]|].
  intros w' Hr. by inversion Hr.
Qed.

End theorems.

(** ** Witness *)

Module SampleWorkers.
Export SampleIntake.
#[export] Existing Instance sample_bech32.

(** The table of a node to which a deposit was submitted. *)
Definition table : Table := (SubmitWithdrawal the_clients (Some msg) empty_table).1.

Lemma submitted_table_inv : inv (St:=Table) table.
Proof.
  refine (node_writes_inv world _ _ empty_inv _).
  eapply (SubmitWithdrawal_writes world core the_clients (Some msg)); [done|apply surjective_pairing].
Qed.

Definition row : Deposit := default event_deposit (table_view table !! identifier).

(** The distributor finds the deposit, broadcasts it and marks it. *)
Definition w0 : Workers Table := workers_start table [] [] [].
Definition w1 : Workers Table := set_distributor (DFound row) [] w0.
Definition w2 : Workers Table := set_distributor (DSent row) [row] w1.
Definition w3 : Workers Table :=
  match q_UpdateDistributedStatus (d_ident row) true (wk_db w2) with
  | Ok s => set_distributor (DWait 0) [] (set_db s w2)
  | _ => set_distributor (DWait 5) [] w2
  end.

Lemma distributes : star (workers_step world []) w0 w3.
Proof.
  eapply (star_step _ _ w1); [apply ws_distributor; [done|exact (rd_select w0 0 eq_refl)]|].
  eapply (star_step _ _ w2); [apply ws_distributor; [done|exact (rd_broadcast w1 row eq_refl)]|].
  eapply (star_step _ _ w3); [apply ws_distributor; [done|exact (rd_update w2 row eq_refl)]|constructor].
Qed.
End SampleWorkers.

Section witness.
Import SampleWorkers.

Lemma marks_justified_witness :
  star (node_write world) table (wk_db w3) ∧ ∃ d, d ∈ wk_sent w3 ∧ d_ident d = identifier.
Proof.
  destruct (marks_justified (St:=Table) world [] table w0 identifier row) as (_ & _ & Hx);
    [exact submitted_table_inv|constructor|vm_compute; reflexivity|].
  destruct (Hx w3 distributes) as (row' & Hl & _ & Hsent).
  destruct (marks_justified (St:=Table) world [] table w3 identifier row') as (Hw & _ & _);
    [exact submitted_table_inv|exact distributes|exact Hl|].
  split; [exact Hw|]. apply Hsent; [vm_compute; reflexivity|].
  vm_compute in Hl. injection Hl as <-. reflexivity.
Defined.

End witness.
