(* ===== verification/OneShot.v ===== *)
(** * Sessions that run once, and the interface of the registry

    Models the constructors of the key generation ([session/keygen/session.go]), of the
    signing command ([session/signing/default.go]) and of the two resharings
    ([session/resharing/utxo], [resharing/zano]), the interface [p2p.TssSession] they
    implement and the registry of a command ([NewSessionManager]).  The theorems follow a
    message of a tss-lib party from the node that makes it to the tss-lib party it is for,
    and show that the nodes of a resharing agree on the leader, who alone sends the
    transaction. *)

From S2P Require Import Prelude Core Session Broadcast Consensus Signing Parties Utxo UtxoWithdrawal Sessions.
From S2P Require Import Finalizers Intake Node.
#[local] Open Scope Z_scope.

(** ** p2p.TssSession *)

(** [Receive] gives the changed session; [None] when the handler blocks on a full channel. *)
Class TssSession (S : Type) := {
  Id : S → string;
  Receive : S → option SubmitRequest → res (option S);
  (** a no-op in the sessions of this file, whose identifiers do not change *)
  RegisterIdChangeListener : S → S;
  session_info : S → option SigningSessionInfo }.

(** ** The sessions *)

Section sessions.
Context `{Bech32, TssSort}.

(** The fields of [keygen.Session] and of [signing.DefaultSession]; [os_queue] and
    [os_ended] are those of the party. *)
Record OneShot (R : Type) := {
  os_sessionId : string;
  os_params : Params;
  os_partiesCount : Z;
  os_party : LocalParty;
  os_queue : list partyMsg;
  os_ended : bool;
  os_result : option R;
  os_err : option error }.
#[local] Arguments os_sessionId {_} _.
#[local] Arguments os_params {_} _.
#[local] Arguments os_partiesCount {_} _.
#[local] Arguments os_party {_} _.
#[local] Arguments os_queue {_} _.
#[local] Arguments os_ended {_} _.
#[local] Arguments os_result {_} _.
#[local] Arguments os_err {_} _.

Definition oneshot_new {R} (sessionId : string) (params : Params) (parties : list Party) (party : LocalParty)
    : OneShot R :=
  {| os_sessionId := sessionId; os_params := params; os_partiesCount := Z.of_nat (length parties);
     os_party := party; os_queue := []; os_ended := false; os_result := None; os_err := None |}.

Definition keygen_NewSession {R} (self : Address) (parties : list Party) (params : Params) : res (OneShot R) :=
  let sessionId := GetKeygenSessionIdentifier (ps_Id params) in
  party ← NewKeygenParty self parties sessionId;
  Ok (oneshot_new sessionId params parties party).

(** The data to sign is given to the party, which is a parameter. *)
Definition NewDefaultSession {R} (self : Address) (params : Params) (parties : list Party) : res (OneShot R) :=
  let sessionId := GetDefaultSigningSessionIdentifier (ps_Id params) in
  party ← NewSignParty self sessionId parties;
  Ok (oneshot_new sessionId params parties party).

Definition set_queue {R} (q : list partyMsg) (s : OneShot R) : OneShot R :=
  {| os_sessionId := os_sessionId s; os_params := os_params s; os_partiesCount := os_partiesCount s;
     os_party := os_party s; os_queue := q; os_ended := os_ended s; os_result := os_result s;
     os_err := os_err s |}.

Definition oneshot_receive {R} (s : OneShot R) (request : option SubmitRequest) : res (option (OneShot R)) :=
  m ← oneshot_Receive (lp_type (os_party s)) (os_sessionId s) request;
  Ok (flip set_queue s <$> party_Receive (os_ended s) (fst m) (snd m) (os_queue s)).

(** [run], and [WaitFor] after it. *)
Definition oneshot_end {R} (msg : string) (e : EndEvent R) (ctxErr : option error) (s : OneShot R) : OneShot R :=
  let r := oneshot_run e ctxErr msg in
  {| os_sessionId := os_sessionId s; os_params := os_params s; os_partiesCount := os_partiesCount s;
     os_party := os_party s; os_queue := os_queue s; os_ended := true; os_result := fst r; os_err := snd r |}.
Definition oneshot_WaitFor {R} (s : OneShot R) : option R * option error := (os_result s, os_err s).

#[export] Instance OneShot_session R : TssSession (OneShot R) := {|
  Id := os_sessionId; Receive := oneshot_receive; RegisterIdChangeListener := λ s, s;
  session_info := λ _, None |}.

End sessions.
Arguments os_sessionId {_} _.
Arguments os_params {_} _.
Arguments os_partiesCount {_} _.
Arguments os_party {_} _.
Arguments os_queue {_} _.
Arguments os_ended {_} _.
Arguments os_result {_} _.
Arguments os_err {_} _.

(** *** Resharing *)

Section reshare.
Context `{Bech32, TssSort, RandSource, Crypto}.

Record ReshareSession (T S : Type) `{!Hashable T} := {
  rh_sessionId : string;
  rh_params : Params;
  rh_parties : list Party;
  rh_consensus : Consensus (T:=T);
  rh_finalizer : Finalizer T S }.

(** [NewSession] of both packages, with the zero value of the finalizer's signature. *)
Definition reshare_NewSession {T S} `{!Hashable T} (zero : S) (self : Account PrivKey) (threshold : Z)
    (params : Params) (parties : list Party) : res (ReshareSession T S) :=
  let sessionId := GetReshareSessionIdentifier (ps_Id params) in
  sortedPartyIds ← SortAllParties parties (CosmosAddress self);
  leader ← DetermineLeader sessionId sortedPartyIds;
  Ok {| rh_sessionId := sessionId; rh_params := params; rh_parties := parties;
        rh_consensus := New self sessionId threshold parties leader;
        rh_finalizer := NewFinalizer zero (bool_decide (CosmosAddress self = leader)) |}.

Definition utxo_reshare_NewSession `{!Hashable UtxoSigningData} :=
  reshare_NewSession (T:=UtxoSigningData) (@nil (option SignatureData)).
Definition zano_reshare_NewSession `{!Hashable ZanoSigningData} :=
  reshare_NewSession (T:=ZanoSigningData) (@None SignatureData).

Definition reshare_Id {T S} `{!Hashable T} (s : ReshareSession T S) : string := rh_sessionId _ _ s.

End reshare.
Arguments rh_sessionId {_ _ _ _} _.
Arguments rh_params {_ _ _ _} _.
Arguments rh_parties {_ _ _ _} _.
Arguments rh_consensus {_ _ _ _} _.
Arguments rh_finalizer {_ _ _ _} _.

(** ** NewSessionManager *)

Section manager.
Context {S : Type} `{!TssSession S}.

(** The registry of a command; its sessions are numbered in the order of the arguments. *)
Fixpoint addAll (n : nat) (sessions : list S) (m : gmap string nat) : gmap string nat :=
  match sessions with
  | [] => m
  | s :: rest => addAll (n + 1) rest (mgr_Add n (Id s) m)
  end.
Definition NewSessionManager (sessions : list S) : gmap string nat := addAll 0 sessions ∅.

(** [Receive] of the manager on the sessions themselves. *)
Definition manager_Receive (sessions : list S) (request : SubmitRequest) : res (option (list S)) :=
  match NewSessionManager sessions !! rq_SessionId request with
  | None => Err (ESentinel ErrSessionNotFound)
  | Some n =>
      match sessions !! n with
      | None => Panic
      | Some s =>
          r ← (Receive s (Some request) : res (option S));
          Ok (match r with Some s' => Some (<[n := s']> sessions) | None => None end)
      end
  end.

(** The registry of a command with one session. *)
Lemma manager_single (s : S) rq :
  rq_SessionId rq = Id s →
  manager_Receive [s] rq =
    (r ← (Receive s (Some rq) : res (option S)); Ok (match r with Some s' => Some [s'] | None => None end)).
Proof.
  intros Hid. unfold manager_Receive, NewSessionManager, addAll, mgr_Add.
  by rewrite Hid, lookup_insert_eq.
Qed.

End manager.

(** ** Theorems *)

Section theorems.
Context `{Bech32, TssSort, TssLib, !TssSortSpec}.

(** The session of the key generation or of the signing command. *)
Definition oneshot_of {R} (keygen : bool) (params : Params) (self : Address) (parties : list Party)
    : res (OneShot R) :=
  if keygen then keygen_NewSession self parties params else NewDefaultSession self params parties.

(** A session's party, and the two ids it was made with. *)
Lemma oneshot_of_Ok {R} keygen params self parties (s : OneShot R) :
  oneshot_of keygen params self parties = Ok s →
  ∃ id ids, PartyIdentifier self = Ok id ∧ sortedWithSelf self parties = Ok ids ∧
    s = oneshot_new
      (if keygen then GetKeygenSessionIdentifier (ps_Id params) else GetDefaultSigningSessionIdentifier (ps_Id params))
      params parties
      {| lp_self := self;
         lp_sessionId := if keygen then GetKeygenSessionIdentifier (ps_Id params)
                         else GetDefaultSigningSessionIdentifier (ps_Id params);
         lp_type := if keygen then RT_KEYGEN else RT_SIGN;
         lp_parties := partiesByAddress parties; lp_sortedPartyIds := ids |}.
Proof.
  unfold oneshot_of, keygen_NewSession, NewDefaultSession, NewKeygenParty, NewSignParty. intros Hs.
  destruct (sortedWithSelf self parties) as [ids| |] eqn:Hids; [|by destruct keygen..].
  pose proof Hids as Hself. unfold sortedWithSelf in Hself. apply bind_Ok in Hself as (id & Hid & _).
  exists id, ids. split_and!; [done..|]. destruct keygen; by apply (inj Ok) in Hs.
Qed.

(** The ids of a group are found by their keys. *)
Lemma FindByKey_self ids id :
  NoDup (pid_key <$> ids) → id ∈ ids → FindByKey ids (pid_key id) = Some id.
Proof.
  unfold FindByKey. induction ids as [|i ids IH]; intros Hnd Hin; [by apply not_elem_of_nil in Hin|].
  simpl in *. apply NoDup_cons in Hnd as [Hni Hnd]. apply elem_of_cons in Hin as [->|Hin].
  - by rewrite Z.eqb_refl.
  - destruct (Z.eqb_spec (pid_key i) (pid_key id)) as [Heq|_]; [|by apply IH].
    exfalso. apply Hni. rewrite Heq. by apply list_elem_of_fmap_2.
Qed.

Lemma party_id_sorted self parties ids a id :
  parties_wf parties → sortedWithSelf self parties = Ok ids → a ∈ CoreAddress <$> parties →
  PartyIdentifier a = Ok id → id ∈ ids.
Proof.
  intros Hwf Hs Ha Hid. unfold sortedWithSelf in Hs. apply bind_Ok in Hs as (selfId & _ & Hs).
  apply (inj Ok) in Hs as <-. rewrite SortPartyIDs_perm. apply elem_of_cons. right.
  apply list_elem_of_fmap in Ha as (p & -> & Hp). unfold parties_wf in Hwf. rewrite Forall_forall in Hwf.
  specialize (Hwf p Hp). rewrite Hid in Hwf. apply (inj Ok) in Hwf as ->. by apply list_elem_of_fmap_2.
Qed.

(** A message for [b] or for all goes to [b]. *)
Lemma route_reaches (p : LocalParty) net msg raw b :
  is_Some (lp_parties p !! b) → (∀ a pt, lp_parties p !! a = Some pt → CoreAddress pt = a) →
  tm_WireBytes msg = Some raw →
  (tm_To msg = None ∨ ∃ id, PartyIdentifier b = Ok id ∧ tm_To msg = Some [id]) → (∀ rq, net rq b = true) →
  ∃ dsts, b ∈ dsts ∧
    routeOut p net msg =
      Ok (Some ({| rq_Sender := lp_self p; rq_SessionId := lp_sessionId p; rq_Type := lp_type p;
                   rq_Data := Some (AnyTssData raw (tm_IsBroadcast msg)) |}, dsts)).
Proof.
  intros [pt Hpt] Haddr Hraw Hto Hnet. unfold routeOut. rewrite Hraw.
  destruct Hto as [->|(id & Hid & ->)].
  - eexists. split; [|done]. apply elem_of_filter. rewrite Hnet. split; [done|]. by apply elem_of_dom_2 in Hpt.
  - rewrite (PartyIdentifier_moniker _ _ Hid). unfold Send. rewrite Hpt, (Haddr _ _ Hpt), Hnet.
    eexists. split; [|done]. by apply elem_of_singleton.
Qed.

(** C25: A message of a tss-lib party reaches the party it is for.  Two nodes run a key
    generation or a signing command with the same identifier and know each other.  When the
    tss-lib party of one makes a message for all or for the other, the request goes to the
    other, whose registry finds the session and whose party queues the message (if its
    channel has room) and hands it to tss-lib with the bytes, the broadcast flag and the
    sender's party id unchanged. *)
Theorem oneshot_message_delivered {R} keygen params a b pa pb (sa sb : OneShot R) q net msg raw :
  oneshot_of keygen params a pa = Ok sa → oneshot_of keygen params b pb = Ok sb →
  parties_wf pb → NoDup (pid_key <$> lp_sortedPartyIds (os_party sb)) →
  a ∈ CoreAddress <$> pb → b ∈ CoreAddress <$> pa →
  tm_WireBytes msg = Some raw →
  (tm_To msg = None ∨ ∃ id, PartyIdentifier b = Ok id ∧ tm_To msg = Some [id]) →
  (∀ rq, net rq b = true) → (length q < MsgsCapacity)%nat →
  ∃ rq dsts id, routeOut (os_party sa) net msg = Ok (Some (rq, dsts)) ∧ b ∈ dsts ∧
    PartyIdentifier a = Ok id ∧
    let m := {| pm_Sender := a; pm_WireMsg := raw; pm_IsBroadcast := tm_IsBroadcast msg |} in
    manager_Receive [set_queue q sb] rq = Ok (Some [set_queue (q ++ [m]) sb]) ∧
    ∀ st, receiveMsg (os_party sb) m st = Ok (UpdateFromBytes st raw (Some id) (tm_IsBroadcast msg)).
Proof.
  intros Hsa Hsb Hwf Hnd Ha Hb Hraw Hto Hnet Hq.
  apply oneshot_of_Ok in Hsa as (ida & idsa & Hida & Hidsa & ->).
  apply oneshot_of_Ok in Hsb as (idb & idsb & Hidb & Hidsb & ->). simpl in *.
  match goal with |- context [routeOut ?p net msg] =>
    destruct (route_reaches p net msg raw b (proj2 (partiesByAddress_is_Some pa b) Hb)
      (partiesByAddress_lookup pa) Hraw Hto Hnet) as (dsts & Hdst & Hroute) end.
  eexists _, dsts, ida. split; [exact Hroute|]. split_and!; [done..| |].
  - pose proof (PartyIdentifier_key _ _ Hida) as Hkey.
    assert (Addr.FromString a = Ok a) as Hfrom.
    { apply Addr.FromString_Ok. split; [done|]. unfold Addr.PartyKey, Addr.Bytes in Hkey.
      destruct (bech32_decode a); [by eexists|done]. }
    rewrite manager_single by done. simpl. unfold oneshot_receive, oneshot_Receive. simpl. rewrite !bool_decide_true by done. simpl.
    rewrite Hfrom. simpl. unfold party_Receive. rewrite (proj2 (Nat.ltb_lt _ _) Hq). done.
  - intros st. unfold receiveMsg. simpl.
    destruct (proj2 (partiesByAddress_is_Some pb a) Ha) as [pta ->].
    rewrite (PartyIdentifier_key _ _ Hida). simpl.
    by rewrite (FindByKey_self idsb ida Hnd (party_id_sorted _ _ _ _ _ Hwf Hidsb Ha Hida)).
Qed.

End theorems.

Section reshare_theorems.
Context `{Bech32, TssSort, RandSource, Crypto, !TssSortSpec} {T S : Type} `{!Hashable T}.

(** The nodes of a resharing agree: with the same parameters and the same group every node
    has the same session identifier and the same proposer, and the finalizer of exactly one
    of them, the proposer's, sends the transaction. *)
Theorem reshare_one_sender (zero : S) threshold params (n1 n2 : Account PrivKey * list Party)
    (s1 s2 : ReshareSession T S) ids :
  parties_wf n1.2 → parties_wf n2.2 →
  SortAllParties n1.2 (CosmosAddress n1.1) = Ok ids → NoDup (pid_key <$> ids) →
  (CoreAddress <$> n1.2) ++ [CosmosAddress n1.1] ≡ₚ (CoreAddress <$> n2.2) ++ [CosmosAddress n2.1] →
  reshare_NewSession zero n1.1 threshold params n1.2 = Ok s1 →
  reshare_NewSession zero n2.1 threshold params n2.2 = Ok s2 →
  rh_sessionId s1 = rh_sessionId s2 ∧ co_proposer (rh_consensus s1) = co_proposer (rh_consensus s2) ∧
  co_proposer (rh_consensus s1) ∈ (CoreAddress <$> n1.2) ++ [CosmosAddress n1.1] ∧
  (fz_sessionLeader (rh_finalizer s1) = true ↔ CosmosAddress n1.1 = co_proposer (rh_consensus s1)) ∧
  (fz_sessionLeader (rh_finalizer s1) = true → fz_sessionLeader (rh_finalizer s2) = true →
     CosmosAddress n1.1 = CosmosAddress n2.1).
Proof.
  intros Hwf1 Hwf2 Hids Hnd Hperm Hs1 Hs2. unfold reshare_NewSession in Hs1, Hs2.
  rewrite Hids in Hs1. simpl in Hs1.
  destruct (SortAllParties n2.2 (CosmosAddress n2.1)) as [ids2| |] eqn:Hids2; simpl in Hs2; [|done..].
  destruct (leader_agreement _ _ _ _ _ _ (GetReshareSessionIdentifier (ps_Id params)) Hwf1 Hwf2 Hids Hids2 Hperm Hnd)
    as (<- & leader & Hin & Hl & _).
  rewrite Hl in Hs1, Hs2. apply (inj Ok) in Hs1 as <-. apply (inj Ok) in Hs2 as <-. simpl.
  rewrite !bool_decide_eq_true. naive_solver.
Qed.

End reshare_theorems.

(** ** Witnesses *)

Module SampleOneShot.
#[export] Existing Instances sample_bech32 sample_SortPartyIDs sample_SortPartyIDs_spec.

(** A party that records what it was given. *)
#[export] Instance recording : TssLib := {|
  TssParty := list (bytes * option PartyID * bool);
  UpdateFromBytes := λ p raw from b, (raw, from, b) :: p |}.

Definition peer (s : string) : Party :=
  {| CoreAddress := s; identifier := {| pid_id := s; pid_moniker := s; pid_key := be_Z (bytes_of_string s) |} |}.
Definition params : Params := {| ps_Id := 3; ps_StartTime := 0; ps_Threshold := 1 |}.
Definition session_of (self : string) (others : list string) : OneShot unit :=
  match oneshot_of (R:=unit) true params self (peer <$> others) with
  | Ok s => s
  | _ => oneshot_new "" params [] {| lp_self := ""; lp_sessionId := ""; lp_type := RT_OTHER; lp_parties := ∅; lp_sortedPartyIds := [] |}
  end.
Definition message : TssMessage := {| tm_WireBytes := Some [Byte.x01]; tm_To := None; tm_IsBroadcast := true |}.
End SampleOneShot.

Section witness.
Import SampleOneShot.

Lemma oneshot_message_delivered_witness :
  ∃ rq, manager_Receive [session_of "b" ["a"; "c"]] rq
        = Ok (Some [set_queue [{| pm_Sender := "a"; pm_WireMsg := [Byte.x01]; pm_IsBroadcast := true |}]
                      (session_of "b" ["a"; "c"])]).
Proof.
  destruct (oneshot_message_delivered (R:=unit) true params "a" "b" (peer <$> ["b"; "c"]) (peer <$> ["a"; "c"])
    (session_of "a" ["b"; "c"]) (session_of "b" ["a"; "c"]) [] (λ _ _, true) message [Byte.x01])
    as (rq & dsts & id & _ & _ & _ & Hr & _).
  - vm_compute. reflexivity.
  - vm_compute. reflexivity.
  - repeat constructor.
  - apply (bool_decide_unpack _). vm_compute. exact I.
  - by left.
  - by left.
  - reflexivity.
  - by left.
  - reflexivity.
  - unfold MsgsCapacity. simpl. lia.
  - exists rq. exact Hr.
Defined.

End witness.
